(* ===== verification/_CoqProject ===== *)
-Q . S2P
Prelude.v
GoStrings.v
K8s.v
Api.v
Externals.v
Utils.v
YamlDir.v
Json.v
WireFormat.v
ApiVersions.v
SchemaDefaults.v
VersionDefaults.v
GoHeap.v
GeneratedCopy.v
DeepCopy.v
DeepCopyVersions.v
Pod.v
Deployable.v
MetaInfo.v
BackstageDeployment.v
PluginConfig.v
DynamicPluginsReference.v
DynamicPlugins.v
ExternalConfig.v
ConfigObjects.v
AppConfigArgs.v
PodGrowth.v
Db.v
ServiceRoute.v
DefaultConfig.v
PluginDeps.v
Runtime.v
RuntimeSpec.v
InitTheorems.v
Password.v
Client.v
Status.v
Preprocess.v
Examples.v
PreprocessTheorems.v
Manager.v
Convergence.v
Reconcile.v
ReconcileTheorems.v
Store.v
MapOrders.v
Steady.v
MockClient.v
IntegrationTests.v
Slices.v
Main.v
