(* ===== verification/Prelude.v ===== *)
(** * A verification of the Red Hat Developer Hub operator

    The operator watches custom resources of kind Backstage and makes the
    cluster match them: for each it reads the ConfigMaps and Secrets the
    resource refers to, builds the Kubernetes objects of a Backstage instance
    from a default configuration, the raw configuration and the resource, and
    applies them.  This library models the Go code of the operator and proves
    what its parts promise.

    ** The files, from the bottom up

    - Prelude: Go errors, the [outcome] of a call (a value, an error or a
      panic), record update, Go maps and the order in which a run visits one.
    - GoStrings, K8s, Api, Externals: the functions of Go's strings, path and
      strconv packages the operator calls; the Kubernetes API types, as far as
      it reads or writes them; the custom resource (api/v1alpha5); and a class
      for each library whose code is not in the repository (file system and
      environment, scheme and decoders, kustomize merge, YAML, owner
      references), with the documented laws the operator relies on.
    - Utils (pkg/utils): labels and names, [SortedKeys], the YAML readers;
      YamlDir: reading a directory tree of YAML files.
    - Json: what Go's encoding/json and the decoder of the Kubernetes client make
      of structs with json tags, and [Reads], the relation between a type that is
      written and one that is read, closed under slices, pointers and structs.
      WireFormat (api/v1alpha5): the tags of the spec and its round trip;
      ApiVersions (api/v1alpha1 to api/v1alpha4): the older structs and their
      tags; SchemaDefaults: the defaults of the kubebuilder markers, which the
      API server fills in; VersionDefaults: those of the older versions, and
      what the operator reads of a spec that was written in one of them.
    - GoHeap: memory with pointers, slices and maps, and what a deep copy is in
      it; GeneratedCopy: what generated copies have in common and how each is
      proved to be one; DeepCopy and DeepCopyVersions (zz_generated.deepcopy.go
      of v1alpha5 and of the older versions): the generated copies.
    - Pod (pkg/model/deployment.go, containers-filter.go): selecting containers,
      mounting files, adding variables; a container is addressed by its place,
      as the code's pointers into the pod are.
    - Deployable (deployable.go, deployment_obj.go, statefulset_obj.go): the two
      kinds of workload behind one record of operations, and conversion.
    - MetaInfo (runtime.go, multiobject): owner references, labels and names.
    - BackstageDeployment (deployment.go): the backend workload.
    - PluginConfig, DynamicPluginsReference, DynamicPlugins, PluginDeps
      (appconfig.go, dynamic-plugins-reference.go, dynamic-plugins.go,
      plugin_deps.go): the dynamic plugins, their references, configurations
      and dependencies.
    - ExternalConfig, ConfigObjects (externalconfig.go, appconfig.go,
      configmapenvs.go, configmapfiles.go, secretenvs.go, secretfiles.go,
      pvcs.go): what was read, and the components that configure the pod;
      AppConfigArgs: the order of the --config arguments; PodGrowth: the
      components only ever add to the pod.
    - Db (db-secret.go, db-service.go, db-statefulset.go): the local database.
    - ServiceRoute (service.go, route.go): Service, Route and base URLs.
    - DefaultConfig (default-config.go, flavour.go): flavours and the merged
      default configuration.
    - Runtime (runtime.go, interfaces.go, platform.go): the registry of the
      thirteen components and [InitObjects], with its two loops over objects
      that reach each other through the model.  RuntimeSpec is its abstract
      specification, a straight-line composition of the components, and
      InitTheorems proves the refinement and what the objects of one model have
      to do with each other; Password: models built with other random bytes.
    - Client: the API server as a class that answers a request from the history
      of requests before it, and computations that issue requests.  Examples
      holds a server with fixed contents, to evaluate the reconciler on.
    - Status (backstage_status.go): the Deployed condition.
    - Preprocess (spec_preprocessor.go) and PreprocessTheorems: reading, marking
      and hashing what the custom resource refers to; Convergence: what a second
      run of it finds.
    - Manager (platform_detector.go, watchers.go, cmd/main.go): the detected
      platform, the predicates of the watches, the selectors of the cache.
    - Reconcile (backstage_controller.go, monitor.go, plugin-deps.go,
      deployable_finder.go, watchers.go) and ReconcileTheorems: one
      reconciliation, from reading the custom resource to the deferred update
      of its status, and the mapping of changes to custom resources.
    - Store: the interface of a server that keeps what was written, as a class;
      MapOrders: the same run with maps visited in another order; Steady: two
      reconciliations against such a server; MockClient (mock_client.go): the
      repository's in-memory client, an instance of it.
    - IntegrationTests (integration_tests/matchers.go, utils.go): the matchers
      and helpers of the integration tests, and what they accept.
    - Slices and Main (cmd/main.go, SetupWithManager, addWatchers): the start of
      the process up to the manager, with Go slices that share their arrays.

    ** How state and effects are modelled

    Pure code is a function into [outcome]; an early return is [Err], a nil
    dereference, a failed type assertion or an index out of range is [Panic].
    Loops with early returns are [foldM].  The order in which Go visits a map is
    a parameter: one arbitrary order for each map and run ([MapOrder]); two
    loops over the same map in one run get the same order, and statements about
    any order compare runs with different parameters.  Code that mutates an object through
    a pointer takes and returns the object; where several components share one
    (the workload, the database objects, the app-config), the model object
    names it by its place and every component updates that place.  The
    reconciler is a function from the history of requests to a result and the
    longer history; [Reconcile] also threads the custom resource, whose status
    the deferred call writes on every path, errors and panics included.  [main]
    is a function from the calls of the manager library so far to the way the
    process goes on or ends; the slices of TLS options it builds are views of
    arrays in a memory, since [append] may write where another view reads.

    ** What is proved

    - Reconciler: its phases come in order, each only after the ones before it
      have succeeded; exactly one status update ends every run and says deployed
      only of a workload the server reports ready, read in the kind the server
      gave it when it was applied; the objects applied are those of the model, in
      order; the database Secret is created once and never overwritten; and on a
      server that keeps what is written, a reconciliation of an unchanged
      resource succeeds again and changes no object.  The two runs of the last
      statement draw different passwords.
    - Order of maps: what is read and hashed does not depend on the order in
      which Go visits maps, and neither does the model as long as at most one
      flavour is enabled and no lists of plugins are merged; in that case the two
      runs above may differ in it as well.  [GetEnabledFlavours_order_varies] and
      [mergeConfigs_order_varies] show that in the other cases the flavours can
      be merged, and the ConfigMap of the dynamic plugins be written, in another
      order.
    - Preprocessing: which requests it issues, with every update writing back
      what the read just before it returned, how many there can be, and what it
      returns for a server whose answers have settled; after one successful
      run the next only reads and returns the same.
    - Start: the calls of the manager library come in order, with the options the
      flags ask for, and the watches and the cache it registers are those the
      rest relies on; the TLS options of the two servers do not disturb each
      other, given how Go's runtime sizes arrays ([main_shared_array] shows that
      this is needed).
    - Model: [InitObjects] refines the composition; its objects are owned by
      the custom resource (the dependencies of plugins, which are applied next
      to them, may have a namespace of their own and do not get the labels),
      and Service, workload, Secret and database fit together; the generated password is in the database Secret only.
    - Custom resource: writing and reading a spec gives it back; a spec of an older
      version is read, after the server has put the defaults in place, as its
      upgrade with these defaults, and its methods answer the same; which fields
      of v1alpha4 the operator does not read; the defaults of the schema are
      those the methods fall back to, and the flavours are the exception;
      deep copies of any version share no memory with the original.
    - Components: the functional behaviour of each on all branches, the errors
      it returns and the panics it can reach, invariants of the pod (unique
      mount paths, nothing removed), termination of the recursive merge, and
      which results depend on the random order of Go maps and which do not.

    ** Fuel and bounds

    [mergePluginConfigs] recurses through decoded YAML with fuel; fuel beyond the
    depth of the configuration is enough for a result ([mergePluginConfigs_total]),
    and its callers pass the depth and one more.  [RetryOnConflict]
    recurses on the number of retries of client-go's policy, a parameter.  The walk
    of a directory tree has fuel for the nesting of its directories
    ([ReadYamlFilesFromDir_result]).  All other recursion is structural.  The
    operator computes with no integers that could overflow: replicas and ports
    are compared and copied; a number on the wire that is no int32 is an error
    where one is read ([int32]).

    ** Not modelled

    The libraries the operator calls (parameters of the model, see Externals,
    Client, Main, SchemaDefaults, GeneratedCopy and IntegrationTests); the text of
    log lines; the parsing of the command line; metadata and conditions on the
    wire, which are apimachinery's; registering types with a scheme and the
    aliases of the current version (api/current-types.go), which compute nothing;
    executeRemoteCommand of the integration tests and the helpers of the
    end-to-end tests, which run commands. *)

From stdpp Require Export base tactics option list gmap fin_maps strings sorting.
From stdpp Require Import options.

#[export] Set Default Proof Using "Type".

Declare Scope rhdh_scope.
Delimit Scope rhdh_scope with rhdh.

(** ** Go errors

    A Go [error] is either a fresh one ([errors.New], [fmt.Errorf] without the
    verb w), one that wraps a cause ([fmt.Errorf("...: %w", err)]), the
    [*fs.PathError] of a file operation, or the [*StatusError] of the
    Kubernetes API server. *)

Inductive Errno :=
  | ENOENT
  | EACCES
  | EOther (text : string).

Inductive StatusReason :=
  | ReasonNotFound
  | ReasonAlreadyExists
  | ReasonConflict
  | ReasonForbidden
  | ReasonNoMatch
  | ReasonOther (text : string).

Inductive error :=
  | Errorf (msg : string)
  | Wrapf (msg : string) (cause : error)
  | PathError (op path : string) (errno : Errno)
  | StatusError (reason : StatusReason) (msg : string).

#[global] Instance Errno_eq_dec : EqDecision Errno.
Proof. solve_decision. Defined.
#[global] Instance StatusReason_eq_dec : EqDecision StatusReason.
Proof. solve_decision. Defined.
#[global] Instance error_eq_dec : EqDecision error.
Proof. solve_decision. Defined.

Definition Errno_string (n : Errno) : string :=
  match n with
  | ENOENT => "no such file or directory"
  | EACCES => "permission denied"
  | EOther t => t
  end.

(** The text of an error, as [err.Error()] gives it. *)
Fixpoint Error (e : error) : string :=
  match e with
  | Errorf m => m
  | Wrapf m c => m +:+ ": " +:+ Error c
  | PathError op p n => op +:+ " " +:+ p +:+ ": " +:+ Errno_string n
  | StatusError _ m => m
  end.

(** [errors.Is(err, os.ErrNotExist)] follows the chain of causes. *)
Fixpoint errors_Is_NotExist (e : error) : bool :=
  match e with
  | PathError _ _ ENOENT => true
  | Wrapf _ c => errors_Is_NotExist c
  | _ => false
  end.

(** [os.IsNotExist] predates wrapping and looks at the error itself only. *)
Definition os_IsNotExist (e : error) : bool :=
  match e with
  | PathError _ _ ENOENT => true
  | _ => false
  end.

(** [apierrors.IsNotFound] and its kin read the reason of the first
    [*StatusError] of the chain ([errors.As]). *)
Fixpoint ReasonForError (e : error) : option StatusReason :=
  match e with
  | StatusError r _ => Some r
  | Wrapf _ c => ReasonForError c
  | _ => None
  end.

Definition IsReason (r : StatusReason) (e : error) : bool :=
  bool_decide (ReasonForError e = Some r).

Abbreviation IsNotFound := (IsReason ReasonNotFound).
Abbreviation IsAlreadyExists := (IsReason ReasonAlreadyExists).
Abbreviation IsConflict := (IsReason ReasonConflict).
Abbreviation IsForbidden := (IsReason ReasonForbidden).

(** ** Outcomes of a Go call

    A call returns a value, returns an error, or panics. *)

Inductive outcome (A : Type) :=
  | Ok (a : A)
  | Err (e : error)
  | Panic (why : string).
Arguments Ok {A} _.
Arguments Err {A} _.
Arguments Panic {A} _.

#[global] Instance outcome_ret : MRet outcome := @Ok.
#[global] Instance outcome_bind : MBind outcome := λ A B f m,
  match m with
  | Ok a => f a
  | Err e => Err e
  | Panic w => Panic w
  end.
#[global] Instance outcome_fmap : FMap outcome := λ A B f m,
  match m with
  | Ok a => Ok (f a)
  | Err e => Err e
  | Panic w => Panic w
  end.

#[global] Instance outcome_eq_dec `{EqDecision A} : EqDecision (outcome A).
Proof. solve_decision. Defined.

(** [if err != nil { return fmt.Errorf("msg: %w", err) }] *)
Definition wrapErr {A} (msg : string) (m : outcome A) : outcome A :=
  match m with
  | Err e => Err (Wrapf msg e)
  | m => m
  end.

(** A dereference of a pointer that may be nil. *)
Definition deref {A} (what : string) (p : option A) : outcome A :=
  match p with
  | Some a => Ok a
  | None => Panic ("nil pointer dereference: " +:+ what)
  end.

Definition is_Ok {A} (m : outcome A) : bool :=
  match m with Ok _ => true | _ => false end.

Definition is_Panic {A} (m : outcome A) : bool :=
  match m with Panic _ => true | _ => false end.

(** A [for ... range] loop whose body may return early. *)
Fixpoint foldM {A B} (f : A → B → outcome A) (a : A) (l : list B) : outcome A :=
  match l with
  | [] => Ok a
  | b :: l => a' ← f a b; foldM f a' l
  end.

Lemma bind_Ok_inv {A B} (f : A → outcome B) m b :
  m ≫= f = Ok b ↔ ∃ a, m = Ok a ∧ f a = Ok b.
Proof. destruct m; simpl; split; [eauto|intros (?&[=->]&?); done|..]; intros H; by destruct_and?; try destruct H as (?&?&?). Qed.

Lemma fmap_Ok_inv {A B} (f : A → B) m b :
  f <$> m = Ok b ↔ ∃ a, m = Ok a ∧ f a = b.
Proof. destruct m; simpl; split; intros H; try destruct H as (?&?&?); simplify_eq/=; eauto. Qed.

Lemma wrapErr_Ok_inv {A} msg (m : outcome A) a : wrapErr msg m = Ok a ↔ m = Ok a.
Proof. by destruct m. Qed.

Lemma deref_Ok_inv {A} what (p : option A) a : deref what p = Ok a ↔ p = Some a.
Proof. destruct p; simpl; split; intros; simplify_eq/=; done. Qed.

Lemma is_Ok_spec {A} (m : outcome A) : is_Ok m ↔ ∃ a, m = Ok a.
Proof. destruct m; simpl; split; intros H; try destruct H as (?&?); simplify_eq/=; eauto; done. Qed.

Section foldM_lemmas.
Context {A B : Type}.

Lemma foldM_app (f : A → B → outcome A) a l1 l2 :
  foldM f a (l1 ++ l2) = (a' ← foldM f a l1; foldM f a' l2).
Proof. revert a. induction l1 as [|b l1 IH]; intros a; simpl; [done|]. destruct (f a b); simpl; auto. Qed.

(** A property the body preserves holds after the loop. *)
Lemma foldM_invariant (P : A → Prop) (f : A → B → outcome A) l a a' :
  (∀ x b x', b ∈ l → P x → f x b = Ok x' → P x') →
  P a → foldM f a l = Ok a' → P a'.
Proof.
  revert a. induction l as [|b l IH]; intros a Hf HP H; simpl in H.
  { by simplify_eq. }
  apply bind_Ok_inv in H as (x & Hx & H).
  eapply IH; [|eapply (Hf a b x); [left|..]; done|done].
  intros y c y' ?. apply Hf. by right.
Qed.

(** A loop whose body cannot fail does not fail. *)
Lemma foldM_total (f : A → B → outcome A) (g : A → B → A) l a :
  (∀ x b, f x b = Ok (g x b)) → foldM f a l = Ok (foldl g a l).
Proof. intros Hf. revert a. induction l as [|b l IH]; intros a; simpl; [done|]. rewrite Hf. apply IH. Qed.

Lemma foldl_ext (f g : A → B → A) a l :
  (∀ a b, f a b = g a b) → foldl f a l = foldl g a l.
Proof. intros H. revert a. induction l as [|b l IH]; intros a; simpl; [done|]. by rewrite H. Qed.

Lemma foldl_invariant (P : A → Prop) (f : A → B → A) l a :
  (∀ x b, b ∈ l → P x → P (f x b)) → P a → P (foldl f a l).
Proof.
  revert a. induction l as [|b l IH]; intros a Hf Ha; [done|]. apply IH; [|apply Hf; [left|done]].
  intros x c Hc. apply Hf. by right.
Qed.

Lemma foldM_ext (f g : A → B → outcome A) a l :
  (∀ a b, f a b = g a b) → foldM f a l = foldM g a l.
Proof. intros H. revert a. induction l as [|b l IH]; intros a; simpl; [done|]. rewrite H. destruct (g a b); simpl; auto. Qed.

Lemma foldM_no_panic (f : A → B → outcome A) a l :
  (∀ a b, is_Panic (f a b) = false) → is_Panic (foldM f a l) = false.
Proof.
  intros Hf. revert a. induction l as [|b l IH]; intros a; simpl; [done|].
  pose proof (Hf a b). destruct (f a b); simpl; auto.
Qed.

(** Wrapping the error of every step wraps that of the loop. *)
Lemma foldM_wrapErr msg (f : A → B → outcome A) a l :
  foldM (λ a b, wrapErr msg (f a b)) a l = wrapErr msg (foldM f a l).
Proof. revert a. induction l as [|b l IH]; intros a; simpl; [done|]. destruct (f a b); simpl; auto. Qed.

(** A relation between the state before and after that every step respects. *)
Lemma foldM_relation (R : A → A → Prop) `{!PreOrder R} (f : A → B → outcome A) l a a' :
  (∀ x b x', b ∈ l → f x b = Ok x' → R x x') → foldM f a l = Ok a' → R a a'.
Proof.
  intros Hf. apply (foldM_invariant (R a)); [|done].
  intros x b x' Hb Hx Hs. etrans; [done|]. by eapply Hf.
Qed.

End foldM_lemmas.

(** [for _, b := range l { a, err := f(b); if err != nil { return err }; acc = append(acc, a) }] *)
Section collect.
Context {A B : Type} (f : B → outcome A).

Definition collect (acc : list A) (l : list B) : outcome (list A) :=
  foldM (λ acc b, a ← f b; Ok (acc ++ [a])) acc l.

Lemma collect_Ok acc l res :
  collect acc l = Ok res ↔ ∃ res', res = acc ++ res' ∧ Forall2 (λ b a, f b = Ok a) l res'.
Proof.
  revert acc. unfold collect. induction l as [|b l IH]; intros acc; simpl.
  - split.
    + intros [= <-]. exists []. by rewrite app_nil_r.
    + intros (res' & -> & ->%Forall2_nil_inv_l). by rewrite app_nil_r.
  - destruct (f b) as [o|e|w] eqn:Hb; simpl.
    + rewrite IH. split.
      * intros (res' & -> & Hall). exists (o :: res'). rewrite <- (assoc_L (++)). split; [done|]. by constructor.
      * intros (res' & -> & Hall). apply Forall2_cons_inv_l in Hall as (o' & l' & Ho & Hl & ->).
        exists l'. rewrite <- (assoc_L (++)). rewrite Hb in Ho. by injection Ho as <-.
    + split; [done|]. intros (res' & _ & Hall). apply Forall2_cons_inv_l in Hall as (? & ? & Hb' & _). congruence.
    + split; [done|]. intros (res' & _ & Hall). apply Forall2_cons_inv_l in Hall as (? & ? & Hb' & _). congruence.
Qed.

(** The first failure is the result. *)
Lemma collect_Err acc l e :
  collect acc l = Err e ↔
  ∃ l1 b l2, l = l1 ++ b :: l2 ∧ Forall (λ x, is_Ok (f x) = true) l1 ∧ f b = Err e.
Proof.
  revert acc. unfold collect. induction l as [|b l IH]; intros acc; simpl.
  { split; [done|]. intros (l1 & ? & ? & H & _). by destruct l1. }
  destruct (f b) as [a|e'|w] eqn:Hb; simpl.
  - rewrite IH. split.
    + intros (l1 & x & l2 & -> & Hl & Hx). exists (b :: l1), x, l2. split_and!; [done| |done].
      constructor; [by rewrite Hb|done].
    + intros ([|y l1] & x & l2 & [= -> ->] & Hl & Hx); [congruence|].
      exists l1, x, l2. by apply Forall_cons in Hl as [_ Hl].
  - split.
    + intros [= <-]. by exists [], b, l.
    + intros ([|y l1] & x & l2 & [= -> ->] & Hl & Hx); [congruence|].
      apply Forall_cons in Hl as [Hy _]. by rewrite Hb in Hy.
  - split; [done|]. intros ([|y l1] & x & l2 & [= -> ->] & Hl & Hx); [congruence|].
    apply Forall_cons in Hl as [Hy _]. by rewrite Hb in Hy.
Qed.

End collect.

(** Take apart the hypothesis that a computation returned a value. *)
Ltac inv_ok :=
  repeat match goal with
  | H : _ ≫= _ = Ok _ |- _ => apply bind_Ok_inv in H; let x := fresh "x" in let Hx := fresh "H" in destruct H as (x & Hx & H)
  | H : _ <$> _ = Ok _ |- _ => apply fmap_Ok_inv in H; let x := fresh "x" in let Hx := fresh "H" in destruct H as (x & Hx & H)
  | H : wrapErr _ _ = Ok _ |- _ => apply wrapErr_Ok_inv in H
  | H : deref _ _ = Ok _ |- _ => apply deref_Ok_inv in H
  | H : mret _ = Ok _ |- _ => unfold mret, outcome_ret in H
  | H : Err _ = Ok _ |- _ => discriminate H
  | H : Panic _ = Ok _ |- _ => discriminate H
  | H : Ok _ = Ok _ |- _ => apply (inj Ok) in H
  end; simplify_eq/=.

#[global] Instance Ok_inj {A} : Inj (=) (=) (@Ok A).
Proof. by intros ?? [=]. Qed.

(** ** Record update

    [r <| f := v |>] is the record [r] with the field [f] set to [v], and
    [r <| f ::= g |>] applies [g] to it; an [Eta] instance lists the fields
    of a record. *)

Class Eta (R : Type) := eta_expand : R → R.
Class Setter {R T : Type} (p : R → T) := set_field : (T → T) → R → R.
Arguments set_field {_ _} _ {_} _ _ /.

Ltac build_setter :=
  lazymatch goal with
  | |- @Setter ?R ?T ?p =>
      let inst := constr:(_ : Eta R) in
      let e := eval hnf in inst in
      let body := constr:(λ r : R, e r) in
      exact (λ (g : T → T) (r : R),
        ltac:(let b := eval cbv beta in (body r) in
              let b := eval pattern (p r) in b in
              lazymatch b with
              | ?k _ => let t := eval cbv beta in (k (g (p r))) in exact t
              end))
  end.

#[export] Hint Extern 1 (Setter _) => build_setter : typeclass_instances.

Notation "r <| p ::= g |>" := (set_field p g r)
  (at level 1, left associativity, format "r  <| p  ::=  g |>").
Notation "r <| p := v |>" := (set_field p (λ _, v) r)
  (at level 1, left associativity, format "r  <| p  :=  v |>").

(** ** Go maps

    A Go map is nil or a finite map: reading a nil map gives the zero value,
    assigning to it panics. *)

Abbreviation gomap V := (option (gmap string V)).

Definition map_lookup {V} (m : gomap V) (k : string) : option V :=
  m ≫= λ m, m !! k.

#[global] Arguments map_lookup : simpl never.

(** [m[k]] for a map of strings. *)
Definition map_get (m : gomap string) (k : string) : string :=
  default "" (map_lookup m k).

(** [m[k] = v] *)
Definition map_set {V} (m : gomap V) (k : string) (v : V) : outcome (gomap V) :=
  match m with
  | None => Panic "assignment to entry in nil map"
  | Some m => Ok (Some (<[k := v]> m))
  end.

(** [if m == nil { m = map[string]V{} }] *)
Definition map_make {V} (m : gomap V) : gmap string V := default ∅ m.

(** The order in which [for k, v := range m] visits a map is not specified by
    Go and differs from run to run: an implementation of [MapOrder] is one
    run's choice. *)
Class MapOrder := {
  range : ∀ {V : Type}, gmap string V → list (string * V);
  range_perm : ∀ {V : Type} (m : gmap string V), range m ≡ₚ map_to_list m
}.

Section map_lemmas.
Context {V : Type}.

Lemma map_lookup_set (m m' : gomap V) k v k' :
  map_set m k v = Ok m' →
  map_lookup m' k' = if decide (k = k') then Some v else map_lookup m k'.
Proof.
  destruct m as [m|]; intros [= <-]. unfold map_lookup. simpl.
  case_decide; simplify_map_eq; done.
Qed.

Lemma map_lookup_make (m : gomap V) k : map_lookup (Some (map_make m)) k = map_lookup m k.
Proof. destruct m; [done|]. unfold map_lookup, map_make. simpl. by rewrite lookup_empty. Qed.

Lemma map_lookup_insert_make (m : gomap V) k v k' :
  map_lookup (Some (<[k := v]> (map_make m))) k' = if decide (k' = k) then Some v else map_lookup m k'.
Proof.
  rewrite <- (map_lookup_make m k'). unfold map_lookup. simpl.
  case_decide; simplify_map_eq; done.
Qed.

Context `{!MapOrder}.

Lemma elem_of_range (m : gmap string V) k v : (k, v) ∈ range m ↔ m !! k = Some v.
Proof. by rewrite range_perm, elem_of_map_to_list. Qed.

Lemma NoDup_fst_range (m : gmap string V) : NoDup (range m).*1.
Proof. rewrite range_perm. apply NoDup_fst_map_to_list. Qed.

Lemma length_range (m : gmap string V) : length (range m) = size m.
Proof. by rewrite range_perm, length_map_to_list. Qed.

(** Copying the entries of a map one by one, in any order, is a union. *)
Lemma range_insert_union (m acc : gmap string V) :
  foldl (λ acc '(k, v), <[k := v]> acc) acc (range m) = m ∪ acc.
Proof.
  assert (∀ l (acc : gmap string V), NoDup l.*1 →
    foldl (λ acc '(k, v), <[k := v]> acc) acc l = list_to_map l ∪ acc) as Hl.
  { clear. induction l as [|[k v] l IH]; intros acc Hnd; simpl; [by rewrite left_id_L by apply _|].
    apply NoDup_cons in Hnd as [Hk Hnd]. rewrite IH by done. simpl in *.
    rewrite <- insert_union_l, <- insert_union_r; [done|].
    by apply not_elem_of_list_to_map. }
  rewrite Hl by apply NoDup_fst_range.
  rewrite (list_to_map_proper (range m) (map_to_list m)); [|apply NoDup_fst_range|apply range_perm].
  by rewrite list_to_map_to_list.
Qed.

End map_lemmas.

(** Two orders, for evaluating the model on concrete inputs. *)
Definition MapOrder_asc : MapOrder :=
  {| range V := @map_to_list string V _ _; range_perm V m := reflexivity _ |}.
Program Definition MapOrder_desc : MapOrder :=
  {| range V m := reverse (map_to_list m) |}.
Next Obligation. intros V m. apply reverse_Permutation. Qed.

(** ** Hint databases and tactics of the development *)

Create HintDb rhdh discriminated.
Create Rewrite HintDb rhdh.
#[export] Hint Rewrite @bind_Ok_inv @fmap_Ok_inv @wrapErr_Ok_inv @deref_Ok_inv : rhdh.
#[export] Hint Resolve NoDup_fst_range : rhdh.

(** Split the innermost [match] or [if] of the goal, closing trivial branches. *)
Ltac split_matches := repeat (case_match; simplify_eq/=; try done).
