(* ===== verification/GoStrings.v ===== *)
(** * The parts of the Go standard library the operator calls on strings

    A Go string is a sequence of bytes: [chars] and [str] go between
    [string] and [list ascii], and every function of [strings], [strconv]
    and [path/filepath] that the operator uses is defined on the bytes and
    named after the Go function.  Case mapping and white space are those of
    ASCII: the strings these functions meet in the operator (names of
    Kubernetes objects, image references, annotation values, file names)
    are ASCII. *)

From S2P Require Import Prelude.
From Stdlib Require Export Ascii.
From stdpp Require Import pretty options.

Abbreviation chars := String.list_ascii_of_string.
Abbreviation str := String.string_of_list_ascii.

(** ** Lists of bytes *)

Section byte_lists.
Context {A : Type} `{EqDecision A}.
Implicit Types (l sub : list A) (c : A).

(** Position of the first and of the last occurrence of [sub]. *)
Fixpoint list_index sub l : option nat :=
  if bool_decide (sub `prefix_of` l) then Some 0
  else match l with
       | [] => None
       | _ :: l' => S <$> list_index sub l'
       end.

Fixpoint list_last_index sub l : option nat :=
  match l with
  | [] => if bool_decide (sub `prefix_of` l) then Some 0 else None
  | _ :: l' =>
      match list_last_index sub l' with
      | Some i => Some (S i)
      | None => if bool_decide (sub `prefix_of` l) then Some 0 else None
      end
  end.

(** Replace every non-overlapping occurrence of a non-empty [old], from the
    left; [skip] counts the elements of an occurrence still to drop. *)
Fixpoint list_replace_all (old new : list A) (skip : nat) l : list A :=
  match l with
  | [] => []
  | c :: l' =>
      match skip with
      | S k => list_replace_all old new k l'
      | 0 => if bool_decide (old `prefix_of` l)
             then new ++ list_replace_all old new (pred (length old)) l'
             else c :: list_replace_all old new 0 l'
      end
  end.

(** Split at every occurrence of the separator [c]. *)
Fixpoint list_split c l : list (list A) :=
  match l with
  | [] => [[]]
  | x :: l' =>
      if decide (x = c) then [] :: list_split c l'
      else match list_split c l' with
           | [] => [[x]]
           | p :: ps => (x :: p) :: ps
           end
  end.

Fixpoint list_join (sep : list A) (ls : list (list A)) : list A :=
  match ls with
  | [] => []
  | [p] => p
  | p :: ps => p ++ sep ++ list_join sep ps
  end.

(** Drop the elements satisfying [f] at the front, at the back. *)
Fixpoint drop_while (f : A → bool) l : list A :=
  match l with
  | [] => []
  | x :: l' => if f x then drop_while f l' else l
  end.

Definition drop_while_end (f : A → bool) l : list A :=
  reverse (drop_while f (reverse l)).

Definition trim_both (f : A → bool) l : list A :=
  drop_while_end f (drop_while f l).

(** A run of the element [c] becomes a single [c]. *)
Fixpoint squeeze c l : list A :=
  match l with
  | x :: (y :: _) as l' =>
      if decide (x = c ∧ y = c) then squeeze c l' else x :: squeeze c l'
  | l => l
  end.

Lemma list_last_index_singleton_None c l :
  list_last_index [c] l = None ↔ c ∉ l.
Proof.
  induction l as [|x l IH]; cbn [list_last_index].
  { split; [set_solver|]. intros _. by rewrite bool_decide_eq_false_2 by (intros [k Hk]; simplify_eq/=). }
  rewrite not_elem_of_cons. destruct (list_last_index [c] l) as [i|] eqn:Hi.
  { split; [done|]. intros [_ H]. by apply IH in H. }
  case_bool_decide as Hp.
  - split; [done|]. intros [H _]. destruct Hp as [k [= -> ?]]. done.
  - split; [|done]. intros _. split; [|by apply IH].
    intros ->. apply Hp. by exists l.
Qed.

(** The last index of a separator splits the list around it. *)
Lemma list_last_index_singleton_Some c l i :
  list_last_index [c] l = Some i →
  l = take i l ++ (c :: drop (S i) l) ∧ c ∉ drop (S i) l ∧ i < length l.
Proof.
  revert i. induction l as [|x l IH]; intros i; cbn [list_last_index].
  { case_bool_decide as Hp; [|done]. destruct Hp as [k Hk]. simplify_eq/=. }
  destruct (list_last_index [c] l) as [j|] eqn:Hj.
  { intros [= <-]. destruct (IH j eq_refl) as (Heq & Hni & Hlt).
    simpl. split_and!; [by f_equal|done|lia]. }
  case_bool_decide as Hp; [|done]. intros [= <-]. destruct Hp as [k [= -> ->]].
  apply list_last_index_singleton_None in Hj. simpl. rewrite drop_0.
  split_and!; [done|done|lia].
Qed.

Lemma list_last_index_singleton_app c l1 l2 :
  c ∉ l2 → list_last_index [c] (l1 ++ (c :: l2)) = Some (length l1).
Proof.
  intros H2. induction l1 as [|x l1 IH]; cbn [app list_last_index]; [|by rewrite IH].
  apply list_last_index_singleton_None in H2 as ->.
  by rewrite bool_decide_eq_true_2 by (by exists l2).
Qed.

Lemma list_split_not_nil c l : list_split c l ≠ [].
Proof. induction l as [|x l IH]; simpl; [done|]. case_decide; [done|]. by destruct (list_split c l). Qed.

(** Splitting and joining at the same separator is the identity. *)
Lemma list_join_split c l : list_join [c] (list_split c l) = l.
Proof.
  induction l as [|x l IH]; simpl; [done|].
  pose proof (list_split_not_nil c l) as Hne. case_decide as Hx; simpl.
  - destruct (list_split c l); [done|]. subst x. simpl in *. by rewrite IH.
  - destruct (list_split c l) as [|p ps]; [done|]. destruct ps; simpl in *; by f_equal.
Qed.

Lemma list_split_no_sep c l p : p ∈ list_split c l → c ∉ p.
Proof.
  revert p. induction l as [|x l IH]; intros p; simpl.
  { intros ->%list_elem_of_singleton. apply not_elem_of_nil. }
  case_decide as Hx.
  { intros [->|?]%elem_of_cons; [apply not_elem_of_nil|by apply IH]. }
  destruct (list_split c l) as [|q qs].
  { intros ->%list_elem_of_singleton. rewrite list_elem_of_singleton. naive_solver. }
  intros [->|?]%elem_of_cons; [|apply IH; by right].
  rewrite not_elem_of_cons. split; [naive_solver|]. apply IH. by left.
Qed.

Lemma list_split_no_occ c l : c ∉ l → list_split c l = [l].
Proof. induction l as [|x l IH]; simpl; [done|]. intros H. rewrite IH by set_solver. case_decide; set_solver. Qed.

Lemma list_split_app c l1 l2 :
  c ∉ l1 → list_split c (l1 ++ (c :: l2)) = l1 :: list_split c l2.
Proof.
  induction l1 as [|x l1 IH]; simpl; intros H; [by rewrite decide_True|].
  rewrite decide_False by set_solver. by rewrite IH by set_solver.
Qed.

Lemma list_split_app_sep c l1 l2 :
  list_split c (l1 ++ (c :: l2)) = list_split c l1 ++ list_split c l2.
Proof.
  induction l1 as [|x l1 IH]; simpl; [by rewrite decide_True|].
  rewrite IH. case_decide; [done|].
  destruct (list_split c l1) eqn:E; [by apply list_split_not_nil in E|done].
Qed.

Lemma list_split_join c ls :
  ls ≠ [] → Forall (λ l, c ∉ l) ls → list_split c (list_join [c] ls) = ls.
Proof.
  intros Hne H. induction H as [|l ls Hl Hls IH]; [done|].
  destruct ls as [|l' ls]; simpl; [by rewrite list_split_no_occ|].
  rewrite list_split_app by done. f_equal. by apply IH.
Qed.

Lemma drop_while_app_all f l1 l2 : Forall (λ x, f x = true) l1 → drop_while f (l1 ++ l2) = drop_while f l2.
Proof. induction 1 as [|x l1 Hx Hl IH]; simpl; [done|]. by rewrite Hx. Qed.

Lemma drop_while_head f l : ∀ x, head (drop_while f l) = Some x → f x = false.
Proof. induction l as [|y l IH]; simpl; [done|]. intros x. destruct (f y) eqn:Hy; [apply IH|]. simpl. by intros [= ->]. Qed.

Lemma drop_while_id f l : (∀ x, head l = Some x → f x = false) → drop_while f l = l.
Proof. destruct l as [|y l]; simpl; [done|]. intros H. by rewrite H. Qed.

Lemma drop_while_suffix f l : drop_while f l `suffix_of` l.
Proof. induction l as [|x l IH]; simpl; [done|]. destruct (f x); [by apply suffix_cons_r|done]. Qed.

Lemma drop_while_subseteq f l : drop_while f l ⊆ l.
Proof. destruct (drop_while_suffix f l) as [k Hk]. rewrite Hk at 2. set_solver. Qed.

Lemma drop_while_end_head f l x y :
  head l = Some y → f y = false → head (drop_while_end f l) = Some x → x = y.
Proof.
  intros Hl Hy. unfold drop_while_end.
  destruct (drop_while_suffix f (reverse l)) as [k Hk].
  assert (l = reverse (drop_while f (reverse l)) ++ reverse k) as Heq.
  { rewrite <- reverse_app, <- Hk. by rewrite reverse_involutive. }
  destruct (reverse (drop_while f (reverse l))) as [|z r]; simpl; [done|].
  rewrite Heq in Hl. simpl in Hl. congruence.
Qed.

Lemma trim_both_head f l x : head (trim_both f l) = Some x → f x = false.
Proof.
  intros Hx. unfold trim_both in Hx.
  destruct (drop_while f l) as [|y r] eqn:Hl; [done|].
  assert (f y = false) as Hy by (apply (drop_while_head f l); by rewrite Hl).
  by rewrite (drop_while_end_head f (y :: r) x y).
Qed.

Lemma last_reverse_head l : last l = head (reverse l).
Proof. rewrite <- (reverse_involutive l) at 1. by rewrite last_reverse. Qed.

Lemma trim_both_last f l x : last (trim_both f l) = Some x → f x = false.
Proof.
  rewrite last_reverse_head. unfold trim_both, drop_while_end.
  rewrite reverse_involutive. apply drop_while_head.
Qed.

Lemma trim_both_id f l :
  (∀ x, head l = Some x → f x = false) → (∀ x, last l = Some x → f x = false) →
  trim_both f l = l.
Proof.
  intros Hh Ht. unfold trim_both, drop_while_end. rewrite (drop_while_id f l) by done.
  rewrite drop_while_id, reverse_involutive; [done|].
  intros x. rewrite <- last_reverse_head. apply Ht.
Qed.

Lemma trim_both_idemp f l : trim_both f (trim_both f l) = trim_both f l.
Proof. apply trim_both_id; [apply trim_both_head|apply trim_both_last]. Qed.

Lemma trim_both_subseteq f l : trim_both f l ⊆ l.
Proof.
  unfold trim_both, drop_while_end. intros x. rewrite elem_of_reverse.
  intros Hx%drop_while_subseteq. rewrite elem_of_reverse in Hx. by apply drop_while_subseteq in Hx.
Qed.

Lemma length_trim_both f l : length (trim_both f l) ≤ length l.
Proof.
  unfold trim_both, drop_while_end. rewrite length_reverse.
  etrans; [apply suffix_length, drop_while_suffix|]. rewrite length_reverse.
  apply suffix_length, drop_while_suffix.
Qed.

End byte_lists.

Section string_lists.

Lemma chars_str l : chars (str l) = l.
Proof. apply String.list_ascii_of_string_of_list_ascii. Qed.

Lemma str_chars s : str (chars s) = s.
Proof. apply String.string_of_list_ascii_of_string. Qed.

#[global] Instance chars_inj : Inj (=) (=) chars.
Proof. intros s t H. by rewrite <- (str_chars s), H, str_chars. Qed.

#[global] Instance str_inj : Inj (=) (=) str.
Proof. intros s t H. by rewrite <- (chars_str s), H, chars_str. Qed.

Lemma chars_app s t : chars (s +:+ t) = chars s ++ chars t.
Proof. induction s as [|c s IH]; [done|]. simpl. rewrite <- IH. done. Qed.

Lemma str_app l k : str (l ++ k) = str l +:+ str k.
Proof. apply (inj chars). by rewrite chars_app, !chars_str. Qed.

Lemma length_chars s : length (chars s) = String.length s.
Proof. induction s; simpl; auto. Qed.

Lemma fmap_chars_str (ls : list (list ascii)) : chars <$> (str <$> ls) = ls.
Proof. induction ls as [|l ls IH]; csimpl; [done|]. by rewrite chars_str, IH. Qed.

Lemma fmap_str_chars (ss : list string) : str <$> (chars <$> ss) = ss.
Proof. induction ss as [|s ss IH]; csimpl; [done|]. by rewrite str_chars, IH. Qed.

Lemma string_app_assoc (s t u : string) : (s +:+ t) +:+ u = s +:+ t +:+ u.
Proof. apply (inj chars). by rewrite !chars_app, (assoc_L (++)). Qed.

Lemma string_app_nil_r (s : string) : s +:+ "" = s.
Proof. apply (inj chars). by rewrite chars_app, app_nil_r. Qed.

Lemma string_app_inj_r (s t u : string) : s +:+ u = t +:+ u → s = t.
Proof. intros H%(f_equal chars). rewrite !chars_app in H. by apply (inj (.++ _)), (inj chars) in H. Qed.

Lemma string_app_inj_l (s t u : string) : s +:+ t = s +:+ u → t = u.
Proof. intros H%(f_equal chars). rewrite !chars_app in H. by apply (inj (_ ++.)), (inj chars) in H. Qed.

End string_lists.

#[export] Hint Rewrite chars_str str_chars chars_app str_app length_chars : rhdh.

(** [s[:i]] and [s[i:]] *)
Definition slice_to (s : string) (i : nat) : string := str (take i (chars s)).
Definition slice_from (s : string) (i : nat) : string := str (drop i (chars s)).

(** ** Package strings *)

Module strings.

Definition HasPrefix (s p : string) : bool := bool_decide (chars p `prefix_of` chars s).
Definition HasSuffix (s p : string) : bool := bool_decide (chars p `suffix_of` chars s).

Definition TrimPrefix (s p : string) : string :=
  if HasPrefix s p then slice_from s (String.length p) else s.
Definition TrimSuffix (s p : string) : string :=
  if HasSuffix s p then slice_to s (String.length s - String.length p) else s.

(** [None] stands for Go's -1. *)
Definition Index (s sub : string) : option nat := list_index (chars sub) (chars s).
Definition LastIndex (s sub : string) : option nat := list_last_index (chars sub) (chars s).
Definition Contains (s sub : string) : bool := bool_decide (is_Some (Index s sub)).

(** [strings.Replace(s, old, new, 1)] and [strings.ReplaceAll], for a
    non-empty [old]. *)
Definition Replace1 (s old new : string) : string :=
  match Index s old with
  | None => s
  | Some i => slice_to s i +:+ new +:+ slice_from s (i + String.length old)
  end.
Definition ReplaceAll (s old new : string) : string :=
  str (list_replace_all (chars old) (chars new) 0 (chars s)).

(** [strings.Split] at a separator of one byte. *)
Definition Split (s : string) (sep : ascii) : list string := str <$> list_split sep (chars s).
Definition Join (ss : list string) (sep : string) : string := str (list_join (chars sep) (chars <$> ss)).

Definition TrimSpace (s : string) : string := str (trim_both Ascii.is_space (chars s)).

(** [strings.Trim(s, cutset)] for a cutset of one byte. *)
Definition Trim (s : string) (c : ascii) : string :=
  str (trim_both (λ x, bool_decide (x = c)) (chars s)).

Definition lower (c : ascii) : ascii :=
  let n := Ascii.nat_of_ascii c in
  if bool_decide (65 ≤ n ≤ 90) then Ascii.ascii_of_nat (n + 32) else c.
Definition ToLower (s : string) : string := str (lower <$> chars s).

Lemma HasPrefix_spec s p : HasPrefix s p ↔ ∃ t, s = p +:+ t.
Proof.
  unfold HasPrefix. rewrite bool_decide_spec. split.
  - intros [k Hk]. exists (str k). apply (inj chars). by rewrite chars_app, chars_str.
  - intros [t ->]. exists (chars t). apply chars_app.
Qed.

Lemma HasPrefix_app p t : HasPrefix (p +:+ t) p = true.
Proof. apply Is_true_true, HasPrefix_spec. by exists t. Qed.

Lemma TrimPrefix_app p t : TrimPrefix (p +:+ t) p = t.
Proof.
  unfold TrimPrefix, slice_from. rewrite HasPrefix_app, chars_app.
  rewrite <- length_chars, drop_app_length. apply str_chars.
Qed.

Lemma HasSuffix_spec s p : HasSuffix s p ↔ ∃ t, s = t +:+ p.
Proof.
  unfold HasSuffix. rewrite bool_decide_spec. split.
  - intros [k Hk]. exists (str k). apply (inj chars). by rewrite chars_app, chars_str.
  - intros [t ->]. exists (chars t). apply chars_app.
Qed.

Lemma HasSuffix_app t p : HasSuffix (t +:+ p) p = true.
Proof. apply Is_true_true, HasSuffix_spec. by exists t. Qed.

Lemma TrimSuffix_app t p : TrimSuffix (t +:+ p) p = t.
Proof.
  unfold TrimSuffix, slice_to. rewrite HasSuffix_app, <- !length_chars, chars_app.
  rewrite length_app, Nat.add_sub, take_app_length. apply str_chars.
Qed.

(** The last occurrence of a byte splits the string. *)
Lemma LastIndex_byte_Some s c i :
  LastIndex s (String c "") = Some i →
  s = slice_to s i +:+ String c (slice_from s (S i)) ∧
  c ∉ chars (slice_from s (S i)).
Proof.
  unfold LastIndex, slice_to, slice_from. simpl. intros H.
  apply list_last_index_singleton_Some in H as (Heq & Hni & _).
  rewrite chars_str. split; [|done]. apply (inj chars).
  rewrite chars_app, chars_str. simpl. by rewrite chars_str.
Qed.

Lemma LastIndex_byte_None s c : LastIndex s (String c "") = None ↔ c ∉ chars s.
Proof. apply list_last_index_singleton_None. Qed.

Lemma LastIndex_byte_app s c t :
  c ∉ chars t → LastIndex (s +:+ String c t) (String c "") = Some (String.length s).
Proof.
  intros H. unfold LastIndex. rewrite chars_app, <- length_chars. simpl.
  by apply list_last_index_singleton_app.
Qed.

Lemma Join_Split s c : Join (Split s c) (String c "") = s.
Proof.
  unfold Join, Split. rewrite fmap_chars_str. simpl.
  rewrite list_join_split. apply str_chars.
Qed.

Lemma Split_Join ss c :
  ss ≠ [] → Forall (λ s, c ∉ chars s) ss → Split (Join ss (String c "")) c = ss.
Proof.
  intros Hne H. unfold Split, Join. rewrite chars_str. simpl.
  rewrite list_split_join; [apply fmap_str_chars|by destruct ss|by apply Forall_fmap].
Qed.

Lemma TrimSpace_idemp s : TrimSpace (TrimSpace s) = TrimSpace s.
Proof. unfold TrimSpace. by rewrite chars_str, trim_both_idemp. Qed.

Lemma slice_to_app s t : slice_to (s +:+ t) (String.length s) = s.
Proof. unfold slice_to. rewrite chars_app, <- length_chars, take_app_length. apply str_chars. Qed.

Lemma slice_from_app s t n : slice_from (s +:+ t) (String.length s + n) = slice_from t n.
Proof.
  unfold slice_from. rewrite chars_app, <- length_chars. f_equal.
  rewrite drop_app, drop_ge by lia. simpl. f_equal. lia.
Qed.

End strings.

(** ** Package strconv *)

Module strconv.

Definition ParseBool (s : string) : outcome bool :=
  if bool_decide (s ∈ ["1"; "t"; "T"; "true"; "TRUE"; "True"]) then Ok true
  else if bool_decide (s ∈ ["0"; "f"; "F"; "false"; "FALSE"; "False"]) then Ok false
  else Err (Errorf ("strconv.ParseBool: parsing " +:+ s +:+ ": invalid syntax")).

Definition FormatBool (b : bool) : string := if b then "true" else "false".

(** [strconv.FormatInt(n, 10)], and the verb d of [fmt]. *)
Definition FormatInt (n : Z) : string := pretty n.

Lemma ParseBool_FormatBool b : ParseBool (FormatBool b) = Ok b.
Proof. by destruct b. Qed.

Lemma FormatInt_inj n m : FormatInt n = FormatInt m → n = m.
Proof. unfold FormatInt. apply (inj pretty). Qed.

End strconv.

(** ** Package path/filepath on Unix *)

Module filepath.

Definition sep : ascii := "/"%char.

Definition IsAbs (p : string) : bool := strings.HasPrefix p "/".

(** One element of the path, given the reversed list of the kept ones. *)
Definition clean_step (rooted : bool) (kept : list string) (e : string) : list string :=
  if bool_decide (e = "" ∨ e = ".") then kept
  else if bool_decide (e = "..") then
    match kept with
    | [] => if rooted then [] else [".."]
    | x :: rest => if bool_decide (x = "..") then ".." :: kept else rest
    end
  else e :: kept.

Definition Clean (p : string) : string :=
  let rooted := IsAbs p in
  let kept := reverse (foldl (clean_step rooted) [] (strings.Split p sep)) in
  let body := strings.Join kept "/" in
  if rooted then "/" +:+ body
  else if bool_decide (body = "") then "." else body.

Fixpoint Join (elems : list string) : string :=
  match elems with
  | [] => ""
  | e :: rest =>
      if bool_decide (e = "") then Join rest
      else Clean (strings.Join elems "/")
  end.

(** [filepath.Ext]: from the last dot of the last element. *)
Definition Ext (p : string) : string :=
  let base := match strings.LastIndex p "/" with
              | Some i => slice_from p (S i)
              | None => p
              end in
  match strings.LastIndex base "." with
  | Some i => slice_from base i
  | None => ""
  end.

Example Clean_1 : Clean "/a/./b//../c/" = "/a/c".
Proof. by vm_compute. Qed.
Example Clean_2 : Clean "../a/../../b" = "../../b".
Proof. by vm_compute. Qed.
Example Clean_3 : Clean "" = "." ∧ Clean "/.." = "/".
Proof. by vm_compute. Qed.
Example Join_1 : Join ["/opt/app-root/src"; "rel/x.yaml"] = "/opt/app-root/src/rel/x.yaml".
Proof. by vm_compute. Qed.
Example Join_2 : Join [""; ""] = "" ∧ Join ["/m"; ""] = "/m".
Proof. by vm_compute. Qed.

(** ** Joining a directory and a file name *)

Section join.

(** The name of one directory entry: what a key of a ConfigMap is. *)
Definition entry_name (k : string) : Prop :=
  k ≠ "" ∧ k ≠ "." ∧ k ≠ ".." ∧ sep ∉ chars k.

(** A check, for concrete names. *)
Definition entry_nameb (k : string) : bool :=
  negb (String.eqb k "" || String.eqb k "." || String.eqb k ".." || existsb (Ascii.eqb sep) (chars k)).

Lemma entry_names_dec ks : forallb entry_nameb ks = true → Forall entry_name ks.
Proof.
  intros H. apply Forall_forall. intros k Hk%list_elem_of_In. rewrite forallb_forall in H.
  specialize (H k Hk). unfold entry_nameb in H. rewrite negb_true_iff, !orb_false_iff, !String.eqb_neq in H.
  destruct H as [[[? ?] ?] He]. split_and!; [done..|]. intros Hs%list_elem_of_In.
  assert (existsb (Ascii.eqb sep) (chars k) = true) as He'; [|congruence].
  apply existsb_exists. exists sep. split; [done|]. apply Ascii.eqb_refl.
Qed.

Lemma clean_step_entry rooted kept k : entry_name k → clean_step rooted kept k = k :: kept.
Proof.
  intros (H1 & H2 & H3 & _). unfold clean_step.
  by rewrite bool_decide_eq_false_2, bool_decide_eq_false_2 by naive_solver.
Qed.

Lemma clean_step_slash_free rooted kept l :
  Forall (λ e, sep ∉ chars e) kept → Forall (λ e, sep ∉ chars e) l →
  Forall (λ e, sep ∉ chars e) (foldl (clean_step rooted) kept l).
Proof.
  intros Hk Hl. revert kept Hk. induction Hl as [|e l He Hl IH]; intros kept Hk; [done|]. cbn [foldl].
  apply IH. unfold clean_step. case_bool_decide; [done|]. case_bool_decide; [|by constructor].
  assert (sep ∉ chars "..") as Hd.
  { intros H1. vm_compute in H1. repeat (apply elem_of_cons in H1 as [H1|H1]; [done|]). by apply not_elem_of_nil in H1. }
  destruct kept as [|x rest]; [destruct rooted; by repeat constructor|].
  case_bool_decide; [by constructor|]. by apply Forall_cons in Hk as [_ Hk].
Qed.

Lemma Split_slash_free p : Forall (λ e, sep ∉ chars e) (strings.Split p sep).
Proof.
  unfold strings.Split. apply Forall_fmap, Forall_forall. intros l Hl. simpl. rewrite chars_str.
  by eapply list_split_no_sep.
Qed.

Lemma Split_snoc p k : sep ∉ chars k →
  strings.Split (p +:+ "/" +:+ k) sep = strings.Split p sep ++ [k].
Proof.
  intros Hk. unfold strings.Split. rewrite !chars_app. change (chars "/" ++ chars k) with (sep :: chars k).
  rewrite list_split_app_sep, (list_split_no_occ sep (chars k)) by done.
  rewrite fmap_app. cbn [fmap list_fmap]. by rewrite str_chars.
Qed.

(** The elements [Clean] keeps of [p] *)
Definition kept_of (rooted : bool) (p : string) : list string :=
  reverse (foldl (clean_step rooted) [] (strings.Split p sep)).

Lemma kept_of_slash_free b p : Forall (λ e, sep ∉ chars e) (kept_of b p).
Proof. unfold kept_of. apply Forall_reverse. apply clean_step_slash_free; [done|apply Split_slash_free]. Qed.

Lemma Clean_snoc p k :
  entry_name k → p ≠ "" →
  Clean (p +:+ "/" +:+ k) =
    (if IsAbs p then "/" else "") +:+ strings.Join (kept_of (IsAbs p) p ++ [k]) "/".
Proof.
  intros Hk Hp. pose proof Hk as (H1 & H2 & H3 & H4). unfold Clean. rewrite Split_snoc by done.
  assert (IsAbs (p +:+ "/" +:+ k) = IsAbs p) as ->.
  { unfold IsAbs, strings.HasPrefix. apply bool_decide_ext. rewrite chars_app.
    destruct p as [|c p]; [done|]. simpl.
    split; intros [l Hl]; simplify_eq/=; by eexists. }
  rewrite foldl_snoc, clean_step_entry by done. rewrite reverse_cons. fold (kept_of (IsAbs p) p). destruct (IsAbs p); [done|].
  rewrite bool_decide_eq_false_2; [done|]. intros Hb.
  assert (k ∈ strings.Split (strings.Join (kept_of false p ++ [k]) "/") sep) as Hk'.
  { rewrite strings.Split_Join; [apply elem_of_app; right; by left|by destruct (kept_of false p)|].
    apply Forall_app. split; [apply kept_of_slash_free|by repeat constructor]. }
  rewrite Hb in Hk'. apply elem_of_cons in Hk' as [->|Hk']; [done|by apply not_elem_of_nil in Hk'].
Qed.

(** Two files of one directory have two paths. *)
Lemma Join_entry_inj d k1 k2 :
  entry_name k1 → entry_name k2 → Join [d; k1] = Join [d; k2] → k1 = k2.
Proof.
  intros Hk1 Hk2.
  assert (∀ k, entry_name k → ∃ pre l, Forall (λ e, sep ∉ chars e) l ∧
    Join [d; k] = pre +:+ strings.Join (l ++ [k]) "/" ∧
    (∀ k', entry_name k' → Join [d; k'] = pre +:+ strings.Join (l ++ [k']) "/")) as H.
  { intros k Hk. cbn [Join]. case_bool_decide as Hd.
    - subst d. exists "", []. split; [done|].
      assert (∀ k', entry_name k' → (if bool_decide (k' = "") then "" else Clean (strings.Join [k'] "/")) = k') as Hc.
      { intros k' Hk'. pose proof Hk' as (Hk1' & _ & _ & Hk4'). rewrite bool_decide_eq_false_2 by done.
        unfold Clean, strings.Join. simpl list_join. rewrite str_chars.
        unfold strings.Split. rewrite (list_split_no_occ sep (chars k')) by done. cbn [fmap list_fmap foldl]. rewrite str_chars.
        assert (IsAbs k' = false) as ->.
        { apply not_true_is_false. intros Ha%Is_true_true. unfold IsAbs in Ha. apply strings.HasPrefix_spec in Ha as [t ->].
          apply Hk4'. rewrite chars_app. by left. }
        rewrite clean_step_entry by done. simpl. unfold strings.Join. simpl. rewrite str_chars.
        by rewrite bool_decide_eq_false_2. }
      assert (∀ k', strings.Join [k'] "/" = k') as Hj.
      { intros k'. unfold strings.Join. simpl. by rewrite str_chars. }
      split; [|intros k' Hk']; by rewrite Hc, app_nil_l, Hj.
    - exists (if IsAbs d then "/" else ""), (kept_of (IsAbs d) d). split; [apply kept_of_slash_free|].
      assert (∀ k', strings.Join [d; k'] "/" = d +:+ "/" +:+ k') as Hj.
      { intros k'. unfold strings.Join. cbn [fmap list_fmap list_join]. by rewrite !str_app, !str_chars. }
      split; [|intros k' Hk']; rewrite Hj; by apply Clean_snoc. }
  destruct (H k1 Hk1) as (pre & l & Hl & _ & Hj). rewrite !Hj by done. intros Heq.
  apply string_app_inj_l in Heq.
  assert (strings.Split (strings.Join (l ++ [k1]) "/") sep = strings.Split (strings.Join (l ++ [k2]) "/") sep) as Hs by by rewrite Heq.
  destruct Hk1 as (_ & _ & _ & Hs1), Hk2 as (_ & _ & _ & Hs2).
  rewrite !strings.Split_Join in Hs; try (by destruct l); try (apply Forall_app; split; [done|by repeat constructor]).
  apply app_inv_head in Hs. by injection Hs.
Qed.

End join.

End filepath.
