(* ===== verification/K8s.v ===== *)
(** * The Kubernetes objects the operator builds

    The operator reads and writes values of the API types of k8s.io/api and
    of the OpenShift route API.  These types are not part of the repository;
    the records below hold the fields the operator touches, and a field named
    [Rest] or [Extra] holds the others, as raw text, so that a definition that
    drops or keeps them can say so.  A pointer field is an [option], a map a
    [gomap]. *)

From S2P Require Import Prelude.

(** The group, version and kind of an object: [metav1.TypeMeta], which
    [GetObjectKind().GroupVersionKind()] reads. *)

Record TypeMeta := mkTypeMeta {
  APIVersion : string;
  Kind : string
}.
#[export] Instance TypeMeta_eta : Eta TypeMeta := λ r,
  mkTypeMeta (APIVersion r) (Kind r).
#[export] Instance TypeMeta_eq_dec : EqDecision TypeMeta.
Proof. solve_decision. Defined.

Record OwnerReference := mkOwnerReference {
  or_Kind : string;
  or_Name : string;
  or_Controller : bool
}.
#[export] Instance OwnerReference_eta : Eta OwnerReference := λ r,
  mkOwnerReference (or_Kind r) (or_Name r) (or_Controller r).
#[export] Instance OwnerReference_eq_dec : EqDecision OwnerReference.
Proof. solve_decision. Defined.

Record ObjectMeta := mkObjectMeta {
  Name : string;
  Namespace : string;
  Labels : gomap string;
  Annotations : gomap string;
  OwnerReferences : list OwnerReference
}.
#[export] Instance ObjectMeta_eta : Eta ObjectMeta := λ r,
  mkObjectMeta (Name r) (Namespace r) (Labels r) (Annotations r) (OwnerReferences r).
#[export] Instance ObjectMeta_eq_dec : EqDecision ObjectMeta.
Proof. solve_decision. Defined.

Definition emptyMeta : ObjectMeta := mkObjectMeta "" "" None None [].
Definition emptyTypeMeta : TypeMeta := mkTypeMeta "" "".

(** ** Pods *)

Inductive EnvVarSource :=
  | ConfigMapKeyRef (name key : string)
  | SecretKeyRef (name key : string)
  | OtherVarSource (raw : string).
#[export] Instance EnvVarSource_eq_dec : EqDecision EnvVarSource.
Proof. solve_decision. Defined.

Record EnvVar := mkEnvVar {
  ev_Name : string;
  ev_Value : string;
  ev_ValueFrom : option EnvVarSource
}.
#[export] Instance EnvVar_eta : Eta EnvVar := λ r,
  mkEnvVar (ev_Name r) (ev_Value r) (ev_ValueFrom r).
#[export] Instance EnvVar_eq_dec : EqDecision EnvVar.
Proof. solve_decision. Defined.

Inductive EnvFromSource :=
  | ConfigMapRef (name : string)
  | SecretRef (name : string)
  | OtherFromSource (raw : string).
#[export] Instance EnvFromSource_eq_dec : EqDecision EnvFromSource.
Proof. solve_decision. Defined.

Record VolumeMount := mkVolumeMount {
  vm_Name : string;
  vm_MountPath : string;
  vm_SubPath : string;
  vm_ReadOnly : bool
}.
#[export] Instance VolumeMount_eta : Eta VolumeMount := λ r,
  mkVolumeMount (vm_Name r) (vm_MountPath r) (vm_SubPath r) (vm_ReadOnly r).
#[export] Instance VolumeMount_eq_dec : EqDecision VolumeMount.
Proof. solve_decision. Defined.

(** [corev1.VolumeSource]; [EmptySource] is the zero struct. *)
Inductive VolumeSource :=
  | EmptySource
  | ConfigMapSource (name : string) (defaultMode : Z) (optional : bool)
  | SecretSource (secretName : string) (defaultMode : Z) (optional : bool)
  | PvcSource (claimName : string)
  | OtherSource (raw : string).
#[export] Instance VolumeSource_eq_dec : EqDecision VolumeSource.
Proof. solve_decision. Defined.

Record Volume := mkVolume {
  v_Name : string;
  v_Source : VolumeSource
}.
#[export] Instance Volume_eta : Eta Volume := λ r,
  mkVolume (v_Name r) (v_Source r).
#[export] Instance Volume_eq_dec : EqDecision Volume.
Proof. solve_decision. Defined.

Record Container := mkContainer {
  c_Name : string;
  c_Image : string;
  c_Command : list string;
  c_Args : list string;
  c_WorkingDir : string;
  c_EnvFrom : list EnvFromSource;
  c_Env : list EnvVar;
  c_VolumeMounts : list VolumeMount;
  c_ImagePullPolicy : string;
  c_Rest : string
}.
#[export] Instance Container_eta : Eta Container := λ r,
  mkContainer (c_Name r) (c_Image r) (c_Command r) (c_Args r) (c_WorkingDir r) (c_EnvFrom r)
    (c_Env r) (c_VolumeMounts r) (c_ImagePullPolicy r) (c_Rest r).
#[export] Instance Container_eq_dec : EqDecision Container.
Proof. solve_decision. Defined.

Record PodSpec := mkPodSpec {
  Volumes : list Volume;
  InitContainers : list Container;
  Containers : list Container;
  ImagePullSecrets : list string;
  ps_Rest : string
}.
#[export] Instance PodSpec_eta : Eta PodSpec := λ r,
  mkPodSpec (Volumes r) (InitContainers r) (Containers r) (ImagePullSecrets r) (ps_Rest r).
#[export] Instance PodSpec_eq_dec : EqDecision PodSpec.
Proof. solve_decision. Defined.

Record PodTemplateSpec := mkPodTemplateSpec {
  t_Meta : ObjectMeta;
  t_Spec : PodSpec
}.
#[export] Instance PodTemplateSpec_eta : Eta PodTemplateSpec := λ r,
  mkPodTemplateSpec (t_Meta r) (t_Spec r).
#[export] Instance PodTemplateSpec_eq_dec : EqDecision PodTemplateSpec.
Proof. solve_decision. Defined.

Record LabelSelector := mkLabelSelector {
  MatchLabels : gomap string;
  MatchExpressions : list string
}.
#[export] Instance LabelSelector_eta : Eta LabelSelector := λ r,
  mkLabelSelector (MatchLabels r) (MatchExpressions r).
#[export] Instance LabelSelector_eq_dec : EqDecision LabelSelector.
Proof. solve_decision. Defined.

Definition emptyPodSpec : PodSpec := mkPodSpec [] [] [] [] "".
Definition emptySelector : LabelSelector := mkLabelSelector None [].

(** ** Workloads *)

(** A status condition, of a workload or of the Backstage resource. *)
Record Condition := mkCondition {
  cond_Type : string;
  cond_Status : string;
  cond_Reason : string;
  cond_Message : string
}.
#[export] Instance Condition_eta : Eta Condition := λ r,
  mkCondition (cond_Type r) (cond_Status r) (cond_Reason r) (cond_Message r).
#[export] Instance Condition_eq_dec : EqDecision Condition.
Proof. solve_decision. Defined.

(** [d_Extra] holds the other fields of the spec (strategy, minReadySeconds, ...) by name. *)
Record Deployment := mkDeployment {
  d_Type : TypeMeta;
  d_Meta : ObjectMeta;
  d_Replicas : option Z;
  d_Selector : option LabelSelector;
  d_Template : PodTemplateSpec;
  d_Extra : gmap string string;
  d_ReadyReplicas : Z;
  d_Conditions : list Condition
}.
#[export] Instance Deployment_eta : Eta Deployment := λ r,
  mkDeployment (d_Type r) (d_Meta r) (d_Replicas r) (d_Selector r) (d_Template r) (d_Extra r)
    (d_ReadyReplicas r) (d_Conditions r).
#[export] Instance Deployment_eq_dec : EqDecision Deployment.
Proof. solve_decision. Defined.

Record StatefulSet := mkStatefulSet {
  s_Type : TypeMeta;
  s_Meta : ObjectMeta;
  s_Replicas : option Z;
  s_Selector : option LabelSelector;
  s_Template : PodTemplateSpec;
  s_ServiceName : string;
  s_Extra : gmap string string;
  s_ReadyReplicas : Z;
  s_CurrentReplicas : Z;
  s_UpdatedReplicas : Z;
  s_Conditions : list Condition
}.
#[export] Instance StatefulSet_eta : Eta StatefulSet := λ r,
  mkStatefulSet (s_Type r) (s_Meta r) (s_Replicas r) (s_Selector r) (s_Template r)
    (s_ServiceName r) (s_Extra r) (s_ReadyReplicas r) (s_CurrentReplicas r)
    (s_UpdatedReplicas r) (s_Conditions r).
#[export] Instance StatefulSet_eq_dec : EqDecision StatefulSet.
Proof. solve_decision. Defined.

Definition emptyTemplate : PodTemplateSpec := mkPodTemplateSpec emptyMeta emptyPodSpec.
Definition emptyDeployment : Deployment :=
  mkDeployment emptyTypeMeta emptyMeta None None emptyTemplate ∅ 0 [].
Definition emptyStatefulSet : StatefulSet :=
  mkStatefulSet emptyTypeMeta emptyMeta None None emptyTemplate "" ∅ 0 0 0 [].

(** ** Configuration, services, routes *)

Record ConfigMap := mkConfigMap {
  cm_Type : TypeMeta;
  cm_Meta : ObjectMeta;
  cm_Data : gomap string;
  cm_BinaryData : gomap string
}.
#[export] Instance ConfigMap_eta : Eta ConfigMap := λ r,
  mkConfigMap (cm_Type r) (cm_Meta r) (cm_Data r) (cm_BinaryData r).
#[export] Instance ConfigMap_eq_dec : EqDecision ConfigMap.
Proof. solve_decision. Defined.

Record Secret := mkSecret {
  sec_Type : TypeMeta;
  sec_Meta : ObjectMeta;
  sec_Data : gomap string;
  sec_StringData : gomap string
}.
#[export] Instance Secret_eta : Eta Secret := λ r,
  mkSecret (sec_Type r) (sec_Meta r) (sec_Data r) (sec_StringData r).
#[export] Instance Secret_eq_dec : EqDecision Secret.
Proof. solve_decision. Defined.

Record Service := mkService {
  svc_Type : TypeMeta;
  svc_Meta : ObjectMeta;
  svc_Selector : gomap string;
  svc_ClusterIP : string;
  svc_Ports : list Z
}.
#[export] Instance Service_eta : Eta Service := λ r,
  mkService (svc_Type r) (svc_Meta r) (svc_Selector r) (svc_ClusterIP r) (svc_Ports r).
#[export] Instance Service_eq_dec : EqDecision Service.
Proof. solve_decision. Defined.

Record PersistentVolumeClaim := mkPersistentVolumeClaim {
  pvc_Type : TypeMeta;
  pvc_Meta : ObjectMeta;
  pvc_Rest : string
}.
#[export] Instance PersistentVolumeClaim_eta : Eta PersistentVolumeClaim := λ r,
  mkPersistentVolumeClaim (pvc_Type r) (pvc_Meta r) (pvc_Rest r).
#[export] Instance PersistentVolumeClaim_eq_dec : EqDecision PersistentVolumeClaim.
Proof. solve_decision. Defined.

(** [openshift.TLSConfig]; the external certificate is the name of a secret. *)
Record TLSConfig := mkTLSConfig {
  tls_Termination : string;
  tls_InsecurePolicy : string;
  tls_Certificate : string;
  tls_Key : string;
  tls_CACertificate : string;
  tls_ExternalCertificate : option string
}.
#[export] Instance TLSConfig_eta : Eta TLSConfig := λ r,
  mkTLSConfig (tls_Termination r) (tls_InsecurePolicy r) (tls_Certificate r) (tls_Key r)
    (tls_CACertificate r) (tls_ExternalCertificate r).
#[export] Instance TLSConfig_eq_dec : EqDecision TLSConfig.
Proof. solve_decision. Defined.

Record Route := mkRoute {
  r_Type : TypeMeta;
  r_Meta : ObjectMeta;
  r_Host : string;
  r_Subdomain : string;
  r_TLS : option TLSConfig;
  r_ToName : string
}.
#[export] Instance Route_eta : Eta Route := λ r,
  mkRoute (r_Type r) (r_Meta r) (r_Host r) (r_Subdomain r) (r_TLS r) (r_ToName r).
#[export] Instance Route_eq_dec : EqDecision Route.
Proof. solve_decision. Defined.

Definition emptyConfigMap : ConfigMap := mkConfigMap emptyTypeMeta emptyMeta None None.
Definition emptySecret : Secret := mkSecret emptyTypeMeta emptyMeta None None.
Definition emptyRoute : Route := mkRoute emptyTypeMeta emptyMeta "" "" None "".

(** ** Any object

    A [runtime.Object] is one of the typed objects or, for the kinds the
    operator does not look into, [KOther]; [client] tells whether its Go type
    implements [client.Object]. *)

Inductive KObject :=
  | KConfigMap (cm : ConfigMap)
  | KSecret (s : Secret)
  | KService (s : Service)
  | KDeployment (d : Deployment)
  | KStatefulSet (s : StatefulSet)
  | KRoute (r : Route)
  | KPvc (p : PersistentVolumeClaim)
  | KOther (t : TypeMeta) (m : ObjectMeta) (client : bool) (raw : string).
#[export] Instance KObject_eq_dec : EqDecision KObject.
Proof. solve_decision. Defined.

Definition objectType (o : KObject) : TypeMeta :=
  match o with
  | KConfigMap c => cm_Type c
  | KSecret s => sec_Type s
  | KService s => svc_Type s
  | KDeployment d => d_Type d
  | KStatefulSet s => s_Type s
  | KRoute r => r_Type r
  | KPvc p => pvc_Type p
  | KOther t _ _ _ => t
  end.

Definition objectMeta (o : KObject) : ObjectMeta :=
  match o with
  | KConfigMap c => cm_Meta c
  | KSecret s => sec_Meta s
  | KService s => svc_Meta s
  | KDeployment d => d_Meta d
  | KStatefulSet s => s_Meta s
  | KRoute r => r_Meta r
  | KPvc p => pvc_Meta p
  | KOther _ m _ _ => m
  end.

Definition setObjectMeta (m : ObjectMeta) (o : KObject) : KObject :=
  match o with
  | KConfigMap c => KConfigMap (c <| cm_Meta := m |>)
  | KSecret s => KSecret (s <| sec_Meta := m |>)
  | KService s => KService (s <| svc_Meta := m |>)
  | KDeployment d => KDeployment (d <| d_Meta := m |>)
  | KStatefulSet s => KStatefulSet (s <| s_Meta := m |>)
  | KRoute r => KRoute (r <| r_Meta := m |>)
  | KPvc p => KPvc (p <| pvc_Meta := m |>)
  | KOther t _ c raw => KOther t m c raw
  end.

Definition isClientObject (o : KObject) : bool :=
  match o with
  | KOther _ _ c _ => c
  | _ => true
  end.

(** The Go type name, for the panic of a failed type assertion. *)
Definition goType (o : KObject) : string :=
  match o with
  | KConfigMap _ => "*v1.ConfigMap"
  | KSecret _ => "*v1.Secret"
  | KService _ => "*v1.Service"
  | KDeployment _ => "*v1.Deployment"
  | KStatefulSet _ => "*v1.StatefulSet"
  | KRoute _ => "*v1.Route"
  | KPvc _ => "*v1.PersistentVolumeClaim"
  | KOther t _ _ _ => Kind t
  end.

Lemma objectMeta_set m o : objectMeta (setObjectMeta m o) = m.
Proof. by destruct o. Qed.

Lemma setObjectMeta_id o : setObjectMeta (objectMeta o) o = o.
Proof. by destruct o as [[]|[]|[]|[]|[]|[]|[]|]. Qed.

Lemma setObjectMeta_set m m' o : setObjectMeta m (setObjectMeta m' o) = setObjectMeta m o.
Proof. by destruct o. Qed.

Lemma objectType_set m o : objectType (setObjectMeta m o) = objectType o.
Proof. by destruct o. Qed.

#[export] Hint Rewrite objectMeta_set setObjectMeta_id setObjectMeta_set objectType_set : rhdh.
