(* ===== verification/Api.v ===== *)
(** * The Backstage custom resource (api/v1alpha5)

    One record per struct of api/v1alpha5/backstage_types.go, which
    api/current-types.go re-exports as package [api], and the methods of
    [BackstageSpec]. *)

From S2P Require Import Prelude.
From S2P Require Import K8s.

Module api.

(** Condition types and reasons *)
Inductive BackstageConditionReason :=
  | BackstageConditionReasonDeployed
  | BackstageConditionReasonFailed
  | BackstageConditionReasonInProgress
  | BackstageConditionReasonIdled.
#[global] Instance BackstageConditionReason_eq_dec : EqDecision BackstageConditionReason.
Proof. solve_decision. Defined.

Definition BackstageConditionTypeDeployed : string := "Deployed".

Definition reasonString (r : BackstageConditionReason) : string :=
  match r with
  | BackstageConditionReasonDeployed => "Deployed"
  | BackstageConditionReasonFailed => "DeployFailed"
  | BackstageConditionReasonInProgress => "DeployInProgress"
  | BackstageConditionReasonIdled => "Idled"
  end.

#[export] Instance reasonString_inj : Inj (=) (=) reasonString.
Proof. by intros [] []. Qed.

Record EnvObjectRef := mkEnvObjectRef {
  eor_Name : string;
  eor_Key : string;
  eor_Containers : list string
}.
#[export] Instance EnvObjectRef_eta : Eta EnvObjectRef := λ r,
  mkEnvObjectRef (eor_Name r) (eor_Key r) (eor_Containers r).
#[global] Instance EnvObjectRef_eq_dec : EqDecision EnvObjectRef.
Proof. solve_decision. Defined.

Record FileObjectRef := mkFileObjectRef {
  for_Name : string;
  for_Key : string;
  for_MountPath : string;
  for_Containers : list string
}.
#[export] Instance FileObjectRef_eta : Eta FileObjectRef := λ r,
  mkFileObjectRef (for_Name r) (for_Key r) (for_MountPath r) (for_Containers r).
#[global] Instance FileObjectRef_eq_dec : EqDecision FileObjectRef.
Proof. solve_decision. Defined.

Record PvcRef := mkPvcRef {
  pr_Name : string;
  pr_MountPath : string;
  pr_Containers : list string
}.
#[export] Instance PvcRef_eta : Eta PvcRef := λ r,
  mkPvcRef (pr_Name r) (pr_MountPath r) (pr_Containers r).
#[global] Instance PvcRef_eq_dec : EqDecision PvcRef.
Proof. solve_decision. Defined.

Record Env := mkEnv {
  env_Name : string;
  env_Value : string;
  env_Containers : list string
}.
#[export] Instance Env_eta : Eta Env := λ r,
  mkEnv (env_Name r) (env_Value r) (env_Containers r).
#[global] Instance Env_eq_dec : EqDecision Env.
Proof. solve_decision. Defined.

Record AppConfig := mkAppConfig {
  ac_MountPath : string;
  ac_ConfigMaps : list FileObjectRef
}.
#[export] Instance AppConfig_eta : Eta AppConfig := λ r,
  mkAppConfig (ac_MountPath r) (ac_ConfigMaps r).
#[global] Instance AppConfig_eq_dec : EqDecision AppConfig.
Proof. solve_decision. Defined.

Record ExtraFiles := mkExtraFiles {
  ef_MountPath : string;
  ef_ConfigMaps : list FileObjectRef;
  ef_Secrets : list FileObjectRef;
  ef_Pvcs : list PvcRef
}.
#[export] Instance ExtraFiles_eta : Eta ExtraFiles := λ r,
  mkExtraFiles (ef_MountPath r) (ef_ConfigMaps r) (ef_Secrets r) (ef_Pvcs r).
#[global] Instance ExtraFiles_eq_dec : EqDecision ExtraFiles.
Proof. solve_decision. Defined.

Record ExtraEnvs := mkExtraEnvs {
  ee_ConfigMaps : list EnvObjectRef;
  ee_Secrets : list EnvObjectRef;
  ee_Envs : list Env
}.
#[export] Instance ExtraEnvs_eta : Eta ExtraEnvs := λ r,
  mkExtraEnvs (ee_ConfigMaps r) (ee_Secrets r) (ee_Envs r).
#[global] Instance ExtraEnvs_eq_dec : EqDecision ExtraEnvs.
Proof. solve_decision. Defined.

Record TLS := mkTLS {
  Certificate : string;
  ExternalCertificateSecretName : string;
  Key : string;
  CACertificate : string
}.
#[export] Instance TLS_eta : Eta TLS := λ r,
  mkTLS (Certificate r) (ExternalCertificateSecretName r) (Key r) (CACertificate r).
#[global] Instance TLS_eq_dec : EqDecision TLS.
Proof. solve_decision. Defined.

Record Route := mkRoute {
  rt_Enabled : option bool;
  Host : string;
  Subdomain : string;
  rt_TLS : option TLS
}.
#[export] Instance Route_eta : Eta Route := λ r,
  mkRoute (rt_Enabled r) (Host r) (Subdomain r) (rt_TLS r).
#[global] Instance Route_eq_dec : EqDecision Route.
Proof. solve_decision. Defined.

Record Application := mkApplication {
  app_AppConfig : option AppConfig;
  DynamicPluginsConfigMapName : string;
  app_ExtraFiles : option ExtraFiles;
  app_ExtraEnvs : option ExtraEnvs;
  app_Route : option Route
}.
#[export] Instance Application_eta : Eta Application := λ r,
  mkApplication (app_AppConfig r) (DynamicPluginsConfigMapName r) (app_ExtraFiles r)
    (app_ExtraEnvs r) (app_Route r).
#[global] Instance Application_eq_dec : EqDecision Application.
Proof. solve_decision. Defined.

Record RuntimeConfig := mkRuntimeConfig {
  BackstageConfigName : string;
  LocalDbConfigName : string
}.
#[export] Instance RuntimeConfig_eta : Eta RuntimeConfig := λ r,
  mkRuntimeConfig (BackstageConfigName r) (LocalDbConfigName r).
#[global] Instance RuntimeConfig_eq_dec : EqDecision RuntimeConfig.
Proof. solve_decision. Defined.

Record Database := mkDatabase {
  EnableLocalDb : option bool;
  AuthSecretName : string
}.
#[export] Instance Database_eta : Eta Database := λ r,
  mkDatabase (EnableLocalDb r) (AuthSecretName r).
#[global] Instance Database_eq_dec : EqDecision Database.
Proof. solve_decision. Defined.

Record Monitoring := mkMonitoring {
  mon_Enabled : bool
}.
#[export] Instance Monitoring_eta : Eta Monitoring := λ r,
  mkMonitoring (mon_Enabled r).
#[global] Instance Monitoring_eq_dec : EqDecision Monitoring.
Proof. solve_decision. Defined.

Record BackstageDeployment := mkBackstageDeployment {
  Patch : option string;
  bd_Kind : string
}.
#[export] Instance BackstageDeployment_eta : Eta BackstageDeployment := λ r,
  mkBackstageDeployment (Patch r) (bd_Kind r).
#[global] Instance BackstageDeployment_eq_dec : EqDecision BackstageDeployment.
Proof. solve_decision. Defined.

Record Flavour := mkFlavour {
  fl_Name : string;
  fl_Enabled : bool
}.
#[export] Instance Flavour_eta : Eta Flavour := λ r,
  mkFlavour (fl_Name r) (fl_Enabled r).
#[global] Instance Flavour_eq_dec : EqDecision Flavour.
Proof. solve_decision. Defined.

Record BackstageSpec := mkBackstageSpec {
  spec_Application : option Application;
  RawRuntimeConfig : option RuntimeConfig;
  spec_Database : option Database;
  spec_Monitoring : Monitoring;
  spec_Deployment : option BackstageDeployment;
  Flavours : option (list Flavour)
}.
#[export] Instance BackstageSpec_eta : Eta BackstageSpec := λ r,
  mkBackstageSpec (spec_Application r) (RawRuntimeConfig r) (spec_Database r)
    (spec_Monitoring r) (spec_Deployment r) (Flavours r).
#[global] Instance BackstageSpec_eq_dec : EqDecision BackstageSpec.
Proof. solve_decision. Defined.

Record BackstageStatus := mkBackstageStatus {
  Conditions : list Condition
}.
#[export] Instance BackstageStatus_eta : Eta BackstageStatus := λ r,
  mkBackstageStatus (Conditions r).
#[global] Instance BackstageStatus_eq_dec : EqDecision BackstageStatus.
Proof. solve_decision. Defined.

Record Backstage := mkBackstage {
  bs_Meta : ObjectMeta;
  Spec : BackstageSpec;
  Status : BackstageStatus
}.
#[export] Instance Backstage_eta : Eta Backstage := λ r,
  mkBackstage (bs_Meta r) (Spec r) (Status r).
#[global] Instance Backstage_eq_dec : EqDecision Backstage.
Proof. solve_decision. Defined.

Definition emptyApplication : Application := mkApplication None "" None None None.
Definition emptySpec : BackstageSpec :=
  mkBackstageSpec None None None (mkMonitoring false) None None.

(** [backstage.Name] and its like, and [backstage.GetAnnotations()[k]]. *)
Definition bsName (b : Backstage) : string := Name (bs_Meta b).
Definition bsNamespace (b : Backstage) : string := Namespace (bs_Meta b).
Definition bsAnnotation (b : Backstage) (k : string) : string :=
  map_get (Annotations (bs_Meta b)) k.

(** ** Methods of the spec *)

Definition IsLocalDbEnabled (s : BackstageSpec) : bool :=
  match spec_Database s with
  | None => true
  | Some d => default true (EnableLocalDb d)
  end.

Definition IsRouteEnabled (s : BackstageSpec) : bool :=
  match spec_Application s with
  | Some a =>
      match app_Route a with
      | Some r => default true (rt_Enabled r)
      | None => true
      end
  | None => true
  end.

Definition IsAuthSecretSpecified (s : BackstageSpec) : bool :=
  match spec_Database s with
  | Some d => negb (bool_decide (AuthSecretName d = ""))
  | None => false
  end.

Definition IsMonitoringEnabled (s : BackstageSpec) : bool :=
  mon_Enabled (spec_Monitoring s).

(** [Application.X], nil when the application or the field is nil. *)
Definition specAppConfig (s : BackstageSpec) : option AppConfig :=
  spec_Application s ≫= app_AppConfig.
Definition specExtraFiles (s : BackstageSpec) : option ExtraFiles :=
  spec_Application s ≫= app_ExtraFiles.
Definition specExtraEnvs (s : BackstageSpec) : option ExtraEnvs :=
  spec_Application s ≫= app_ExtraEnvs.
Definition specRoute (s : BackstageSpec) : option Route :=
  spec_Application s ≫= app_Route.
Definition specDynamicPlugins (s : BackstageSpec) : string :=
  match spec_Application s with
  | Some a => DynamicPluginsConfigMapName a
  | None => ""
  end.

(** Without a [Database] section the local database is on, and only an
    explicit [false] turns it off; likewise for the route. *)
Lemma IsLocalDbEnabled_false_iff s :
  IsLocalDbEnabled s = false ↔
  ∃ d, spec_Database s = Some d ∧ EnableLocalDb d = Some false.
Proof.
  unfold IsLocalDbEnabled. destruct (spec_Database s) as [d|]; [|naive_solver].
  destruct (EnableLocalDb d) as [[]|] eqn:Hd; simpl; naive_solver.
Qed.

Lemma IsRouteEnabled_false_iff s :
  IsRouteEnabled s = false ↔
  ∃ r, specRoute s = Some r ∧ rt_Enabled r = Some false.
Proof.
  unfold IsRouteEnabled, specRoute. destruct (spec_Application s) as [a|]; simpl; [|naive_solver].
  destruct (app_Route a) as [r|]; simpl; [|naive_solver].
  destruct (rt_Enabled r) as [[]|] eqn:Hd; simpl; naive_solver.
Qed.

Lemma IsAuthSecretSpecified_iff s :
  IsAuthSecretSpecified s = true ↔
  ∃ d, spec_Database s = Some d ∧ AuthSecretName d ≠ "".
Proof.
  unfold IsAuthSecretSpecified. destruct (spec_Database s) as [d|]; [|naive_solver].
  case_bool_decide; naive_solver.
Qed.

End api.
