(* ===== verification/Externals.v ===== *)
(** * Interfaces of the code outside the repository

    What the operator calls and this development does not model is a class:
    the process environment and the file system as Go's [os] sees them during
    one reconciliation, the scheme and the YAML decoder of apimachinery, the
    kustomize merge, the YAML library for the dynamic plugins, and
    controller-runtime's owner references.  Each class holds the operations
    the operator calls and the laws, from the documentation of that code, that
    the operator relies on. *)

From S2P Require Import Prelude.
From S2P Require Import K8s.
From S2P Require Import Api.

(** ** Package os *)

Record DirEntry := mkDirEntry { de_Name : string; de_IsDir : bool }.
#[export] Instance DirEntry_eq_dec : EqDecision DirEntry.
Proof. solve_decision. Defined.

Class OS := {
  LookupEnv : string → option string;
  (** [os.Stat(p)], whose only field in use is [IsDir()] *)
  Stat : string → outcome bool;
  ReadFile : string → outcome string;
  ReadDir : string → outcome (list DirEntry)
}.

(** [os.Getenv] *)
Definition Getenv `{!OS} (k : string) : string := default "" (LookupEnv k).

(** ** apimachinery: the scheme and the decoders *)

Class KubeScheme := {
  Unstructured : Type;
  (** [yaml.Unmarshal(doc, &u.Object)] *)
  UnmarshalUnstructured : string → outcome Unstructured;
  (** every document of a stream, as successive calls of
      [NewYAMLOrJSONDecoder(...).Decode] give them before [io.EOF] *)
  DecodeStream : string → list (outcome Unstructured);
  unstructuredGVK : Unstructured → TypeMeta;
  unstructuredMeta : Unstructured → ObjectMeta;
  setUnstructuredMeta : ObjectMeta → Unstructured → Unstructured;
  (** [scheme.New(gvk)] *)
  scheme_New : TypeMeta → outcome KObject;
  FromUnstructured : Unstructured → KObject → outcome KObject;
  (** [scheme.ObjectKinds(obj)] *)
  ObjectKinds : KObject → outcome (list TypeMeta)
}.

(** ** kustomize: merge2.MergeStrings *)

Inductive ListIncreaseDirection :=
  | MergeOptionsListAppend
  | MergeOptionsListPrepend.
#[export] Instance ListIncreaseDirection_eq_dec : EqDecision ListIncreaseDirection.
Proof. solve_decision. Defined.

Class Merge2 := {
  (** [MergeStrings(src, dest, false, opts)]; [None] is the zero option *)
  MergeStrings : string → string → option ListIncreaseDirection → outcome string
}.

(** ** sigs.k8s.io/yaml on workloads *)

Class WorkloadYaml := {
  (** [yaml.Marshal(obj)] for a Deployment or a StatefulSet *)
  MarshalObject : KObject → outcome string;
  (** [yaml.Unmarshal(text, obj)] into an empty object *)
  UnmarshalDeployment : string → outcome Deployment;
  UnmarshalStatefulSet : string → outcome StatefulSet
}.

(** ** controller-runtime: owner references *)

Class Ownership := {
  (** [SetControllerReference(owner, obj, scheme)] on the metadata of [obj] *)
  SetControllerReference : api.Backstage → ObjectMeta → outcome ObjectMeta;
  SetControllerReference_only_owners b m m' :
    SetControllerReference b m = Ok m' → m' = m <| OwnerReferences := OwnerReferences m' |>;
  SetControllerReference_owned b m m' :
    SetControllerReference b m = Ok m' →
    mkOwnerReference "Backstage" (api.bsName b) true ∈ OwnerReferences m';
  (** the reference is made of the owner's kind and metadata *)
  SetControllerReference_meta b b' :
    api.bs_Meta b = api.bs_Meta b' → SetControllerReference b = SetControllerReference b'
}.

(** The reference implementation, for evaluating the model: an object without
    a controller gets one. *)
Program Definition Ownership_set : Ownership := {|
  SetControllerReference b m :=
    Ok (m <| OwnerReferences ::= λ l, l ++ [mkOwnerReference "Backstage" (api.bsName b) true] |>)
|}.
Next Obligation. by intros b m m' [= <-]. Qed.
Next Obligation. intros b m m' [= <-]. simpl. apply elem_of_app. right. by left. Qed.
Next Obligation. intros b b' Hb. unfold api.bsName. by rewrite Hb. Qed.

(** An environment and a file system given by finite maps. *)
Definition OS_of (env files : gmap string string) (dirs : gmap string (list DirEntry)) : OS := {|
  LookupEnv k := env !! k;
  Stat p :=
    match dirs !! p, files !! p with
    | Some _, _ => Ok true
    | None, Some _ => Ok false
    | None, None => Err (PathError "stat" p ENOENT)
    end;
  ReadFile p :=
    match files !! p with
    | Some c => Ok c
    | None => Err (PathError "open" p ENOENT)
    end;
  ReadDir p :=
    match dirs !! p with
    | Some es => Ok es
    | None => Err (PathError "open" p ENOENT)
    end
|}.
