(* ===== verification/Utils.v ===== *)
(** * Package utils (pkg/utils)

    Names and labels, environment variables, and reading objects from YAML.
    The central results are about [ToRFC1123Label], whose output is always
    usable as a volume name, and [SortedKeys], which removes the random order
    of Go maps from everything the operator mounts. *)

From S2P Require Import Prelude.
From S2P Require Import GoStrings.
From S2P Require Import K8s.
From S2P Require Import Api.
From S2P Require Import Externals.
From stdpp Require Import options.

Definition maxK8sResourceNameLength : nat := 63.

Definition BackstageAppLabel : string := "app.kubernetes.io/name".
Definition BackstageAppName : string := "backstage".
Definition BackstageInstanceLabel : string := "app.kubernetes.io/instance".

(** ** Labels, annotations, names *)

Definition SetKubeLabels (labels : gomap string) (backstageName : string) : gomap string :=
  let labels := map_make labels in
  Some (<[BackstageInstanceLabel := backstageName]> (<[BackstageAppLabel := BackstageAppName]> labels)).

#[global] Arguments SetKubeLabels : simpl never.

Definition GenerateLabel (labels : gomap string) (name value : string) : gomap string :=
  Some (<[name := value]> (map_make labels)).

#[global] Arguments GenerateLabel : simpl never.

Definition AddAnnotation (m : ObjectMeta) (name value : string) : ObjectMeta :=
  m <| Annotations ::= λ a, Some (<[name := value]> (map_make a)) |>.

Definition GenerateRuntimeObjectName (backstageCRName objectType : string) : string :=
  objectType +:+ "-" +:+ backstageCRName.

Definition BackstageAppLabelValue (backstageName : string) : string := "backstage-" +:+ backstageName.
Definition BackstageDbAppLabelValue (backstageName : string) : string := "backstage-psql-" +:+ backstageName.

Definition dash : ascii := "-"%char.

(** [a-z0-9-], what the first regular expression leaves alone *)
Definition label_char (c : ascii) : bool :=
  let n := nat_of_ascii c in
  bool_decide (97 ≤ n ≤ 122 ∨ 48 ≤ n ≤ 57 ∨ c = dash).

(** [for HasPrefix(name, dash) || HasSuffix(name, dash) { name = Trim(name, dash) }];
    [None] when the fuel runs out, see [trim_dashes_total]. *)
Fixpoint trim_dashes (fuel : nat) (name : string) : option string :=
  match fuel with
  | 0 => None
  | S fuel =>
      if strings.HasPrefix name "-" || strings.HasSuffix name "-"
      then trim_dashes fuel (strings.Trim name dash)
      else Some name
  end.

Definition ToRFC1123Label (s : string) : string :=
  let name := strings.ToLower s in
  let name := str ((λ c, if label_char c then c else dash) <$> chars name) in
  let name := str (squeeze dash (chars name)) in
  let name := if bool_decide (maxK8sResourceNameLength < String.length name)
              then slice_to name maxK8sResourceNameLength else name in
  default name (trim_dashes 2 name).

Definition GenerateVolumeNameFromCmOrSecret (cmOrSecretName : string) : string :=
  ToRFC1123Label cmOrSecretName.

(** What a label of RFC 1123 is, short of being non-empty. *)
Record label_shaped (s : string) : Prop := {
  label_length : String.length s ≤ maxK8sResourceNameLength;
  label_chars : Forall (λ c, label_char c = true) (chars s);
  label_head : head (chars s) ≠ Some dash;
  label_last : last (chars s) ≠ Some dash
}.

Section trim_dashes.

Lemma HasPrefix_dash s : strings.HasPrefix s "-" ↔ head (chars s) = Some dash.
Proof.
  unfold strings.HasPrefix. rewrite bool_decide_spec. simpl. split.
  - intros [k ->]. done.
  - intros H. destruct (chars s) as [|c l]; simplify_eq/=. by exists l.
Qed.

Lemma HasSuffix_dash s : strings.HasSuffix s "-" ↔ last (chars s) = Some dash.
Proof.
  unfold strings.HasSuffix. rewrite bool_decide_spec. simpl. split.
  - intros [k ->]. apply last_snoc.
  - intros [k Hk]%last_Some. by exists k.
Qed.

Lemma Trim_head s : head (chars (strings.Trim s dash)) ≠ Some dash.
Proof.
  unfold strings.Trim. rewrite chars_str. intros H.
  apply trim_both_head in H. by rewrite bool_decide_eq_true_2 in H.
Qed.

Lemma Trim_last s : last (chars (strings.Trim s dash)) ≠ Some dash.
Proof.
  unfold strings.Trim. rewrite chars_str. intros H.
  apply trim_both_last in H. by rewrite bool_decide_eq_true_2 in H.
Qed.

Lemma Trim_id s :
  head (chars s) ≠ Some dash → last (chars s) ≠ Some dash → strings.Trim s dash = s.
Proof.
  intros Hh Hl. unfold strings.Trim. rewrite trim_both_id; [apply str_chars|..];
    intros x Hx; case_bool_decide; [congruence|done|congruence|done].
Qed.

Lemma trim_cond_false s :
  head (chars s) ≠ Some dash → last (chars s) ≠ Some dash →
  (strings.HasPrefix s "-" || strings.HasSuffix s "-") = false.
Proof.
  intros Hh Hl. apply orb_false_iff.
  split; apply not_true_is_false; intros H%Is_true_true; [by apply HasPrefix_dash in H|by apply HasSuffix_dash in H].
Qed.

(** The trimming loop ends after at most one round: with any fuel of two or
    more it returns the trimmed name. *)
Lemma trim_dashes_total fuel s :
  2 ≤ fuel → trim_dashes fuel s = Some (strings.Trim s dash).
Proof.
  intros Hf. destruct fuel as [|[|fuel]]; [lia..|]. simpl.
  rewrite (trim_cond_false (strings.Trim s dash)) by (apply Trim_head || apply Trim_last).
  destruct (strings.HasPrefix s "-" || strings.HasSuffix s "-") eqn:Hc; [done|].
  apply orb_false_iff in Hc as [Hp Hs]. f_equal. symmetry. apply Trim_id.
  - intros H. apply HasPrefix_dash in H. by rewrite Hp in H.
  - intros H. apply HasSuffix_dash in H. by rewrite Hs in H.
Qed.

End trim_dashes.

Section label_lemmas.

Lemma label_char_lower c : label_char c = true → strings.lower c = c.
Proof.
  unfold label_char, strings.lower. rewrite bool_decide_eq_true. intros H.
  rewrite bool_decide_eq_false_2; [done|]. intros ?. destruct H as [?|[?| ->]]; try lia.
  assert (nat_of_ascii dash = 45) by done. lia.
Qed.

Lemma squeeze_cons2 {A} `{EqDecision A} (c x y : A) l :
  squeeze c (x :: y :: l) = if decide (x = c ∧ y = c) then squeeze c (y :: l) else x :: squeeze c (y :: l).
Proof. done. Qed.

Lemma squeeze_Forall {A} `{EqDecision A} (P : A → Prop) c l : Forall P l → Forall P (squeeze c l).
Proof.
  induction l as [|x [|y l] IH]; [done..|]. intros [Hx Hl]%Forall_cons. rewrite squeeze_cons2.
  case_decide; [by apply IH|]. constructor; [done|by apply IH].
Qed.

Lemma length_squeeze {A} `{EqDecision A} (c : A) l : length (squeeze c l) ≤ length l.
Proof. induction l as [|x [|y l] IH]; [done..|]. rewrite squeeze_cons2. case_decide; simpl in *; lia. Qed.

(** A list without two neighbouring dashes *)
Fixpoint no_double {A} (c : A) (l : list A) : Prop :=
  match l with
  | x :: (y :: _) as l' => ¬ (x = c ∧ y = c) ∧ no_double c l'
  | _ => True
  end.

Lemma squeeze_id {A} `{EqDecision A} (c : A) l : no_double c l → squeeze c l = l.
Proof.
  induction l as [|x [|y l] IH]; [done..|]. intros [Hx Hl]. rewrite squeeze_cons2.
  rewrite decide_False by done. f_equal. by apply IH.
Qed.

Lemma squeeze_head {A} `{EqDecision A} (c : A) l : head (squeeze c l) = head l.
Proof.
  induction l as [|x [|y l] IH]; [done..|]. rewrite squeeze_cons2.
  case_decide as H; [|done]. destruct H as [-> ->]. by rewrite IH.
Qed.

Lemma squeeze_no_double {A} `{EqDecision A} (c : A) l : no_double c (squeeze c l).
Proof.
  induction l as [|x [|y l] IH]; [done..|]. rewrite squeeze_cons2.
  case_decide as H; [done|].
  pose proof (squeeze_head c (y :: l)) as Hh.
  destruct (squeeze c (y :: l)) as [|z k]; [done|]. simpl in Hh. simplify_eq. by split.
Qed.

Lemma no_double_take {A} (c : A) n l : no_double c l → no_double c (take n l).
Proof.
  revert n. induction l as [|x [|y l] IH]; intros [|[|n]]; try done.
  intros [Hx Hl]. cbn [take no_double]. split; [done|]. apply (IH (S n) Hl).
Qed.

Lemma no_double_suffix {A} (c : A) l k : no_double c (l ++ k) → no_double c k.
Proof. induction l as [|x l IH]; [done|]. cbn [app]. destruct (l ++ k) eqn:E; [by destruct l, k|]. intros [_ H]. by apply IH. Qed.

Lemma no_double_prefix {A} (c : A) l k : no_double c (l ++ k) → no_double c l.
Proof. intros H%(no_double_take c (length l)). by rewrite take_app_length in H. Qed.

Lemma trim_both_infix {A} (f : A → bool) l : ∃ a b, l = a ++ trim_both f l ++ b.
Proof.
  unfold trim_both, drop_while_end.
  destruct (drop_while_suffix f l) as [a Ha].
  destruct (drop_while_suffix f (reverse (drop_while f l))) as [b Hb].
  exists a, (reverse b). rewrite Ha at 1. f_equal.
  by rewrite <- reverse_app, <- Hb, reverse_involutive.
Qed.

Lemma trim_both_no_double {A} (f : A → bool) (c : A) l : no_double c l → no_double c (trim_both f l).
Proof.
  intros H. destruct (trim_both_infix f l) as (a & b & Hl). rewrite Hl in H.
  by apply no_double_suffix, no_double_prefix in H.
Qed.

(** The name before trimming *)
Definition truncated (s : string) : string :=
  let name := str (squeeze dash ((λ c, if label_char c then c else dash) <$> chars (strings.ToLower s))) in
  if bool_decide (maxK8sResourceNameLength < String.length name)
  then slice_to name maxK8sResourceNameLength else name.

Lemma ToRFC1123Label_eq s : ToRFC1123Label s = strings.Trim (truncated s) dash.
Proof. unfold ToRFC1123Label, truncated. rewrite trim_dashes_total by lia. simpl. by rewrite !chars_str. Qed.

Lemma truncated_length s : String.length (truncated s) ≤ maxK8sResourceNameLength.
Proof.
  unfold truncated. case_bool_decide as H; [|lia].
  unfold slice_to. rewrite <- length_chars, chars_str, length_take. lia.
Qed.

Lemma truncated_chars s :
  Forall (λ c, label_char c = true) (chars (truncated s)) ∧ no_double dash (chars (truncated s)).
Proof.
  unfold truncated.
  set (l := squeeze _ _).
  assert (Forall (λ c, label_char c = true) l) as Hl.
  { apply squeeze_Forall, Forall_fmap, Forall_true. intros c. simpl.
    destruct (label_char c) eqn:Hc; [done|]. by vm_compute. }
  assert (no_double dash l) as Hn by apply squeeze_no_double.
  case_bool_decide; [|by rewrite chars_str].
  unfold slice_to. rewrite !chars_str. split; [by apply Forall_take|by apply no_double_take].
Qed.

Lemma Trim_label_shaped s :
  String.length s ≤ maxK8sResourceNameLength →
  Forall (λ c, label_char c = true) (chars s) → label_shaped (strings.Trim s dash).
Proof.
  intros Hlen Hc. split.
  - unfold strings.Trim. rewrite <- length_chars, chars_str.
    pose proof (length_trim_both (λ x, bool_decide (x = dash)) (chars s)).
    rewrite length_chars in *. lia.
  - unfold strings.Trim. rewrite chars_str. apply Forall_forall. intros x Hx%trim_both_subseteq.
    by eapply Forall_forall in Hc.
  - apply Trim_head.
  - apply Trim_last.
Qed.

Lemma truncated_id s :
  label_shaped s → no_double dash (chars s) → truncated s = s.
Proof.
  intros [Hlen Hc _ _] Hn. unfold truncated, strings.ToLower. rewrite chars_str.
  assert ((λ c, if label_char c then c else dash) <$> (strings.lower <$> chars s) = chars s) as ->.
  { clear Hlen Hn. induction Hc as [|x l Hx Hl IH]; csimpl; [done|].
    by rewrite label_char_lower, Hx, IH by done. }
  rewrite squeeze_id, str_chars by done. by rewrite bool_decide_eq_false_2 by lia.
Qed.

End label_lemmas.

(** Whatever the name of a ConfigMap or Secret, the volume name derived
    from it is at most 63 bytes of [a-z0-9-], neither starts nor ends with a
    dash, and holds no two dashes in a row. *)
Theorem ToRFC1123Label_valid s :
  label_shaped (ToRFC1123Label s) ∧ no_double dash (chars (ToRFC1123Label s)).
Proof.
  rewrite ToRFC1123Label_eq. destruct (truncated_chars s) as [Hc Hn]. split.
  - apply Trim_label_shaped; [apply truncated_length|done].
  - unfold strings.Trim. rewrite chars_str. by apply trim_both_no_double.
Qed.

(** The conversion keeps every name that is already a label without double
    dashes, so applying it twice changes nothing. *)
Theorem ToRFC1123Label_idempotent s :
  ToRFC1123Label (ToRFC1123Label s) = ToRFC1123Label s ∧
  (label_shaped s → no_double dash (chars s) → ToRFC1123Label s = s).
Proof.
  assert (∀ t, label_shaped t → no_double dash (chars t) → ToRFC1123Label t = t) as Hid.
  { intros t Ht Hn. rewrite ToRFC1123Label_eq, truncated_id by done.
    apply Trim_id; apply Ht. }
  split; [|apply Hid].
  rewrite (ToRFC1123Label_eq s). destruct (truncated_chars s) as [Hc Hn].
  apply Hid; [apply Trim_label_shaped; [apply truncated_length|done]|].
  unfold strings.Trim. rewrite chars_str. by apply trim_both_no_double.
Qed.

(** The conversion is not injective: two objects can get one volume name. *)
Example ToRFC1123Label_collision :
  ToRFC1123Label "secret.dot" = ToRFC1123Label "secret-dot".
Proof. by vm_compute. Qed.

(** ** Keys of a map in order *)

Definition SortedKeys `{!MapOrder} {V} (m : gomap V) : list string :=
  merge_sort String.le (range (map_make m)).*1.

Section SortedKeys.
Context {V : Type}.

Lemma SortedKeys_perm `{!MapOrder} (m : gomap V) :
  SortedKeys m ≡ₚ (map_to_list (map_make m)).*1.
Proof. unfold SortedKeys. rewrite merge_sort_Permutation. by rewrite range_perm. Qed.

Lemma SortedKeys_sorted `{!MapOrder} (m : gomap V) : Sorted String.le (SortedKeys m).
Proof. apply Sorted_merge_sort, _. Qed.

Lemma elem_of_SortedKeys `{!MapOrder} (m : gomap V) k :
  k ∈ SortedKeys m ↔ is_Some (map_lookup m k).
Proof.
  rewrite SortedKeys_perm, list_elem_of_fmap. unfold map_lookup, map_make. split.
  - intros ([k' v] & -> & Hv%elem_of_map_to_list). destruct m; simpl in *; [by eexists|].
    by rewrite lookup_empty in Hv.
  - intros [v Hv]. destruct m as [m|]; [|done]. exists (k, v). split; [done|].
    by apply elem_of_map_to_list.
Qed.

Lemma NoDup_SortedKeys `{!MapOrder} (m : gomap V) : NoDup (SortedKeys m).
Proof. rewrite SortedKeys_perm. apply NoDup_fst_map_to_list. Qed.

Lemma SortedKeys_nil `{!MapOrder} : SortedKeys (None : gomap V) = [].
Proof. apply Permutation_nil_r. rewrite SortedKeys_perm. simpl. by rewrite map_to_list_empty. Qed.

(** The keys of a map come out in increasing order, each once, whatever
    order the run visits the map in: two runs agree. *)
Theorem SortedKeys_deterministic (o1 o2 : MapOrder) (m : gomap V) :
  @SortedKeys o1 V m = @SortedKeys o2 V m ∧
  StronglySorted String.le (@SortedKeys o1 V m) ∧ NoDup (@SortedKeys o1 V m).
Proof.
  split_and!; [|apply Sorted_StronglySorted, SortedKeys_sorted; apply _|apply NoDup_SortedKeys].
  apply (Sorted_unique String.le); [apply SortedKeys_sorted..|].
  by rewrite !SortedKeys_perm.
Qed.

End SortedKeys.

(** ** Environment and annotations *)

Section env.
Context `{os : !OS}.

Definition BoolEnvVar (envvar : string) (def : bool) : bool :=
  match LookupEnv envvar with
  | Some envValue =>
      match strconv.ParseBool envValue with
      | Ok ret => ret
      | _ => def
      end
  | None => def
  end.

Definition DefFile (key : string) : string :=
  filepath.Join [Getenv "LOCALBIN"; "default-config"; key].

Lemma BoolEnvVar_unset v def : LookupEnv v = None → BoolEnvVar v def = def.
Proof. unfold BoolEnvVar. by intros ->. Qed.

Lemma BoolEnvVar_set v b def : LookupEnv v = Some (strconv.FormatBool b) → BoolEnvVar v def = b.
Proof. unfold BoolEnvVar. intros ->. by rewrite strconv.ParseBool_FormatBool. Qed.

End env.

(** The loop of [ParseCommaSeparated]: append the trimmed part unless empty. *)
Definition ParseCommaSeparated (input : string) : list string :=
  foldl (λ result part,
    let t := strings.TrimSpace part in
    if bool_decide (t ≠ "") then result ++ [t] else result)
    [] (strings.Split input ",").

Lemma ParseCommaSeparated_filter input :
  ParseCommaSeparated input = filter (.≠ "") (strings.TrimSpace <$> strings.Split input ",").
Proof.
  unfold ParseCommaSeparated. generalize (strings.Split input ",") as parts. intros parts.
  assert (∀ acc, foldl (λ result part, let t := strings.TrimSpace part in
    if bool_decide (t ≠ "") then result ++ [t] else result) acc parts =
    acc ++ filter (.≠ "") (strings.TrimSpace <$> parts)) as H; [|apply (H [])].
  induction parts as [|p parts IH]; intros acc; csimpl; [by rewrite app_nil_r|].
  rewrite IH, filter_cons. case_bool_decide; case_decide; try done.
  by rewrite <- (assoc_L (++)).
Qed.

(** Text without commas, without surrounding blanks, and non-empty *)
Definition list_item (s : string) : Prop :=
  ","%char ∉ chars s ∧ strings.TrimSpace s = s ∧ s ≠ "".

(** Writing names separated by commas and reading them back gives the
    names: a containers annotation names exactly the containers it lists. *)
Theorem ParseCommaSeparated_Join names :
  Forall list_item names → ParseCommaSeparated (strings.Join names ",") = names.
Proof.
  intros H. rewrite ParseCommaSeparated_filter.
  destruct names as [|n names]; [by vm_compute|].
  rewrite strings.Split_Join; [|done|by eapply Forall_impl; [done|intros x (Hx & _)]].
  clear -H. induction H as [|x l (_ & Hx & Hne) Hl IH]; [done|].
  csimpl. by rewrite Hx, filter_cons, decide_True, IH.
Qed.

Lemma ParseCommaSeparated_Join_witness :
  ParseCommaSeparated (strings.Join ["install-dynamic-plugins"; "backstage-backend"] ",")
    = ["install-dynamic-plugins"; "backstage-backend"].
Proof.
  apply ParseCommaSeparated_Join.
  repeat constructor; try by vm_compute.
  all: intros H; vm_compute in H; repeat (apply elem_of_cons in H as [H|H]; [done|]); by apply not_elem_of_nil in H.
Defined.

(** ** Reading objects from YAML *)

(** The documents of a manifest: [regexp.MustCompile(`(?m)^---\s*$`).Split].
    The separator starts a line with three dashes and takes the longest run of
    blanks that ends before a line end or at the end of the text. *)
Definition re_space (c : ascii) : bool :=
  let n := nat_of_ascii c in bool_decide (n ∈ [9; 10; 12; 13; 32]).
Definition newline : ascii := ascii_of_nat 10.

Fixpoint take_while {A} (f : A → bool) (l : list A) : list A :=
  match l with
  | [] => []
  | x :: l' => if f x then x :: take_while f l' else []
  end.

(** The length of a separator at the start of [l], if there is one. *)
Definition match_separator (l : list ascii) : option nat :=
  if bool_decide ([dash; dash; dash] `prefix_of` l) then
    let rest := drop 3 l in
    let blanks := take_while re_space rest in
    if bool_decide (length blanks = length rest) then Some (3 + length rest)
    else j ← list_last_index [newline] blanks; Some (3 + j)
  else None.

(** [bol]: at the beginning of a line; [skip]: bytes of a separator to drop. *)
Fixpoint split_docs (bol : bool) (skip : nat) (cur l : list ascii) : list (list ascii) :=
  match l with
  | [] => [reverse cur]
  | c :: l' =>
      let bol' := bool_decide (c = newline) in
      match skip with
      | S k => split_docs bol' k cur l'
      | 0 =>
          match (if bol then match_separator l else None) with
          | Some n => reverse cur :: split_docs bol' (pred n) [] l'
          | None => split_docs bol' 0 (c :: cur) l'
          end
      end
  end.

(** The trimmed documents that are not empty, which the loop of [ReadYamls]
    decodes. *)
Definition yaml_documents (manifest : string) : list string :=
  filter (.≠ "") ((λ d, strings.TrimSpace (str d)) <$> split_docs true 0 [] (chars manifest)).

Definition newline_string : string := str [newline].

Example yaml_documents_1 :
  yaml_documents (strings.Join ["a: 1"; "--- "; "b: 2"; "---"; ""; "---x"; ""] newline_string)
  = ["a: 1"; "b: 2"; "---x"].
Proof. by vm_compute. Qed.

Section yaml.
Context `{ks : !KubeScheme}.

Definition checkObjectKind (object : KObject) : outcome unit :=
  gvks ← wrapErr "failed to obtain object Kind" (ObjectKinds object);
  if bool_decide (objectType object ∈ gvks) then Ok ()
  else Err (Errorf ("GroupVersionKind not match, found: " +:+ Kind (objectType object))).

Definition GetObjectKind (object : KObject) : outcome (option TypeMeta) :=
  match ObjectKinds object with
  | Ok [] => Panic "index out of range [0] with length 0"
  | Ok (gvk :: _) => Ok (Some gvk)
  | Err _ => Ok None
  | Panic w => Panic w
  end.

(** One document: decode, instantiate the type of its kind, convert. *)
Definition ReadYamlDoc `{!Merge2} (platformPatch : option string) (doc : string) : outcome KObject :=
  mergedDoc ← match platformPatch with
              | Some p => wrapErr "failed to merge platform patch" (MergeStrings p doc None)
              | None => Ok doc
              end;
  u ← wrapErr "failed to unmarshal YAML to unstructured" (UnmarshalUnstructured mergedDoc);
  let gvk := unstructuredGVK u in
  obj ← wrapErr ("create new object from scheme for GVK " +:+ Kind gvk) (scheme_New gvk);
  obj ← wrapErr ("convert to typed object " +:+ Kind gvk) (FromUnstructured u obj);
  if isClientObject obj then
    _ ← checkObjectKind obj;
    Ok obj
  else Err (Errorf ("converted object does not implement client.Object, type=" +:+ goType obj)).

Definition ReadYamls `{!Merge2} (manifest : string) (platformPatch : option string) : outcome (list KObject) :=
  collect (ReadYamlDoc platformPatch) [] (yaml_documents manifest).

Definition ReadPlatformPatch `{!OS} (path platformExt : string) : outcome (option string) :=
  match ReadFile (filepath.Clean (path +:+ "." +:+ platformExt)) with
  | Ok b => Ok (Some b)
  | Err e => if errors_Is_NotExist e then Ok None
             else Err (Wrapf "failed to read platform patch" e)
  | Panic w => Panic w
  end.

Definition ReadYamlFiles `{!OS, !Merge2} (path platformExt : string) : outcome (list KObject) :=
  let fpath := filepath.Clean path in
  _ ← Stat fpath;
  conf ← wrapErr "failed to read YAML file" (ReadFile fpath);
  pp ← wrapErr "failed to read platform patch" (ReadPlatformPatch fpath platformExt);
  ReadYamls conf pp.

(** [ReadYamlContent]: every document of the stream, or the first error. *)
Definition ReadYamlContent (content : string) : outcome (list Unstructured) :=
  collect (wrapErr "failed to decode YAML content") [] (DecodeStream content).

Definition ReadYamlFile `{!OS} (path : string) : outcome (list Unstructured) :=
  let fpath := filepath.Clean path in
  _ ← Stat fpath;
  conf ← wrapErr "failed to read YAML file" (ReadFile fpath);
  collect (wrapErr "failed to decode YAML") [] (DecodeStream conf).

Definition IsYamlFile (filename : string) : bool :=
  let ext := filepath.Ext filename in bool_decide (ext = ".yaml" ∨ ext = ".yml").

(** [os.Stat] may fail for another reason than a missing path; the returned
    [FileInfo] is nil then, and [info.IsDir()] panics. *)
Definition DirectoryExists `{!OS} (path : string) : outcome bool :=
  match Stat path with
  | Ok isDir => Ok isDir
  | Err e => if os_IsNotExist e then Ok false
             else Panic "nil pointer dereference: info.IsDir()"
  | Panic w => Panic w
  end.

Lemma ReadYamlDoc_ok `{!Merge2} pp doc obj :
  ReadYamlDoc pp doc = Ok obj →
  isClientObject obj = true ∧
  ∃ gvks, ObjectKinds obj = Ok gvks ∧ objectType obj ∈ gvks.
Proof.
  unfold ReadYamlDoc, checkObjectKind. intros Hr. inv_ok.
  destruct (isClientObject _) eqn:Hc; [|done]. inv_ok.
  case_bool_decide; [|done]. split; [done|]. by eexists.
Qed.

(** Reading a manifest gives one object per non-blank document, in order;
    each is a [client.Object] whose kind the scheme knows for its Go type. *)
Theorem ReadYamls_objects `{!Merge2} manifest pp objs :
  ReadYamls manifest pp = Ok objs →
  Forall2 (λ doc obj, ReadYamlDoc pp doc = Ok obj) (yaml_documents manifest) objs ∧
  Forall (λ obj, isClientObject obj = true ∧
    ∃ gvks, ObjectKinds obj = Ok gvks ∧ objectType obj ∈ gvks) objs.
Proof.
  unfold ReadYamls. rewrite collect_Ok. intros (objs' & -> & Hall). split; [done|].
  simpl. induction Hall; constructor; [by eapply ReadYamlDoc_ok|done].
Qed.

(** An absent platform patch is not an error. *)
Lemma ReadPlatformPatch_absent `{!OS} path ext :
  ReadFile (filepath.Clean (path +:+ "." +:+ ext)) = Err (PathError "open" (filepath.Clean (path +:+ "." +:+ ext)) ENOENT) →
  ReadPlatformPatch path ext = Ok None.
Proof. unfold ReadPlatformPatch. by intros ->. Qed.

(** A directory the operator may not look at makes [DirectoryExists] panic. *)
Theorem DirectoryExists_panics `{!OS} path :
  is_Panic (Stat path) = false →
  is_Panic (DirectoryExists path) = true ↔
  ∃ e, Stat path = Err e ∧ os_IsNotExist e = false.
Proof.
  unfold DirectoryExists. destruct (Stat path) as [b|e|w]; simpl; [naive_solver| |done].
  intros _. destruct (os_IsNotExist e) eqn:He; naive_solver.
Qed.

End yaml.

(** ** Passwords

    crypto/rand is a function from a length to that many bytes; the text is
    base64 with padding. *)

Class Rand := {
  rand_Read : nat → outcome (list ascii);
  rand_Read_length n l : rand_Read n = Ok l → length l = n
}.

Definition base64_alphabet : list ascii :=
  chars "ABCDEFGHIJKLMNOPQRSTUVWXYZabcdefghijklmnopqrstuvwxyz0123456789+/".
Definition base64_char (n : N) : ascii := nth (N.to_nat n) base64_alphabet "A"%char.

Fixpoint base64_encode (l : list ascii) : list ascii :=
  match l with
  | a :: b :: c :: l' =>
      let n := (N_of_ascii a * 65536 + N_of_ascii b * 256 + N_of_ascii c)%N in
      base64_char (n / 262144) :: base64_char (n / 4096 mod 64) ::
      base64_char (n / 64 mod 64) :: base64_char (n mod 64) :: base64_encode l'
  | [a; b] =>
      let n := (N_of_ascii a * 65536 + N_of_ascii b * 256)%N in
      [base64_char (n / 262144); base64_char (n / 4096 mod 64); base64_char (n / 64 mod 64); "="%char]
  | [a] =>
      let n := (N_of_ascii a * 65536)%N in
      [base64_char (n / 262144); base64_char (n / 4096 mod 64); "="%char; "="%char]
  | [] => []
  end.

Example base64_1 : str (base64_encode (chars "Many hands")) = "TWFueSBoYW5kcw==".
Proof. by vm_compute. Qed.

Definition GeneratePassword `{!Rand} (n : nat) : outcome string :=
  buff ← rand_Read n;
  Ok (str (base64_encode buff)).

Lemma length_base64_encode l : length (base64_encode l) = 4 * ((length l + 2) / 3).
Proof.
  induction l as [l IH] using (induction_ltof1 _ length). unfold ltof in IH.
  destruct l as [|a [|b [|c l]]]; [done..|]. cbn [base64_encode length]. rewrite IH by (simpl; lia).
  replace (S (S (S (length l))) + 2) with (1 * 3 + (length l + 2)) by lia.
  rewrite Nat.div_add_l by lia. lia.
Qed.

Lemma GeneratePassword_length `{!Rand} n p :
  GeneratePassword n = Ok p → String.length p = 4 * ((n + 2) / 3).
Proof.
  unfold GeneratePassword. intros Hp. inv_ok. rewrite <- length_chars, chars_str, length_base64_encode.
  by erewrite rand_Read_length.
Qed.
