(* ===== verification/YamlDir.v ===== *)
(** * The YAML files below a directory (pkg/utils/yaml.go)

    [ReadYamlFilesFromDir] walks a directory tree with Go's [filepath.WalkDir]
    and reads every YAML file in it.  The walk recurses into directories; the
    fuel bounds their nesting, and on a tree that is nested no deeper the
    function reads the files of the tree in order, or returns the first error. *)

From S2P Require Import Prelude.
From S2P Require Import GoStrings.
From S2P Require Import K8s.
From S2P Require Import Api.
From S2P Require Import Externals.
From S2P Require Import Utils.
From stdpp Require Import options.

(** [os.Lstat], which does not follow a symbolic link, as an entry *)
Class Links := { Lstat : string → outcome DirEntry }.

(** ** filepath.WalkDir

    The callback carries the variables it has captured; it gets the error the
    walk has met, if any, and a nil entry when the root cannot be looked at.  A
    callback that never returns [SkipDir] or [SkipAll] ends the walk with its
    first error. *)

Section walk.
Context `{os : !OS, links : !Links} {A : Type}.
Context (fn : A → string → option DirEntry → option error → outcome A).

Fixpoint walkDir (fuel : nat) (a : A) (path : string) (d : DirEntry) : outcome A :=
  match fuel with
  | 0 => Panic "out of fuel"
  | S fuel =>
      a ← fn a path (Some d) None;
      if negb (de_IsDir d) then Ok a
      else match ReadDir path with
           | Err e => fn a path (Some d) (Some e)
           | Panic w => Panic w
           | Ok dirs => foldM (λ a d1, walkDir fuel a (filepath.Join [path; de_Name d1]) d1) a dirs
           end
  end.

Definition WalkDir (fuel : nat) (a : A) (root : string) : outcome A :=
  match Lstat root with
  | Err e => fn a root None (Some e)
  | Panic w => Panic w
  | Ok d => walkDir fuel a root d
  end.

End walk.

(** ** ReadYamlFilesFromDir *)

Section read.
Context `{os : !OS, links : !Links, ks : !KubeScheme}.

(** The function it gives to the walk *)
Definition readWalked (objects : list Unstructured) (path : string) (d : option DirEntry) (err : option error) :
    outcome (list Unstructured) :=
  match err with
  | Some e => Err e
  | None =>
      d ← deref "d" d;
      if de_IsDir d || negb (IsYamlFile (de_Name d)) then Ok objects
      else
        objs ← wrapErr ("failed to read YAML file " +:+ path) (ReadYamlFile path);
        Ok (objects ++ objs)
  end.

Definition ReadYamlFilesFromDir (fuel : nat) (dir : string) : outcome (list Unstructured) :=
  found ← DirectoryExists dir;
  if negb found then Ok []
  else WalkDir readWalked fuel [] dir.

(** ** What is read

    The entries of the tree below a path, each with its path, in the order of
    the walk; a directory comes before what it holds.  A directory that cannot
    be listed ends the walk, with its error. *)
Inductive Visited :=
  | Entry (path : string) (d : DirEntry)
  | Unlisted (e : error).

Fixpoint visited (n : nat) (path : string) (d : DirEntry) : list Visited :=
  Entry path d ::
  match n with
  | 0 => []
  | S n =>
      if de_IsDir d then
        match ReadDir path with
        | Ok dirs => dirs ≫= λ d1, visited n (filepath.Join [path; de_Name d1]) d1
        | Err e => [Unlisted e]
        | Panic _ => []
        end
      else []
  end.

(** The directories below a path are nested at most that deep. *)
Inductive nested : nat → string → DirEntry → Prop :=
  | nested_file n path d : de_IsDir d = false → nested n path d
  | nested_dir n path d dirs : ReadDir path = Ok dirs →
      Forall (λ d1, nested n (filepath.Join [path; de_Name d1]) d1) dirs → nested (S n) path d
  | nested_unlisted n path d e : ReadDir path = Err e → nested (S n) path d.

(** What reading one of them gives *)
Definition readEntry (v : Visited) : outcome (list Unstructured) :=
  match v with
  | Entry path d =>
      if de_IsDir d || negb (IsYamlFile (de_Name d)) then Ok []
      else wrapErr ("failed to read YAML file " +:+ path) (ReadYamlFile path)
  | Unlisted e => Err e
  end.

(** Reading a list of them from left to right, up to the first error *)
Definition readAll (objects : list Unstructured) (l : list Visited) : outcome (list Unstructured) :=
  foldM (λ objects v, objs ← readEntry v; Ok (objects ++ objs)) objects l.

Lemma readWalked_entry objects path d :
  readWalked objects path (Some d) None = objs ← readEntry (Entry path d); Ok (objects ++ objs).
Proof. simpl. destruct (_ || _); simpl; [by rewrite app_nil_r|done]. Qed.

Lemma readAll_bind {B} (f : B → list Visited) l objects :
  readAll objects (l ≫= f) = foldM (λ objects x, readAll objects (f x)) objects l.
Proof.
  revert objects. induction l as [|x l IH]; intros objects; [done|]. cbn [mbind list_bind foldM]. unfold readAll at 1.
  rewrite foldM_app. fold (readAll objects (f x)). destruct (readAll objects (f x)); simpl; [apply IH|done..].
Qed.

Lemma readAll_cons objects v l :
  readAll objects (v :: l) = objs ← readEntry v; readAll (objects ++ objs) l.
Proof. unfold readAll. cbn [foldM]. by destruct (readEntry v). Qed.

Lemma nested_mono n m path d : nested n path d → n ≤ m → nested m path d.
Proof.
  revert m path d. induction n as [|n IH]; intros m path d Hn Hle; inversion Hn as [? ? ? Hf|? ? ? dirs Hd Hc|? ? ? e He]; subst.
  - by constructor.
  - by constructor.
  - destruct m as [|m]; [lia|]. eapply nested_dir; [done|]. eapply Forall_impl; [exact Hc|]. intros d1 H. apply IH; [done|lia].
  - destruct m as [|m]; [lia|]. by eapply nested_unlisted.
Qed.

(** With fuel for the nesting the walk reads what it visits. *)
Lemma walkDir_visited n path d objects :
  nested n path d → walkDir readWalked (S n) objects path d = readAll objects (visited n path d).
Proof.
  revert path d objects. induction n as [|n IH]; intros path d objects Hn.
  { inversion Hn as [? ? ? Hf| |]; subst. cbn [walkDir visited]. rewrite readWalked_entry, readAll_cons, Hf.
    by destruct (readEntry _). }
  remember (S n) as k. cbn [walkDir]. subst k. cbn [visited]. rewrite readWalked_entry, readAll_cons.
  destruct (readEntry _) as [objs|e|w]; cbn [mbind outcome_bind]; [|done..].
  destruct (de_IsDir d) eqn:Hdir; [|done]. cbn [negb].
  inversion Hn as [? ? ? Hf|? ? ? dirs Hd Hc|? ? ? e He]; subst; [congruence| |by rewrite He].
  rewrite Hd, readAll_bind. generalize (objects ++ objs) as acc. clear Hd Hn.
  induction Hc as [|d1 dirs H1 Hc IHc]; intros acc; [done|]. cbn [foldM]. rewrite IH by done.
  destruct (readAll _ _); simpl; [apply IHc|done..].
Qed.

(** Reading a list succeeds when reading each does, and joins the results. *)
Lemma readAll_Ok objects l res :
  readAll objects l = Ok res ↔ ∃ rs, Forall2 (λ v r, readEntry v = Ok r) l rs ∧ res = objects ++ concat rs.
Proof.
  revert objects. induction l as [|v l IH]; intros objects.
  { split; [intros [= <-]; exists []; by rewrite app_nil_r|]. intros (rs & ->%Forall2_nil_inv_l & ->). by rewrite app_nil_r. }
  rewrite readAll_cons, bind_Ok_inv. setoid_rewrite IH. split.
  - intros (r & Hr & rs & Hrs & ->). exists (r :: rs). simpl. rewrite (assoc_L (++)). by split; [constructor|].
  - intros (rs & (r & rs' & Hr & Hrs & ->)%Forall2_cons_inv_l & ->). exists r. split; [done|]. exists rs'.
    simpl. by rewrite (assoc_L (++)).
Qed.

(** A directory that is not there holds no objects.  Of one that is there, with
    directories nested less deep than the fuel, the objects are those of its
    YAML files, at any depth, in the order of the walk; the call fails when one
    of the files or directories cannot be read. *)
Theorem ReadYamlFilesFromDir_result fuel n dir :
  (∀ e, Stat dir = Err e → os_IsNotExist e = true → ReadYamlFilesFromDir fuel dir = Ok []) ∧
  (∀ d, Stat dir = Ok true → Lstat dir = Ok d → nested n dir d → n < fuel →
    ReadYamlFilesFromDir fuel dir = readAll [] (visited (fuel - 1) dir d) ∧
    ∀ objects, ReadYamlFilesFromDir fuel dir = Ok objects ↔
      ∃ rs, Forall2 (λ v r, readEntry v = Ok r) (visited (fuel - 1) dir d) rs ∧ objects = concat rs).
Proof.
  unfold ReadYamlFilesFromDir, DirectoryExists. split.
  - intros e -> He. by rewrite He.
  - intros d -> Hd Hn Hf. simpl. unfold WalkDir. rewrite Hd. destruct fuel as [|fuel]; [lia|].
    rewrite walkDir_visited by (eapply nested_mono; [done|lia]). replace (S fuel - 1) with fuel by lia.
    split; [done|]. intros objects. by rewrite readAll_Ok.
Qed.

End read.

(** ** A directory with a directory in it *)

Section example.
#[local] Instance example_dir_scheme : KubeScheme := {|
  Unstructured := string;
  UnmarshalUnstructured s := Ok s;
  DecodeStream s := [Ok s];
  unstructuredGVK _ := mkTypeMeta "v1" "ConfigMap";
  unstructuredMeta s := mkObjectMeta s "" None None [];
  setUnstructuredMeta m _ := Name m;
  scheme_New _ := Ok (KConfigMap emptyConfigMap);
  FromUnstructured _ _ := Ok (KConfigMap emptyConfigMap);
  ObjectKinds _ := Ok [mkTypeMeta "v1" "ConfigMap"]
|}.
#[local] Instance example_dir_os : OS :=
  OS_of ∅ {["d/a.yaml" := "A"; "d/b.txt" := "B"; "d/sub/c.yml" := "C"; "d/z.yaml" := "Z"]}
    {["d" := [mkDirEntry "a.yaml" false; mkDirEntry "b.txt" false; mkDirEntry "sub" true; mkDirEntry "z.yaml" false];
      "d/sub" := [mkDirEntry "c.yml" false]]}.
#[local] Instance example_dir_links : Links := {| Lstat p := Ok (mkDirEntry p true) |}.

Example ReadYamlFilesFromDir_files : ReadYamlFilesFromDir 3 "d" = Ok ["A"; "C"; "Z"].
Proof. by vm_compute. Qed.
Example ReadYamlFilesFromDir_missing : ReadYamlFilesFromDir 3 "e" = Ok [].
Proof. by vm_compute. Qed.

Lemma ReadYamlFilesFromDir_result_witness :
  ReadYamlFilesFromDir 3 "d" = readAll [] (visited 2 "d" (mkDirEntry "d" true)).
Proof.
  refine (proj1 (proj2 (ReadYamlFilesFromDir_result 3 2 "d") (mkDirEntry "d" true) eq_refl eq_refl _ _)); [|lia].
  eapply nested_dir; [done|]. repeat apply Forall_cons_2; try by constructor.
  eapply nested_dir; [done|]. repeat apply Forall_cons_2; by constructor.
Defined.

End example.
