(* ===== verification/Json.v ===== *)
(** * Go values on the wire

    What Go's encoding/json and the decoder of the Kubernetes client make of a
    struct with json tags: a field with omitempty is left out when it is empty,
    a field that is missing or null leaves the zero value, an unknown field is
    ignored, and the names of fields are matched exactly.

    [Reads f] states that a value written as one type and read as another is
    [f] of it; with the identity it is the round trip.  Instances for the
    constructors compose, so that a struct needs one for each field. *)

From S2P Require Import Prelude.
From stdpp Require Import options.

(** A decoded JSON document; an object keeps its members in their order. *)
#[local] Unset Elimination Schemes.
Inductive JSON :=
  | JNull
  | JBool (b : bool)
  | JNum (z : Z)
  | JStr (s : string)
  | JArr (l : list JSON)
  | JObj (kvs : list (string * JSON)).
#[local] Set Elimination Schemes.

Definition is_JNull (j : JSON) : bool := match j with JNull => true | _ => false end.

(** The last member of a name *)
Fixpoint jlookup (k : string) (kvs : list (string * JSON)) : option JSON :=
  match kvs with
  | [] => None
  | (k', v) :: kvs =>
      match jlookup k kvs with
      | Some w => Some w
      | None => if String.eqb k' k then Some v else None
      end
  end.

(** The zero value of a type, what omitempty leaves out of it, and its two
    directions *)
Class GoJson (A : Type) := {
  zero : A;
  isEmpty : A → bool;
  marshal : A → JSON;
  unmarshal : JSON → outcome A
}.

Definition typeError (what : string) : error := Errorf ("json: cannot unmarshal into Go value of type " +:+ what).

#[export] Instance string_json : GoJson string := {|
  zero := "";
  isEmpty s := bool_decide (s = "");
  marshal := JStr;
  unmarshal j := match j with JStr s => Ok s | JNull => Ok "" | _ => Err (typeError "string") end
|}.

#[export] Instance bool_json : GoJson bool := {|
  zero := false;
  isEmpty := negb;
  marshal := JBool;
  unmarshal j := match j with JBool b => Ok b | JNull => Ok false | _ => Err (typeError "bool") end
|}.

(** [int32]; a number out of its range is an error. *)
Definition int32_range (z : Z) : bool := bool_decide (-2147483648 ≤ z < 2147483648)%Z.
Record int32 := mkInt32 { int32_val : Z; int32_ok : int32_range int32_val = true }.
#[export] Instance int32_eq_dec : EqDecision int32.
Proof.
  intros [x Hx] [y Hy]. destruct (decide (x = y)) as [->|H]; [left|right; by intros [= ->]].
  f_equal. apply (proof_irrel Hx Hy).
Defined.

Definition toInt32 (z : Z) : outcome int32 :=
  match int32_range z as b return int32_range z = b → outcome int32 with
  | true => λ H, Ok (mkInt32 z H)
  | false => λ _, Err (typeError "int32")
  end eq_refl.

Lemma toInt32_val (x : int32) : toInt32 (int32_val x) = Ok x.
Proof.
  destruct x as [z Hz]. simpl. unfold toInt32. generalize (eq_refl (int32_range z)).
  generalize (int32_range z) at 2 3 as b. intros [] H; [|congruence]. f_equal. f_equal. apply (proof_irrel H Hz).
Qed.

#[export] Instance int32_json : GoJson int32 := {|
  zero := mkInt32 0 eq_refl;
  isEmpty x := bool_decide (int32_val x = 0%Z);
  marshal x := JNum (int32_val x);
  unmarshal j := match j with JNum z => toInt32 z | JNull => Ok (mkInt32 0 eq_refl) | _ => Err (typeError "int32") end
|}.

(** A slice that has been made, possibly empty *)
#[export] Instance list_json `{GoJson A} : GoJson (list A) := {|
  zero := [];
  isEmpty l := bool_decide (length l = 0);
  marshal l := JArr (marshal <$> l);
  unmarshal j := match j with JArr l => collect unmarshal [] l | JNull => Ok [] | _ => Err (typeError "slice") end
|}.

(** Any slice: a nil one is written as null, and null is read as a nil one. *)
Record Slice (A : Type) := mkSlice { elements : option (list A) }.
#[global] Arguments mkSlice {A} elements.
#[global] Arguments elements {A} s.
#[export] Instance slice_json `{GoJson A} : GoJson (Slice A) := {|
  zero := mkSlice None;
  isEmpty s := bool_decide (length (default [] (elements s)) = 0);
  marshal s := match elements s with Some l => marshal l | None => JNull end;
  unmarshal j := if is_JNull j then Ok (mkSlice None) else l ← unmarshal j; Ok (mkSlice (Some l))
|}.

(** A pointer: null is the nil pointer, whatever it points to. *)
#[export] Instance option_json `{GoJson A} : GoJson (option A) := {|
  zero := None;
  isEmpty x := match x with None => true | Some _ => false end;
  marshal x := match x with Some a => marshal a | None => JNull end;
  unmarshal j := if is_JNull j then Ok None else a ← unmarshal j; Ok (Some a)
|}.

(** ** Structs *)

(** A field with its tag: the name and whether it has omitempty *)
Definition fieldValue `{GoJson A} (omitempty : bool) (a : A) : option JSON :=
  if omitempty && isEmpty a then None else Some (marshal a).

(** In a field with omitempty, as all the slices of the API are, a nil slice
    and an empty one are written alike and need not be told apart: they are the
    list of their elements. *)
Lemma fieldValue_slice `{GoJson A} (s : Slice A) : fieldValue true s = fieldValue true (default [] (elements s)).
Proof. destruct s as [[l|]]; [|done]. reflexivity. Qed.

(** The members of the fields that are not left out *)
Fixpoint render (fs : list (string * option JSON)) : list (string * JSON) :=
  match fs with
  | [] => []
  | (k, Some j) :: fs => (k, j) :: render fs
  | (k, None) :: fs => render fs
  end.

Definition readField `{GoJson A} (o : option JSON) : outcome A :=
  match o with Some j => unmarshal j | None => Ok zero end.
Definition getField `{GoJson A} (k : string) (kvs : list (string * JSON)) : outcome A := readField (jlookup k kvs).

(** The codec of a struct, given its fields and how it is put together from
    the members of an object.  A struct is never empty. *)
Definition structJson {A} (z : A) (fields : A → list (string * option JSON))
    (build : list (string * JSON) → outcome A) : GoJson A := {|
  zero := z;
  isEmpty _ := false;
  marshal a := JObj (render (fields a));
  unmarshal j := match j with JObj kvs => build kvs | JNull => Ok z | _ => Err (typeError "struct") end
|}.

(** Behind a pointer, which is empty only when it is nil, they do differ: a
    pointer to a nil slice is written as null and read back as no pointer.  A
    [list] behind a pointer therefore stands for a slice that is not nil, the
    only one a pointer that has been read can have. *)
Lemma nil_slice_behind_pointer `{GoJson A} :
  fieldValue true (Some (mkSlice (A := A) None)) = Some JNull ∧
  unmarshal (A := option (Slice A)) (marshal (Some (mkSlice (A := A) None))) = Ok None.
Proof. by split. Qed.
Lemma made_slice_behind_pointer `{GoJson A} (l : list A) :
  fieldValue true (Some (mkSlice (Some l))) = fieldValue true (Some l).
Proof. done. Qed.
Lemma read_slice_behind_pointer `{GoJson A} (j : JSON) (s : Slice A) :
  unmarshal j = Ok (Some s) → is_Some (elements s).
Proof.
  cbn. destruct (is_JNull j) eqn:E; [done|].
  intros (s' & (l & _ & Hl)%bind_Ok_inv & [= <-])%bind_Ok_inv. injection Hl as <-. by eexists.
Qed.

(** ** The laws *)

Fixpoint assoc (k : string) (fs : list (string * option JSON)) : option JSON :=
  match fs with
  | [] => None
  | (k', o) :: fs => if String.eqb k' k then o else assoc k fs
  end.

Lemma jlookup_render_absent k fs : k ∉ fs.*1 → jlookup k (render fs) = None.
Proof.
  induction fs as [|[k' [j|]] fs IH]; cbn; [done|..]; intros [Hk Hfs]%not_elem_of_cons; rewrite ?IH by done; [|done].
  by rewrite (proj2 (String.eqb_neq _ _)) by done.
Qed.

Lemma jlookup_render k fs : NoDup fs.*1 → jlookup k (render fs) = assoc k fs.
Proof.
  induction fs as [|[k' o] fs IH]; cbn; [done|]. intros [Hk Hfs]%NoDup_cons.
  destruct (String.eqb_spec k' k) as [->|Hne].
  - destruct o as [j|]; cbn; rewrite jlookup_render_absent by done; [by rewrite String.eqb_refl|done].
  - destruct o as [j|]; cbn; rewrite IH by done; [|done]. destruct (assoc k fs); [done|].
    by rewrite (proj2 (String.eqb_neq _ _)) by done.
Qed.

(** Written as [A], read as [B] *)
Class Reads {A B} `{GoJson A, GoJson B} (f : A → B) := {
  reads a : unmarshal (marshal a) = Ok (f a);
  reads_empty a : isEmpty a = true → f a = zero
}.

(** What a pointer may point to: it is not written as null. *)
Class NonNull A `{GoJson A} := nonnull (a : A) : is_JNull (marshal a) = false.

#[export] Instance string_reads : Reads (A := string) id.
Proof. split; [done|]. intros s. apply bool_decide_eq_true. Qed.
#[export] Instance bool_reads : Reads (A := bool) id.
Proof. split; [done|]. by intros []. Qed.
#[export] Instance int32_reads : Reads (A := int32) id.
Proof.
  split; [intros x; apply toInt32_val|]. intros [z Hz] H%bool_decide_eq_true. cbn in H. subst z. unfold id. cbn. f_equal. apply (proof_irrel Hz).
Qed.

#[export] Instance list_reads `{GoJson A, GoJson B} (f : A → B) `{!Reads f} : Reads (fmap (M := list) f).
Proof.
  split.
  - intros l. cbn. apply collect_Ok. exists (f <$> l). split; [done|].
    apply Forall2_fmap, Forall_Forall2_diag, Forall_true. apply reads.
  - by intros [|a l] Ha%bool_decide_eq_true.
Qed.

#[export] Instance option_reads `{GoJson A, GoJson B} (f : A → B) `{!Reads f, !NonNull A} : Reads (fmap (M := option) f).
Proof.
  split.
  - intros [a|]; [|done]. cbn. rewrite nonnull. by rewrite reads.
  - by intros [].
Qed.

(** Round trips of slices and pointers *)
#[export] Instance list_reads_id `{GoJson A} `{!Reads (A := A) id} : Reads (A := list A) id | 0.
Proof. split; [intros l; rewrite (reads (f := fmap id)); unfold id; by rewrite list_fmap_id|]. by intros [] ?%bool_decide_eq_true. Qed.
#[export] Instance option_reads_id `{GoJson A} `{!Reads (A := A) id, !NonNull A} : Reads (A := option A) id | 0.
Proof. split; [intros x; rewrite (reads (f := fmap id)); unfold id; by rewrite option_fmap_id|]. by intros []. Qed.

#[export] Instance string_nonnull : NonNull string.
Proof. done. Qed.
#[export] Instance bool_nonnull : NonNull bool.
Proof. done. Qed.
#[export] Instance int32_nonnull : NonNull int32.
Proof. done. Qed.
#[export] Instance list_nonnull `{GoJson A} : NonNull (list A).
Proof. done. Qed.

Lemma readField_value `{GoJson A, GoJson B} (f : A → B) `{!Reads f} omitempty (a : A) :
  readField (fieldValue omitempty a) = Ok (f a).
Proof.
  unfold fieldValue. destruct omitempty; cbn; [|apply reads].
  destruct (isEmpty a) eqn:E; cbn; [by rewrite (reads_empty (f := f) a E)|apply reads].
Qed.

Lemma getField_render `{GoJson B} k fs : NoDup fs.*1 → getField k (render fs) = readField (A := B) (assoc k fs).
Proof. intros Hfs. unfold getField. by rewrite jlookup_render. Qed.

#[global] Arguments fieldValue : simpl never.
#[global] Arguments readField : simpl never.

(** A member that is not written is read as zero. *)
Lemma readField_absent `{GoJson A} : readField (A := A) None = Ok zero.
Proof. done. Qed.

Lemma structJson_reads {A B} z (fs : A → list (string * option JSON)) b z' (fs' : B → list (string * option JSON)) b' f :
  (∀ a, b' (render (fs a)) = Ok (f a)) → @Reads A B (structJson z fs b) (structJson z' fs' b') f.
Proof. by split. Qed.
Lemma structJson_nonnull {A} z (fs : A → list (string * option JSON)) b : @NonNull A (structJson z fs b).
Proof. done. Qed.

(** A struct that is written and read field by field.  The names of its fields
    are concrete; [struct_reads] finds each of them. *)
Ltac read_field :=
  rewrite getField_render by (cbn; compute_done); cbn [assoc String.eqb Ascii.eqb Bool.eqb];
  lazymatch goal with
  | |- context [@readField ?B ?jb (@fieldValue ?A ?ja ?o ?a)] => rewrite (@readField_value A ja B jb _ _ o a)
  | |- context [readField None] => rewrite readField_absent
  end; cbn [mbind outcome_bind].
Ltac struct_reads :=
  apply structJson_reads; intros []; repeat read_field; try reflexivity.

(** The members of an object that is written have distinct names. *)
Example render_1 : render [("a", fieldValue true ""); ("b", fieldValue false ""); ("c", fieldValue true true)] =
  [("b", JStr ""); ("c", JBool true)].
Proof. done. Qed.
Example unmarshal_null : unmarshal (A := option (list string)) JNull = Ok None ∧ unmarshal (A := list string) JNull = Ok [].
Proof. done. Qed.
Example unmarshal_mismatch : is_Ok (unmarshal (A := list string) (JArr [JStr "a"; JNum 1])) = false.
Proof. done. Qed.
