(* ===== verification/WireFormat.v ===== *)
(** * The wire format of the custom resource (api/v1alpha5)

    The json tags of the structs of the spec, in their order.  Writing a spec
    and reading it gives it back; only the text of a patch, which the server
    may write differently, is brought into the server's form. *)

From S2P Require Import Prelude.
From S2P Require Import K8s.
From S2P Require Import Api.
From S2P Require Import Json.
From stdpp Require Import options.

(** [apiextensionsv1.JSON]: a document kept as text.  Its code is that
    library's; writing it inserts the document, reading it takes the text. *)
Class RawJSON := {
  rawValue : string → JSON;
  rawText : JSON → string
}.
Record Raw := mkRaw { raw : string }.

Section wire.
Context `{rj : !RawJSON}.

#[export] Instance Raw_json : GoJson Raw := {|
  zero := mkRaw "";
  isEmpty _ := false;
  marshal r := rawValue (raw r);
  unmarshal j := Ok (mkRaw (if is_JNull j then "" else rawText j))
|}.

#[export] Instance EnvObjectRef_json : GoJson api.EnvObjectRef := structJson (api.mkEnvObjectRef "" "" [])
  (λ r, [("name", fieldValue false (api.eor_Name r)); ("key", fieldValue true (api.eor_Key r));
    ("containers", fieldValue true (api.eor_Containers r))])
  (λ o, name ← getField "name" o; key ← getField "key" o; containers ← getField "containers" o;
    Ok (api.mkEnvObjectRef name key containers)).

#[export] Instance FileObjectRef_json : GoJson api.FileObjectRef := structJson (api.mkFileObjectRef "" "" "" [])
  (λ r, [("name", fieldValue false (api.for_Name r)); ("key", fieldValue true (api.for_Key r));
    ("mountPath", fieldValue false (api.for_MountPath r)); ("containers", fieldValue true (api.for_Containers r))])
  (λ o, name ← getField "name" o; key ← getField "key" o; mountPath ← getField "mountPath" o;
    containers ← getField "containers" o; Ok (api.mkFileObjectRef name key mountPath containers)).

#[export] Instance PvcRef_json : GoJson api.PvcRef := structJson (api.mkPvcRef "" "" [])
  (λ r, [("name", fieldValue false (api.pr_Name r)); ("mountPath", fieldValue false (api.pr_MountPath r));
    ("containers", fieldValue true (api.pr_Containers r))])
  (λ o, name ← getField "name" o; mountPath ← getField "mountPath" o; containers ← getField "containers" o;
    Ok (api.mkPvcRef name mountPath containers)).

#[export] Instance Env_json : GoJson api.Env := structJson (api.mkEnv "" "" [])
  (λ r, [("name", fieldValue false (api.env_Name r)); ("value", fieldValue false (api.env_Value r));
    ("containers", fieldValue true (api.env_Containers r))])
  (λ o, name ← getField "name" o; value ← getField "value" o; containers ← getField "containers" o;
    Ok (api.mkEnv name value containers)).

#[export] Instance AppConfig_json : GoJson api.AppConfig := structJson (api.mkAppConfig "" [])
  (λ a, [("mountPath", fieldValue true (api.ac_MountPath a)); ("configMaps", fieldValue true (api.ac_ConfigMaps a))])
  (λ o, mountPath ← getField "mountPath" o; configMaps ← getField "configMaps" o; Ok (api.mkAppConfig mountPath configMaps)).

#[export] Instance ExtraFiles_json : GoJson api.ExtraFiles := structJson (api.mkExtraFiles "" [] [] [])
  (λ e, [("mountPath", fieldValue true (api.ef_MountPath e)); ("configMaps", fieldValue true (api.ef_ConfigMaps e));
    ("secrets", fieldValue true (api.ef_Secrets e)); ("pvcs", fieldValue true (api.ef_Pvcs e))])
  (λ o, mountPath ← getField "mountPath" o; configMaps ← getField "configMaps" o; secrets ← getField "secrets" o;
    pvcs ← getField "pvcs" o; Ok (api.mkExtraFiles mountPath configMaps secrets pvcs)).

#[export] Instance ExtraEnvs_json : GoJson api.ExtraEnvs := structJson (api.mkExtraEnvs [] [] [])
  (λ e, [("configMaps", fieldValue true (api.ee_ConfigMaps e)); ("secrets", fieldValue true (api.ee_Secrets e));
    ("envs", fieldValue true (api.ee_Envs e))])
  (λ o, configMaps ← getField "configMaps" o; secrets ← getField "secrets" o; envs ← getField "envs" o;
    Ok (api.mkExtraEnvs configMaps secrets envs)).

#[export] Instance TLS_json : GoJson api.TLS := structJson (api.mkTLS "" "" "" "")
  (λ t, [("certificate", fieldValue true (api.Certificate t));
    ("externalCertificateSecretName", fieldValue true (api.ExternalCertificateSecretName t));
    ("key", fieldValue true (api.Key t)); ("caCertificate", fieldValue true (api.CACertificate t))])
  (λ o, certificate ← getField "certificate" o; external ← getField "externalCertificateSecretName" o;
    key ← getField "key" o; ca ← getField "caCertificate" o; Ok (api.mkTLS certificate external key ca)).

#[export] Instance Route_json : GoJson api.Route := structJson (api.mkRoute None "" "" None)
  (λ r, [("enabled", fieldValue true (api.rt_Enabled r)); ("host", fieldValue true (api.Host r));
    ("subdomain", fieldValue true (api.Subdomain r)); ("tls", fieldValue true (api.rt_TLS r))])
  (λ o, enabled ← getField "enabled" o; host ← getField "host" o; subdomain ← getField "subdomain" o;
    tls ← getField "tls" o; Ok (api.mkRoute enabled host subdomain tls)).

#[export] Instance Application_json : GoJson api.Application := structJson api.emptyApplication
  (λ a, [("appConfig", fieldValue true (api.app_AppConfig a));
    ("dynamicPluginsConfigMapName", fieldValue true (api.DynamicPluginsConfigMapName a));
    ("extraFiles", fieldValue true (api.app_ExtraFiles a)); ("extraEnvs", fieldValue true (api.app_ExtraEnvs a));
    ("route", fieldValue true (api.app_Route a))])
  (λ o, appConfig ← getField "appConfig" o; plugins ← getField "dynamicPluginsConfigMapName" o;
    extraFiles ← getField "extraFiles" o; extraEnvs ← getField "extraEnvs" o; route ← getField "route" o;
    Ok (api.mkApplication appConfig plugins extraFiles extraEnvs route)).

#[export] Instance RuntimeConfig_json : GoJson api.RuntimeConfig := structJson (api.mkRuntimeConfig "" "")
  (λ r, [("backstageConfig", fieldValue true (api.BackstageConfigName r));
    ("localDbConfig", fieldValue true (api.LocalDbConfigName r))])
  (λ o, backstage ← getField "backstageConfig" o; localDb ← getField "localDbConfig" o;
    Ok (api.mkRuntimeConfig backstage localDb)).

#[export] Instance Database_json : GoJson api.Database := structJson (api.mkDatabase None "")
  (λ d, [("enableLocalDb", fieldValue true (api.EnableLocalDb d)); ("authSecretName", fieldValue true (api.AuthSecretName d))])
  (λ o, enable ← getField "enableLocalDb" o; secret ← getField "authSecretName" o; Ok (api.mkDatabase enable secret)).

#[export] Instance Monitoring_json : GoJson api.Monitoring := structJson (api.mkMonitoring false)
  (λ m, [("enabled", fieldValue true (api.mon_Enabled m))])
  (λ o, enabled ← getField "enabled" o; Ok (api.mkMonitoring enabled)).

#[export] Instance BackstageDeployment_json : GoJson api.BackstageDeployment := structJson (api.mkBackstageDeployment None "")
  (λ d, [("patch", fieldValue true (mkRaw <$> api.Patch d)); ("kind", fieldValue true (api.bd_Kind d))])
  (λ o, patch ← getField "patch" o; kind ← getField "kind" o; Ok (api.mkBackstageDeployment (raw <$> (patch : option Raw)) kind)).

#[export] Instance Flavour_json : GoJson api.Flavour := structJson (api.mkFlavour "" false)
  (λ f, [("name", fieldValue false (api.fl_Name f)); ("enabled", fieldValue true (api.fl_Enabled f))])
  (λ o, name ← getField "name" o; enabled ← getField "enabled" o; Ok (api.mkFlavour name enabled)).

(** [Monitoring] is a struct, so its omitempty has no effect. *)
#[export] Instance BackstageSpec_json : GoJson api.BackstageSpec := structJson api.emptySpec
  (λ s, [("application", fieldValue true (api.spec_Application s));
    ("rawRuntimeConfig", fieldValue true (api.RawRuntimeConfig s)); ("database", fieldValue true (api.spec_Database s));
    ("monitoring", fieldValue true (api.spec_Monitoring s)); ("deployment", fieldValue true (api.spec_Deployment s));
    ("flavours", fieldValue true (api.Flavours s))])
  (λ o, application ← getField "application" o; rawRuntime ← getField "rawRuntimeConfig" o;
    database ← getField "database" o; monitoring ← getField "monitoring" o; deployment ← getField "deployment" o;
    flavours ← getField "flavours" o;
    Ok (api.mkBackstageSpec application rawRuntime database monitoring deployment flavours)).

(** ** Round trips *)

(** The form a patch has when it is read back; a null one is none. *)
Definition normalPatch (patch : option string) : option string :=
  p ← patch; if is_JNull (rawValue p) then None else Some (rawText (rawValue p)).
Definition normalRaw (patch : option Raw) : option Raw := mkRaw <$> normalPatch (raw <$> patch).
Definition normalDeployment (d : api.BackstageDeployment) : api.BackstageDeployment :=
  api.mkBackstageDeployment (normalPatch (api.Patch d)) (api.bd_Kind d).
Definition normalSpec (s : api.BackstageSpec) : api.BackstageSpec :=
  api.mkBackstageSpec (api.spec_Application s) (api.RawRuntimeConfig s) (api.spec_Database s) (api.spec_Monitoring s)
    (normalDeployment <$> api.spec_Deployment s) (api.Flavours s).

Lemma raw_normalRaw (p : option string) : raw <$> normalRaw (mkRaw <$> p) = normalPatch p.
Proof. destruct p as [p|]; [|done]. unfold normalRaw, normalPatch. cbn. by destruct (is_JNull (rawValue p)). Qed.

#[export] Instance Raw_reads : Reads normalRaw.
Proof.
  split; [|by intros []]. intros [[p]|]; [|done]. cbn. unfold normalRaw, normalPatch. cbn.
  by destruct (is_JNull (rawValue p)).
Qed.

(** Every struct but the deployment is read as it is written. *)
#[export] Instance EnvObjectRef_reads : Reads (A := api.EnvObjectRef) id.
Proof. struct_reads. Qed.
#[export] Instance EnvObjectRef_nonnull : NonNull api.EnvObjectRef.
Proof. apply structJson_nonnull. Qed.
#[export] Instance FileObjectRef_reads : Reads (A := api.FileObjectRef) id.
Proof. struct_reads. Qed.
#[export] Instance FileObjectRef_nonnull : NonNull api.FileObjectRef.
Proof. apply structJson_nonnull. Qed.
#[export] Instance PvcRef_reads : Reads (A := api.PvcRef) id.
Proof. struct_reads. Qed.
#[export] Instance PvcRef_nonnull : NonNull api.PvcRef.
Proof. apply structJson_nonnull. Qed.
#[export] Instance Env_reads : Reads (A := api.Env) id.
Proof. struct_reads. Qed.
#[export] Instance Env_nonnull : NonNull api.Env.
Proof. apply structJson_nonnull. Qed.
#[export] Instance AppConfig_reads : Reads (A := api.AppConfig) id.
Proof. struct_reads. Qed.
#[export] Instance AppConfig_nonnull : NonNull api.AppConfig.
Proof. apply structJson_nonnull. Qed.
#[export] Instance ExtraFiles_reads : Reads (A := api.ExtraFiles) id.
Proof. struct_reads. Qed.
#[export] Instance ExtraFiles_nonnull : NonNull api.ExtraFiles.
Proof. apply structJson_nonnull. Qed.
#[export] Instance ExtraEnvs_reads : Reads (A := api.ExtraEnvs) id.
Proof. struct_reads. Qed.
#[export] Instance ExtraEnvs_nonnull : NonNull api.ExtraEnvs.
Proof. apply structJson_nonnull. Qed.
#[export] Instance TLS_reads : Reads (A := api.TLS) id.
Proof. struct_reads. Qed.
#[export] Instance TLS_nonnull : NonNull api.TLS.
Proof. apply structJson_nonnull. Qed.
#[export] Instance Route_reads : Reads (A := api.Route) id.
Proof. struct_reads. Qed.
#[export] Instance Route_nonnull : NonNull api.Route.
Proof. apply structJson_nonnull. Qed.
#[export] Instance Application_reads : Reads (A := api.Application) id.
Proof. struct_reads. Qed.
#[export] Instance Application_nonnull : NonNull api.Application.
Proof. apply structJson_nonnull. Qed.
#[export] Instance RuntimeConfig_reads : Reads (A := api.RuntimeConfig) id.
Proof. struct_reads. Qed.
#[export] Instance RuntimeConfig_nonnull : NonNull api.RuntimeConfig.
Proof. apply structJson_nonnull. Qed.
#[export] Instance Database_reads : Reads (A := api.Database) id.
Proof. struct_reads. Qed.
#[export] Instance Database_nonnull : NonNull api.Database.
Proof. apply structJson_nonnull. Qed.
#[export] Instance Monitoring_reads : Reads (A := api.Monitoring) id.
Proof. struct_reads. Qed.
#[export] Instance Monitoring_nonnull : NonNull api.Monitoring.
Proof. apply structJson_nonnull. Qed.
#[export] Instance Flavour_reads : Reads (A := api.Flavour) id.
Proof. struct_reads. Qed.
#[export] Instance Flavour_nonnull : NonNull api.Flavour.
Proof. apply structJson_nonnull. Qed.
#[export] Instance BackstageDeployment_reads : Reads normalDeployment.
Proof. struct_reads. unfold normalDeployment. by rewrite raw_normalRaw. Qed.
#[export] Instance BackstageDeployment_nonnull : NonNull api.BackstageDeployment.
Proof. apply structJson_nonnull. Qed.
#[export] Instance BackstageSpec_reads : Reads normalSpec.
Proof. struct_reads. Qed.

(** A spec that is written to the wire and read back is the same, but for the
    text of its patch, which is the one the library reads back from what it
    writes; when that text is what was written, the spec is the same. *)
Theorem spec_roundtrip (s : api.BackstageSpec) :
  unmarshal (marshal s) = Ok (normalSpec s) ∧
  ((∀ d p, api.spec_Deployment s = Some d → api.Patch d = Some p → normalPatch (Some p) = Some p) →
    unmarshal (marshal s) = Ok s).
Proof.
  assert (unmarshal (marshal s) = Ok (normalSpec s)) as H by apply reads. split; [done|]. intros Hp. rewrite H. f_equal.
  destruct s as [a r d m dep fl]. unfold normalSpec. f_equal. cbn in *. destruct dep as [[p k]|]; [|done].
  cbn. unfold normalDeployment. cbn. do 2 f_equal. destruct p as [p|]; [|done]. by eapply Hp.
Qed.

End wire.
