(* ===== verification/ApiVersions.v ===== *)
(** * The older versions of the custom resource (api/v1alpha1 to api/v1alpha4)

    The structs of the spec of each version, with their json tags and methods.
    A struct that a version declares as another one does is that one.  The
    repository has no conversion between versions: the server keeps a resource
    in one version and changes its apiVersion only, so what is written in an
    older version is read by the operator with the structs of v1alpha5.
    [upgrade] is what it makes of the fields; VersionDefaults adds the defaults
    the server puts in on the way. *)

From S2P Require Import Prelude.
From S2P Require Import K8s.
From S2P Require Import Api.
From S2P Require Import Json.
From S2P Require Import WireFormat.
From stdpp Require Import options.

Module v1alpha1.

Definition RuntimeConfig := api.RuntimeConfig.
Definition Database := api.Database.
Definition TLS := api.TLS.
Definition Route := api.Route.

Record ObjectKeyRef := mkObjectKeyRef { okr_Name : string; okr_Key : string }.
Record Env := mkEnv { env_Name : string; env_Value : string }.
Record AppConfig := mkAppConfig { ac_MountPath : string; ac_ConfigMaps : list ObjectKeyRef }.
Record ExtraFiles := mkExtraFiles {
  ef_MountPath : string;
  ef_ConfigMaps : list ObjectKeyRef;
  ef_Secrets : list ObjectKeyRef
}.
Record ExtraEnvs := mkExtraEnvs {
  ee_ConfigMaps : list ObjectKeyRef;
  ee_Secrets : list ObjectKeyRef;
  ee_Envs : list Env
}.
Record Application := mkApplication {
  app_AppConfig : option AppConfig;
  DynamicPluginsConfigMapName : string;
  app_ExtraFiles : option ExtraFiles;
  app_ExtraEnvs : option ExtraEnvs;
  Replicas : option int32;
  Image : option string;
  ImagePullSecrets : list string;
  app_Route : option Route
}.
Record BackstageSpec := mkBackstageSpec {
  spec_Application : option Application;
  RawRuntimeConfig : option RuntimeConfig;
  spec_Database : option Database
}.

Definition IsLocalDbEnabled (s : BackstageSpec) : bool :=
  match spec_Database s with None => true | Some d => default true (api.EnableLocalDb d) end.
Definition IsRouteEnabled (s : BackstageSpec) : bool :=
  match spec_Application s with
  | Some a => match app_Route a with Some r => default true (api.rt_Enabled r) | None => true end
  | None => true
  end.
Definition IsAuthSecretSpecified (s : BackstageSpec) : bool :=
  match spec_Database s with Some d => negb (bool_decide (api.AuthSecretName d = "")) | None => false end.

#[global] Instance ObjectKeyRef_json : GoJson ObjectKeyRef := structJson (mkObjectKeyRef "" "")
  (λ r, [("name", fieldValue false (okr_Name r)); ("key", fieldValue true (okr_Key r))])
  (λ o, name ← getField "name" o; key ← getField "key" o; Ok (mkObjectKeyRef name key)).
#[global] Instance Env_json : GoJson Env := structJson (mkEnv "" "")
  (λ r, [("name", fieldValue false (env_Name r)); ("value", fieldValue false (env_Value r))])
  (λ o, name ← getField "name" o; value ← getField "value" o; Ok (mkEnv name value)).
#[global] Instance AppConfig_json : GoJson AppConfig := structJson (mkAppConfig "" [])
  (λ a, [("mountPath", fieldValue true (ac_MountPath a)); ("configMaps", fieldValue true (ac_ConfigMaps a))])
  (λ o, mountPath ← getField "mountPath" o; configMaps ← getField "configMaps" o; Ok (mkAppConfig mountPath configMaps)).
#[global] Instance ExtraFiles_json : GoJson ExtraFiles := structJson (mkExtraFiles "" [] [])
  (λ e, [("mountPath", fieldValue true (ef_MountPath e)); ("configMaps", fieldValue true (ef_ConfigMaps e));
    ("secrets", fieldValue true (ef_Secrets e))])
  (λ o, mountPath ← getField "mountPath" o; configMaps ← getField "configMaps" o; secrets ← getField "secrets" o;
    Ok (mkExtraFiles mountPath configMaps secrets)).
#[global] Instance ExtraEnvs_json : GoJson ExtraEnvs := structJson (mkExtraEnvs [] [] [])
  (λ e, [("configMaps", fieldValue true (ee_ConfigMaps e)); ("secrets", fieldValue true (ee_Secrets e));
    ("envs", fieldValue true (ee_Envs e))])
  (λ o, configMaps ← getField "configMaps" o; secrets ← getField "secrets" o; envs ← getField "envs" o;
    Ok (mkExtraEnvs configMaps secrets envs)).
#[global] Instance Application_json : GoJson Application := structJson (mkApplication None "" None None None None [] None)
  (λ a, [("appConfig", fieldValue true (app_AppConfig a));
    ("dynamicPluginsConfigMapName", fieldValue true (DynamicPluginsConfigMapName a));
    ("extraFiles", fieldValue true (app_ExtraFiles a)); ("extraEnvs", fieldValue true (app_ExtraEnvs a));
    ("replicas", fieldValue true (Replicas a)); ("image", fieldValue true (Image a));
    ("imagePullSecrets", fieldValue true (ImagePullSecrets a)); ("route", fieldValue true (app_Route a))])
  (λ o, appConfig ← getField "appConfig" o; plugins ← getField "dynamicPluginsConfigMapName" o;
    extraFiles ← getField "extraFiles" o; extraEnvs ← getField "extraEnvs" o; replicas ← getField "replicas" o;
    image ← getField "image" o; imagePullSecrets ← getField "imagePullSecrets" o; route ← getField "route" o;
    Ok (mkApplication appConfig plugins extraFiles extraEnvs replicas image imagePullSecrets route)).
#[global] Instance BackstageSpec_json : GoJson BackstageSpec := structJson (mkBackstageSpec None None None)
  (λ s, [("application", fieldValue true (spec_Application s)); ("rawRuntimeConfig", fieldValue true (RawRuntimeConfig s));
    ("database", fieldValue true (spec_Database s))])
  (λ o, application ← getField "application" o; rawRuntime ← getField "rawRuntimeConfig" o;
    database ← getField "database" o; Ok (mkBackstageSpec application rawRuntime database)).

(** ** Read with the structs of v1alpha5 *)

Definition envRef (r : ObjectKeyRef) : api.EnvObjectRef := api.mkEnvObjectRef (okr_Name r) (okr_Key r) [].
Definition fileRef (r : ObjectKeyRef) : api.FileObjectRef := api.mkFileObjectRef (okr_Name r) (okr_Key r) "" [].
Definition env (e : Env) : api.Env := api.mkEnv (env_Name e) (env_Value e) [].
Definition appConfig (a : AppConfig) : api.AppConfig := api.mkAppConfig (ac_MountPath a) (fileRef <$> ac_ConfigMaps a).
Definition extraFiles (e : ExtraFiles) : api.ExtraFiles :=
  api.mkExtraFiles (ef_MountPath e) (fileRef <$> ef_ConfigMaps e) (fileRef <$> ef_Secrets e) [].
Definition extraEnvs (e : ExtraEnvs) : api.ExtraEnvs :=
  api.mkExtraEnvs (envRef <$> ee_ConfigMaps e) (envRef <$> ee_Secrets e) (env <$> ee_Envs e).
(** The replicas, the image and the pull secrets are not read. *)
Definition application (a : Application) : api.Application :=
  api.mkApplication (appConfig <$> app_AppConfig a) (DynamicPluginsConfigMapName a) (extraFiles <$> app_ExtraFiles a)
    (extraEnvs <$> app_ExtraEnvs a) (app_Route a).
Definition upgrade (s : BackstageSpec) : api.BackstageSpec :=
  api.mkBackstageSpec (application <$> spec_Application s) (RawRuntimeConfig s) (spec_Database s)
    (api.mkMonitoring false) None None.

Section reads.
Context `{rj : !RawJSON}.
#[global] Instance envRef_reads_1 : Reads envRef.
Proof. struct_reads. Qed.
#[global] Instance fileRef_reads_1 : Reads fileRef.
Proof. struct_reads. Qed.
#[global] Instance env_reads_1 : Reads env.
Proof. struct_reads. Qed.
#[global] Instance appConfig_reads_1 : Reads appConfig.
Proof. struct_reads. Qed.
#[global] Instance extraFiles_reads_1 : Reads extraFiles.
Proof. struct_reads. Qed.
#[global] Instance extraEnvs_reads_1 : Reads extraEnvs.
Proof. struct_reads. Qed.
#[global] Instance AppConfig_nonnull_1 : NonNull AppConfig.
Proof. apply structJson_nonnull. Qed.
#[global] Instance ExtraFiles_nonnull_1 : NonNull ExtraFiles.
Proof. apply structJson_nonnull. Qed.
#[global] Instance ExtraEnvs_nonnull_1 : NonNull ExtraEnvs.
Proof. apply structJson_nonnull. Qed.
#[global] Instance application_reads_1 : Reads application.
Proof. struct_reads. Qed.
#[global] Instance Application_nonnull_1 : NonNull Application.
Proof. apply structJson_nonnull. Qed.
#[global] Instance upgrade_reads_1 : Reads upgrade.
Proof. struct_reads. Qed.
End reads.

End v1alpha1.

Module v1alpha2.

Definition RuntimeConfig := api.RuntimeConfig.
Definition Database := api.Database.
Definition TLS := api.TLS.
Definition Route := api.Route.
Definition ObjectKeyRef := v1alpha1.ObjectKeyRef.
Definition Env := v1alpha1.Env.
Definition AppConfig := v1alpha1.AppConfig.
Definition ExtraFiles := v1alpha1.ExtraFiles.
Definition ExtraEnvs := v1alpha1.ExtraEnvs.
Definition Application := v1alpha1.Application.

Record BackstageDeployment := mkBackstageDeployment { Patch : option string }.
Record BackstageSpec := mkBackstageSpec {
  spec_Application : option Application;
  RawRuntimeConfig : option RuntimeConfig;
  spec_Database : option Database;
  spec_Deployment : option BackstageDeployment
}.

Definition IsLocalDbEnabled (s : BackstageSpec) : bool :=
  match spec_Database s with None => true | Some d => default true (api.EnableLocalDb d) end.
Definition IsRouteEnabled (s : BackstageSpec) : bool :=
  match spec_Application s with
  | Some a => match v1alpha1.app_Route a with Some r => default true (api.rt_Enabled r) | None => true end
  | None => true
  end.
Definition IsAuthSecretSpecified (s : BackstageSpec) : bool :=
  match spec_Database s with Some d => negb (bool_decide (api.AuthSecretName d = "")) | None => false end.

Section wire.
Context `{rj : !RawJSON}.

#[global] Instance BackstageDeployment_json : GoJson BackstageDeployment := structJson (mkBackstageDeployment None)
  (λ d, [("patch", fieldValue true (mkRaw <$> Patch d))])
  (λ o, patch ← getField "patch" o; Ok (mkBackstageDeployment (raw <$> (patch : option Raw)))).
#[global] Instance BackstageSpec_json : GoJson BackstageSpec := structJson (mkBackstageSpec None None None None)
  (λ s, [("application", fieldValue true (spec_Application s)); ("rawRuntimeConfig", fieldValue true (RawRuntimeConfig s));
    ("database", fieldValue true (spec_Database s)); ("deployment", fieldValue true (spec_Deployment s))])
  (λ o, application ← getField "application" o; rawRuntime ← getField "rawRuntimeConfig" o;
    database ← getField "database" o; deployment ← getField "deployment" o;
    Ok (mkBackstageSpec application rawRuntime database deployment)).

Definition deployment (d : BackstageDeployment) : api.BackstageDeployment :=
  api.mkBackstageDeployment (normalPatch (Patch d)) "".
Definition upgrade (s : BackstageSpec) : api.BackstageSpec :=
  api.mkBackstageSpec (v1alpha1.application <$> spec_Application s) (RawRuntimeConfig s) (spec_Database s)
    (api.mkMonitoring false) (deployment <$> spec_Deployment s) None.

#[global] Instance deployment_reads_2 : Reads deployment.
Proof. struct_reads. unfold deployment. by rewrite raw_normalRaw. Qed.
#[global] Instance BackstageDeployment_nonnull_2 : NonNull BackstageDeployment.
Proof. apply structJson_nonnull. Qed.
#[global] Instance upgrade_reads_2 : Reads upgrade.
Proof. struct_reads. Qed.

End wire.
End v1alpha2.

Module v1alpha3.

Definition RuntimeConfig := api.RuntimeConfig.
Definition Database := api.Database.
Definition TLS := api.TLS.
Definition Route := api.Route.
Definition BackstageDeployment := v1alpha2.BackstageDeployment.
(** The struct that was named ObjectKeyRef *)
Definition EnvObjectRef := v1alpha1.ObjectKeyRef.
Definition Env := v1alpha1.Env.
Definition ExtraEnvs := v1alpha1.ExtraEnvs.

Record FileObjectRef := mkFileObjectRef { for_Name : string; for_Key : string; for_MountPath : string }.
Record PvcRef := mkPvcRef { pr_Name : string; pr_MountPath : string }.
Record AppConfig := mkAppConfig { ac_MountPath : string; ac_ConfigMaps : list FileObjectRef }.
Record ExtraFiles := mkExtraFiles {
  ef_MountPath : string;
  ef_ConfigMaps : list FileObjectRef;
  ef_Secrets : list FileObjectRef;
  ef_Pvcs : list PvcRef
}.
Record Application := mkApplication {
  app_AppConfig : option AppConfig;
  DynamicPluginsConfigMapName : string;
  app_ExtraFiles : option ExtraFiles;
  app_ExtraEnvs : option ExtraEnvs;
  Replicas : option int32;
  Image : option string;
  ImagePullSecrets : list string;
  app_Route : option Route
}.
Record BackstageSpec := mkBackstageSpec {
  spec_Application : option Application;
  RawRuntimeConfig : option RuntimeConfig;
  spec_Database : option Database;
  spec_Deployment : option BackstageDeployment
}.

Definition IsLocalDbEnabled (s : BackstageSpec) : bool :=
  match spec_Database s with None => true | Some d => default true (api.EnableLocalDb d) end.
Definition IsRouteEnabled (s : BackstageSpec) : bool :=
  match spec_Application s with
  | Some a => match app_Route a with Some r => default true (api.rt_Enabled r) | None => true end
  | None => true
  end.
Definition IsAuthSecretSpecified (s : BackstageSpec) : bool :=
  match spec_Database s with Some d => negb (bool_decide (api.AuthSecretName d = "")) | None => false end.

#[global] Instance FileObjectRef_json : GoJson FileObjectRef := structJson (mkFileObjectRef "" "" "")
  (λ r, [("name", fieldValue false (for_Name r)); ("key", fieldValue true (for_Key r));
    ("mountPath", fieldValue false (for_MountPath r))])
  (λ o, name ← getField "name" o; key ← getField "key" o; mountPath ← getField "mountPath" o;
    Ok (mkFileObjectRef name key mountPath)).
#[global] Instance PvcRef_json : GoJson PvcRef := structJson (mkPvcRef "" "")
  (λ r, [("name", fieldValue false (pr_Name r)); ("mountPath", fieldValue false (pr_MountPath r))])
  (λ o, name ← getField "name" o; mountPath ← getField "mountPath" o; Ok (mkPvcRef name mountPath)).
#[global] Instance AppConfig_json : GoJson AppConfig := structJson (mkAppConfig "" [])
  (λ a, [("mountPath", fieldValue true (ac_MountPath a)); ("configMaps", fieldValue true (ac_ConfigMaps a))])
  (λ o, mountPath ← getField "mountPath" o; configMaps ← getField "configMaps" o; Ok (mkAppConfig mountPath configMaps)).
#[global] Instance ExtraFiles_json : GoJson ExtraFiles := structJson (mkExtraFiles "" [] [] [])
  (λ e, [("mountPath", fieldValue true (ef_MountPath e)); ("configMaps", fieldValue true (ef_ConfigMaps e));
    ("secrets", fieldValue true (ef_Secrets e)); ("pvcs", fieldValue true (ef_Pvcs e))])
  (λ o, mountPath ← getField "mountPath" o; configMaps ← getField "configMaps" o; secrets ← getField "secrets" o;
    pvcs ← getField "pvcs" o; Ok (mkExtraFiles mountPath configMaps secrets pvcs)).
#[global] Instance Application_json : GoJson Application := structJson (mkApplication None "" None None None None [] None)
  (λ a, [("appConfig", fieldValue true (app_AppConfig a));
    ("dynamicPluginsConfigMapName", fieldValue true (DynamicPluginsConfigMapName a));
    ("extraFiles", fieldValue true (app_ExtraFiles a)); ("extraEnvs", fieldValue true (app_ExtraEnvs a));
    ("replicas", fieldValue true (Replicas a)); ("image", fieldValue true (Image a));
    ("imagePullSecrets", fieldValue true (ImagePullSecrets a)); ("route", fieldValue true (app_Route a))])
  (λ o, appConfig ← getField "appConfig" o; plugins ← getField "dynamicPluginsConfigMapName" o;
    extraFiles ← getField "extraFiles" o; extraEnvs ← getField "extraEnvs" o; replicas ← getField "replicas" o;
    image ← getField "image" o; imagePullSecrets ← getField "imagePullSecrets" o; route ← getField "route" o;
    Ok (mkApplication appConfig plugins extraFiles extraEnvs replicas image imagePullSecrets route)).

Section wire.
Context `{rj : !RawJSON}.

#[global] Instance BackstageSpec_json : GoJson BackstageSpec := structJson (mkBackstageSpec None None None None)
  (λ s, [("application", fieldValue true (spec_Application s)); ("rawRuntimeConfig", fieldValue true (RawRuntimeConfig s));
    ("database", fieldValue true (spec_Database s)); ("deployment", fieldValue true (spec_Deployment s))])
  (λ o, application ← getField "application" o; rawRuntime ← getField "rawRuntimeConfig" o;
    database ← getField "database" o; deployment ← getField "deployment" o;
    Ok (mkBackstageSpec application rawRuntime database deployment)).

Definition fileRef (r : FileObjectRef) : api.FileObjectRef :=
  api.mkFileObjectRef (for_Name r) (for_Key r) (for_MountPath r) [].
Definition pvcRef (r : PvcRef) : api.PvcRef := api.mkPvcRef (pr_Name r) (pr_MountPath r) [].
Definition appConfig (a : AppConfig) : api.AppConfig := api.mkAppConfig (ac_MountPath a) (fileRef <$> ac_ConfigMaps a).
Definition extraFiles (e : ExtraFiles) : api.ExtraFiles :=
  api.mkExtraFiles (ef_MountPath e) (fileRef <$> ef_ConfigMaps e) (fileRef <$> ef_Secrets e) (pvcRef <$> ef_Pvcs e).
Definition application (a : Application) : api.Application :=
  api.mkApplication (appConfig <$> app_AppConfig a) (DynamicPluginsConfigMapName a) (extraFiles <$> app_ExtraFiles a)
    (v1alpha1.extraEnvs <$> app_ExtraEnvs a) (app_Route a).
Definition upgrade (s : BackstageSpec) : api.BackstageSpec :=
  api.mkBackstageSpec (application <$> spec_Application s) (RawRuntimeConfig s) (spec_Database s)
    (api.mkMonitoring false) (v1alpha2.deployment <$> spec_Deployment s) None.

#[global] Instance fileRef_reads_3 : Reads fileRef.
Proof. struct_reads. Qed.
#[global] Instance pvcRef_reads_3 : Reads pvcRef.
Proof. struct_reads. Qed.
#[global] Instance appConfig_reads_3 : Reads appConfig.
Proof. struct_reads. Qed.
#[global] Instance extraFiles_reads_3 : Reads extraFiles.
Proof. struct_reads. Qed.
#[global] Instance AppConfig_nonnull_3 : NonNull AppConfig.
Proof. apply structJson_nonnull. Qed.
#[global] Instance ExtraFiles_nonnull_3 : NonNull ExtraFiles.
Proof. apply structJson_nonnull. Qed.
#[global] Instance application_reads_3 : Reads application.
Proof. struct_reads. Qed.
#[global] Instance Application_nonnull_3 : NonNull Application.
Proof. apply structJson_nonnull. Qed.
#[global] Instance upgrade_reads_3 : Reads upgrade.
Proof. struct_reads. Qed.

End wire.
End v1alpha3.

Module v1alpha4.

Definition RuntimeConfig := api.RuntimeConfig.
Definition Database := api.Database.
Definition TLS := api.TLS.
Definition Route := api.Route.
Definition Monitoring := api.Monitoring.
Definition BackstageDeployment := v1alpha2.BackstageDeployment.
Definition EnvObjectRef := api.EnvObjectRef.
Definition FileObjectRef := api.FileObjectRef.
Definition PvcRef := api.PvcRef.
Definition Env := api.Env.
Definition AppConfig := api.AppConfig.
Definition ExtraFiles := api.ExtraFiles.
Definition ExtraEnvs := api.ExtraEnvs.

Record Application := mkApplication {
  app_AppConfig : option AppConfig;
  DynamicPluginsConfigMapName : string;
  app_ExtraFiles : option ExtraFiles;
  app_ExtraEnvs : option ExtraEnvs;
  Replicas : option int32;
  Image : option string;
  ImagePullSecrets : list string;
  app_Route : option Route
}.
Record BackstageSpec := mkBackstageSpec {
  spec_Application : option Application;
  RawRuntimeConfig : option RuntimeConfig;
  spec_Database : option Database;
  spec_Monitoring : Monitoring;
  spec_Deployment : option BackstageDeployment
}.

Definition IsLocalDbEnabled (s : BackstageSpec) : bool :=
  match spec_Database s with None => true | Some d => default true (api.EnableLocalDb d) end.
Definition IsRouteEnabled (s : BackstageSpec) : bool :=
  match spec_Application s with
  | Some a => match app_Route a with Some r => default true (api.rt_Enabled r) | None => true end
  | None => true
  end.
Definition IsAuthSecretSpecified (s : BackstageSpec) : bool :=
  match spec_Database s with Some d => negb (bool_decide (api.AuthSecretName d = "")) | None => false end.
Definition IsMonitoringEnabled (s : BackstageSpec) : bool := api.mon_Enabled (spec_Monitoring s).

#[global] Instance Application_json : GoJson Application := structJson (mkApplication None "" None None None None [] None)
  (λ a, [("appConfig", fieldValue true (app_AppConfig a));
    ("dynamicPluginsConfigMapName", fieldValue true (DynamicPluginsConfigMapName a));
    ("extraFiles", fieldValue true (app_ExtraFiles a)); ("extraEnvs", fieldValue true (app_ExtraEnvs a));
    ("replicas", fieldValue true (Replicas a)); ("image", fieldValue true (Image a));
    ("imagePullSecrets", fieldValue true (ImagePullSecrets a)); ("route", fieldValue true (app_Route a))])
  (λ o, appConfig ← getField "appConfig" o; plugins ← getField "dynamicPluginsConfigMapName" o;
    extraFiles ← getField "extraFiles" o; extraEnvs ← getField "extraEnvs" o; replicas ← getField "replicas" o;
    image ← getField "image" o; imagePullSecrets ← getField "imagePullSecrets" o; route ← getField "route" o;
    Ok (mkApplication appConfig plugins extraFiles extraEnvs replicas image imagePullSecrets route)).

Section wire.
Context `{rj : !RawJSON}.

#[global] Instance BackstageSpec_json : GoJson BackstageSpec :=
  structJson (mkBackstageSpec None None None (api.mkMonitoring false) None)
  (λ s, [("application", fieldValue true (spec_Application s)); ("rawRuntimeConfig", fieldValue true (RawRuntimeConfig s));
    ("database", fieldValue true (spec_Database s)); ("monitoring", fieldValue true (spec_Monitoring s));
    ("deployment", fieldValue true (spec_Deployment s))])
  (λ o, application ← getField "application" o; rawRuntime ← getField "rawRuntimeConfig" o;
    database ← getField "database" o; monitoring ← getField "monitoring" o; deployment ← getField "deployment" o;
    Ok (mkBackstageSpec application rawRuntime database monitoring deployment)).

Definition application (a : Application) : api.Application :=
  api.mkApplication (app_AppConfig a) (DynamicPluginsConfigMapName a) (app_ExtraFiles a) (app_ExtraEnvs a) (app_Route a).
Definition upgrade (s : BackstageSpec) : api.BackstageSpec :=
  api.mkBackstageSpec (application <$> spec_Application s) (RawRuntimeConfig s) (spec_Database s)
    (spec_Monitoring s) (v1alpha2.deployment <$> spec_Deployment s) None.

(** v1alpha4 is still served: what a client of it reads of a resource of
    v1alpha5 *)
Definition oldApplication (a : api.Application) : Application :=
  mkApplication (api.app_AppConfig a) (api.DynamicPluginsConfigMapName a) (api.app_ExtraFiles a) (api.app_ExtraEnvs a)
    None None [] (api.app_Route a).
Definition oldDeployment (d : api.BackstageDeployment) : BackstageDeployment :=
  v1alpha2.mkBackstageDeployment (normalPatch (api.Patch d)).
Definition downgrade (s : api.BackstageSpec) : BackstageSpec :=
  mkBackstageSpec (oldApplication <$> api.spec_Application s) (api.RawRuntimeConfig s) (api.spec_Database s)
    (api.spec_Monitoring s) (oldDeployment <$> api.spec_Deployment s).

#[global] Instance application_reads_4 : Reads application.
Proof. struct_reads. Qed.
#[global] Instance Application_nonnull_4 : NonNull Application.
Proof. apply structJson_nonnull. Qed.
#[global] Instance upgrade_reads_4 : Reads upgrade.
Proof. struct_reads. Qed.
#[global] Instance oldApplication_reads_4 : Reads oldApplication.
Proof. struct_reads. Qed.
#[global] Instance oldDeployment_reads_4 : Reads oldDeployment.
Proof. struct_reads. unfold oldDeployment. by rewrite raw_normalRaw. Qed.
#[global] Instance downgrade_reads_4 : Reads downgrade.
Proof. struct_reads. Qed.

End wire.
End v1alpha4.

(** ** A client of v1alpha4 *)

Section versions.
Context `{rj : !RawJSON}.

(** C21. A client of v1alpha4 that reads a resource of the current version and
    writes it back loses the flavours and the kind of the deployment, and
    nothing else but the text of the patch. *)
Theorem v1alpha4_rewrites (s : api.BackstageSpec) :
  ∃ old s', unmarshal (marshal s) = Ok old ∧ unmarshal (marshal (A := v1alpha4.BackstageSpec) old) = Ok s' ∧
    s' = api.mkBackstageSpec (api.spec_Application s) (api.RawRuntimeConfig s) (api.spec_Database s) (api.spec_Monitoring s)
      ((λ d, api.mkBackstageDeployment (normalPatch (normalPatch (api.Patch d))) "") <$> api.spec_Deployment s) None.
Proof.
  exists (v1alpha4.downgrade s), (v1alpha4.upgrade (v1alpha4.downgrade s)).
  split; [apply reads|]. split; [apply reads|]. destruct s as [[[]|] r d m [[]|] f]; reflexivity.
Qed.

End versions.
