(* ===== verification/SchemaDefaults.v ===== *)
(** * The defaults of the custom resource (the markers of api/v1alpha5)

    The kubebuilder markers of the structs become the schema of the custom
    resource definition (config/crd/bases), and the API server writes the
    defaults of the schema into what it stores.  A client that writes a spec
    with the Go structs therefore gets back the spec with these defaults, which
    are those the methods of the spec fall back to. *)

From S2P Require Import Prelude.
From S2P Require Import K8s.
From S2P Require Import Api.
From S2P Require Import Json.
From S2P Require Import WireFormat.
From stdpp Require Import options.

(** The part of a structural schema that defaults need: the properties of an
    object with their defaults, and the items of an array *)
#[local] Unset Elimination Schemes.
Inductive Schema :=
  | SLeaf
  | SArr (items : Schema)
  | SObj (props : list (string * (option JSON * Schema))).
#[local] Set Elimination Schemes.

Fixpoint property (k : string) (props : list (string * (option JSON * Schema))) : option (option JSON * Schema) :=
  match props with
  | [] => None
  | (k', p) :: props => if String.eqb k' k then Some p else property k props
  end.

(** The value of a property once its default is in place: a default replaces
    what is missing or null. *)
Definition present (d : option JSON) (v : option JSON) : option JSON :=
  match v, d with
  | None, _ => d
  | Some JNull, Some j => Some j
  | Some v, _ => Some v
  end.

(** ** The API server

    Its defaulting of a document by a schema, as the documentation of custom
    resource definitions describes it: defaults go in from the root to the
    leaves, and what the schema does not name is kept. *)
Class Defaulting := {
  fill : Schema → JSON → JSON;
  fill_leaf j : fill SLeaf j = j;
  fill_null s : fill s JNull = JNull;
  fill_arr s l : fill (SArr s) (JArr l) = JArr (fill s <$> l);
  fill_obj props kvs : NoDup props.*1 → ∃ kvs', fill (SObj props) (JObj kvs) = JObj kvs' ∧ ∀ k, jlookup k kvs' =
    match property k props with
    | Some (d, s) => fill s <$> present d (jlookup k kvs)
    | None => jlookup k kvs
    end
}.

(** ** The schema of the spec: the properties with a default, and the way to them *)

Definition schemaMountPath : JSON := JStr "/opt/app-root/src".
Definition schema_AppConfig : Schema := SObj [("mountPath", (Some schemaMountPath, SLeaf))].
Definition schema_ExtraFiles : Schema := SObj [("mountPath", (Some schemaMountPath, SLeaf))].
Definition schema_Route : Schema := SObj [("enabled", (Some (JBool true), SLeaf))].
Definition schema_Application : Schema :=
  SObj [("appConfig", (None, schema_AppConfig)); ("extraFiles", (None, schema_ExtraFiles)); ("route", (None, schema_Route))].
Definition schema_Database : Schema := SObj [("enableLocalDb", (Some (JBool true), SLeaf))].
Definition schema_Monitoring : Schema := SObj [("enabled", (Some (JBool false), SLeaf))].
Definition schema_Flavour : Schema := SObj [("enabled", (Some (JBool true), SLeaf))].
Definition schema_BackstageSpec : Schema :=
  SObj [("application", (None, schema_Application)); ("database", (None, schema_Database));
    ("monitoring", (Some (JObj [("enabled", JBool false)]), schema_Monitoring)); ("flavours", (None, SArr schema_Flavour))].

(** ** What comes back *)

Definition settlePath (p : string) : string := if bool_decide (p = "") then "/opt/app-root/src" else p.
Definition settleAppConfig (a : api.AppConfig) : api.AppConfig := api.mkAppConfig (settlePath (api.ac_MountPath a)) (api.ac_ConfigMaps a).
Definition settleExtraFiles (e : api.ExtraFiles) : api.ExtraFiles :=
  api.mkExtraFiles (settlePath (api.ef_MountPath e)) (api.ef_ConfigMaps e) (api.ef_Secrets e) (api.ef_Pvcs e).
Definition settleRoute (r : api.Route) : api.Route :=
  api.mkRoute (Some (default true (api.rt_Enabled r))) (api.Host r) (api.Subdomain r) (api.rt_TLS r).
Definition settleApplication (a : api.Application) : api.Application :=
  api.mkApplication (settleAppConfig <$> api.app_AppConfig a) (api.DynamicPluginsConfigMapName a)
    (settleExtraFiles <$> api.app_ExtraFiles a) (api.app_ExtraEnvs a) (settleRoute <$> api.app_Route a).
Definition settleDatabase (d : api.Database) : api.Database :=
  api.mkDatabase (Some (default true (api.EnableLocalDb d))) (api.AuthSecretName d).
(** A flavour that is not enabled is written without the field, and then
    enabled by the default. *)
Definition settleFlavour (f : api.Flavour) : api.Flavour := api.mkFlavour (api.fl_Name f) true.

Section stored.
Context `{rj : !RawJSON, df : !Defaulting}.

Definition settleSpec (s : api.BackstageSpec) : api.BackstageSpec :=
  api.mkBackstageSpec (settleApplication <$> api.spec_Application s) (api.RawRuntimeConfig s)
    (settleDatabase <$> api.spec_Database s) (api.spec_Monitoring s) (normalDeployment <$> api.spec_Deployment s)
    (fmap (M := list) settleFlavour <$> api.Flavours s).

(** Written as [A], filled by the schema and read as [A] *)
Class Settles {A} `{GoJson A} (s : Schema) (f : A → A) := {
  settles a : unmarshal (fill s (marshal a)) = Ok (f a);
  settles_empty a : isEmpty a = true → f a = zero;
  settles_null a : is_JNull (marshal a) = false → is_JNull (fill s (marshal a)) = false
}.

#[export] Instance leaf_settles `{GoJson A} (f : A → A) `{!Reads f} : Settles SLeaf f.
Proof. split; intros a; rewrite ?fill_leaf; [apply reads|apply reads_empty|done]. Qed.

#[export] Instance option_settles `{GoJson A} s (f : A → A) `{!Settles s f, !NonNull A} : Settles s (fmap (M := option) f).
Proof.
  split.
  - intros [a|]; cbn; [|by rewrite fill_null]. rewrite (settles_null (f := f)) by apply nonnull. by rewrite settles.
  - by intros [].
  - intros [a|]; [|done]. apply (settles_null (f := f)).
Qed.

#[export] Instance list_settles `{GoJson A} s (f : A → A) `{!Settles s f} : Settles (SArr s) (fmap (M := list) f).
Proof.
  split.
  - intros l. cbn. rewrite fill_arr. cbn. apply collect_Ok. exists (f <$> l). split; [done|].
    rewrite <- list_fmap_compose. apply Forall2_fmap, Forall_Forall2_diag, Forall_true. apply settles.
  - by intros [|a l] Ha%bool_decide_eq_true.
  - intros l _. cbn. by rewrite fill_arr.
Qed.

Lemma structJson_settles {A} z (fs : A → list (string * option JSON)) b props f :
  NoDup props.*1 →
  (∀ a kvs, (∀ k, jlookup k kvs = match property k props with
      | Some (d, s) => fill s <$> present d (jlookup k (render (fs a)))
      | None => jlookup k (render (fs a)) end) → b kvs = Ok (f a)) →
  @Settles A (structJson z fs b) (SObj props) f.
Proof.
  intros Hprops Hb. split; [|done|]; intros a; cbn; destruct (fill_obj props (render (fs a)) Hprops) as (kvs & -> & Hk); [|done].
  by apply Hb.
Qed.

(** One field, without a default and with *)
Lemma filled_field `{GoJson A} (f : A → A) s `{!Settles s f} omitempty (a : A) :
  readField (fill s <$> present None (fieldValue omitempty a)) = Ok (f a).
Proof.
  unfold fieldValue, readField. destruct omitempty, (isEmpty a) eqn:E; cbn; try by destruct (marshal a) eqn:M; rewrite <- M; apply settles.
  by rewrite (settles_empty (f := f) a E).
Qed.
Lemma filled_path (p : string) :
  readField (fill SLeaf <$> present (Some schemaMountPath) (fieldValue true p)) = Ok (settlePath p).
Proof. unfold fieldValue, readField, settlePath. cbn. case_bool_decide; cbn; by rewrite fill_leaf. Qed.
Lemma filled_pointer (x : option bool) d :
  readField (fill SLeaf <$> present (Some (JBool d)) (fieldValue true x)) = Ok (Some (default d x)).
Proof. unfold fieldValue, readField. by destruct x; cbn; rewrite fill_leaf. Qed.
Lemma filled_bool (x d : bool) :
  readField (fill SLeaf <$> present (Some (JBool d)) (fieldValue true x)) = Ok (x || d).
Proof. unfold fieldValue, readField. by destruct x; cbn; rewrite fill_leaf. Qed.

(** Read the fields of a filled struct one by one. *)
Ltac open_field Hk :=
  unfold getField at 1; rewrite Hk; cbn [property String.eqb Ascii.eqb Bool.eqb];
  rewrite jlookup_render by (cbn; compute_done); cbn [assoc String.eqb Ascii.eqb Bool.eqb].
Ltac close_field :=
  lazymatch goal with
  | |- context [readField (fill ?s <$> present None (@fieldValue ?A ?ja ?o ?a))] => rewrite (@filled_field A ja _ s _ o a)
  | |- context [@readField ?B ?jb (@fieldValue ?A ?ja ?o ?a)] => rewrite (@readField_value A ja B jb _ _ o a)
  | |- _ => first [rewrite filled_path | rewrite filled_pointer | rewrite filled_bool]
  end; cbn [mbind outcome_bind].
Ltac struct_settles :=
  apply structJson_settles; [cbn; compute_done|]; intros [] kvs Hk; unfold schema_AppConfig, schema_ExtraFiles, schema_Route, schema_Application,
    schema_Database, schema_Monitoring, schema_Flavour in Hk; repeat first [open_field Hk | close_field]; try reflexivity.

#[export] Instance AppConfig_settles : Settles schema_AppConfig settleAppConfig.
Proof. struct_settles. Qed.
#[export] Instance ExtraFiles_settles : Settles schema_ExtraFiles settleExtraFiles.
Proof. struct_settles. Qed.
#[export] Instance Route_settles : Settles schema_Route settleRoute.
Proof. struct_settles. Qed.
#[export] Instance Application_settles : Settles schema_Application settleApplication.
Proof. struct_settles. Qed.
#[export] Instance Database_settles : Settles schema_Database settleDatabase.
Proof. struct_settles. Qed.
#[export] Instance Monitoring_settles : Settles (A := api.Monitoring) schema_Monitoring id.
Proof. struct_settles. by rewrite orb_false_r. Qed.
#[export] Instance Flavour_settles : Settles schema_Flavour settleFlavour.
Proof. struct_settles. by rewrite orb_true_r. Qed.
(** A struct is always written, so the default of [monitoring] is never used. *)
Lemma filled_monitoring d m :
  readField (fill schema_Monitoring <$> present d (fieldValue true (m : api.Monitoring))) = Ok m.
Proof. destruct d; exact (settles (f := id) m). Qed.

#[export] Instance BackstageSpec_settles : Settles schema_BackstageSpec settleSpec.
Proof.
  apply structJson_settles; [cbn; compute_done|]. intros [] kvs Hk. unfold schema_BackstageSpec in Hk.
  repeat first [open_field Hk | close_field | rewrite filled_monitoring; cbn [mbind outcome_bind]]. reflexivity.
Qed.

(** ** What a client finds stored *)

(** The defaults are in place. *)
Record defaulted (s : api.BackstageSpec) : Prop := {
  defaulted_appConfig a : api.specAppConfig s = Some a → api.ac_MountPath a ≠ "";
  defaulted_extraFiles e : api.specExtraFiles s = Some e → api.ef_MountPath e ≠ "";
  defaulted_route r : api.specRoute s = Some r → is_Some (api.rt_Enabled r);
  defaulted_database d : api.spec_Database s = Some d → is_Some (api.EnableLocalDb d)
}.

Lemma settlePath_set p : settlePath p ≠ "".
Proof. unfold settlePath. by case_bool_decide. Qed.

Lemma settleSpec_defaulted s : defaulted (settleSpec s).
Proof.
  destruct s as [[[ac pl ef ee rt]|] rw db m d f]; split; cbn; intros x Hx; try done;
    repeat match goal with H : _ <$> ?o = Some _ |- _ => destruct o; [|done]; injection H as <- end;
    cbn; eauto using settlePath_set.
  all: destruct db; [|done]; injection Hx as <-; cbn; eauto.
Qed.

Lemma settlePath_idemp p : settlePath (settlePath p) = settlePath p.
Proof. unfold settlePath at 1. rewrite bool_decide_eq_false_2; [done|apply settlePath_set]. Qed.

(** The defaults do not change what is there. *)
Lemma settleSpec_idemp s : settleSpec (settleSpec s) = normalSpec (settleSpec s).
Proof.
  destruct s as [app rw db m d f]. unfold settleSpec, normalSpec. cbn. f_equal.
  - destruct app as [[[[]|] pl [[]|] ee [[]|]]|]; cbn; unfold settleApplication, settleAppConfig, settleExtraFiles; cbn;
      by rewrite ?settlePath_idemp.
  - by destruct db.
  - destruct f as [l|]; [|done]. cbn. f_equal. induction l as [|x l IH]; [done|]. cbn. by f_equal.
Qed.

(** C22. A spec that a client writes with the Go structs is stored with the
    defaults of the schema in place, and read back so: the mount paths are set,
    and whether there is a local database, a route, monitoring or a secret is
    what the methods answered for the spec before.  Every flavour it names comes
    back enabled, also those it wrote with [Enabled] false; an empty list of
    flavours (a slice that has been made) stays empty and none stays none.  Writing what was read back gives
    the same again, but for the text of the patch. *)
Theorem stored_spec (s : api.BackstageSpec) :
  ∃ s', unmarshal (fill schema_BackstageSpec (marshal s)) = Ok s' ∧ defaulted s' ∧
    api.IsLocalDbEnabled s' = api.IsLocalDbEnabled s ∧ api.IsRouteEnabled s' = api.IsRouteEnabled s ∧
    api.IsMonitoringEnabled s' = api.IsMonitoringEnabled s ∧ api.IsAuthSecretSpecified s' = api.IsAuthSecretSpecified s ∧
    api.Flavours s' = fmap (M := list) (λ f, api.mkFlavour (api.fl_Name f) true) <$> api.Flavours s ∧
    unmarshal (fill schema_BackstageSpec (marshal s')) = Ok (normalSpec s').
Proof.
  exists (settleSpec s). split; [apply settles|]. split; [apply settleSpec_defaulted|].
  rewrite (settles (f := settleSpec)), settleSpec_idemp. destruct s as [app rw db m d f]. split_and!; try done.
  - by destruct db as [[]|].
  - by destruct app as [[? ? ? ? []]|].
  - by destruct db.
Qed.

End stored.

(** ** A server *)

Definition fillProps (rec : Schema → JSON → JSON) (kvs : list (string * JSON)) :=
  fix go (props : list (string * (option JSON * Schema))) : list (string * JSON) :=
    match props with
    | [] => []
    | (k, (d, s)) :: props =>
        match present d (jlookup k kvs) with
        | Some v => (k, rec s v) :: go props
        | None => go props
        end
    end.
Fixpoint fillDefaults (s : Schema) (j : JSON) : JSON :=
  match s, j with
  | SArr s, JArr l => JArr (fillDefaults s <$> l)
  | SObj props, JObj kvs => JObj (kvs ++ fillProps fillDefaults kvs props)
  | _, _ => j
  end.

Lemma jlookup_app k a b : jlookup k (a ++ b) = jlookup k b ∪ jlookup k a.
Proof.
  induction a as [|[k' v] a IH]; cbn; [by destruct (jlookup k b)|]. rewrite IH. by destruct (jlookup k b), (jlookup k a), (String.eqb k' k).
Qed.

Lemma jlookup_fillProps_absent rec kvs props k : k ∉ props.*1 → jlookup k (fillProps rec kvs props) = None.
Proof.
  induction props as [|[k' [d s]] props IH]; cbn; [done|]. intros [Hk Hp]%not_elem_of_cons.
  destruct (present _ _); cbn; rewrite IH by done; [|done]. by rewrite (proj2 (String.eqb_neq _ _)) by done.
Qed.

Lemma property_absent k props : k ∉ props.*1 → property k props = None.
Proof.
  induction props as [|[k' p] props IH]; cbn; [done|]. intros [Hk Hp]%not_elem_of_cons.
  rewrite (proj2 (String.eqb_neq _ _)) by done. by apply IH.
Qed.

Lemma jlookup_fillProps rec kvs props k : NoDup props.*1 →
  jlookup k (fillProps rec kvs props) =
    '(d, s) ← property k props; rec s <$> present d (jlookup k kvs).
Proof.
  induction props as [|[k' [d s]] props IH]; cbn; [done|]. intros [Hk Hp]%NoDup_cons.
  destruct (String.eqb_spec k' k) as [->|Hne].
  - destruct (present _ _) eqn:E; cbn; rewrite jlookup_fillProps_absent by done; [by rewrite String.eqb_refl, E|by rewrite E].
  - destruct (present _ _); cbn; rewrite IH by done; [|done].
    rewrite (proj2 (String.eqb_neq _ _)) by done. by destruct (_ ≫= _).
Qed.

#[export] Program Instance fillDefaults_defaulting : Defaulting := {| fill := fillDefaults |}.
Next Obligation. by intros []. Qed.
Next Obligation. by intros []. Qed.
Next Obligation. done. Qed.
Next Obligation.
  intros props kvs Hprops. eexists. split; [reflexivity|]. intros k. rewrite jlookup_app, jlookup_fillProps by done.
  destruct (property k props) as [[d s]|]; cbn; [|by destruct (jlookup k kvs)].
  destruct (jlookup k kvs) as [[]|], d; done.
Qed.

(** A client that lists a flavour as not enabled, and what it finds *)
#[local] Instance example_raw : RawJSON := {| rawValue := JStr; rawText _ := "" |}.
Definition example_flavours_spec : api.BackstageSpec :=
  api.mkBackstageSpec (Some (api.mkApplication (Some (api.mkAppConfig "" [])) "" None None None)) None None
    (api.mkMonitoring false) None (Some [api.mkFlavour "lightspeed" false]).
Example example_stored :
  unmarshal (fill schema_BackstageSpec (marshal example_flavours_spec)) =
    Ok (api.mkBackstageSpec (Some (api.mkApplication (Some (api.mkAppConfig "/opt/app-root/src" [])) "" None None None)) None None
      (api.mkMonitoring false) None (Some [api.mkFlavour "lightspeed" true])).
Proof. by vm_compute. Qed.

Lemma stored_spec_witness : ∃ s',
  unmarshal (fill schema_BackstageSpec (marshal example_flavours_spec)) = Ok s' ∧
  api.Flavours s' = Some [api.mkFlavour "lightspeed" true].
Proof. destruct (stored_spec example_flavours_spec) as (s' & H & _ & _ & _ & _ & _ & Hf & _). by exists s'. Defined.
