(* ===== verification/VersionDefaults.v ===== *)
(** * Older versions on their way to the operator (the markers of api/v1alpha1 to api/v1alpha4)

    A spec that was written with the structs of an older version passes the
    API server before the operator reads it with those of v1alpha5: the server
    writes the defaults of the schema of the version of the request, and, when
    the resource is read, those of the schema of v1alpha5, the version it is
    stored in.  Of the older versions only v1alpha4 is still served; specs of
    the others are those that were written when they were.  This file has the
    defaults of the older versions and what comes out at the end. *)

From S2P Require Import Prelude.
From S2P Require Import K8s.
From S2P Require Import Api.
From S2P Require Import Json.
From S2P Require Import WireFormat.
From S2P Require Import ApiVersions.
From S2P Require Import SchemaDefaults.
From stdpp Require Import options.

(** ** The schemas of the older versions

    Each has the defaults of v1alpha5 for the fields they share, and a default
    for the replicas; the monitoring is new in v1alpha4. *)

Definition schema_oldApplication : Schema :=
  SObj [("appConfig", (None, schema_AppConfig)); ("extraFiles", (None, schema_ExtraFiles));
    ("replicas", (Some (JNum 1), SLeaf)); ("route", (None, schema_Route))].
Definition schema_v1alpha1 : Schema :=
  SObj [("application", (None, schema_oldApplication)); ("database", (None, schema_Database))].
Definition schema_v1alpha2 : Schema := schema_v1alpha1.
Definition schema_v1alpha3 : Schema := schema_v1alpha1.
Definition schema_v1alpha4 : Schema :=
  SObj [("application", (None, schema_oldApplication)); ("database", (None, schema_Database));
    ("monitoring", (Some (JObj [("enabled", JBool false)]), schema_Monitoring))].

(** The defaults of v1alpha5 in place *)
Definition withDefaults (s : api.BackstageSpec) : api.BackstageSpec :=
  api.mkBackstageSpec (settleApplication <$> api.spec_Application s) (api.RawRuntimeConfig s)
    (settleDatabase <$> api.spec_Database s) (api.spec_Monitoring s) (api.spec_Deployment s)
    (fmap (M := list) settleFlavour <$> api.Flavours s).

Section served.
Context `{rj : !RawJSON, df : !Defaulting}.

(** Written in a version with the schema [s], and read as v1alpha5 with the
    schema [s'] *)
Definition served (s s' : Schema) (j : JSON) : JSON := fill s' (fill s j).
#[local] Arguments served : simpl never.

Class Served {A B} `{GoJson A, GoJson B} (s s' : Schema) (f : A → B) := {
  serves a : unmarshal (served s s' (marshal a)) = Ok (f a);
  serves_empty a : isEmpty a = true → f a = zero;
  serves_null (a : A) : is_JNull (marshal a) = false → is_JNull (served s s' (marshal a)) = false
}.

#[export] Instance option_served `{GoJson A, GoJson B} s s' (f : A → B) `{!Served s s' f, !NonNull A} :
  Served s s' (fmap (M := option) f).
Proof.
  split.
  - intros [a|]; cbn; [|by unfold served; rewrite !fill_null].
    rewrite (serves_null (s := s) (s' := s') (f := f) a) by apply nonnull. by rewrite serves.
  - by intros [].
  - intros [a|]; [|done]. apply (serves_null (f := f)).
Qed.

(** What becomes of a member of an object *)
Definition through (props : list (string * (option JSON * Schema))) (k : string) (v : option JSON) : option JSON :=
  match property k props with
  | Some (d, s) => fill s <$> present d v
  | None => v
  end.

Lemma structJson_served {A B} z (fs : A → list (string * option JSON)) b z' (fs' : B → list (string * option JSON)) b' props props' f :
  NoDup props.*1 → NoDup props'.*1 →
  (∀ a kvs, (∀ k, jlookup k kvs = through props' k (through props k (jlookup k (render (fs a))))) → b' kvs = Ok (f a)) →
  @Served A B (structJson z fs b) (structJson z' fs' b') (SObj props) (SObj props') f.
Proof.
  intros Hp Hp' Hb. split; [|done|]; intros a; unfold served; cbn;
    destruct (fill_obj props (render (fs a)) Hp) as (kvs & -> & Hk);
    destruct (fill_obj props' kvs Hp') as (kvs' & -> & Hk'); [|done].
  apply Hb. intros k. unfold through. by rewrite Hk', Hk.
Qed.

Lemma served_field `{GoJson A, GoJson B} (f : A → B) s s' `{!Served s s' f} omitempty (a : A) :
  readField (fill s' <$> present None (fill s <$> present None (fieldValue omitempty a))) = Ok (f a).
Proof.
  unfold fieldValue. destruct (omitempty && isEmpty a) eqn:E.
  - apply andb_true_iff in E as [_ E]. unfold readField. cbn. by rewrite (serves_empty (f := f) a E).
  - assert (∀ s j, fill s <$> present None (Some j) = Some (fill s j)) as Hf by (intros r []; done).
    rewrite !Hf. apply serves.
Qed.

(** The same default a second time *)
Lemma filled_again d v : is_JNull d = false →
  fill SLeaf <$> present (Some d) (fill SLeaf <$> present (Some d) v) = fill SLeaf <$> present (Some d) v.
Proof.
  intros Hd. assert (∀ o : option JSON, fill SLeaf <$> o = o) as Hf by (intros [j|]; cbn; by rewrite ?fill_leaf). rewrite !Hf.
  destruct v as [[]|]; cbn; try done; by destruct d.
Qed.

Lemma filled_absent_monitoring :
  readField (fill schema_Monitoring <$> present (Some (JObj [("enabled", JBool false)])) None) = Ok (api.mkMonitoring false).
Proof.
  unfold readField, schema_Monitoring. cbn.
  destruct (fill_obj [("enabled", (Some (JBool false), SLeaf))] [("enabled", JBool false)]) as (kvs & -> & Hk); [compute_done|].
  cbn. unfold getField. rewrite Hk. cbn. by rewrite fill_leaf.
Qed.

Lemma served_monitoring d d' m :
  readField (fill schema_Monitoring <$> present d' (fill schema_Monitoring <$> present d (fieldValue true (m : api.Monitoring)))) = Ok m.
Proof.
  assert (Served (A := api.Monitoring) schema_Monitoring schema_Monitoring id) as Hm.
  { apply structJson_served; [compute_done..|]. intros [e] kvs Hk. unfold getField. rewrite Hk. unfold through. cbn [property String.eqb Ascii.eqb Bool.eqb].
    rewrite filled_again, jlookup_render by (cbn; compute_done). cbn [assoc String.eqb Ascii.eqb Bool.eqb]. rewrite filled_bool.
    by rewrite orb_false_r. }
  transitivity (readField (A := api.Monitoring)
    (fill schema_Monitoring <$> present None (fill schema_Monitoring <$> present None (fieldValue true (m : api.Monitoring))))).
  - unfold schema_Monitoring. destruct (fill_obj [("enabled", (Some (JBool false), SLeaf))]
      (render [("enabled", fieldValue true (api.mon_Enabled m))])) as (kvs & E & _); [compute_done|].
    unfold fieldValue at 1 2. cbn -[render fieldValue]. destruct d, d'; cbn -[render fieldValue]; by rewrite E.
  - by apply (served_field id).
Qed.

(** Read the members of a served struct one by one. *)
Ltac open_member Hk :=
  unfold getField at 1; rewrite Hk; try unfold through; cbn [property String.eqb Ascii.eqb Bool.eqb];
  rewrite jlookup_render by (cbn; compute_done); cbn [assoc String.eqb Ascii.eqb Bool.eqb].
Ltac close_member :=
  lazymatch goal with
  | |- context [@readField ?B ?jb (fill ?s' <$> present None (fill ?s <$> present None (@fieldValue ?A ?ja ?o ?a)))] =>
      rewrite (@served_field A ja B jb _ s s' _ o a)
  | |- context [@readField ?B ?jb (@fieldValue ?A ?ja ?o ?a)] => rewrite (@readField_value A ja B jb _ _ o a)
  | |- context [@readField ?B ?jb (fill ?s <$> present None None)] =>
      change (@readField B jb (fill s <$> present None None)) with (@Ok B zero)
  | |- context [readField None] => rewrite readField_absent
  | |- context [present (Some ?d) (fill SLeaf <$> present (Some ?d) ?v)] =>
      rewrite (filled_again d v) by done; first [rewrite filled_path | rewrite filled_pointer]
  | |- _ => first [rewrite filled_absent_monitoring | rewrite served_monitoring]
  end; cbn [mbind outcome_bind].
Ltac struct_served :=
  apply structJson_served; [cbn; compute_done..|]; intros a kvs Hk; destruct a; unfold schema_AppConfig, schema_ExtraFiles, schema_Route, schema_Application,
    schema_oldApplication, schema_Database, schema_BackstageSpec, schema_v1alpha1, schema_v1alpha2, schema_v1alpha3, schema_v1alpha4 in Hk;
  repeat first [open_member Hk | close_member]; clear Hk; repeat match goal with x : option _ |- _ => destruct x end; reflexivity.

(** *** What all the versions share *)

#[export] Instance Route_served : Served schema_Route schema_Route settleRoute.
Proof. struct_served. Qed.
#[export] Instance Database_served : Served schema_Database schema_Database settleDatabase.
Proof. struct_served. Qed.
#[export] Instance AppConfig_served : Served schema_AppConfig schema_AppConfig settleAppConfig.
Proof. struct_served. Qed.
#[export] Instance ExtraFiles_served : Served schema_ExtraFiles schema_ExtraFiles settleExtraFiles.
Proof. struct_served. Qed.

(** *** v1alpha1 and v1alpha2 *)

#[export] Instance AppConfig_served_1 :
  Served (A := v1alpha1.AppConfig) schema_AppConfig schema_AppConfig (λ a, settleAppConfig (v1alpha1.appConfig a)).
Proof. struct_served. Qed.
#[export] Instance ExtraFiles_served_1 :
  Served (A := v1alpha1.ExtraFiles) schema_ExtraFiles schema_ExtraFiles (λ e, settleExtraFiles (v1alpha1.extraFiles e)).
Proof. struct_served. Qed.
#[export] Instance Application_served_1 :
  Served (A := v1alpha1.Application) schema_oldApplication schema_Application (λ a, settleApplication (v1alpha1.application a)).
Proof. struct_served. Qed.
#[export] Instance upgrade_served_1 :
  Served (A := v1alpha1.BackstageSpec) schema_v1alpha1 schema_BackstageSpec (λ s, withDefaults (v1alpha1.upgrade s)).
Proof. struct_served. Qed.
#[export] Instance upgrade_served_2 :
  Served (A := v1alpha2.BackstageSpec) schema_v1alpha2 schema_BackstageSpec (λ s, withDefaults (v1alpha2.upgrade s)).
Proof. struct_served. Qed.

(** *** v1alpha3 *)

#[export] Instance AppConfig_served_3 :
  Served (A := v1alpha3.AppConfig) schema_AppConfig schema_AppConfig (λ a, settleAppConfig (v1alpha3.appConfig a)).
Proof. struct_served. Qed.
#[export] Instance ExtraFiles_served_3 :
  Served (A := v1alpha3.ExtraFiles) schema_ExtraFiles schema_ExtraFiles (λ e, settleExtraFiles (v1alpha3.extraFiles e)).
Proof. struct_served. Qed.
#[export] Instance Application_served_3 :
  Served (A := v1alpha3.Application) schema_oldApplication schema_Application (λ a, settleApplication (v1alpha3.application a)).
Proof. struct_served. Qed.
#[export] Instance upgrade_served_3 :
  Served (A := v1alpha3.BackstageSpec) schema_v1alpha3 schema_BackstageSpec (λ s, withDefaults (v1alpha3.upgrade s)).
Proof. struct_served. Qed.

(** *** v1alpha4 *)

#[export] Instance Application_served_4 :
  Served (A := v1alpha4.Application) schema_oldApplication schema_Application (λ a, settleApplication (v1alpha4.application a)).
Proof. struct_served. Qed.
#[export] Instance upgrade_served_4 :
  Served (A := v1alpha4.BackstageSpec) schema_v1alpha4 schema_BackstageSpec (λ s, withDefaults (v1alpha4.upgrade s)).
Proof. struct_served. Qed.

(** ** What is read of each version *)

Lemma withDefaults_defaulted s : defaulted (withDefaults s).
Proof using rj.
  destruct (settleSpec_defaulted s) as [H1 H2 H3 H4]. by split.
Qed.

(** A spec of a version that went through the server is read by the operator
    as [up] of it with the defaults in place, and the methods of the operator
    answer what those of the version answer for what was written. *)
Definition read_alike {S} `{GoJson S} (schema : Schema) (up : S → api.BackstageSpec)
    (localDb route authSecret monitoring : S → bool) : Prop :=
  ∀ s, let s' := withDefaults (up s) in
    unmarshal (served schema schema_BackstageSpec (marshal s)) = Ok s' ∧ defaulted s' ∧
    api.IsLocalDbEnabled s' = localDb s ∧ api.IsRouteEnabled s' = route s ∧
    api.IsAuthSecretSpecified s' = authSecret s ∧ api.IsMonitoringEnabled s' = monitoring s.

Lemma read_alike_intro {S} `{GoJson S} schema (up : S → api.BackstageSpec) localDb route authSecret monitoring :
  Served schema schema_BackstageSpec (λ s, withDefaults (up s)) →
  (∀ s, api.IsLocalDbEnabled (up s) = localDb s ∧ api.IsRouteEnabled (up s) = route s ∧
    api.IsAuthSecretSpecified (up s) = authSecret s ∧ api.IsMonitoringEnabled (up s) = monitoring s) →
  read_alike schema up localDb route authSecret monitoring.
Proof.
  intros Hs Hm s s'. split; [apply (serves (f := λ s, withDefaults (up s)))|]. split; [apply withDefaults_defaulted|].
  destruct (Hm s) as (<- & <- & <- & <-). unfold s'. destruct (up s) as [app rw db m d fl]. split_and!; [|..|done].
  - by destruct db as [[]|].
  - by destruct app as [[? ? ? ? []]|].
  - by destruct db.
Qed.

(** C19. A spec that was written with the structs of an older version and went
    through the API server, with the defaults of the schema of that version and
    then those of v1alpha5, is read by the operator as its upgrade, field by
    field, with the defaults in place: the mount paths, the local database and
    the route are set where the older spec left them open.  And whether there is
    a local database, a route, a secret or monitoring is what the methods of the
    older version answer for the spec as it was written. *)
Theorem versions_read_alike :
  read_alike schema_v1alpha1 v1alpha1.upgrade v1alpha1.IsLocalDbEnabled v1alpha1.IsRouteEnabled
    v1alpha1.IsAuthSecretSpecified (λ _, false) ∧
  read_alike schema_v1alpha2 v1alpha2.upgrade v1alpha2.IsLocalDbEnabled v1alpha2.IsRouteEnabled
    v1alpha2.IsAuthSecretSpecified (λ _, false) ∧
  read_alike schema_v1alpha3 v1alpha3.upgrade v1alpha3.IsLocalDbEnabled v1alpha3.IsRouteEnabled
    v1alpha3.IsAuthSecretSpecified (λ _, false) ∧
  read_alike schema_v1alpha4 v1alpha4.upgrade v1alpha4.IsLocalDbEnabled v1alpha4.IsRouteEnabled
    v1alpha4.IsAuthSecretSpecified v1alpha4.IsMonitoringEnabled.
Proof.
  split_and!; apply read_alike_intro; try apply _.
  - intros s. split; [done|]. split; [|done]. by destruct s as [[[]|] r d].
  - intros s. split; [done|]. split; [|done]. by destruct s as [[[]|] r d dep].
  - intros s. split; [done|]. split; [|done]. by destruct s as [[[]|] r d dep].
  - intros s. split; [done|]. split; [|done]. by destruct s as [[[]|] r d m dep].
Qed.

(** ** What the operator does not read of v1alpha4 *)

(** A v1alpha4 spec with the defaults of its schema in place, and its patch as
    the server keeps it *)
Definition settleOldApplication (a : v1alpha4.Application) : v1alpha4.Application :=
  v1alpha4.mkApplication (settleAppConfig <$> v1alpha4.app_AppConfig a) (v1alpha4.DynamicPluginsConfigMapName a)
    (settleExtraFiles <$> v1alpha4.app_ExtraFiles a) (v1alpha4.app_ExtraEnvs a)
    (Some (default (mkInt32 1 eq_refl) (v1alpha4.Replicas a))) (v1alpha4.Image a) (v1alpha4.ImagePullSecrets a)
    (settleRoute <$> v1alpha4.app_Route a).
Definition settleOldSpec (s : v1alpha4.BackstageSpec) : v1alpha4.BackstageSpec :=
  v1alpha4.mkBackstageSpec (settleOldApplication <$> v1alpha4.spec_Application s) (v1alpha4.RawRuntimeConfig s)
    (settleDatabase <$> v1alpha4.spec_Database s) (v1alpha4.spec_Monitoring s)
    ((λ d, v1alpha2.mkBackstageDeployment (normalPatch (v1alpha2.Patch d))) <$> v1alpha4.spec_Deployment s).

(** The default of the replicas *)
Lemma filled_replicas (x : option int32) :
  readField (fill SLeaf <$> present (Some (JNum 1)) (fieldValue true x)) = Ok (Some (default (mkInt32 1 eq_refl) x)).
Proof.
  unfold fieldValue, readField. destruct x as [x|]; cbn; rewrite fill_leaf; cbn; [by rewrite toInt32_val|].
  pose proof (toInt32_val (mkInt32 1 eq_refl)) as E. cbn [int32_val] in E. by rewrite E.
Qed.

(** This is what a client of v1alpha4 that writes a spec gets back. *)
Ltac settle_member Hk :=
  first [open_member Hk | rewrite filled_replicas; cbn [mbind outcome_bind] | rewrite filled_monitoring; cbn [mbind outcome_bind]
    | lazymatch goal with
      | |- context [readField (fill ?s <$> present None (@fieldValue ?A ?ja ?o ?a))] =>
          rewrite (@filled_field _ A ja _ s _ o a)
      | |- context [@readField ?B ?jb (@fieldValue ?A ?ja ?o ?a)] => rewrite (@readField_value A ja B jb _ _ o a)
      end; cbn [mbind outcome_bind]].

#[export] Instance OldApplication_settles : Settles schema_oldApplication settleOldApplication.
Proof.
  apply structJson_settles; [cbn; compute_done|]. intros [] kvs Hk. unfold schema_oldApplication in Hk.
  repeat settle_member Hk. reflexivity.
Qed.
#[export] Instance OldDeployment_reads :
  Reads (A := v1alpha2.BackstageDeployment) (λ d, v1alpha2.mkBackstageDeployment (normalPatch (v1alpha2.Patch d))).
Proof. struct_reads. by rewrite raw_normalRaw. Qed.
#[export] Instance OldSpec_settles : Settles schema_v1alpha4 settleOldSpec.
Proof.
  apply structJson_settles; [cbn; compute_done|]. intros [] kvs Hk. unfold schema_v1alpha4, schema_v1alpha1 in Hk.
  repeat settle_member Hk. reflexivity.
Qed.

(** What a v1alpha4 spec says beyond the current version, removed *)
Definition forgetApplication (a : v1alpha4.Application) : v1alpha4.Application :=
  v1alpha4.mkApplication (v1alpha4.app_AppConfig a) (v1alpha4.DynamicPluginsConfigMapName a) (v1alpha4.app_ExtraFiles a)
    (v1alpha4.app_ExtraEnvs a) None None [] (v1alpha4.app_Route a).
Definition forget (s : v1alpha4.BackstageSpec) : v1alpha4.BackstageSpec :=
  v1alpha4.mkBackstageSpec (forgetApplication <$> v1alpha4.spec_Application s) (v1alpha4.RawRuntimeConfig s)
    (v1alpha4.spec_Database s) (v1alpha4.spec_Monitoring s) (v1alpha4.spec_Deployment s).

Lemma application_forget a a' :
  settleApplication (v1alpha4.application a) = settleApplication (v1alpha4.application a') ↔
  forgetApplication (settleOldApplication a) = forgetApplication (settleOldApplication a').
Proof.
  destruct a, a'. unfold v1alpha4.application, forgetApplication, settleApplication, settleOldApplication. cbn.
  split; by intros [= -> -> -> -> ->].
Qed.

(** C20. What the operator does not read of a v1alpha4 spec is its replicas, its
    image and its pull secrets, and nothing else: two specs are read as the same
    one exactly when they are the same without these three fields once the
    server has put the defaults of the version in place, which is what a client
    of v1alpha4 gets back, and up to the text of their patches.  The version is
    still served and still documents the fields. *)
Theorem v1alpha4_forgotten (s s' : v1alpha4.BackstageSpec) :
  unmarshal (fill schema_v1alpha4 (marshal s)) = Ok (settleOldSpec s) ∧
  (unmarshal (A := api.BackstageSpec) (served schema_v1alpha4 schema_BackstageSpec (marshal s)) =
     unmarshal (served schema_v1alpha4 schema_BackstageSpec (marshal s')) ↔
   forget (settleOldSpec s) = forget (settleOldSpec s')).
Proof.
  split; [apply settles|]. rewrite !(serves (f := λ s, withDefaults (v1alpha4.upgrade s))). destruct s as [a r d m dep], s' as [a' r' d' m' dep'].
  unfold withDefaults, v1alpha4.upgrade, settleOldSpec, forget. cbn. split.
  - intros [= Ha -> -> -> Hd]. f_equal.
    + destruct a, a'; cbn in *; try done. f_equal. apply application_forget. congruence.
    + destruct dep as [[p]|], dep' as [[p']|]; cbn in *; try done. unfold v1alpha2.deployment in Hd. cbn in *. congruence.
  - intros [= Ha -> -> -> Hd]. do 2 f_equal.
    + destruct a, a'; cbn in *; try done. f_equal. apply application_forget. congruence.
    + destruct dep as [[p]|], dep' as [[p']|]; cbn in *; try done. unfold v1alpha2.deployment. cbn. congruence.
Qed.

End served.

(** A v1alpha1 spec that leaves the mount path and the replicas open *)
#[local] Instance example_raw : RawJSON := {| rawValue := JStr; rawText _ := "" |}.
Definition example_old_spec : v1alpha1.BackstageSpec :=
  v1alpha1.mkBackstageSpec (Some (v1alpha1.mkApplication (Some (v1alpha1.mkAppConfig "" [v1alpha1.mkObjectKeyRef "cfg" ""]))
    "" None None None None [] None)) None (Some (api.mkDatabase None "")).
Example example_read :
  unmarshal (served schema_v1alpha1 schema_BackstageSpec (marshal example_old_spec)) =
    Ok (api.mkBackstageSpec (Some (api.mkApplication (Some (api.mkAppConfig "/opt/app-root/src" [api.mkFileObjectRef "cfg" "" "" []]))
      "" None None None)) None (Some (api.mkDatabase (Some true) "")) (api.mkMonitoring false) None None).
Proof. by vm_compute. Qed.
