(* ===== verification/GoHeap.v ===== *)
(** * Go memory with pointers, slices and maps

    Values point into a heap; a tree is what a value denotes there, and its
    footprint is the set of the locations it is made of.  A deep copy of a value
    denotes the same tree with a footprint of new locations.  The code that is
    generated for a struct copies the struct and then replaces the fields that
    point somewhere, each by a copy ([copyPtr], [copySlice], [copyFlat]);
    [copyStruct_copies] says when that is a deep copy. *)

From S2P Require Import Prelude.
From stdpp Require Import options.

Inductive Basic :=
  | BString (s : string)
  | BBool (b : bool)
  | BInt (z : Z).

Abbreviation loc := positive.

(** A value; the target of a slice is an array, the one of a map its entries. *)
#[local] Unset Elimination Schemes.
Inductive GoVal :=
  | GBasic (b : Basic)
  | GNil
  | GPtr (l : loc)
  | GSlice (l : loc) (off len : nat)
  | GMap (l : loc)
  | GArray (vs : list GoVal)
  | GStruct (ks : list string) (vs : list GoVal).

Inductive Tree :=
  | TBasic (b : Basic)
  | TNil
  | TPtr (t : Tree)
  | TSlice (ts : list Tree)
  | TMap (ks : list string) (ts : list Tree)
  | TStruct (ks : list string) (ts : list Tree).
#[local] Set Elimination Schemes.

Abbreviation heap := (gmap loc GoVal).

(** ** Denotation *)

#[local] Unset Elimination Schemes.
Inductive denotes (h : heap) : GoVal → Tree → gset loc → Prop :=
  | denotes_basic b : denotes h (GBasic b) (TBasic b) ∅
  | denotes_nil : denotes h GNil TNil ∅
  | denotes_ptr l v t S : h !! l = Some v → denotes h v t S → denotes h (GPtr l) (TPtr t) ({[l]} ∪ S)
  | denotes_slice l off len vs ts S : h !! l = Some (GArray vs) → off + len ≤ length vs →
      denotes_list h (take len (drop off vs)) ts S → denotes h (GSlice l off len) (TSlice ts) ({[l]} ∪ S)
  | denotes_map l ks vs ts S : h !! l = Some (GStruct ks vs) → denotes_list h vs ts S →
      denotes h (GMap l) (TMap ks ts) ({[l]} ∪ S)
  | denotes_struct ks vs ts S : denotes_list h vs ts S → denotes h (GStruct ks vs) (TStruct ks ts) S
with denotes_list (h : heap) : list GoVal → list Tree → gset loc → Prop :=
  | denotes_nil_list : denotes_list h [] [] ∅
  | denotes_cons v vs t ts S1 S2 : denotes h v t S1 → denotes_list h vs ts S2 → denotes_list h (v :: vs) (t :: ts) (S1 ∪ S2).
#[local] Set Elimination Schemes.
Scheme denotes_mut := Induction for denotes Sort Prop
  with denotes_list_mut := Induction for denotes_list Sort Prop.
Combined Scheme denotes_both from denotes_mut, denotes_list_mut.

(** Only the locations of the footprint matter. *)
Lemma denotes_frame_both h h' :
  (∀ v t S, denotes h v t S → (∀ l, l ∈ S → h' !! l = h !! l) → denotes h' v t S) ∧
  (∀ vs ts S, denotes_list h vs ts S → (∀ l, l ∈ S → h' !! l = h !! l) → denotes_list h' vs ts S).
Proof.
  apply (denotes_both h (λ v t S _, (∀ l, l ∈ S → h' !! l = h !! l) → denotes h' v t S)
    (λ vs ts S _, (∀ l, l ∈ S → h' !! l = h !! l) → denotes_list h' vs ts S)); intros;
    econstructor; try (rewrite H0 || rewrite H); eauto; set_solver.
Qed.

Lemma denotes_frame h h' v t S : denotes h v t S → (∀ l, l ∈ S → h' !! l = h !! l) → denotes h' v t S.
Proof. apply denotes_frame_both. Qed.
Lemma denotes_list_frame h h' vs ts S : denotes_list h vs ts S → (∀ l, l ∈ S → h' !! l = h !! l) → denotes_list h' vs ts S.
Proof. apply denotes_frame_both. Qed.

Lemma denotes_dom_both h :
  (∀ v t S, denotes h v t S → S ⊆ dom h) ∧ (∀ vs ts S, denotes_list h vs ts S → S ⊆ dom h).
Proof.
  apply (denotes_both h (λ v t S _, S ⊆ dom h) (λ vs ts S _, S ⊆ dom h)); intros;
    repeat match goal with H : h !! _ = Some _ |- _ => apply elem_of_dom_2 in H end; set_solver.
Qed.
Lemma denotes_dom h v t S : denotes h v t S → S ⊆ dom h.
Proof. apply denotes_dom_both. Qed.
Lemma denotes_list_dom h vs ts S : denotes_list h vs ts S → S ⊆ dom h.
Proof. apply denotes_dom_both. Qed.

Lemma subseteq_agree (h h' : heap) l : h ⊆ h' → l ∈ dom h → h' !! l = h !! l.
Proof. intros Hh [v Hv]%elem_of_dom. rewrite Hv. by eapply lookup_weaken. Qed.

(** Allocating does not change what a value denotes. *)
Lemma denotes_weaken h h' v t S : h ⊆ h' → denotes h v t S → denotes h' v t S.
Proof. intros Hh Hv. eapply denotes_frame; [done|]. intros l Hl%(denotes_dom _ _ _ _ Hv). by apply subseteq_agree. Qed.
Lemma denotes_list_weaken h h' vs ts S : h ⊆ h' → denotes_list h vs ts S → denotes_list h' vs ts S.
Proof. intros Hh Hv. eapply denotes_list_frame; [done|]. intros l Hl%(denotes_list_dom _ _ _ _ Hv). by apply subseteq_agree. Qed.

Lemma denotes_list_length h vs ts S : denotes_list h vs ts S → length vs = length ts.
Proof. induction 1 using denotes_list_mut with (P := λ _ _ _ _, True); cbn; auto. Qed.

Lemma denotes_list_app h vs1 vs2 ts1 ts2 S1 S2 :
  denotes_list h vs1 ts1 S1 → denotes_list h vs2 ts2 S2 → ∃ S, S = S1 ∪ S2 ∧ denotes_list h (vs1 ++ vs2) (ts1 ++ ts2) S.
Proof.
  revert ts1 S1. induction vs1 as [|v vs1 IH]; intros ts1 S1 H1 H2; inversion H1; subst.
  - exists S2. split; [set_solver|done].
  - destruct (IH _ _ ltac:(eassumption) H2) as (S & -> & HS). eexists. split; [|by constructor]. set_solver.
Qed.

(** ** Computations on the heap *)

Definition H (A : Type) : Type := heap → outcome (A * heap).
#[export] Instance H_ret : MRet H := λ A a h, Ok (a, h).
#[export] Instance H_bind : MBind H := λ A B f m h,
  match m h with
  | Ok (a, h') => f a h'
  | Err e => Err e
  | Panic w => Panic w
  end.

Definition throw {A} (w : string) : H A := λ _, Panic w.

(** [new(T)] and [make([]T, n)], with the zero values still to be overwritten *)
Definition alloc (v : GoVal) : H loc := λ h, let l := fresh (dom h) in Ok (l, <[l := v]> h).
Definition load (l : loc) : H GoVal := λ h,
  match h !! l with Some v => Ok (v, h) | None => Panic "invalid memory address" end.
Definition storeTo (l : loc) (v : GoVal) : H unit := λ h, Ok ((), <[l := v]> h).
(** [( *out )[i] = v] *)
Definition storeElem (l : loc) (i : nat) (v : GoVal) : H unit :=
  a ← load l;
  match a with
  | GArray vs => if bool_decide (i < length vs) then storeTo l (GArray (<[i := v]> vs)) else throw "index out of range"
  | _ => throw "not an array"
  end.
Definition loadSlice (l : loc) (off len : nat) : H (list GoVal) :=
  a ← load l;
  match a with
  | GArray vs => mret (take len (drop off vs))
  | _ => throw "not an array"
  end.

(** [in.X] and [out.X = v] *)
Fixpoint fieldOf (k : string) (ks : list string) (vs : list GoVal) : option GoVal :=
  match ks, vs with
  | k' :: ks, v :: vs => if String.eqb k' k then Some v else fieldOf k ks vs
  | _, _ => None
  end.
Fixpoint withField (k : string) (x : GoVal) (ks : list string) (vs : list GoVal) : list GoVal :=
  match ks, vs with
  | k' :: ks, v :: vs => if String.eqb k' k then x :: vs else v :: withField k x ks vs
  | _, _ => vs
  end.
Definition getIn (k : string) (v : GoVal) : H GoVal :=
  match v with
  | GStruct ks vs => match fieldOf k ks vs with Some x => mret x | None => throw ("no field " +:+ k) end
  | _ => throw "not a struct"
  end.
Definition setIn (k : string) (x : GoVal) (v : GoVal) : H GoVal :=
  match v with
  | GStruct ks vs => mret (GStruct ks (withField k x ks vs))
  | _ => throw "not a struct"
  end.

(** ** The parts of a generated copy *)

(** [in, out := &in.X, &out.X; *out = f( *in )] *)
Definition copyField (k : string) (f : GoVal → H GoVal) (in_ out : GoVal) : H GoVal :=
  x ← getIn k in_; y ← f x; setIn k y out.

(** [if in.X != nil { *out = new(T); ( *in ).DeepCopyInto( *out ) }] *)
Definition copyPtr (f : GoVal → H GoVal) (v : GoVal) : H GoVal :=
  match v with
  | GNil => mret GNil
  | GPtr l => l' ← alloc GNil; x ← load l; y ← f x; _ ← storeTo l' y; mret (GPtr l')
  | _ => throw "not a pointer"
  end.

(** [for i := range *in { ( *in )[i].DeepCopyInto(&( *out )[i]) }] *)
Fixpoint copyElems (f : GoVal → H GoVal) (l : loc) (i : nat) (vs : list GoVal) : H unit :=
  match vs with
  | [] => mret ()
  | v :: vs => y ← f v; _ ← storeElem l i y; copyElems f l (S i) vs
  end.

(** [if in.X != nil { *out = make([]T, len( *in )); for ... }] *)
Definition copySlice (f : GoVal → H GoVal) (v : GoVal) : H GoVal :=
  match v with
  | GNil => mret GNil
  | GSlice l off len =>
      l' ← alloc (GArray (replicate len GNil));
      vs ← loadSlice l off len;
      _ ← copyElems f l' 0 vs;
      mret (GSlice l' 0 len)
  | _ => throw "not a slice"
  end.

(** [if in.X != nil { *out = make([]T, len( *in )); copy( *out, *in ) }] *)
Definition copyFlat (v : GoVal) : H GoVal :=
  match v with
  | GNil => mret GNil
  | GSlice l off len =>
      l' ← alloc (GArray (replicate len GNil));
      vs ← loadSlice l off len;
      _ ← storeTo l' (GArray vs);
      mret (GSlice l' 0 len)
  | _ => throw "not a slice"
  end.

(** [if in == nil { return nil }; out := new(T); in.DeepCopyInto(out); return out] *)
Definition deepCopy (f : GoVal → H GoVal) (in_ : GoVal) : H GoVal := copyPtr f in_.

(** [*out = *in] and then the fields one after another *)
Fixpoint copyFields (steps : list (string * (GoVal → H GoVal))) (in_ out : GoVal) : H GoVal :=
  match steps with
  | [] => mret out
  | (k, f) :: steps => out ← copyField k f in_ out; copyFields steps in_ out
  end.
Definition copyStruct (steps : list (string * (GoVal → H GoVal))) (in_ : GoVal) : H GoVal := copyFields steps in_ in_.

(** ** Types *)

#[local] Unset Elimination Schemes.
Inductive GoType :=
  | TyBasic
  | TyPtr (ty : GoType)
  | TySlice (ty : GoType)
  | TyStruct (fields : list (string * GoType))
  (** a type of another package, by its trees *)
  | TyExternal (P : Tree → Prop).
#[local] Set Elimination Schemes.

Definition fields_match (rec : GoType → Tree → Prop) : list (string * GoType) → list Tree → Prop :=
  fix go fields ts :=
    match fields, ts with
    | [], [] => True
    | (_, ty) :: fields, t :: ts => rec ty t ∧ go fields ts
    | _, _ => False
    end.
Fixpoint has_type (ty : GoType) (t : Tree) {struct ty} : Prop :=
  match ty, t with
  | TyBasic, TBasic _ => True
  | (TyPtr _ | TySlice _), TNil => True
  | TyPtr ty, TPtr t => has_type ty t
  | TySlice ty, TSlice ts => Forall (has_type ty) ts
  | TyStruct fields, TStruct ks ts => ks = fields.*1 ∧ fields_match has_type fields ts
  | TyExternal P, t => P t
  | _, _ => False
  end.

(** A type without pointers is copied by [*out = *in]. *)
Fixpoint flat (ty : GoType) : bool :=
  match ty with
  | TyBasic => true
  | TyStruct fields => forallb (λ f, flat f.2) fields
  | _ => false
  end.

(** ** Deep copies *)

(** [f] copies the values of a type: nothing that was there is changed, and
    the copy denotes the same and is made of new locations. *)
Definition copies (ty : GoType) (f : GoVal → H GoVal) : Prop :=
  ∀ h v t S, has_type ty t → denotes h v t S →
    ∃ v' h' S', f v h = Ok (v', h') ∧ h ⊆ h' ∧ denotes h' v' t S' ∧ S' ## dom h.

Lemma flat_footprint h ty v t S : flat ty = true → has_type ty t → denotes h v t S → S = ∅.
Proof.
  revert ty v t S. fix IH 1. intros [|ty|ty|fields|P] v t S Hf Ht Hv; try done.
  - destruct t; try done. by inversion Hv.
  - destruct t as [| | | | |ks ts]; try done. destruct Ht as [_ Ht]. inversion Hv as [| | | | |? vs ? ? Hvs]; subst.
    cbn [flat] in Hf. clear Hv. revert vs ts S Hf Ht Hvs.
    induction fields as [|[k ty] fields IHf]; intros vs [|t ts] S Hf Ht Hvs; try done; inversion Hvs; subst; [done|].
    cbn in Hf. apply andb_true_iff in Hf as [Hf1 Hf2]. destruct Ht as [Ht1 Ht2].
    assert (S1 = ∅) as -> by eauto. assert (S2 = ∅) as -> by eauto. set_solver.
Qed.

Lemma copies_flat ty : flat ty = true → copies ty mret.
Proof.
  intros Hf h v t S Ht Hv. exists v, h, S. split; [done|]. split; [done|]. split; [done|].
  rewrite (flat_footprint _ _ _ _ _ Hf Ht Hv). set_solver.
Qed.

Lemma bind_run {A B} (m : H A) (f : A → H B) h a h' : m h = Ok (a, h') → (m ≫= f) h = f a h'.
Proof. intros Hm. unfold mbind, H_bind. by rewrite Hm. Qed.

Lemma alloc_run v h : ∃ l, alloc v h = Ok (l, <[l := v]> h) ∧ l ∉ dom h.
Proof. eexists. split; [reflexivity|]. apply is_fresh. Qed.

Lemma load_run h l v : h !! l = Some v → load l h = Ok (v, h).
Proof. intros Hl. unfold load. by rewrite Hl. Qed.

(** Writing to a new location keeps what was there. *)
Lemma insert_new (h h1 : heap) l v : l ∉ dom h → h ⊆ h1 → h ⊆ <[l := v]> h1.
Proof.
  intros Hl Hsub. apply map_subseteq_spec. intros k w Hk. rewrite lookup_insert_ne; [by eapply lookup_weaken|].
  intros ->. by apply elem_of_dom_2 in Hk.
Qed.

Lemma copies_ptr ty f : copies ty f → copies (TyPtr ty) (copyPtr f).
Proof.
  intros Hf h v t S Ht Hv. destruct t as [| |t| | |]; try done.
  { inversion Hv; subst. exists GNil, h, ∅. split_and!; try done. }
  inversion Hv as [| |l x ? S0 Hl Hx| | |]; subst. destruct (alloc_run GNil h) as (l' & Ha & Hfresh).
  assert (h ⊆ <[l' := GNil]> h) as Hsub by (by apply insert_new).
  destruct (Hf (<[l' := GNil]> h) x t S0) as (y & h1 & S1 & Hy & Hsub1 & Hden & Hdis); [done|by eapply denotes_weaken|].
  assert (l' ∉ S1) as HlS by (intros Hin; apply (Hdis l' Hin); rewrite dom_insert; set_solver).
  exists (GPtr l'), (<[l' := y]> h1), ({[l']} ∪ S1). split_and!.
  - unfold copyPtr. rewrite (bind_run _ _ _ _ _ Ha), (bind_run _ _ _ _ _ (load_run _ _ _ (lookup_weaken _ _ _ _ Hl Hsub))).
    by rewrite (bind_run _ _ _ _ _ Hy).
  - apply insert_new; [done|]. by etrans.
  - econstructor; [by rewrite lookup_insert_eq|]. eapply denotes_frame; [done|]. intros k Hk. rewrite lookup_insert_ne; [done|].
    by intros ->.
  - rewrite dom_insert in Hdis. set_solver.
Qed.

(** The loop over the elements: it writes one element of the new array after
    another, and each copy is made of locations that are newer. *)
Lemma copyElems_run f ty (h : heap) vs :
  copies ty f → ∀ l i ts S hp ws,
  Forall (has_type ty) ts → denotes_list h vs ts S →
  h ⊆ hp → l ∉ dom h → hp !! l = Some (GArray ws) → length ws = i + length vs →
  ∃ hq ys S', copyElems f l i vs hp = Ok ((), hq) ∧ h ⊆ hq ∧ hq !! l = Some (GArray (take i ws ++ ys)) ∧
    length ys = length vs ∧ (∀ k, k ∈ dom hp → k ≠ l → hq !! k = hp !! k) ∧
    denotes_list hq ys ts S' ∧ S' ## dom hp.
Proof.
  intros Hf. induction vs as [|v vs IH]; intros l i ts S hp ws Ht Hvs Hsub Hl Hw Hlen; inversion Hvs as [|? ? t ts' S1 S2 Hv Hvs']; subst.
  { exists hp, [], ∅. cbn in *. rewrite take_ge, app_nil_r by lia. split_and!; try done; try constructor. }
  apply Forall_cons in Ht as [Ht1 Ht2].
  destruct (Hf hp v t S1) as (y & h1 & T1 & Hy & Hsub1 & Hd1 & Hdis1); [done|by eapply denotes_weaken|].
  assert (l ∈ dom hp) as Hlp by (by eapply elem_of_dom_2).
  assert (h1 !! l = Some (GArray ws)) as Hw1 by (by eapply lookup_weaken).
  set (h2 := <[l := GArray (<[i := y]> ws)]> h1).
  assert (storeElem l i y h1 = Ok ((), h2)) as Hst.
  { unfold storeElem. rewrite (bind_run _ _ _ _ _ (load_run _ _ _ Hw1)), bool_decide_eq_true_2 by (cbn in Hlen; lia). done. }
  destruct (IH l (Datatypes.S i) ts' S2 h2 (<[i := y]> ws)) as (hq & ys & T2 & Hq & Hsubq & Hwq & Hlq & Hkeep & Hdq & Hdisq); try done.
  { apply insert_new; [done|]. by etrans. }
  { unfold h2. by rewrite lookup_insert_eq. }
  { rewrite length_insert. cbn in Hlen. lia. }
  assert (dom h1 ⊆ dom h2) as Hdom by (unfold h2; rewrite dom_insert; set_solver).
  assert (dom hp ⊆ dom h1) as Hdom1 by (by apply subseteq_dom).
  exists hq, (y :: ys), (T1 ∪ T2). split_and!.
  - cbn [copyElems]. by rewrite (bind_run _ _ _ _ _ Hy), (bind_run _ _ _ _ _ Hst).
  - done.
  - rewrite Hwq. do 2 f_equal. rewrite (take_S_r _ _ y) by (apply list_lookup_insert_eq; cbn in Hlen; lia).
    rewrite take_insert_ge by lia. by rewrite <- (assoc_L (++)).
  - cbn. by f_equal.
  - intros k Hk Hne. rewrite Hkeep by (set_solver). unfold h2. rewrite lookup_insert_ne by done.
    by apply subseteq_agree.
  - constructor; [|done]. eapply denotes_frame; [exact Hd1|]. intros k Hk.
    assert (k ≠ l) as Hne by (intros ->; by eapply Hdis1). pose proof (denotes_dom _ _ _ _ Hd1) as HT1.
    rewrite Hkeep by (set_solver). unfold h2. by rewrite lookup_insert_ne.
  - set_solver.
Qed.

Lemma copies_slice ty f : copies ty f → copies (TySlice ty) (copySlice f).
Proof.
  intros Hf h v t S Ht Hv. destruct t as [| | |ts| |]; try done.
  { inversion Hv; subst. exists GNil, h, ∅. split_and!; try done. }
  inversion Hv as [| | |l off len vs ? S0 Hl Hlen Hvs| |]; subst.
  destruct (alloc_run (GArray (replicate len GNil)) h) as (l' & Ha & Hfresh).
  set (h1 := <[l' := GArray (replicate len GNil)]> h) in *.
  assert (h ⊆ h1) as Hsub by (by apply insert_new).
  assert (length (take len (drop off vs)) = len) as Hn by (rewrite length_take, length_drop; lia).
  destruct (copyElems_run f ty h (take len (drop off vs)) Hf l' 0 ts S0 h1 (replicate len GNil))
    as (hq & ys & S' & Hq & Hsubq & Hlq & Hys & Hkeep & Hd & Hdis); try done.
  { by unfold h1; rewrite lookup_insert_eq. }
  { rewrite length_replicate. cbn. lia. }
  unfold h1 in Hdis; rewrite dom_insert in Hdis. cbn in Hlq. rewrite take_0 in Hlq. cbn in Hlq.
  exists (GSlice l' 0 len), hq, ({[l']} ∪ S'). split_and!; try done.
  - unfold copySlice. rewrite (bind_run _ _ _ _ _ Ha). unfold loadSlice at 1.
    rewrite (bind_run _ _ h1 (take len (drop off vs)) h1).
    + by rewrite (bind_run _ _ _ _ _ Hq).
    + by rewrite (bind_run _ _ _ _ _ (load_run _ _ _ (lookup_weaken _ _ _ _ Hl Hsub))).
  - econstructor; [done|lia|]. cbn. rewrite drop_0, take_ge by lia. done.
  - set_solver.
Qed.

(** The elements of a flat type denote the same at any place. *)
Lemma flat_list_footprint h ty vs ts S :
  flat ty = true → Forall (has_type ty) ts → denotes_list h vs ts S → S = ∅.
Proof.
  intros Hf Ht. revert vs S. induction Ht as [|t ts Ht _ IH]; intros vs S Hvs; inversion Hvs; subst; [done|].
  assert (S1 = ∅) as -> by (by eapply flat_footprint). by rewrite (IH _ S2) by done.
Qed.

Lemma copies_slice_flat ty : flat ty = true → copies (TySlice ty) copyFlat.
Proof.
  intros Hf h v t S Ht Hv. destruct t as [| | |ts| |]; try done.
  { inversion Hv; subst. exists GNil, h, ∅. split_and!; try done. }
  inversion Hv as [| | |l off len vs ? S0 Hl Hlen Hvs| |]; subst.
  destruct (alloc_run (GArray (replicate len GNil)) h) as (l' & Ha & Hfresh).
  set (h1 := <[l' := GArray (replicate len GNil)]> h) in *.
  assert (h ⊆ h1) as Hsub by (by apply insert_new).
  assert (length (take len (drop off vs)) = len) as Hn by (rewrite length_take, length_drop; lia).
  pose proof (flat_list_footprint _ _ _ _ _ Hf Ht Hvs) as HS0. subst S0.
  exists (GSlice l' 0 len), (<[l' := GArray (take len (drop off vs))]> h1), ({[l']} ∪ ∅). split_and!.
  - unfold copyFlat. rewrite (bind_run _ _ _ _ _ Ha). unfold loadSlice.
    by rewrite (bind_run _ _ h1 (take len (drop off vs)) h1)
      by (by rewrite (bind_run _ _ _ _ _ (load_run _ _ _ (lookup_weaken _ _ _ _ Hl Hsub)))).
  - by apply insert_new.
  - econstructor; [by rewrite lookup_insert_eq|lia|]. rewrite drop_0, (take_ge (take len (drop off vs))) by lia.
    eapply denotes_list_frame; [done|]. set_solver.
  - set_solver.
Qed.

(** ** Structs *)

(** The steps copy the fields that are not flat, in the order of the fields. *)
Inductive covers : list (string * GoType) → list (string * (GoVal → H GoVal)) → Prop :=
  | covers_nil : covers [] []
  | covers_flat k ty fields steps : flat ty = true → covers fields steps → covers ((k, ty) :: fields) steps
  | covers_step k ty f fields steps : copies ty f → covers fields steps → covers ((k, ty) :: fields) ((k, f) :: steps).

Lemma fieldOf_app k ks1 vs1 ks2 v vs2 :
  k ∉ ks1 → length ks1 = length vs1 → fieldOf k (ks1 ++ k :: ks2) (vs1 ++ v :: vs2) = Some v.
Proof.
  revert vs1. induction ks1 as [|k' ks1 IH]; intros [|v' vs1] Hk Hlen; try done; cbn.
  - by rewrite String.eqb_refl.
  - apply not_elem_of_cons in Hk as [Hne Hk]. rewrite (proj2 (String.eqb_neq _ _)) by done. apply IH; [done|]. by injection Hlen.
Qed.
Lemma withField_app k x ks1 vs1 ks2 v vs2 :
  k ∉ ks1 → length ks1 = length vs1 →
  withField k x (ks1 ++ k :: ks2) (vs1 ++ v :: vs2) = vs1 ++ x :: vs2.
Proof.
  revert vs1. induction ks1 as [|k' ks1 IH]; intros [|v' vs1] Hk Hlen; try done; cbn.
  - by rewrite String.eqb_refl.
  - apply not_elem_of_cons in Hk as [Hne Hk]. rewrite (proj2 (String.eqb_neq _ _)) by done. f_equal. apply IH; [done|]. by injection Hlen.
Qed.

(** The fields from some place on, when those before are copied already *)
Lemma copyFields_run fields steps :
  covers fields steps → ∀ (h : heap) ks1 vs1 ws1 vs2 ts2 S2 hp,
  NoDup (ks1 ++ fields.*1) → length ks1 = length vs1 → length ks1 = length ws1 →
  fields_match has_type fields ts2 → denotes_list h vs2 ts2 S2 → h ⊆ hp →
  ∃ ws2 hq S', copyFields steps (GStruct (ks1 ++ fields.*1) (vs1 ++ vs2)) (GStruct (ks1 ++ fields.*1) (ws1 ++ vs2)) hp =
      Ok (GStruct (ks1 ++ fields.*1) (ws1 ++ ws2), hq) ∧
    hp ⊆ hq ∧ denotes_list hq ws2 ts2 S' ∧ S' ## dom h.
Proof.
  intros Hc. induction Hc as [|k ty fields steps Hf Hc IH|k ty f fields steps Hf Hc IH];
    intros h ks1 vs1 ws1 vs2 ts2 S2 hp Hnd Hl1 Hl2 Ht Hv Hsub.
  - destruct ts2; [|done]. inversion Hv; subst. exists [], hp, ∅. split_and!; try done; constructor.
  - destruct ts2 as [|t ts2]; [done|]. destruct Ht as [Ht1 Ht2]. inversion Hv as [|v vs2' ? ? S3 S4 Hv1 Hv2]; subst.
    cbn [fmap list_fmap fst] in *. rewrite !(cons_middle k), !(cons_middle v), !(assoc_L (++)) in *.
    destruct (IH h (ks1 ++ [k]) (vs1 ++ [v]) (ws1 ++ [v]) vs2' ts2 S4 hp) as (ws2 & hq & S' & Hq & Hs & Hd & Hdis);
      rewrite ?length_app; cbn; try done; try lia.
    exists (v :: ws2), hq, S'. rewrite Hq, (cons_middle v ws1 ws2), (assoc_L (++)). split_and!; try done.
    rewrite <- (left_id_L ∅ (∪) S'). constructor; [|done].
    rewrite <- (flat_footprint _ _ _ _ _ Hf Ht1 Hv1). eapply denotes_weaken; [|done]. by etrans.
  - destruct ts2 as [|t ts2]; [done|]. destruct Ht as [Ht1 Ht2]. inversion Hv as [|v vs2' ? ? S3 S4 Hv1 Hv2]; subst.
    cbn [fmap list_fmap fst] in *.
    assert (k ∉ ks1) as Hk by (apply NoDup_app in Hnd as (_ & Hk & _); intros Hin; apply (Hk k Hin); by left).
    destruct (Hf hp v t S3) as (y & h1 & T1 & Hy & Hs1 & Hd1 & Hdis1); [done|by eapply denotes_weaken|].
    assert (copyField k f (GStruct (ks1 ++ k :: fields.*1) (vs1 ++ v :: vs2')) (GStruct (ks1 ++ k :: fields.*1) (ws1 ++ v :: vs2')) hp =
      Ok (GStruct (ks1 ++ k :: fields.*1) (ws1 ++ y :: vs2'), h1)) as Hstep.
    { unfold copyField, getIn. rewrite fieldOf_app by done. rewrite (bind_run _ _ hp v hp) by done.
      rewrite (bind_run _ _ _ _ _ Hy). unfold setIn. by rewrite withField_app. }
    cbn [copyFields]. rewrite (bind_run _ _ _ _ _ Hstep).
    rewrite !(cons_middle k), (cons_middle v vs1), (cons_middle y), !(assoc_L (++)) in *.
    destruct (IH h (ks1 ++ [k]) (vs1 ++ [v]) (ws1 ++ [y]) vs2' ts2 S4 h1) as (ws2 & hq & S' & Hq & Hs & Hd & Hdis);
      rewrite ?length_app; cbn; try done; try lia; [by etrans|].
    exists (y :: ws2), hq, (T1 ∪ S'). rewrite Hq, (cons_middle y ws1 ws2), (assoc_L (++)). split_and!; try done.
    + by etrans.
    + constructor; [by eapply denotes_weaken|done].
    + assert (dom h ⊆ dom hp) by (by apply subseteq_dom). set_solver.
Qed.

Lemma copyStruct_copies fields steps :
  NoDup fields.*1 → covers fields steps → copies (TyStruct fields) (copyStruct steps).
Proof.
  intros Hnd Hc h v t S Ht Hv. destruct t as [| | | | |ks ts]; try done. destruct Ht as [-> Ht].
  inversion Hv as [| | | | |? vs ? ? Hvs]; subst.
  destruct (copyFields_run fields steps Hc h [] [] [] vs ts S h) as (ws & hq & S' & Hq & Hs & Hd & Hdis); try done.
  exists (GStruct fields.*1 ws), hq, S'. split_and!; try done. by constructor.
Qed.
