(* ===== verification/GeneratedCopy.v ===== *)
(** * The deep copies that are generated for the custom resource

    What the generated files of all versions share: the types of other packages
    and their copies, [DeepCopyObject], and what is proved of a copy.
    [copied] goes through a generated copy block by block. *)

From S2P Require Import Prelude.
From S2P Require Import GoHeap.
From stdpp Require Import options.

(** The types of other packages that the structs contain, as the trees of
    their values, and their own deep copies *)
Class ExternalCopies := {
  ObjectMeta_tree : Tree → Prop;
  ObjectMeta_DeepCopyInto : GoVal → H GoVal;
  ObjectMeta_copies : copies (TyExternal ObjectMeta_tree) ObjectMeta_DeepCopyInto;
  ListMeta_tree : Tree → Prop;
  ListMeta_DeepCopyInto : GoVal → H GoVal;
  ListMeta_copies : copies (TyExternal ListMeta_tree) ListMeta_DeepCopyInto;
  Condition_tree : Tree → Prop;
  Condition_DeepCopyInto : GoVal → H GoVal;
  Condition_copies : copies (TyExternal Condition_tree) Condition_DeepCopyInto;
  JSON_tree : Tree → Prop;
  JSON_DeepCopyInto : GoVal → H GoVal;
  JSON_copies : copies (TyExternal JSON_tree) JSON_DeepCopyInto
}.

(** [metav1.TypeMeta] *)
Definition TypeMeta_type : GoType := TyStruct [("Kind", TyBasic); ("APIVersion", TyBasic)].

(** [if c := in.DeepCopy(); c != nil { return c }; return nil]: the nil pointer
    becomes the nil interface. *)
Definition deepCopyObject (copy : GoVal → H GoVal) (in_ : GoVal) : H GoVal :=
  c ← copy in_;
  match c with GNil => mret GNil | _ => mret c end.

(** A pointer to a struct and its copy *)
Lemma deepCopy_pointer ty f h l v t S :
  copies ty f → h !! l = Some v → denotes h v t S → has_type ty t →
  ∃ l' v' h' S', deepCopy f (GPtr l) h = Ok (GPtr l', h') ∧ h ⊆ h' ∧ h' !! l' = Some v' ∧ denotes h' v' t S' ∧
    ({[l']} ∪ S') ## dom h.
Proof.
  intros Hf Hl Hv Ht. destruct (copies_ptr _ _ Hf h (GPtr l) (TPtr t) ({[l]} ∪ S) Ht) as (p & h' & S' & Hp & Hs & Hd & Hdis).
  { by econstructor. }
  inversion Hd as [| |l' v' ? S'' Hl' Hv'| | |]; subst. exists l', v', h', S''. by split_and!.
Qed.

(** The function returns nil for nil; for a pointer to a value of the type it
    returns a new one, to a value that denotes the same.  What was in memory is
    as before, and stays so whatever is then written where the copy lies. *)
Definition separate_copy (ty : GoType) (copy : GoVal → H GoVal) : Prop :=
  (∀ h, copy GNil h = Ok (GNil, h)) ∧
  ∀ h l v t S, h !! l = Some v → denotes h v t S → has_type ty t →
    ∃ l' v' h' S', copy (GPtr l) h = Ok (GPtr l', h') ∧ h ⊆ h' ∧ h' !! l' = Some v' ∧ denotes h' v' t S' ∧
      ∀ h'', (∀ k, k ∉ {[l']} ∪ S' → h'' !! k = h' !! k) → h'' !! l = Some v ∧ denotes h'' v t S.

Lemma deepCopyObject_separates ty f :
  copies ty f → separate_copy ty (deepCopyObject (deepCopy f)).
Proof.
  intros Hf. split; [done|]. intros h l v t S Hl Hv Ht.
  destruct (deepCopy_pointer _ _ _ _ _ _ _ Hf Hl Hv Ht) as (l' & v' & h' & S' & Hrun & Hs & Hl' & Hv' & Hdis).
  exists l', v', h', S'. split_and!; try done; [by unfold deepCopyObject; rewrite (bind_run _ _ _ _ _ Hrun)|]. intros h'' Hw.
  assert (∀ k, k ∈ dom h → h'' !! k = h !! k) as Hold.
  { intros k Hk. rewrite Hw by set_solver. by apply subseteq_agree. }
  split; [rewrite Hold; [done|by eapply elem_of_dom_2]|]. eapply denotes_frame; [done|].
  intros k Hk. apply Hold. by eapply denotes_dom.
Qed.

(** ** Going through a generated copy

    A struct is copied when each block of its code copies a field and the other
    fields are flat; the copies of other packages do by assumption. *)
Create HintDb deepcopy.
#[export] Hint Resolve ObjectMeta_copies ListMeta_copies Condition_copies JSON_copies : deepcopy.

Ltac copied :=
  lazymatch goal with
  | |- copies _ mret => apply copies_flat; reflexivity
  | |- copies (TySlice _) copyFlat => apply copies_slice_flat; reflexivity
  | |- copies (TySlice _) (copySlice _) => apply copies_slice; copied
  | |- copies (TyPtr _) (copyPtr _) => apply copies_ptr; copied
  | |- copies (TyStruct _) (copyStruct _) => apply copyStruct_copies; [compute_done|copied]
  | |- covers [] [] => apply covers_nil
  | |- covers _ _ => first [apply covers_step; [solve [copied]|] | apply covers_flat; [reflexivity|]]; copied
  | |- copies ?ty ?f =>
      first [solve [auto with deepcopy] | let ty' := eval red in ty in let f' := eval red in f in change (copies ty' f'); copied]
  end.
