(* ===== verification/DeepCopy.v ===== *)
(** * The generated deep copies (api/v1alpha5/zz_generated.deepcopy.go)

    controller-runtime hands out copies of the objects in its cache, made by
    these functions, and the reconciler then changes the copy.  For every
    struct there is the type of its fields and the copy that is generated for
    it: [copyStruct] copies the struct and then does one block of the generated
    code for each field in the list, in order. *)

From S2P Require Import Prelude.
From S2P Require Import GoHeap.
From S2P Require Import GeneratedCopy.
From stdpp Require Import options.

Section deepcopy.
Context `{ext : !ExternalCopies}.

Definition EnvObjectRef_type : GoType := TyStruct [
  ("Name", TyBasic); ("Key", TyBasic); ("Containers", TySlice TyBasic)].
Definition EnvObjectRef_DeepCopyInto : GoVal → H GoVal := copyStruct [
  ("Containers", copyFlat)].
Definition EnvObjectRef_DeepCopy : GoVal → H GoVal := deepCopy EnvObjectRef_DeepCopyInto.

Definition FileObjectRef_type : GoType := TyStruct [
  ("Name", TyBasic); ("Key", TyBasic); ("MountPath", TyBasic); ("Containers", TySlice TyBasic)].
Definition FileObjectRef_DeepCopyInto : GoVal → H GoVal := copyStruct [
  ("Containers", copyFlat)].
Definition FileObjectRef_DeepCopy : GoVal → H GoVal := deepCopy FileObjectRef_DeepCopyInto.

Definition PvcRef_type : GoType := TyStruct [
  ("Name", TyBasic); ("MountPath", TyBasic); ("Containers", TySlice TyBasic)].
Definition PvcRef_DeepCopyInto : GoVal → H GoVal := copyStruct [
  ("Containers", copyFlat)].
Definition PvcRef_DeepCopy : GoVal → H GoVal := deepCopy PvcRef_DeepCopyInto.

Definition Env_type : GoType := TyStruct [
  ("Name", TyBasic); ("Value", TyBasic); ("Containers", TySlice TyBasic)].
Definition Env_DeepCopyInto : GoVal → H GoVal := copyStruct [
  ("Containers", copyFlat)].
Definition Env_DeepCopy : GoVal → H GoVal := deepCopy Env_DeepCopyInto.

Definition Flavour_type : GoType := TyStruct [
  ("Name", TyBasic); ("Enabled", TyBasic)].
Definition Flavour_DeepCopyInto : GoVal → H GoVal := copyStruct [].
Definition Flavour_DeepCopy : GoVal → H GoVal := deepCopy Flavour_DeepCopyInto.

Definition Monitoring_type : GoType := TyStruct [
  ("Enabled", TyBasic)].
Definition Monitoring_DeepCopyInto : GoVal → H GoVal := copyStruct [].
Definition Monitoring_DeepCopy : GoVal → H GoVal := deepCopy Monitoring_DeepCopyInto.

Definition RuntimeConfig_type : GoType := TyStruct [
  ("BackstageConfigName", TyBasic); ("LocalDbConfigName", TyBasic)].
Definition RuntimeConfig_DeepCopyInto : GoVal → H GoVal := copyStruct [].
Definition RuntimeConfig_DeepCopy : GoVal → H GoVal := deepCopy RuntimeConfig_DeepCopyInto.

Definition TLS_type : GoType := TyStruct [
  ("Certificate", TyBasic); ("ExternalCertificateSecretName", TyBasic); ("Key", TyBasic); ("CACertificate", TyBasic)].
Definition TLS_DeepCopyInto : GoVal → H GoVal := copyStruct [].
Definition TLS_DeepCopy : GoVal → H GoVal := deepCopy TLS_DeepCopyInto.

Definition AppConfig_type : GoType := TyStruct [
  ("MountPath", TyBasic); ("ConfigMaps", TySlice FileObjectRef_type)].
Definition AppConfig_DeepCopyInto : GoVal → H GoVal := copyStruct [
  ("ConfigMaps", copySlice FileObjectRef_DeepCopyInto)].
Definition AppConfig_DeepCopy : GoVal → H GoVal := deepCopy AppConfig_DeepCopyInto.

Definition ExtraFiles_type : GoType := TyStruct [
  ("MountPath", TyBasic); ("ConfigMaps", TySlice FileObjectRef_type); ("Secrets", TySlice FileObjectRef_type);
  ("Pvcs", TySlice PvcRef_type)].
Definition ExtraFiles_DeepCopyInto : GoVal → H GoVal := copyStruct [
  ("ConfigMaps", copySlice FileObjectRef_DeepCopyInto); ("Secrets", copySlice FileObjectRef_DeepCopyInto);
  ("Pvcs", copySlice PvcRef_DeepCopyInto)].
Definition ExtraFiles_DeepCopy : GoVal → H GoVal := deepCopy ExtraFiles_DeepCopyInto.

Definition ExtraEnvs_type : GoType := TyStruct [
  ("ConfigMaps", TySlice EnvObjectRef_type); ("Secrets", TySlice EnvObjectRef_type); ("Envs", TySlice Env_type)].
Definition ExtraEnvs_DeepCopyInto : GoVal → H GoVal := copyStruct [
  ("ConfigMaps", copySlice EnvObjectRef_DeepCopyInto); ("Secrets", copySlice EnvObjectRef_DeepCopyInto);
  ("Envs", copySlice Env_DeepCopyInto)].
Definition ExtraEnvs_DeepCopy : GoVal → H GoVal := deepCopy ExtraEnvs_DeepCopyInto.

Definition Route_type : GoType := TyStruct [
  ("Enabled", TyPtr TyBasic); ("Host", TyBasic); ("Subdomain", TyBasic); ("TLS", TyPtr TLS_type)].
Definition Route_DeepCopyInto : GoVal → H GoVal := copyStruct [
  ("Enabled", copyPtr mret); ("TLS", copyPtr mret)].
Definition Route_DeepCopy : GoVal → H GoVal := deepCopy Route_DeepCopyInto.

Definition Application_type : GoType := TyStruct [
  ("AppConfig", TyPtr AppConfig_type); ("DynamicPluginsConfigMapName", TyBasic);
  ("ExtraFiles", TyPtr ExtraFiles_type); ("ExtraEnvs", TyPtr ExtraEnvs_type); ("Route", TyPtr Route_type)].
Definition Application_DeepCopyInto : GoVal → H GoVal := copyStruct [
  ("AppConfig", copyPtr AppConfig_DeepCopyInto); ("ExtraFiles", copyPtr ExtraFiles_DeepCopyInto);
  ("ExtraEnvs", copyPtr ExtraEnvs_DeepCopyInto); ("Route", copyPtr Route_DeepCopyInto)].
Definition Application_DeepCopy : GoVal → H GoVal := deepCopy Application_DeepCopyInto.

Definition Database_type : GoType := TyStruct [
  ("EnableLocalDb", TyPtr TyBasic); ("AuthSecretName", TyBasic)].
Definition Database_DeepCopyInto : GoVal → H GoVal := copyStruct [
  ("EnableLocalDb", copyPtr mret)].
Definition Database_DeepCopy : GoVal → H GoVal := deepCopy Database_DeepCopyInto.

Definition BackstageDeployment_type : GoType := TyStruct [
  ("Patch", TyPtr (TyExternal JSON_tree)); ("Kind", TyBasic)].
Definition BackstageDeployment_DeepCopyInto : GoVal → H GoVal := copyStruct [
  ("Patch", copyPtr JSON_DeepCopyInto)].
Definition BackstageDeployment_DeepCopy : GoVal → H GoVal := deepCopy BackstageDeployment_DeepCopyInto.

Definition BackstageSpec_type : GoType := TyStruct [
  ("Application", TyPtr Application_type); ("RawRuntimeConfig", TyPtr RuntimeConfig_type);
  ("Database", TyPtr Database_type); ("Monitoring", Monitoring_type); ("Deployment", TyPtr BackstageDeployment_type);
  ("Flavours", TyPtr (TySlice Flavour_type))].
Definition BackstageSpec_DeepCopyInto : GoVal → H GoVal := copyStruct [
  ("Application", copyPtr Application_DeepCopyInto); ("RawRuntimeConfig", copyPtr mret);
  ("Database", copyPtr Database_DeepCopyInto); ("Monitoring", mret);
  ("Deployment", copyPtr BackstageDeployment_DeepCopyInto); ("Flavours", copyPtr copyFlat)].
Definition BackstageSpec_DeepCopy : GoVal → H GoVal := deepCopy BackstageSpec_DeepCopyInto.

Definition BackstageStatus_type : GoType := TyStruct [
  ("Conditions", TySlice (TyExternal Condition_tree))].
Definition BackstageStatus_DeepCopyInto : GoVal → H GoVal := copyStruct [
  ("Conditions", copySlice Condition_DeepCopyInto)].
Definition BackstageStatus_DeepCopy : GoVal → H GoVal := deepCopy BackstageStatus_DeepCopyInto.

Definition Backstage_type : GoType := TyStruct [
  ("TypeMeta", TypeMeta_type); ("ObjectMeta", TyExternal ObjectMeta_tree); ("Spec", BackstageSpec_type);
  ("Status", BackstageStatus_type)].
Definition Backstage_DeepCopyInto : GoVal → H GoVal := copyStruct [
  ("TypeMeta", mret); ("ObjectMeta", ObjectMeta_DeepCopyInto); ("Spec", BackstageSpec_DeepCopyInto);
  ("Status", BackstageStatus_DeepCopyInto)].
Definition Backstage_DeepCopy : GoVal → H GoVal := deepCopy Backstage_DeepCopyInto.

Definition BackstageList_type : GoType := TyStruct [
  ("TypeMeta", TypeMeta_type); ("ListMeta", TyExternal ListMeta_tree); ("Items", TySlice Backstage_type)].
Definition BackstageList_DeepCopyInto : GoVal → H GoVal := copyStruct [
  ("TypeMeta", mret); ("ListMeta", ListMeta_DeepCopyInto); ("Items", copySlice Backstage_DeepCopyInto)].
Definition BackstageList_DeepCopy : GoVal → H GoVal := deepCopy BackstageList_DeepCopyInto.

Definition Backstage_DeepCopyObject : GoVal → H GoVal := deepCopyObject Backstage_DeepCopy.
Definition BackstageList_DeepCopyObject : GoVal → H GoVal := deepCopyObject BackstageList_DeepCopy.

(** ** Every generated copy is one *)

Lemma Backstage_copies : copies Backstage_type Backstage_DeepCopyInto.
Proof. copied. Qed.
#[local] Hint Resolve Backstage_copies : deepcopy.
Lemma BackstageList_copies : copies BackstageList_type BackstageList_DeepCopyInto.
Proof. copied. Qed.

Lemma v1alpha5_separates :
  separate_copy Backstage_type Backstage_DeepCopyObject ∧ separate_copy BackstageList_type BackstageList_DeepCopyObject.
Proof. split; apply deepCopyObject_separates; [apply Backstage_copies|apply BackstageList_copies]. Qed.

End deepcopy.
