(* ===== verification/DeepCopyVersions.v ===== *)
(** * The generated deep copies of the older versions

    The structs of api/v1alpha1 to api/v1alpha4, with the types of their fields,
    and the copies that their zz_generated.deepcopy.go make of them.  The
    versions differ in the structs they have and in what can be copied by
    assignment: a reference has a slice in it from v1alpha4 on. *)

From S2P Require Import Prelude.
From S2P Require Import GoHeap.
From S2P Require Import GeneratedCopy.
From S2P Require Import DeepCopy.
From stdpp Require Import options.

Module v1alpha1_copies.
Section deepcopy.
Context `{ext : !ExternalCopies}.

Definition BackstageStatus_type : GoType := TyStruct [
  ("Conditions", TySlice (TyExternal Condition_tree))].
Definition BackstageStatus_DeepCopyInto : GoVal → H GoVal := copyStruct [
  ("Conditions", copySlice Condition_DeepCopyInto)].
Definition BackstageStatus_DeepCopy : GoVal → H GoVal := deepCopy BackstageStatus_DeepCopyInto.

Definition Database_type : GoType := TyStruct [
  ("EnableLocalDb", TyPtr TyBasic); ("AuthSecretName", TyBasic)].
Definition Database_DeepCopyInto : GoVal → H GoVal := copyStruct [
  ("EnableLocalDb", copyPtr mret)].
Definition Database_DeepCopy : GoVal → H GoVal := deepCopy Database_DeepCopyInto.

Definition Env_type : GoType := TyStruct [
  ("Name", TyBasic); ("Value", TyBasic)].
Definition Env_DeepCopyInto : GoVal → H GoVal := copyStruct [].
Definition Env_DeepCopy : GoVal → H GoVal := deepCopy Env_DeepCopyInto.

Definition ObjectKeyRef_type : GoType := TyStruct [
  ("Name", TyBasic); ("Key", TyBasic)].
Definition ObjectKeyRef_DeepCopyInto : GoVal → H GoVal := copyStruct [].
Definition ObjectKeyRef_DeepCopy : GoVal → H GoVal := deepCopy ObjectKeyRef_DeepCopyInto.

Definition AppConfig_type : GoType := TyStruct [
  ("MountPath", TyBasic); ("ConfigMaps", TySlice ObjectKeyRef_type)].
Definition AppConfig_DeepCopyInto : GoVal → H GoVal := copyStruct [
  ("ConfigMaps", copyFlat)].
Definition AppConfig_DeepCopy : GoVal → H GoVal := deepCopy AppConfig_DeepCopyInto.

Definition ExtraEnvs_type : GoType := TyStruct [
  ("ConfigMaps", TySlice ObjectKeyRef_type); ("Secrets", TySlice ObjectKeyRef_type); ("Envs", TySlice Env_type)].
Definition ExtraEnvs_DeepCopyInto : GoVal → H GoVal := copyStruct [
  ("ConfigMaps", copyFlat); ("Secrets", copyFlat); ("Envs", copyFlat)].
Definition ExtraEnvs_DeepCopy : GoVal → H GoVal := deepCopy ExtraEnvs_DeepCopyInto.

Definition ExtraFiles_type : GoType := TyStruct [
  ("MountPath", TyBasic); ("ConfigMaps", TySlice ObjectKeyRef_type); ("Secrets", TySlice ObjectKeyRef_type)].
Definition ExtraFiles_DeepCopyInto : GoVal → H GoVal := copyStruct [
  ("ConfigMaps", copyFlat); ("Secrets", copyFlat)].
Definition ExtraFiles_DeepCopy : GoVal → H GoVal := deepCopy ExtraFiles_DeepCopyInto.

Definition RuntimeConfig_type : GoType := TyStruct [
  ("BackstageConfigName", TyBasic); ("LocalDbConfigName", TyBasic)].
Definition RuntimeConfig_DeepCopyInto : GoVal → H GoVal := copyStruct [].
Definition RuntimeConfig_DeepCopy : GoVal → H GoVal := deepCopy RuntimeConfig_DeepCopyInto.

Definition TLS_type : GoType := TyStruct [
  ("Certificate", TyBasic); ("ExternalCertificateSecretName", TyBasic); ("Key", TyBasic); ("CACertificate", TyBasic)].
Definition TLS_DeepCopyInto : GoVal → H GoVal := copyStruct [].
Definition TLS_DeepCopy : GoVal → H GoVal := deepCopy TLS_DeepCopyInto.

Definition Route_type : GoType := TyStruct [
  ("Enabled", TyPtr TyBasic); ("Host", TyBasic); ("Subdomain", TyBasic); ("TLS", TyPtr TLS_type)].
Definition Route_DeepCopyInto : GoVal → H GoVal := copyStruct [
  ("Enabled", copyPtr mret); ("TLS", copyPtr mret)].
Definition Route_DeepCopy : GoVal → H GoVal := deepCopy Route_DeepCopyInto.

Definition Application_type : GoType := TyStruct [
  ("AppConfig", TyPtr AppConfig_type); ("DynamicPluginsConfigMapName", TyBasic);
  ("ExtraFiles", TyPtr ExtraFiles_type); ("ExtraEnvs", TyPtr ExtraEnvs_type); ("Replicas", TyPtr TyBasic);
  ("Image", TyPtr TyBasic); ("ImagePullSecrets", TySlice TyBasic); ("Route", TyPtr Route_type)].
Definition Application_DeepCopyInto : GoVal → H GoVal := copyStruct [
  ("AppConfig", copyPtr AppConfig_DeepCopyInto); ("ExtraFiles", copyPtr ExtraFiles_DeepCopyInto);
  ("ExtraEnvs", copyPtr ExtraEnvs_DeepCopyInto); ("Replicas", copyPtr mret); ("Image", copyPtr mret);
  ("ImagePullSecrets", copyFlat); ("Route", copyPtr Route_DeepCopyInto)].
Definition Application_DeepCopy : GoVal → H GoVal := deepCopy Application_DeepCopyInto.

Definition BackstageSpec_type : GoType := TyStruct [
  ("Application", TyPtr Application_type); ("RawRuntimeConfig", TyPtr RuntimeConfig_type);
  ("Database", TyPtr Database_type)].
Definition BackstageSpec_DeepCopyInto : GoVal → H GoVal := copyStruct [
  ("Application", copyPtr Application_DeepCopyInto); ("RawRuntimeConfig", copyPtr mret);
  ("Database", copyPtr Database_DeepCopyInto)].
Definition BackstageSpec_DeepCopy : GoVal → H GoVal := deepCopy BackstageSpec_DeepCopyInto.

Definition Backstage_type : GoType := TyStruct [
  ("TypeMeta", TypeMeta_type); ("ObjectMeta", TyExternal ObjectMeta_tree); ("Spec", BackstageSpec_type);
  ("Status", BackstageStatus_type)].
Definition Backstage_DeepCopyInto : GoVal → H GoVal := copyStruct [
  ("TypeMeta", mret); ("ObjectMeta", ObjectMeta_DeepCopyInto); ("Spec", BackstageSpec_DeepCopyInto);
  ("Status", BackstageStatus_DeepCopyInto)].
Definition Backstage_DeepCopy : GoVal → H GoVal := deepCopy Backstage_DeepCopyInto.

Definition BackstageList_type : GoType := TyStruct [
  ("TypeMeta", TypeMeta_type); ("ListMeta", TyExternal ListMeta_tree); ("Items", TySlice Backstage_type)].
Definition BackstageList_DeepCopyInto : GoVal → H GoVal := copyStruct [
  ("TypeMeta", mret); ("ListMeta", ListMeta_DeepCopyInto); ("Items", copySlice Backstage_DeepCopyInto)].
Definition BackstageList_DeepCopy : GoVal → H GoVal := deepCopy BackstageList_DeepCopyInto.

Definition Backstage_DeepCopyObject : GoVal → H GoVal := deepCopyObject Backstage_DeepCopy.
Definition BackstageList_DeepCopyObject : GoVal → H GoVal := deepCopyObject BackstageList_DeepCopy.

Lemma v1alpha1_copied : copies Backstage_type Backstage_DeepCopyInto.
Proof. copied. Qed.
#[local] Hint Resolve v1alpha1_copied : deepcopy.
Lemma v1alpha1_list_copied : copies BackstageList_type BackstageList_DeepCopyInto.
Proof. copied. Qed.
Lemma v1alpha1_separates :
  separate_copy Backstage_type Backstage_DeepCopyObject ∧ separate_copy BackstageList_type BackstageList_DeepCopyObject.
Proof. split; apply deepCopyObject_separates; [apply v1alpha1_copied|apply v1alpha1_list_copied]. Qed.

End deepcopy.
End v1alpha1_copies.

Module v1alpha2_copies.
Section deepcopy.
Context `{ext : !ExternalCopies}.

Definition BackstageDeployment_type : GoType := TyStruct [
  ("Patch", TyPtr (TyExternal JSON_tree))].
Definition BackstageDeployment_DeepCopyInto : GoVal → H GoVal := copyStruct [
  ("Patch", copyPtr JSON_DeepCopyInto)].
Definition BackstageDeployment_DeepCopy : GoVal → H GoVal := deepCopy BackstageDeployment_DeepCopyInto.

Definition BackstageStatus_type : GoType := TyStruct [
  ("Conditions", TySlice (TyExternal Condition_tree))].
Definition BackstageStatus_DeepCopyInto : GoVal → H GoVal := copyStruct [
  ("Conditions", copySlice Condition_DeepCopyInto)].
Definition BackstageStatus_DeepCopy : GoVal → H GoVal := deepCopy BackstageStatus_DeepCopyInto.

Definition Database_type : GoType := TyStruct [
  ("EnableLocalDb", TyPtr TyBasic); ("AuthSecretName", TyBasic)].
Definition Database_DeepCopyInto : GoVal → H GoVal := copyStruct [
  ("EnableLocalDb", copyPtr mret)].
Definition Database_DeepCopy : GoVal → H GoVal := deepCopy Database_DeepCopyInto.

Definition Env_type : GoType := TyStruct [
  ("Name", TyBasic); ("Value", TyBasic)].
Definition Env_DeepCopyInto : GoVal → H GoVal := copyStruct [].
Definition Env_DeepCopy : GoVal → H GoVal := deepCopy Env_DeepCopyInto.

Definition ObjectKeyRef_type : GoType := TyStruct [
  ("Name", TyBasic); ("Key", TyBasic)].
Definition ObjectKeyRef_DeepCopyInto : GoVal → H GoVal := copyStruct [].
Definition ObjectKeyRef_DeepCopy : GoVal → H GoVal := deepCopy ObjectKeyRef_DeepCopyInto.

Definition AppConfig_type : GoType := TyStruct [
  ("MountPath", TyBasic); ("ConfigMaps", TySlice ObjectKeyRef_type)].
Definition AppConfig_DeepCopyInto : GoVal → H GoVal := copyStruct [
  ("ConfigMaps", copyFlat)].
Definition AppConfig_DeepCopy : GoVal → H GoVal := deepCopy AppConfig_DeepCopyInto.

Definition ExtraEnvs_type : GoType := TyStruct [
  ("ConfigMaps", TySlice ObjectKeyRef_type); ("Secrets", TySlice ObjectKeyRef_type); ("Envs", TySlice Env_type)].
Definition ExtraEnvs_DeepCopyInto : GoVal → H GoVal := copyStruct [
  ("ConfigMaps", copyFlat); ("Secrets", copyFlat); ("Envs", copyFlat)].
Definition ExtraEnvs_DeepCopy : GoVal → H GoVal := deepCopy ExtraEnvs_DeepCopyInto.

Definition ExtraFiles_type : GoType := TyStruct [
  ("MountPath", TyBasic); ("ConfigMaps", TySlice ObjectKeyRef_type); ("Secrets", TySlice ObjectKeyRef_type)].
Definition ExtraFiles_DeepCopyInto : GoVal → H GoVal := copyStruct [
  ("ConfigMaps", copyFlat); ("Secrets", copyFlat)].
Definition ExtraFiles_DeepCopy : GoVal → H GoVal := deepCopy ExtraFiles_DeepCopyInto.

Definition RuntimeConfig_type : GoType := TyStruct [
  ("BackstageConfigName", TyBasic); ("LocalDbConfigName", TyBasic)].
Definition RuntimeConfig_DeepCopyInto : GoVal → H GoVal := copyStruct [].
Definition RuntimeConfig_DeepCopy : GoVal → H GoVal := deepCopy RuntimeConfig_DeepCopyInto.

Definition TLS_type : GoType := TyStruct [
  ("Certificate", TyBasic); ("ExternalCertificateSecretName", TyBasic); ("Key", TyBasic); ("CACertificate", TyBasic)].
Definition TLS_DeepCopyInto : GoVal → H GoVal := copyStruct [].
Definition TLS_DeepCopy : GoVal → H GoVal := deepCopy TLS_DeepCopyInto.

Definition Route_type : GoType := TyStruct [
  ("Enabled", TyPtr TyBasic); ("Host", TyBasic); ("Subdomain", TyBasic); ("TLS", TyPtr TLS_type)].
Definition Route_DeepCopyInto : GoVal → H GoVal := copyStruct [
  ("Enabled", copyPtr mret); ("TLS", copyPtr mret)].
Definition Route_DeepCopy : GoVal → H GoVal := deepCopy Route_DeepCopyInto.

Definition Application_type : GoType := TyStruct [
  ("AppConfig", TyPtr AppConfig_type); ("DynamicPluginsConfigMapName", TyBasic);
  ("ExtraFiles", TyPtr ExtraFiles_type); ("ExtraEnvs", TyPtr ExtraEnvs_type); ("Replicas", TyPtr TyBasic);
  ("Image", TyPtr TyBasic); ("ImagePullSecrets", TySlice TyBasic); ("Route", TyPtr Route_type)].
Definition Application_DeepCopyInto : GoVal → H GoVal := copyStruct [
  ("AppConfig", copyPtr AppConfig_DeepCopyInto); ("ExtraFiles", copyPtr ExtraFiles_DeepCopyInto);
  ("ExtraEnvs", copyPtr ExtraEnvs_DeepCopyInto); ("Replicas", copyPtr mret); ("Image", copyPtr mret);
  ("ImagePullSecrets", copyFlat); ("Route", copyPtr Route_DeepCopyInto)].
Definition Application_DeepCopy : GoVal → H GoVal := deepCopy Application_DeepCopyInto.

Definition BackstageSpec_type : GoType := TyStruct [
  ("Application", TyPtr Application_type); ("RawRuntimeConfig", TyPtr RuntimeConfig_type);
  ("Database", TyPtr Database_type); ("Deployment", TyPtr BackstageDeployment_type)].
Definition BackstageSpec_DeepCopyInto : GoVal → H GoVal := copyStruct [
  ("Application", copyPtr Application_DeepCopyInto); ("RawRuntimeConfig", copyPtr mret);
  ("Database", copyPtr Database_DeepCopyInto); ("Deployment", copyPtr BackstageDeployment_DeepCopyInto)].
Definition BackstageSpec_DeepCopy : GoVal → H GoVal := deepCopy BackstageSpec_DeepCopyInto.

Definition Backstage_type : GoType := TyStruct [
  ("TypeMeta", TypeMeta_type); ("ObjectMeta", TyExternal ObjectMeta_tree); ("Spec", BackstageSpec_type);
  ("Status", BackstageStatus_type)].
Definition Backstage_DeepCopyInto : GoVal → H GoVal := copyStruct [
  ("TypeMeta", mret); ("ObjectMeta", ObjectMeta_DeepCopyInto); ("Spec", BackstageSpec_DeepCopyInto);
  ("Status", BackstageStatus_DeepCopyInto)].
Definition Backstage_DeepCopy : GoVal → H GoVal := deepCopy Backstage_DeepCopyInto.

Definition BackstageList_type : GoType := TyStruct [
  ("TypeMeta", TypeMeta_type); ("ListMeta", TyExternal ListMeta_tree); ("Items", TySlice Backstage_type)].
Definition BackstageList_DeepCopyInto : GoVal → H GoVal := copyStruct [
  ("TypeMeta", mret); ("ListMeta", ListMeta_DeepCopyInto); ("Items", copySlice Backstage_DeepCopyInto)].
Definition BackstageList_DeepCopy : GoVal → H GoVal := deepCopy BackstageList_DeepCopyInto.

Definition Backstage_DeepCopyObject : GoVal → H GoVal := deepCopyObject Backstage_DeepCopy.
Definition BackstageList_DeepCopyObject : GoVal → H GoVal := deepCopyObject BackstageList_DeepCopy.

Lemma v1alpha2_copied : copies Backstage_type Backstage_DeepCopyInto.
Proof. copied. Qed.
#[local] Hint Resolve v1alpha2_copied : deepcopy.
Lemma v1alpha2_list_copied : copies BackstageList_type BackstageList_DeepCopyInto.
Proof. copied. Qed.
Lemma v1alpha2_separates :
  separate_copy Backstage_type Backstage_DeepCopyObject ∧ separate_copy BackstageList_type BackstageList_DeepCopyObject.
Proof. split; apply deepCopyObject_separates; [apply v1alpha2_copied|apply v1alpha2_list_copied]. Qed.

End deepcopy.
End v1alpha2_copies.

Module v1alpha3_copies.
Section deepcopy.
Context `{ext : !ExternalCopies}.

Definition BackstageDeployment_type : GoType := TyStruct [
  ("Patch", TyPtr (TyExternal JSON_tree))].
Definition BackstageDeployment_DeepCopyInto : GoVal → H GoVal := copyStruct [
  ("Patch", copyPtr JSON_DeepCopyInto)].
Definition BackstageDeployment_DeepCopy : GoVal → H GoVal := deepCopy BackstageDeployment_DeepCopyInto.

Definition BackstageStatus_type : GoType := TyStruct [
  ("Conditions", TySlice (TyExternal Condition_tree))].
Definition BackstageStatus_DeepCopyInto : GoVal → H GoVal := copyStruct [
  ("Conditions", copySlice Condition_DeepCopyInto)].
Definition BackstageStatus_DeepCopy : GoVal → H GoVal := deepCopy BackstageStatus_DeepCopyInto.

Definition Database_type : GoType := TyStruct [
  ("EnableLocalDb", TyPtr TyBasic); ("AuthSecretName", TyBasic)].
Definition Database_DeepCopyInto : GoVal → H GoVal := copyStruct [
  ("EnableLocalDb", copyPtr mret)].
Definition Database_DeepCopy : GoVal → H GoVal := deepCopy Database_DeepCopyInto.

Definition Env_type : GoType := TyStruct [
  ("Name", TyBasic); ("Value", TyBasic)].
Definition Env_DeepCopyInto : GoVal → H GoVal := copyStruct [].
Definition Env_DeepCopy : GoVal → H GoVal := deepCopy Env_DeepCopyInto.

Definition EnvObjectRef_type : GoType := TyStruct [
  ("Name", TyBasic); ("Key", TyBasic)].
Definition EnvObjectRef_DeepCopyInto : GoVal → H GoVal := copyStruct [].
Definition EnvObjectRef_DeepCopy : GoVal → H GoVal := deepCopy EnvObjectRef_DeepCopyInto.

Definition ExtraEnvs_type : GoType := TyStruct [
  ("ConfigMaps", TySlice EnvObjectRef_type); ("Secrets", TySlice EnvObjectRef_type); ("Envs", TySlice Env_type)].
Definition ExtraEnvs_DeepCopyInto : GoVal → H GoVal := copyStruct [
  ("ConfigMaps", copyFlat); ("Secrets", copyFlat); ("Envs", copyFlat)].
Definition ExtraEnvs_DeepCopy : GoVal → H GoVal := deepCopy ExtraEnvs_DeepCopyInto.

Definition FileObjectRef_type : GoType := TyStruct [
  ("Name", TyBasic); ("Key", TyBasic); ("MountPath", TyBasic)].
Definition FileObjectRef_DeepCopyInto : GoVal → H GoVal := copyStruct [].
Definition FileObjectRef_DeepCopy : GoVal → H GoVal := deepCopy FileObjectRef_DeepCopyInto.

Definition AppConfig_type : GoType := TyStruct [
  ("MountPath", TyBasic); ("ConfigMaps", TySlice FileObjectRef_type)].
Definition AppConfig_DeepCopyInto : GoVal → H GoVal := copyStruct [
  ("ConfigMaps", copyFlat)].
Definition AppConfig_DeepCopy : GoVal → H GoVal := deepCopy AppConfig_DeepCopyInto.

Definition PvcRef_type : GoType := TyStruct [
  ("Name", TyBasic); ("MountPath", TyBasic)].
Definition PvcRef_DeepCopyInto : GoVal → H GoVal := copyStruct [].
Definition PvcRef_DeepCopy : GoVal → H GoVal := deepCopy PvcRef_DeepCopyInto.

Definition ExtraFiles_type : GoType := TyStruct [
  ("MountPath", TyBasic); ("ConfigMaps", TySlice FileObjectRef_type); ("Secrets", TySlice FileObjectRef_type);
  ("Pvcs", TySlice PvcRef_type)].
Definition ExtraFiles_DeepCopyInto : GoVal → H GoVal := copyStruct [
  ("ConfigMaps", copyFlat); ("Secrets", copyFlat); ("Pvcs", copyFlat)].
Definition ExtraFiles_DeepCopy : GoVal → H GoVal := deepCopy ExtraFiles_DeepCopyInto.

Definition RuntimeConfig_type : GoType := TyStruct [
  ("BackstageConfigName", TyBasic); ("LocalDbConfigName", TyBasic)].
Definition RuntimeConfig_DeepCopyInto : GoVal → H GoVal := copyStruct [].
Definition RuntimeConfig_DeepCopy : GoVal → H GoVal := deepCopy RuntimeConfig_DeepCopyInto.

Definition TLS_type : GoType := TyStruct [
  ("Certificate", TyBasic); ("ExternalCertificateSecretName", TyBasic); ("Key", TyBasic); ("CACertificate", TyBasic)].
Definition TLS_DeepCopyInto : GoVal → H GoVal := copyStruct [].
Definition TLS_DeepCopy : GoVal → H GoVal := deepCopy TLS_DeepCopyInto.

Definition Route_type : GoType := TyStruct [
  ("Enabled", TyPtr TyBasic); ("Host", TyBasic); ("Subdomain", TyBasic); ("TLS", TyPtr TLS_type)].
Definition Route_DeepCopyInto : GoVal → H GoVal := copyStruct [
  ("Enabled", copyPtr mret); ("TLS", copyPtr mret)].
Definition Route_DeepCopy : GoVal → H GoVal := deepCopy Route_DeepCopyInto.

Definition Application_type : GoType := TyStruct [
  ("AppConfig", TyPtr AppConfig_type); ("DynamicPluginsConfigMapName", TyBasic);
  ("ExtraFiles", TyPtr ExtraFiles_type); ("ExtraEnvs", TyPtr ExtraEnvs_type); ("Replicas", TyPtr TyBasic);
  ("Image", TyPtr TyBasic); ("ImagePullSecrets", TySlice TyBasic); ("Route", TyPtr Route_type)].
Definition Application_DeepCopyInto : GoVal → H GoVal := copyStruct [
  ("AppConfig", copyPtr AppConfig_DeepCopyInto); ("ExtraFiles", copyPtr ExtraFiles_DeepCopyInto);
  ("ExtraEnvs", copyPtr ExtraEnvs_DeepCopyInto); ("Replicas", copyPtr mret); ("Image", copyPtr mret);
  ("ImagePullSecrets", copyFlat); ("Route", copyPtr Route_DeepCopyInto)].
Definition Application_DeepCopy : GoVal → H GoVal := deepCopy Application_DeepCopyInto.

Definition BackstageSpec_type : GoType := TyStruct [
  ("Application", TyPtr Application_type); ("RawRuntimeConfig", TyPtr RuntimeConfig_type);
  ("Database", TyPtr Database_type); ("Deployment", TyPtr BackstageDeployment_type)].
Definition BackstageSpec_DeepCopyInto : GoVal → H GoVal := copyStruct [
  ("Application", copyPtr Application_DeepCopyInto); ("RawRuntimeConfig", copyPtr mret);
  ("Database", copyPtr Database_DeepCopyInto); ("Deployment", copyPtr BackstageDeployment_DeepCopyInto)].
Definition BackstageSpec_DeepCopy : GoVal → H GoVal := deepCopy BackstageSpec_DeepCopyInto.

Definition Backstage_type : GoType := TyStruct [
  ("TypeMeta", TypeMeta_type); ("ObjectMeta", TyExternal ObjectMeta_tree); ("Spec", BackstageSpec_type);
  ("Status", BackstageStatus_type)].
Definition Backstage_DeepCopyInto : GoVal → H GoVal := copyStruct [
  ("TypeMeta", mret); ("ObjectMeta", ObjectMeta_DeepCopyInto); ("Spec", BackstageSpec_DeepCopyInto);
  ("Status", BackstageStatus_DeepCopyInto)].
Definition Backstage_DeepCopy : GoVal → H GoVal := deepCopy Backstage_DeepCopyInto.

Definition BackstageList_type : GoType := TyStruct [
  ("TypeMeta", TypeMeta_type); ("ListMeta", TyExternal ListMeta_tree); ("Items", TySlice Backstage_type)].
Definition BackstageList_DeepCopyInto : GoVal → H GoVal := copyStruct [
  ("TypeMeta", mret); ("ListMeta", ListMeta_DeepCopyInto); ("Items", copySlice Backstage_DeepCopyInto)].
Definition BackstageList_DeepCopy : GoVal → H GoVal := deepCopy BackstageList_DeepCopyInto.

Definition Backstage_DeepCopyObject : GoVal → H GoVal := deepCopyObject Backstage_DeepCopy.
Definition BackstageList_DeepCopyObject : GoVal → H GoVal := deepCopyObject BackstageList_DeepCopy.

Lemma v1alpha3_copied : copies Backstage_type Backstage_DeepCopyInto.
Proof. copied. Qed.
#[local] Hint Resolve v1alpha3_copied : deepcopy.
Lemma v1alpha3_list_copied : copies BackstageList_type BackstageList_DeepCopyInto.
Proof. copied. Qed.
Lemma v1alpha3_separates :
  separate_copy Backstage_type Backstage_DeepCopyObject ∧ separate_copy BackstageList_type BackstageList_DeepCopyObject.
Proof. split; apply deepCopyObject_separates; [apply v1alpha3_copied|apply v1alpha3_list_copied]. Qed.

End deepcopy.
End v1alpha3_copies.

Module v1alpha4_copies.
Section deepcopy.
Context `{ext : !ExternalCopies}.

Definition BackstageDeployment_type : GoType := TyStruct [
  ("Patch", TyPtr (TyExternal JSON_tree))].
Definition BackstageDeployment_DeepCopyInto : GoVal → H GoVal := copyStruct [
  ("Patch", copyPtr JSON_DeepCopyInto)].
Definition BackstageDeployment_DeepCopy : GoVal → H GoVal := deepCopy BackstageDeployment_DeepCopyInto.

Definition BackstageStatus_type : GoType := TyStruct [
  ("Conditions", TySlice (TyExternal Condition_tree))].
Definition BackstageStatus_DeepCopyInto : GoVal → H GoVal := copyStruct [
  ("Conditions", copySlice Condition_DeepCopyInto)].
Definition BackstageStatus_DeepCopy : GoVal → H GoVal := deepCopy BackstageStatus_DeepCopyInto.

Definition Database_type : GoType := TyStruct [
  ("EnableLocalDb", TyPtr TyBasic); ("AuthSecretName", TyBasic)].
Definition Database_DeepCopyInto : GoVal → H GoVal := copyStruct [
  ("EnableLocalDb", copyPtr mret)].
Definition Database_DeepCopy : GoVal → H GoVal := deepCopy Database_DeepCopyInto.

Definition Env_type : GoType := TyStruct [
  ("Name", TyBasic); ("Value", TyBasic); ("Containers", TySlice TyBasic)].
Definition Env_DeepCopyInto : GoVal → H GoVal := copyStruct [
  ("Containers", copyFlat)].
Definition Env_DeepCopy : GoVal → H GoVal := deepCopy Env_DeepCopyInto.

Definition EnvObjectRef_type : GoType := TyStruct [
  ("Name", TyBasic); ("Key", TyBasic); ("Containers", TySlice TyBasic)].
Definition EnvObjectRef_DeepCopyInto : GoVal → H GoVal := copyStruct [
  ("Containers", copyFlat)].
Definition EnvObjectRef_DeepCopy : GoVal → H GoVal := deepCopy EnvObjectRef_DeepCopyInto.

Definition ExtraEnvs_type : GoType := TyStruct [
  ("ConfigMaps", TySlice EnvObjectRef_type); ("Secrets", TySlice EnvObjectRef_type); ("Envs", TySlice Env_type)].
Definition ExtraEnvs_DeepCopyInto : GoVal → H GoVal := copyStruct [
  ("ConfigMaps", copySlice EnvObjectRef_DeepCopyInto); ("Secrets", copySlice EnvObjectRef_DeepCopyInto);
  ("Envs", copySlice Env_DeepCopyInto)].
Definition ExtraEnvs_DeepCopy : GoVal → H GoVal := deepCopy ExtraEnvs_DeepCopyInto.

Definition FileObjectRef_type : GoType := TyStruct [
  ("Name", TyBasic); ("Key", TyBasic); ("MountPath", TyBasic); ("Containers", TySlice TyBasic)].
Definition FileObjectRef_DeepCopyInto : GoVal → H GoVal := copyStruct [
  ("Containers", copyFlat)].
Definition FileObjectRef_DeepCopy : GoVal → H GoVal := deepCopy FileObjectRef_DeepCopyInto.

Definition AppConfig_type : GoType := TyStruct [
  ("MountPath", TyBasic); ("ConfigMaps", TySlice FileObjectRef_type)].
Definition AppConfig_DeepCopyInto : GoVal → H GoVal := copyStruct [
  ("ConfigMaps", copySlice FileObjectRef_DeepCopyInto)].
Definition AppConfig_DeepCopy : GoVal → H GoVal := deepCopy AppConfig_DeepCopyInto.

Definition Monitoring_type : GoType := TyStruct [
  ("Enabled", TyBasic)].
Definition Monitoring_DeepCopyInto : GoVal → H GoVal := copyStruct [].
Definition Monitoring_DeepCopy : GoVal → H GoVal := deepCopy Monitoring_DeepCopyInto.

Definition PvcRef_type : GoType := TyStruct [
  ("Name", TyBasic); ("MountPath", TyBasic); ("Containers", TySlice TyBasic)].
Definition PvcRef_DeepCopyInto : GoVal → H GoVal := copyStruct [
  ("Containers", copyFlat)].
Definition PvcRef_DeepCopy : GoVal → H GoVal := deepCopy PvcRef_DeepCopyInto.

Definition ExtraFiles_type : GoType := TyStruct [
  ("MountPath", TyBasic); ("ConfigMaps", TySlice FileObjectRef_type); ("Secrets", TySlice FileObjectRef_type);
  ("Pvcs", TySlice PvcRef_type)].
Definition ExtraFiles_DeepCopyInto : GoVal → H GoVal := copyStruct [
  ("ConfigMaps", copySlice FileObjectRef_DeepCopyInto); ("Secrets", copySlice FileObjectRef_DeepCopyInto);
  ("Pvcs", copySlice PvcRef_DeepCopyInto)].
Definition ExtraFiles_DeepCopy : GoVal → H GoVal := deepCopy ExtraFiles_DeepCopyInto.

Definition RuntimeConfig_type : GoType := TyStruct [
  ("BackstageConfigName", TyBasic); ("LocalDbConfigName", TyBasic)].
Definition RuntimeConfig_DeepCopyInto : GoVal → H GoVal := copyStruct [].
Definition RuntimeConfig_DeepCopy : GoVal → H GoVal := deepCopy RuntimeConfig_DeepCopyInto.

Definition TLS_type : GoType := TyStruct [
  ("Certificate", TyBasic); ("ExternalCertificateSecretName", TyBasic); ("Key", TyBasic); ("CACertificate", TyBasic)].
Definition TLS_DeepCopyInto : GoVal → H GoVal := copyStruct [].
Definition TLS_DeepCopy : GoVal → H GoVal := deepCopy TLS_DeepCopyInto.

Definition Route_type : GoType := TyStruct [
  ("Enabled", TyPtr TyBasic); ("Host", TyBasic); ("Subdomain", TyBasic); ("TLS", TyPtr TLS_type)].
Definition Route_DeepCopyInto : GoVal → H GoVal := copyStruct [
  ("Enabled", copyPtr mret); ("TLS", copyPtr mret)].
Definition Route_DeepCopy : GoVal → H GoVal := deepCopy Route_DeepCopyInto.

Definition Application_type : GoType := TyStruct [
  ("AppConfig", TyPtr AppConfig_type); ("DynamicPluginsConfigMapName", TyBasic);
  ("ExtraFiles", TyPtr ExtraFiles_type); ("ExtraEnvs", TyPtr ExtraEnvs_type); ("Replicas", TyPtr TyBasic);
  ("Image", TyPtr TyBasic); ("ImagePullSecrets", TySlice TyBasic); ("Route", TyPtr Route_type)].
Definition Application_DeepCopyInto : GoVal → H GoVal := copyStruct [
  ("AppConfig", copyPtr AppConfig_DeepCopyInto); ("ExtraFiles", copyPtr ExtraFiles_DeepCopyInto);
  ("ExtraEnvs", copyPtr ExtraEnvs_DeepCopyInto); ("Replicas", copyPtr mret); ("Image", copyPtr mret);
  ("ImagePullSecrets", copyFlat); ("Route", copyPtr Route_DeepCopyInto)].
Definition Application_DeepCopy : GoVal → H GoVal := deepCopy Application_DeepCopyInto.

Definition BackstageSpec_type : GoType := TyStruct [
  ("Application", TyPtr Application_type); ("RawRuntimeConfig", TyPtr RuntimeConfig_type);
  ("Database", TyPtr Database_type); ("Monitoring", Monitoring_type); ("Deployment", TyPtr BackstageDeployment_type)].
Definition BackstageSpec_DeepCopyInto : GoVal → H GoVal := copyStruct [
  ("Application", copyPtr Application_DeepCopyInto); ("RawRuntimeConfig", copyPtr mret);
  ("Database", copyPtr Database_DeepCopyInto); ("Monitoring", mret);
  ("Deployment", copyPtr BackstageDeployment_DeepCopyInto)].
Definition BackstageSpec_DeepCopy : GoVal → H GoVal := deepCopy BackstageSpec_DeepCopyInto.

Definition Backstage_type : GoType := TyStruct [
  ("TypeMeta", TypeMeta_type); ("ObjectMeta", TyExternal ObjectMeta_tree); ("Spec", BackstageSpec_type);
  ("Status", BackstageStatus_type)].
Definition Backstage_DeepCopyInto : GoVal → H GoVal := copyStruct [
  ("TypeMeta", mret); ("ObjectMeta", ObjectMeta_DeepCopyInto); ("Spec", BackstageSpec_DeepCopyInto);
  ("Status", BackstageStatus_DeepCopyInto)].
Definition Backstage_DeepCopy : GoVal → H GoVal := deepCopy Backstage_DeepCopyInto.

Definition BackstageList_type : GoType := TyStruct [
  ("TypeMeta", TypeMeta_type); ("ListMeta", TyExternal ListMeta_tree); ("Items", TySlice Backstage_type)].
Definition BackstageList_DeepCopyInto : GoVal → H GoVal := copyStruct [
  ("TypeMeta", mret); ("ListMeta", ListMeta_DeepCopyInto); ("Items", copySlice Backstage_DeepCopyInto)].
Definition BackstageList_DeepCopy : GoVal → H GoVal := deepCopy BackstageList_DeepCopyInto.

Definition Backstage_DeepCopyObject : GoVal → H GoVal := deepCopyObject Backstage_DeepCopy.
Definition BackstageList_DeepCopyObject : GoVal → H GoVal := deepCopyObject BackstageList_DeepCopy.

Lemma v1alpha4_copied : copies Backstage_type Backstage_DeepCopyInto.
Proof. copied. Qed.
#[local] Hint Resolve v1alpha4_copied : deepcopy.
Lemma v1alpha4_list_copied : copies BackstageList_type BackstageList_DeepCopyInto.
Proof. copied. Qed.
Lemma v1alpha4_separates :
  separate_copy Backstage_type Backstage_DeepCopyObject ∧ separate_copy BackstageList_type BackstageList_DeepCopyObject.
Proof. split; apply deepCopyObject_separates; [apply v1alpha4_copied|apply v1alpha4_list_copied]. Qed.

End deepcopy.
End v1alpha4_copies.

(** ** The versions *)

Section versions.
Context `{ext : !ExternalCopies}.

(** The struct of a custom resource of a version, with its [DeepCopyObject], and
    those of the list of them *)
Definition versionCopies : list ((GoType * (GoVal → H GoVal)) * (GoType * (GoVal → H GoVal))) := [
  ((v1alpha1_copies.Backstage_type, v1alpha1_copies.Backstage_DeepCopyObject),
   (v1alpha1_copies.BackstageList_type, v1alpha1_copies.BackstageList_DeepCopyObject));
  ((v1alpha2_copies.Backstage_type, v1alpha2_copies.Backstage_DeepCopyObject),
   (v1alpha2_copies.BackstageList_type, v1alpha2_copies.BackstageList_DeepCopyObject));
  ((v1alpha3_copies.Backstage_type, v1alpha3_copies.Backstage_DeepCopyObject),
   (v1alpha3_copies.BackstageList_type, v1alpha3_copies.BackstageList_DeepCopyObject));
  ((v1alpha4_copies.Backstage_type, v1alpha4_copies.Backstage_DeepCopyObject),
   (v1alpha4_copies.BackstageList_type, v1alpha4_copies.BackstageList_DeepCopyObject));
  ((DeepCopy.Backstage_type, DeepCopy.Backstage_DeepCopyObject),
   (DeepCopy.BackstageList_type, DeepCopy.BackstageList_DeepCopyObject))].

(** C18. In every version, the copies that controller-runtime takes of a custom
    resource and of a list of them denote the same and share no memory with the
    original: whatever is then done to the copy, as the reconciler does to a
    resource of the current version, the object in the cache stays as it is. *)
Theorem DeepCopyObject_separate :
  Forall (λ '((ty, copy), (list_ty, list_copy)), separate_copy ty copy ∧ separate_copy list_ty list_copy) versionCopies.
Proof.
  apply Forall_cons_2; [apply v1alpha1_copies.v1alpha1_separates|]. apply Forall_cons_2; [apply v1alpha2_copies.v1alpha2_separates|].
  apply Forall_cons_2; [apply v1alpha3_copies.v1alpha3_separates|]. apply Forall_cons_2; [apply v1alpha4_copies.v1alpha4_separates|].
  apply Forall_cons_2; [apply v1alpha5_separates|apply Forall_nil_2].
Qed.

End versions.

(** ** A custom resource in memory *)

Section example.
Definition Backstage_fields : list string := ["TypeMeta"; "ObjectMeta"; "Spec"; "Status"].
Definition BackstageSpec_fields : list string := ["Application"; "RawRuntimeConfig"; "Database"; "Monitoring"; "Deployment"; "Flavours"].
Definition basic_tree (t : Tree) : Prop := match t with TBasic _ => True | _ => False end.
Lemma basic_copies : copies (TyExternal basic_tree) mret.
Proof.
  intros h v [] S Ht Hv; try done. inversion Hv; subst. exists (GBasic b), h, ∅. by split_and!.
Qed.
#[local] Instance example_copies : ExternalCopies := {|
  ObjectMeta_copies := basic_copies; ListMeta_copies := basic_copies;
  Condition_copies := basic_copies; JSON_copies := basic_copies
|}.

Definition gstr (s : string) : GoVal := GBasic (BString s).
(** At 1 the resource, at 2 the flavours of its spec, at 3 their array *)
Definition example_heap : heap := {[
  1%positive := GStruct Backstage_fields [GStruct ["Kind"; "APIVersion"] [gstr "Backstage"; gstr "v1alpha5"]; gstr "bs";
    GStruct BackstageSpec_fields [GNil; GNil; GNil; GStruct ["Enabled"] [GBasic (BBool false)]; GNil; GPtr 2];
    GStruct ["Conditions"] [GNil]];
  2%positive := GSlice 3 0 1;
  3%positive := GArray [GStruct ["Name"; "Enabled"] [gstr "lightspeed"; GBasic (BBool true)]] ]}.
Definition example_result := Backstage_DeepCopyObject (GPtr 1) example_heap.
Example example_copied :
  fmap (M := outcome) (λ r, (r.1, dom r.2, r.2 !! 1%positive)) example_result =
    Ok (GPtr 4, list_to_set [1; 2; 3; 4; 5; 6]%positive, example_heap !! 1%positive).
Proof. vm_compute. reflexivity. Qed.

Definition tstr (s : string) : Tree := TBasic (BString s).
Definition example_tree : Tree :=
  TStruct Backstage_fields [TStruct ["Kind"; "APIVersion"] [tstr "Backstage"; tstr "v1alpha5"]; tstr "bs";
    TStruct BackstageSpec_fields [TNil; TNil; TNil; TStruct ["Enabled"] [TBasic (BBool false)]; TNil;
      TPtr (TSlice [TStruct ["Name"; "Enabled"] [tstr "lightspeed"; TBasic (BBool true)]])];
    TStruct ["Conditions"] [TNil]].

Definition example_value : GoVal := default GNil (example_heap !! 1%positive).
Lemma example_denotes : ∃ S, denotes example_heap example_value example_tree S.
Proof. eexists. unfold example_value, example_tree. cbn. repeat econstructor. Qed.

Lemma DeepCopyObject_separate_witness :
  ∃ l' v' h' S', example_result = Ok (GPtr l', h') ∧ h' !! l' = Some v' ∧ denotes h' v' example_tree S'.
Proof.
  destruct example_denotes as [S HS].
  pose proof DeepCopyObject_separate as Hall. do 4 apply Forall_inv_tail in Hall. apply Forall_inv in Hall.
  destruct (proj2 (proj1 Hall) example_heap 1%positive example_value example_tree S eq_refl HS)
    as (l' & v' & h' & S' & Hrun & _ & Hl & Hd & _).
  - cbn. repeat split; repeat constructor.
  - by exists l', v', h', S'.
Defined.

End example.
