(* ===== verification/Pod.v ===== *)
(** * The pod of a workload (pkg/model/containers-filter.go, deployment.go)

    The functions of the operator that change a pod: which containers a
    configuration object goes to, how its files are mounted and how its
    variables are added.  In Go they are methods of [BackstageDeployment]
    that write through pointers into [podSpec().Containers] and
    [podSpec().InitContainers]; here such a pointer is a [ContainerRef], the
    position of the container, so that two pointers to one container are one
    reference, and a method is a function from the pod to the pod. *)

From S2P Require Import Prelude.
From S2P Require Import GoStrings.
From S2P Require Import K8s.
From S2P Require Import Api.
From S2P Require Import Externals.
From S2P Require Import Utils.
From stdpp Require Import options.

Abbreviation ObjectKind := string.
Definition SecretObjectKind : ObjectKind := "Secret".
Definition ConfigMapObjectKind : ObjectKind := "ConfigMap".

Definition DefaultMountDir : string := "/opt/app-root/src".
Definition BackstageContainerName : string := "backstage-backend".
Definition DefaultMountPathAnnotation : string := "rhdh.redhat.com/mount-path".
Definition DefaultSubPathAnnotation : string := "rhdh.redhat.com/sub-path".
Definition ContainersAnnotation : string := "rhdh.redhat.com/containers".

(** ** Pointers to containers *)

Inductive ContainerRef :=
  | MainContainer (i : nat)
  | InitContainer (i : nat).
#[export] Instance ContainerRef_eq_dec : EqDecision ContainerRef.
Proof. solve_decision. Defined.

Definition load (p : PodSpec) (r : ContainerRef) : option Container :=
  match r with
  | MainContainer i => Containers p !! i
  | InitContainer i => InitContainers p !! i
  end.

(** [*r = f( *r )] *)
Definition store (r : ContainerRef) (f : Container → Container) (p : PodSpec) : PodSpec :=
  match r with
  | MainContainer i => p <| Containers ::= alter f i |>
  | InitContainer i => p <| InitContainers ::= alter f i |>
  end.

(** [for _, container := range containers { *container = f( *container ) }] *)
Definition storeAll (rs : list ContainerRef) (f : Container → Container) (p : PodSpec) : PodSpec :=
  foldl (λ p r, store r f p) p rs.

(** ** Finding containers *)

Definition hasName (name : string) (c : Container) : Prop := c_Name c = name.
#[export] Instance hasName_dec name c : Decision (hasName name c) := decide_rel (=) _ _.

(** -1 when there is none *)
Definition BackstageContainerIndex (p : PodSpec) : Z :=
  match list_find (hasName BackstageContainerName) (Containers p) with
  | Some (i, _) => Z.of_nat i
  | None => -1
  end.

(** [&b.podSpec().Containers[BackstageContainerIndex(b.podSpec())]] *)
Definition container (p : PodSpec) : outcome ContainerRef :=
  let i := BackstageContainerIndex p in
  if bool_decide (i < 0)%Z then Panic "index out of range [-1]"
  else Ok (MainContainer (Z.to_nat i)).

Definition containerByName (p : PodSpec) (name : string) : option ContainerRef :=
  match list_find (hasName name) (Containers p) with
  | Some (i, _) => Some (MainContainer i)
  | None =>
      match list_find (hasName name) (InitContainers p) with
      | Some (i, _) => Some (InitContainer i)
      | None => None
      end
  end.

Definition allContainers (p : PodSpec) : list string :=
  (c_Name <$> Containers p) ++ (c_Name <$> InitContainers p).

Record containersFilter := mkContainersFilter {
  names : list string;
  annotation : string
}.

(** The filters the callers write. *)
Definition filterNone : containersFilter := mkContainersFilter [] "".
Definition filterNames (ns : list string) : containersFilter := mkContainersFilter ns "".
Definition filterAnnotation (a : string) : containersFilter := mkContainersFilter [] a.

(** The names the filter stands for, before they are looked up. *)
Definition filterContainerNames (f : containersFilter) : list string :=
  if bool_decide (annotation f ≠ "") then ParseCommaSeparated (annotation f) else names f.

Definition getContainers (f : containersFilter) (p : PodSpec) : outcome (list ContainerRef) :=
  let containerNames := filterContainerNames f in
  if bool_decide (length containerNames = 0) then r ← container p; Ok [r]
  else
    let containerNames :=
      if bool_decide (containerNames = ["*"]) then allContainers p else containerNames in
    collect (λ c,
      match containerByName p c with
      | None => Err (Errorf ("container " +:+ c +:+ " not found"))
      | Some r => Ok r
      end) [] containerNames.

(** ** Mount paths *)

Definition defaultMountPath (p : PodSpec) : outcome string :=
  r ← container p;
  c ← deref "container" (load p r);
  let dmp := c_WorkingDir c in
  Ok (if bool_decide (dmp = "") then DefaultMountDir else dmp).

(** The path to mount under, and whether file by file. *)
Definition mountPath (p : PodSpec) (objectMountPath objectKey sharedMountPath : string) : outcome (string * bool) :=
  mp ← defaultMountPath p;
  let mp := if bool_decide (sharedMountPath ≠ "") then sharedMountPath else mp in
  Ok (if bool_decide (objectMountPath ≠ "") then
        (if filepath.IsAbs objectMountPath then objectMountPath
         else filepath.Join [mp; objectMountPath],
         negb (bool_decide (objectKey = "")))
      else (mp, true)).

(** The mount path, sub-path and file name of an object of the default configuration. *)
Definition getDefConfigMountPath (p : PodSpec) (m : ObjectMeta) : outcome (string * string * string) :=
  let mp := map_get (Annotations m) DefaultMountPathAnnotation in
  mp ← (if bool_decide (mp = "") then defaultMountPath p else Ok mp);
  let subPath := map_get (Annotations m) DefaultSubPathAnnotation in
  let fileName := if bool_decide (subPath ≠ "" ∧ subPath ≠ "*") then subPath else "" in
  Ok (mp, subPath, fileName).

(** ** Images and variables *)

Definition setImage (image : option string) (initContainerIndex : Z) (p : PodSpec) : outcome PodSpec :=
  match image with
  | None => Ok p
  | Some image =>
      r ← container p;
      let p := store r (λ c, c <| c_Image := image |>) p in
      if bool_decide (0 < length (InitContainers p)) then
        if bool_decide (0 ≤ initContainerIndex)%Z then
          let i := Z.to_nat initContainerIndex in
          if bool_decide (i < length (InitContainers p))
          then Ok (store (InitContainer i) (λ c, c <| c_Image := image |>) p)
          else Panic "index out of range"
        else Ok p
      else Ok p
  end.

Definition setOrAppendEnvVar (name value : string) (c : Container) : Container :=
  match list_find (λ e, ev_Name e = name) (c_Env c) with
  | Some (i, _) => c <| c_Env ::= <[i := mkEnvVar name value None]> |>
  | None => c <| c_Env ::= λ l, l ++ [mkEnvVar name value None] |>
  end.

Definition addExtraEnvs (extraEnvs : option api.ExtraEnvs) (p : PodSpec) : outcome PodSpec :=
  match extraEnvs with
  | None => Ok p
  | Some ee =>
      foldM (λ p env,
        containers ← wrapErr ("can not get containers to add env " +:+ api.env_Name env)
          (getContainers (filterNames (api.env_Containers env)) p);
        Ok (storeAll containers (setOrAppendEnvVar (api.env_Name env) (api.env_Value env)) p))
        p (api.ee_Envs ee)
  end.

(** ** Mounting files *)

Definition volumeSource (kind : ObjectKind) (objectName : string) : VolumeSource :=
  if bool_decide (kind = ConfigMapObjectKind) then ConfigMapSource objectName 420 false
  else if bool_decide (kind = SecretObjectKind) then SecretSource objectName 420 false
  else EmptySource.

(** The new mounts of one container *)
Definition mountsToAdd (volName mountPath fileName : string) (withSubPath : bool) (dataKeys : list string) :
    list VolumeMount :=
  if negb withSubPath then [mkVolumeMount volName mountPath "" false]
  else if bool_decide (0 < length dataKeys) then
    foldl (λ mounts file,
      if bool_decide (fileName = "" ∨ fileName = file)
      then mounts ++ [mkVolumeMount volName (filepath.Join [mountPath; file]) file true]
      else mounts) [] dataKeys
  else [mkVolumeMount volName (filepath.Join [mountPath; fileName]) fileName true].

(** [for _, mount := range container.VolumeMounts]: the mounts so far and
    whether one of them was replaced. *)
Definition replaceStep (toAdd : list VolumeMount) (st : list VolumeMount * bool) (mount : VolumeMount) :
    list VolumeMount * bool :=
  match list_find (λ newMount, vm_MountPath mount = vm_MountPath newMount) toAdd with
  | Some (_, newMount) => (st.1 ++ [newMount], true)
  | None => (st.1 ++ [mount], st.2)
  end.

Definition replaceOrAppend (toAdd mounts : list VolumeMount) : list VolumeMount :=
  let '(newMounts, replaced) := foldl (replaceStep toAdd) ([], false) mounts in
  if replaced then newMounts else newMounts ++ toAdd.

Definition mountFilesFrom (filter : containersFilter) (kind : ObjectKind)
    (objectName mountPath fileName : string) (withSubPath : bool) (dataKeys : list string)
    (p : PodSpec) : outcome PodSpec :=
  containers ← wrapErr ("can not get containers to mount " +:+ objectName) (getContainers filter p);
  let volName := GenerateVolumeNameFromCmOrSecret objectName in
  let p := p <| Volumes ::= λ l, l ++ [mkVolume volName (volumeSource kind objectName)] |> in
  Ok (storeAll containers
    (λ c, c <| c_VolumeMounts ::= replaceOrAppend (mountsToAdd volName mountPath fileName withSubPath dataKeys) |>) p).

(** ** Variables from ConfigMaps and Secrets *)

Definition envFromSource (kind : ObjectKind) (objectName : string) : option EnvFromSource :=
  if bool_decide (kind = ConfigMapObjectKind) then Some (ConfigMapRef objectName)
  else if bool_decide (kind = SecretObjectKind) then Some (SecretRef objectName)
  else None.

Definition envVarSource (kind : ObjectKind) (objectName varName : string) : option EnvVarSource :=
  if bool_decide (kind = ConfigMapObjectKind) then Some (ConfigMapKeyRef objectName varName)
  else if bool_decide (kind = SecretObjectKind) then Some (SecretKeyRef objectName varName)
  else None.

Definition unknownKind (kind : ObjectKind) : error :=
  Errorf ("unknown object kind " +:+ kind +:+ " to add env vars from").

Definition addEnvVarsFrom (filter : containersFilter) (kind : ObjectKind) (objectName varName : string)
    (p : PodSpec) : outcome PodSpec :=
  containers ← wrapErr ("can not get containers to add env " +:+ varName) (getContainers filter p);
  foldM (λ p r,
    if bool_decide (varName = "") then
      match envFromSource kind objectName with
      | Some src => Ok (store r (λ c, c <| c_EnvFrom ::= λ l, l ++ [src] |>) p)
      | None => Err (unknownKind kind)
      end
    else
      match envVarSource kind objectName varName with
      | Some src => Ok (store r (λ c, c <| c_Env ::= λ l, l ++ [mkEnvVar varName "" (Some src)] |>) p)
      | None => Err (unknownKind kind)
      end) p containers.

(** ** Mounting volume claims (pkg/model/pvcs.go) *)

Definition addPvc (pvcName mountPath subPath : string) (filter : containersFilter) (p : PodSpec) : outcome PodSpec :=
  let volName := ToRFC1123Label pvcName in
  let p := p <| Volumes ::= λ l, l ++ [mkVolume volName (PvcSource pvcName)] |> in
  affectedContainers ← wrapErr ("failed to mount files for pvc " +:+ pvcName) (getContainers filter p);
  Ok (storeAll affectedContainers
    (λ c, c <| c_VolumeMounts ::= λ l, l ++ [mkVolumeMount volName mountPath subPath false] |>) p).

(** ** The app-config files of the backend (pkg/model/appconfig.go) *)

(** The error of [mountFilesFrom] is dropped; it leaves the pod as it was. *)
Definition updatePodWithAppConfig (cmName mountPath key : string) (withSubPath : bool) (cmData : list string)
    (p : PodSpec) : outcome PodSpec :=
  if bool_decide (1 < length cmData) then
    Err (Errorf ("multiple entries (" +:+ strconv.FormatInt (Z.of_nat (length cmData)) +:+
      ") not allowed for app-config ConfigMap: " +:+ cmName +:+
      "; split into separate single-entry ConfigMaps"))
  else
    p ← match mountFilesFrom filterNone ConfigMapObjectKind cmName mountPath key withSubPath cmData p with
        | Err _ => Ok p
        | r => r
        end;
    c ← container p;
    Ok (foldl (λ p file,
      if bool_decide (key = "" ∨ key = file)
      then store c (λ c, c <| c_Args ::= λ l, l ++ ["--config"; filepath.Join [mountPath; file]] |>) p
      else p) p cmData).

(** ** Image pull secrets (pkg/utils/pod-mutator.go) *)

Definition SetImagePullSecrets (pullSecrets : option (list string)) (p : PodSpec) : PodSpec :=
  match pullSecrets with
  | None => p
  | Some pullSecrets => p <| ImagePullSecrets := foldl (λ l ps, l ++ [ps]) [] pullSecrets |>
  end.

(** ** Lemmas on references *)

Section refs.

Lemma load_store r r' f p :
  load (store r f p) r' = if decide (r = r') then f <$> load p r' else load p r'.
Proof.
  destruct r as [i|i], r' as [j|j]; simpl; try done.
  all: destruct (decide (i = j)) as [->|Hij];
    [rewrite list_lookup_alter_eq, decide_True by done; done
    |rewrite list_lookup_alter_ne, decide_False by congruence; done].
Qed.

Lemma load_storeAll rs f p r :
  load (storeAll rs f p) r = Nat.iter (length (filter (.= r) rs)) f <$> load p r.
Proof.
  unfold storeAll. revert p. induction rs as [|r' rs IH]; intros p; simpl.
  { by rewrite option_fmap_id. }
  rewrite IH, load_store, filter_cons. case_decide as H; [|done].
  destruct (load p r) as [c|]; [|done]. cbn [length fmap option_fmap option_map].
  by rewrite <- Nat.iter_succ_r.
Qed.

Lemma load_storeAll_idem rs f p r :
  (∀ c, f (f c) = f c) →
  load (storeAll rs f p) r = if decide (r ∈ rs) then f <$> load p r else load p r.
Proof.
  intros Hf. rewrite load_storeAll. destruct (decide (r ∈ rs)) as [H|H].
  - assert (∃ k, length (filter (.= r) rs) = S k) as [k ->].
    { destruct (filter (.= r) rs) as [|x l] eqn:E; [|by eexists].
      assert (r ∈ filter (.= r) rs) as Hr by by apply list_elem_of_filter. rewrite E in Hr. by apply not_elem_of_nil in Hr. }
    destruct (load p r) as [c|]; [|done]. simpl. f_equal.
    induction k as [|k IH]; [done|]. simpl in *. by rewrite IH, ?Hf.
  - assert (filter (.= r) rs = []) as ->; [|by rewrite option_fmap_id].
    apply elem_of_nil_inv. intros x [-> Hx]%list_elem_of_filter. done.
Qed.

Lemma load_ext p p' :
  (∀ r, load p r = load p' r) → Containers p = Containers p' ∧ InitContainers p = InitContainers p'.
Proof.
  intros H. split; apply list_eq; intros i; [apply (H (MainContainer i))|apply (H (InitContainer i))].
Qed.

(** What [storeAll] does not touch. *)
Lemma storeAll_frame rs f p :
  Volumes (storeAll rs f p) = Volumes p ∧ ImagePullSecrets (storeAll rs f p) = ImagePullSecrets p ∧
  ps_Rest (storeAll rs f p) = ps_Rest p ∧
  length (Containers (storeAll rs f p)) = length (Containers p) ∧
  length (InitContainers (storeAll rs f p)) = length (InitContainers p).
Proof.
  unfold storeAll. revert p. induction rs as [|r rs IH]; intros p; [done|]; cbn [foldl].
  destruct (IH (store r f p)) as (-> & -> & -> & -> & ->). destruct r; simpl; by rewrite length_alter.
Qed.

End refs.

(** ** Pods with the same containers

    Which containers a filter selects depends on their names only; the
    operations below change no name, so they can be run in any order without
    changing what later ones select. *)

Definition same_names (p p' : PodSpec) : Prop :=
  c_Name <$> Containers p = c_Name <$> Containers p' ∧
  c_Name <$> InitContainers p = c_Name <$> InitContainers p'.

#[export] Instance same_names_equivalence : Equivalence same_names.
Proof. split; unfold same_names; [done|intros ?? [-> ->]; done|intros ??? [-> ->] [-> ->]; done]. Qed.

Section same_names.

Lemma find_hasName_fmap n (l : list Container) :
  fst <$> list_find (hasName n) l = fst <$> list_find (λ x, x = n) (c_Name <$> l).
Proof. rewrite list_find_fmap. unfold hasName. unfold compose. by destruct (list_find _ l) as [[]|]. Qed.

Lemma find_hasName_proper n (l l' : list Container) :
  c_Name <$> l = c_Name <$> l' → fst <$> list_find (hasName n) l = fst <$> list_find (hasName n) l'.
Proof. intros H. by rewrite !find_hasName_fmap, H. Qed.

#[export] Instance BackstageContainerIndex_proper : Proper (same_names ==> eq) BackstageContainerIndex.
Proof.
  intros p p' [H _]. unfold BackstageContainerIndex.
  pose proof (find_hasName_proper BackstageContainerName _ _ H) as Hf.
  destruct (list_find _ (Containers p)) as [[i c]|], (list_find _ (Containers p')) as [[j c']|];
    simpl in Hf; congruence.
Qed.

#[export] Instance container_proper : Proper (same_names ==> eq) container.
Proof. intros p p' H. unfold container. by rewrite (BackstageContainerIndex_proper _ _ H). Qed.

#[export] Instance containerByName_proper : Proper (same_names ==> eq ==> eq) containerByName.
Proof.
  intros p p' [H1 H2] n _ <-. unfold containerByName.
  pose proof (find_hasName_proper n _ _ H1) as Hf1. pose proof (find_hasName_proper n _ _ H2) as Hf2.
  destruct (list_find _ (Containers p)) as [[]|], (list_find _ (Containers p')) as [[]|]; simpl in Hf1; simplify_eq; [done|].
  destruct (list_find _ (InitContainers p)) as [[]|], (list_find _ (InitContainers p')) as [[]|]; simpl in Hf2; simplify_eq; done.
Qed.

#[export] Instance allContainers_proper : Proper (same_names ==> eq) allContainers.
Proof. intros p p' [H1 H2]. unfold allContainers. by rewrite H1, H2. Qed.

#[export] Instance getContainers_proper f : Proper (same_names ==> eq) (getContainers f).
Proof.
  intros p p' H. unfold getContainers. rewrite (container_proper _ _ H), (allContainers_proper _ _ H).
  case_bool_decide; [done|]. apply foldM_ext. intros a b.
  by rewrite (containerByName_proper _ _ H b b eq_refl).
Qed.

Lemma store_same_names r f p : (∀ c, c_Name (f c) = c_Name c) → same_names (store r f p) p.
Proof.
  intros Hf. destruct r; split; simpl; [|done|done|]; apply list_eq; intros j;
    rewrite !list_lookup_fmap; destruct (decide (i = j)) as [->|].
  all: rewrite ?list_lookup_alter_eq, ?list_lookup_alter_ne by done; try done.
  all: destruct (_ !! j); simpl; by rewrite ?Hf.
Qed.

Lemma storeAll_same_names rs f p : (∀ c, c_Name (f c) = c_Name c) → same_names (storeAll rs f p) p.
Proof.
  intros Hf. unfold storeAll. revert p. induction rs as [|r rs IH]; intros p; [done|]. cbn [foldl].
  rewrite IH. by apply store_same_names.
Qed.

End same_names.

#[global] Arguments store : simpl never.
#[global] Arguments storeAll : simpl never.

(** ** Selecting containers *)

Section selection.

(** A pointer to a container with that name *)
Definition named (p : PodSpec) (name : string) (r : ContainerRef) : Prop :=
  ∃ c, load p r = Some c ∧ c_Name c = name.

Lemma list_find_hasName_Some n (l : list Container) i c :
  list_find (hasName n) l = Some (i, c) → l !! i = Some c ∧ c_Name c = n.
Proof. intros (? & ? & _)%list_find_Some. done. Qed.

Lemma list_find_hasName_None n (l : list Container) :
  list_find (hasName n) l = None ↔ n ∉ c_Name <$> l.
Proof.
  rewrite list_find_None, Forall_forall, list_elem_of_fmap. unfold hasName. naive_solver.
Qed.

Lemma containerByName_Some p n r : containerByName p n = Some r → named p n r.
Proof.
  unfold containerByName, named. intros H. repeat case_match; simplify_eq/=.
  all: match goal with E : list_find _ _ = Some _ |- _ => apply list_find_hasName_Some in E as [? ?] end; eauto.
Qed.

Lemma containerByName_None p n : containerByName p n = None ↔ n ∉ allContainers p.
Proof.
  unfold containerByName, allContainers. rewrite elem_of_app.
  destruct (list_find _ (Containers p)) as [[i c]|] eqn:E1.
  { apply list_find_hasName_Some in E1 as [? <-]. split; [done|]. intros []. left.
    apply list_elem_of_fmap_2. by eapply list_elem_of_lookup_2. }
  apply list_find_hasName_None in E1.
  destruct (list_find _ (InitContainers p)) as [[i c]|] eqn:E2.
  { apply list_find_hasName_Some in E2 as [? <-]. split; [done|]. intros []. right.
    apply list_elem_of_fmap_2. by eapply list_elem_of_lookup_2. }
  apply list_find_hasName_None in E2. naive_solver.
Qed.

Lemma container_Ok p r :
  container p = Ok r → named p BackstageContainerName r ∧ ∃ i, r = MainContainer i.
Proof.
  unfold container, BackstageContainerIndex.
  destruct (list_find _ (Containers p)) as [[i c]|] eqn:E.
  - rewrite bool_decide_eq_false_2 by lia. intros [= <-]. rewrite Nat2Z.id.
    apply list_find_hasName_Some in E as [? ?]. split; [by exists c|by eexists].
  - by rewrite bool_decide_eq_true_2 by lia.
Qed.

Lemma container_is_Ok p :
  is_Ok (container p) = true ↔ BackstageContainerName ∈ c_Name <$> Containers p.
Proof.
  unfold container, BackstageContainerIndex.
  destruct (list_find _ (Containers p)) as [[i c]|] eqn:E.
  - rewrite bool_decide_eq_false_2 by lia. simpl. split; [|done]. intros _.
    apply list_find_hasName_Some in E as [? <-]. apply list_elem_of_fmap_2. by eapply list_elem_of_lookup_2.
  - rewrite bool_decide_eq_true_2 by lia. apply list_find_hasName_None in E. done.
Qed.

Lemma container_not_Err p e : container p ≠ Err e.
Proof. unfold container. by case_bool_decide. Qed.

(** Every selected pointer was found under a name. *)
Lemma getContainers_found f p rs :
  getContainers f p = Ok rs →
  (filterContainerNames f = [] ∧ ∃ r, container p = Ok r ∧ rs = [r]) ∨
  (filterContainerNames f ≠ [] ∧ Forall2 (λ n r, containerByName p n = Some r)
    (if bool_decide (filterContainerNames f = ["*"]) then allContainers p else filterContainerNames f) rs).
Proof.
  unfold getContainers. case_bool_decide as Hlen; intros Hr.
  - left. apply length_zero_iff_nil in Hlen as ->. inv_ok. eauto.
  - right. apply collect_Ok in Hr as (rs' & -> & Hall). split; [by intros Hn; rewrite Hn in Hlen|].
    eapply Forall2_impl; [exact Hall|]. intros n r Hn. simpl in Hn. case_match eqn:E; by simplify_eq.
Qed.

Lemma getContainers_valid f p rs r : getContainers f p = Ok rs → r ∈ rs → is_Some (load p r).
Proof.
  intros [(_ & r' & Hc & ->)|[_ Hall]]%getContainers_found Hr.
  - apply elem_of_cons in Hr as [->|Hr]; [|by apply not_elem_of_nil in Hr].
    apply container_Ok in Hc as [(c & Hc & _) _]. by eexists.
  - apply list_elem_of_lookup in Hr as [i Hi].
    destruct (Forall2_lookup_r _ _ _ _ _ Hall Hi) as (n & _ & Hn).
    apply containerByName_Some in Hn as (c & Hc & _). by eexists.
Qed.

(** A filter without names selects the backend container; [*] selects
    every container; otherwise the selected containers are the named ones, in
    the order of the names. *)
Theorem getContainers_selects f p rs :
  getContainers f p = Ok rs →
  Forall2 (named p)
    (match filterContainerNames f with
     | [] => [BackstageContainerName]
     | [n] => if bool_decide (n = "*") then allContainers p else [n]
     | ns => ns
     end) rs.
Proof.
  intros [(-> & r & Hc & ->)|[Hne Hall]]%getContainers_found.
  - constructor; [|constructor]. by apply container_Ok.
  - assert (Forall2 (named p) (if bool_decide (filterContainerNames f = ["*"]) then allContainers p
      else filterContainerNames f) rs) as Hn.
    { eapply Forall2_impl; [exact Hall|]. intros n r. apply containerByName_Some. }
    clear Hall. destruct (filterContainerNames f) as [|n [|n' ns]]; [done| |].
    + destruct (decide (n = "*")) as [->|Hn']; [done|]. rewrite bool_decide_eq_false_2 by congruence.
      by rewrite bool_decide_eq_false_2 in Hn by congruence.
    + by rewrite bool_decide_eq_false_2 in Hn.
Qed.

(** Selecting fails exactly when a name of the filter is not the name of
    a container, and the error names the first such name. *)
Theorem getContainers_error f p e :
  getContainers f p = Err e ↔
  filterContainerNames f ≠ ["*"] ∧
  ∃ l1 n l2, filterContainerNames f = l1 ++ n :: l2 ∧ (∀ m, m ∈ l1 → m ∈ allContainers p) ∧
    n ∉ allContainers p ∧ e = Errorf ("container " +:+ n +:+ " not found").
Proof.
  assert (∀ l, Forall (λ x, is_Ok (match containerByName p x with
      | None => Err (Errorf ("container " +:+ x +:+ " not found")) | Some r => Ok r end) = true) l ↔
      ∀ m, m ∈ l → m ∈ allContainers p) as Hok.
  { intros l. rewrite Forall_forall. split; intros H m Hm; specialize (H m Hm).
    - apply dec_stable. intros Hn%containerByName_None. by rewrite Hn in H.
    - destruct (containerByName p m) eqn:E; [done|]. by apply containerByName_None in E. }
  unfold getContainers. case_bool_decide as Hlen.
  { apply length_zero_iff_nil in Hlen as ->. split.
    - destruct (container p) eqn:E; [done| |done]. by apply container_not_Err in E.
    - intros (_ & l1 & n & l2 & H & _). by destruct l1. }
  rewrite collect_Err. setoid_rewrite Hok. split.
  - intros (l1 & n & l2 & Hl & Hl1 & Hn).
    destruct (containerByName p n) eqn:E; [done|]. apply containerByName_None in E. simplify_eq.
    case_bool_decide as Hs.
    + destruct E. rewrite Hl. apply elem_of_app. right. by left.
    + split; [done|]. by exists l1, n, l2.
  - intros (Hs & l1 & n & l2 & Hl & Hl1 & Hn & ->). rewrite bool_decide_eq_false_2 by done.
    exists l1, n, l2. split_and!; [done..|]. apply containerByName_None in Hn. by rewrite Hn.
Qed.

(** Selecting never panics when there is a backend container. *)
Lemma getContainers_no_panic f p :
  BackstageContainerName ∈ c_Name <$> Containers p → is_Panic (getContainers f p) = false.
Proof.
  intros Hb%container_is_Ok. unfold getContainers. case_bool_decide.
  { destruct (container p); done. }
  unfold collect. apply foldM_no_panic. intros acc n. by destruct (containerByName p n).
Qed.

End selection.

Definition example_backend : Container :=
  mkContainer "backstage-backend" "img" [] ["--config"; "x"] "" [] []
    [mkVolumeMount "root" "/opt/app-root/src/a.yaml" "a.yaml" true] "" "".
Definition example_pod : PodSpec :=
  mkPodSpec [] [mkContainer "install-dynamic-plugins" "img" [] [] "/opt/app-root/src" [] [] [] "" ""]
    [example_backend;
     mkContainer "sidecar" "img2" [] [] "/w" [] [] [] "" ""] [] "".

Lemma getContainers_selects_witness :
  Forall2 (named example_pod) ["backstage-backend"; "sidecar"; "install-dynamic-plugins"]
    [MainContainer 0; MainContainer 1; InitContainer 0].
Proof. apply (getContainers_selects (filterAnnotation " *")). by vm_compute. Defined.

(** ** Mounts *)

Section mounts.

Abbreviation paths := (fmap (M:=list) vm_MountPath).

Definition pathOf (toAdd : list VolumeMount) (m : VolumeMount) : option VolumeMount :=
  snd <$> list_find (λ n, vm_MountPath m = vm_MountPath n) toAdd.

Lemma pathOf_Some toAdd m n : pathOf toAdd m = Some n → n ∈ toAdd ∧ vm_MountPath m = vm_MountPath n.
Proof.
  unfold pathOf. destruct (list_find _ toAdd) as [[i x]|] eqn:E; [|done]. intros [= <-].
  apply list_find_Some in E as (Hi & Hp & _). split; [by eapply list_elem_of_lookup_2|done].
Qed.

Lemma pathOf_None toAdd m : pathOf toAdd m = None ↔ vm_MountPath m ∉ paths toAdd.
Proof.
  unfold pathOf. rewrite fmap_None, list_find_None, Forall_forall, list_elem_of_fmap. naive_solver.
Qed.

Lemma pathOf_self toAdd m : NoDup (paths toAdd) → m ∈ toAdd → pathOf toAdd m = Some m.
Proof.
  intros Hnd Hm. destruct (pathOf toAdd m) as [n|] eqn:E.
  - apply pathOf_Some in E as [Hn Hp]. f_equal. symmetry.
    apply list_elem_of_lookup in Hm as [i Hi]. apply list_elem_of_lookup in Hn as [j Hj].
    assert (i = j) as ->; [|congruence].
    eapply (NoDup_lookup _ _ _ (vm_MountPath m) Hnd); rewrite list_lookup_fmap, ?Hi, ?Hj; simpl; congruence.
  - apply pathOf_None in E. destruct E. by apply list_elem_of_fmap_2.
Qed.

Definition replaces (toAdd : list VolumeMount) (m : VolumeMount) : bool :=
  match pathOf toAdd m with Some _ => true | None => false end.

Lemma replaceStep_eq toAdd acc b m :
  replaceStep toAdd (acc, b) m = (acc ++ [default m (pathOf toAdd m)], b || replaces toAdd m).
Proof.
  unfold replaceStep, replaces, pathOf. destruct (list_find _ toAdd) as [[i n]|]; simpl.
  - by rewrite orb_true_r.
  - by rewrite orb_false_r.
Qed.

(** The loop of [mountFilesFrom] over the old mounts, as two maps: every
    mount that shares its path with a new one becomes that new one, and
    the flag tells whether there was any. *)
Lemma replaceStep_foldl toAdd mounts acc b :
  foldl (replaceStep toAdd) (acc, b) mounts =
  (acc ++ ((λ m, default m (pathOf toAdd m)) <$> mounts),
   b || existsb (λ m, replaces toAdd m) mounts).
Proof.
  revert acc b. induction mounts as [|m mounts IH]; intros acc b; csimpl.
  { by rewrite app_nil_r, orb_false_r. }
  rewrite replaceStep_eq, IH. by rewrite <- (assoc_L (++)), orb_assoc.
Qed.

Definition overlap (toAdd mounts : list VolumeMount) : Prop :=
  Exists (λ m, vm_MountPath m ∈ paths toAdd) mounts.

Lemma replaceOrAppend_overlap toAdd mounts :
  overlap toAdd mounts → replaceOrAppend toAdd mounts = (λ m, default m (pathOf toAdd m)) <$> mounts.
Proof.
  intros H. unfold replaceOrAppend. rewrite replaceStep_foldl. simpl.
  assert (existsb (λ m, replaces toAdd m) mounts = true) as ->; [|done].
  apply existsb_exists. apply Exists_exists in H as (m & Hm & Hp). exists m.
  split; [by apply list_elem_of_In|]. unfold replaces.
  destruct (pathOf toAdd m) eqn:E; [done|]. by apply pathOf_None in E.
Qed.

Lemma replaceOrAppend_disjoint toAdd mounts :
  ¬ overlap toAdd mounts → replaceOrAppend toAdd mounts = mounts ++ toAdd.
Proof.
  intros H. unfold replaceOrAppend. rewrite replaceStep_foldl. simpl.
  assert (∀ m, m ∈ mounts → pathOf toAdd m = None) as Hm.
  { intros m Hm. apply pathOf_None. intros Hp. apply H, Exists_exists. by exists m. }
  assert (existsb (λ m, replaces toAdd m) mounts = false) as ->.
  { apply not_true_is_false. intros (m & Hin%list_elem_of_In & Hs)%existsb_exists.
    unfold replaces in Hs. by rewrite (Hm m Hin) in Hs. }
  f_equal. transitivity (id <$> mounts); [|apply list_fmap_id].
  apply list_fmap_ext. intros i m Hi%list_elem_of_lookup_2. by rewrite (Hm m Hi).
Qed.

#[export] Instance overlap_dec toAdd mounts : Decision (overlap toAdd mounts).
Proof. unfold overlap. apply _. Defined.

(** The paths of the mounts afterwards. *)
Lemma replaceOrAppend_paths toAdd mounts :
  paths (replaceOrAppend toAdd mounts) =
  if decide (overlap toAdd mounts) then paths mounts else paths mounts ++ paths toAdd.
Proof.
  case_decide as H.
  - rewrite replaceOrAppend_overlap by done. rewrite <- list_fmap_compose.
    apply list_fmap_ext. intros i m Hi. simpl. destruct (pathOf toAdd m) eqn:E; [|done].
    apply pathOf_Some in E as [_ ->]. done.
  - by rewrite replaceOrAppend_disjoint, fmap_app.
Qed.

Lemma overlap_paths toAdd mounts mounts' :
  paths mounts = paths mounts' → overlap toAdd mounts ↔ overlap toAdd mounts'.
Proof.
  intros H. unfold overlap.
  assert (∀ l, Exists (λ m, vm_MountPath m ∈ paths toAdd) l ↔ Exists (.∈ paths toAdd) (paths l)) as Hl.
  { intros l. rewrite !Exists_exists. setoid_rewrite list_elem_of_fmap. naive_solver. }
  by rewrite !Hl, H.
Qed.

Lemma replaceOrAppend_idemp toAdd mounts :
  NoDup (paths toAdd) →
  replaceOrAppend toAdd (replaceOrAppend toAdd mounts) = replaceOrAppend toAdd mounts.
Proof.
  intros Hnd. destruct (decide (overlap toAdd mounts)) as [H|H].
  - assert (overlap toAdd (replaceOrAppend toAdd mounts)) as H'.
    { eapply overlap_paths; [|exact H]. by rewrite replaceOrAppend_paths, decide_True. }
    rewrite (replaceOrAppend_overlap _ (replaceOrAppend _ _)) by done.
    rewrite replaceOrAppend_overlap by done. rewrite <- list_fmap_compose.
    apply list_fmap_ext. intros i m Hi. simpl. destruct (pathOf toAdd m) as [n|] eqn:E; simpl; [|by rewrite E].
    apply pathOf_Some in E as [Hn _]. by rewrite pathOf_self.
  - rewrite (replaceOrAppend_disjoint _ mounts) by done.
    destruct toAdd as [|n toAdd].
    { rewrite app_nil_r. rewrite replaceOrAppend_disjoint by done. apply app_nil_r. }
    rewrite replaceOrAppend_overlap.
    2: { apply Exists_app. right. left. by left. }
    rewrite fmap_app. f_equal.
    + transitivity (id <$> mounts); [|apply list_fmap_id].
      apply list_fmap_ext. intros i m Hi%list_elem_of_lookup_2.
      destruct (pathOf _ m) eqn:E; [|done]. destruct H. apply Exists_exists. exists m. split; [done|].
      apply pathOf_Some in E as [Hin ->]. by apply list_elem_of_fmap_2.
    + transitivity (id <$> (n :: toAdd)); [|apply list_fmap_id].
      apply list_fmap_ext. intros i m Hi%list_elem_of_lookup_2. by rewrite pathOf_self.
Qed.

Lemma replaceOrAppend_NoDup toAdd mounts :
  NoDup (paths toAdd) → NoDup (paths mounts) → NoDup (paths (replaceOrAppend toAdd mounts)).
Proof.
  intros Ha Hm. rewrite replaceOrAppend_paths. case_decide as H; [done|].
  apply NoDup_app. split_and!; [done| |done].
  intros x Hx Hx'. apply H, Exists_exists. apply list_elem_of_fmap in Hx as (m & -> & Hin). by exists m.
Qed.

End mounts.

(** ** What mounting does to a pod *)

Section mountFiles.

(** Every container has its mount paths once: what the API server requires. *)
Definition unique_paths (p : PodSpec) : Prop :=
  ∀ r c, load p r = Some c → NoDup (vm_MountPath <$> c_VolumeMounts c).

(** The mounts one object contributes *)
Abbreviation objectMounts name mp fn sub keys :=
  (mountsToAdd (GenerateVolumeNameFromCmOrSecret name) mp fn sub keys).

Lemma mountsToAdd_keys vol mp fn keys :
  keys ≠ [] →
  mountsToAdd vol mp fn true keys =
  (λ file, mkVolumeMount vol (filepath.Join [mp; file]) file true) <$> filter (λ file, fn = "" ∨ fn = file) keys.
Proof.
  intros Hne. unfold mountsToAdd. simpl.
  rewrite bool_decide_eq_true_2 by (destruct keys; simpl; [done|lia]). clear Hne.
  assert (∀ acc, foldl (λ mounts file,
      if bool_decide (fn = "" ∨ fn = file)
      then mounts ++ [mkVolumeMount vol (filepath.Join [mp; file]) file true] else mounts) acc keys =
    acc ++ ((λ file, mkVolumeMount vol (filepath.Join [mp; file]) file true) <$>
      filter (λ file, fn = "" ∨ fn = file) keys)) as H; [|apply (H [])].
  induction keys as [|k keys IH]; intros acc; cbn [foldl]; [by rewrite app_nil_r|].
  destruct (decide (fn = "" ∨ fn = k)) as [Hd|Hd].
  - rewrite filter_cons_True, (bool_decide_eq_true_2 _ Hd), IH by done. by rewrite <- (assoc_L (++)).
  - by rewrite filter_cons_False, (bool_decide_eq_false_2 _ Hd), IH by done.
Qed.

Lemma mountsToAdd_NoDup vol mp fn sub keys :
  NoDup keys → Forall filepath.entry_name keys →
  NoDup (vm_MountPath <$> mountsToAdd vol mp fn sub keys).
Proof.
  intros Hnd Hk. destruct sub; [|by apply NoDup_singleton].
  destruct (decide (keys = [])) as [->|Hne].
  { unfold mountsToAdd. simpl. by apply NoDup_singleton. }
  rewrite mountsToAdd_keys, <- list_fmap_compose by done.
  apply NoDup_fmap_2_strong; [|by apply NoDup_filter].
  intros x y [_ Hx]%list_elem_of_filter [_ Hy]%list_elem_of_filter. simpl.
  rewrite Forall_forall in Hk. apply filepath.Join_entry_inj; by apply Hk.
Qed.

Lemma mountFilesFrom_inv f kind name mp fn sub keys p p' :
  mountFilesFrom f kind name mp fn sub keys p = Ok p' →
  ∃ rs, getContainers f p = Ok rs ∧
    p' = storeAll rs (λ c, c <| c_VolumeMounts ::= replaceOrAppend (objectMounts name mp fn sub keys) |>)
      (p <| Volumes ::= λ l, l ++ [mkVolume (GenerateVolumeNameFromCmOrSecret name) (volumeSource kind name)] |>).
Proof. unfold mountFilesFrom. intros H. inv_ok. by eexists. Qed.

Lemma mountFilesFrom_same_names f kind name mp fn sub keys p p' :
  mountFilesFrom f kind name mp fn sub keys p = Ok p' → same_names p' p.
Proof. intros (rs & _ & ->)%mountFilesFrom_inv. by rewrite storeAll_same_names. Qed.

Lemma mountFilesFrom_load f kind name mp fn sub keys p p' rs :
  NoDup keys → Forall filepath.entry_name keys →
  mountFilesFrom f kind name mp fn sub keys p = Ok p' → getContainers f p = Ok rs →
  ∀ r, load p' r =
    if decide (r ∈ rs)
    then (λ c, c <| c_VolumeMounts ::= replaceOrAppend (objectMounts name mp fn sub keys) |>) <$> load p r
    else load p r.
Proof.
  intros Hnd Hk (rs' & Hrs' & ->)%mountFilesFrom_inv Hrs r.
  rewrite Hrs in Hrs'. injection Hrs' as <-. rewrite load_storeAll_idem; [by destruct r|].
  intros c. simpl. by rewrite replaceOrAppend_idemp by (by apply mountsToAdd_NoDup).
Qed.

(** C29. Mounting an object adds one volume to the pod and changes nothing but
    the mounts of the selected containers, each as if it were selected once. *)
Theorem mountFilesFrom_effect f kind name mp fn sub keys p p' :
  NoDup keys → Forall filepath.entry_name keys →
  mountFilesFrom f kind name mp fn sub keys p = Ok p' →
  ∃ rs, getContainers f p = Ok rs ∧
    Volumes p' = Volumes p ++ [mkVolume (ToRFC1123Label name) (volumeSource kind name)] ∧
    ImagePullSecrets p' = ImagePullSecrets p ∧ ps_Rest p' = ps_Rest p ∧
    ∀ r, load p' r =
      if decide (r ∈ rs)
      then (λ c, c <| c_VolumeMounts ::= replaceOrAppend (objectMounts name mp fn sub keys) |>) <$> load p r
      else load p r.
Proof.
  intros Hnd Hk Hm. pose proof (mountFilesFrom_inv _ _ _ _ _ _ _ _ _ Hm) as (rs & Hrs & Hp). exists rs.
  split; [done|]. rewrite Hp at 1 2 3.
  match goal with |- context [storeAll rs ?f ?q] => destruct (storeAll_frame rs f q) as (-> & -> & -> & _) end.
  split_and!; [done..|]. by eapply mountFilesFrom_load.
Qed.

(** Mounting the files of a ConfigMap or Secret never gives a container two
    mounts at one path. *)
Lemma mountFilesFrom_unique_paths f kind name mp fn sub keys p p' :
  NoDup keys → Forall filepath.entry_name keys → unique_paths p →
  mountFilesFrom f kind name mp fn sub keys p = Ok p' → unique_paths p'.
Proof.
  intros Hnd Hk Hu (rs & _ & ->)%mountFilesFrom_inv r c. rewrite load_storeAll_idem.
  2: { intros c'. simpl. by rewrite replaceOrAppend_idemp by (by apply mountsToAdd_NoDup). }
  case_decide.
  - destruct (load (p <| Volumes ::= _ |>) r) as [c'|] eqn:E; [|done]. intros [= <-]. simpl.
    apply replaceOrAppend_NoDup; [by apply mountsToAdd_NoDup|].
    apply (Hu r c'). by destruct r.
  - intros Hc. apply (Hu r c). by destruct r.
Qed.

(** C30. When one of the new files goes to the path of an existing mount, the
    other new files of that object are not mounted at all: the flag that
    records a replacement is shared by the whole container. *)
Theorem mountFilesFrom_drops_files f kind name mp fn sub keys p p' rs r c n :
  mountFilesFrom f kind name mp fn sub keys p = Ok p' →
  getContainers f p = Ok rs → r ∈ rs → load p r = Some c →
  NoDup keys → Forall filepath.entry_name keys →
  overlap (objectMounts name mp fn sub keys) (c_VolumeMounts c) →
  n ∈ objectMounts name mp fn sub keys →
  vm_MountPath n ∉ vm_MountPath <$> c_VolumeMounts c →
  ∃ c', load p' r = Some c' ∧ vm_MountPath n ∉ vm_MountPath <$> c_VolumeMounts c'.
Proof.
  intros Hm Hrs Hr Hc Hnd Hk Ho Hn Hp.
  rewrite (mountFilesFrom_load _ _ _ _ _ _ _ _ _ _ Hnd Hk Hm Hrs), decide_True, Hc by done.
  eexists. split; [done|].
  simpl. by rewrite replaceOrAppend_paths, decide_True.
Qed.

End mountFiles.

Definition example_mounted : outcome PodSpec :=
  mountFilesFrom filterNone ConfigMapObjectKind "cm" "/opt/app-root/src" "" true ["a.yaml"; "b.yaml"] example_pod.
Definition example_mounted_pod : PodSpec :=
  match example_mounted with Ok p => p | _ => example_pod end.

Lemma mountFilesFrom_effect_witness :
  ∃ rs, getContainers filterNone example_pod = Ok rs ∧
    Volumes example_mounted_pod = [mkVolume "cm" (ConfigMapSource "cm" 420 false)] ∧
    load example_mounted_pod (InitContainer 0) = load example_pod (InitContainer 0).
Proof.
  destruct (mountFilesFrom_effect filterNone ConfigMapObjectKind "cm" "/opt/app-root/src" "" true ["a.yaml"; "b.yaml"]
    example_pod example_mounted_pod) as (rs & Hrs & Hv & _ & _ & Hl).
  - by apply (bool_decide_unpack _).
  - by apply filepath.entry_names_dec.
  - by vm_compute.
  - exists rs. split_and!; [done|done|]. rewrite Hl. vm_compute in Hrs. injection Hrs as <-. by vm_compute.
Defined.

Lemma mountFilesFrom_drops_files_witness :
  ∃ c', load example_mounted_pod (MainContainer 0) = Some c' ∧
    "/opt/app-root/src/b.yaml" ∉ vm_MountPath <$> c_VolumeMounts c'.
Proof.
  apply (mountFilesFrom_drops_files filterNone ConfigMapObjectKind "cm" "/opt/app-root/src" "" true ["a.yaml"; "b.yaml"]
    example_pod example_mounted_pod [MainContainer 0] (MainContainer 0) example_backend
    (mkVolumeMount "cm" "/opt/app-root/src/b.yaml" "b.yaml" true)).
  - by vm_compute.
  - by vm_compute.
  - by left.
  - done.
  - by apply (bool_decide_unpack _).
  - by apply filepath.entry_names_dec.
  - by apply (bool_decide_unpack _).
  - by apply (bool_decide_unpack _).
  - by apply (bool_decide_unpack _).
Defined.

(** ** Variables *)

Section envs.

(** The entry of the container for a variable; the kubelet lets the last of
    several entries win, but the operator never writes a second one. *)
Definition envEntry (name : string) (c : Container) : option EnvVar :=
  snd <$> list_find (λ e, ev_Name e = name) (c_Env c).

Lemma list_find_insert_env name v (l : list EnvVar) i e :
  list_find (λ e, ev_Name e = name) l = Some (i, e) → ev_Name v = name →
  ∀ n, snd <$> list_find (λ e, ev_Name e = n) (<[i := v]> l) =
    if decide (n = name) then Some v else snd <$> list_find (λ e, ev_Name e = n) l.
Proof.
  revert i. induction l as [|x l IH]; intros i Hf Hv n; [done|]. simpl in Hf.
  destruct (decide (ev_Name x = name)) as [Hx|Hx].
  - injection Hf as <- <-. simpl. destruct (decide (n = name)) as [->|Hn].
    + by rewrite decide_True by done.
    + rewrite (decide_False (P := ev_Name v = n)) by congruence.
      rewrite (decide_False (P := ev_Name x = n)) by congruence. done.
  - destruct (list_find _ l) as [[j y]|] eqn:Ej; [|done]. simpl in Hf. injection Hf as <- <-. simpl.
    destruct (decide (ev_Name x = n)) as [<-|Hn]; [by rewrite decide_False|].
    specialize (IH j eq_refl Hv n).
    assert (∀ o : option (nat * EnvVar), snd <$> (prod_map S id <$> o) = snd <$> o) as Hs by by intros [[]|].
    by rewrite !Hs, IH.
Qed.

Lemma envEntry_set n name v c :
  envEntry n (setOrAppendEnvVar name v c) =
  if decide (n = name) then Some (mkEnvVar name v None) else envEntry n c.
Proof.
  unfold setOrAppendEnvVar, envEntry.
  destruct (list_find (λ e, ev_Name e = name) (c_Env c)) as [[i e]|] eqn:E; simpl.
  - by apply (list_find_insert_env name (mkEnvVar name v None) _ i e).
  - destruct (decide (n = name)) as [->|Hn].
    + rewrite list_find_app_r by done. simpl. by rewrite decide_True.
    + destruct (list_find (λ e, ev_Name e = n) (c_Env c)) as [[i e]|] eqn:En.
      * by rewrite (list_find_app_l _ _ _ i e).
      * rewrite list_find_app_r by done. simpl. by rewrite decide_False by done.
Qed.

Lemma setOrAppendEnvVar_names name v c :
  NoDup (ev_Name <$> c_Env c) → NoDup (ev_Name <$> c_Env (setOrAppendEnvVar name v c)).
Proof.
  unfold setOrAppendEnvVar. destruct (list_find _ (c_Env c)) as [[i e]|] eqn:E; simpl; intros Hnd.
  - apply list_find_Some in E as (Hi & He & _). rewrite list_fmap_insert. simpl.
    rewrite list_insert_id; [done|]. rewrite list_lookup_fmap, Hi. simpl. by rewrite He.
  - apply list_find_None in E. rewrite fmap_app. apply NoDup_app. split_and!; [done| |apply NoDup_singleton].
    intros x Hx Hx'. apply elem_of_cons in Hx' as [->|Hx']; [|by apply not_elem_of_nil in Hx'].
    apply list_elem_of_fmap in Hx as (y & Hy & Hin). rewrite Forall_forall in E. by eapply E.
Qed.

Lemma setOrAppendEnvVar_idemp name v c :
  setOrAppendEnvVar name v (setOrAppendEnvVar name v c) = setOrAppendEnvVar name v c.
Proof.
  unfold setOrAppendEnvVar at 2 3.
  destruct (list_find _ (c_Env c)) as [[i e]|] eqn:E; simpl.
  - pose proof E as E'. apply list_find_Some in E as (Hi & He & Hmin).
    unfold setOrAppendEnvVar. simpl.
    assert (list_find (λ e, ev_Name e = name) (<[i:=mkEnvVar name v None]> (c_Env c)) = Some (i, mkEnvVar name v None)) as ->.
    { apply list_find_Some. split_and!; [|done|].
      - apply list_lookup_insert_eq. by eapply lookup_lt_Some.
      - intros j y Hj Hlt. rewrite list_lookup_insert_ne in Hj by lia. by eapply Hmin. }
    destruct c; simpl. by rewrite list_insert_insert_eq.
  - unfold setOrAppendEnvVar. simpl. apply list_find_None in E.
    assert (list_find (λ e, ev_Name e = name) (c_Env c ++ [mkEnvVar name v None]) =
      Some (length (c_Env c), mkEnvVar name v None)) as ->.
    { apply list_find_Some. split_and!; [by apply list_lookup_middle|done|].
      intros j y Hj Hlt. rewrite lookup_app_l in Hj by done. rewrite Forall_forall in E.
      apply E. by eapply list_elem_of_lookup_2. }
    destruct c; simpl. f_equal. rewrite insert_app_r_alt by done. by rewrite Nat.sub_diag.
Qed.

Lemma setOrAppendEnvVar_name name v c : c_Name (setOrAppendEnvVar name v c) = c_Name c.
Proof. unfold setOrAppendEnvVar. by destruct (list_find _ _) as [[]|]. Qed.

(** The containers a variable of the custom resource goes to *)
Definition selectedBy (p : PodSpec) (e : api.Env) : list ContainerRef :=
  match getContainers (filterNames (api.env_Containers e)) p with
  | Ok rs => rs
  | _ => []
  end.

(** The variables of the list that reach [r], seen from the loop *)
Lemma addExtraEnvs_foldl envs p p' :
  addExtraEnvs (Some (api.mkExtraEnvs [] [] envs)) p = Ok p' →
  same_names p' p ∧
  ∀ r, load p' r =
    (λ c, foldl (λ c e, if decide (r ∈ selectedBy p e)
                        then setOrAppendEnvVar (api.env_Name e) (api.env_Value e) c else c) c envs) <$> load p r.
Proof.
  unfold addExtraEnvs. simpl. revert p. induction envs as [|e envs IH]; intros p H; simpl in H.
  { simplify_eq. split; [done|]. intros r. symmetry. apply option_fmap_id. }
  inv_ok. destruct (IH _ H) as [Hn Hl].
  assert (same_names (storeAll x0 (setOrAppendEnvVar (api.env_Name e) (api.env_Value e)) p) p) as Hs.
  { apply storeAll_same_names. intros c. apply setOrAppendEnvVar_name. }
  split; [by rewrite Hn|]. intros r. rewrite Hl.
  rewrite load_storeAll_idem by (intros c; apply setOrAppendEnvVar_idemp).
  assert (∀ e', selectedBy (storeAll x0 (setOrAppendEnvVar (api.env_Name e) (api.env_Value e)) p) e' = selectedBy p e') as Hsel.
  { intros e'. unfold selectedBy. by rewrite (getContainers_proper _ _ _ Hs). }
  assert (selectedBy p e = x0) as Hx by (unfold selectedBy; by repeat match goal with E : getContainers _ _ = _ |- _ => rewrite E end).
  cbn [foldl]. rewrite Hx. destruct (load p r) as [c|]; simpl; [|by case_decide].
  case_decide; simpl; f_equal; apply foldl_ext; intros c' e'; by rewrite Hsel.
Qed.

End envs.

Section envs_of_the_spec.
Context (ee : api.ExtraEnvs) (p p' : PodSpec) (Hadd : addExtraEnvs (Some ee) p = Ok p').

Lemma addExtraEnvs_load :
  same_names p' p ∧
  ∀ r, load p' r =
    (λ c, foldl (λ c e, if decide (r ∈ selectedBy p e)
                        then setOrAppendEnvVar (api.env_Name e) (api.env_Value e) c else c) c (api.ee_Envs ee)) <$> load p r.
Proof using All. apply addExtraEnvs_foldl. exact Hadd. Qed.

(** After the variables of the custom resource are added, a container
    has for each name the value of the last variable of that name that selects
    the container, and its old entry for a name no variable sets. *)
Theorem addExtraEnvs_last_wins r c n :
  load p r = Some c →
  ∃ c', load p' r = Some c' ∧
    envEntry n c' =
      match last (filter (λ e, api.env_Name e = n ∧ r ∈ selectedBy p e) (api.ee_Envs ee)) with
      | Some e => Some (mkEnvVar n (api.env_Value e) None)
      | None => envEntry n c
      end.
Proof using All.
  intros Hc. destruct addExtraEnvs_load as [_ Hl]. rewrite Hl, Hc. eexists. split; [done|].
  clear Hadd Hl Hc. revert c. induction (api.ee_Envs ee) as [|e envs IH] using rev_ind; intros c; [done|].
  rewrite foldl_snoc, filter_app, last_app. specialize (IH c).
  destruct (decide (api.env_Name e = n ∧ r ∈ selectedBy p e)) as [[<- Hr]|Hne].
  - rewrite filter_cons_True, filter_nil by done. simpl. rewrite decide_True by done.
    by rewrite envEntry_set, decide_True.
  - rewrite filter_cons_False, filter_nil by done. simpl. rewrite <- IH.
    case_decide; [|done]. rewrite envEntry_set, decide_False; [done|]. intros ->. by destruct Hne.
Qed.

(** Adding variables never duplicates an entry. *)
Theorem addExtraEnvs_no_duplicates r c c' :
  load p r = Some c → load p' r = Some c' →
  NoDup (ev_Name <$> c_Env c) → NoDup (ev_Name <$> c_Env c').
Proof using All.
  intros Hc Hc' Hnd. destruct addExtraEnvs_load as [_ Hl]. rewrite Hl, Hc in Hc'. injection Hc' as <-.
  clear -Hnd. revert c Hnd. induction (api.ee_Envs ee) as [|e envs IH]; intros c Hnd; [done|].
  simpl. apply IH. case_decide; [by apply setOrAppendEnvVar_names|done].
Qed.

End envs_of_the_spec.

Definition example_envs : api.ExtraEnvs :=
  api.mkExtraEnvs [] [] [api.mkEnv "A" "1" []; api.mkEnv "B" "2" ["*"]; api.mkEnv "A" "3" ["*"]].

Definition example_env_pod : PodSpec :=
  match addExtraEnvs (Some example_envs) example_pod with Ok p => p | _ => example_pod end.

Lemma addExtraEnvs_last_wins_witness :
  ∃ c', load example_env_pod (MainContainer 0) = Some c' ∧ envEntry "A" c' = Some (mkEnvVar "A" "3" None).
Proof.
  by apply (addExtraEnvs_last_wins example_envs example_pod example_env_pod eq_refl (MainContainer 0) example_backend "A").
Defined.

Lemma addExtraEnvs_no_duplicates_witness :
  ∃ c', load example_env_pod (MainContainer 0) = Some c' ∧ NoDup (ev_Name <$> c_Env c').
Proof.
  destruct (load example_env_pod (MainContainer 0)) as [c'|] eqn:E'; [|done].
  exists c'. split; [done|].
  apply (addExtraEnvs_no_duplicates example_envs example_pod example_env_pod eq_refl (MainContainer 0) example_backend c').
  - done.
  - done.
  - constructor.
Defined.

(** ** The remaining operations keep the containers *)

Section keep_names.

Lemma addEnvVarsFrom_inv f kind name var p p' :
  addEnvVarsFrom f kind name var p = Ok p' →
  ∃ rs, getContainers f p = Ok rs ∧
    (if bool_decide (var = "")
     then ∃ src, envFromSource kind name = Some src ∧
          p' = storeAll rs (λ c, c <| c_EnvFrom ::= λ l, l ++ [src] |>) p
     else ∃ src, envVarSource kind name var = Some src ∧
          p' = storeAll rs (λ c, c <| c_Env ::= λ l, l ++ [mkEnvVar var "" (Some src)] |>) p)
    ∨ getContainers f p = Ok [] ∧ p' = p.
Proof.
  unfold addEnvVarsFrom. intros Ha. inv_ok. exists x.
  destruct (decide (x = [])) as [->|Hne]; [right; by simplify_eq/=|left; split; [done|]].
  case_bool_decide as Hv.
  - destruct (envFromSource kind name) as [src|].
    + exists src. split; [done|]. rewrite (foldM_total _ (λ p r, store r (λ c, c <| c_EnvFrom ::= λ l, l ++ [src] |>) p)) in Ha by done.
      by injection Ha as <-.
    + by destruct x.
  - destruct (envVarSource kind name var) as [src|].
    + exists src. split; [done|]. rewrite (foldM_total _ (λ p r, store r (λ c, c <| c_Env ::= λ l, l ++ [mkEnvVar var "" (Some src)] |>) p)) in Ha by done.
      by injection Ha as <-.
    + by destruct x.
Qed.

Lemma addEnvVarsFrom_same_names f kind name var p p' :
  addEnvVarsFrom f kind name var p = Ok p' → same_names p' p.
Proof.
  intros (rs & [[_ H]|[_ ->]])%addEnvVarsFrom_inv; [|done].
  case_bool_decide; destruct H as (src & _ & ->); by rewrite storeAll_same_names.
Qed.

Lemma addExtraEnvs_same_names ee p p' : addExtraEnvs ee p = Ok p' → same_names p' p.
Proof. destruct ee as [ee|]; [|by intros [= <-]]. intros H. by apply addExtraEnvs_load in H as [? _]. Qed.

Lemma addPvc_same_names name mp sub f p p' : addPvc name mp sub f p = Ok p' → same_names p' p.
Proof. unfold addPvc. intros H. inv_ok. by rewrite storeAll_same_names. Qed.

Lemma setImage_same_names img i p p' : setImage img i p = Ok p' → same_names p' p.
Proof.
  destruct img as [img|]; simpl; [|by intros [= <-]]. intros H. inv_ok.
  assert (∀ r p, same_names (store r (λ c, c <| c_Image := img |>) p) p) as Hs.
  { intros r q. by apply store_same_names. }
  repeat case_bool_decide; try discriminate H.
  all: injection H as <-; first [apply Hs|etrans; [apply (Hs (InitContainer (Z.to_nat i)))|apply Hs]].
Qed.

Lemma updatePodWithAppConfig_same_names name mp key sub keys p p' :
  updatePodWithAppConfig name mp key sub keys p = Ok p' → same_names p' p.
Proof.
  unfold updatePodWithAppConfig. case_bool_decide; [done|]. intros H'. inv_ok.
  assert (same_names x p) as Hx.
  { case_match eqn:E; simplify_eq; [by eapply mountFilesFrom_same_names|done]. }
  apply (foldl_invariant (λ q, same_names q p)); [|done].
  intros q k _ Hq. case_bool_decide; [|done]. by rewrite store_same_names.
Qed.

End keep_names.

(** ** Mount paths *)

Section paths.

(** Where the files of a custom-resource reference go: an absolute
    path is taken as it is, a relative one is appended to the shared path of
    the section, or else to the working directory of the backend container, or
    else to [/opt/app-root/src]; the whole directory is mounted exactly when a
    path and no key is given. *)
Theorem mountPath_resolves p omp key shared r c :
  container p = Ok r → load p r = Some c →
  let base :=
    if bool_decide (shared ≠ "") then shared
    else if bool_decide (c_WorkingDir c = "") then DefaultMountDir else c_WorkingDir c in
  mountPath p omp key shared =
    Ok (if bool_decide (omp = "") then base
        else if filepath.IsAbs omp then omp else filepath.Join [base; omp],
        bool_decide (omp = "" ∨ key ≠ "")).
Proof.
  intros Hr Hc base. unfold mountPath, defaultMountPath. rewrite Hr. simpl. rewrite Hc. simpl. fold base.
  destruct (decide (omp = "")) as [->|Ho]; simpl.
  - done.
  - rewrite (bool_decide_eq_true_2 (omp ≠ "")), (bool_decide_eq_false_2 (omp = "")) by done.
    do 2 f_equal. destruct (decide (key = "")) as [->|Hk].
    + by rewrite bool_decide_eq_true_2, bool_decide_eq_false_2 by naive_solver.
    + by rewrite bool_decide_eq_false_2, bool_decide_eq_true_2 by naive_solver.
Qed.

Lemma mountPath_resolves_witness :
  mountPath example_pod "rel" "" "" = Ok ("/opt/app-root/src/rel", false) ∧
  mountPath example_pod "" "k" "/shared" = Ok ("/shared", true).
Proof.
  split.
  - by rewrite (mountPath_resolves example_pod "rel" "" "" (MainContainer 0) example_backend).
  - by rewrite (mountPath_resolves example_pod "" "k" "/shared" (MainContainer 0) example_backend).
Defined.

(** The mount-path annotation of a default configuration object is taken
    as it is, also when it is a relative path. *)
Theorem getDefConfigMountPath_verbatim p m a sub :
  map_lookup (Annotations m) DefaultMountPathAnnotation = Some a → a ≠ "" →
  map_get (Annotations m) DefaultSubPathAnnotation = sub →
  getDefConfigMountPath p m = Ok (a, sub, if bool_decide (sub = "*") then "" else sub).
Proof.
  intros Ha Hne Hs. unfold getDefConfigMountPath.
  assert (map_get (Annotations m) DefaultMountPathAnnotation = a) as -> by (unfold map_get; by rewrite Ha).
  rewrite (bool_decide_eq_false_2 (a = "")) by done. cbn [mbind outcome_bind]. rewrite Hs. do 2 f_equal.
  destruct (decide (sub = "")) as [->|He]; [done|].
  destruct (decide (sub = "*")) as [->|Hstar]; [done|].
  by rewrite bool_decide_eq_true_2, bool_decide_eq_false_2 by done.
Qed.

Lemma getDefConfigMountPath_verbatim_witness :
  getDefConfigMountPath example_pod
    (mkObjectMeta "cm" "ns" None (Some {[DefaultMountPathAnnotation := "rel/dir"; DefaultSubPathAnnotation := "*"]}) [])
  = Ok ("rel/dir", "*", "").
Proof. by apply getDefConfigMountPath_verbatim. Defined.

End paths.
