(* ===== verification/Deployable.v ===== *)
(** * Workloads (pkg/model/deployable.go, deployment_obj.go, statefulset_obj.go)

    The Go interface [Deployable] lets the operator run the backend as a
    Deployment or as a StatefulSet.  It is the class [DeployableOps] with its
    laws [DeployableLaws]; [Deployment] and [StatefulSet] are its instances,
    and [Workload], a value of the interface, is the third. *)

From S2P Require Import Prelude.
From S2P Require Import K8s.
From S2P Require Import Api.
From S2P Require Import Utils.
From S2P Require Import Pod.
From stdpp Require Import options.

(** [PodSpec()] and its like return pointers into the object: each is a pair
    of a reader and a writer. *)
Class DeployableOps (A : Type) := {
  GetObject : A → KObject;
  podSpec : A → PodSpec;
  setPodSpec : PodSpec → A → A;
  PodObjectMeta : A → ObjectMeta;
  setPodObjectMeta : ObjectMeta → A → A;
  Meta : A → ObjectMeta;
  setMeta : ObjectMeta → A → A;
  (** the selector, made when it was nil, and the object that now has it *)
  SpecSelector : A → LabelSelector * A;
  setSpecSelector : LabelSelector → A → A;
  SpecReplicas : A → option Z;
  setSpecReplicas : option Z → A → A;
  SetEmpty : A → A
}.

Class DeployableLaws (A : Type) `{!DeployableOps A} := {
  podSpec_set s a : podSpec (setPodSpec s a) = s;
  podSpec_meta m a : podSpec (setMeta m a) = podSpec a;
  podSpec_podMeta m a : podSpec (setPodObjectMeta m a) = podSpec a;
  podSpec_selector s a : podSpec (setSpecSelector s a) = podSpec a;
  podSpec_replicas n a : podSpec (setSpecReplicas n a) = podSpec a;
  podMeta_set m a : PodObjectMeta (setPodObjectMeta m a) = m;
  podMeta_podSpec s a : PodObjectMeta (setPodSpec s a) = PodObjectMeta a;
  podMeta_meta m a : PodObjectMeta (setMeta m a) = PodObjectMeta a;
  podMeta_selector s a : PodObjectMeta (setSpecSelector s a) = PodObjectMeta a;
  meta_set m a : Meta (setMeta m a) = m;
  meta_podSpec s a : Meta (setPodSpec s a) = Meta a;
  meta_podMeta m a : Meta (setPodObjectMeta m a) = Meta a;
  meta_selector s a : Meta (setSpecSelector s a) = Meta a;
  replicas_set n a : SpecReplicas (setSpecReplicas n a) = n;
  replicas_podSpec s a : SpecReplicas (setPodSpec s a) = SpecReplicas a;
  selector_set s a : (SpecSelector (setSpecSelector s a)).1 = s <| MatchLabels ::= λ m, Some (map_make m) |>;
  selector_meta m a : (SpecSelector (setMeta m a)).1 = (SpecSelector a).1;
  selector_podMeta m a : (SpecSelector (setPodObjectMeta m a)).1 = (SpecSelector a).1;
  selector_podSpec s a : (SpecSelector (setPodSpec s a)).1 = (SpecSelector a).1;
  selector_replicas n a : (SpecSelector (setSpecReplicas n a)).1 = (SpecSelector a).1;
  meta_replicas n a : Meta (setSpecReplicas n a) = Meta a;
  podMeta_replicas n a : PodObjectMeta (setSpecReplicas n a) = PodObjectMeta a;
  selector_keeps a : podSpec (SpecSelector a).2 = podSpec a ∧ PodObjectMeta (SpecSelector a).2 = PodObjectMeta a ∧
    Meta (SpecSelector a).2 = Meta a ∧ SpecReplicas (SpecSelector a).2 = SpecReplicas a;
  object_meta a : objectMeta (GetObject a) = Meta a
}.

#[export] Hint Rewrite @podSpec_set @podSpec_meta @podSpec_podMeta @podSpec_selector @podSpec_replicas
  @podMeta_set @podMeta_podSpec @podMeta_meta @podMeta_selector @meta_set @meta_podSpec @meta_podMeta @meta_selector
  @replicas_set @replicas_podSpec using typeclasses eauto : rhdh.

(** [if s == nil { s = &LabelSelector{} }; if s.MatchLabels == nil { ... }] *)
Definition initSelector (s : option LabelSelector) : LabelSelector :=
  (default emptySelector s) <| MatchLabels ::= λ m, Some (map_make m) |>.

(** ** Deployment *)

Module DeploymentObj.

#[export] Instance ops : DeployableOps Deployment := {|
  GetObject d := KDeployment d;
  podSpec d := t_Spec (d_Template d);
  setPodSpec s d := d <| d_Template ::= λ t, t <| t_Spec := s |> |>;
  PodObjectMeta d := t_Meta (d_Template d);
  setPodObjectMeta m d := d <| d_Template ::= λ t, t <| t_Meta := m |> |>;
  Meta d := d_Meta d;
  setMeta m d := d <| d_Meta := m |>;
  SpecSelector d := (initSelector (d_Selector d), d <| d_Selector := Some (initSelector (d_Selector d)) |>);
  setSpecSelector s d := d <| d_Selector := Some s |>;
  SpecReplicas d := d_Replicas d;
  setSpecReplicas n d := d <| d_Replicas := n |>;
  SetEmpty _ := emptyDeployment
|}.

#[export] Instance laws : DeployableLaws Deployment.
Proof. split; intros; by repeat match goal with d : Deployment |- _ => destruct d end. Qed.

Definition toStatefulSet (dep : Deployment) : StatefulSet :=
  emptyStatefulSet
    <| s_Type := mkTypeMeta "apps/v1" "StatefulSet" |>
    <| s_Meta := d_Meta dep |>
    <| s_Replicas := d_Replicas dep |>
    <| s_Selector := Some (initSelector (d_Selector dep)) |>
    <| s_Template := d_Template dep |>
    <| s_ServiceName := "" |>.

End DeploymentObj.
Export DeploymentObj.

(** ** StatefulSet *)

Module StatefulSetObj.

#[export] Instance ops : DeployableOps StatefulSet := {|
  GetObject s := KStatefulSet s;
  podSpec s := t_Spec (s_Template s);
  setPodSpec p s := s <| s_Template ::= λ t, t <| t_Spec := p |> |>;
  PodObjectMeta s := t_Meta (s_Template s);
  setPodObjectMeta m s := s <| s_Template ::= λ t, t <| t_Meta := m |> |>;
  Meta s := s_Meta s;
  setMeta m s := s <| s_Meta := m |>;
  SpecSelector s := (initSelector (s_Selector s), s <| s_Selector := Some (initSelector (s_Selector s)) |>);
  setSpecSelector sel s := s <| s_Selector := Some sel |>;
  SpecReplicas s := s_Replicas s;
  setSpecReplicas n s := s <| s_Replicas := n |>;
  SetEmpty _ := emptyStatefulSet
|}.

#[export] Instance laws : DeployableLaws StatefulSet.
Proof. split; intros; by repeat match goal with d : StatefulSet |- _ => destruct d end. Qed.

Definition toDeployment (ss : StatefulSet) : Deployment :=
  emptyDeployment
    <| d_Type := mkTypeMeta "apps/v1" "Deployment" |>
    <| d_Meta := s_Meta ss |>
    <| d_Replicas := s_Replicas ss |>
    <| d_Selector := Some (initSelector (s_Selector ss)) |>
    <| d_Template := s_Template ss |>.

End StatefulSetObj.
Export StatefulSetObj.

(** ** A value of the interface *)

Inductive Workload :=
  | WDeployment (Obj : Deployment)
  | WStatefulSet (Obj : StatefulSet).
#[export] Instance Workload_eq_dec : EqDecision Workload.
Proof. solve_decision. Defined.

(** A method call on the interface is a call on the object it holds. *)
Definition wget {B} (f : ∀ A (H : DeployableOps A), A → B) (w : Workload) : B :=
  match w with
  | WDeployment d => f Deployment _ d
  | WStatefulSet s => f StatefulSet _ s
  end.
Definition wset (f : ∀ A (H : DeployableOps A), A → A) (w : Workload) : Workload :=
  match w with
  | WDeployment d => WDeployment (f Deployment _ d)
  | WStatefulSet s => WStatefulSet (f StatefulSet _ s)
  end.

#[export] Instance Workload_ops : DeployableOps Workload := {|
  GetObject := wget (@GetObject);
  podSpec := wget (@podSpec);
  setPodSpec s := wset (λ A H, @setPodSpec A H s);
  PodObjectMeta := wget (@PodObjectMeta);
  setPodObjectMeta m := wset (λ A H, @setPodObjectMeta A H m);
  Meta := wget (@Meta);
  setMeta m := wset (λ A H, @setMeta A H m);
  SpecSelector w := (wget (λ A H a, (@SpecSelector A H a).1) w, wset (λ A H a, (@SpecSelector A H a).2) w);
  setSpecSelector s := wset (λ A H, @setSpecSelector A H s);
  SpecReplicas := wget (@SpecReplicas);
  setSpecReplicas n := wset (λ A H, @setSpecReplicas A H n);
  SetEmpty := wset (@SetEmpty)
|}.

#[export] Instance Workload_laws : DeployableLaws Workload.
Proof. split; intros; by repeat match goal with w : Workload |- _ => destruct w as [[]|[]] end. Qed.

Definition unsupportedType : string := "unsupported type for Deployable object: ".

Definition CreateDeployable (obj : KObject) : outcome Workload :=
  match obj with
  | KStatefulSet o => Ok (WStatefulSet o)
  | KDeployment o => Ok (WDeployment o)
  | _ => Err (Errorf (unsupportedType +:+ Kind (objectType obj)))
  end.

(** [DeploymentObj.ConvertTo] and [StatefulSetObj.ConvertTo] *)
Definition ConvertTo (kind : string) (w : Workload) : outcome Workload :=
  match w with
  | WDeployment d =>
      if bool_decide (kind = "StatefulSet") then CreateDeployable (KStatefulSet (toStatefulSet d))
      else if bool_decide (kind = "Deployment") then Ok w
      else Err (Errorf (unsupportedType +:+ kind))
  | WStatefulSet s =>
      if bool_decide (kind = "Deployment") then CreateDeployable (KDeployment (toDeployment s))
      else if bool_decide (kind = "StatefulSet") then Ok w
      else Err (Errorf (unsupportedType +:+ kind))
  end.

Definition workloadKind (w : Workload) : string :=
  match w with
  | WDeployment _ => "Deployment"
  | WStatefulSet _ => "StatefulSet"
  end.

Lemma ConvertTo_Ok kind w w' :
  ConvertTo kind w = Ok w' →
  workloadKind w' = kind ∧ Meta w' = Meta w ∧ podSpec w' = podSpec w ∧
  PodObjectMeta w' = PodObjectMeta w ∧ SpecReplicas w' = SpecReplicas w ∧
  (SpecSelector w').1 = (SpecSelector w).1 ∧ (workloadKind w = kind → w' = w).
Proof. unfold ConvertTo. destruct w as [d|s]; simpl; repeat case_bool_decide; intros; by simplify_eq/=. Qed.

(** C36. Conversion gives a workload of the requested kind with the metadata,
    the pod template and the replicas of the original; it does nothing when the
    kind is right already, and it fails exactly for a kind that is neither
    Deployment nor StatefulSet. *)
Theorem ConvertTo_keeps kind w :
  match ConvertTo kind w with
  | Ok w' =>
      workloadKind w' = kind ∧ Meta w' = Meta w ∧ podSpec w' = podSpec w ∧
      PodObjectMeta w' = PodObjectMeta w ∧ SpecReplicas w' = SpecReplicas w ∧
      (SpecSelector w').1 = (SpecSelector w).1 ∧
      (workloadKind w = kind → w' = w)
  | Err e => kind ≠ "Deployment" ∧ kind ≠ "StatefulSet" ∧ e = Errorf (unsupportedType +:+ kind)
  | Panic _ => False
  end.
Proof.
  destruct (ConvertTo kind w) as [w'|e|why] eqn:E; [by apply ConvertTo_Ok|..]; revert E;
    unfold ConvertTo; destruct w as [d|s]; simpl; repeat case_bool_decide; intros; by simplify_eq/=.
Qed.

(** A Deployment turned into a StatefulSet and back keeps its metadata,
    template, replicas and selector, and loses every other field of its spec and
    its status. *)
Theorem toStatefulSet_toDeployment d :
  toDeployment (toStatefulSet d) =
    d <| d_Type := mkTypeMeta "apps/v1" "Deployment" |>
      <| d_Selector := Some (initSelector (d_Selector d)) |>
      <| d_Extra := ∅ |> <| d_ReadyReplicas := 0%Z |> <| d_Conditions := [] |>.
Proof.
  destruct d as [t m n s tm ex rr cs]. unfold toDeployment, toStatefulSet, initSelector, map_make. simpl.
  by destruct s as [[[]]|].
Qed.

(** The pod of a workload under a function that may fail *)
Definition withPod {A} `{!DeployableOps A} (f : PodSpec → outcome PodSpec) (a : A) : outcome A :=
  p ← f (podSpec a);
  Ok (setPodSpec p a).

Lemma withPod_Ok {A} `{!DeployableOps A} f (a a' : A) :
  withPod f a = Ok a' ↔ ∃ p, f (podSpec a) = Ok p ∧ a' = setPodSpec p a.
Proof. unfold withPod. rewrite bind_Ok_inv. naive_solver. Qed.
