(* ===== verification/MetaInfo.v ===== *)
(** * Metadata of the objects the operator owns

    Names, labels and owners (pkg/model/runtime.go [setMetaInfo],
    default-config.go [setMultiObjectConfigMetaInfo] and the [...Name]
    functions of the components), and the multi-object of
    pkg/model/multiobject. *)

From S2P Require Import Prelude.
From S2P Require Import GoStrings.
From S2P Require Import K8s.
From S2P Require Import Api.
From S2P Require Import Externals.
From S2P Require Import Utils.
From stdpp Require Import options.

(** The label of the pods and selectors, [model.BackstageAppLabel]; the
    constant of the same name in [utils] is another one. *)
Definition AppLabel : string := "rhdh.redhat.com/app".
Definition IdleAnnotation : string := "rhdh.redhat.com/idle".
Definition ConfiguredNameAnnotation : string := "rhdh.redhat.com/configured-name".
Definition SourceAnnotation : string := "rhdh.redhat.com/source".

Definition DeploymentName (backstageName : string) : string := GenerateRuntimeObjectName backstageName "backstage".
Definition ServiceName (backstageName : string) : string := GenerateRuntimeObjectName backstageName "backstage".
Definition RouteName (backstageName : string) : string := GenerateRuntimeObjectName backstageName "backstage".
Definition DbSecretDefaultName (backstageName : string) : string := GenerateRuntimeObjectName backstageName "backstage-psql-secret".
Definition DbServiceName (backstageName : string) : string := GenerateRuntimeObjectName backstageName "backstage-psql".
Definition DbStatefulSetName (backstageName : string) : string := GenerateRuntimeObjectName backstageName "backstage-psql".
Definition DynamicPluginsDefaultName (backstageName : string) : string := GenerateRuntimeObjectName backstageName "backstage-dynamic-plugins".

Definition DefaultMultiObjectName (objectType backstageName objectName : string) : string :=
  "backstage-" +:+ objectType +:+ "-" +:+ backstageName +:+ "-" +:+ objectName.

(** [multiobject.MultiObject]; its kind is a pointer to that of the first item. *)
Record MultiObject := mkMultiObject {
  mo_ObjectKind : option TypeMeta;
  Items : list KObject
}.
#[export] Instance MultiObject_eta : Eta MultiObject := λ r, mkMultiObject (mo_ObjectKind r) (Items r).
#[export] Instance MultiObject_eq_dec : EqDecision MultiObject.
Proof. solve_decision. Defined.

(** The configuration an object is made from, a [runtime.Object]: one object,
    or several for the keys registered as [Multiple]. *)
Inductive Config :=
  | ConfObject (o : KObject)
  | ConfMulti (mo : MultiObject).
#[export] Instance Config_eq_dec : EqDecision Config.
Proof. solve_decision. Defined.

(** The type assertions [config.( *T )] of the components, which panic. *)
Definition conversionPanic {A} (c : Config) (wanted : string) : outcome A :=
  Panic ("interface conversion: runtime.Object is " +:+
    match c with ConfObject o => goType o | ConfMulti _ => "*multiobject.MultiObject" end +:+ ", not " +:+ wanted).

Definition asMultiObject (c : Config) : outcome MultiObject :=
  match c with ConfMulti m => Ok m | _ => conversionPanic c "*multiobject.MultiObject" end.
Definition asConfigMap (c : Config) : outcome ConfigMap :=
  match c with ConfObject (KConfigMap x) => Ok x | _ => conversionPanic c "*v1.ConfigMap" end.
Definition asSecret (c : Config) : outcome Secret :=
  match c with ConfObject (KSecret x) => Ok x | _ => conversionPanic c "*v1.Secret" end.
Definition asService (c : Config) : outcome Service :=
  match c with ConfObject (KService x) => Ok x | _ => conversionPanic c "*v1.Service" end.
Definition asStatefulSet (c : Config) : outcome StatefulSet :=
  match c with ConfObject (KStatefulSet x) => Ok x | _ => conversionPanic c "*v1.StatefulSet" end.
Definition asRoute (c : Config) : outcome Route :=
  match c with ConfObject (KRoute x) => Ok x | _ => conversionPanic c "*v1.Route" end.

Definition emptyMultiObject : MultiObject := mkMultiObject None [].

(** [if config != nil { x = config.(T) }] *)
Definition optConfig {A} (f : Config → outcome A) (c : option Config) : outcome (option A) :=
  match c with
  | None => Ok None
  | Some c => x ← f c; Ok (Some x)
  end.

Section meta.
Context `{own : !Ownership}.

Definition setMetaInfo (backstage : api.Backstage) (m : ObjectMeta) : outcome ObjectMeta :=
  let m := m <| Namespace := api.bsNamespace backstage |> in
  let m := m <| Labels ::= λ l, SetKubeLabels l (api.bsName backstage) |> in
  match SetControllerReference backstage m with
  | Ok m => Ok m
  | Err e => Panic (Error e)
  | Panic w => Panic w
  end.

(** [SetName] followed by [setMetaInfo] *)
Definition setNameAndMeta (name : string) (backstage : api.Backstage) (m : ObjectMeta) : outcome ObjectMeta :=
  setMetaInfo backstage (m <| Name := name |>).

Definition setItemMetaInfo (objectType : string) (backstage : api.Backstage) (item : KObject) : outcome KObject :=
  let m := objectMeta item in
  let m := AddAnnotation m ConfiguredNameAnnotation (Name m) in
  let m := m <| Name := DefaultMultiObjectName objectType (api.bsName backstage) (Name m) |> in
  m ← setMetaInfo backstage m;
  Ok (setObjectMeta m item).

Definition setMultiObjectConfigMetaInfo (objectType : string) (backstage : api.Backstage) (mo : MultiObject) :
    outcome MultiObject :=
  items ← collect (setItemMetaInfo objectType backstage) [] (Items mo);
  Ok (mo <| Items := items |>).

(** What [setMetaInfo] leaves on an object. *)
Record owned_by (b : api.Backstage) (m : ObjectMeta) : Prop := {
  owned_namespace : Namespace m = api.bsNamespace b;
  owned_app : map_lookup (Labels m) BackstageAppLabel = Some BackstageAppName;
  owned_instance : map_lookup (Labels m) BackstageInstanceLabel = Some (api.bsName b);
  owned_controller : mkOwnerReference "Backstage" (api.bsName b) true ∈ OwnerReferences m
}.

Lemma map_lookup_SetKubeLabels l n k :
  map_lookup (SetKubeLabels l n) k =
    if decide (k = BackstageInstanceLabel) then Some n
    else if decide (k = BackstageAppLabel) then Some BackstageAppName
    else map_lookup l k.
Proof.
  unfold SetKubeLabels, map_lookup. simpl.
  destruct (decide (k = BackstageInstanceLabel)) as [->|H1]; [by rewrite lookup_insert_eq|].
  rewrite lookup_insert_ne by done.
  destruct (decide (k = BackstageAppLabel)) as [->|H2]; [by rewrite lookup_insert_eq|].
  rewrite lookup_insert_ne by done. destruct l; [done|]. simpl. by rewrite lookup_empty.
Qed.

Lemma setMetaInfo_spec b m m' :
  setMetaInfo b m = Ok m' →
  owned_by b m' ∧ Name m' = Name m ∧ Annotations m' = Annotations m ∧
  ∀ k, k ≠ BackstageInstanceLabel → k ≠ BackstageAppLabel → map_lookup (Labels m') k = map_lookup (Labels m) k.
Proof.
  unfold setMetaInfo.
  destruct (SetControllerReference _ _) as [m''|e|w] eqn:E; [|done|done]. intros [= <-].
  pose proof (SetControllerReference_owned _ _ _ E) as Ho.
  apply SetControllerReference_only_owners in E.
  assert (Labels m'' = SetKubeLabels (Labels m) (api.bsName b)) as Hl by by rewrite E.
  split_and!; [split; [by rewrite E|rewrite Hl..|done]|by rewrite E|by rewrite E|].
  - by rewrite map_lookup_SetKubeLabels, decide_False, decide_True.
  - by rewrite map_lookup_SetKubeLabels, decide_True.
  - intros k H1 H2. rewrite Hl. by rewrite map_lookup_SetKubeLabels, !decide_False by done.
Qed.

Lemma setMetaInfo_not_Err b m e : setMetaInfo b m ≠ Err e.
Proof. unfold setMetaInfo. by destruct (SetControllerReference _ _). Qed.

Lemma setItemMetaInfo_spec ty b o o' :
  setItemMetaInfo ty b o = Ok o' →
  owned_by b (objectMeta o') ∧
  Name (objectMeta o') = DefaultMultiObjectName ty (api.bsName b) (Name (objectMeta o)) ∧
  Annotations (objectMeta o') = Annotations (AddAnnotation (objectMeta o) ConfiguredNameAnnotation (Name (objectMeta o))) ∧
  setObjectMeta (objectMeta o) o' = o.
Proof.
  unfold setItemMetaInfo. intros Hi. inv_ok.
  match goal with E : setMetaInfo _ _ = Ok _ |- _ => apply setMetaInfo_spec in E as (Ho & Hn & Ha & _) end.
  rewrite objectMeta_set. split_and!; [done|done|by rewrite Ha|].
  by rewrite setObjectMeta_set, setObjectMeta_id.
Qed.

End meta.

(** The objects of a multi-object all get the namespace, the labels and
    the owner of the custom resource, a name built from its name and theirs, and
    an annotation with the configured name; nothing else of them changes. *)
Theorem setMultiObjectConfigMetaInfo_owned `{!Ownership} ty b mo mo' :
  setMultiObjectConfigMetaInfo ty b mo = Ok mo' →
  mo_ObjectKind mo' = mo_ObjectKind mo ∧
  Forall2 (λ o o',
    owned_by b (objectMeta o') ∧
    Name (objectMeta o') = DefaultMultiObjectName ty (api.bsName b) (Name (objectMeta o)) ∧
    map_lookup (Annotations (objectMeta o')) ConfiguredNameAnnotation = Some (Name (objectMeta o)) ∧
    setObjectMeta (objectMeta o) o' = o) (Items mo) (Items mo').
Proof.
  unfold setMultiObjectConfigMetaInfo. intros Hm. inv_ok. split; [done|].
  match goal with E : collect _ _ _ = Ok _ |- _ => apply collect_Ok in E as (items & -> & Hall) end. simpl. eapply Forall2_impl; [exact Hall|].
  intros o o' (Ho & Hn & Ha & Hs)%setItemMetaInfo_spec. split_and!; [done..| |done].
  rewrite Ha. unfold AddAnnotation, map_lookup. simpl. by rewrite lookup_insert_eq.
Qed.

Definition example_bs : api.Backstage :=
  api.mkBackstage (mkObjectMeta "bs" "ns" None None []) api.emptySpec (api.mkBackstageStatus []).

Lemma setMultiObjectConfigMetaInfo_owned_witness :
  let cm := KConfigMap (emptyConfigMap <| cm_Meta ::= λ m, m <| Name := "cm" |> |>) in
  ∃ o', Name (objectMeta o') = "backstage-files-bs-cm" ∧
    map_lookup (Annotations (objectMeta o')) ConfiguredNameAnnotation = Some "cm" ∧
    owned_by example_bs (objectMeta o').
Proof.
  intros cm.
  pose (r := @setMultiObjectConfigMetaInfo Ownership_set "files" example_bs (mkMultiObject None [cm])).
  assert (∃ mo', r = Ok mo') as [mo' Hr] by (by eexists).
  destruct (@setMultiObjectConfigMetaInfo_owned Ownership_set _ _ _ _ Hr) as [_ Hall].
  apply Forall2_cons_inv_l in Hall as (o' & ? & (Ho & Hn & Ha & _) & _ & _). by exists o'.
Defined.

(** ** Names *)

Section names.

(** Within one custom resource two configured objects of a kind get two
    names, and one configured object gets different names for two custom
    resources. *)
Theorem DefaultMultiObjectName_inj ty b1 b2 o1 o2 :
  DefaultMultiObjectName ty b1 o1 = DefaultMultiObjectName ty b2 o2 → b1 = b2 ↔ o1 = o2.
Proof.
  unfold DefaultMultiObjectName. intros H.
  apply string_app_inj_l in H. apply string_app_inj_l in H. apply string_app_inj_l in H.
  split; intros ->.
  - apply string_app_inj_l in H. by apply string_app_inj_l in H.
  - by apply string_app_inj_r in H.
Qed.

(** Two custom resources and two objects can still collide ... *)
Example DefaultMultiObjectName_collision :
  DefaultMultiObjectName "files" "a" "b-c" = DefaultMultiObjectName "files" "a-b" "c".
Proof. done. Qed.

(** ... and so do the services of a custom resource [x], whose database
    service has the name of the backend service of a custom resource [psql-x] of
    the same namespace, and likewise its StatefulSets. *)
Theorem psql_name_collision x :
  ServiceName ("psql-" +:+ x) = DbServiceName x ∧ DeploymentName ("psql-" +:+ x) = DbStatefulSetName x.
Proof. done. Qed.

End names.

Lemma DefaultMultiObjectName_inj_witness : "a" = "a" ↔ "cm" = "cm".
Proof. by apply (DefaultMultiObjectName_inj "files" "a" "a" "cm" "cm"). Defined.
