(* ===== verification/BackstageDeployment.v ===== *)
(** * The backend workload (pkg/model/deployment.go)

    The methods of [BackstageDeployment] that initialise the workload from its
    configuration, merge the patch of the custom resource into it, and finish it
    once the other objects are known. *)

From S2P Require Import Prelude.
From S2P Require Import GoStrings.
From S2P Require Import K8s.
From S2P Require Import Api.
From S2P Require Import Externals.
From S2P Require Import Utils.
From S2P Require Import Pod.
From S2P Require Import Deployable.
From S2P Require Import MetaInfo.
From stdpp Require Import options.

Definition BackstageImageEnvVar : string := "RELATED_IMAGE_backstage".
Definition ExtConfigHashAnnotation : string := "rhdh.redhat.com/ext-config-hash".
Definition ListMergeAnnotation : string := "rhdh.redhat.com/deployment-patch-list-merge-mode".
Definition dynamicPluginInitContainerName : string := "install-dynamic-plugins".
Definition OperatorDPProcessingEnvVar : string := "OPERATOR_DP_PROCESSING".
Definition InstallDpImageEnvVar : string := "INSTALL_DP_IMAGE".

Record BackstageDeployment := mkBackstageDeployment { deployable : Workload }.
#[export] Instance BackstageDeployment_eta : Eta BackstageDeployment := λ r, mkBackstageDeployment (deployable r).
#[export] Instance BackstageDeployment_eq_dec : EqDecision BackstageDeployment.
Proof. solve_decision. Defined.

Definition IsOperatorDPProcessing `{!OS} : bool := BoolEnvVar OperatorDPProcessingEnvVar false.

(** The index of the init container that installs the plugins, or -1. *)
Definition DynamicPluginsInitContainer (initContainers : list Container) : Z :=
  match list_find (hasName dynamicPluginInitContainerName) initContainers with
  | Some (i, _) => Z.of_nat i
  | None => -1
  end.

(** ** setMetaInfo *)

Definition setPodLabel {A} `{!DeployableOps A} (k v : string) (w : A) : A :=
  setPodObjectMeta ((PodObjectMeta w) <| Labels ::= λ l, GenerateLabel l k v |>) w.

(** [SpecSelector().MatchLabels[k] = v] *)
Definition setMatchLabel {A} `{!DeployableOps A} (k v : string) (w : A) : outcome A :=
  let '(sel, w) := SpecSelector w in
  ml ← map_set (MatchLabels sel) k v;
  Ok (setSpecSelector (sel <| MatchLabels := ml |>) w).

Definition deploymentMetaInfo `{!Ownership} {A} `{!DeployableOps A} (backstage : api.Backstage) (w : A) : outcome A :=
  let w := setMeta ((Meta w) <| Name := DeploymentName (api.bsName backstage) |>) w in
  let w := setPodLabel AppLabel (BackstageAppLabelValue (api.bsName backstage)) w in
  w ← setMatchLabel AppLabel (BackstageAppLabelValue (api.bsName backstage)) w;
  m ← setMetaInfo backstage (Meta w);
  Ok (setMeta m w).

(** [PodObjectMeta().Annotations[ExtConfigHashAnnotation] = hash] *)
Definition setHashAnnotation {A} `{!DeployableOps A} (hash : string) (w : A) : A :=
  setPodObjectMeta ((PodObjectMeta w) <| Annotations ::= λ a, Some (<[ExtConfigHashAnnotation := hash]> (map_make a)) |>) w.

(** ** The images *)

Section images.
Context `{os : !OS}.

(** [if os.Getenv(BackstageImageEnvVar) != "" { b.setImage(...) }] *)
Definition overrideImage (i : Z) (p : PodSpec) : outcome PodSpec :=
  let image := Getenv BackstageImageEnvVar in
  if bool_decide (image ≠ "") then setImage (Some image) i p else Ok p.

(** The dedicated image of the operator's own plugin processing. *)
Definition useInstallImage (i : Z) (p : PodSpec) : outcome PodSpec :=
  if IsOperatorDPProcessing && bool_decide (0 ≤ i)%Z then
    let idpImage := Getenv InstallDpImageEnvVar in
    if bool_decide (idpImage = "") then
      Err (Errorf (InstallDpImageEnvVar +:+ " environment variable is required when operator dynamic plugins processing is enabled"))
    else
      let p := store (InitContainer (Z.to_nat i)) (λ c, c <| c_Image := idpImage |> <| c_Command := [] |>) p in
      r ← container p;
      let p := store r (λ c, c <| c_Args := [] |>) p in
      Ok (store (InitContainer (Z.to_nat i)) (λ c, c <| c_ImagePullPolicy := "Always" |>) p)
  else Ok p.

End images.

(** ** setDeployment *)

Section setDeployment.
Context `{merge2 : !Merge2, wyaml : !WorkloadYaml}.

Definition listMergeMode (backstage : api.Backstage) : option ListIncreaseDirection :=
  let mode := api.bsAnnotation backstage ListMergeAnnotation in
  if bool_decide (mode = "prepend") then Some MergeOptionsListPrepend
  else if bool_decide (mode = "append") then Some MergeOptionsListAppend
  else None.

(** [b.deployable.SetEmpty(); yaml.Unmarshal(merged, b.deployable.GetObject())] *)
Definition unmarshalWorkload (merged : string) (w : Workload) : outcome Workload :=
  match SetEmpty w with
  | WDeployment _ => d ← UnmarshalDeployment merged; Ok (WDeployment d)
  | WStatefulSet _ => s ← UnmarshalStatefulSet merged; Ok (WStatefulSet s)
  end.

Definition mergePatch (backstage : api.Backstage) (conf : string) (w : Workload) : outcome Workload :=
  deplStr ← wrapErr "can not marshal deployment object" (MarshalObject (GetObject w));
  let mode := listMergeMode backstage in
  merged ← wrapErr "can not merge spec.deployment" (MergeStrings conf deplStr mode);
  merged ← (if bool_decide (mode = Some MergeOptionsListPrepend)
            then wrapErr "can not merge spec.deployment" (MergeStrings conf merged None)
            else Ok merged);
  wrapErr "can not unmarshal merged deployment" (unmarshalWorkload merged w).

Definition setDeployment (backstage : api.Backstage) (w : Workload) : outcome Workload :=
  w ← match api.spec_Deployment (api.Spec backstage) with
      | None => Ok w
      | Some d =>
          w ← (if bool_decide (api.bd_Kind d ≠ "")
               then wrapErr ("can not convert deployment to kind " +:+ api.bd_Kind d) (ConvertTo (api.bd_Kind d) w)
               else Ok w);
          match api.Patch d with
          | Some conf => mergePatch backstage conf w
          | None => Ok w
          end
      end;
  match api.spec_Application (api.Spec backstage) with
  | Some app => withPod (λ p, wrapErr "can not add extra envs" (addExtraEnvs (api.app_ExtraEnvs app) p)) w
  | None => Ok w
  end.

End setDeployment.

(** ** addToModel and updateAndValidate *)

(** [backstage.Spec.Database.AuthSecretName], read only when it is specified *)
Definition authSecretName (backstage : api.Backstage) : string :=
  match api.spec_Database (api.Spec backstage) with
  | Some db => api.AuthSecretName db
  | None => ""
  end.

Section component.
Context `{os : !OS, merge2 : !Merge2, wyaml : !WorkloadYaml, own : !Ownership}.

Definition createFromConfig (config : Config) : outcome Workload :=
  match config with
  | ConfObject o => CreateDeployable o
  | ConfMulti mo => Err (Errorf (unsupportedType +:+ default "" (Kind <$> mo_ObjectKind mo)))
  end.

Definition addDeployment (watchingHash : string) (backstage : api.Backstage) (config : option Config) :
    outcome BackstageDeployment :=
  match config with
  | None => Err (Errorf "deployment object is not set")
  | Some config =>
      w ← wrapErr "cannot set deployment object" (createFromConfig config);
      w ← deploymentMetaInfo backstage w;
      if bool_decide (BackstageContainerIndex (podSpec w) < 0)%Z then
        Err (Errorf "backstage Deployment is not initialized, Backstage Container is not identified")
      else
        let w := setHashAnnotation watchingHash w in
        let i := DynamicPluginsInitContainer (InitContainers (podSpec w)) in
        w ← withPod (overrideImage i) w;
        w ← withPod (useInstallImage i) w;
        w ← setDeployment backstage w;
        Ok (mkBackstageDeployment w)
  end.

Definition idle (b : BackstageDeployment) : BackstageDeployment :=
  b <| deployable ::= setSpecReplicas (Some 0%Z) |>.

(** [dbSecret] is what the model holds under [DbSecretKey]. *)
Definition updateDeployment (backstage : api.Backstage) (dbSecret : option Secret) (b : BackstageDeployment) :
    outcome BackstageDeployment :=
  w ← wrapErr "can not add env vars from db secret"
    (if api.IsAuthSecretSpecified (api.Spec backstage)
     then withPod (addEnvVarsFrom filterNone SecretObjectKind (authSecretName backstage) "") (deployable b)
     else match dbSecret with
          | Some secret => withPod (addEnvVarsFrom filterNone SecretObjectKind (Name (sec_Meta secret)) "") (deployable b)
          | None => Ok (deployable b)
          end);
  let b := mkBackstageDeployment w in
  Ok (if bool_decide (api.bsAnnotation backstage IdleAnnotation = "true") then idle b else b).

End component.

(** ** Lemmas *)

Section lemmas.

Lemma map_lookup_GenerateLabel l k v k' :
  map_lookup (GenerateLabel l k v) k' = if decide (k' = k) then Some v else map_lookup l k'.
Proof.
  apply map_lookup_insert_make.
Qed.

(** The labels that tie the pods of a workload to its selector and to the
    service, and the metadata of the object *)
Record initialised {A} `{!DeployableOps A} (b : api.Backstage) (w : A) : Prop := {
  init_owned : owned_by b (Meta w);
  init_name : Name (Meta w) = DeploymentName (api.bsName b);
  init_label : map_lookup (Labels (PodObjectMeta w)) AppLabel = Some (BackstageAppLabelValue (api.bsName b));
  init_selector : map_lookup (MatchLabels (SpecSelector w).1) AppLabel = Some (BackstageAppLabelValue (api.bsName b))
}.

Lemma deploymentMetaInfo_spec `{!Ownership} {A} `{!DeployableOps A, !DeployableLaws A} b (w w' : A) :
  deploymentMetaInfo b w = Ok w' →
  initialised b w' ∧ podSpec w' = podSpec w ∧ Annotations (PodObjectMeta w') = Annotations (PodObjectMeta w) ∧
  Annotations (Meta w') = Annotations (Meta w).
Proof.
  unfold deploymentMetaInfo, setMatchLabel.
  set (w1 := setPodLabel _ _ _).
  pose proof (selector_keeps w1) as (Hp & Hm & Hmeta & _).
  destruct (SpecSelector w1) as [sel w2] eqn:Es. simpl in Hp, Hm, Hmeta. intros Hd. inv_ok.
  match goal with E : setMetaInfo _ _ = Ok _ |- _ => apply setMetaInfo_spec in E as (Ho & Hn & Ha & _) end.
  match goal with E : map_set _ _ _ = Ok _ |- _ => rename E into Hset end.
  rewrite podMeta_meta, podSpec_meta, meta_set, podMeta_selector, podSpec_selector.
  rewrite Ha, meta_selector, Hmeta, Hm, Hp. unfold w1, setPodLabel.
  rewrite podMeta_set, podMeta_meta, meta_podMeta, meta_set, podSpec_podMeta, podSpec_meta.
  split_and!; [split|done..].
  - by rewrite meta_set.
  - rewrite meta_set, Hn, meta_selector, Hmeta. unfold w1, setPodLabel. by rewrite meta_podMeta, meta_set.
  - rewrite podMeta_meta, podMeta_selector, Hm. unfold w1, setPodLabel. rewrite podMeta_set. simpl.
    by rewrite map_lookup_GenerateLabel, decide_True.
  - rewrite selector_meta, selector_set. simpl.
    pose proof (map_lookup_set _ _ _ _ AppLabel Hset) as Hl. rewrite decide_True in Hl by done.
    by rewrite map_lookup_make.
Qed.

Lemma setHashAnnotation_spec {A} `{!DeployableOps A, !DeployableLaws A} b hash (w : A) :
  initialised b w →
  initialised b (setHashAnnotation hash w) ∧ podSpec (setHashAnnotation hash w) = podSpec w ∧
  map_lookup (Annotations (PodObjectMeta (setHashAnnotation hash w))) ExtConfigHashAnnotation = Some hash ∧
  Annotations (Meta (setHashAnnotation hash w)) = Annotations (Meta w).
Proof.
  intros [Ho Hn Hl Hs]. unfold setHashAnnotation.
  split_and!; [split|..]; rewrite ?meta_podMeta, ?podMeta_set, ?selector_podMeta, ?podSpec_podMeta; try done.
  simpl. by rewrite map_lookup_insert_make, decide_True.
Qed.

(** Changing the pod or the replicas keeps a workload initialised. *)
Lemma setPodSpec_initialised {A} `{!DeployableOps A, !DeployableLaws A} b p (w : A) :
  initialised b w → initialised b (setPodSpec p w).
Proof. intros []. split; by rewrite ?meta_podSpec, ?podMeta_podSpec, ?selector_podSpec. Qed.

Lemma setSpecReplicas_initialised {A} `{!DeployableOps A, !DeployableLaws A} b n (w : A) :
  initialised b w → initialised b (setSpecReplicas n w).
Proof. intros []. split; by rewrite ?meta_replicas, ?podMeta_replicas, ?selector_replicas. Qed.

Lemma ConvertTo_initialised b kind w w' :
  ConvertTo kind w = Ok w' → initialised b w → initialised b w'.
Proof. intros (_ & Hm & _ & Hp & _ & Hs & _)%ConvertTo_Ok []. split; by rewrite ?Hm, ?Hp, ?Hs. Qed.

Lemma same_names_backend p p' :
  same_names p' p → BackstageContainerName ∈ c_Name <$> Containers p → BackstageContainerName ∈ c_Name <$> Containers p'.
Proof. intros [H _]. by rewrite H. Qed.

Context `{os : !OS}.

Lemma overrideImage_same_names i p p' : overrideImage i p = Ok p' → same_names p' p.
Proof. unfold overrideImage. case_bool_decide; [apply setImage_same_names|by intros [= <-]]. Qed.

Lemma useInstallImage_same_names i p p' : useInstallImage i p = Ok p' → same_names p' p.
Proof.
  unfold useInstallImage. destruct (_ && _); [|by intros [= <-]]. case_bool_decide; [done|].
  intros Hu. apply bind_Ok_inv in Hu as (r & _ & [= <-]).
  by rewrite !store_same_names.
Qed.

End lemmas.

(** ** What initialisation guarantees *)

Section guarantees.
Context `{os : !OS, merge2 : !Merge2, wyaml : !WorkloadYaml, own : !Ownership}.

(** The custom resource has no patch of its own for the workload. *)
Definition no_patch (b : api.Backstage) : Prop :=
  ∀ d, api.spec_Deployment (api.Spec b) = Some d → api.Patch d = None.

Definition requestedKind (b : api.Backstage) : string :=
  match api.spec_Deployment (api.Spec b) with
  | Some d => api.bd_Kind d
  | None => ""
  end.

Lemma setDeployment_no_patch b w w' :
  no_patch b → setDeployment b w = Ok w' → initialised b w →
  initialised b w' ∧ same_names (podSpec w') (podSpec w) ∧ PodObjectMeta w' = PodObjectMeta w ∧ Meta w' = Meta w ∧
  workloadKind w' = if bool_decide (requestedKind b = "") then workloadKind w else requestedKind b.
Proof.
  unfold setDeployment, no_patch, requestedKind. intros Hnp Hs Hi. apply bind_Ok_inv in Hs as (w1 & H1 & H2).
  assert (initialised b w1 ∧ podSpec w1 = podSpec w ∧ PodObjectMeta w1 = PodObjectMeta w ∧ Meta w1 = Meta w ∧
    workloadKind w1 = if bool_decide (match api.spec_Deployment (api.Spec b) with Some d => api.bd_Kind d | None => "" end = "")
      then workloadKind w else match api.spec_Deployment (api.Spec b) with Some d => api.bd_Kind d | None => "" end)
    as (Hi1 & Hp1 & Hm1 & Hmeta1 & Hk1).
  { destruct (api.spec_Deployment _) as [d|]; [|by injection H1 as <-].
    rewrite (Hnp d eq_refl) in H1. apply bind_Ok_inv in H1 as (w2 & H1 & [= <-]).
    destruct (decide (api.bd_Kind d = "")) as [Hk|Hne].
    { rewrite Hk in *. rewrite bool_decide_eq_false_2 in H1 by auto. by injection H1 as <-. }
    rewrite bool_decide_eq_true_2 in H1 by done. apply wrapErr_Ok_inv in H1.
    pose proof (ConvertTo_initialised _ _ _ _ H1 Hi) as Hi'. apply ConvertTo_Ok in H1 as (? & ? & ? & ? & _).
    by rewrite bool_decide_eq_false_2. }
  destruct (api.spec_Application _) as [app|]; [|injection H2 as <-; by rewrite Hp1].
  apply withPod_Ok in H2 as (p & Hp & ->). apply wrapErr_Ok_inv, addExtraEnvs_same_names in Hp.
  rewrite podSpec_set, podMeta_podSpec, meta_podSpec. rewrite Hp1 in Hp.
  split_and!; [by apply setPodSpec_initialised|done..|]. rewrite <- Hk1. by destruct w1.
Qed.

(** The steps of [addDeployment] before the patch *)
Lemma addDeployment_inv hash b config d :
  addDeployment hash b config = Ok d →
  ∃ o w0 w1, config = Some (ConfObject o) ∧ CreateDeployable o = Ok w0 ∧
    initialised b w1 ∧ same_names (podSpec w1) (podSpec w0) ∧
    BackstageContainerName ∈ c_Name <$> Containers (podSpec w0) ∧
    map_lookup (Annotations (PodObjectMeta w1)) ExtConfigHashAnnotation = Some hash ∧
    Annotations (Meta w1) = Annotations (Meta w0) ∧
    workloadKind w1 = workloadKind w0 ∧
    (IsOperatorDPProcessing = true →
     dynamicPluginInitContainerName ∈ c_Name <$> InitContainers (podSpec w0) → Getenv InstallDpImageEnvVar ≠ "") ∧
    setDeployment b w1 = Ok (deployable d).
Proof.
  unfold addDeployment. destruct config as [[o|mo]|]; [|intros H'; by inv_ok|done].
  intros Ha. apply bind_Ok_inv in Ha as (w0 & H0%wrapErr_Ok_inv & Ha).
  apply bind_Ok_inv in Ha as (w & Hm & Ha).
  pose proof (deploymentMetaInfo_spec _ _ _ Hm) as (Hi & Hp & _ & Hma).
  assert (workloadKind w = workloadKind w0) as Hk.
  { clear -Hm. unfold deploymentMetaInfo, setMatchLabel in Hm. destruct w0; simpl in Hm; inv_ok; done. }
  case_bool_decide as Hidx; [done|].
  destruct (setHashAnnotation_spec b hash w Hi) as (Hi' & Hp' & Hh & Hma').
  set (w' := setHashAnnotation hash w) in *.
  apply bind_Ok_inv in Ha as (w2 & H2 & Ha). apply withPod_Ok in H2 as (p2 & H2 & ->).
  apply bind_Ok_inv in Ha as (w3 & H3 & Ha). apply withPod_Ok in H3 as (p3 & H3 & ->).
  apply bind_Ok_inv in Ha as (w4 & H4 & Ha). injection Ha as <-. cbn [deployable].
  rewrite podSpec_set in H3.
  pose proof (overrideImage_same_names _ _ _ H2) as Hn2. pose proof (useInstallImage_same_names _ _ _ H3) as Hn3.
  exists o, w0, (setPodSpec p3 (setPodSpec p2 w')). split_and!; [done|done|..].
  - by do 2 apply setPodSpec_initialised.
  - rewrite podSpec_set, Hn3, Hn2, Hp', Hp. done.
  - apply container_is_Ok. unfold container. rewrite <- Hp. by rewrite bool_decide_eq_false_2.
  - by rewrite !podMeta_podSpec.
  - by rewrite !meta_podSpec, Hma', Hma.
  - rewrite <- Hk. unfold w', setHashAnnotation. by destruct w.
  - intros Hdp Hin. unfold useInstallImage in H3. rewrite Hdp in H3. cbn [andb] in H3.
    rewrite bool_decide_eq_true_2 in H3; [by case_bool_decide|].
    unfold DynamicPluginsInitContainer. rewrite Hp', Hp.
    destruct (list_find _ (InitContainers (podSpec w0))) as [[i c]|] eqn:E; [lia|].
    by apply list_find_hasName_None in E.
  - done.
Qed.

(** C32. Without a patch in the custom resource the backend workload is of the
    requested kind, owned by the resource and named after it; its selector and
    its pods carry the same app label, the pods carry the hash of the external
    configuration, and the backend container is there. *)
Theorem addDeployment_initialises hash b config d :
  no_patch b → addDeployment hash b config = Ok d →
  initialised b (deployable d) ∧
  map_lookup (Annotations (PodObjectMeta (deployable d))) ExtConfigHashAnnotation = Some hash ∧
  BackstageContainerName ∈ c_Name <$> Containers (podSpec (deployable d)) ∧
  (requestedKind b ≠ "" → workloadKind (deployable d) = requestedKind b).
Proof.
  intros Hnp (o & w0 & w1 & -> & H0 & Hi & Hn & Hb & Hh & _ & Hk & _ & Hs)%addDeployment_inv.
  destruct (setDeployment_no_patch _ _ _ Hnp Hs Hi) as (Hi' & Hn' & Hm' & _ & Hk').
  split_and!; [done|by rewrite Hm'| |].
  - eapply same_names_backend; [exact Hn'|]. by eapply same_names_backend.
  - intros Hne. by rewrite Hk', bool_decide_eq_false_2.
Qed.

(** Initialisation succeeds only for a Deployment or a StatefulSet with a
    backend container; with the operator's own plugin processing and a plugin
    init container it also needs the image for it. *)
Theorem addDeployment_requires hash b config d :
  addDeployment hash b config = Ok d →
  ∃ o, config = Some (ConfObject o) ∧
    ((∃ x, o = KDeployment x ∧ BackstageContainerName ∈ c_Name <$> Containers (t_Spec (d_Template x))) ∨
     (∃ x, o = KStatefulSet x ∧ BackstageContainerName ∈ c_Name <$> Containers (t_Spec (s_Template x)))) ∧
    (IsOperatorDPProcessing = true →
     (∃ c, c_Name c = dynamicPluginInitContainerName ∧
       match o with
       | KDeployment x => c ∈ InitContainers (t_Spec (d_Template x))
       | KStatefulSet x => c ∈ InitContainers (t_Spec (s_Template x))
       | _ => False
       end) → Getenv InstallDpImageEnvVar ≠ "").
Proof.
  intros (o & w0 & w1 & -> & H0 & _ & _ & Hb & _ & _ & _ & Hdp & _)%addDeployment_inv.
  exists o. split; [done|]. destruct o; try done; injection H0 as <-; simpl in *; (split; [eauto|]);
    intros Hp (c & Hcn & Hc); (apply Hdp; [done|]); rewrite <- Hcn; by apply list_elem_of_fmap_2.
Qed.

End guarantees.

Section hash_and_update.
Context `{os : !OS, merge2 : !Merge2, wyaml : !WorkloadYaml, own : !Ownership}.

(** The hash of the external configuration is written on the pods only:
    the annotations of the workload itself are those of its configuration. *)
Theorem addDeployment_hash_not_on_object hash b config d :
  no_patch b → addDeployment hash b config = Ok d →
  ∃ o, config = Some (ConfObject o) ∧ Annotations (Meta (deployable d)) = Annotations (objectMeta o).
Proof.
  intros Hnp (o & w0 & w1 & -> & H0 & Hi & _ & _ & _ & Ha & _ & _ & Hs)%addDeployment_inv.
  destruct (setDeployment_no_patch _ _ _ Hnp Hs Hi) as (_ & _ & _ & Hm & _).
  exists o. split; [done|]. rewrite Hm, Ha. by destruct o; simplify_eq/=.
Qed.

(** The secret the backend reads its database password from *)
Definition effectiveSecret (b : api.Backstage) (dbSecret : option Secret) : option string :=
  if api.IsAuthSecretSpecified (api.Spec b) then Some (authSecretName b)
  else (λ s, Name (sec_Meta s)) <$> dbSecret.

Lemma updateDeployment_eq b sec d :
  updateDeployment b sec d =
    w ← match effectiveSecret b sec with
        | Some s => wrapErr "can not add env vars from db secret"
            (withPod (addEnvVarsFrom filterNone SecretObjectKind s "") (deployable d))
        | None => Ok (deployable d)
        end;
    Ok (mkBackstageDeployment
      (if bool_decide (api.bsAnnotation b IdleAnnotation = "true") then setSpecReplicas (Some 0%Z) w else w)).
Proof.
  unfold updateDeployment, effectiveSecret. destruct (api.IsAuthSecretSpecified _).
  - destruct (wrapErr _ _); simpl; [|done..]. by case_bool_decide.
  - destruct sec; simpl; [destruct (wrapErr _ _); simpl; [|done..]|]; by case_bool_decide.
Qed.

Lemma addSecret_backend p s :
  addEnvVarsFrom filterNone SecretObjectKind s "" p =
    r ← container p; Ok (store r (λ c, c <| c_EnvFrom ::= λ l, l ++ [SecretRef s] |>) p).
Proof.
  unfold addEnvVarsFrom, getContainers. cbn [filterContainerNames]. simpl.
  destruct (container p) as [r|e|w] eqn:E; [done| |done]. by apply container_not_Err in E.
Qed.

(** C33. Finishing the workload adds the database secret, if there is one, to
    the variables of the backend container and nothing to the others, and an
    idled resource gets zero replicas; the object stays initialised. *)
Theorem updateDeployment_effect b sec d d' :
  updateDeployment b sec d = Ok d' →
  SpecReplicas (deployable d') =
    (if bool_decide (api.bsAnnotation b IdleAnnotation = "true") then Some 0%Z else SpecReplicas (deployable d)) ∧
  (initialised b (deployable d) → initialised b (deployable d')) ∧
  ∀ r, load (podSpec (deployable d')) r =
    match effectiveSecret b sec with
    | Some s =>
        if decide (container (podSpec (deployable d)) = Ok r)
        then (λ c, c <| c_EnvFrom ::= λ l, l ++ [SecretRef s] |>) <$> load (podSpec (deployable d)) r
        else load (podSpec (deployable d)) r
    | None => load (podSpec (deployable d)) r
    end.
Proof.
  rewrite updateDeployment_eq. intros Hu. apply bind_Ok_inv in Hu as (w & Hw & Hu). apply (inj Ok) in Hu as <-. cbn [deployable].
  assert (∀ w, podSpec (if bool_decide (api.bsAnnotation b IdleAnnotation = "true") then setSpecReplicas (Some 0%Z) w else w)
    = podSpec w) as Hp by (intros w1; case_bool_decide; [apply podSpec_replicas|done]).
  assert (∀ w, initialised b w → initialised b (if bool_decide (api.bsAnnotation b IdleAnnotation = "true")
    then setSpecReplicas (Some 0%Z) w else w)) as Hi
    by (intros w1 Hi; case_bool_decide; [by apply setSpecReplicas_initialised|done]).
  rewrite Hp. destruct (effectiveSecret b sec) as [s|].
  - apply wrapErr_Ok_inv, withPod_Ok in Hw as (p & Hc & ->). rewrite addSecret_backend in Hc.
    apply bind_Ok_inv in Hc as (r & Hr & Hc). apply (inj Ok) in Hc as <-. split_and!.
    + case_bool_decide; [by rewrite replicas_set|by rewrite replicas_podSpec].
    + intros H. by apply Hi, setPodSpec_initialised.
    + intros r'. rewrite podSpec_set, load_store, Hr. repeat case_decide; congruence.
  - injection Hw as <-. split_and!; [|by apply Hi|done]. case_bool_decide; [apply replicas_set|done].
Qed.

(** C34. The backend container is looked up again after the patch, without a
    check: when the patched pod has none and there is a database secret, the
    reconciler panics. *)
Theorem updateDeployment_panics b sec d s :
  effectiveSecret b sec = Some s →
  is_Panic (updateDeployment b sec d) = true ↔
  BackstageContainerName ∉ c_Name <$> Containers (podSpec (deployable d)).
Proof.
  intros Hs. rewrite updateDeployment_eq, Hs. unfold withPod. rewrite addSecret_backend.
  rewrite <- container_is_Ok. destruct (container _) as [r|e|w] eqn:E; simpl; [|by apply container_not_Err in E|].
  - split; [done|]. by intros [].
  - split; [by intros _|done].
Qed.

End hash_and_update.

(** A marshaller that keeps nothing of a workload but its kind, and a merge
    that takes the patch, for evaluating the model. *)
Definition example_deployment : Deployment :=
  emptyDeployment <| d_Type := mkTypeMeta "apps/v1" "Deployment" |> <| d_Template ::= λ t, t <| t_Spec := example_pod |> |>.
Definition Merge2_patch : Merge2 := {| MergeStrings src dest o := Ok src |}.
Definition WorkloadYaml_example : WorkloadYaml := {|
  MarshalObject o := Ok (goType o);
  UnmarshalDeployment t := if bool_decide (t = "no containers") then Ok emptyDeployment else Ok example_deployment;
  UnmarshalStatefulSet t := Ok emptyStatefulSet
|}.
Definition OS_empty : OS := OS_of ∅ ∅ ∅.

Section witnesses.
#[local] Existing Instances Merge2_patch WorkloadYaml_example OS_empty Ownership_set.

Definition example_added : outcome BackstageDeployment :=
  addDeployment "hash" example_bs (Some (ConfObject (KDeployment example_deployment))).
Definition example_added_deployment : BackstageDeployment :=
  match example_added with Ok d => d | _ => mkBackstageDeployment (WDeployment emptyDeployment) end.

Lemma example_no_patch : no_patch example_bs.
Proof. by intros d Hd. Qed.

Lemma addDeployment_initialises_witness : initialised example_bs (deployable example_added_deployment).
Proof.
  destruct (addDeployment_initialises "hash" example_bs (Some (ConfObject (KDeployment example_deployment)))
    example_added_deployment) as [H _].
  - apply example_no_patch.
  - by vm_compute.
  - exact H.
Defined.

Lemma addDeployment_requires_witness :
  ∃ o, Some (ConfObject (KDeployment example_deployment)) = Some (ConfObject o).
Proof.
  destruct (addDeployment_requires "hash" example_bs (Some (ConfObject (KDeployment example_deployment)))
    example_added_deployment) as (o & Ho & _).
  - by vm_compute.
  - by exists o.
Defined.

Lemma addDeployment_hash_not_on_object_witness :
  Annotations (Meta (deployable example_added_deployment)) = None.
Proof.
  destruct (addDeployment_hash_not_on_object "hash" example_bs (Some (ConfObject (KDeployment example_deployment)))
    example_added_deployment) as (o & Ho & Ha).
  - apply example_no_patch.
  - by vm_compute.
  - injection Ho as <-. exact Ha.
Defined.

Definition example_secret : Secret := emptySecret <| sec_Meta ::= λ m, m <| Name := "backstage-psql-secret-bs" |> |>.

Lemma updateDeployment_effect_witness :
  ∃ d', updateDeployment example_bs (Some example_secret) example_added_deployment = Ok d' ∧
    SpecReplicas (deployable d') = None.
Proof.
  destruct (updateDeployment example_bs (Some example_secret) example_added_deployment) as [d'|e|w] eqn:E; [|done|done].
  exists d'. split; [done|]. destruct (updateDeployment_effect _ _ _ _ E) as [-> _]. by vm_compute.
Defined.

(** A patch can drop the backend container: initialisation accepts it. *)
Definition example_bs_patched : api.Backstage :=
  api.mkBackstage (api.bs_Meta example_bs)
    (api.mkBackstageSpec None None None (api.mkMonitoring false)
      (Some (api.mkBackstageDeployment (Some "no containers") "")) None) (api.Status example_bs).

Lemma updateDeployment_panics_witness :
  ∃ d, addDeployment "hash" example_bs_patched (Some (ConfObject (KDeployment example_deployment))) = Ok d ∧
    is_Panic (updateDeployment example_bs_patched (Some example_secret) d) = true.
Proof.
  destruct (addDeployment "hash" example_bs_patched (Some (ConfObject (KDeployment example_deployment)))) as [d|e|w] eqn:E;
    [|by vm_compute in E..].
  exists d. split; [done|]. apply (updateDeployment_panics _ _ _ "backstage-psql-secret-bs"); [done|].
  vm_compute in E. injection E as <-. apply (bool_decide_unpack _). by vm_compute.
Defined.

End witnesses.
