(* ===== verification/PluginConfig.v ===== *)
(** * Plugin configurations (pkg/model/appconfig.go)

    A plugin configuration is a YAML value as gopkg.in/yaml.v2 decodes it into
    [map[string]interface{}]: below the top level a mapping has the Go type
    [map[interface{}]interface{}], and only [toStringKeyedMap] turns it into a
    [map[string]interface{}].  [mergePluginConfigs] merges the configurations
    of the enabled plugins. *)

From S2P Require Import Prelude.
From stdpp Require Import options.

(** An [interface{}] value *)
Inductive any :=
  | AString (s : string)
  | AOther (raw : string)
  | AList (l : list any)
  | AStrMap (m : gmap string any)
  | AAnyMap (m : list (any * any)).

(** [result[key.(string)] = val] for every entry; the type assertion panics. *)
Definition setEntry (result : gmap string any) (e : any * any) : outcome (gmap string any) :=
  match e.1 with
  | AString k => Ok (<[k := e.2]> result)
  | _ => Panic "interface conversion: interface {} is not string"
  end.

Definition toStringKeyedMap (v : any) : outcome (option (gmap string any)) :=
  match v with
  | AStrMap m => Ok (Some m)
  | AAnyMap m => result ← foldM setEntry ∅ m; Ok (Some result)
  | _ => Ok None
  end.

(** How deep the mappings of a value are nested. *)
Fixpoint depth (v : any) : nat :=
  match v with
  | AStrMap m => S (map_fold (λ _ v n, depth v `max` n) 0 m)
  | AAnyMap m => S (foldr (λ e n, depth e.2 `max` n) 0 m)
  | _ => 0
  end.

Definition mdepth (m : gmap string any) : nat := map_fold (λ _ v n, depth v `max` n) 0 m.

(** Whether every mapping, at any depth, has strings for keys. *)
Definition isStringKey (v : any) : bool := match v with AString _ => true | _ => false end.
Fixpoint string_keyed (v : any) : bool :=
  match v with
  | AStrMap m => map_fold (λ _ v b, string_keyed v && b) true m
  | AAnyMap m => forallb (λ e, isStringKey e.1 && string_keyed e.2) m
  | _ => true
  end.
Definition mstring_keyed (m : gmap string any) : bool := map_fold (λ _ v b, string_keyed v && b) true m.

Section merge.
Context `{mo_ : !MapOrder}.

(** What becomes of one key: the values of [dst] and [src] merged when both
    are mappings, and otherwise that of [src], its mapping string-keyed. *)
Definition mergeValue (merge : gmap string any → gmap string any → outcome (gmap string any))
    (dstVal : option any) (srcVal : any) : outcome any :=
  srcMap ← toStringKeyedMap srcVal;
  dstMap ← match dstVal with Some d => toStringKeyedMap d | None => Ok None end;
  match srcMap, dstMap with
  | Some s, Some d => d ← merge d s; Ok (AStrMap d)
  | Some s, None => Ok (AStrMap s)
  | None, _ => Ok srcVal
  end.

Definition mergeEntry (merge : gmap string any → gmap string any → outcome (gmap string any))
    (dst : gmap string any) (e : string * any) : outcome (gmap string any) :=
  v ← mergeValue merge (dst !! e.1) e.2;
  Ok (<[e.1 := v]> dst).

(** The recursion goes one mapping deeper in [src] at each call: more fuel
    than [mdepth src] is enough. *)
Fixpoint mergePluginConfigs (fuel : nat) (dst src : gmap string any) : outcome (gmap string any) :=
  match fuel with
  | 0 => Panic "out of fuel"
  | S fuel => foldM (mergeEntry (mergePluginConfigs fuel)) dst (range src)
  end.

End merge.

(** ** Lemmas *)

Section lemmas.

Lemma mdepth_lookup m k v : m !! k = Some v → depth v ≤ mdepth m.
Proof.
  unfold mdepth. intros Hk. revert Hk.
  apply (map_fold_weak_ind (λ n m, m !! k = Some v → depth v ≤ n)); [by rewrite lookup_empty|].
  intros i x m' n Hi IH. destruct (decide (i = k)) as [->|Hne].
  - rewrite lookup_insert_eq. intros [= ->]. lia.
  - rewrite lookup_insert_ne by done. intros H%IH. lia.
Qed.

Lemma mdepth_le m n : (∀ k v, m !! k = Some v → depth v ≤ n) → mdepth m ≤ n.
Proof.
  unfold mdepth. intros H.
  assert (∀ m', m' ⊆ m → map_fold (λ _ v n, depth v `max` n) 0 m' ≤ n) as Hm; [|by apply Hm].
  intros m' Hm'. revert Hm'. apply (map_fold_weak_ind (λ r m', m' ⊆ m → r ≤ n)); [lia|].
  intros i x m0 r Hi IH Hs. assert (m !! i = Some x) as Hx.
  { eapply lookup_weaken; [apply lookup_insert_eq|done]. }
  specialize (H i x Hx). assert (r ≤ n); [|lia].
  apply IH. etrans; [by apply insert_subseteq|done].
Qed.

Lemma mstring_keyed_spec m :
  mstring_keyed m = true ↔ ∀ k v, m !! k = Some v → string_keyed v = true.
Proof.
  unfold mstring_keyed.
  apply (map_fold_weak_ind (λ b m, b = true ↔ ∀ k v, m !! k = Some v → string_keyed v = true)).
  - split; [|done]. intros _ k v. by rewrite lookup_empty.
  - intros i x m' b Hi IH. rewrite andb_true_iff, IH. split.
    + intros [Hx Hm] k v. destruct (decide (i = k)) as [->|Hne].
      * rewrite lookup_insert_eq. by intros [= ->].
      * rewrite lookup_insert_ne by done. apply Hm.
    + intros H. split; [apply (H i); apply lookup_insert_eq|].
      intros k v Hk. apply (H k). rewrite lookup_insert_ne; [done|]. congruence.
Qed.

Lemma setEntries_spec l acc :
  forallb (λ e, isStringKey e.1 && string_keyed e.2) l = true → mstring_keyed acc = true →
  ∃ m, foldM setEntry acc l = Ok m ∧ mstring_keyed m = true.
Proof.
  revert acc. induction l as [|[k v] l IH]; intros acc; [by exists acc|].
  simpl. rewrite !andb_true_iff. intros [[Hk Hv] Hl] Hacc. destruct k as [k| | | |]; [|done..]. cbn [foldM].
  apply IH; [done|]. apply mstring_keyed_spec. intros k' v'. destruct (decide (k = k')) as [->|Hne].
  - rewrite lookup_insert_eq. by intros [= <-].
  - rewrite lookup_insert_ne by done. by apply mstring_keyed_spec.
Qed.

Lemma toStringKeyedMap_total v :
  string_keyed v = true → ∃ r, toStringKeyedMap v = Ok r ∧ ∀ m, r = Some m → mstring_keyed m = true.
Proof.
  destruct v as [s|s|l|m|l]; intros Hv; simpl; try by eexists.
  { exists (Some m). split; [done|]. by intros m' [= <-]. }
  destruct (setEntries_spec l ∅ Hv) as (m & -> & Hm); [by apply mstring_keyed_spec|].
  exists (Some m). split; [done|]. by intros m' [= <-].
Qed.

Lemma toStringKeyedMap_depth v m : toStringKeyedMap v = Ok (Some m) → mdepth m < depth v.
Proof.
  destruct v as [s|s|l|m'|l]; simpl; intros H; try done.
  - simplify_eq. apply Nat.lt_succ_diag_r.
  - inv_ok. apply Nat.lt_succ_r, mdepth_le. clear -H0. rename H0 into Hf.
    assert (∀ acc n, foldM setEntry acc l = Ok m → (∀ k v, acc !! k = Some v → depth v ≤ n) →
      ∀ k v, m !! k = Some v → depth v ≤ foldr (λ e n, depth e.2 `max` n) n l) as Hl.
    { clear. induction l as [|[k v] l IH]; intros acc n; simpl.
      - intros [= <-] Ha k v. apply Ha.
      - intros Hf Ha k' v' Hk'. destruct k as [k| | | |]; try done. simpl in Hf.
        assert (foldr (λ e n, depth e.2 `max` n) (depth v `max` n) l ≤ depth v `max` foldr (λ e n, depth e.2 `max` n) n l) as Hle.
        { clear. induction l; simpl; lia. }
        etrans; [|exact Hle]. eapply IH; [exact Hf| |exact Hk'].
        intros k0 v0. destruct (decide (k = k0)) as [->|Hne].
        + rewrite lookup_insert_eq. intros [= ->]. lia.
        + rewrite lookup_insert_ne by done. intros Hv0%Ha. lia. }
    intros k v. apply (Hl ∅ 0 Hf). intros k0 v0. by rewrite lookup_empty.
Qed.

End lemmas.

(** ** What merging computes *)

Section spec.
Context `{mo_ : !MapOrder}.

Lemma mergeEntries_lookup f l dst res :
  NoDup l.*1 → foldM (mergeEntry f) dst l = Ok res →
  ∀ k, match list_find (λ e, e.1 = k) l with
       | None => res !! k = dst !! k
       | Some (_, e) => ∃ v, mergeValue f (dst !! k) e.2 = Ok v ∧ res !! k = Some v
       end.
Proof.
  revert dst. induction l as [|[k0 v0] l IH]; intros dst Hnd Hm k; simpl in *.
  { by injection Hm as <-. }
  apply NoDup_cons in Hnd as [Hk0 Hnd].
  apply bind_Ok_inv in Hm as (dst' & Hd & Hm). unfold mergeEntry in Hd. simpl in Hd.
  apply bind_Ok_inv in Hd as (v & Hv & [= <-]). specialize (IH _ Hnd Hm k).
  destruct (decide (k0 = k)) as [->|Hne].
  - assert (list_find (λ e : string * any, e.1 = k) l = None) as Hn.
    { apply list_find_None, Forall_forall. intros [k' v'] Hin Hk. simpl in Hk. subst. apply Hk0.
      apply list_elem_of_fmap. by eexists (_, _). }
    rewrite Hn in IH. exists v. rewrite IH. split; [done|apply lookup_insert_eq].
  - rewrite lookup_insert_ne in IH by done.
    destruct (list_find (λ e : string * any, e.1 = k) l) as [[]|]; exact IH.
Qed.

Lemma range_find (src : gmap string any) k :
  snd <$> (snd <$> list_find (λ e : string * any, e.1 = k) (range src)) = src !! k.
Proof.
  destruct (list_find _ (range src)) as [[i [k' v]]|] eqn:E; simpl.
  - apply list_find_Some in E as (Hi & <- & _). symmetry. apply elem_of_range.
    by eapply list_elem_of_lookup_2.
  - apply list_find_None in E. symmetry. apply eq_None_not_Some. intros [v Hv%elem_of_range].
    rewrite Forall_forall in E. by apply (E _ Hv).
Qed.

(** Each key of the result in terms of that key of the two maps. *)
Lemma mergePluginConfigs_key n dst src res :
  mergePluginConfigs (S n) dst src = Ok res →
  ∀ k, match src !! k with
       | None => res !! k = dst !! k
       | Some s => ∃ v, mergeValue (mergePluginConfigs n) (dst !! k) s = Ok v ∧ res !! k = Some v
       end.
Proof.
  intros Hm k. pose proof (mergeEntries_lookup _ _ _ _ (NoDup_fst_range src) Hm k) as H.
  rewrite <- range_find. by destruct (list_find _ (range src)) as [[i [k' v]]|].
Qed.

Lemma mergeValue_total f d s :
  (∀ sm, toStringKeyedMap s = Ok (Some sm) → ∀ dm, mstring_keyed sm = true → mstring_keyed dm = true →
     ∃ r, f dm sm = Ok r ∧ mstring_keyed r = true) →
  string_keyed s = true → (∀ v, d = Some v → string_keyed v = true) →
  ∃ v, mergeValue f d s = Ok v ∧ string_keyed v = true.
Proof.
  intros Hf Hs Hd. unfold mergeValue.
  destruct (toStringKeyedMap_total s Hs) as (sr & Hsr & Hsk). rewrite Hsr. simpl.
  assert (∃ dr, (match d with Some d => toStringKeyedMap d | None => Ok None end) = Ok dr ∧
    ∀ m, dr = Some m → mstring_keyed m = true) as (dr & -> & Hdk).
  { destruct d as [d|]; [by apply toStringKeyedMap_total, Hd|by exists None]. }
  simpl. destruct sr as [sm|]; [|by exists s].
  specialize (Hsk sm eq_refl). destruct dr as [dm|]; [|by exists (AStrMap sm)].
  destruct (Hf sm Hsr dm Hsk (Hdk dm eq_refl)) as (r & -> & Hr). by exists (AStrMap r).
Qed.

(** C23. With strings for keys the merge never panics, and fuel beyond the
    depth of the configuration is enough. *)
Theorem mergePluginConfigs_total n dst src :
  mdepth src < n → mstring_keyed dst = true → mstring_keyed src = true →
  ∃ res, mergePluginConfigs n dst src = Ok res ∧ mstring_keyed res = true.
Proof.
  revert dst src. induction n as [|n IH]; intros dst src Hn Hd Hs; [lia|]. simpl.
  assert (∀ l dst, mstring_keyed dst = true → (∀ k v, (k, v) ∈ l → string_keyed v = true ∧ depth v ≤ n) →
    ∃ res, foldM (mergeEntry (mergePluginConfigs n)) dst l = Ok res ∧ mstring_keyed res = true) as Hl.
  { clear dst src Hn Hd Hs. induction l as [|[k v] l IHl]; intros dst Hd Hl; [by exists dst|]. simpl.
    destruct (Hl k v (list_elem_of_here _ _)) as [Hv Hdv].
    destruct (mergeValue_total (mergePluginConfigs n) (dst !! k) v) as (v' & Hm & Hv').
    - intros sm Hsm dm H1 H2. apply IH; [|done..]. apply toStringKeyedMap_depth in Hsm. lia.
    - done.
    - intros v0 Hv0. by eapply mstring_keyed_spec.
    - assert (mergeEntry (mergePluginConfigs n) dst (k, v) = Ok (<[k := v']> dst)) as ->
        by (unfold mergeEntry; cbn [fst snd]; by rewrite Hm).
      cbn [mbind outcome_bind]. apply IHl.
      + apply mstring_keyed_spec. intros k' w. destruct (decide (k = k')) as [->|Hne].
        * rewrite lookup_insert_eq. by intros [= <-].
        * rewrite lookup_insert_ne by done. by apply mstring_keyed_spec.
      + intros k' w Hin. apply (Hl k' w). by right. }
  apply Hl; [done|]. intros k v Hin%elem_of_range. split.
  - by eapply mstring_keyed_spec.
  - apply mdepth_lookup in Hin. lia.
Qed.

End spec.

(** C24. A key only [src] has, or whose two values are not both mappings, gets
    the value of [src]; a key only [dst] has keeps its value; two mappings are
    merged the same way. *)
Theorem mergePluginConfigs_spec `{mo_ : !MapOrder} n dst src res :
  mergePluginConfigs (S n) dst src = Ok res →
  (∀ k, src !! k = None → res !! k = dst !! k) ∧
  (∀ k s, src !! k = Some s → toStringKeyedMap s = Ok None → res !! k = Some s) ∧
  (∀ k s sm, src !! k = Some s → toStringKeyedMap s = Ok (Some sm) →
     match dst !! k with
     | Some d =>
         match toStringKeyedMap d with
         | Ok (Some dm) => ∃ r, mergePluginConfigs n dm sm = Ok r ∧ res !! k = Some (AStrMap r)
         | _ => res !! k = Some (AStrMap sm)
         end
     | None => res !! k = Some (AStrMap sm)
     end).
Proof.
  intros Hm. pose proof (mergePluginConfigs_key _ _ _ _ Hm) as H. split_and!.
  - intros k Hk. specialize (H k). by rewrite Hk in H.
  - intros k s Hk Hs. specialize (H k). rewrite Hk in H. destruct H as (v & Hv & ->).
    unfold mergeValue in Hv. rewrite Hs in Hv. simpl in Hv. by apply bind_Ok_inv in Hv as (dm & _ & [= ->]).
  - intros k s sm Hk Hs. specialize (H k). rewrite Hk in H. destruct H as (v & Hv & ->).
    unfold mergeValue in Hv. rewrite Hs in Hv. simpl in Hv.
    destruct (dst !! k) as [d|]; [|by injection Hv as <-].
    destruct (toStringKeyedMap d) as [[dm|]|e|w]; simpl in Hv; try done; [|by injection Hv as <-].
    apply bind_Ok_inv in Hv as (r & Hr & [= <-]). by exists r.
Qed.

(** The order in which a run visits the keys does not matter. *)
Theorem mergePluginConfigs_order (o1 o2 : MapOrder) n dst src r1 r2 :
  @mergePluginConfigs o1 n dst src = Ok r1 → @mergePluginConfigs o2 n dst src = Ok r2 → r1 = r2.
Proof.
  revert dst src r1 r2. induction n as [|n IH]; intros dst src r1 r2 H1 H2; [done|].
  apply map_eq. intros k.
  pose proof (@mergePluginConfigs_key o1 _ _ _ _ H1 k) as Hk1.
  pose proof (@mergePluginConfigs_key o2 _ _ _ _ H2 k) as Hk2.
  destruct (src !! k) as [s|]; [|by rewrite Hk1, Hk2].
  destruct Hk1 as (v1 & Hv1 & ->), Hk2 as (v2 & Hv2 & ->). f_equal.
  unfold mergeValue in *. apply bind_Ok_inv in Hv1 as (sm & Hsm & Hv1). rewrite Hsm in Hv2. simpl in Hv2.
  apply bind_Ok_inv in Hv1 as (dm & Hdm & Hv1). rewrite Hdm in Hv2. simpl in Hv2.
  destruct sm as [sm|], dm as [dm|]; try congruence.
  apply bind_Ok_inv in Hv1 as (a1 & Ha1 & [= <-]). apply bind_Ok_inv in Hv2 as (a2 & Ha2 & [= <-]).
  f_equal. by eapply IH.
Qed.

(** A mapping with a key that is not a string makes the merge panic, also
    when nothing needs to be merged. *)
Theorem mergePluginConfigs_panics `{mo_ : !MapOrder} n k l dst :
  Exists (λ e, isStringKey e.1 = false) l →
  is_Panic (mergePluginConfigs (S n) dst {[k := AAnyMap l]}) = true.
Proof.
  intros Hex. simpl.
  assert (range ({[k := AAnyMap l]} : gmap string any) = [(k, AAnyMap l)]) as ->.
  { apply Permutation_singleton_r. rewrite range_perm. by rewrite map_to_list_singleton. }
  simpl. unfold mergeEntry, mergeValue. simpl.
  assert (∀ acc, is_Panic (foldM setEntry acc l) = true) as Hp.
  { clear -Hex. induction Hex as [[a b] l Ha|[a b] l Hl IH]; intros acc; simpl in *.
    - by destruct a.
    - destruct a; simpl; [apply IH|done..]. }
  specialize (Hp ∅). by destruct (foldM setEntry ∅ l).
Qed.

Section witnesses.
#[local] Existing Instance MapOrder_asc.

(** [{proxy: {"/a": x}}] and [{proxy: {"/b": y}}] *)
Definition example_dst : gmap string any := {["proxy" := AAnyMap [(AString "/a", AString "x")]]}.
Definition example_src : gmap string any := {["proxy" := AAnyMap [(AString "/b", AString "y")]]}.
Definition example_merged : gmap string any := {["proxy" := AStrMap {["/a" := AString "x"; "/b" := AString "y"]}]}.

Lemma mergePluginConfigs_total_witness :
  ∃ res, mergePluginConfigs 2 example_dst example_src = Ok res ∧ mstring_keyed res = true.
Proof. apply mergePluginConfigs_total; by vm_compute. Defined.

Lemma mergePluginConfigs_spec_witness :
  ∃ r, mergePluginConfigs 1 {["/a" := AString "x"]} {["/b" := AString "y"]} = Ok r ∧
    example_merged !! "proxy" = Some (AStrMap r).
Proof.
  destruct (mergePluginConfigs_spec 1 example_dst example_src example_merged) as (_ & _ & H); [by vm_compute|].
  exact (H "proxy" (AAnyMap [(AString "/b", AString "y")]) {["/b" := AString "y"]} eq_refl eq_refl).
Defined.

Lemma mergePluginConfigs_order_witness : example_merged = example_merged.
Proof.
  apply (mergePluginConfigs_order MapOrder_asc MapOrder_desc 2 example_dst example_src); by vm_compute.
Defined.

Lemma mergePluginConfigs_panics_witness :
  is_Panic (mergePluginConfigs 1 ∅ {["ports" := AAnyMap [(AOther "8080", AString "http")]]}) = true.
Proof. apply mergePluginConfigs_panics. by left. Defined.

End witnesses.
