(* ===== verification/DynamicPluginsReference.v ===== *)
(** * References to plugins (pkg/model/dynamic-plugins-reference.go)

    How the name of a plugin is read off its package URL, and how the
    references [ref://name] and [...:{{inherit}}] of a user's plugins are
    resolved against the default ones. *)

From S2P Require Import Prelude.
From S2P Require Import GoStrings.
From S2P Require Import PluginConfig.
From stdpp Require Import options.

Record PluginDependency := mkPluginDependency { Ref : string }.
#[export] Instance PluginDependency_eq_dec : EqDecision PluginDependency.
Proof. solve_decision. Defined.

(** A nil slice and an empty one are told apart by the merge: [option]. *)
Record DynaPlugin := mkDynaPlugin {
  Package : string;
  Integrity : string;
  Enabled : option bool;
  Disabled : bool;
  PluginConfig : gomap any;
  Dependencies : option (list PluginDependency)
}.
#[export] Instance DynaPlugin_eta : Eta DynaPlugin := λ r,
  mkDynaPlugin (Package r) (Integrity r) (Enabled r) (Disabled r) (PluginConfig r) (Dependencies r).

Record DynaPluginsConfig := mkDynaPluginsConfig {
  Includes : option (list string);
  Plugins : option (list DynaPlugin)
}.
#[export] Instance DynaPluginsConfig_eta : Eta DynaPluginsConfig := λ r,
  mkDynaPluginsConfig (Includes r) (Plugins r).

Definition packageOnly (p : string) : DynaPlugin := mkDynaPlugin p "" None false None None.

Definition inheritSuffix : string := ":{{inherit}}".
Definition refPrefix : string := "ref://".
Definition ociPrefix : string := "oci://".
Definition httpsPrefix : string := "https://".
Definition httpPrefix : string := "http://".
Definition localPrefix : string := "./".

Definition IsDirectLink (p : string) : bool :=
  strings.HasPrefix p ociPrefix || strings.HasPrefix p httpsPrefix ||
  strings.HasPrefix p httpPrefix || strings.HasPrefix p localPrefix.

(** [for i := len(name) - 1; i >= 0; i--]: the last dash before a digit *)
Definition isDigit (c : ascii) : bool := bool_decide (48 ≤ nat_of_ascii c ≤ 57).

Fixpoint versionIndex (name : list ascii) (i : nat) : option nat :=
  match i with
  | 0 => None
  | S j =>
      match name !! j, name !! (S j) with
      | Some c, Some d => if bool_decide (c = "-"%char) && isDigit d then Some j else versionIndex name j
      | _, _ => versionIndex name j
      end
  end.

Definition stripVersionSuffix (name : string) : string :=
  match versionIndex (chars name) (String.length name) with
  | Some i => slice_to name i
  | None => name
  end.

(** [if idx := strings.LastIndex(s, sub); idx != -1 { s = s[:idx] }] *)
Definition cutLast (s sub : string) : string :=
  match strings.LastIndex s sub with
  | Some idx => slice_to s idx
  | None => s
  end.

Definition PluginName (package : string) : string :=
  let packageURL := cutLast package "!" in
  if strings.HasPrefix packageURL ociPrefix then
    let url := strings.TrimPrefix packageURL ociPrefix in
    let url := cutLast url "@" in
    match strings.LastIndex url "/" with
    | None => ""
    | Some idx =>
        let imageName := slice_from url (S idx) in
        if bool_decide (imageName = "") then "" else cutLast imageName ":"
    end
  else if strings.HasPrefix packageURL httpsPrefix || strings.HasPrefix packageURL httpPrefix then
    let url := strings.TrimPrefix packageURL httpsPrefix in
    let url := strings.TrimPrefix url httpPrefix in
    let url := match strings.LastIndex url "/" with
               | Some idx => slice_from url (S idx)
               | None => url
               end in
    let url := match strings.Index url "?" with
               | Some idx => slice_to url idx
               | None => url
               end in
    let url := strings.TrimSuffix url ".tgz" in
    let url := strings.TrimSuffix url ".tar.gz" in
    stripVersionSuffix url
  else if strings.HasPrefix packageURL localPrefix then
    match strings.LastIndex packageURL "/" with
    | Some idx => slice_from packageURL (S idx)
    | None => packageURL
    end
  else "".

(** The first base plugin of that name *)
Definition lookupByName (basePlugins : list DynaPlugin) (name : string) : option DynaPlugin :=
  snd <$> list_find (λ p, Package p ≠ "" ∧ PluginName (Package p) = name) basePlugins.

Definition resolveInheritReference (packageURL : string) (basePlugins : list DynaPlugin) : outcome string :=
  let '(pluginPath, packageURL) :=
    match strings.LastIndex packageURL "!" with
    | Some idx => (slice_from packageURL idx, slice_to packageURL idx)
    | None => ("", packageURL)
    end in
  let tempPackage := strings.Replace1 packageURL inheritSuffix "" in
  let pluginName := PluginName tempPackage in
  if bool_decide (pluginName = "") then
    Err (Errorf ("cannot resolve {{inherit}} reference: unable to extract plugin name from " +:+ packageURL))
  else
    match lookupByName basePlugins pluginName with
    | Some plugin =>
        let fullURL := Package plugin in
        if bool_decide (pluginPath ≠ "") then Ok (cutLast fullURL "!" +:+ pluginPath) else Ok fullURL
    | None =>
        Err (Errorf ("cannot resolve {{inherit}} reference: no plugin named " +:+ pluginName +:+ " found in default plugins"))
    end.

Definition resolveRefReference (packageURL : string) (basePlugins : list DynaPlugin) : outcome string :=
  let refName := strings.TrimPrefix packageURL refPrefix in
  if bool_decide (refName = "") then
    Err (Errorf ("invalid ref:// reference: empty plugin name in " +:+ packageURL))
  else
    match lookupByName basePlugins refName with
    | Some plugin => Ok (Package plugin)
    | None => Err (Errorf ("cannot resolve ref:// reference: no plugin named " +:+ refName +:+ " found in default plugins"))
    end.

(** The body of the loop of [resolveReferences] *)
Definition resolvePlugin (basePlugins : list DynaPlugin) (plugin : DynaPlugin) : outcome DynaPlugin :=
  if bool_decide (Package plugin = "") then Ok plugin
  else if strings.HasPrefix (Package plugin) refPrefix then
    p ← resolveRefReference (Package plugin) basePlugins;
    Ok (plugin <| Package := p |>)
  else if strings.Contains (Package plugin) inheritSuffix then
    p ← resolveInheritReference (Package plugin) basePlugins;
    Ok (plugin <| Package := p |>)
  else if IsDirectLink (Package plugin) then Ok plugin
  else Err (Errorf ("unsupported package URL format " +:+ Package plugin +:+
         ": must start with oci://, https://, http://, ./ or use ref:// for catalog lookup")).

Definition resolveReferences (plugins basePlugins : list DynaPlugin) : outcome (list DynaPlugin) :=
  collect (resolvePlugin basePlugins) [] plugins.

Example Name_1 : PluginName "oci://quay.io:5000/rhdh/backstage-plugin-techdocs:1.0.0!path" = "backstage-plugin-techdocs".
Proof. by vm_compute. Qed.
Example Name_2 : PluginName "https://example.com/path/backstage-plugin-foo-1.0.0.tgz?x=1" = "backstage-plugin-foo".
Proof. by vm_compute. Qed.
Example Name_3 : PluginName "./dynamic-plugins/dist/backstage-plugin-techdocs" = "backstage-plugin-techdocs".
Proof. by vm_compute. Qed.
Example Name_4 : PluginName "oci://registry-only" = "" ∧ PluginName "npm-package" = "".
Proof. by vm_compute. Qed.
Example strip_1 : stripVersionSuffix "plugin-2-go-1.2.3-beta" = "plugin-2-go".
Proof. by vm_compute. Qed.

(** ** Reading the name off a URL *)

Section names.

(** None of the characters occurs in the string. *)
Definition without (cs : string) (s : string) : Prop := Forall (λ c, c ∉ chars s) (chars cs).

#[export] Instance without_dec cs s : Decision (without cs s).
Proof. unfold without. apply _. Defined.

Lemma without_app cs s t : without cs (s +:+ t) ↔ without cs s ∧ without cs t.
Proof.
  unfold without. rewrite <- Forall_and. apply Forall_iff. intros c. rewrite chars_app, elem_of_app. tauto.
Qed.

Lemma without_char c cs s : c ∈ chars cs → without cs s → c ∉ chars s.
Proof. intros Hc Hw. unfold without in Hw. rewrite Forall_forall in Hw. by apply Hw. Qed.

Lemma cutLast_app s c t : c ∉ chars t → cutLast (s +:+ String c t) (String c "") = s.
Proof. intros H. unfold cutLast. rewrite strings.LastIndex_byte_app by done. apply strings.slice_to_app. Qed.

Lemma cutLast_id s c : c ∉ chars s → cutLast s (String c "") = s.
Proof. intros H. unfold cutLast. by apply strings.LastIndex_byte_None in H as ->. Qed.

Lemma slice_from_last s c t : slice_from (s +:+ String c t) (S (String.length s)) = t.
Proof.
  replace (S (String.length s)) with (String.length s + 1) by lia. rewrite strings.slice_from_app.
  unfold slice_from. simpl. apply str_chars.
Qed.

(** What may follow the name of an OCI image: a tag, a digest, or nothing. *)
Inductive version_suffix : string → Prop :=
  | NoVersion : version_suffix ""
  | Tag tag : without "/:@!" tag → version_suffix (":" +:+ tag)
  | Digest digest : without "@!" digest → version_suffix ("@" +:+ digest).

(** The path inside the image a package may be followed by. *)
Inductive path_suffix : string → Prop :=
  | NoPath : path_suffix ""
  | Path p : without "!" p → path_suffix ("!" +:+ p).

Lemma cutLast_path s path : without "!" s → path_suffix path → cutLast (s +:+ path) "!" = s.
Proof.
  intros Hs [|p Hp].
  - rewrite string_app_nil_r. apply cutLast_id. eapply without_char; [|exact Hs]. by left.
  - apply cutLast_app. eapply without_char; [|exact Hp]. by left.
Qed.

Lemma version_suffix_no_path v : version_suffix v → without "!" v.
Proof.
  intros [|t Ht|d Hd]; [by apply (bool_decide_unpack _)|..]; rewrite without_app;
    (split; [by apply (bool_decide_unpack _)|]); apply Forall_singleton.
  - eapply without_char; [|exact Ht]. by apply (bool_decide_unpack _).
  - eapply without_char; [|exact Hd]. by apply (bool_decide_unpack _).
Qed.

(** The end of the OCI case of [PluginName] *)
Lemma image_name pre n w :
  n ≠ "" → without "/:" n → without "/" w → (w = "" ∨ ∃ t, w = ":" +:+ t ∧ without ":" t) →
  match strings.LastIndex (pre +:+ "/" +:+ n +:+ w) "/" with
  | None => ""
  | Some idx =>
      let imageName := slice_from (pre +:+ "/" +:+ n +:+ w) (S idx) in
      if bool_decide (imageName = "") then "" else cutLast imageName ":"
  end = n.
Proof.
  intros Hne Hn Hw Ht. change (pre +:+ "/" +:+ n +:+ w) with (pre +:+ String "/" (n +:+ w)).
  rewrite strings.LastIndex_byte_app.
  2: { rewrite chars_app, not_elem_of_app. split; (eapply without_char; [|eassumption]); by apply (bool_decide_unpack _). }
  rewrite slice_from_last. cbn zeta. rewrite bool_decide_eq_false_2 by (destruct n; done).
  destruct Ht as [->|(t & -> & Ht)].
  - rewrite string_app_nil_r. apply cutLast_id. eapply without_char; [|exact Hn]. by apply (bool_decide_unpack _).
  - apply cutLast_app. eapply without_char; [|exact Ht]. by left.
Qed.

Lemma PluginName_cut package url n :
  cutLast package "!" = "oci://" +:+ url →
  match strings.LastIndex (cutLast url "@") "/" with
  | None => ""
  | Some idx =>
      let imageName := slice_from (cutLast url "@") (S idx) in
      if bool_decide (imageName = "") then "" else cutLast imageName ":"
  end = n → PluginName package = n.
Proof.
  intros Hc Hn. unfold PluginName. rewrite Hc. change ociPrefix with "oci://".
  by rewrite strings.HasPrefix_app, strings.TrimPrefix_app.
Qed.

Lemma without_sub cs cs' s : chars cs ⊆ chars cs' → without cs' s → without cs s.
Proof. unfold without. rewrite !Forall_forall. intros Hs H c Hc. by apply H, Hs. Qed.

(** An image without tag and digest *)
Lemma PluginName_oci_plain pre n :
  without "@!" pre → n ≠ "" → without "/:@!" n → PluginName ("oci://" +:+ pre +:+ "/" +:+ n) = n.
Proof.
  intros Hpre Hne Hn. apply (PluginName_cut _ (pre +:+ "/" +:+ n)).
  - apply cutLast_id. eapply (without_char "!"%char "!"); [by left|]. rewrite !without_app.
    split_and!; try (by apply (bool_decide_unpack _)).
    all: eapply without_sub; [|eassumption]; by apply (bool_decide_unpack _).
  - rewrite cutLast_id.
    + pose proof (image_name pre n "" Hne) as Himg. rewrite string_app_nil_r in Himg.
      apply Himg; [|by apply (bool_decide_unpack _)|by left].
      eapply without_sub; [|exact Hn]; by apply (bool_decide_unpack _).
    + apply (without_char "@"%char "@"); [by left|]. rewrite !without_app.
      split_and!; try (by apply (bool_decide_unpack _)).
      all: eapply without_sub; [|eassumption]; by apply (bool_decide_unpack _).
Qed.

(** The name of an OCI package is the last component of its image, in
    any registry and under any path, with a tag, a digest or none, and with or
    without a path inside the image. *)
Theorem PluginName_oci pre n v path :
  without "@!" pre → n ≠ "" → without "/:@!" n → version_suffix v → path_suffix path →
  PluginName ("oci://" +:+ pre +:+ "/" +:+ n +:+ v +:+ path) = n.
Proof.
  intros Hpre Hne Hn Hv Hpath.
  assert (cutLast ("oci://" +:+ pre +:+ "/" +:+ n +:+ v +:+ path) "!" = "oci://" +:+ pre +:+ "/" +:+ n +:+ v) as Hcut.
  { replace ("oci://" +:+ pre +:+ "/" +:+ n +:+ v +:+ path) with (("oci://" +:+ pre +:+ "/" +:+ n +:+ v) +:+ path)
      by by rewrite !string_app_assoc. apply cutLast_path; [|done]. rewrite !without_app.
    split_and!; try (by apply (bool_decide_unpack _)); [| |by apply version_suffix_no_path].
    all: eapply without_sub; [|eassumption]; by apply (bool_decide_unpack _). }
  apply (PluginName_cut _ _ _ Hcut).
  assert (without "/:" n) as Hn1 by (eapply without_sub; [|exact Hn]; by apply (bool_decide_unpack _)).
  assert (without "@" pre) as Hp1 by (eapply without_sub; [|exact Hpre]; by apply (bool_decide_unpack _)).
  assert (without "@" n) as Hn2 by (eapply without_sub; [|exact Hn]; by apply (bool_decide_unpack _)).
  assert (without "@" "/") as Hs by by apply (bool_decide_unpack _).
  destruct Hv as [|t Ht|d Hd].
  - rewrite cutLast_id.
    + apply image_name; [done..|by apply (bool_decide_unpack _)|by left].
    + apply (without_char "@"%char "@"); [by left|]. rewrite !without_app. by split_and!; [..|apply (bool_decide_unpack _)].
  - assert (without "@" t ∧ without "/" t ∧ without ":" t) as (Ht1 & Ht2 & Ht3).
    { split_and!; (eapply without_sub; [|exact Ht]); by apply (bool_decide_unpack _). }
    rewrite cutLast_id; [apply image_name; [done|done| |right; by exists t]|].
    + rewrite without_app. split; [by apply (bool_decide_unpack _)|done].
    + apply (without_char "@"%char "@"); [by left|]. rewrite !without_app. split_and!; try done. by apply (bool_decide_unpack _).
  - assert (cutLast (pre +:+ "/" +:+ n +:+ "@" +:+ d) "@" = pre +:+ "/" +:+ n) as ->.
    { replace (pre +:+ "/" +:+ n +:+ "@" +:+ d) with ((pre +:+ "/" +:+ n) +:+ String "@" d) by by rewrite !string_app_assoc.
      apply cutLast_app. eapply without_char; [|exact Hd]. by left. }
    pose proof (image_name pre n "" Hne Hn1) as Himg. rewrite string_app_nil_r in Himg.
    apply Himg; [by apply (bool_decide_unpack _)|by left].
Qed.

Lemma PluginName_oci_witness :
  PluginName "oci://quay.io:5000/rhdh/plugin-foo@sha256:abc!dist/foo" = "plugin-foo".
Proof.
  apply (PluginName_oci "quay.io:5000/rhdh" "plugin-foo" "@sha256:abc" "!dist/foo").
  - by apply (bool_decide_unpack _).
  - done.
  - by apply (bool_decide_unpack _).
  - apply (Digest "sha256:abc"). by apply (bool_decide_unpack _).
  - apply (Path "dist/foo"). by apply (bool_decide_unpack _).
Defined.

End names.

(** ** Resolving *)

Section resolve.

(** [p] is the first plugin of the list that has the name. *)
Definition firstNamed (base : list DynaPlugin) (name : string) (p : DynaPlugin) : Prop :=
  ∃ l1 l2, base = l1 ++ p :: l2 ∧ Package p ≠ "" ∧ PluginName (Package p) = name ∧
    ∀ q, q ∈ l1 → Package q = "" ∨ PluginName (Package q) ≠ name.

Lemma lookupByName_Some base name p : lookupByName base name = Some p → firstNamed base name p.
Proof.
  unfold lookupByName. destruct (list_find _ base) as [[i q]|] eqn:E; [|done]. intros [= <-].
  apply list_find_Some in E as (Hi & (Hne & Hn) & Hmin).
  exists (take i base), (drop (S i) base). split_and!; [|done|done|].
  - by rewrite take_drop_middle.
  - intros q' Hq. apply list_elem_of_lookup in Hq as [j Hj]. apply lookup_take_Some in Hj as [Hj Hlt].
    specialize (Hmin j q' Hj Hlt). destruct (decide (Package q' = "")); [by left|right]. intros Hq'. by apply Hmin.
Qed.

Lemma lookupByName_None base name :
  lookupByName base name = None ↔ ∀ q, q ∈ base → Package q = "" ∨ PluginName (Package q) ≠ name.
Proof.
  unfold lookupByName. rewrite fmap_None, list_find_None, Forall_forall.
  split; intros H q Hq; specialize (H q Hq); [|naive_solver].
  destruct (decide (Package q = "")); [by left|right]. naive_solver.
Qed.

(** [ref://name] stands for the package of the first default plugin of
    that name, and is an error exactly when the name is empty or no default
    plugin has it. *)
Theorem resolveRefReference_spec name base :
  match resolveRefReference (refPrefix +:+ name) base with
  | Ok p => name ≠ "" ∧ ∃ b, firstNamed base name b ∧ p = Package b
  | Err _ => name = "" ∨ ∀ q, q ∈ base → Package q = "" ∨ PluginName (Package q) ≠ name
  | Panic _ => False
  end.
Proof.
  unfold resolveRefReference. rewrite strings.TrimPrefix_app.
  case_bool_decide as Hn; [by left|].
  destruct (lookupByName base name) as [b|] eqn:E.
  - split; [done|]. exists b. split; [by apply lookupByName_Some|done].
  - right. by apply lookupByName_None.
Qed.

(** The first occurrence of a text whose second character does not occur
    before it *)
Lemma list_index_skip (c d : ascii) (r l1 l2 : list ascii) :
  c ≠ d → d ∉ l1 → list_index (c :: d :: r) (l1 ++ c :: d :: r ++ l2) = Some (length l1).
Proof.
  intros Hcd. induction l1 as [|x l1 IH]; intros Hd.
  - cbn [app length list_index]. rewrite bool_decide_eq_true_2; [done|]. by exists l2.
  - cbn [app length list_index]. rewrite bool_decide_eq_false_2.
    + rewrite IH; [done|]. set_solver.
    + intros [k Hk]. destruct l1 as [|y l1]; simpl in Hk; simplify_eq. apply Hd. right. left.
Qed.

Lemma Replace1_inherit s : "{"%char ∉ chars s → strings.Replace1 (s +:+ inheritSuffix) inheritSuffix "" = s.
Proof.
  intros Hs. unfold strings.Replace1, strings.Index.
  assert (chars (s +:+ inheritSuffix) = chars s ++ ":"%char :: "{"%char :: chars "{inherit}}" ++ []) as Hc
    by by rewrite chars_app, app_nil_r.
  change (chars inheritSuffix) with (":"%char :: "{"%char :: chars "{inherit}}").
  rewrite Hc, list_index_skip, length_chars by done.
  rewrite strings.slice_to_app, strings.slice_from_app. unfold slice_from.
  change (str (drop (String.length inheritSuffix) (chars inheritSuffix))) with "".
  apply string_app_nil_r.
Qed.

(** C28. [oci://...:{{inherit}}] stands for the package of the first default
    plugin with that image name, in whatever registry; a path given with the
    reference replaces that of the default package. *)
Theorem resolveInheritReference_spec pre n path base b :
  without "@!{" pre → n ≠ "" → without "/:@!{" n → path_suffix path →
  lookupByName base n = Some b →
  firstNamed base n b ∧
  resolveInheritReference ("oci://" +:+ pre +:+ "/" +:+ n +:+ inheritSuffix +:+ path) base =
    Ok (if bool_decide (path = "") then Package b else cutLast (Package b) "!" +:+ path).
Proof.
  intros Hpre Hne Hn Hpath Hb. split; [by apply lookupByName_Some|].
  set (img := "oci://" +:+ pre +:+ "/" +:+ n).
  assert (without "!" img ∧ "{"%char ∉ chars img) as [Hbang Hbrace].
  { unfold img. split; [rewrite !without_app|rewrite !chars_app, !not_elem_of_app];
      split_and!; try by apply (bool_decide_unpack _).
    1, 2: eapply without_sub; [|eassumption]; by apply (bool_decide_unpack _).
    all: eapply without_char; [|eassumption]; by apply (bool_decide_unpack _). }
  assert (PluginName img = n) as Hname.
  { pose proof (PluginName_oci_plain pre n) as Hp. apply Hp.
    2: done.
    all: eapply without_sub; [|eassumption]; by apply (bool_decide_unpack _). }
  assert ("oci://" +:+ pre +:+ "/" +:+ n +:+ inheritSuffix +:+ path = (img +:+ inheritSuffix) +:+ path) as ->
    by (unfold img; by rewrite !string_app_assoc).
  assert (without "!" (img +:+ inheritSuffix)) as Hbs.
  { rewrite without_app. split; [done|by apply (bool_decide_unpack _)]. }
  unfold resolveInheritReference. destruct Hpath as [|p Hp].
  - rewrite string_app_nil_r.
    rewrite (proj2 (strings.LastIndex_byte_None _ _)) by (eapply without_char; [|exact Hbs]; by left).
    cbn zeta. rewrite Replace1_inherit, Hname, bool_decide_eq_false_2, Hb by done. done.
  - change ("!" +:+ p) with (String "!" p).
    rewrite strings.LastIndex_byte_app by (eapply without_char; [|exact Hp]; by left).
    rewrite strings.slice_to_app.
    replace (String.length (img +:+ inheritSuffix)) with (String.length (img +:+ inheritSuffix) + 0) by lia.
    rewrite strings.slice_from_app. unfold slice_from. rewrite drop_0, str_chars.
    cbn zeta. by rewrite Replace1_inherit, Hname, bool_decide_eq_false_2, Hb by done.
Qed.

(** Which packages need no resolution *)
Definition resolved (p : string) : Prop :=
  p = "" ∨ (strings.HasPrefix p refPrefix = false ∧ strings.Contains p inheritSuffix = false ∧ IsDirectLink p = true).

(** Resolving keeps the list, order and all, and changes packages only:
    one that needs no resolution stays, the others are resolved against the
    default plugins; it fails with the error of the first plugin that fails. *)
Theorem resolveReferences_spec plugins base :
  match resolveReferences plugins base with
  | Ok res =>
      Forall2 (λ p q, q = p <| Package := Package q |> ∧
        (resolved (Package p) → Package q = Package p) ∧
        (strings.HasPrefix (Package p) refPrefix = true → resolveRefReference (Package p) base = Ok (Package q)) ∧
        (Package p ≠ "" → strings.HasPrefix (Package p) refPrefix = false →
         strings.Contains (Package p) inheritSuffix = true → resolveInheritReference (Package p) base = Ok (Package q)))
      plugins res
  | Err e => ∃ l1 p l2, plugins = l1 ++ p :: l2 ∧ resolvePlugin base p = Err e
  | Panic _ => False
  end.
Proof.
  assert (∀ p w, resolvePlugin base p ≠ Panic w) as Hnp.
  { intros p w. unfold resolvePlugin, resolveRefReference, resolveInheritReference.
    repeat case_bool_decide; try done; repeat (case_match; try done). }
  unfold resolveReferences. destruct (collect _ _ _) as [res|e|w] eqn:E.
  - apply collect_Ok in E as (res' & -> & Hall). simpl. eapply Forall2_impl; [exact Hall|].
    intros p q Hq. simpl in Hq. unfold resolvePlugin in Hq. unfold resolved.
    case_bool_decide as Hp.
    { apply (inj Ok) in Hq as <-. split_and!; [by destruct p|done| |by intros ?].
      rewrite Hp. by intros ?. }
    destruct (strings.HasPrefix (Package p) refPrefix) eqn:Hr.
    { apply bind_Ok_inv in Hq as (x & Hx & Hq). apply (inj Ok) in Hq as <-. split; [done|].
      split; [intros [?|(? & ? & _)]; congruence|]. split; [done|congruence]. }
    destruct (strings.Contains (Package p) inheritSuffix) eqn:Hc.
    { apply bind_Ok_inv in Hq as (x & Hx & Hq). apply (inj Ok) in Hq as <-. split; [done|].
      split; [intros [?|(? & ? & _)]; congruence|]. split; [congruence|done]. }
    destruct (IsDirectLink (Package p)); [|done]. apply (inj Ok) in Hq as <-. split_and!; [by destruct p|done|congruence..].
  - apply collect_Err in E as (l1 & p & l2 & -> & _ & Hp). by exists l1, p, l2.
  - exfalso. assert (is_Panic (collect (resolvePlugin base) [] plugins) = false) as H; [|by rewrite E in H].
    apply foldM_no_panic. intros acc p. destruct (resolvePlugin base p) as [q|e|why] eqn:Ep; [done..|]. by destruct (Hnp p why).
Qed.

End resolve.

Lemma resolveInheritReference_spec_witness :
  resolveInheritReference "oci://any/plugin-foo:{{inherit}}!custom"
    [packageOnly "oci://quay.io/rhdh/plugin-foo@sha256:abc!dist"] = Ok "oci://quay.io/rhdh/plugin-foo@sha256:abc!custom".
Proof.
  apply (resolveInheritReference_spec "any" "plugin-foo" "!custom"
    [packageOnly "oci://quay.io/rhdh/plugin-foo@sha256:abc!dist"] (packageOnly "oci://quay.io/rhdh/plugin-foo@sha256:abc!dist")).
  - by apply (bool_decide_unpack _).
  - done.
  - by apply (bool_decide_unpack _).
  - apply (Path "custom"). by apply (bool_decide_unpack _).
  - by vm_compute.
Defined.
