(* ===== verification/DynamicPlugins.v ===== *)
(** * Dynamic plugins (pkg/model/dynamic-plugins.go)

    The merge of the default plugins with those of the user, and the ConfigMap
    and mounts that hand them to the init container that installs them. *)

From S2P Require Import Prelude.
From S2P Require Import GoStrings.
From S2P Require Import K8s.
From S2P Require Import Api.
From S2P Require Import Externals.
From S2P Require Import Utils.
From S2P Require Import Pod.
From S2P Require Import Deployable.
From S2P Require Import MetaInfo.
From S2P Require Import BackstageDeployment.
From S2P Require Import PluginConfig.
From S2P Require Import DynamicPluginsReference.
From stdpp Require Import options.

Definition DynamicPluginsFile : string := "dynamic-plugins.yaml".

(** [omitempty] drops an empty list or map on the way through YAML. *)
Definition omitList {A} (l : option (list A)) : option (list A) :=
  match l with Some [] => None | l => l end.
Definition omitMap (m : gomap any) : gomap any :=
  match m with Some m => if decide (size m = 0) then None else Some m | None => None end.

Definition omitemptyPlugin (p : DynaPlugin) : DynaPlugin :=
  p <| PluginConfig ::= omitMap |> <| Dependencies ::= omitList |>.
Definition omitempty (c : DynaPluginsConfig) : DynaPluginsConfig :=
  c <| Includes ::= omitList |> <| Plugins ::= λ l, omitList (option_map (map omitemptyPlugin) l) |>.

(** gopkg.in/yaml.v2 on [DynaPluginsConfig].  [decoded] holds of the plugin
    configurations that come out of the decoder; what is made of those can be
    written and read back, short of the fields [omitempty] drops. *)
Class DynaYaml := {
  UnmarshalPlugins : string → outcome DynaPluginsConfig;
  MarshalPlugins : DynaPluginsConfig → outcome string;
  MarshalPluginConfig : gmap string any → outcome string;
  decoded : gomap any → Prop;
  Unmarshal_decoded s c p l :
    UnmarshalPlugins s = Ok c → Plugins c = Some l → p ∈ l → decoded (PluginConfig p);
  Unmarshal_Marshal c s :
    (∀ p l, Plugins c = Some l → p ∈ l → decoded (PluginConfig p)) →
    MarshalPlugins c = Ok s → UnmarshalPlugins s = Ok (omitempty c)
}.

(** [Enabled] takes precedence over [Disabled]. *)
Definition IsDisabled (p : DynaPlugin) : bool :=
  match Enabled p with
  | Some b => negb b
  | None => Disabled p
  end.

(** ** Merging *)

(** What the second configuration changes of a plugin of the first. *)
Definition mergePlugin (existingPlugin plugin : DynaPlugin) : DynaPlugin :=
  let e := match PluginConfig plugin with
           | Some c => existingPlugin <| PluginConfig := Some c |>
           | None => existingPlugin
           end in
  let e := match Dependencies plugin with
           | Some d => if bool_decide (0 < length d) then e <| Dependencies := Some d |>
                       else e <| Dependencies := Some [] |>
           | None => e
           end in
  let e := if bool_decide (Integrity plugin ≠ "") then e <| Integrity := Integrity plugin |> else e in
  match Enabled plugin with
  | Some b => e <| Enabled := Some b |> <| Disabled := false |>
  | None => if Disabled plugin then e <| Disabled := true |> <| Enabled := None |> else e
  end.

Definition mergeStep (pluginMap : gmap string DynaPlugin) (plugin : DynaPlugin) : gmap string DynaPlugin :=
  match pluginMap !! Package plugin with
  | Some existingPlugin => <[Package plugin := mergePlugin existingPlugin plugin]> pluginMap
  | None => <[Package plugin := plugin]> pluginMap
  end.

Definition pluginList (l : option (list DynaPlugin)) : list DynaPlugin := default [] l.

Definition mergePlugins (first second : list DynaPlugin) : gmap string DynaPlugin :=
  foldl mergeStep (foldl (λ m p, <[Package p := p]> m) ∅ first) second.

Section merging.
Context `{os : !OS, mo_ : !MapOrder, dy : !DynaYaml}.

Definition mergeIncludes (first second : option (list string)) : option (list string) :=
  if bool_decide (second = Some []) then Some []
  else
    let includeSet := foldl (λ (m : gmap string unit) i, <[i := tt]> m) ∅ (default [] first) in
    let includeSet := foldl (λ m i, <[i := tt]> m) includeSet (default [] second) in
    Some ((range includeSet).*1).

(** The merged configuration, before it is written *)
Definition mergeConfigs (first second : DynaPluginsConfig) : DynaPluginsConfig :=
  mkDynaPluginsConfig (mergeIncludes (Includes first) (Includes second))
    (Some ((range (mergePlugins (pluginList (Plugins first)) (pluginList (Plugins second)))).*2)).

Definition MergePluginsData (firstData secondData : string) : outcome string :=
  if bool_decide (firstData = "") then Ok secondData
  else if bool_decide (secondData = "") then Ok firstData
  else
    first ← wrapErr "failed to unmarshal first ConfigMap data" (UnmarshalPlugins firstData);
    second ← wrapErr "failed to unmarshal second ConfigMap data" (UnmarshalPlugins secondData);
    second ← (if IsOperatorDPProcessing then
                resolvedPlugins ← resolveReferences (pluginList (Plugins second)) (pluginList (Plugins first));
                Ok (second <| Plugins := Some resolvedPlugins |>)
              else Ok second);
    wrapErr "failed to marshal merged plugins config" (MarshalPlugins (mergeConfigs first second)).

(** The plugins of a ConfigMap *)
Definition GetPluginsData (cm : option ConfigMap) : outcome (list DynaPlugin) :=
  match cm with
  | None => Ok []
  | Some cm =>
      let data := map_get (cm_Data cm) DynamicPluginsFile in
      if bool_decide (data = "") then Ok []
      else
        c ← wrapErr "failed to unmarshal dynamic plugins data" (UnmarshalPlugins data);
        Ok (pluginList (Plugins c))
  end.

End merging.

(** ** The component *)

Record DynamicPlugins := mkDynamicPlugins {
  dp_ConfigMap : option ConfigMap;
  enabledPlugins : option (list DynaPlugin);
  enabledPluginsCM : option ConfigMap
}.
#[export] Instance DynamicPlugins_eta : Eta DynamicPlugins := λ r,
  mkDynamicPlugins (dp_ConfigMap r) (enabledPlugins r) (enabledPluginsCM r).

Section component.
Context `{os : !OS, mo_ : !MapOrder, dy : !DynaYaml, own : !Ownership}.

Definition DynamicPlugins_Object (p : DynamicPlugins) : option ConfigMap :=
  if IsOperatorDPProcessing then enabledPluginsCM p else dp_ConfigMap p.

Definition missingPluginsKey : error :=
  Errorf ("dynamic plugin configMap expects '" +:+ DynamicPluginsFile +:+ "' Data key").

(** [cm.Data == nil || cm.Data[DynamicPluginsFile] == ""] *)
Definition checkPluginsKey (cm : ConfigMap) : outcome unit :=
  if bool_decide (cm_Data cm = None ∨ map_get (cm_Data cm) DynamicPluginsFile = "") then Err missingPluginsKey
  else Ok ().

(** The ConfigMap: the default one, that of the user, or both merged. *)
Definition choosePlugins (backstage : api.Backstage) (specPlugins : ConfigMap) (cm : option ConfigMap) :
    outcome (option ConfigMap) :=
  if bool_decide (api.specDynamicPlugins (api.Spec backstage) ≠ "") then
    _ ← checkPluginsKey specPlugins;
    match cm with
    | Some cm =>
        mergedData ← wrapErr "failed to merge dynamic plugins config"
          (MergePluginsData (map_get (cm_Data cm) DynamicPluginsFile) (map_get (cm_Data specPlugins) DynamicPluginsFile));
        data ← map_set (cm_Data cm) DynamicPluginsFile mergedData;
        Ok (Some (cm <| cm_Data := data |>))
    | None => Ok (Some (emptyConfigMap <| cm_Data := cm_Data specPlugins |> <| cm_BinaryData := cm_BinaryData specPlugins |>))
    end
  else Ok cm.

Definition newline_ : string := str [newline].

Definition processPlugins (backstage : api.Backstage) (cm : ConfigMap) : outcome (list DynaPlugin * ConfigMap) :=
  pluginsData ← GetPluginsData (Some cm);
  let enabled := filter (λ p, IsDisabled p = false) pluginsData in
  let packages := Package <$> enabled in
  let cm := mkConfigMap (mkTypeMeta "v1" "ConfigMap")
    (mkObjectMeta (DynamicPluginsDefaultName (api.bsName backstage)) (api.bsNamespace backstage) None None [])
    (Some {["packages.txt" := strings.Join packages newline_]}) None in
  m ← setMetaInfo backstage (cm_Meta cm);
  Ok (enabled, cm <| cm_Meta := m |>).

Definition addDynamicPlugins (specPlugins : ConfigMap) (backstage : api.Backstage) (config : option Config) :
    outcome DynamicPlugins :=
  cm ← optConfig asConfigMap config;
  _ ← match cm with Some cm => checkPluginsKey cm | None => Ok () end;
  cm ← choosePlugins backstage specPlugins cm;
  p ← match cm with
      | Some c =>
          if IsOperatorDPProcessing then
            '(enabled, ecm) ← processPlugins backstage c;
            Ok (mkDynamicPlugins cm (Some enabled) (Some ecm))
          else Ok (mkDynamicPlugins cm None None)
      | None => Ok (mkDynamicPlugins None None None)
      end;
  match dp_ConfigMap p with
  | Some c =>
      m ← setNameAndMeta (DynamicPluginsDefaultName (api.bsName backstage)) backstage (cm_Meta c);
      Ok (p <| dp_ConfigMap := Some (c <| cm_Meta := m |>) |>)
  | None => Ok p
  end.

(** The init container, its image overridden. *)
Definition getInitContainer (p : PodSpec) : PodSpec * option Container :=
  match list_find (hasName dynamicPluginInitContainerName) (InitContainers p) with
  | None => (p, None)
  | Some (i, _) =>
      let image := Getenv BackstageImageEnvVar in
      let p := if bool_decide (image ≠ "") then store (InitContainer i) (λ c, c <| c_Image := image |>) p else p in
      (p, load p (InitContainer i))
  end.

(** Whether [updateAndValidate] has something to do. *)
Definition hasDynamicPlugins (backstage : api.Backstage) (d : DynamicPlugins) : bool :=
  negb (bool_decide (dp_ConfigMap d = None) && bool_decide (api.specDynamicPlugins (api.Spec backstage) = "")).

Definition updateDynamicPlugins (d : DynamicPlugins) (p : PodSpec) : outcome PodSpec :=
  let '(p, initContainer) := getInitContainer p in
  match initContainer with
  | None => Err (Errorf ("failed to find initContainer named " +:+ dynamicPluginInitContainerName))
  | Some initContainer =>
      '(cm, file) ← match enabledPluginsCM d with
                    | Some cm => Ok (cm, "packages.txt")
                    | None => cm ← deref "p.ConfigMap" (dp_ConfigMap d); Ok (cm, DynamicPluginsFile)
                    end;
      wrapErr "failed to mount dynamic plugins configMap"
        (mountFilesFrom (filterNames [dynamicPluginInitContainerName]) ConfigMapObjectKind
           (Name (cm_Meta cm)) (c_WorkingDir initContainer) file true (SortedKeys (cm_Data cm)) p)
  end.

(** The dependencies of the plugins that are not disabled *)
Definition PluginDependencies (d : DynamicPlugins) : outcome (list PluginDependency) :=
  ps ← GetPluginsData (dp_ConfigMap d);
  Ok (foldl (λ result pp, if IsDisabled pp then result else result ++ default [] (Dependencies pp)) [] ps).

End component.

(** ** What the merge computes *)

Section merge_spec.

Lemma mergeStep_lookup m p k :
  mergeStep m p !! k =
    if decide (Package p = k)
    then Some (match m !! k with Some e => mergePlugin e p | None => p end)
    else m !! k.
Proof.
  unfold mergeStep. destruct (decide (Package p = k)) as [<-|Hne].
  - destruct (m !! Package p); by rewrite lookup_insert_eq.
  - by destruct (m !! Package p); rewrite lookup_insert_ne.
Qed.

Definition named_package (k : string) (p : DynaPlugin) : Prop := Package p = k.
#[export] Instance named_package_dec k p : Decision (named_package k p) := decide_rel (=) _ _.

Lemma insert_all_lookup (l : list DynaPlugin) (m : gmap string DynaPlugin) k :
  foldl (λ m p, <[Package p := p]> m) m l !! k =
    match last (filter (named_package k) l) with Some p => Some p | None => m !! k end.
Proof.
  revert m. induction l as [|p l IH] using rev_ind; intros m; [done|].
  rewrite foldl_snoc, filter_app, last_app. destruct (decide (Package p = k)) as [<-|Hne].
  - rewrite lookup_insert_eq, filter_cons_True by done. done.
  - rewrite lookup_insert_ne, filter_cons_False by done. apply IH.
Qed.

(** The entry of one package depends on the plugins of that package only. *)
Lemma mergePlugins_lookup first second k :
  mergePlugins first second !! k =
    foldl (λ o p, Some (match o with Some e => mergePlugin e p | None => p end))
      (last (filter (named_package k) first)) (filter (named_package k) second).
Proof.
  unfold mergePlugins. induction second as [|p second IH] using rev_ind.
  - simpl. rewrite insert_all_lookup. destruct (last _); [done|]. apply lookup_empty.
  - rewrite foldl_snoc, filter_app, foldl_app, mergeStep_lookup, IH.
    destruct (decide (Package p = k)) as [Hp|Hp].
    + by rewrite filter_cons_True, filter_nil by done.
    + by rewrite filter_cons_False, filter_nil by done.
Qed.

(** For a package that each configuration mentions at most once, the
    merge gives the plugin of the only configuration that has it, or that of
    the first overridden field by field by that of the second: a field the
    second leaves out keeps its value. *)
Theorem mergePlugins_by_package first second k :
  NoDup (Package <$> first) → NoDup (Package <$> second) →
  mergePlugins first second !! k =
    match list_find (named_package k) first, list_find (named_package k) second with
    | Some (_, a), Some (_, b) => Some (mergePlugin a b)
    | Some (_, a), None => Some a
    | None, Some (_, b) => Some b
    | None, None => None
    end.
Proof.
  assert (∀ l, NoDup (Package <$> l) →
    filter (named_package k) l = match list_find (named_package k) l with Some (_, a) => [a] | None => [] end) as Hf.
  { induction l as [|p l IH]; [done|]. intros [Hp Hnd]%NoDup_cons. rewrite filter_cons. simpl.
    destruct (decide (named_package k p)) as [<-|Hne].
    - assert (filter (named_package (Package p)) l = []) as ->; [|done].
      apply elem_of_nil_inv. intros q [Hq Hin]%list_elem_of_filter. apply Hp.
      rewrite <- Hq. by apply list_elem_of_fmap_2.
    - rewrite IH by done. by destruct (list_find _ l) as [[]|]. }
  intros H1 H2. rewrite mergePlugins_lookup, !Hf by done.
  by destruct (list_find _ first) as [[]|], (list_find _ second) as [[]|].
Qed.

Lemma IsDisabled_mergePlugin a b :
  IsDisabled (mergePlugin a b) = match Enabled b with Some e => negb e | None => Disabled b || IsDisabled a end.
Proof.
  unfold IsDisabled, mergePlugin. destruct (Enabled b) as [e|]; [done|].
  destruct (Disabled b); [done|]. destruct (PluginConfig b), (Dependencies b); simpl; repeat case_bool_decide; done.
Qed.

(** C26. Whether a merged plugin is disabled: an [enabled] of the user decides,
    then a [disabled: true] of the user, and otherwise the default; a
    [disabled: false] of the user cannot turn on a plugin that is off by
    default. *)
Theorem mergePlugin_IsDisabled a b :
  IsDisabled (mergePlugin a b) =
    match Enabled b with
    | Some e => negb e
    | None => Disabled b || IsDisabled a
    end.
Proof. apply IsDisabled_mergePlugin. Qed.

(** The other fields of a merged plugin *)
Lemma mergePlugin_fields a b :
  Package (mergePlugin a b) = Package a ∧
  Integrity (mergePlugin a b) = (if bool_decide (Integrity b = "") then Integrity a else Integrity b) ∧
  PluginConfig (mergePlugin a b) = (match PluginConfig b with Some c => Some c | None => PluginConfig a end) ∧
  Dependencies (mergePlugin a b) = (match Dependencies b with Some d => Some d | None => Dependencies a end).
Proof.
  unfold mergePlugin.
  destruct (PluginConfig b), (Dependencies b) as [[|]|], (Enabled b), (Disabled b), (decide (Integrity b = "")) as [->|]; simpl;
    rewrite ?bool_decide_eq_true_2, ?bool_decide_eq_false_2 by auto; done.
Qed.

Lemma mergePlugins_package first second k p : mergePlugins first second !! k = Some p → Package p = k.
Proof.
  rewrite mergePlugins_lookup. intros H.
  assert (∀ l o, (∀ p, o = Some p → Package p = k) → (∀ p, p ∈ l → Package p = k) →
    ∀ p, foldl (λ o p, Some (match o with Some e => mergePlugin e p | None => p end)) o l = Some p → Package p = k) as Hl.
  { clear. induction l as [|q l IH]; intros o Ho Hl p; simpl; [apply Ho|]. apply IH.
    - intros p' [= <-]. destruct o as [e|]; [|apply Hl; left].
      rewrite (proj1 (mergePlugin_fields e q)). by apply Ho.
    - intros p' Hp'. apply Hl. by right. }
  eapply Hl; [| |exact H].
  - intros q Hq. apply last_Some_elem_of, list_elem_of_filter in Hq as [Hq _]. exact Hq.
  - intros q [Hq _]%list_elem_of_filter. exact Hq.
Qed.

Lemma mergePlugins_dom first second k :
  is_Some (mergePlugins first second !! k) ↔ k ∈ Package <$> (first ++ second).
Proof.
  rewrite mergePlugins_lookup, fmap_app, elem_of_app, !list_elem_of_fmap.
  assert (∀ l o, is_Some (foldl (λ o p, Some (match o with Some e => mergePlugin e p | None => p end)) o l) ↔
    is_Some o ∨ l ≠ []) as Hl.
  { induction l as [|q l IH]; intros o; simpl; [naive_solver|]. rewrite IH. naive_solver. }
  rewrite Hl. f_equiv.
  - rewrite <- not_eq_None_Some, last_None. split.
    + intros Hne. destruct (filter (named_package k) first) as [|p l] eqn:E; [done|].
      assert (p ∈ filter (named_package k) first) as [Hp Hin]%list_elem_of_filter by (rewrite E; left).
      by exists p.
    + intros (p & -> & Hin) Hn. assert (p ∈ filter (named_package (Package p)) first) as H by by apply list_elem_of_filter.
      rewrite Hn in H. by apply not_elem_of_nil in H.
  - split.
    + intros Hne. destruct (filter (named_package k) second) as [|p l] eqn:E; [done|].
      assert (p ∈ filter (named_package k) second) as [Hp Hin]%list_elem_of_filter by (rewrite E; left).
      by exists p.
    + intros (p & -> & Hin) Hn. assert (p ∈ filter (named_package (Package p)) second) as H by by apply list_elem_of_filter.
      rewrite Hn in H. by apply not_elem_of_nil in H.
Qed.

(** *** The merge without its steps

    What two lists say of a package: of the first list the last mention counts,
    of the second one all of them, in their order. *)
Definition mentions (k : string) (first second : list DynaPlugin) : list DynaPlugin :=
  option_list (last (filter (named_package k) first)) ++ filter (named_package k) second.

(** Whether a mention turns the plugin on or off *)
Definition decides (p : DynaPlugin) : Prop := is_Some (Enabled p) ∨ Disabled p = true.
#[export] Instance decides_dec p : Decision (decides p).
Proof. unfold decides. apply _. Defined.

(** Each field is that of the last mention that sets it. *)
Record merged_from (k : string) (l : list DynaPlugin) (p : DynaPlugin) : Prop := {
  merged_Package : Package p = k;
  merged_Integrity : Integrity p = default "" (last (filter (λ i, i ≠ "") (Integrity <$> l)));
  merged_PluginConfig : PluginConfig p = last (omap PluginConfig l);
  merged_Dependencies : Dependencies p = last (omap Dependencies l);
  merged_IsDisabled : IsDisabled p = match last (filter decides l) with Some q => IsDisabled q | None => false end
}.

Lemma merged_one p : merged_from (Package p) [p] p.
Proof.
  split; [done|..]; cbn.
  - case_decide as H; [done|]. destruct (decide (Integrity p = "")); [done|by destruct H].
  - by destruct (PluginConfig p).
  - by destruct (Dependencies p).
  - case_decide as H; [done|]. unfold decides, IsDisabled in *. destruct (Enabled p), (Disabled p); naive_solver.
Qed.

Lemma merged_snoc k l a b : merged_from k l a → merged_from k (l ++ [b]) (mergePlugin a b).
Proof.
  intros [H1 H2 H3 H4 H5]. destruct (mergePlugin_fields a b) as (E1 & E2 & E3 & E4). split.
  - congruence.
  - rewrite E2, fmap_app, filter_app, last_app, H2. simpl. rewrite filter_cons.
    case_bool_decide; case_decide; try done; congruence.
  - rewrite E3, omap_app, last_app, H3. simpl. by destruct (PluginConfig b).
  - rewrite E4, omap_app, last_app, H4. simpl. by destruct (Dependencies b).
  - rewrite IsDisabled_mergePlugin, filter_app, last_app, H5. simpl. rewrite filter_cons, filter_nil.
    destruct (decide (decides b)) as [Hd|Hd]; cbn [last]; unfold IsDisabled; unfold decides in Hd.
    + destruct (Enabled b), (Disabled b); [done..|done|]. by destruct Hd as [[]|].
    + destruct (Enabled b); [destruct Hd; left; by eexists|]. destruct (Disabled b); [destruct Hd; by right|]. done.
Qed.

Lemma foldl_merged k l : Forall (named_package k) l →
  match foldl (λ o p, Some (match o with Some e => mergePlugin e p | None => p end)) None l with
  | Some q => merged_from k l q
  | None => l = []
  end.
Proof.
  induction l as [|p l IH] using rev_ind; [done|]. intros [Hl [Hp _]%Forall_cons]%Forall_app.
  rewrite foldl_snoc. specialize (IH Hl). destruct (foldl _ None l) as [e|]; [by apply merged_snoc|].
  subst l. rewrite <- Hp. apply merged_one.
Qed.

Lemma mergePlugins_merged first second k :
  match mergePlugins first second !! k with
  | Some q => merged_from k (mentions k first second) q
  | None => mentions k first second = []
  end.
Proof.
  rewrite mergePlugins_lookup. pose proof (foldl_merged k (mentions k first second)) as H.
  unfold mentions in *. rewrite foldl_app in H.
  assert (foldl (λ o p, Some (match o with Some e => mergePlugin e p | None => p end)) None
    (option_list (last (filter (named_package k) first))) = last (filter (named_package k) first)) as E
    by by destruct (last _).
  rewrite E in H. apply H. apply Forall_app. split.
  - destruct (last _) as [p|] eqn:El; [|done]. apply last_Some_elem_of, list_elem_of_filter in El as [Hp _]. by constructor.
  - apply Forall_forall. by intros p [Hp _]%list_elem_of_filter.
Qed.

End merge_spec.

Section merge_text.
Context `{os : !OS, mo_ : !MapOrder, dy : !DynaYaml}.

Lemma mergePlugins_config (P : gomap any → Prop) first second k p :
  (∀ q, q ∈ first ++ second → P (PluginConfig q)) →
  mergePlugins first second !! k = Some p → P (PluginConfig p).
Proof.
  intros HP. rewrite mergePlugins_lookup.
  assert (∀ l o, (∀ q, o = Some q → P (PluginConfig q)) → (∀ q, q ∈ l → P (PluginConfig q)) →
    ∀ r, foldl (λ o p, Some (match o with Some e => mergePlugin e p | None => p end)) o l = Some r → P (PluginConfig r)) as Hl.
  { clear. induction l as [|q l IH]; intros o Ho Hl r; [apply Ho|]. cbn [foldl]. apply IH.
    - intros q' [= <-]. destruct o as [e|]; [|apply Hl; left].
      destruct (mergePlugin_fields e q) as (_ & _ & -> & _). pose proof (Hl q (list_elem_of_here _ _)) as Hq.
      destruct (PluginConfig q); [done|by apply Ho].
    - intros q' Hq'. apply Hl. by right. }
  intros H. eapply Hl; [| |exact H].
  - intros q Hq. apply HP, elem_of_app. left. apply last_Some_elem_of, list_elem_of_filter in Hq as [_ Hq]. exact Hq.
  - intros q [_ Hq]%list_elem_of_filter. apply HP, elem_of_app. by right.
Qed.

Lemma elem_of_includes first second i :
  i ∈ default [] (mergeIncludes first second) ↔
  second ≠ Some [] ∧ (i ∈ default [] first ∨ i ∈ default [] second).
Proof.
  unfold mergeIncludes. case_bool_decide as Hs.
  { rewrite Hs. simpl. set_solver. }
  simpl.
  assert (∀ l (m : gmap string unit), is_Some (foldl (λ m i, <[i := tt]> m) m l !! i) ↔ i ∈ l ∨ is_Some (m !! i)) as Hl.
  { induction l as [|j l IH]; intros m; simpl; [set_solver|]. rewrite IH, lookup_insert_is_Some, elem_of_cons.
    destruct (decide (j = i)) as [->|]; naive_solver. }
  assert (∀ m : gmap string unit, i ∈ (range m).*1 ↔ is_Some (m !! i)) as Hr.
  { intros m. rewrite list_elem_of_fmap. split.
    - intros ([k []] & -> & H%elem_of_range). by eexists.
    - intros [[] H%elem_of_range]. by eexists (_, _). }
  rewrite Hr, !Hl, lookup_empty. split; [|naive_solver].
  intros [?|[?|[? ?]]]; naive_solver.
Qed.

Lemma elem_of_range_snd (m : gmap string DynaPlugin) p :
  p ∈ (range m).*2 ↔ ∃ k, m !! k = Some p.
Proof.
  rewrite list_elem_of_fmap. split.
  - intros ([k q] & -> & H%elem_of_range). by exists k.
  - intros [k H%elem_of_range]. by exists (k, p).
Qed.

(** The second list, as it goes into the merge *)
Definition resolvedAgainst (first second l : list DynaPlugin) : Prop :=
  if IsOperatorDPProcessing then resolveReferences second first = Ok l else l = second.

Lemma resolvedAgainst_config first second l p : resolvedAgainst first second l → p ∈ l → ∃ q, q ∈ second ∧ PluginConfig p = PluginConfig q.
Proof.
  unfold resolvedAgainst. destruct IsOperatorDPProcessing; [|intros ->; by exists p].
  intros Hl Hp. pose proof (resolveReferences_spec second first) as H. rewrite Hl in H.
  apply list_elem_of_lookup in Hp as [i Hi]. destruct (Forall2_lookup_r _ _ _ _ _ H Hi) as (q & Hq & -> & _).
  exists q. split; [by eapply list_elem_of_lookup_2|done].
Qed.

(** What is written and read back *)
Lemma merged_text c1 c2 l2 s :
  (∀ p, p ∈ pluginList (Plugins c1) → decoded (PluginConfig p)) → (∀ p, p ∈ l2 → decoded (PluginConfig p)) →
  MarshalPlugins (mergeConfigs c1 (c2 <| Plugins := Some l2 |>)) = Ok s →
  ∃ c, UnmarshalPlugins s = Ok c ∧
    NoDup (Package <$> pluginList (Plugins c)) ∧
    (∀ k, k ∈ Package <$> pluginList (Plugins c) ↔ k ∈ Package <$> (pluginList (Plugins c1) ++ l2)) ∧
    (∀ p, p ∈ pluginList (Plugins c) → ∃ q, merged_from (Package p) (mentions (Package p) (pluginList (Plugins c1)) l2) q ∧
       p = omitemptyPlugin q) ∧
    (∀ i, i ∈ default [] (Includes c) ↔
       Includes c2 ≠ Some [] ∧ (i ∈ default [] (Includes c1) ∨ i ∈ default [] (Includes c2))).
Proof.
  intros Hd1 Hd2 Hm. set (m := mergePlugins (pluginList (Plugins c1)) l2). apply Unmarshal_Marshal in Hm.
  2: { intros p l [= <-] [k Hk]%elem_of_range_snd. eapply (mergePlugins_config decoded); [|exact Hk].
       intros q [Hq|Hq]%elem_of_app; auto. }
  eexists. split; [exact Hm|].
  assert (pluginList (Plugins (omitempty (mergeConfigs c1 (c2 <| Plugins := Some l2 |>)))) = omitemptyPlugin <$> (range m).*2) as ->.
  { unfold omitempty, mergeConfigs. simpl. fold m. by destruct (range m) as [|[] l]. }
  assert (Package <$> (omitemptyPlugin <$> (range m).*2) = (range m).*1) as ->.
  { rewrite <- !list_fmap_compose. apply list_fmap_ext. intros i [k q] Hi%list_elem_of_lookup_2. simpl.
    apply elem_of_range in Hi. by eapply mergePlugins_package. }
  split_and!.
  - apply NoDup_fst_range.
  - intros k. rewrite <- mergePlugins_dom. fold m. rewrite list_elem_of_fmap. split.
    + intros ([k' q] & -> & Hq%elem_of_range). by exists q.
    + intros [q Hq%elem_of_range]. by exists (k, q).
  - intros p (q & -> & [k Hk]%elem_of_range_snd)%list_elem_of_fmap. exists q. split; [|done].
    pose proof (mergePlugins_merged (pluginList (Plugins c1)) l2 k) as H. fold m in H. rewrite Hk in H.
    change (Package (omitemptyPlugin q)) with (Package q). by rewrite (merged_Package _ _ _ H).
  - intros i. rewrite <- elem_of_includes. unfold omitempty, mergeConfigs. simpl.
    destruct (mergeIncludes _ _) as [[|]|]; simpl; done.
Qed.

(** C25. Merging two plugin configurations: when one of the texts is empty the
    result is the other.  Else reading the result back gives each package that
    either list mentions exactly once, and each of its fields is that of the
    last mention that sets it, where all mentions of the second list come after
    the first list, and of that only the last mention counts: the configuration,
    the dependencies (an explicitly empty list counts and removes them), the
    integrity, and whether it is disabled.  The includes are those of both, or
    none when those of the second are explicitly empty.  With the operator's own
    plugin processing the second list is the one in which the references have
    been resolved against the first; without it, it is as written. *)
Theorem MergePluginsData_result first second s :
  MergePluginsData first second = Ok s →
  (first = "" ∧ s = second) ∨ (first ≠ "" ∧ second = "" ∧ s = first) ∨
  (first ≠ "" ∧ second ≠ "" ∧ ∃ c1 c2 l2 c,
    UnmarshalPlugins first = Ok c1 ∧ UnmarshalPlugins second = Ok c2 ∧ UnmarshalPlugins s = Ok c ∧
    (if IsOperatorDPProcessing
     then resolveReferences (pluginList (Plugins c2)) (pluginList (Plugins c1)) = Ok l2
     else l2 = pluginList (Plugins c2)) ∧
    NoDup (Package <$> pluginList (Plugins c)) ∧
    (∀ k, k ∈ Package <$> pluginList (Plugins c) ↔ k ∈ Package <$> (pluginList (Plugins c1) ++ l2)) ∧
    (∀ p, p ∈ pluginList (Plugins c) → ∃ q,
       merged_from (Package p) (mentions (Package p) (pluginList (Plugins c1)) l2) q ∧ p = omitemptyPlugin q) ∧
    (∀ i, i ∈ default [] (Includes c) ↔
       Includes c2 ≠ Some [] ∧ (i ∈ default [] (Includes c1) ∨ i ∈ default [] (Includes c2)))).
Proof.
  unfold MergePluginsData. case_bool_decide as Hf; [intros [= <-]; by left|].
  case_bool_decide as Hs; [intros [= <-]; by right; left|]. intros H. right. right. split; [done|]. split; [done|].
  apply bind_Ok_inv in H as (c1 & H1%wrapErr_Ok_inv & H). apply bind_Ok_inv in H as (c2 & H2%wrapErr_Ok_inv & H).
  apply bind_Ok_inv in H as (c2' & Hr & Hm%wrapErr_Ok_inv).
  assert (∀ t c p, UnmarshalPlugins t = Ok c → p ∈ pluginList (Plugins c) → decoded (PluginConfig p)) as Hdec.
  { intros t c p Ht Hp. destruct (Plugins c) as [l|] eqn:E; [exact (Unmarshal_decoded _ _ _ _ Ht E Hp)|by apply not_elem_of_nil in Hp]. }
  assert (∃ l2, resolvedAgainst (pluginList (Plugins c1)) (pluginList (Plugins c2)) l2 ∧
    MarshalPlugins (mergeConfigs c1 (c2 <| Plugins := Some l2 |>)) = Ok s) as (l2 & Hl2 & Hm').
  { unfold resolvedAgainst. destruct IsOperatorDPProcessing.
    - apply bind_Ok_inv in Hr as (l2 & Hl2 & [= <-]). by exists l2.
    - injection Hr as <-. by exists (pluginList (Plugins c2)). }
  apply merged_text in Hm' as (c & Hc & H); [|by eauto|].
  - by exists c1, c2, l2, c.
  - intros p Hp. destruct (resolvedAgainst_config _ _ _ _ Hl2 Hp) as (q & Hq & ->). by eauto.
Qed.

End merge_text.

(** The list of plugins comes out in the order of a Go map: two runs on
    the same configurations can write two different lists. *)
Theorem mergeConfigs_order_varies :
  ∃ (o1 o2 : MapOrder) c1 c2, Plugins (@mergeConfigs o1 c1 c2) ≠ Plugins (@mergeConfigs o2 c1 c2).
Proof.
  exists MapOrder_asc, MapOrder_desc, (mkDynaPluginsConfig None (Some [packageOnly "./a"; packageOnly "./b"])),
    (mkDynaPluginsConfig None None).
  by vm_compute.
Qed.

(** ** The component *)

Section component_spec.
Context `{os : !OS, mo_ : !MapOrder, dy : !DynaYaml, own : !Ownership}.

Lemma choosePlugins_Ok b spec cm r :
  choosePlugins b spec cm = Ok r →
  if bool_decide (api.specDynamicPlugins (api.Spec b) = "") then r = cm
  else map_get (cm_Data spec) DynamicPluginsFile ≠ "" ∧
    match cm with
    | None => r = Some (emptyConfigMap <| cm_Data := cm_Data spec |> <| cm_BinaryData := cm_BinaryData spec |>)
    | Some c => ∃ s c', r = Some c' ∧ cm_Meta c' = cm_Meta c ∧
        MergePluginsData (map_get (cm_Data c) DynamicPluginsFile) (map_get (cm_Data spec) DynamicPluginsFile) = Ok s ∧
        map_lookup (cm_Data c') DynamicPluginsFile = Some s
    end.
Proof.
  unfold choosePlugins. destruct (decide (api.specDynamicPlugins (api.Spec b) = "")) as [->|Hne].
  { rewrite bool_decide_eq_false_2, bool_decide_eq_true_2 by auto. by intros [= <-]. }
  rewrite bool_decide_eq_true_2, bool_decide_eq_false_2 by done. unfold checkPluginsKey.
  case_bool_decide as Hk; [done|]. cbn [mbind outcome_bind]. intros Hc. split; [naive_solver|].
  destruct cm as [c|]; [|by injection Hc as <-].
  apply bind_Ok_inv in Hc as (s & Hm%wrapErr_Ok_inv & Hc). apply bind_Ok_inv in Hc as (data & Hd & Hc).
  apply (inj Ok) in Hc as <-. eexists s, _. split_and!; [done..|]. simpl.
  by rewrite (map_lookup_set _ _ _ _ _ Hd), decide_True.
Qed.

Lemma processPlugins_Ok b cm l ecm :
  processPlugins b cm = Ok (l, ecm) →
  ∃ ps, GetPluginsData (Some cm) = Ok ps ∧ l = filter (λ p, IsDisabled p = false) ps ∧
    owned_by b (cm_Meta ecm) ∧ Name (cm_Meta ecm) = DynamicPluginsDefaultName (api.bsName b) ∧
    cm_Data ecm = Some {["packages.txt" := strings.Join (Package <$> l) newline_]}.
Proof.
  unfold processPlugins. intros Hp. apply bind_Ok_inv in Hp as (ps & Hps & Hp).
  apply bind_Ok_inv in Hp as (m & Hm & Hp). apply (inj Ok) in Hp. injection Hp as <- <-.
  apply setMetaInfo_spec in Hm as (Ho & Hn & _). exists ps. split_and!; [done|done|exact Ho|exact Hn|done].
Qed.

(** C27. There is a ConfigMap of the plugins unless neither the configuration
    nor the custom resource has one; it is owned by the custom resource and has
    the fixed name, whoever wrote it.  It is that of the configuration if the
    custom resource names none; a named one must have the plugins key, and is
    merged over that of the configuration, or else taken as it is.  With the
    operator's own processing there is a second ConfigMap with the packages of
    the plugins that are not disabled, in order. *)
Theorem addDynamicPlugins_result spec b config d :
  addDynamicPlugins spec b config = Ok d →
  match dp_ConfigMap d with
  | None => config = None ∧ api.specDynamicPlugins (api.Spec b) = "" ∧ enabledPluginsCM d = None
  | Some cm =>
      owned_by b (cm_Meta cm) ∧ Name (cm_Meta cm) = DynamicPluginsDefaultName (api.bsName b) ∧
      (api.specDynamicPlugins (api.Spec b) = "" →
        ∃ c, config = Some (ConfObject (KConfigMap c)) ∧ cm_Data cm = cm_Data c ∧ cm_BinaryData cm = cm_BinaryData c) ∧
      (api.specDynamicPlugins (api.Spec b) ≠ "" →
        map_get (cm_Data spec) DynamicPluginsFile ≠ "" ∧
        match config with
        | Some (ConfObject (KConfigMap c)) =>
            MergePluginsData (map_get (cm_Data c) DynamicPluginsFile) (map_get (cm_Data spec) DynamicPluginsFile) =
              Ok (map_get (cm_Data cm) DynamicPluginsFile)
        | _ => cm_Data cm = cm_Data spec
        end) ∧
      if IsOperatorDPProcessing then
        ∃ ps l ecm, GetPluginsData (Some cm) = Ok ps ∧ l = filter (λ p, IsDisabled p = false) ps ∧
          enabledPlugins d = Some l ∧ enabledPluginsCM d = Some ecm ∧ owned_by b (cm_Meta ecm) ∧
          cm_Data ecm = Some {["packages.txt" := strings.Join (Package <$> l) newline_]}
      else enabledPluginsCM d = None
  end.
Proof.
  unfold addDynamicPlugins. intros Ha. apply bind_Ok_inv in Ha as (cm & Hcfg & Ha).
  apply bind_Ok_inv in Ha as (_ & _ & Ha). apply bind_Ok_inv in Ha as (r & Hr & Ha).
  apply choosePlugins_Ok in Hr. apply bind_Ok_inv in Ha as (p & Hp & Ha).
  assert (cm = match config with Some (ConfObject (KConfigMap c)) => Some c | _ => None end ∧
    (config = None ↔ cm = None)) as [Hcm Hnone].
  { unfold optConfig in Hcfg. destruct config as [[[]|]|]; simpl in Hcfg; try done; by injection Hcfg as <-. }
  assert (dp_ConfigMap p = r) as Hpr.
  { destruct r as [c|]; [|by injection Hp as <-]. destruct IsOperatorDPProcessing; [|by injection Hp as <-].
    by apply bind_Ok_inv in Hp as ([] & _ & [= <-]). }
  rewrite Hpr in Ha. destruct r as [c|].
  2: { apply (inj Ok) in Ha as <-. injection Hp as <-. simpl.
       case_bool_decide; [by rewrite Hnone|]. destruct Hr as [_ Hr]. destruct cm as [c|]; [|done].
       by destruct Hr as (? & ? & ? & _). }
  apply bind_Ok_inv in Ha as (m & Hm & Ha). apply (inj Ok) in Ha as <-. simpl.
  apply setMetaInfo_spec in Hm as (Ho & Hn & _). split_and!; [done|by rewrite Hn| | |].
  - intros He. rewrite bool_decide_eq_true_2 in Hr by done. subst cm.
    destruct config as [[[]|]|]; try done. injection Hcm as ->. by eexists.
  - intros Hne. rewrite bool_decide_eq_false_2 in Hr by done. destruct Hr as [Hk Hr]. split; [done|].
    destruct cm as [c0|].
    + destruct config as [[[]|]|]; try done. injection Hcm as <-.
      destruct Hr as (s & c' & [= <-] & _ & Hmerge & Hs). unfold map_get at 3. by rewrite Hs.
    + destruct config as [[[]|]|]; try done; by injection Hr as ->.
  - destruct IsOperatorDPProcessing; [|by injection Hp as <-].
    apply bind_Ok_inv in Hp as ([l ecm] & Hproc & [= <-]). simpl.
    apply processPlugins_Ok in Hproc as (ps & Hps & Hl & Hoe & _ & Hd). by exists ps, l, ecm.
Qed.

(** The last word on the image of the plugin init container is
    [RELATED_IMAGE_backstage], also in the mode where initialisation put the
    dedicated install image there. *)
Theorem updateDynamicPlugins_image d p p' :
  Getenv BackstageImageEnvVar ≠ "" →
  updateDynamicPlugins d p = Ok p' →
  ∃ i c', load p' (InitContainer i) = Some c' ∧ c_Name c' = dynamicPluginInitContainerName ∧
    c_Image c' = Getenv BackstageImageEnvVar.
Proof.
  intros Hne. unfold updateDynamicPlugins, getInitContainer.
  destruct (list_find _ (InitContainers p)) as [[i c]|] eqn:E; [|done].
  rewrite bool_decide_eq_true_2 by done. apply list_find_hasName_Some in E as [Hi Hc].
  set (q := store _ _ p). assert (load q (InitContainer i) = Some (c <| c_Image := Getenv BackstageImageEnvVar |>)) as Hl.
  { unfold q. rewrite load_store, decide_True by done. simpl. by rewrite Hi. }
  rewrite Hl. intros Hu. apply bind_Ok_inv in Hu as ([cm file] & _ & Hu).
  apply wrapErr_Ok_inv, mountFilesFrom_inv in Hu as (rs & _ & ->).
  exists i. rewrite load_storeAll.
  match goal with |- context [Nat.iter ?n ?f <$> load ?q' _] =>
    set (k := n); set (g := f); assert (load q' (InitContainer i) = load q (InitContainer i)) as -> by done end.
  rewrite Hl. eexists. split; [done|]. clearbody k. induction k as [|k IH]; simpl; done.
Qed.

(** ... which initialisation did put there. *)
Lemma useInstallImage_image i p p' :
  IsOperatorDPProcessing = true → (0 ≤ i)%Z → useInstallImage i p = Ok p' →
  ∀ c, load p (InitContainer (Z.to_nat i)) = Some c →
  ∃ c', load p' (InitContainer (Z.to_nat i)) = Some c' ∧ c_Image c' = Getenv InstallDpImageEnvVar.
Proof.
  intros Hdp Hi. unfold useInstallImage. rewrite Hdp, bool_decide_eq_true_2 by done. cbn [andb].
  case_bool_decide; [done|]. intros Hu c Hc. apply bind_Ok_inv in Hu as (r & Hr & Hu). apply (inj Ok) in Hu as <-.
  rewrite load_store, decide_True by done. rewrite load_store.
  apply container_Ok in Hr as [_ [j ->]]. rewrite decide_False by done.
  rewrite load_store, decide_True, Hc by done. eexists. split; done.
Qed.

(** The dependencies are those of the plugins that are not disabled, in
    the order of the plugins. *)
Theorem PluginDependencies_enabled d ps :
  GetPluginsData (dp_ConfigMap d) = Ok ps →
  PluginDependencies d = Ok (filter (λ p, IsDisabled p = false) ps ≫= λ p, default [] (Dependencies p)).
Proof.
  intros Hps. unfold PluginDependencies. rewrite Hps. cbn [mbind outcome_bind]. f_equal.
  assert (∀ acc, foldl (λ result pp, if IsDisabled pp then result else result ++ default [] (Dependencies pp)) acc ps =
    acc ++ (filter (λ p, IsDisabled p = false) ps ≫= λ p, default [] (Dependencies p))) as H; [|apply (H [])].
  clear Hps. induction ps as [|p ps IH]; intros acc; cbn [foldl]; [by rewrite app_nil_r|].
  rewrite IH, filter_cons. destruct (IsDisabled p) eqn:E.
  - by rewrite decide_False by done.
  - rewrite decide_True by done. by rewrite bind_cons, (assoc_L (++)).
Qed.

End component_spec.

(** ** A small codec, for evaluating the model

    One line per plugin, its activation and its package; what it cannot write
    it refuses. *)

Section codec.

Definition encodePlugin (p : DynaPlugin) : option string :=
  match Integrity p, Enabled p, PluginConfig p, omitList (Dependencies p) with
  | "", None, None, None =>
      if existsb (Ascii.eqb newline) (chars (Package p)) then None
      else Some (String (if Disabled p then "D"%char else "E"%char) (Package p))
  | _, _, _, _ => None
  end.

Definition decodePlugin (s : string) : outcome DynaPlugin :=
  match s with
  | String c pkg =>
      if Ascii.eqb c "D" then Ok ((packageOnly pkg) <| Disabled := true |>)
      else if Ascii.eqb c "E" then Ok (packageOnly pkg)
      else Err (Errorf "yaml: bad plugin")
  | "" => Err (Errorf "yaml: empty plugin")
  end.

Definition encodeConfig (c : DynaPluginsConfig) : outcome string :=
  match omitList (Includes c), mapM encodePlugin (pluginList (Plugins c)) with
  | None, Some lines => Ok (strings.Join ("P" :: lines) (String newline ""))
  | _, _ => Err (Errorf "yaml: cannot encode")
  end.

Definition decodeConfig (s : string) : outcome DynaPluginsConfig :=
  match strings.Split s newline with
  | "P" :: lines => l ← collect decodePlugin [] lines; Ok (mkDynaPluginsConfig None (omitList (Some l)))
  | _ => Err (Errorf "yaml: bad document")
  end.

Lemma encodePlugin_Some p s :
  encodePlugin p = Some s → newline ∉ chars s ∧ decodePlugin s = Ok (omitemptyPlugin p).
Proof.
  destruct p as [pkg int en dis cfg deps]. unfold encodePlugin. simpl.
  destruct int; [|done]. destruct en; [done|]. destruct cfg; [done|]. destruct (omitList deps) eqn:Hd; [done|].
  destruct (existsb _ _) eqn:He; [done|]. intros [= <-]. split.
  - simpl. rewrite not_elem_of_cons. split; [by destruct dis|]. intros Hin%list_elem_of_In.
    assert (existsb (Ascii.eqb newline) (chars pkg) = true); [|congruence].
    apply existsb_exists. exists newline. split; [done|]. apply Ascii.eqb_refl.
  - unfold omitemptyPlugin. simpl. rewrite Hd. by destruct dis.
Qed.

Lemma decode_encode c s : encodeConfig c = Ok s → decodeConfig s = Ok (omitempty c).
Proof.
  unfold encodeConfig, decodeConfig. destruct (omitList (Includes c)) eqn:Hi; [done|].
  destruct (mapM _ _) as [lines|] eqn:Hm; [|done]. intros [= <-].
  apply mapM_Some in Hm.
  rewrite strings.Split_Join; [|done|].
  2: { constructor; [by apply (bool_decide_unpack _)|]. clear -Hm.
       induction Hm as [|p s l k Hp]; [done|]. constructor; [by apply encodePlugin_Some in Hp as []|done]. }
  assert (collect decodePlugin [] lines = Ok (omitemptyPlugin <$> pluginList (Plugins c))) as ->.
  { apply collect_Ok. eexists. split; [done|]. clear -Hm.
    induction Hm as [|p s l k Hp]; [constructor|]. constructor; [by apply encodePlugin_Some in Hp as []|done]. }
  cbn [mbind outcome_bind]. f_equal. unfold omitempty. destruct c as [inc [l|]]; simpl in *; by rewrite Hi.
Qed.

Program Definition DynaYaml_lines : DynaYaml := {|
  UnmarshalPlugins := decodeConfig;
  MarshalPlugins := encodeConfig;
  MarshalPluginConfig m := Ok "merged: true";
  decoded c := c = None
|}.
Next Obligation.
  intros s c p l. unfold decodeConfig. destruct (strings.Split s newline) as [|[|[]] lines]; try done.
  intros H Hl Hp. repeat (case_match; try done).
  apply bind_Ok_inv in H as (l' & Hc & [= <-]). apply collect_Ok in Hc as (l'' & -> & Hall). simpl in Hl.
  assert (l'' = l) as -> by (by destruct l''; simplify_eq/=).
  clear -Hall Hp. induction Hall as [|s q lines l Hq Hall IH]; [by apply not_elem_of_nil in Hp|].
  apply elem_of_cons in Hp as [->|Hp]; [|by apply IH].
  unfold decodePlugin in Hq. repeat (case_match; simplify_eq/=; try done).
Qed.
Next Obligation. intros c s _. apply decode_encode. Qed.

End codec.

Section witnesses.
#[local] Existing Instances OS_empty MapOrder_asc Ownership_set DynaYaml_lines.

Definition nl : string := String newline "".
Definition example_first : string := strings.Join ["P"; "E./a"; "D./b"] nl.
Definition example_second : string := strings.Join ["P"; "D./a"; "E./b"; "E./c"] nl.
Definition example_pluginsCM (name data : string) : ConfigMap :=
  emptyConfigMap <| cm_Meta ::= λ m, m <| Name := name |> |> <| cm_Data := Some {[DynamicPluginsFile := data]} |>.

Definition plugins_of (s : string) : list DynaPlugin :=
  match decodeConfig s with Ok c => pluginList (Plugins c) | _ => [] end.

Lemma mergePlugins_by_package_witness :
  mergePlugins (plugins_of example_first) (plugins_of example_second) !! "./b" =
    Some ((packageOnly "./b") <| Disabled := true |>).
Proof.
  rewrite (mergePlugins_by_package (plugins_of example_first) (plugins_of example_second) "./b");
    [by vm_compute|by apply (bool_decide_unpack _)..].
Defined.

Lemma MergePluginsData_result_witness :
  ∃ s c, MergePluginsData example_first example_second = Ok s ∧ UnmarshalPlugins s = Ok c ∧
    NoDup (Package <$> pluginList (Plugins c)) ∧ "./c" ∈ Package <$> pluginList (Plugins c).
Proof.
  destruct (MergePluginsData example_first example_second) as [s|e|w] eqn:E; [|by vm_compute in E..].
  destruct (MergePluginsData_result example_first example_second s E)
    as [[H _]|[(_ & H & _)|(_ & _ & c1 & c2 & l2 & c & _ & H2 & Hc & Hl & Hnd & Hk & _)]]; [by vm_compute in H..|].
  exists s, c. refine (conj eq_refl (conj Hc (conj Hnd _))). apply Hk.
  change (l2 = pluginList (Plugins c2)) in Hl. vm_compute in H2. injection H2 as <-. subst l2.
  rewrite fmap_app. apply elem_of_app. right. by apply (bool_decide_unpack _).
Defined.

Definition example_bs_plugins : api.Backstage :=
  api.mkBackstage (api.bs_Meta example_bs)
    (api.mkBackstageSpec (Some (api.mkApplication None "my-plugins" None None None)) None None (api.mkMonitoring false)
      None None) (api.Status example_bs).

Lemma addDynamicPlugins_result_witness :
  ∃ d cm, addDynamicPlugins (example_pluginsCM "user" example_second) example_bs_plugins
      (Some (ConfObject (KConfigMap (example_pluginsCM "default" example_first)))) = Ok d ∧
    dp_ConfigMap d = Some cm ∧ owned_by example_bs_plugins (cm_Meta cm).
Proof.
  destruct (addDynamicPlugins _ _ _) as [d|e|w] eqn:E; [|by vm_compute in E..].
  pose proof (addDynamicPlugins_result _ _ _ _ E) as H.
  destruct (dp_ConfigMap d) as [cm|] eqn:Ed; [|destruct H as (H & _); discriminate H].
  exists d, cm. exact (conj eq_refl (conj Ed (proj1 H))).
Defined.

Lemma PluginDependencies_enabled_witness :
  PluginDependencies (mkDynamicPlugins (Some (example_pluginsCM "default" example_first)) None None) = Ok [].
Proof.
  destruct (GetPluginsData (Some (example_pluginsCM "default" example_first))) as [ps|e|w] eqn:E; [|by vm_compute in E..].
  rewrite (PluginDependencies_enabled (mkDynamicPlugins (Some (example_pluginsCM "default" example_first)) None None) ps E).
  vm_compute in E. injection E as <-. by vm_compute.
Defined.

End witnesses.

Section image_witness.
#[local] Existing Instances MapOrder_asc.
#[local] Instance OS_dp : OS :=
  OS_of {[OperatorDPProcessingEnvVar := "true"; BackstageImageEnvVar := "quay.io/rhdh:1"; InstallDpImageEnvVar := "quay.io/install:1"]} ∅ ∅.

(** Initialisation installs the dedicated image, finishing overwrites it. *)
Lemma updateDynamicPlugins_image_witness :
  ∃ p p', useInstallImage 0 example_pod = Ok p ∧
    c_Image <$> load p (InitContainer 0) = Some "quay.io/install:1" ∧
    updateDynamicPlugins (mkDynamicPlugins None None (Some (example_pluginsCM "cm" "x"))) p = Ok p' ∧
    ∃ i c', load p' (InitContainer i) = Some c' ∧ c_Image c' = "quay.io/rhdh:1".
Proof.
  destruct (useInstallImage 0 example_pod) as [p|e|w] eqn:E; [|by vm_compute in E..].
  vm_compute in E. injection E as <-.
  match goal with |- ∃ p p', Ok ?q = Ok p ∧ _ => set (p := q) end.
  destruct (updateDynamicPlugins (mkDynamicPlugins None None (Some (example_pluginsCM "cm" "x"))) p) as [p'|e|w] eqn:E';
    [|by vm_compute in E'..].
  exists p, p'. split_and!; [done|by vm_compute|done|].
  destruct (updateDynamicPlugins_image (mkDynamicPlugins None None (Some (example_pluginsCM "cm" "x"))) p p')
    as (i & c' & Hl & _ & Hi); [by vm_compute|done|]. exists i, c'. split; [done|]. rewrite Hi. by vm_compute.
Defined.

End image_witness.
