(* ===== verification/ExternalConfig.v ===== *)
(** * The external configuration (pkg/model/externalconfig.go)

    What the reconciler has read of the objects the custom resource refers to,
    before the model is built. *)

From S2P Require Import Prelude.
From S2P Require Import K8s.
From S2P Require Import Utils.
From stdpp Require Import options.

Definition ExtConfigSyncLabel : string := "rhdh.redhat.com/ext-config-sync".
Definition BackstageNameAnnotation : string := "rhdh.redhat.com/backstage-name".

Record DataObjectKeys := mkDataObjectKeys {
  StringDataKey : list string;
  BinaryDataKey : list string
}.
#[export] Instance DataObjectKeys_eta : Eta DataObjectKeys := λ r, mkDataObjectKeys (StringDataKey r) (BinaryDataKey r).
#[export] Instance DataObjectKeys_eq_dec : EqDecision DataObjectKeys.
Proof. solve_decision. Defined.

Definition NewDataObjectKeys `{!MapOrder} (stringData binaryData : gomap string) : DataObjectKeys :=
  mkDataObjectKeys (SortedKeys stringData) (SortedKeys binaryData).

Definition All (k : DataObjectKeys) : list string := StringDataKey k ++ BinaryDataKey k.

(** [m[name].All()], with the zero value for a missing name *)
Definition keysOf (m : gmap string DataObjectKeys) (name : string) : list string :=
  All (default (mkDataObjectKeys [] []) (m !! name)).

Record ExternalConfig := mkExternalConfig {
  RawConfig : gmap string string;
  ec_DynamicPlugins : ConfigMap;
  AppConfigKeys : gmap string (list string);
  ExtraFileConfigMapKeys : gmap string DataObjectKeys;
  ExtraFileSecretKeys : gmap string DataObjectKeys;
  ExtraEnvConfigMapKeys : gmap string DataObjectKeys;
  ExtraEnvSecretKeys : gmap string DataObjectKeys;
  ExtraPvcKeys : list string;
  OpenShiftIngressDomain : string;
  WatchingHash : string
}.
#[export] Instance ExternalConfig_eta : Eta ExternalConfig := λ r,
  mkExternalConfig (RawConfig r) (ec_DynamicPlugins r) (AppConfigKeys r) (ExtraFileConfigMapKeys r)
    (ExtraFileSecretKeys r) (ExtraEnvConfigMapKeys r) (ExtraEnvSecretKeys r) (ExtraPvcKeys r)
    (OpenShiftIngressDomain r) (WatchingHash r).
#[export] Instance ExternalConfig_eq_dec : EqDecision ExternalConfig.
Proof. solve_decision. Defined.

Definition NewExternalConfig : ExternalConfig :=
  mkExternalConfig ∅ emptyConfigMap ∅ ∅ ∅ ∅ ∅ [] "" "".
