(* ===== verification/ConfigObjects.v ===== *)
(** * Configuration objects of the backend

    ConfigMaps, Secrets and volume claims that are mounted into the pod or
    whose entries become variables: pkg/model/appconfig.go, configmapenvs.go,
    configmapfiles.go, secretenvs.go, secretfiles.go and pvcs.go.  Each
    component first serves the objects of the default or raw configuration and
    then those the custom resource refers to. *)

From S2P Require Import Prelude.
From S2P Require Import GoStrings.
From S2P Require Import K8s.
From S2P Require Import Api.
From S2P Require Import Externals.
From S2P Require Import Utils.
From S2P Require Import Pod.
From S2P Require Import MetaInfo.
From S2P Require Import PluginConfig.
From S2P Require Import DynamicPluginsReference.
From S2P Require Import DynamicPlugins.
From S2P Require Import ExternalConfig.
From stdpp Require Import options.

Definition PluginsAppConfigFile : string := "app-config.dynamic-plugins.yaml".

(** [item.( *T )] with the second result, as the loops use it *)
Definition itemConfigMap (item : KObject) : outcome ConfigMap :=
  match item with
  | KConfigMap cm => Ok cm
  | _ => Err (Errorf ("payload is not ConfigMap kind: " +:+ goType item))
  end.
Definition itemSecret (item : KObject) : outcome Secret :=
  match item with
  | KSecret s => Ok s
  | _ => Err (Errorf ("payload is not Secret kind: " +:+ goType item))
  end.
Definition itemPvc (item : KObject) : outcome PersistentVolumeClaim :=
  match item with
  | KPvc p => Ok p
  | _ => Err (Errorf ("payload is not corev1.PersistentVolumeClaim: " +:+ goType item))
  end.

Definition itemsOf (mo : option MultiObject) : list KObject :=
  match mo with Some mo => Items mo | None => [] end.

(** [GetAnnotations()[ContainersAnnotation]] *)
Definition containersOf (m : ObjectMeta) : containersFilter :=
  filterAnnotation (map_get (Annotations m) ContainersAnnotation).

(** [Object()] of a multi-object component *)
Definition multiObject (mo : option MultiObject) : option MultiObject :=
  match mo with
  | Some mo => if bool_decide (0 < length (Items mo)) then Some mo else None
  | None => None
  end.

Section components.
Context `{mo_ : !MapOrder, own : !Ownership}.

(** [setMetaInfo] when there are items *)
Definition ownItems (ty : string) (backstage : api.Backstage) (mo : option MultiObject) : outcome (option MultiObject) :=
  match multiObject mo with
  | Some mo => mo ← setMultiObjectConfigMetaInfo ty backstage mo; Ok (Some mo)
  | None => Ok mo
  end.

(** ** Variables *)

Definition addConfigMapEnvs (backstage : api.Backstage) (config : option Config) : outcome (option MultiObject) :=
  mo ← optConfig asMultiObject config;
  ownItems "envs" backstage mo.

Definition updateConfigMapEnvs (backstage : api.Backstage) (mo : option MultiObject) (p : PodSpec) : outcome PodSpec :=
  p ← foldM (λ p item,
        cm ← itemConfigMap item;
        wrapErr ("failed to add env vars from configmap " +:+ Name (cm_Meta cm))
          (addEnvVarsFrom (containersOf (cm_Meta cm)) ConfigMapObjectKind (Name (cm_Meta cm)) "" p)) p (itemsOf mo);
  match api.specExtraEnvs (api.Spec backstage) with
  | None => Ok p
  | Some ee =>
      foldM (λ p specCm,
        wrapErr ("failed to add env vars on config map " +:+ api.eor_Name specCm)
          (addEnvVarsFrom (filterNames (api.eor_Containers specCm)) ConfigMapObjectKind
             (api.eor_Name specCm) (api.eor_Key specCm) p)) p (api.ee_ConfigMaps ee)
  end.

(** Without configuration an empty multi-object is made. *)
Definition addSecrets (ty : string) (backstage : api.Backstage) (config : option Config) : outcome (option MultiObject) :=
  mo ← match config with
       | Some c => asMultiObject c
       | None => Ok emptyMultiObject
       end;
  ownItems ty backstage (Some mo).

Definition addSecretEnvs := addSecrets "envs".

Definition updateSecretEnvs (backstage : api.Backstage) (mo : option MultiObject) (p : PodSpec) : outcome PodSpec :=
  p ← foldM (λ p item,
        s ← itemSecret item;
        wrapErr ("failed to add env vars from secret " +:+ Name (sec_Meta s))
          (addEnvVarsFrom (containersOf (sec_Meta s)) SecretObjectKind (Name (sec_Meta s)) "" p)) p (itemsOf mo);
  match api.specExtraEnvs (api.Spec backstage) with
  | None => Ok p
  | Some ee =>
      foldM (λ p specSec,
        wrapErr ("failed to add env vars on secret " +:+ api.eor_Name specSec)
          (addEnvVarsFrom (filterNames (api.eor_Containers specSec)) SecretObjectKind
             (api.eor_Name specSec) (api.eor_Key specSec) p)) p (api.ee_Secrets ee)
  end.

(** ** Files *)

Definition addConfigMapFiles (backstage : api.Backstage) (config : option Config) : outcome (option MultiObject) :=
  mo ← optConfig asMultiObject config;
  ownItems "files" backstage mo.

(** The files of an object of the configuration *)
Definition mountConfigured (kind : ObjectKind) (m : ObjectMeta) (keys : list string) (p : PodSpec) : outcome PodSpec :=
  '(mp, subPath, fileName) ← getDefConfigMountPath p m;
  mountFilesFrom (containersOf m) kind (Name m) mp fileName (negb (bool_decide (subPath = ""))) keys p.

(** The files of an object the custom resource refers to *)
Definition mountReferred (kind : ObjectKind) (ref : api.FileObjectRef) (shared : string) (keys : list string)
    (p : PodSpec) : outcome PodSpec :=
  '(mp, wSubpath) ← mountPath p (api.for_MountPath ref) (api.for_Key ref) shared;
  mountFilesFrom (filterNames (api.for_Containers ref)) kind (api.for_Name ref) mp (api.for_Key ref) wSubpath keys p.

Definition updateConfigMapFiles (ec : ExternalConfig) (backstage : api.Backstage) (mo : option MultiObject)
    (p : PodSpec) : outcome PodSpec :=
  p ← foldM (λ p item,
        cm ← itemConfigMap item;
        wrapErr ("failed to add files from configmap " +:+ Name (cm_Meta cm))
          (mountConfigured ConfigMapObjectKind (cm_Meta cm) (SortedKeys (cm_Data cm) ++ SortedKeys (cm_BinaryData cm)) p))
        p (itemsOf mo);
  match api.specExtraFiles (api.Spec backstage) with
  | None => Ok p
  | Some ef =>
      foldM (λ p specCm,
        wrapErr ("failed to mount files on configmap " +:+ api.for_Name specCm)
          (mountReferred ConfigMapObjectKind specCm (api.ef_MountPath ef)
             (keysOf (ExtraFileConfigMapKeys ec) (api.for_Name specCm)) p)) p (api.ef_ConfigMaps ef)
  end.

Definition addSecretFiles := addSecrets "files".

Definition updateSecretFiles (ec : ExternalConfig) (backstage : api.Backstage) (mo : option MultiObject)
    (p : PodSpec) : outcome PodSpec :=
  p ← foldM (λ p item,
        s ← itemSecret item;
        wrapErr ("failed to add files from secret " +:+ Name (sec_Meta s))
          (mountConfigured SecretObjectKind (sec_Meta s) (SortedKeys (sec_Data s) ++ SortedKeys (sec_StringData s)) p))
        p (itemsOf mo);
  match api.specExtraFiles (api.Spec backstage) with
  | None => Ok p
  | Some ef =>
      foldM (λ p specSec,
        if bool_decide (api.for_MountPath specSec = "" ∧ api.for_Key specSec = "") then
          Err (Errorf ("key or mountPath has to be specified for secret " +:+ api.for_Name specSec))
        else
          wrapErr ("failed to mount files on secret " +:+ api.for_Name specSec)
            (mountReferred SecretObjectKind specSec (api.ef_MountPath ef)
               (keysOf (ExtraFileSecretKeys ec) (api.for_Name specSec)) p)) p (api.ef_Secrets ef)
  end.

(** ** Volume claims *)

Definition addPvcs (backstage : api.Backstage) (config : option Config) : outcome (option MultiObject) :=
  mo ← optConfig asMultiObject config;
  ownItems "pvcs" backstage mo.

Definition updatePvcs (backstage : api.Backstage) (mo : option MultiObject) (p : PodSpec) : outcome PodSpec :=
  p ← foldM (λ p item,
        pvc ← itemPvc item;
        '(mp, subPath, _) ← getDefConfigMountPath p (pvc_Meta pvc);
        wrapErr ("failed to get containers for pvc " +:+ Name (pvc_Meta pvc))
          (addPvc (Name (pvc_Meta pvc)) mp subPath (containersOf (pvc_Meta pvc)) p)) p (itemsOf mo);
  match api.specExtraFiles (api.Spec backstage) with
  | None => Ok p
  | Some ef =>
      foldM (λ p pvcSpec,
        mps ← mountPath p (api.pr_MountPath pvcSpec) "" (api.ef_MountPath ef);
        let '(mp, subPath) :=
          if (mps.2 : bool)
          then (filepath.Join [mps.1; api.pr_Name pvcSpec], ToRFC1123Label (api.pr_Name pvcSpec))
          else (mps.1, "") in
        wrapErr ("failed to add pvc " +:+ api.pr_Name pvcSpec)
          (addPvc (api.pr_Name pvcSpec) mp subPath (filterNames (api.pr_Containers pvcSpec)) p)) p (api.ef_Pvcs ef)
  end.

(** ** App-config *)

Definition addAppConfig (backstage : api.Backstage) (config : option Config) : outcome MultiObject :=
  match config with
  | Some c => asMultiObject c
  | None => Ok emptyMultiObject
  end.

(** The configurations of the enabled plugins merged in their order. *)
Definition mergeEnabledConfigs (plugins : list DynaPlugin) : outcome (gmap string any) :=
  foldM (λ mergedConfig plugin,
    let src := map_make (PluginConfig plugin) in
    mergePluginConfigs (S (mdepth src)) mergedConfig src) ∅ plugins.

Definition pluginsAppConfig (namespace configYaml : string) : ConfigMap :=
  mkConfigMap (mkTypeMeta "v1" "ConfigMap") (mkObjectMeta "plugins-appconfig" namespace None None [])
    (Some {[PluginsAppConfigFile := configYaml]}) None.

Context `{dy : !DynaYaml}.

(** [plugins] is [enabledPlugins] of the component under [DynamicPluginsKey],
    if the model holds one. *)
Definition addPluginsAppConfig (namespace : string) (plugins : option (list DynaPlugin)) (mo : MultiObject) :
    outcome MultiObject :=
  match plugins with
  | None => Ok mo
  | Some plugins =>
      mergedConfig ← mergeEnabledConfigs plugins;
      if bool_decide (size mergedConfig = 0) then Ok mo
      else
        configYaml ← wrapErr "failed to marshal plugin configs" (MarshalPluginConfig mergedConfig);
        Ok (mo <| Items ::= λ items, KConfigMap (pluginsAppConfig namespace configYaml) :: items |>)
  end.

Definition updateAppConfig (ec : ExternalConfig) (backstage : api.Backstage) (plugins : option (list DynaPlugin))
    (mo : MultiObject) (p : PodSpec) : outcome (MultiObject * PodSpec) :=
  mo ← addPluginsAppConfig (api.bsNamespace backstage) plugins mo;
  mo ← setMultiObjectConfigMetaInfo "appconfig" backstage mo;
  p ← foldM (λ p item,
        cm ← itemConfigMap item;
        mp ← defaultMountPath p;
        updatePodWithAppConfig (Name (cm_Meta cm)) mp "" true (SortedKeys (cm_Data cm)) p) p (Items mo);
  p ← match api.specAppConfig (api.Spec backstage) with
      | None => Ok p
      | Some ac =>
          foldM (λ p specCm,
            '(mp, wSubpath) ← mountPath p (api.for_MountPath specCm) (api.for_Key specCm) (api.ac_MountPath ac);
            updatePodWithAppConfig (api.for_Name specCm) mp (api.for_Key specCm) wSubpath
              (default [] (AppConfigKeys ec !! api.for_Name specCm)) p) p (api.ac_ConfigMaps ac)
      end;
  Ok (mo, p).

End components.

(** ** Variables: what the updates add *)

(** One call of [addEnvVarsFrom] *)
Record EnvRequest := mkEnvRequest {
  er_filter : containersFilter;
  er_kind : ObjectKind;
  er_name : string;
  er_var : string
}.

(** The calls of the two components, those for the configuration first *)
Definition itemRequest (kind : ObjectKind) (item : KObject) : EnvRequest :=
  mkEnvRequest (containersOf (objectMeta item)) kind (Name (objectMeta item)) "".
Definition refRequest (kind : ObjectKind) (ref : api.EnvObjectRef) : EnvRequest :=
  mkEnvRequest (filterNames (api.eor_Containers ref)) kind (api.eor_Name ref) (api.eor_Key ref).

Definition configMapRequests (backstage : api.Backstage) (mo : option MultiObject) : list EnvRequest :=
  (itemRequest ConfigMapObjectKind <$> itemsOf mo) ++
  (refRequest ConfigMapObjectKind <$> match api.specExtraEnvs (api.Spec backstage) with Some ee => api.ee_ConfigMaps ee | None => [] end).
Definition secretRequests (backstage : api.Backstage) (mo : option MultiObject) : list EnvRequest :=
  (itemRequest SecretObjectKind <$> itemsOf mo) ++
  (refRequest SecretObjectKind <$> match api.specExtraEnvs (api.Spec backstage) with Some ee => api.ee_Secrets ee | None => [] end).

Section env_requests.

(** How often a request names a container *)
Definition hits (p : PodSpec) (r : ContainerRef) (q : EnvRequest) : nat :=
  match getContainers (er_filter q) p with
  | Ok rs => length (filter (.= r) rs)
  | _ => 0
  end.

(** The sources and the single variables a list of requests gives [r] *)
Definition envFromOf (p : PodSpec) (qs : list EnvRequest) (r : ContainerRef) : list EnvFromSource :=
  qs ≫= λ q,
    if bool_decide (er_var q = "")
    then replicate (hits p r q) (if bool_decide (er_kind q = ConfigMapObjectKind) then ConfigMapRef (er_name q) else SecretRef (er_name q))
    else [].
Definition envOf (p : PodSpec) (qs : list EnvRequest) (r : ContainerRef) : list EnvVar :=
  qs ≫= λ q,
    if bool_decide (er_var q = "") then []
    else replicate (hits p r q) (mkEnvVar (er_var q) ""
      (Some (if bool_decide (er_kind q = ConfigMapObjectKind) then ConfigMapKeyRef (er_name q) (er_var q) else SecretKeyRef (er_name q) (er_var q)))).

Definition runRequest (p : PodSpec) (q : EnvRequest) : outcome PodSpec :=
  addEnvVarsFrom (er_filter q) (er_kind q) (er_name q) (er_var q) p.

Lemma hits_proper p p' r q : same_names p p' → hits p r q = hits p' r q.
Proof. intros H. unfold hits. by rewrite (getContainers_proper _ _ _ H). Qed.

Lemma envFromOf_proper p p' qs r : same_names p p' → envFromOf p qs r = envFromOf p' qs r.
Proof. intros H. unfold envFromOf. apply list_bind_ext; [|done]. intros q. by rewrite (hits_proper _ _ _ _ H). Qed.

Lemma envOf_proper p p' qs r : same_names p p' → envOf p qs r = envOf p' qs r.
Proof. intros H. unfold envOf. apply list_bind_ext; [|done]. intros q. by rewrite (hits_proper _ _ _ _ H). Qed.

Lemma envFromOf_cons p q qs r : envFromOf p (q :: qs) r = envFromOf p [q] r ++ envFromOf p qs r.
Proof. unfold envFromOf. by rewrite <- bind_app. Qed.

Lemma envOf_cons p q qs r : envOf p (q :: qs) r = envOf p [q] r ++ envOf p qs r.
Proof. unfold envOf. by rewrite <- bind_app. Qed.

#[local] Arguments envFromOf : simpl never.
#[local] Arguments envOf : simpl never.

Lemma iter_app_envFrom n (x : EnvFromSource) c :
  Nat.iter n (λ c, c <| c_EnvFrom ::= λ l, l ++ [x] |>) c = c <| c_EnvFrom ::= λ l, l ++ replicate n x |>.
Proof.
  induction n as [|n IH]; [destruct c; simpl; by rewrite app_nil_r|].
  rewrite Nat.iter_succ, IH. destruct c; simpl. f_equal.
  by rewrite <- (assoc_L (++)), <- replicate_S_end.
Qed.

Lemma iter_app_env n (x : EnvVar) c :
  Nat.iter n (λ c, c <| c_Env ::= λ l, l ++ [x] |>) c = c <| c_Env ::= λ l, l ++ replicate n x |>.
Proof.
  induction n as [|n IH]; [destruct c; simpl; by rewrite app_nil_r|].
  rewrite Nat.iter_succ, IH. destruct c; simpl. f_equal.
  by rewrite <- (assoc_L (++)), <- replicate_S_end.
Qed.

Lemma runRequest_effect p q p' :
  er_kind q = ConfigMapObjectKind ∨ er_kind q = SecretObjectKind →
  runRequest p q = Ok p' →
  same_names p' p ∧
  ∀ r, load p' r = (λ c, c <| c_EnvFrom ::= λ l, l ++ envFromOf p [q] r |> <| c_Env ::= λ l, l ++ envOf p [q] r |>) <$> load p r.
Proof.
  intros Hk Hr. split; [by eapply addEnvVarsFrom_same_names|]. intros r.
  unfold envFromOf, envOf. cbn [mbind list_bind]. rewrite !app_nil_r. unfold hits.
  apply addEnvVarsFrom_inv in Hr as (rs & [[Hrs Hs]|[Hrs ->]]).
  2: { rewrite Hrs. simpl. destruct (load p r) as [[]|]; [|done]. simpl. by case_bool_decide; rewrite !app_nil_r. }
  rewrite Hrs. case_bool_decide as Hv; destruct Hs as (src & Hsrc & ->); rewrite load_storeAll;
    (destruct (load p r) as [c|]; [|done]); cbn [fmap option_fmap option_map]; f_equal.
  - rewrite iter_app_envFrom. destruct c; simpl. rewrite app_nil_r. do 3 f_equal.
    unfold envFromSource in Hsrc. destruct Hk as [Hk|Hk]; rewrite Hk in *; vm_compute in Hsrc; by injection Hsrc as <-.
  - rewrite iter_app_env. destruct c; simpl. rewrite app_nil_r. do 3 f_equal.
    unfold envVarSource in Hsrc. destruct Hk as [Hk|Hk]; rewrite Hk in *; vm_compute in Hsrc; by injection Hsrc as <-.
Qed.

Lemma runRequests_effect qs p p' :
  Forall (λ q, er_kind q = ConfigMapObjectKind ∨ er_kind q = SecretObjectKind) qs →
  foldM runRequest p qs = Ok p' →
  same_names p' p ∧
  ∀ r, load p' r = (λ c, c <| c_EnvFrom ::= λ l, l ++ envFromOf p qs r |> <| c_Env ::= λ l, l ++ envOf p qs r |>) <$> load p r.
Proof.
  intros Hk. revert p. induction Hk as [|q qs Hq Hqs IH]; intros p Hr.
  { injection Hr as <-. split; [done|]. intros r. unfold envFromOf, envOf. destruct (load p r) as [[]|]; [|done].
    simpl. by rewrite !app_nil_r. }
  simpl in Hr. apply bind_Ok_inv in Hr as (p1 & H1 & Hr).
  destruct (runRequest_effect _ _ _ Hq H1) as [Hn1 Hl1]. destruct (IH _ Hr) as [Hn Hl].
  split; [by rewrite Hn|]. intros r. rewrite Hl, Hl1. destruct (load p r) as [[]|]; [|done]. simpl.
  rewrite (envFromOf_proper _ _ qs r Hn1), (envOf_proper _ _ qs r Hn1).
  by rewrite <- !(assoc_L (++)), <- envFromOf_cons, <- envOf_cons.
Qed.

(** A loop over items and one over references as one list of requests *)
Lemma env_update_requests {A} (kind : ObjectKind) (get : KObject → outcome A) (meta : A → ObjectMeta)
    (msg1 msg2 : string) items refs p p' :
  (∀ item a, get item = Ok a → meta a = objectMeta item) →
  (p1 ← foldM (λ p item, a ← get item;
      wrapErr (msg1 +:+ Name (meta a)) (addEnvVarsFrom (containersOf (meta a)) kind (Name (meta a)) "" p)) p items;
   foldM (λ p ref, wrapErr (msg2 +:+ api.eor_Name ref)
      (addEnvVarsFrom (filterNames (api.eor_Containers ref)) kind (api.eor_Name ref) (api.eor_Key ref) p)) p1 refs) = Ok p' →
  foldM runRequest p ((itemRequest kind <$> items) ++ (refRequest kind <$> refs)) = Ok p'.
Proof.
  intros Hget H. rewrite foldM_app. apply bind_Ok_inv in H as (p1 & H1 & H2).
  assert (foldM runRequest p (itemRequest kind <$> items) = Ok p1) as ->.
  { clear H2. revert p H1. induction items as [|item items IH]; intros p H1; [done|].
    simpl in *. apply bind_Ok_inv in H1 as (p2 & H1 & H3).
    apply bind_Ok_inv in H1 as (a & Ha & H1%wrapErr_Ok_inv). rewrite (Hget _ _ Ha) in H1.
    assert (runRequest p (itemRequest kind item) = Ok p2) as -> by exact H1. simpl. by apply IH. }
  simpl. clear H1. revert p1 H2. induction refs as [|ref refs IH]; intros p1 H2; [done|].
  simpl in *. apply bind_Ok_inv in H2 as (p2 & H1%wrapErr_Ok_inv & H2).
  assert (runRequest p1 (refRequest kind ref) = Ok p2) as -> by exact H1. simpl. by apply IH.
Qed.

End env_requests.

Section updates.
Context `{mo_ : !MapOrder}.

(** A pod whose containers have been given the variables of some requests *)
Definition with_requests (qs : list EnvRequest) (p p' : PodSpec) : Prop :=
  same_names p' p ∧
  ∀ r, load p' r = (λ c, c <| c_EnvFrom ::= λ l, l ++ envFromOf p qs r |> <| c_Env ::= λ l, l ++ envOf p qs r |>) <$> load p r.

Lemma requests_kind kind1 kind2 (l1 : list KObject) (l2 : list api.EnvObjectRef) :
  (kind1 = ConfigMapObjectKind ∨ kind1 = SecretObjectKind) → (kind2 = ConfigMapObjectKind ∨ kind2 = SecretObjectKind) →
  Forall (λ q, er_kind q = ConfigMapObjectKind ∨ er_kind q = SecretObjectKind)
    ((itemRequest kind1 <$> l1) ++ (refRequest kind2 <$> l2)).
Proof. intros H1 H2. apply Forall_app. split; apply Forall_fmap, Forall_true; done. Qed.

(** The variables of ConfigMaps and Secrets are appended to the selected
    containers, those of the configuration first and those of the custom
    resource after them, in their order; nothing else in the pod changes. *)
Theorem update_envs_effect backstage mo p p' :
  (updateConfigMapEnvs backstage mo p = Ok p' → with_requests (configMapRequests backstage mo) p p') ∧
  (updateSecretEnvs backstage mo p = Ok p' → with_requests (secretRequests backstage mo) p p').
Proof.
  split; intros H; apply runRequests_effect;
    try (apply requests_kind; auto).
  - apply (env_update_requests _ itemConfigMap cm_Meta "failed to add env vars from configmap " "failed to add env vars on config map ").
    { intros [] a Ha; try done. by injection Ha as <-. }
    unfold updateConfigMapEnvs in H. by destruct (api.specExtraEnvs _).
  - apply (env_update_requests _ itemSecret sec_Meta "failed to add env vars from secret " "failed to add env vars on secret ").
    { intros [] a Ha; try done. by injection Ha as <-. }
    unfold updateSecretEnvs in H. by destruct (api.specExtraEnvs _).
Qed.

End updates.

(** ** Files: mount paths stay unique *)

Section files.
Context `{mo_ : !MapOrder}.

(** The keys of an object: each once, each the name of a file.  The API
    server admits no other ConfigMap or Secret. *)
Definition file_keys (keys : list string) : Prop := NoDup keys ∧ Forall filepath.entry_name keys.

Definition itemKeys (item : KObject) : list string :=
  match item with
  | KConfigMap cm => SortedKeys (cm_Data cm) ++ SortedKeys (cm_BinaryData cm)
  | KSecret s => SortedKeys (sec_Data s) ++ SortedKeys (sec_StringData s)
  | _ => []
  end.

Definition good_keys (mo : option MultiObject) (m : gmap string DataObjectKeys) : Prop :=
  (∀ item, item ∈ itemsOf mo → file_keys (itemKeys item)) ∧ (∀ name, file_keys (keysOf m name)).

Lemma mountConfigured_unique kind m keys p p' :
  file_keys keys → unique_paths p → mountConfigured kind m keys p = Ok p' → unique_paths p'.
Proof.
  intros [Hn He] Hu H. unfold mountConfigured in H. apply bind_Ok_inv in H as ([[mp sp] fn] & _ & H).
  by eapply mountFilesFrom_unique_paths.
Qed.

Lemma mountReferred_unique kind ref shared keys p p' :
  file_keys keys → unique_paths p → mountReferred kind ref shared keys p = Ok p' → unique_paths p'.
Proof.
  intros [Hn He] Hu H. unfold mountReferred in H. apply bind_Ok_inv in H as ([mp ws] & _ & H).
  by eapply mountFilesFrom_unique_paths.
Qed.

(** C31. Mounting the files of the default configuration and of the custom
    resource never gives a container two mounts at one path. *)
Theorem update_files_unique_paths ec backstage mo p p' :
  unique_paths p →
  (good_keys mo (ExtraFileConfigMapKeys ec) → updateConfigMapFiles ec backstage mo p = Ok p' → unique_paths p') ∧
  (good_keys mo (ExtraFileSecretKeys ec) → updateSecretFiles ec backstage mo p = Ok p' → unique_paths p').
Proof.
  intros Hu. split; intros [Hi Hr] H.
  - unfold updateConfigMapFiles in H. apply bind_Ok_inv in H as (p1 & H1 & H).
    assert (unique_paths p1) as Hu1.
    { eapply (foldM_invariant unique_paths); [|exact Hu|exact H1].
      intros q item q' Hin Hq Hs. apply bind_Ok_inv in Hs as (cm & Hcm & Hs%wrapErr_Ok_inv).
      eapply mountConfigured_unique; [|exact Hq|exact Hs]. specialize (Hi item Hin).
      destruct item; try done. by injection Hcm as <-. }
    destruct (api.specExtraFiles _) as [ef|]; [|by injection H as <-].
    eapply (foldM_invariant unique_paths); [|exact Hu1|exact H].
    intros q ref q' Hin Hq Hs%wrapErr_Ok_inv. eapply mountReferred_unique; [|exact Hq|exact Hs]. apply Hr.
  - unfold updateSecretFiles in H. apply bind_Ok_inv in H as (p1 & H1 & H).
    assert (unique_paths p1) as Hu1.
    { eapply (foldM_invariant unique_paths); [|exact Hu|exact H1].
      intros q item q' Hin Hq Hs. apply bind_Ok_inv in Hs as (s & Hcm & Hs%wrapErr_Ok_inv).
      eapply mountConfigured_unique; [|exact Hq|exact Hs]. specialize (Hi item Hin).
      destruct item; try done. by injection Hcm as <-. }
    destruct (api.specExtraFiles _) as [ef|]; [|by injection H as <-].
    eapply (foldM_invariant unique_paths); [|exact Hu1|exact H].
    intros q ref q' Hin Hq Hs. cbn beta in Hs.
    destruct (bool_decide (api.for_MountPath ref = "" ∧ api.for_Key ref = "")); [discriminate Hs|].
    apply wrapErr_Ok_inv in Hs.
    eapply mountReferred_unique; [|exact Hq|exact Hs]. apply Hr.
Qed.

End files.

Section duplicates.
#[local] Existing Instance MapOrder_asc.

(** Two keys of one ConfigMap, each with its own path *)
Definition example_bs_files : api.Backstage :=
  api.mkBackstage (api.bs_Meta example_bs)
    (api.mkBackstageSpec (Some (api.mkApplication None "" (Some (api.mkExtraFiles "" [
        api.mkFileObjectRef "cm" "a.yaml" "/etc/a" []; api.mkFileObjectRef "cm" "b.yaml" "/etc/b" []] [] [])) None None))
      None None (api.mkMonitoring false) None None) (api.Status example_bs).
Definition example_ec_files : ExternalConfig :=
  NewExternalConfig <| ExtraFileConfigMapKeys := {["cm" := mkDataObjectKeys ["a.yaml"; "b.yaml"] []]} |>.

(** A ConfigMap that the custom resource refers to twice, for two of its
    keys, becomes two volumes of one name, which the API server rejects. *)
Theorem update_files_duplicate_volume :
  ∃ ec backstage p p', updateConfigMapFiles ec backstage None p = Ok p' ∧
    NoDup (v_Name <$> Volumes p) ∧ ¬ NoDup (v_Name <$> Volumes p').
Proof.
  exists example_ec_files, example_bs_files, example_pod.
  destruct (updateConfigMapFiles example_ec_files example_bs_files None example_pod) as [p'|e|w] eqn:E;
    [|by vm_compute in E..].
  exists p'. split_and!; [done|by apply (bool_decide_unpack _)|].
  vm_compute in E. injection E as <-. by apply (bool_decide_unpack _).
Qed.

Lemma update_files_unique_paths_witness :
  ∃ p', updateConfigMapFiles example_ec_files example_bs_files None example_pod = Ok p' ∧ unique_paths p'.
Proof.
  destruct (updateConfigMapFiles example_ec_files example_bs_files None example_pod) as [p'|e|w] eqn:E;
    [|by vm_compute in E..].
  exists p'. split; [done|]. revert E. apply (update_files_unique_paths example_ec_files example_bs_files None example_pod p').
  - intros [[|[|i]]|[|i]] c Hc; vm_compute in Hc; simplify_eq; simpl; by apply (bool_decide_unpack _).
  - split; [by intros item Hin%not_elem_of_nil|]. intros name. unfold keysOf.
    destruct (decide (name = "cm")) as [->|Hne].
    + split; [by apply (bool_decide_unpack _)|by apply filepath.entry_names_dec].
    + unfold example_ec_files. simpl. rewrite lookup_singleton_ne by done. split; constructor.
Defined.

Lemma update_envs_effect_witness :
  ∃ p', updateSecretEnvs example_bs (Some (mkMultiObject None [KSecret emptySecret])) example_pod = Ok p' ∧
    c_EnvFrom <$> load p' (MainContainer 0) = Some [SecretRef ""].
Proof.
  destruct (updateSecretEnvs example_bs (Some (mkMultiObject None [KSecret emptySecret])) example_pod) as [p'|e|w] eqn:E;
    [|by vm_compute in E..].
  exists p'. split; [done|].
  destruct (update_envs_effect example_bs (Some (mkMultiObject None [KSecret emptySecret])) example_pod p') as [_ H].
  destruct (H E) as [_ Hl]. rewrite Hl. by vm_compute.
Defined.

End duplicates.
