(* ===== verification/AppConfigArgs.v ===== *)
(** * The order of the application configurations (pkg/model/appconfig.go)

    Backstage reads the app-config files in the order of its [--config]
    arguments and lets the later ones override the earlier ones.  The
    arguments come in the order configuration of the plugins, default
    configuration, custom resource. *)

From S2P Require Import Prelude.
From S2P Require Import GoStrings.
From S2P Require Import K8s.
From S2P Require Import Api.
From S2P Require Import Externals.
From S2P Require Import Utils.
From S2P Require Import Pod.
From S2P Require Import MetaInfo.
From S2P Require Import DynamicPluginsReference.
From S2P Require Import DynamicPlugins.
From S2P Require Import ExternalConfig.
From S2P Require Import ConfigObjects.
From stdpp Require Import options.

(** The arguments for the files of one ConfigMap *)
Definition configArgs (mp key : string) (files : list string) : list string :=
  filter (λ file, key = "" ∨ key = file) files ≫= λ file, ["--config"; filepath.Join [mp; file]].

(** What the arguments depend on *)
Definition argsOf (c : Container) : list string * string := (c_Args c, c_WorkingDir c).

(** The step appends to the arguments of the container [r] and leaves the
    arguments and directories of all the others. *)
Record appends (r : ContainerRef) (args : list string) (p p' : PodSpec) : Prop := {
  ap_names : same_names p' p;
  ap_args r' : argsOf <$> load p' r' =
    if decide (r' = r) then (λ a : list string * string, (a.1 ++ args, a.2)) <$> (argsOf <$> load p r') else argsOf <$> load p r'
}.

Lemma appends_nil r p p' : same_names p' p → (∀ r', argsOf <$> load p' r' = argsOf <$> load p r') → appends r [] p p'.
Proof.
  intros Hn Ha. split; [done|]. intros r'. rewrite Ha. case_decide; [|done].
  destruct (load p r'); [|done]. simpl. by rewrite app_nil_r.
Qed.

Lemma appends_trans r args args' p1 p2 p3 : appends r args p1 p2 → appends r args' p2 p3 → appends r (args ++ args') p1 p3.
Proof.
  intros [Hn1 H1] [Hn2 H2]. split; [by etrans|]. intros r'. rewrite H2, H1. case_decide; [|done].
  destruct (load p1 r'); [|done]. simpl. by rewrite (assoc_L (++)).
Qed.

Lemma appends_store r args p :
  appends r args p (store r (λ c, c <| c_Args ::= λ l, l ++ args |>) p).
Proof.
  split; [by apply store_same_names|]. intros r'. rewrite load_store.
  destruct (decide (r = r')) as [->|Hr]; [rewrite decide_True by done|rewrite decide_False by done; done].
  by destruct (load p r').
Qed.

Lemma appends_mount r f kind name mp fn sub keys p p' :
  mountFilesFrom f kind name mp fn sub keys p = Ok p' → appends r [] p p'.
Proof.
  intros Hm. apply appends_nil; [by eapply mountFilesFrom_same_names|]. intros r'.
  apply mountFilesFrom_inv in Hm as (rs & _ & ->). rewrite load_storeAll.
  assert (load (p <| Volumes ::= λ l, l ++ [mkVolume (GenerateVolumeNameFromCmOrSecret name) (volumeSource kind name)] |>) r' = load p r')
    as -> by by destruct r'.
  destruct (load p r') as [c|]; [|done]. simpl. f_equal.
  induction (length _) as [|n IH]; [done|]. simpl. exact IH.
Qed.

Lemma appends_files r mp key files p :
  appends r (configArgs mp key files) p
    (foldl (λ p file, if bool_decide (key = "" ∨ key = file)
       then store r (λ c, c <| c_Args ::= λ l, l ++ ["--config"; filepath.Join [mp; file]] |>) p else p) p files).
Proof.
  revert p. induction files as [|file files IH]; intros p; [by apply appends_nil|].
  unfold configArgs. rewrite filter_cons. cbn [foldl].
  destruct (decide (key = "" ∨ key = file)) as [H|H].
  - rewrite bool_decide_eq_true_2 by done. eapply (appends_trans _ _ _ _ _ _); [apply appends_store|apply IH].
  - rewrite bool_decide_eq_false_2 by done. apply IH.
Qed.

Lemma appends_update r name mp key sub files p p' :
  container p = Ok r → updatePodWithAppConfig name mp key sub files p = Ok p' →
  appends r (configArgs mp key files) p p' ∧ length files ≤ 1.
Proof.
  intros Hr H. unfold updatePodWithAppConfig in H. case_bool_decide as Hl; [done|]. split; [|lia].
  apply bind_Ok_inv in H as (q & Hq & H). apply bind_Ok_inv in H as (c & Hc & H). apply (inj Ok) in H as <-.
  assert (appends r [] p q) as Ha.
  { destruct (mountFilesFrom _ _ _ _ _ _ _ _) as [q'|e|w] eqn:E; [|by injection Hq as <-; apply appends_nil|done].
    injection Hq as <-. by eapply appends_mount. }
  assert (c = r) as -> by (rewrite (container_proper _ _ (ap_names _ _ _ _ Ha)) in Hc; congruence).
  change (configArgs mp key files) with ([] ++ configArgs mp key files). eapply appends_trans; [exact Ha|apply appends_files].
Qed.

(** Paths depend on the name and the directory of the backend container only. *)
Lemma appends_paths r args p p' :
  appends r args p p' → defaultMountPath p' = defaultMountPath p ∧
  ∀ omp key shared, mountPath p' omp key shared = mountPath p omp key shared.
Proof.
  intros [Hn Ha]. assert (defaultMountPath p' = defaultMountPath p) as Hd.
  { unfold defaultMountPath. rewrite (container_proper _ _ Hn). destruct (container p) as [r'|e|w]; [|done..]. simpl.
    specialize (Ha r'). destruct (load p' r') as [c'|], (load p r') as [c|]; simpl in *; try (by case_decide).
    assert (c_WorkingDir c' = c_WorkingDir c) as -> by (case_decide; by injection Ha). done. }
  split; [done|]. intros. unfold mountPath. by rewrite Hd.
Qed.

Section order.
Context `{mo_ : !MapOrder, own : !Ownership, dy : !DynaYaml}.

(** The arguments for an object of the configuration, and for a reference *)
Definition itemArgs (base : string) (item : KObject) : list string :=
  match item with
  | KConfigMap cm => configArgs base "" (SortedKeys (cm_Data cm))
  | _ => []
  end.
Definition refArgs (ec : ExternalConfig) (p : PodSpec) (shared : string) (ref : api.FileObjectRef) : list string :=
  match mountPath p (api.for_MountPath ref) (api.for_Key ref) shared with
  | Ok (mp, _) => configArgs mp (api.for_Key ref) (default [] (AppConfigKeys ec !! api.for_Name ref))
  | _ => []
  end.
Definition crArgs (ec : ExternalConfig) (p : PodSpec) (s : api.BackstageSpec) : list string :=
  match api.specAppConfig s with
  | None => []
  | Some ac => api.ac_ConfigMaps ac ≫= refArgs ec p (api.ac_MountPath ac)
  end.

(** A loop of steps that append *)
Lemma appends_loop {B} r (f : PodSpec → B → outcome PodSpec) (g : B → list string) (p0 : PodSpec) l p p' done_ :
  container p0 = Ok r →
  (∀ q q' b args, appends r args p0 q → f q b = Ok q' → appends r (g b) q q') →
  appends r done_ p0 p → foldM f p l = Ok p' → appends r (done_ ++ (l ≫= g)) p0 p'.
Proof.
  intros Hr Hf. revert p done_. induction l as [|b l IH]; intros p done_ Hp H.
  { injection H as <-. by rewrite app_nil_r. }
  apply bind_Ok_inv in H as (q & Hq & H). simpl. rewrite (assoc_L (++)).
  apply (IH q); [|done]. eapply appends_trans; [done|]. by eapply Hf.
Qed.

(** What every step of a loop that succeeds needs *)
Lemma foldM_needs {A B} (P : B → Prop) (f : A → B → outcome A) l x y :
  (∀ x y b, f x b = Ok y → P b) → foldM f x l = Ok y → Forall P l.
Proof.
  intros Hf. revert x. induction l as [|b l IH]; intros x H; [done|].
  apply bind_Ok_inv in H as (z & Hz & H). constructor; [by eapply Hf|by eapply IH].
Qed.

Lemma update_single name mp key sub files p p' :
  updatePodWithAppConfig name mp key sub files p = Ok p' → length files ≤ 1.
Proof. unfold updatePodWithAppConfig. case_bool_decide; [done|lia]. Qed.

(** C37. The backend is started with one [--config] per application
    configuration, appended to what it had: first the configurations of the
    model, in their order, then those of the custom resource in theirs, so that
    the user's settings have the last word; no other container gets any.  This
    takes that every ConfigMap, of the model and of the custom resource alike,
    holds at most one file, as docs/configuration.md asks: with more files in one
    the step does not succeed, although the comment of the API allows them. *)
Theorem updateAppConfig_args ec b plugins mo p mo' p' r c base :
  updateAppConfig ec b plugins mo p = Ok (mo', p') →
  container p = Ok r → load p r = Some c → defaultMountPath p = Ok base →
  (∃ c', load p' r = Some c' ∧
     c_Args c' = c_Args c ++ (Items mo' ≫= itemArgs base) ++ crArgs ec p (api.Spec b)) ∧
  (∀ r', r' ≠ r → c_Args <$> load p' r' = c_Args <$> load p r') ∧
  Forall (λ item, ∃ cm, item = KConfigMap cm ∧ length (SortedKeys (cm_Data cm)) ≤ 1) (Items mo') ∧
  (∀ ac, api.specAppConfig (api.Spec b) = Some ac →
     Forall (λ ref, length (default [] (AppConfigKeys ec !! api.for_Name ref)) ≤ 1) (api.ac_ConfigMaps ac)).
Proof.
  intros H Hr Hc Hbase. unfold updateAppConfig in H.
  apply bind_Ok_inv in H as (mo1 & _ & H). apply bind_Ok_inv in H as (mo2 & _ & H).
  apply bind_Ok_inv in H as (p1 & Hp1 & H). apply bind_Ok_inv in H as (p2 & Hp2 & H). injection H as <- <-.
  assert (∀ q args, appends r args p q → container q = Ok r) as Hcont
    by (intros q args [Hn _]; by rewrite (container_proper _ _ Hn)).
  eapply (appends_loop r _ (itemArgs base) p _ p p1 []) in Hp1 as Ha1; [|done| |by apply appends_nil].
  2: { intros q q' item args Hq (cm & Hcm & (mp & Hmp & Hu)%bind_Ok_inv)%bind_Ok_inv.
       destruct item; try done. injection Hcm as <-. destruct (appends_paths _ _ _ _ Hq) as [Hd _].
       rewrite Hd, Hbase in Hmp. injection Hmp as <-. eapply appends_update; [by eapply Hcont|exact Hu]. }
  assert (appends r ((Items mo2 ≫= itemArgs base) ++ crArgs ec p (api.Spec b)) p p2) as [_ Ha].
  { unfold crArgs. destruct (api.specAppConfig (api.Spec b)) as [ac|]; [|injection Hp2 as <-; by rewrite app_nil_r].
    eapply (appends_loop r _ (refArgs ec p (api.ac_MountPath ac)) p _ p1 p2); [done| |exact Ha1|exact Hp2].
    intros q q' ref args Hq ([mp sub] & Hmp & Hu)%bind_Ok_inv. destruct (appends_paths _ _ _ _ Hq) as [_ Hd].
    rewrite Hd in Hmp. unfold refArgs. rewrite Hmp. eapply appends_update; [by eapply Hcont|exact Hu]. }
  split_and!.
  - specialize (Ha r). rewrite Hc, decide_True in Ha by done. destruct (load p2 r) as [c'|]; [|done].
    injection Ha as Ha _. by exists c'.
  - intros r' Hr'. specialize (Ha r'). rewrite decide_False in Ha by done.
    destruct (load p2 r'), (load p r'); try done. injection Ha as Ha _. simpl. by rewrite Ha.
  - eapply foldM_needs; [|exact Hp1]. intros q q' item (cm & Hcm & (mp & _ & Hu)%bind_Ok_inv)%bind_Ok_inv.
    destruct item; try done. injection Hcm as ->. eexists. split; [done|]. by eapply update_single.
  - intros ac Hac. rewrite Hac in Hp2. eapply foldM_needs; [|exact Hp2].
    intros q q' ref ([mp sub] & _ & Hu)%bind_Ok_inv. by eapply update_single.
Qed.

End order.

Section witness.
#[local] Existing Instances MapOrder_asc Ownership_set DynaYaml_lines.

Definition example_bs_args : api.Backstage :=
  api.mkBackstage (api.bs_Meta example_bs)
    (api.mkBackstageSpec (Some (api.mkApplication
        (Some (api.mkAppConfig "/etc" [api.mkFileObjectRef "cfg" "" "" []])) "" None None None))
      None None (api.mkMonitoring false) None None) (api.Status example_bs).
Definition example_ec_args : ExternalConfig :=
  NewExternalConfig <| AppConfigKeys := {["cfg" := ["user.yaml"]]} |>.
Definition example_mo_args : MultiObject :=
  mkMultiObject None [KConfigMap (emptyConfigMap <| cm_Data := Some {["default.yaml" := "app:"]} |>)].

Lemma updateAppConfig_args_witness :
  ∃ mo' p' c', updateAppConfig example_ec_args example_bs_args None example_mo_args example_pod = Ok (mo', p') ∧
    load p' (MainContainer 0) = Some c' ∧
    c_Args c' = ["--config"; "x"; "--config"; "/opt/app-root/src/default.yaml"; "--config"; "/etc/user.yaml"].
Proof.
  destruct (updateAppConfig example_ec_args example_bs_args None example_mo_args example_pod)
    as [[mo' p']|e|w] eqn:E; [|by vm_compute in E..].
  destruct (updateAppConfig_args example_ec_args example_bs_args None example_mo_args example_pod mo' p'
    (MainContainer 0) example_backend "/opt/app-root/src" E) as [(c' & Hc' & Ha) _]; [vm_compute; reflexivity..|].
  exists mo', p', c'. split_and!; [done..|]. rewrite Ha. vm_compute in E. injection E as <- _. by vm_compute.
Defined.

End witness.
