(* ===== verification/PodGrowth.v ===== *)
(** * Components only add to the pod

    Every component that reaches into the pod of the backend while the model
    is finished leaves the volumes, the variable sources and the arguments that
    are already there, in their order; the containers keep their names. *)

From S2P Require Import Prelude.
From S2P Require Import K8s.
From S2P Require Import Api.
From S2P Require Import Externals.
From S2P Require Import Utils.
From S2P Require Import Pod.
From S2P Require Import MetaInfo.
From S2P Require Import BackstageDeployment.
From S2P Require Import DynamicPluginsReference.
From S2P Require Import DynamicPlugins.
From S2P Require Import ExternalConfig.
From S2P Require Import ConfigObjects.
From stdpp Require Import options.

Record container_grows (c c' : Container) : Prop := {
  cg_name : c_Name c' = c_Name c;
  cg_envFrom : c_EnvFrom c `prefix_of` c_EnvFrom c';
  cg_args : c_Args c `prefix_of` c_Args c'
}.
#[export] Instance container_grows_preorder : PreOrder container_grows.
Proof.
  split; [by split|]. intros a b c [Hn1 He1 Ha1] [Hn2 He2 Ha2]. split; [congruence|by etrans..].
Qed.

(** The same containers, each grown *)
Definition grows (p p' : PodSpec) : Prop :=
  Volumes p `prefix_of` Volumes p' ∧
  Forall2 container_grows (Containers p) (Containers p') ∧
  Forall2 container_grows (InitContainers p) (InitContainers p').
#[export] Instance grows_preorder : PreOrder grows.
Proof.
  split; [by intros p; split_and!; [done|reflexivity..]|].
  intros p q r (Hv1 & Hc1 & Hi1) (Hv2 & Hc2 & Hi2). split_and!; by etrans.
Qed.

Section lemmas.

Lemma grows_load p p' r c : grows p p' → load p r = Some c → ∃ c', load p' r = Some c' ∧ container_grows c c'.
Proof.
  intros (_ & Hc & Hi) Hl. destruct r; simpl in *; [eapply Forall2_lookup_l in Hc|eapply Forall2_lookup_l in Hi]; eauto.
Qed.

Lemma grows_same_names p p' : grows p p' → same_names p' p.
Proof.
  intros (_ & Hc & Hi). split; symmetry.
  - induction Hc as [|c c' l l' [Hn _ _] _ IH]; [done|]. rewrite !fmap_cons. by rewrite Hn, IH.
  - induction Hi as [|c c' l l' [Hn _ _] _ IH]; [done|]. rewrite !fmap_cons. by rewrite Hn, IH.
Qed.

Lemma alter_grows (f : Container → Container) i l :
  (∀ c, container_grows c (f c)) → Forall2 container_grows l (alter f i l).
Proof.
  intros Hf. apply Forall2_same_length_lookup_2; [by rewrite length_alter|].
  intros j x y Hx Hy. destruct (decide (i = j)) as [->|Hne].
  - rewrite list_lookup_alter_eq, Hx in Hy. by injection Hy as <-.
  - rewrite list_lookup_alter_ne, Hx in Hy by done. by injection Hy as <-.
Qed.

Lemma store_grows r f p : (∀ c, container_grows c (f c)) → grows p (store r f p).
Proof. intros Hf. destruct r; split_and!; simpl; try done; by apply alter_grows. Qed.

Lemma storeAll_grows rs f p : (∀ c, container_grows c (f c)) → grows p (storeAll rs f p).
Proof.
  intros Hf. unfold storeAll. revert p. induction rs as [|r rs IH]; intros p; cbn [foldl]; [done|].
  etrans; [by apply store_grows|apply IH].
Qed.

Lemma addVolume_grows v p : grows p (p <| Volumes ::= λ l, l ++ [v] |>).
Proof. split_and!; simpl; [by exists [v]|done..]. Qed.

Lemma mountFilesFrom_grows f kind name mp fn sub keys p p' :
  mountFilesFrom f kind name mp fn sub keys p = Ok p' → grows p p'.
Proof.
  intros (rs & _ & ->)%mountFilesFrom_inv. etrans; [apply addVolume_grows|].
  apply storeAll_grows. by split.
Qed.

Lemma addEnvVarsFrom_grows f kind name var p p' : addEnvVarsFrom f kind name var p = Ok p' → grows p p'.
Proof.
  intros (rs & _ & Hs)%bind_Ok_inv. revert Hs. apply (foldM_relation grows). intros q r q' _.
  case_bool_decide; case_match; try done; intros [= <-]; apply store_grows; split; simpl; try done. by eexists.
Qed.

Lemma addPvc_grows name mp sub f p p' : addPvc name mp sub f p = Ok p' → grows p p'.
Proof.
  intros (rs & _ & [= <-])%bind_Ok_inv. etrans; [apply addVolume_grows|]. apply storeAll_grows. by split.
Qed.

Lemma updatePodWithAppConfig_grows name mp key sub keys p p' :
  updatePodWithAppConfig name mp key sub keys p = Ok p' → grows p p'.
Proof.
  unfold updatePodWithAppConfig. case_bool_decide; [done|]. intros (q & Hq & Hp)%bind_Ok_inv.
  apply bind_Ok_inv in Hp as (r & _ & [= <-]). trans q.
  - destruct (mountFilesFrom _ _ _ _ _ _ _ p) eqn:E; [|by injection Hq as <-|done].
    injection Hq as <-. by eapply mountFilesFrom_grows.
  - apply (foldl_invariant (grows q)); [|done]. intros x file _ Hx. case_bool_decide; [|done].
    etrans; [exact Hx|]. apply store_grows. split; simpl; [done..|]. by eexists.
Qed.

End lemmas.

(** ** The components *)

Section components.
Context `{os : !OS, mo_ : !MapOrder, own : !Ownership, dy : !DynaYaml}.

Lemma updateConfigMapEnvs_grows b mo p p' : updateConfigMapEnvs b mo p = Ok p' → grows p p'.
Proof.
  intros (q & Hq & H)%bind_Ok_inv. trans q.
  - revert Hq. apply (foldM_relation grows). intros x item y _ (cm & _ & Hy%wrapErr_Ok_inv)%bind_Ok_inv.
    by eapply addEnvVarsFrom_grows.
  - destruct (api.specExtraEnvs _); [|by injection H as <-]. revert H. apply (foldM_relation grows).
    intros x ref y _ Hy%wrapErr_Ok_inv. by eapply addEnvVarsFrom_grows.
Qed.

Lemma updateSecretEnvs_grows b mo p p' : updateSecretEnvs b mo p = Ok p' → grows p p'.
Proof.
  intros (q & Hq & H)%bind_Ok_inv. trans q.
  - revert Hq. apply (foldM_relation grows). intros x item y _ (cm & _ & Hy%wrapErr_Ok_inv)%bind_Ok_inv.
    by eapply addEnvVarsFrom_grows.
  - destruct (api.specExtraEnvs _); [|by injection H as <-]. revert H. apply (foldM_relation grows).
    intros x ref y _ Hy%wrapErr_Ok_inv. by eapply addEnvVarsFrom_grows.
Qed.

Lemma mountConfigured_grows kind m keys p p' : mountConfigured kind m keys p = Ok p' → grows p p'.
Proof. intros ([[mp sp] fn] & _ & H)%bind_Ok_inv. by eapply mountFilesFrom_grows. Qed.

Lemma mountReferred_grows kind ref shared keys p p' : mountReferred kind ref shared keys p = Ok p' → grows p p'.
Proof. intros ([mp ws] & _ & H)%bind_Ok_inv. by eapply mountFilesFrom_grows. Qed.

Lemma updateConfigMapFiles_grows ec b mo p p' : updateConfigMapFiles ec b mo p = Ok p' → grows p p'.
Proof.
  intros (q & Hq & H)%bind_Ok_inv. trans q.
  - revert Hq. apply (foldM_relation grows). intros x item y _ (cm & _ & Hy%wrapErr_Ok_inv)%bind_Ok_inv.
    by eapply mountConfigured_grows.
  - destruct (api.specExtraFiles _); [|by injection H as <-]. revert H. apply (foldM_relation grows).
    intros x ref y _ Hy%wrapErr_Ok_inv. by eapply mountReferred_grows.
Qed.

Lemma updateSecretFiles_grows ec b mo p p' : updateSecretFiles ec b mo p = Ok p' → grows p p'.
Proof.
  intros (q & Hq & H)%bind_Ok_inv. trans q.
  - revert Hq. apply (foldM_relation grows). intros x item y _ (cm & _ & Hy%wrapErr_Ok_inv)%bind_Ok_inv.
    by eapply mountConfigured_grows.
  - destruct (api.specExtraFiles _); [|by injection H as <-]. revert H. apply (foldM_relation grows).
    intros x ref y _ Hy. cbn beta in Hy.
    destruct (bool_decide (api.for_MountPath ref = "" ∧ api.for_Key ref = "")); [discriminate Hy|].
    apply wrapErr_Ok_inv in Hy. by eapply mountReferred_grows.
Qed.

Lemma updatePvcs_grows b mo p p' : updatePvcs b mo p = Ok p' → grows p p'.
Proof.
  intros (q & Hq & H)%bind_Ok_inv. trans q.
  - revert Hq. apply (foldM_relation grows). intros x item y _ (pvc & _ & Hy)%bind_Ok_inv.
    apply bind_Ok_inv in Hy as ([[mp sub] fn] & _ & Hy%wrapErr_Ok_inv). by eapply addPvc_grows.
  - destruct (api.specExtraFiles _); [|by injection H as <-]. revert H. apply (foldM_relation grows).
    intros x ref y _ (mps & _ & Hy)%bind_Ok_inv. destruct mps as [mp []]; simpl in Hy;
      apply wrapErr_Ok_inv in Hy; by eapply addPvc_grows.
Qed.

Lemma updateAppConfig_grows ec b plugins mo p r : updateAppConfig ec b plugins mo p = Ok r → grows p r.2.
Proof.
  intros (mo1 & _ & H)%bind_Ok_inv. apply bind_Ok_inv in H as (mo2 & _ & H).
  apply bind_Ok_inv in H as (p1 & H1 & H). apply bind_Ok_inv in H as (p2 & H2 & H). apply (inj Ok) in H as <-. simpl.
  trans p1.
  - revert H1. apply (foldM_relation grows). intros x item y _ (cm & _ & Hy)%bind_Ok_inv.
    apply bind_Ok_inv in Hy as (mp & _ & Hy). by eapply updatePodWithAppConfig_grows.
  - destruct (api.specAppConfig _); [|by injection H2 as <-]. revert H2. apply (foldM_relation grows).
    intros x ref y _ ([mp ws] & _ & Hy)%bind_Ok_inv. by eapply updatePodWithAppConfig_grows.
Qed.

Lemma updateDynamicPlugins_grows d p p' : updateDynamicPlugins d p = Ok p' → grows p p'.
Proof.
  unfold updateDynamicPlugins. destruct (getInitContainer p) as [q ic] eqn:E.
  assert (grows p q) as Hq.
  { unfold getInitContainer in E. destruct (list_find _ _) as [[i c]|]; [|by injection E as <- _].
    case_bool_decide; injection E as <- _; [|done]. apply store_grows. by split. }
  destruct ic as [ic|]; [|done]. intros ([cm file] & _ & H%wrapErr_Ok_inv)%bind_Ok_inv.
  etrans; [exact Hq|]. by eapply mountFilesFrom_grows.
Qed.

End components.
