(* ===== verification/Db.v ===== *)
(** * The local database

    The Secret, the Service and the StatefulSet of the PostgreSQL instance the
    operator runs next to the backend: pkg/model/db-secret.go, db-service.go
    and db-statefulset.go.  Each [add] is the component's [addToModel] and each
    [update] its [updateAndValidate], on the object the component holds; a
    component without an object stays in the model as a placeholder. *)

From S2P Require Import Prelude.
From S2P Require Import GoStrings.
From S2P Require Import K8s.
From S2P Require Import Api.
From S2P Require Import Externals.
From S2P Require Import Utils.
From S2P Require Import Pod.
From S2P Require Import MetaInfo.
From S2P Require Import BackstageDeployment.
From stdpp Require Import options.

Definition LocalDbImageEnvVar : string := "RELATED_IMAGE_postgresql".
Definition ClusterIPNone : string := "None".

Section components.
Context `{os : !OS, own : !Ownership, rnd : !Rand}.

(** [if b.x != nil { b.setMetaInfo(...) }] *)
Definition ifSet {A} (f : A → outcome A) (x : option A) : outcome (option A) :=
  match x with
  | Some x => x ← f x; Ok (Some x)
  | None => Ok None
  end.

(** ** The Service *)

Definition dbServiceMetaInfo (backstage : api.Backstage) (s : Service) : outcome Service :=
  let s := s <| svc_Meta ::= λ m, m <| Name := DbServiceName (api.bsName backstage) |> |> in
  let s := s <| svc_Selector ::= λ l, GenerateLabel l AppLabel (BackstageDbAppLabelValue (api.bsName backstage)) |> in
  m ← setMetaInfo backstage (svc_Meta s);
  Ok (s <| svc_Meta := m |>).

Definition addDbService (localDbEnabled : bool) (backstage : api.Backstage) (config : option Config) :
    outcome (option Service) :=
  service ← (if localDbEnabled then
               match config with
               | None => Err (Errorf "local database is enabled but db-service.yaml config is missing")
               | Some config => s ← asService config; Ok (Some s)
               end
             else Ok None);
  ifSet (λ s, dbServiceMetaInfo backstage (s <| svc_ClusterIP := ClusterIPNone |>)) service.

(** ** The Secret *)

Definition dbSecretMetaInfo (backstage : api.Backstage) (s : Secret) : outcome Secret :=
  m ← setNameAndMeta (DbSecretDefaultName (api.bsName backstage)) backstage (sec_Meta s);
  Ok (s <| sec_Meta := m |>).

Definition addDbSecret (localDbEnabled : bool) (backstage : api.Backstage) (config : option Config) :
    outcome (option Secret) :=
  secret ← (if negb (api.IsAuthSecretSpecified (api.Spec backstage)) && localDbEnabled
            then optConfig asSecret config else Ok None);
  ifSet (dbSecretMetaInfo backstage) secret.

(** [pswd, _ := utils.GeneratePassword(24)] *)
Definition newPassword : outcome string :=
  match GeneratePassword 24 with
  | Err _ => Ok ""
  | m => m
  end.

Definition connection (pswd host : string) (port : Z) : gmap string string :=
  {[ "POSTGRES_PASSWORD" := pswd;
     "POSTGRESQL_ADMIN_PASSWORD" := pswd;
     "POSTGRES_USER" := "postgres";
     "POSTGRES_HOST" := host;
     "POSTGRES_PORT" := strconv.FormatInt port ]}.

(** [dbService] is what the model holds under [DbServiceKey]. *)
Definition updateDbSecret (dbService : option Service) (secret : option Secret) : outcome (option Secret) :=
  ifSet (λ secret,
    pswd ← newPassword;
    match dbService with
    | None => Err (Errorf "database service not found in model")
    | Some service =>
        match svc_Ports service with
        | [] => Panic "index out of range [0] with length 0"
        | port :: _ => Ok (secret <| sec_StringData := Some (connection pswd (Name (svc_Meta service)) port) |>)
        end
    end) secret.

(** ** The StatefulSet *)

Definition setDbPod (f : PodSpec → outcome PodSpec) (s : StatefulSet) : outcome StatefulSet :=
  p ← f (t_Spec (s_Template s));
  Ok (s <| s_Template ::= λ t, t <| t_Spec := p |> |>).

(** An assignment through [b.container()], [&b.podSpec().Containers[0]] *)
Definition setDbContainer (f : Container → Container) (p : PodSpec) : outcome PodSpec :=
  match Containers p with
  | [] => Panic "index out of range [0] with length 0"
  | _ => Ok (store (MainContainer 0) f p)
  end.

Definition dbStatefulSetMetaInfo (backstage : api.Backstage) (s : StatefulSet) : outcome StatefulSet :=
  let value := BackstageDbAppLabelValue (api.bsName backstage) in
  let s := s <| s_Meta ::= λ m, m <| Name := DbStatefulSetName (api.bsName backstage) |> |> in
  let s := s <| s_Template ::= λ t, t <| t_Meta ::= λ m, m <| Labels ::= λ l, GenerateLabel l AppLabel value |> |> |> in
  sel ← deref "b.statefulSet.Spec.Selector" (s_Selector s);
  let s := s <| s_Selector := Some (sel <| MatchLabels ::= λ l, GenerateLabel l AppLabel value |>) |> in
  m ← setMetaInfo backstage (s_Meta s);
  Ok (s <| s_Meta := m |>).

Definition addDbStatefulSet (localDbEnabled : bool) (backstage : api.Backstage) (config : option Config) :
    outcome (option StatefulSet) :=
  statefulSet ← (if localDbEnabled then
                   match config with
                   | None => Err (Errorf "local database is enabled but db-statefulset.yaml config is missing")
                   | Some config => s ← asStatefulSet config; Ok (Some s)
                   end
                 else Ok None);
  ifSet (λ s,
    let image := Getenv LocalDbImageEnvVar in
    s ← (if bool_decide (image ≠ "") then setDbPod (setDbContainer (λ c, c <| c_Image := image |>)) s else Ok s);
    dbStatefulSetMetaInfo backstage s) statefulSet.

Definition setDbSecretEnvVar (secretName : string) (c : Container) : Container :=
  c <| c_EnvFrom ::= λ l, l ++ [SecretRef secretName] |>.

(** [dbService] and [dbSecret] are what the model holds under [DbServiceKey]
    and [DbSecretKey]. *)
Definition updateDbStatefulSet (backstage : api.Backstage) (dbService : option Service) (dbSecret : option Secret)
    (statefulSet : option StatefulSet) : outcome (option StatefulSet) :=
  ifSet (λ s,
    let s := match dbService with Some service => s <| s_ServiceName := Name (svc_Meta service) |> | None => s end in
    s ← (if api.IsAuthSecretSpecified (api.Spec backstage)
         then setDbPod (setDbContainer (setDbSecretEnvVar (authSecretName backstage))) s
         else match dbSecret with
              | Some secret => setDbPod (setDbContainer (setDbSecretEnvVar (Name (sec_Meta secret)))) s
              | None => Ok s
              end);
    Ok (if bool_decide (api.bsAnnotation backstage IdleAnnotation = "true")
        then s <| s_Replicas := Some 0%Z |> else s)) statefulSet.

End components.

(** ** What the components guarantee *)

(** The labels the Service selects its pods by *)
Definition selected_by_db (b : api.Backstage) (l : gomap string) : Prop :=
  map_lookup l AppLabel = Some (BackstageDbAppLabelValue (api.bsName b)).

Record db_service (b : api.Backstage) (s : Service) : Prop := {
  dbs_owned : owned_by b (svc_Meta s);
  dbs_name : Name (svc_Meta s) = DbServiceName (api.bsName b);
  dbs_headless : svc_ClusterIP s = ClusterIPNone;
  dbs_selector : selected_by_db b (svc_Selector s)
}.

Record db_statefulset (b : api.Backstage) (s : StatefulSet) : Prop := {
  dbss_owned : owned_by b (s_Meta s);
  dbss_name : Name (s_Meta s) = DbStatefulSetName (api.bsName b);
  dbss_pods : selected_by_db b (Labels (t_Meta (s_Template s)));
  dbss_selector : ∃ sel, s_Selector s = Some sel ∧ selected_by_db b (MatchLabels sel)
}.

Record db_secret (b : api.Backstage) (s : Secret) : Prop := {
  dbsec_owned : owned_by b (sec_Meta s);
  dbsec_name : Name (sec_Meta s) = DbSecretDefaultName (api.bsName b)
}.

Section lemmas.
Context `{os : !OS, own : !Ownership, rnd : !Rand}.

Lemma ifSet_Ok {A} (f : A → outcome A) x y :
  ifSet f x = Ok y ↔ match x with Some a => ∃ a', f a = Ok a' ∧ y = Some a' | None => y = None end.
Proof.
  destruct x as [a|]; simpl; [|naive_solver]. rewrite bind_Ok_inv. naive_solver.
Qed.

Lemma selected_GenerateLabel b l :
  selected_by_db b (GenerateLabel l AppLabel (BackstageDbAppLabelValue (api.bsName b))).
Proof. unfold selected_by_db. by rewrite map_lookup_GenerateLabel, decide_True. Qed.

(** The Service is there exactly when the local database is, and fails only
    for want of a configuration. *)
Lemma addDbService_spec localDb b config r :
  addDbService localDb b config = Ok r →
  if localDb then ∃ s0 s, config = Some (ConfObject (KService s0)) ∧ r = Some s ∧ db_service b s ∧ svc_Ports s = svc_Ports s0
  else r = None.
Proof.
  unfold addDbService. intros H. apply bind_Ok_inv in H as (x & Hx & H). apply ifSet_Ok in H.
  destruct localDb; [|by injection Hx as <-]. destruct config as [c|]; [|done].
  apply bind_Ok_inv in Hx as (s & Hs & Hx). apply (inj Ok) in Hx as <-.
  destruct H as (s' & H & ->). unfold dbServiceMetaInfo in H.
  apply bind_Ok_inv in H as (m & Hm & H). apply (inj Ok) in H as <-.
  apply setMetaInfo_spec in Hm as (Ho & Hn & _).
  destruct c as [[]|]; simplify_eq/=. eexists _, _. split_and!; [done..| |done].
  split; simpl; [done..|]. apply selected_GenerateLabel.
Qed.

Lemma addDbSecret_spec localDb b config r :
  addDbSecret localDb b config = Ok r →
  match r with
  | Some s => db_secret b s ∧ localDb = true ∧ api.IsAuthSecretSpecified (api.Spec b) = false ∧
      ∃ s0, config = Some (ConfObject (KSecret s0)) ∧ sec_Data s = sec_Data s0 ∧ sec_StringData s = sec_StringData s0
  | None => config = None ∨ localDb = false ∨ api.IsAuthSecretSpecified (api.Spec b) = true
  end.
Proof.
  unfold addDbSecret. intros H. apply bind_Ok_inv in H as (x & Hx & H). apply ifSet_Ok in H.
  destruct (api.IsAuthSecretSpecified _), localDb; simpl in Hx; try (injection Hx as <-; subst r; by auto).
  destruct config as [c|]; simpl in Hx; [|injection Hx as <-; subst r; by auto].
  apply bind_Ok_inv in Hx as (s & Hs & Hx). apply (inj Ok) in Hx as <-.
  destruct H as (s' & H & ->). unfold dbSecretMetaInfo in H.
  apply bind_Ok_inv in H as (m & Hm & H). apply (inj Ok) in H as <-.
  apply setMetaInfo_spec in Hm as (Ho & Hn & _).
  destruct c as [[]|]; simplify_eq/=. split_and!; [by split|done..|]. by eexists.
Qed.

Lemma setDbPod_keeps f s s' :
  setDbPod f s = Ok s' →
  s_Meta s' = s_Meta s ∧ s_Selector s' = s_Selector s ∧ t_Meta (s_Template s') = t_Meta (s_Template s) ∧
  s_ServiceName s' = s_ServiceName s ∧ s_Replicas s' = s_Replicas s ∧ f (t_Spec (s_Template s)) = Ok (t_Spec (s_Template s')).
Proof. intros H. apply bind_Ok_inv in H as (p & Hp & H). by apply (inj Ok) in H as <-. Qed.

Lemma addDbStatefulSet_spec localDb b config r :
  addDbStatefulSet localDb b config = Ok r →
  if localDb then ∃ s0 s, config = Some (ConfObject (KStatefulSet s0)) ∧ r = Some s ∧ db_statefulset b s
  else r = None.
Proof.
  unfold addDbStatefulSet. intros H. apply bind_Ok_inv in H as (x & Hx & H). apply ifSet_Ok in H.
  destruct localDb; [|by injection Hx as <-]. destruct config as [c|]; [|done].
  apply bind_Ok_inv in Hx as (s & Hs & Hx). apply (inj Ok) in Hx as <-.
  destruct H as (s' & H & ->). apply bind_Ok_inv in H as (s1 & H1 & H).
  unfold dbStatefulSetMetaInfo in H. apply bind_Ok_inv in H as (sel & _ & H).
  apply bind_Ok_inv in H as (m & Hm & H). apply (inj Ok) in H as <-.
  apply setMetaInfo_spec in Hm as (Ho & Hn & _).
  destruct c as [[]|]; simplify_eq/=. eexists _, _. split_and!; [done..|].
  split; simpl; [done..| |eexists; split; [done|simpl]]; apply selected_GenerateLabel.
Qed.

Lemma updateDbSecret_spec svc b s s' :
  updateDbSecret svc (Some s) = Ok s' → db_secret b s →
  ∃ s1 service pswd port ports, s' = Some s1 ∧ svc = Some service ∧ svc_Ports service = port :: ports ∧
    sec_Meta s1 = sec_Meta s ∧ sec_StringData s1 = Some (connection pswd (Name (svc_Meta service)) port) ∧
    (pswd = "" ∨ String.length pswd = 32).
Proof.
  unfold updateDbSecret. intros H Hb. apply ifSet_Ok in H as (s1 & H & ->). apply bind_Ok_inv in H as (pswd & Hp & H).
  destruct svc as [service|]; [|done]. destruct (svc_Ports service) as [|port ports] eqn:Eports; [done|].
  apply (inj Ok) in H as <-. exists (s <| sec_StringData := Some (connection pswd (Name (svc_Meta service)) port) |>).
  exists service, pswd, port, ports.
  split_and!; [done..|]. unfold newPassword in Hp. destruct (GeneratePassword 24) eqn:E; [|by injection Hp as <-; left|done].
  apply GeneratePassword_length in E. injection Hp as <-. by right.
Qed.

(** The first container reads the variables of a secret. *)
Definition db_reads (s : StatefulSet) (n : string) : Prop :=
  ∃ c, load (t_Spec (s_Template s)) (MainContainer 0) = Some c ∧ SecretRef n ∈ c_EnvFrom c.

Lemma setDbSecret_keeps n s s' :
  setDbPod (setDbContainer (setDbSecretEnvVar n)) s = Ok s' →
  s_Meta s' = s_Meta s ∧ s_Selector s' = s_Selector s ∧ t_Meta (s_Template s') = t_Meta (s_Template s) ∧
  s_ServiceName s' = s_ServiceName s ∧ s_Replicas s' = s_Replicas s ∧ db_reads s' n.
Proof.
  intros (H1 & H2 & H3 & H4 & H5 & Hc)%setDbPod_keeps. split_and!; [done..|]. unfold setDbContainer in Hc.
  destruct (Containers (t_Spec (s_Template s))) as [|c l] eqn:E; [done|]. apply (inj Ok) in Hc. unfold db_reads.
  rewrite <- Hc, load_store, decide_True by done. simpl. rewrite E. eexists. split; [done|].
  apply elem_of_app. right. by left.
Qed.

(** The pods of the database read their credentials from the secret the
    backend reads them from. *)
Lemma updateDbStatefulSet_spec b svc sec s r :
  updateDbStatefulSet b svc sec (Some s) = Ok r → db_statefulset b s →
  ∃ s', r = Some s' ∧ db_statefulset b s' ∧
    s_ServiceName s' = match svc with Some svc => Name (svc_Meta svc) | None => s_ServiceName s end ∧
    s_Replicas s' = (if bool_decide (api.bsAnnotation b IdleAnnotation = "true") then Some 0%Z else s_Replicas s) ∧
    ∀ n, effectiveSecret b sec = Some n → db_reads s' n.
Proof.
  unfold updateDbStatefulSet. intros H [Ho Hn Hp Hs]. apply ifSet_Ok in H as (s' & H & ->).
  apply bind_Ok_inv in H as (s1 & H1 & H). apply (inj Ok) in H as <-.
  set (s0 := match svc with Some service => s <| s_ServiceName := Name (svc_Meta service) |> | None => s end) in *.
  assert (s_Meta s0 = s_Meta s ∧ s_Selector s0 = s_Selector s ∧ t_Meta (s_Template s0) = t_Meta (s_Template s) ∧
    s_ServiceName s0 = match svc with Some svc => Name (svc_Meta svc) | None => s_ServiceName s end ∧ s_Replicas s0 = s_Replicas s)
    as (E1 & E2 & E3 & E4 & E5) by by destruct svc.
  assert (s_Meta s1 = s_Meta s0 ∧ s_Selector s1 = s_Selector s0 ∧ t_Meta (s_Template s1) = t_Meta (s_Template s0) ∧
    s_ServiceName s1 = s_ServiceName s0 ∧ s_Replicas s1 = s_Replicas s0 ∧
    ∀ n, effectiveSecret b sec = Some n → db_reads s1 n) as (H2 & H3 & H4 & H5 & H6 & H7).
  { unfold effectiveSecret. destruct (api.IsAuthSecretSpecified _); [|destruct sec as [sec|]].
    - apply setDbSecret_keeps in H1 as (? & ? & ? & ? & ? & ?). split_and!; [done..|]. by intros n [= <-].
    - apply setDbSecret_keeps in H1 as (? & ? & ? & ? & ? & ?). split_and!; [done..|]. by intros n [= <-].
    - by apply (inj Ok) in H1 as <-. }
  eexists. split; [done|].
  case_bool_decide; (split_and!; [split; simpl; by rewrite ?H2, ?H3, ?H4, ?E1, ?E2, ?E3|simpl; congruence|simpl; congruence|exact H7]).
Qed.

End lemmas.
