(* ===== verification/ServiceRoute.v ===== *)
(** * The Service and the Route of the backend

    pkg/model/service.go and route.go.  The Route also writes the base URL of
    the application into the first app-config, as far as it knows it. *)

From S2P Require Import Prelude.
From S2P Require Import GoStrings.
From S2P Require Import K8s.
From S2P Require Import Api.
From S2P Require Import Externals.
From S2P Require Import Utils.
From S2P Require Import MetaInfo.
From S2P Require Import PluginConfig.
From S2P Require Import ExternalConfig.
From S2P Require Import BackstageDeployment.
From S2P Require Import Db.
From stdpp Require Import options.

(** sigs.k8s.io/yaml on an app-config: every mapping becomes a
    [map[string]any]; [None] is the nil map. *)
Class AppConfigYaml := {
  UnmarshalAppConfig : string → outcome (gomap any);
  MarshalAppConfig : gmap string any → outcome string
}.

Section service.
Context `{own : !Ownership}.

Definition serviceMetaInfo (backstage : api.Backstage) (s : Service) : outcome Service :=
  let s := s <| svc_Meta ::= λ m, m <| Name := ServiceName (api.bsName backstage) |> |> in
  let s := s <| svc_Selector ::= λ l, GenerateLabel l AppLabel (BackstageAppLabelValue (api.bsName backstage)) |> in
  m ← setMetaInfo backstage (svc_Meta s);
  Ok (s <| svc_Meta := m |>).

Definition addService (backstage : api.Backstage) (config : option Config) : outcome Service :=
  service ← optConfig asService config;
  match service with
  | None => Err (Errorf "backstage Service is not initialized, make sure there is service.yaml in default or raw configuration")
  | Some s => serviceMetaInfo backstage s
  end.

End service.

(** ** The Route *)

(** [if len(specified) > 0 { field = specified }] *)
Definition override (specified field : string) : string :=
  if bool_decide (specified = "") then field else specified.

Definition setTLS (specified : api.TLS) (tls : option TLSConfig) : TLSConfig :=
  match tls with
  | None =>
      mkTLSConfig "edge" "Redirect" (api.Certificate specified) (api.Key specified) (api.CACertificate specified)
        (Some (api.ExternalCertificateSecretName specified))
  | Some tls =>
      tls <| tls_Certificate ::= override (api.Certificate specified) |>
          <| tls_Key ::= override (api.Key specified) |>
          <| tls_Certificate ::= override (api.Certificate specified) |>
          <| tls_CACertificate ::= override (api.CACertificate specified) |>
          <| tls_ExternalCertificate ::= λ e,
               if bool_decide (api.ExternalCertificateSecretName specified = "") then e
               else Some (api.ExternalCertificateSecretName specified) |>
  end.

Definition setRoute (specified : api.Route) (r : Route) : Route :=
  let r := r <| r_Host ::= override (api.Host specified) |> <| r_Subdomain ::= override (api.Subdomain specified) |> in
  match api.rt_TLS specified with
  | None => r
  | Some tls => r <| r_TLS ::= λ t, Some (setTLS tls t) |>
  end.

Section route.
Context `{own : !Ownership}.

Definition routeMetaInfo (backstage : api.Backstage) (r : Route) : outcome Route :=
  m ← setNameAndMeta (RouteName (api.bsName backstage)) backstage (r_Meta r);
  Ok (r <| r_Meta := m |>).

(** The Route before its metadata is set *)
Definition chooseRoute (isOpenshift : bool) (backstage : api.Backstage) (route : option Route) : option Route :=
  if isOpenshift && api.IsRouteEnabled (api.Spec backstage) then
    match api.specRoute (api.Spec backstage) with
    | Some specified => Some (setRoute specified (default emptyRoute route))
    | None => route
    end
  else None.

Definition addRoute (isOpenshift : bool) (backstage : api.Backstage) (config : option Config) : outcome (option Route) :=
  route ← optConfig asRoute config;
  ifSet (routeMetaInfo backstage) (chooseRoute isOpenshift backstage route).

(** *** The base URL *)

Definition buildBaseUrl (ec : ExternalConfig) (backstage : api.Backstage) : string :=
  let host := RouteName (api.bsName backstage) +:+ "-" +:+ api.bsNamespace backstage in
  let '(host, appendIngressDomain) :=
    match api.specRoute (api.Spec backstage) with
    | Some r =>
        if bool_decide (api.Host r ≠ "") then (api.Host r, false)
        else if bool_decide (api.Subdomain r ≠ "") then (api.Subdomain r, true)
        else (host, true)
    | None => (host, true)
    end in
  if appendIngressDomain then
    let d := OpenShiftIngressDomain ec in
    if bool_decide (d = "") then "" else "https://" +:+ host +:+ "." +:+ d
  else "https://" +:+ host.

(** [x, ok := m[k].(map[string]any); if !ok { x = make(map[string]any) }] *)
Definition subMap (m : gmap string any) (k : string) : gmap string any :=
  match m !! k with
  | Some (AStrMap s) => s
  | _ => ∅
  end.

Definition setBaseUrls (baseUrl : string) (appConfigData : gmap string any) : gmap string any :=
  let app := <["baseUrl" := AString baseUrl]> (subMap appConfigData "app") in
  let appConfigData := <["app" := AStrMap app]> appConfigData in
  let backend := <["baseUrl" := AString baseUrl]> (subMap appConfigData "backend") in
  let backendCors := <["origin" := AString baseUrl]> (subMap backend "cors") in
  let backend := <["cors" := AStrMap backendCors]> backend in
  <["backend" := AStrMap backend]> appConfigData.

Context `{ay : !AppConfigYaml, mo_ : !MapOrder}.

Definition updateFn (baseUrl content : string) : outcome string :=
  appConfigData ← wrapErr "failed to decode app-config YAML" (UnmarshalAppConfig content);
  wrapErr "failed to serialize updated app-config YAML" (MarshalAppConfig (setBaseUrls baseUrl (map_make appConfigData))).

(** [updateAppConfigWithBaseUrls] on the first app-config: an entry that
    cannot be updated is left alone. *)
Definition updateBaseUrlEntry (baseUrl : string) (data : gmap string string) (e : string * string) :
    outcome (gmap string string) :=
  match updateFn baseUrl e.2 with
  | Ok updated => Ok (<[e.1 := updated]> data)
  | Err _ => Ok data
  | Panic w => Panic w
  end.

Definition updateBaseUrlData (baseUrl : string) (data : gomap string) : outcome (gomap string) :=
  match data with
  | None => Ok None
  | Some d => d' ← foldM (updateBaseUrlEntry baseUrl) d (range d); Ok (Some d')
  end.

(** [appConfig] is what the model holds under [AppConfigKey]. *)
Definition updateAppConfigWithBaseUrls (ec : ExternalConfig) (backstage : api.Backstage)
    (appConfig : option MultiObject) : outcome (option MultiObject) :=
  match appConfig with
  | None => Ok None
  | Some mo =>
      match Items mo with
      | [] => Ok (Some mo)
      | KConfigMap cm :: items =>
          data ← updateBaseUrlData (buildBaseUrl ec backstage) (cm_Data cm);
          Ok (Some (mo <| Items := KConfigMap (cm <| cm_Data := data |>) :: items |>))
      | item :: _ => Panic ("interface conversion: client.Object is " +:+ goType item +:+ ", not *v1.ConfigMap")
      end
  end.

(** [service] is what the model holds under [ServiceKey]. *)
Definition updateRoute (ec : ExternalConfig) (backstage : api.Backstage) (service : option Service)
    (appConfig : option MultiObject) (route : option Route) : outcome (option Route * option MultiObject) :=
  match route with
  | None => Ok (None, appConfig)
  | Some r =>
      match service with
      | None => Err (Errorf "backstage service not found in model")
      | Some s =>
          let r := r <| r_ToName := Name (svc_Meta s) |> in
          appConfig ← updateAppConfigWithBaseUrls ec backstage appConfig;
          Ok (Some r, appConfig)
      end
  end.

End route.

(** ** The Service *)

Record backend_service (b : api.Backstage) (s : Service) : Prop := {
  svc_owned : owned_by b (svc_Meta s);
  svc_name : Name (svc_Meta s) = ServiceName (api.bsName b);
  svc_selects : map_lookup (svc_Selector s) AppLabel = Some (BackstageAppLabelValue (api.bsName b))
}.

Lemma addService_spec `{own : !Ownership} b config s :
  addService b config = Ok s →
  backend_service b s ∧ ∃ s0, config = Some (ConfObject (KService s0)) ∧ svc_Ports s = svc_Ports s0.
Proof.
  intros H. apply bind_Ok_inv in H as (x & Hx & H). destruct x as [x|]; [|done].
  apply bind_Ok_inv in H as (m & Hm & H). apply (inj Ok) in H as <-.
  apply setMetaInfo_spec in Hm as (Ho & Hn & _). split.
  - split; simpl; [done..|]. by rewrite map_lookup_GenerateLabel, decide_True.
  - destruct config as [[[]|]|]; simplify_eq/=. eexists; eauto.
Qed.

(** ** The Route *)

Section route_lemmas.
Context `{own : !Ownership}.

(** The condition under which a Route is made *)
Definition route_wanted (isOpenshift : bool) (b : api.Backstage) (config : option Config) : Prop :=
  isOpenshift = true ∧ api.IsRouteEnabled (api.Spec b) = true ∧ (config ≠ None ∨ api.specRoute (api.Spec b) ≠ None).

Lemma addRoute_spec isOpenshift b config r :
  addRoute isOpenshift b config = Ok r →
  match r with
  | Some r => route_wanted isOpenshift b config ∧ owned_by b (r_Meta r) ∧ Name (r_Meta r) = RouteName (api.bsName b)
  | None => ¬ route_wanted isOpenshift b config
  end.
Proof.
  unfold addRoute, route_wanted. intros H. apply bind_Ok_inv in H as (x & Hx & H). apply ifSet_Ok in H.
  unfold chooseRoute in H.
  assert (x = None ↔ config = None) as Hxc.
  { destruct config as [c|]; simpl in Hx; [|by injection Hx as <-].
    apply bind_Ok_inv in Hx as (? & _ & Hx). by apply (inj Ok) in Hx as <-. }
  destruct isOpenshift, (api.IsRouteEnabled (api.Spec b)); simpl in H; try (subst r; naive_solver).
  assert (∀ r0, (∃ a', routeMetaInfo b r0 = Ok a' ∧ r = Some a') →
    ∃ a', r = Some a' ∧ owned_by b (r_Meta a') ∧ Name (r_Meta a') = RouteName (api.bsName b)) as Hm.
  { intros r0 (a & Ha & ->). apply bind_Ok_inv in Ha as (m & Hm & Ha). apply (inj Ok) in Ha as <-.
    apply setMetaInfo_spec in Hm as (Ho & Hn & _). eexists. by split_and!. }
  destruct (api.specRoute (api.Spec b)) as [sp|] eqn:Es.
  - apply Hm in H as (a & -> & Ha). naive_solver.
  - destruct x as [r0|].
    + apply Hm in H as (a & -> & Ha). split; [split_and!; [done..|]|done]. left. intros Hc%Hxc. done.
    + subst r. naive_solver.
Qed.

Lemma override_empty s : override "" s = s.
Proof. done. Qed.

Lemma override_spec s f : override s f = if decide (s = "") then f else s.
Proof. unfold override. case_bool_decide; by case_decide. Qed.

End route_lemmas.

(** ** The base URL *)

Section paths.

(** The value at a path of an app-config, and the change of one value *)
Fixpoint path_get (m : gmap string any) (p : list string) : option any :=
  match p with
  | [] => Some (AStrMap m)
  | [k] => m !! k
  | k :: p => match m !! k with Some (AStrMap s) => path_get s p | _ => None end
  end.

Fixpoint path_set (p : list string) (v : any) (m : gmap string any) : gmap string any :=
  match p with
  | [] => m
  | [k] => <[k := v]> m
  | k :: p => <[k := AStrMap (path_set p v (subMap m k))]> m
  end.

Definition comparable (p q : list string) : Prop := p `prefix_of` q ∨ q `prefix_of` p.

Lemma path_get_set p v m : p ≠ [] → path_get (path_set p v m) p = Some v.
Proof.
  revert m. induction p as [|k p IH]; intros m Hp; [done|]. destruct p as [|k' p]; simpl; rewrite lookup_insert_eq; [done|].
  by apply (IH (subMap m k)).
Qed.

Lemma path_get_empty q : q ≠ [] → path_get ∅ q = None.
Proof. destruct q as [|k [|k' q]]; intros; [done|..]; simpl; by rewrite lookup_empty. Qed.

Lemma path_get_subMap m k k' q :
  path_get (subMap m k) (k' :: q) = path_get m (k :: k' :: q).
Proof.
  unfold subMap. change (path_get m (k :: k' :: q)) with
    (match m !! k with Some (AStrMap s) => path_get s (k' :: q) | _ => None end).
  destruct (m !! k) as [[]|]; try done; by apply path_get_empty.
Qed.

Lemma path_get_set_ne p v m q : ¬ comparable p q → path_get (path_set p v m) q = path_get m q.
Proof.
  revert m q. induction p as [|k p IH]; intros m q Hc; [by destruct Hc; left; apply prefix_nil|].
  destruct q as [|h q]; [by destruct Hc; right; apply prefix_nil|].
  destruct (decide (k = h)) as [->|Hne].
  - assert (¬ comparable p q) as Hc' by (intros [H|H]; apply Hc; [left|right]; by apply prefix_cons).
    destruct p as [|k' p]; [by destruct Hc'; left; apply prefix_nil|].
    destruct q as [|h' q]; [by destruct Hc'; right; apply prefix_nil|].
    specialize (IH (subMap m h) (h' :: q) Hc'). rewrite path_get_subMap in IH. rewrite <- IH.
    change (path_set (h :: k' :: p) v m) with (<[h := AStrMap (path_set (k' :: p) v (subMap m h))]> m).
    change (path_get ?x (h :: h' :: q)) with (match x !! h with Some (AStrMap s) => path_get s (h' :: q) | _ => None end).
    by rewrite lookup_insert_eq.
  - destruct p as [|k' p], q as [|h' q]; simpl; by rewrite lookup_insert_ne.
Qed.

Definition baseUrlPaths : list (list string) :=
  [["app"; "baseUrl"]; ["backend"; "baseUrl"]; ["backend"; "cors"; "origin"]].

Lemma subMap_insert m k s : subMap (<[k := AStrMap s]> m) k = s.
Proof. unfold subMap. by rewrite lookup_insert_eq. Qed.

Lemma setBaseUrls_paths url m : setBaseUrls url m = foldl (λ m p, path_set p (AString url) m) m baseUrlPaths.
Proof.
  unfold setBaseUrls, baseUrlPaths. cbn [foldl path_set].
  by rewrite !subMap_insert, insert_insert_eq.
Qed.

#[export] Instance comparable_dec p q : Decision (comparable p q).
Proof. unfold comparable. apply _. Defined.

(** Values at paths that are apart do not overwrite each other. *)
Lemma path_get_foldl ps v m p :
  p ≠ [] → p ∈ ps → Forall (λ q, q = p ∨ ¬ comparable q p) ps →
  path_get (foldl (λ m p, path_set p v m) m ps) p = Some v.
Proof.
  intros Hne. induction ps as [|q ps IH] using rev_ind; intros Hp Ha; [by apply not_elem_of_nil in Hp|].
  rewrite foldl_snoc. apply Forall_app in Ha as [Ha [[->|Hq] _]%Forall_cons]; [by apply path_get_set|].
  rewrite path_get_set_ne by done. apply IH; [|done].
  apply elem_of_app in Hp as [Hp|Hp]; [done|]. apply list_elem_of_singleton in Hp as ->. destruct Hq. by left.
Qed.

Lemma setBaseUrls_get url m p : p ∈ baseUrlPaths → path_get (setBaseUrls url m) p = Some (AString url).
Proof.
  intros Hp. rewrite setBaseUrls_paths.
  assert (Forall (λ p, p ≠ [] ∧ Forall (λ q, q = p ∨ ¬ comparable q p) baseUrlPaths) baseUrlPaths) as Ha
    by by apply (bool_decide_unpack _).
  rewrite Forall_forall in Ha. destruct (Ha p Hp) as [Hne Hap]. by apply path_get_foldl.
Qed.

Lemma setBaseUrls_get_ne url m q :
  Forall (λ p, ¬ comparable p q) baseUrlPaths → path_get (setBaseUrls url m) q = path_get m q.
Proof.
  rewrite setBaseUrls_paths. generalize baseUrlPaths as ps. intros ps. revert m.
  induction ps as [|p ps IH]; intros m Hq; [done|]. apply Forall_cons in Hq as [Hp Hq]. cbn [foldl].
  by rewrite IH, path_get_set_ne.
Qed.

End paths.

Section route_theorems.
Context `{own : !Ownership}.

(** C39. A Route is made exactly on OpenShift, unless the custom resource turns
    it off, when the configuration or the custom resource has one; it is then
    owned by the custom resource. *)
Theorem addRoute_iff isOpenshift b config r :
  addRoute isOpenshift b config = Ok r →
  (is_Some r ↔ isOpenshift = true ∧ api.IsRouteEnabled (api.Spec b) = true ∧
     (config ≠ None ∨ api.specRoute (api.Spec b) ≠ None)) ∧
  ∀ x, r = Some x → owned_by b (r_Meta x) ∧ Name (r_Meta x) = RouteName (api.bsName b).
Proof.
  intros H%addRoute_spec. destruct r as [r|].
  - destruct H as (Hw & Ho & Hn). split; [by split; [intros _|eexists]|]. by intros x [= <-].
  - split; [|done]. split; [by intros [? ?]|done].
Qed.

(** What the custom resource says of the Route takes the place of the
    configured value field by field, and what it leaves empty stays; a Route
    without TLS gets edge termination with a redirect when the custom resource
    asks for TLS. *)
Theorem setRoute_fields sp r :
  r_Host (setRoute sp r) = (if decide (api.Host sp = "") then r_Host r else api.Host sp) ∧
  r_Subdomain (setRoute sp r) = (if decide (api.Subdomain sp = "") then r_Subdomain r else api.Subdomain sp) ∧
  match api.rt_TLS sp with
  | None => r_TLS (setRoute sp r) = r_TLS r
  | Some t =>
      ∃ tls, r_TLS (setRoute sp r) = Some tls ∧
        tls_Termination tls = default "edge" (tls_Termination <$> r_TLS r) ∧
        tls_InsecurePolicy tls = default "Redirect" (tls_InsecurePolicy <$> r_TLS r) ∧
        (∀ (f : TLSConfig → string) (g : api.TLS → string),
          (f, g) ∈ [(tls_Certificate, api.Certificate); (tls_Key, api.Key); (tls_CACertificate, api.CACertificate)] →
          f tls = if decide (g t = "") then default "" (f <$> r_TLS r) else g t) ∧
        (api.ExternalCertificateSecretName t ≠ "" →
         tls_ExternalCertificate tls = Some (api.ExternalCertificateSecretName t))
  end.
Proof.
  unfold setRoute. destruct (api.rt_TLS sp) as [t|]; simpl.
  - split; [by rewrite override_spec|]. split; [by rewrite override_spec|].
    eexists. split; [done|]. unfold setTLS. destruct (r_TLS r) as [tls|]; simpl.
    + split_and!; [done..| |].
      * intros f g Hfg. repeat (apply elem_of_cons in Hfg as [Hfg|Hfg]; [injection Hfg as -> ->; simpl|]);
          [..|by apply not_elem_of_nil in Hfg]; rewrite ?override_spec; by repeat case_decide.
      * intros Hne. by rewrite bool_decide_eq_false_2.
    + split_and!; [done..| |done].
      intros f g Hfg. repeat (apply elem_of_cons in Hfg as [Hfg|Hfg]; [injection Hfg as -> ->; simpl|]);
        [..|by apply not_elem_of_nil in Hfg]; by case_decide.
  - by rewrite !override_spec.
Qed.

(** The base URL: the host of the custom resource as it is, or else its
    subdomain or the name of the Route and the namespace, under the ingress
    domain of the cluster; unknown when that domain is. *)
Theorem buildBaseUrl_cases ec b :
  let host := api.specRoute (api.Spec b) ≫= λ r, if decide (api.Host r = "") then None else Some (api.Host r) in
  let subdomain := api.specRoute (api.Spec b) ≫= λ r, if decide (api.Subdomain r = "") then None else Some (api.Subdomain r) in
  buildBaseUrl ec b =
    match host with
    | Some h => "https://" +:+ h
    | None =>
        if decide (OpenShiftIngressDomain ec = "") then ""
        else "https://" +:+ default (RouteName (api.bsName b) +:+ "-" +:+ api.bsNamespace b) subdomain +:+ "." +:+ OpenShiftIngressDomain ec
    end.
Proof.
  unfold buildBaseUrl. destruct (api.specRoute _) as [r|]; simpl.
  - destruct (decide (api.Host r = "")) as [->|Hh].
    + destruct (decide (api.Subdomain r = "")) as [->|Hs]; simpl.
      * by case_bool_decide; case_decide.
      * rewrite (bool_decide_eq_true_2 _ Hs). by case_bool_decide; case_decide.
    + by rewrite (bool_decide_eq_true_2 _ Hh).
  - by case_bool_decide; case_decide.
Qed.

(** Setting the base URLs changes the three values it is about and nothing
    apart from them, whatever the app-config holds in their places. *)
Theorem setBaseUrls_effect url m q :
  (q ∈ baseUrlPaths → path_get (setBaseUrls url m) q = Some (AString url)) ∧
  (Forall (λ p, ¬ comparable p q) baseUrlPaths → path_get (setBaseUrls url m) q = path_get m q).
Proof. split; [apply setBaseUrls_get|apply setBaseUrls_get_ne]. Qed.

Context `{ay : !AppConfigYaml, mo_ : !MapOrder}.

Lemma updateBaseUrlData_fmap url data r :
  updateBaseUrlData url data = Ok r →
  r = fmap (M := gmap string) (λ v, match updateFn url v with Ok u => u | _ => v end) <$> data.
Proof.
  unfold updateBaseUrlData. destruct data as [d|]; [|by intros [= <-]].
  intros H. apply bind_Ok_inv in H as (d' & H & Hd). apply (inj Ok) in Hd as <-. simpl. f_equal.
  set (g := λ v, match updateFn url v with Ok u => u | _ => v end).
  assert (∀ l acc d', NoDup l.*1 → (∀ k v, (k, v) ∈ l → acc !! k = Some v) →
    foldM (updateBaseUrlEntry url) acc l = Ok d' →
    ∀ k, d' !! k = if decide (k ∈ l.*1) then g <$> acc !! k else acc !! k) as Hl.
  { clear. induction l as [|[k0 v0] l IH]; intros acc d' Hnd Hin H k; simpl in H.
    { by injection H as <-. }
    apply NoDup_cons in Hnd as [Hk0 Hnd]. apply bind_Ok_inv in H as (acc' & Ha & H).
    assert (acc !! k0 = Some v0) as Hv0 by (apply Hin; by left).
    assert (∀ k, acc' !! k = if decide (k = k0) then g <$> acc !! k else acc !! k) as Hacc.
    { intros k'. unfold updateBaseUrlEntry in Ha. simpl in Ha. unfold g.
      destruct (updateFn url v0) as [u|e|w] eqn:E; [| |done]; apply (inj Ok) in Ha as <-; case_decide; subst;
        rewrite ?lookup_insert_eq, ?Hv0; simpl; rewrite ?E; try done. by rewrite lookup_insert_ne. }
    assert (∀ k v, (k, v) ∈ l → acc' !! k = Some v) as Hin'.
    { intros k' v' Hk'. rewrite Hacc, decide_False; [apply Hin; by right|].
      intros ->. apply Hk0. apply list_elem_of_fmap. by exists (k0, v'). }
    rewrite (IH acc' d' Hnd Hin' H).
    rewrite Hacc. cbn [fmap list_fmap fst]. destruct (decide (k = k0)) as [->|Hne].
    - rewrite (decide_False (P := k0 ∈ l.*1)) by done. rewrite decide_True by (by left). done.
    - destruct (decide (k ∈ l.*1)) as [Hkl|Hkl].
      + by rewrite decide_True by (by right).
      + rewrite decide_False; [done|]. by intros [->|?]%elem_of_cons. }
  apply map_eq. intros k. rewrite (Hl _ _ _ (NoDup_fst_range d) (λ k v, proj1 (elem_of_range d k v)) H).
  rewrite lookup_fmap. case_decide as Hk; [done|]. destruct (d !! k) as [v|] eqn:E; [|done].
  destruct Hk. apply list_elem_of_fmap. exists (k, v). split; [done|]. by apply elem_of_range.
Qed.

(** The base URL goes into the first app-config only: each of its entries
    that is valid YAML is updated and the others stay as they are. *)
Theorem updateAppConfigWithBaseUrls_first ec b mo r cm items :
  Items mo = KConfigMap cm :: items → updateAppConfigWithBaseUrls ec b (Some mo) = Ok r →
  ∃ cm', r = Some (mo <| Items := KConfigMap cm' :: items |>) ∧ cm_Meta cm' = cm_Meta cm ∧
    ∀ k, map_lookup (cm_Data cm') k =
      (λ v, match updateFn (buildBaseUrl ec b) v with Ok u => u | _ => v end) <$> map_lookup (cm_Data cm) k.
Proof.
  intros Hi H. simpl in H. rewrite Hi in H. apply bind_Ok_inv in H as (data & Hd & H). apply (inj Ok) in H as <-.
  exists (cm <| cm_Data := data |>). split_and!; [done..|]. intros k.
  apply updateBaseUrlData_fmap in Hd as ->. simpl. destruct (cm_Data cm) as [d|]; [|done].
  unfold map_lookup. simpl. apply lookup_fmap.
Qed.

End route_theorems.

(** ** Examples *)

Section witnesses.
#[local] Existing Instances Ownership_set MapOrder_asc.

(** A codec for flat app-configs of one line, for evaluating the model *)
#[local] Instance example_yaml : AppConfigYaml := {|
  UnmarshalAppConfig s := if bool_decide (s = "bad") then Err (Errorf "yaml") else Ok (Some {[s := AString "x"]});
  MarshalAppConfig m := Ok (strings.Join (map_to_list m).*1 ",")
|}.

Definition example_bs_route : api.Backstage :=
  api.mkBackstage (api.bs_Meta example_bs)
    (api.mkBackstageSpec (Some (api.mkApplication None "" None None (Some (api.mkRoute None "h.example" "" None))))
      None None (api.mkMonitoring false) None None) (api.Status example_bs).

Example buildBaseUrl_host : buildBaseUrl NewExternalConfig example_bs_route = "https://h.example".
Proof. done. Qed.

Example buildBaseUrl_domain :
  buildBaseUrl (NewExternalConfig <| OpenShiftIngressDomain := "apps.example" |>) example_bs
    = "https://backstage-bs-ns.apps.example".
Proof. done. Qed.

Lemma addRoute_iff_witness :
  ∃ r, addRoute true example_bs_route None = Ok (Some r) ∧ r_Host r = "h.example" ∧ owned_by example_bs_route (r_Meta r).
Proof.
  destruct (addRoute true example_bs_route None) as [[r|]|e|w] eqn:E; [|by vm_compute in E..].
  exists r. split; [done|]. split; [vm_compute in E; by injection E as <-|].
  by apply (addRoute_iff true example_bs_route None (Some r) E).
Defined.

Definition example_appConfig : MultiObject :=
  mkMultiObject None [KConfigMap (emptyConfigMap <| cm_Data := Some {["a" := "title"; "b" := "bad"]} |>)].

Lemma updateAppConfigWithBaseUrls_first_witness :
  ∃ r cm, updateAppConfigWithBaseUrls NewExternalConfig example_bs_route (Some example_appConfig) = Ok r ∧
    r = Some (mkMultiObject None [KConfigMap cm]) ∧ map_lookup (cm_Data cm) "b" = Some "bad".
Proof.
  destruct (updateAppConfigWithBaseUrls NewExternalConfig example_bs_route (Some example_appConfig)) as [r|e|w] eqn:E;
    [|by vm_compute in E..].
  destruct (updateAppConfigWithBaseUrls_first NewExternalConfig example_bs_route example_appConfig r
    (emptyConfigMap <| cm_Data := Some {["a" := "title"; "b" := "bad"]} |>) [] eq_refl E) as (cm & Hr & _ & Hd).
  exists r, cm. split; [done|]. split; [done|]. rewrite Hd. by vm_compute.
Defined.

End witnesses.
