(* ===== verification/DefaultConfig.v ===== *)
(** * Flavours and the default configuration

    pkg/model/flavour.go and default-config.go, and [mergeDeployments] of
    deployment.go: which flavours of the operator's default configuration are
    on, and how the files of the base and of the flavours are put together. *)

From S2P Require Import Prelude.
From S2P Require Import GoStrings.
From S2P Require Import K8s.
From S2P Require Import Api.
From S2P Require Import Externals.
From S2P Require Import Utils.
From S2P Require Import MetaInfo.
From S2P Require Import DynamicPlugins.
From stdpp Require Import options.

(** ** Flavours *)

(** sigs.k8s.io/yaml on metadata.yaml: the value of [enabledByDefault] *)
Class FlavourYaml := { UnmarshalMetadata : string → outcome bool }.

Record FlavourMetadata := mkFlavourMetadata { EnabledByDefault : bool }.
Record enabledFlavour := mkEnabledFlavour { efl_name : string; efl_basePath : string }.
Record flavourInfo := mkFlavourInfo { fi_basePath : string; fi_enabled : bool }.
#[export] Instance flavourInfo_eta : Eta flavourInfo := λ r, mkFlavourInfo (fi_basePath r) (fi_enabled r).
#[export] Instance enabledFlavour_eq_dec : EqDecision enabledFlavour.
Proof. solve_decision. Defined.
#[export] Instance flavourInfo_eq_dec : EqDecision flavourInfo.
Proof. solve_decision. Defined.

Section flavours.
Context `{os : !OS, fy : !FlavourYaml}.

Definition loadFlavourMetadata (flavourPath : string) : outcome FlavourMetadata :=
  let metadataPath := filepath.Join [flavourPath; "metadata.yaml"] in
  match ReadFile metadataPath with
  | Err err => if os_IsNotExist err then Ok (mkFlavourMetadata false) else Err (Wrapf "failed to read metadata.yaml" err)
  | Ok data => enabled ← wrapErr "failed to parse metadata.yaml" (UnmarshalMetadata data); Ok (mkFlavourMetadata enabled)
  | Panic w => Panic w
  end.

(** One entry of the flavours directory *)
Definition loadFlavour (flavoursDir : string) (flavours : gmap string flavourInfo) (entry : DirEntry) :
    outcome (gmap string flavourInfo) :=
  if negb (de_IsDir entry) then Ok flavours
  else
    let flavourName := de_Name entry in
    let flavourPath := filepath.Join [flavoursDir; flavourName] in
    metadata ← wrapErr ("failed to load flavour '" +:+ flavourName +:+ "'") (loadFlavourMetadata flavourPath);
    Ok (<[flavourName := mkFlavourInfo flavourPath (EnabledByDefault metadata)]> flavours).

Definition loadAllFlavours (flavoursDir : string) : outcome (gmap string flavourInfo) :=
  match ReadDir flavoursDir with
  | Err err => if os_IsNotExist err then Ok ∅ else Err (Wrapf "failed to read flavours directory" err)
  | Ok entries => foldM (loadFlavour flavoursDir) ∅ entries
  | Panic w => Panic w
  end.

Definition overrideFlavour (flavoursDir : string) (allFlavours : gmap string flavourInfo) (f : api.Flavour) :
    outcome (gmap string flavourInfo) :=
  match allFlavours !! api.fl_Name f with
  | None => Err (Errorf ("flavour '" +:+ api.fl_Name f +:+ "' not found in " +:+ flavoursDir))
  | Some flavour => Ok (<[api.fl_Name f := flavour <| fi_enabled := api.fl_Enabled f |>]> allFlavours)
  end.

Definition flavoursDir : string := filepath.Join [Getenv "LOCALBIN"; "default-config"; "flavours"].

Context `{mo_ : !MapOrder}.

Definition GetEnabledFlavours (spec : api.BackstageSpec) : outcome (list enabledFlavour) :=
  match api.Flavours spec with
  | Some [] => Ok []
  | _ =>
      allFlavours ← loadAllFlavours flavoursDir;
      allFlavours ← match api.Flavours spec with
                    | Some flavours => foldM (overrideFlavour flavoursDir) allFlavours flavours
                    | None => Ok allFlavours
                    end;
      Ok (foldl (λ result '(name, flavour),
            if fi_enabled flavour then result ++ [mkEnabledFlavour name (fi_basePath flavour)] else result)
            [] (range allFlavours))
  end.

End flavours.

(** ** Sources *)

Record configSource := mkConfigSource {
  path : string;
  flavourName : string;
  content : string
}.
#[export] Instance configSource_eq_dec : EqDecision configSource.
Proof. solve_decision. Defined.

(** [MergeConfigFunc]: the sources and the extension of the platform *)
Definition MergeConfigFunc : Type := list configSource → string → outcome (list KObject).

Section sources.
Context `{os : !OS}.

(** A file that is there and can be read *)
Definition readSource (p name : string) : list configSource :=
  match Stat p with
  | Ok _ => match ReadFile p with Ok content => [mkConfigSource p name content] | _ => [] end
  | _ => []
  end.

Definition collectConfigSources (key basePath : string) (flavours : list enabledFlavour) : list configSource :=
  foldl (λ sources flavour,
    sources ++ readSource (filepath.Join [efl_basePath flavour; key]) (efl_name flavour))
    (readSource basePath "") flavours.

Context `{merge2 : !Merge2, ks : !KubeScheme}.

Definition ReadDefaultConfig (key : string) (mergeFunc : option MergeConfigFunc) (flavours : list enabledFlavour)
    (platformExt : string) : outcome (list KObject) :=
  let basePath := DefFile key in
  match mergeFunc with
  | None =>
      match Stat basePath with
      | Err err => if os_IsNotExist err then Ok [] else ReadYamlFiles basePath platformExt
      | _ => ReadYamlFiles basePath platformExt
      end
  | Some mergeFunc =>
      let configSources := collectConfigSources key basePath flavours in
      if bool_decide (configSources = []) then Ok [] else mergeFunc configSources platformExt
  end.

(** *** Merge functions *)

Context `{mo_ : !MapOrder, dy : !DynaYaml}.

Definition mergePluginsSource (st : string * option ConfigMap) (src : configSource) : outcome (string * option ConfigMap) :=
  objs ← wrapErr ("failed to parse dynamic-plugins.yaml from " +:+ path src) (ReadYamls (content src) None);
  match objs with
  | [] => Err (Errorf ("no objects found in " +:+ path src))
  | KConfigMap configMap :: _ =>
      match map_lookup (cm_Data configMap) DynamicPluginsFile with
      | None => Err (Errorf ("no " +:+ DynamicPluginsFile +:+ " key found in ConfigMap from " +:+ path src))
      | Some data =>
          mergedData ← wrapErr ("failed to merge dynamic-plugins from " +:+ path src) (MergePluginsData st.1 data);
          Ok (mergedData, Some configMap)
      end
  | _ :: _ => Err (Errorf ("no ConfigMap found in " +:+ path src))
  end.

Definition mergeDynamicPlugins : MergeConfigFunc := λ sources _,
  match sources with
  | [] => Ok []
  | _ =>
      '(mergedData, resultConfigMap) ← foldM mergePluginsSource ("", None) sources;
      configMap ← deref "resultConfigMap" resultConfigMap;
      data ← map_set (cm_Data configMap) DynamicPluginsFile mergedData;
      Ok [KConfigMap (configMap <| cm_Data := data |>)]
  end.

Definition sourceAnnotation (src : configSource) : string :=
  if bool_decide (flavourName src ≠ "") then "flavour-" +:+ flavourName src else "default".

Definition annotateSource (src : configSource) (obj : KObject) : KObject :=
  setObjectMeta (AddAnnotation (objectMeta obj) SourceAnnotation (sourceAnnotation src)) obj.

Definition mergeMultiObjectConfigs : MergeConfigFunc := λ sources _,
  foldM (λ allObjects src,
    objs ← wrapErr ("failed to parse config from " +:+ path src) (ReadYamls (content src) None);
    Ok (foldl (λ allObjects obj, allObjects ++ [annotateSource src obj]) allObjects objs)) [] sources.

Definition mergeDeployments : MergeConfigFunc := λ sources platformExt,
  match sources with
  | [] => Ok []
  | source :: patches =>
      mergedYAML ← foldM (λ mergedYAML src,
          wrapErr ("failed to merge deployment from " +:+ path src) (MergeStrings (content src) mergedYAML None))
        (content source) patches;
      platformPatch ← wrapErr "failed to read platform patch" (ReadPlatformPatch (path source) platformExt);
      objs ← wrapErr "failed to parse merged deployment" (ReadYamls mergedYAML platformPatch);
      match objs with
      | [] => Err (Errorf "no objects found after merging deployment sources")
      | obj :: _ => Ok [obj]
      end
  end.

End sources.

(** ** Which flavours are enabled *)

Section flavour_spec.
Context `{os : !OS, fy : !FlavourYaml}.

(** The directories of the flavours directory *)
Definition flavourEntries (dir : string) : list DirEntry :=
  match ReadDir dir with Ok entries => entries | _ => [] end.

(** What the custom resource says last of a flavour *)
Definition requested (fs : list api.Flavour) (name : string) : option bool :=
  api.fl_Enabled <$> last (filter (λ f, api.fl_Name f = name) fs).

Lemma loadFlavour_fold dir entries m m' name i :
  foldM (loadFlavour dir) m entries = Ok m' →
  m' !! name = Some i ↔
  (mkDirEntry name true ∈ entries ∧ fi_basePath i = filepath.Join [dir; name] ∧
   loadFlavourMetadata (filepath.Join [dir; name]) = Ok (mkFlavourMetadata (fi_enabled i))) ∨
  (mkDirEntry name true ∉ entries ∧ m !! name = Some i).
Proof.
  revert m. induction entries as [|e entries IH]; intros m H; simpl in H.
  { injection H as <-. split; [by right; split; [apply not_elem_of_nil|]|]. by intros [[?%not_elem_of_nil _]|[_ ?]]. }
  apply bind_Ok_inv in H as (m1 & H1 & H). rewrite (IH m1 H). clear IH H. unfold loadFlavour in H1.
  destruct e as [n []]; simpl in H1.
  - apply bind_Ok_inv in H1 as ([b] & Hb & H1). apply wrapErr_Ok_inv in Hb. apply (inj Ok) in H1 as <-.
    destruct (decide (name = n)) as [->|Hne].
    + rewrite lookup_insert_eq. simpl. destruct i as [bp en]; simpl. destruct (decide (mkDirEntry n true ∈ entries)).
      * split; [intros [(? & ? & ?)|[? ?]]; [left; split_and!; [by right|done..]|done]|].
        intros [(_ & ? & ?)|[Hn _]]; [by left|]. destruct Hn. by left.
      * split; [intros [[? _]|[_ [= <- <-]]]; [done|left; split_and!; [by left|done..]]|].
        intros [(_ & -> & Hl)|[Hn _]]; [right; split; [done|]|by destruct Hn; left].
        rewrite Hb in Hl. by injection Hl as ->.
    + rewrite lookup_insert_ne by done. rewrite not_elem_of_cons, elem_of_cons.
      assert (mkDirEntry name true = mkDirEntry n true ↔ False) as -> by (split; [by intros [=]|done]). tauto.
  - injection H1 as <-. rewrite not_elem_of_cons, elem_of_cons.
    assert (mkDirEntry name true = mkDirEntry n false ↔ False) as -> by (split; [by intros [=]|done]). tauto.
Qed.

Lemma loadAllFlavours_spec dir m name i :
  loadAllFlavours dir = Ok m →
  m !! name = Some i ↔
  mkDirEntry name true ∈ flavourEntries dir ∧ fi_basePath i = filepath.Join [dir; name] ∧
  loadFlavourMetadata (filepath.Join [dir; name]) = Ok (mkFlavourMetadata (fi_enabled i)).
Proof.
  unfold loadAllFlavours, flavourEntries. destruct (ReadDir dir) as [entries|e|w]; [|destruct (os_IsNotExist e); [|done]|done].
  - intros H%(loadFlavour_fold _ _ _ _ name i). rewrite H, lookup_empty. naive_solver.
  - intros [= <-]. rewrite lookup_empty. split; [done|]. by intros [?%not_elem_of_nil _].
Qed.

Lemma loadFlavour_dom dir entries m m' name :
  foldM (loadFlavour dir) m entries = Ok m' → mkDirEntry name true ∈ entries → is_Some (m' !! name).
Proof.
  revert m. induction entries as [|e entries IH]; intros m Hm Hd; [by apply not_elem_of_nil in Hd|].
  simpl in Hm. apply bind_Ok_inv in Hm as (m1 & H1 & Hm).
  destruct (decide (mkDirEntry name true ∈ entries)) as [Hin|Hin]; [by eapply IH|].
  apply elem_of_cons in Hd as [<-|Hd]; [|done]. unfold loadFlavour in H1. simpl in H1.
  apply bind_Ok_inv in H1 as ([b] & _ & H1). apply (inj Ok) in H1 as <-.
  eexists. apply (loadFlavour_fold _ _ _ _ _ _ Hm). right. split; [done|apply lookup_insert_eq].
Qed.

Lemma loadAllFlavours_dom dir m name :
  loadAllFlavours dir = Ok m → mkDirEntry name true ∈ flavourEntries dir → is_Some (m !! name).
Proof.
  unfold loadAllFlavours, flavourEntries.
  destruct (ReadDir dir) as [entries|e|w]; [apply loadFlavour_dom|by intros _ ?%not_elem_of_nil..].
Qed.

Lemma overrideFlavour_fold dir fs m m' name :
  foldM (overrideFlavour dir) m fs = Ok m' →
  m' !! name = (λ i, i <| fi_enabled := default (fi_enabled i) (requested fs name) |>) <$> m !! name.
Proof.
  revert m. induction fs as [|f fs IH]; intros m H; simpl in H.
  { injection H as <-. by destruct (m !! name) as [[]|]. }
  apply bind_Ok_inv in H as (m1 & H1 & H). rewrite (IH m1 H). clear IH H. unfold overrideFlavour in H1.
  destruct (m !! api.fl_Name f) as [i|] eqn:Ei; [|done]. injection H1 as <-. unfold requested.
  rewrite filter_cons. destruct (decide (api.fl_Name f = name)) as [<-|Hne].
  - rewrite lookup_insert_eq, Ei, last_cons. simpl. by destruct (last (filter _ fs)).
  - by rewrite lookup_insert_ne.
Qed.

Context `{mo_ : !MapOrder}.

Lemma collectEnabled (l : list (string * flavourInfo)) acc :
  foldl (λ result '(name, flavour),
    if fi_enabled flavour then result ++ [mkEnabledFlavour name (fi_basePath flavour)] else result) acc l =
  acc ++ ((λ e, mkEnabledFlavour e.1 (fi_basePath e.2)) <$> filter (λ e, fi_enabled e.2 = true) l).
Proof.
  revert acc. induction l as [|[n i] l IH]; intros acc; cbn [foldl]; [by rewrite app_nil_r|].
  rewrite IH, filter_cons. simpl. destruct (fi_enabled i).
  - rewrite decide_True by done. by rewrite <- (assoc_L (++)).
  - by rewrite decide_False by done.
Qed.

Lemma elem_of_enabled (m : gmap string flavourInfo) f :
  f ∈ (λ e, mkEnabledFlavour e.1 (fi_basePath e.2)) <$> filter (λ e, fi_enabled e.2 = true) (range m) ↔
  ∃ i, m !! efl_name f = Some i ∧ fi_enabled i = true ∧ fi_basePath i = efl_basePath f.
Proof.
  rewrite list_elem_of_fmap. split.
  - intros ([n i] & -> & Hi). apply list_elem_of_filter in Hi as [He Hi%elem_of_range]. by exists i.
  - intros (i & Hi & He & Hb). exists (efl_name f, i). simpl. rewrite Hb. split; [by destruct f|].
    apply list_elem_of_filter. split; [done|]. by apply elem_of_range.
Qed.

Lemma NoDup_enabled (m : gmap string flavourInfo) :
  NoDup (efl_name <$> ((λ e, mkEnabledFlavour e.1 (fi_basePath e.2)) <$> filter (λ e, fi_enabled e.2 = true) (range m))).
Proof.
  rewrite <- list_fmap_compose. eapply sublist_NoDup; [apply (NoDup_fst_range m)|].
  apply fmap_sublist. apply sublist_filter.
Qed.

(** C40. The enabled flavours are the directories of the flavours directory
    that the custom resource enables or, when it does not name them, that their
    metadata enable by default, each once; an explicitly empty list enables
    none. *)
Theorem GetEnabledFlavours_spec spec l :
  GetEnabledFlavours spec = Ok l →
  NoDup (efl_name <$> l) ∧
  ∀ f, f ∈ l ↔
    api.Flavours spec ≠ Some [] ∧ mkDirEntry (efl_name f) true ∈ flavourEntries flavoursDir ∧
    efl_basePath f = filepath.Join [flavoursDir; efl_name f] ∧
    match requested (default [] (api.Flavours spec)) (efl_name f) with
    | Some b => b = true
    | None => loadFlavourMetadata (efl_basePath f) = Ok (mkFlavourMetadata true)
    end.
Proof.
  unfold GetEnabledFlavours. 
  assert (api.Flavours spec = Some [] ∨ api.Flavours spec ≠ Some []) as [He|Hne]
    by (destruct (api.Flavours spec) as [[]|]; naive_solver).
  { rewrite He. intros [= <-]. split; [constructor|]. intros f. split; [by intros ?%not_elem_of_nil|by intros [? _]]. }
  intros H. assert (∃ m m', loadAllFlavours flavoursDir = Ok m ∧
    (∀ name, m' !! name = (λ i, i <| fi_enabled := default (fi_enabled i) (requested (default [] (api.Flavours spec)) name) |>) <$> m !! name) ∧
    l = (λ e, mkEnabledFlavour e.1 (fi_basePath e.2)) <$> filter (λ e, fi_enabled e.2 = true) (range m')) as (m & m' & Hm & Hm' & ->).
  { destruct (api.Flavours spec) as [[|f fs]|]; [done|..]; apply bind_Ok_inv in H as (m & Hm & H);
      apply bind_Ok_inv in H as (m' & Hm' & H); apply (inj Ok) in H as <-; exists m, m';
      (split; [done|]); (split; [|apply collectEnabled]); intros name.
    - by eapply overrideFlavour_fold.
    - injection Hm' as <-. by destruct (m !! name) as [[]|]. }
  split; [apply NoDup_enabled|]. intros f. rewrite elem_of_enabled, Hm'. split.
  - intros (i' & Hi' & He & Hb). apply fmap_Some in Hi' as (i & Hi & ->). simpl in *.
    apply (loadAllFlavours_spec _ _ _ _ Hm) in Hi as (Hd & Hp & Hl). rewrite <- Hb, Hp. split_and!; [done..|].
    destruct (requested _ _) as [b|]; simpl in He; [done|]. by rewrite Hl, He.
  - intros (_ & Hd & Hp & Hr). rewrite Hp in Hr.
    destruct (loadAllFlavours_dom _ _ _ Hm Hd) as [i Hi].
    rewrite Hi. apply (loadAllFlavours_spec _ _ _ _ Hm) in Hi as (_ & Hp' & Hl).
    eexists. split; [done|]. simpl. split; [|by rewrite Hp', Hp].
    destruct (requested _ _) as [b|]; simpl; [done|]. rewrite Hl in Hr. by injection Hr.
Qed.

End flavour_spec.

(** ** What the merged default configuration holds *)

Section config_spec.
Context `{os : !OS, merge2 : !Merge2, ks : !KubeScheme}.

(** The base, then the flavours in their order, as far as they have the file *)
Definition orderedSources (key : string) (flavours : list enabledFlavour) : list configSource :=
  readSource (DefFile key) "" ++ (flavours ≫= λ f, readSource (filepath.Join [efl_basePath f; key]) (efl_name f)).

Lemma collectConfigSources_order key flavours :
  collectConfigSources key (DefFile key) flavours = orderedSources key flavours.
Proof.
  unfold collectConfigSources, orderedSources. generalize (readSource (DefFile key) "") as acc.
  induction flavours as [|f fs IH]; intros acc; cbn [foldl]; [by rewrite app_nil_r|].
  by rewrite IH, bind_cons, (assoc_L (++)).
Qed.

Lemma foldl_annotate src acc objs :
  foldl (λ allObjects obj, allObjects ++ [annotateSource src obj]) acc objs = acc ++ (annotateSource src <$> objs).
Proof.
  revert acc. induction objs as [|o objs IH]; intros acc; cbn [foldl]; [by rewrite app_nil_r|].
  by rewrite IH, <- (assoc_L (++)).
Qed.

Lemma annotateSource_spec src o :
  map_lookup (Annotations (objectMeta (annotateSource src o))) SourceAnnotation = Some (sourceAnnotation src) ∧
  setObjectMeta (objectMeta o) (annotateSource src o) = o.
Proof.
  unfold annotateSource. rewrite objectMeta_set, setObjectMeta_set, setObjectMeta_id. split; [|done].
  unfold AddAnnotation, map_lookup. simpl. by rewrite lookup_insert_eq.
Qed.

(** A configuration that may hold several objects is the concatenation of
    those of the base and of the enabled flavours, in that order; each object
    says where it comes from and is otherwise as its file has it. *)
Theorem ReadDefaultConfig_multi key flavours ext objs :
  ReadDefaultConfig key (Some mergeMultiObjectConfigs) flavours ext = Ok objs →
  ∃ lists, Forall2 (λ src l, ReadYamls (content src) None = Ok l) (orderedSources key flavours) lists ∧
    Forall2 (λ o o', map_lookup (Annotations (objectMeta o)) SourceAnnotation = Some o'.1 ∧ setObjectMeta (objectMeta o'.2) o = o'.2)
      objs (concat (zip_with (λ src l, pair (sourceAnnotation src) <$> l) (orderedSources key flavours) lists)).
Proof.
  unfold ReadDefaultConfig. rewrite collectConfigSources_order. generalize (orderedSources key flavours) as sources.
  intros sources H. assert (mergeMultiObjectConfigs sources ext = Ok objs) as Hm.
  { destruct (decide (sources = [])) as [->|Hne]; [by injection H as <-|]. by rewrite bool_decide_eq_false_2 in H. }
  clear H. unfold mergeMultiObjectConfigs in Hm.
  assert (∀ acc, foldM (λ allObjects src, objs ← wrapErr ("failed to parse config from " +:+ path src) (ReadYamls (content src) None);
      Ok (foldl (λ allObjects obj, allObjects ++ [annotateSource src obj]) allObjects objs)) acc sources = Ok objs →
    ∃ lists, Forall2 (λ src l, ReadYamls (content src) None = Ok l) sources lists ∧
      objs = acc ++ concat (zip_with (λ src l, annotateSource src <$> l) sources lists)) as Hs.
  { clear Hm. induction sources as [|src sources IH]; intros acc H; simpl in H.
    { injection H as <-. exists []. split; [constructor|]. by rewrite app_nil_r. }
    apply bind_Ok_inv in H as (acc' & Ha & H). apply bind_Ok_inv in Ha as (l & Hl%wrapErr_Ok_inv & Ha).
    apply (inj Ok) in Ha as <-. rewrite foldl_annotate in H. apply IH in H as (lists & Hf & ->).
    exists (l :: lists). split; [by constructor|]. simpl. by rewrite <- (assoc_L (++)). }
  apply Hs in Hm as (lists & Hf & ->). exists lists. split; [done|]. simpl. clear Hs.
  induction Hf as [|src l sources lists Hl Hf IH]; simpl; [constructor|].
  apply Forall2_app; [|done]. clear. induction l as [|o l IH]; simpl; constructor; [apply annotateSource_spec|done].
Qed.

(** A key without a merge function ignores the flavours. *)
Lemma ReadDefaultConfig_base_only key flavours1 flavours2 ext :
  ReadDefaultConfig key None flavours1 ext = ReadDefaultConfig key None flavours2 ext.
Proof. done. Qed.

(** A missing file is no error: the configuration is empty. *)
Lemma ReadDefaultConfig_missing key f ext :
  Stat (DefFile key) = Err (PathError "stat" (DefFile key) ENOENT) →
  (∀ g, f = Some g → g = mergeMultiObjectConfigs) → ReadDefaultConfig key f [] ext = Ok [].
Proof.
  intros Hs Hf. destruct f as [g|]; simpl; [|unfold ReadDefaultConfig; by rewrite Hs].
  unfold ReadDefaultConfig. rewrite collectConfigSources_order. unfold orderedSources, readSource. by rewrite Hs.
Qed.

End config_spec.

(** ** Examples *)

Section witnesses.
#[local] Instance example_flavour_yaml : FlavourYaml :=
  {| UnmarshalMetadata s := Ok (bool_decide (s = "enabledByDefault: true")) |}.
#[local] Instance example_flavours_os : OS :=
  OS_of ∅ {["default-config/flavours/a/metadata.yaml" := "enabledByDefault: true";
            "default-config/flavours/b/metadata.yaml" := "enabledByDefault: true"]}
    {["default-config/flavours" := [mkDirEntry "README.md" false; mkDirEntry "a" true; mkDirEntry "b" true; mkDirEntry "c" true]]}.

Definition example_spec_flavours (fs : option (list api.Flavour)) : api.BackstageSpec :=
  api.mkBackstageSpec None None None (api.mkMonitoring false) None fs.

Example GetEnabledFlavours_defaults :
  fmap (M := outcome) (fmap efl_name) (GetEnabledFlavours (mo_ := MapOrder_asc) (example_spec_flavours None)) = Ok ["a"; "b"].
Proof. by vm_compute. Qed.

Example GetEnabledFlavours_unknown :
  is_Ok (GetEnabledFlavours (mo_ := MapOrder_asc) (example_spec_flavours (Some [api.mkFlavour "x" true]))) = false.
Proof. by vm_compute. Qed.

(** The order of the enabled flavours, and with it that of the merged
    configuration, is not determined by the custom resource: it differs from one
    run to the next. *)
Theorem GetEnabledFlavours_order_varies :
  ∃ (os : OS) (fy : FlavourYaml) (run1 run2 : MapOrder) spec l1 l2,
    GetEnabledFlavours (mo_ := run1) spec = Ok l1 ∧ GetEnabledFlavours (mo_ := run2) spec = Ok l2 ∧
    efl_name <$> l1 = ["c"; "b"] ∧ efl_name <$> l2 = ["b"; "c"] ∧
    api.Flavours spec = Some [api.mkFlavour "b" true; api.mkFlavour "c" true; api.mkFlavour "a" false].
Proof.
  exists example_flavours_os, example_flavour_yaml, MapOrder_asc, MapOrder_desc.
  exists (example_spec_flavours (Some [api.mkFlavour "b" true; api.mkFlavour "c" true; api.mkFlavour "a" false])).
  eexists _, _. split; [by vm_compute|]. split; [by vm_compute|]. by vm_compute.
Qed.

Lemma GetEnabledFlavours_spec_witness :
  ∃ l, GetEnabledFlavours (mo_ := MapOrder_asc) (example_spec_flavours (Some [api.mkFlavour "b" false])) = Ok l ∧
    mkEnabledFlavour "a" "default-config/flavours/a" ∈ l ∧ mkEnabledFlavour "b" "default-config/flavours/b" ∉ l.
Proof.
  destruct (GetEnabledFlavours (mo_ := MapOrder_asc) (example_spec_flavours (Some [api.mkFlavour "b" false]))) as [l|e|w] eqn:E;
    [|by vm_compute in E..].
  exists l. destruct (GetEnabledFlavours_spec (mo_ := MapOrder_asc) _ _ E) as [_ Hl].
  split; [done|]. split.
  - apply Hl. split_and!; [done|right; left|by vm_compute|by vm_compute].
  - intros Hb%Hl. destruct Hb as (_ & _ & _ & Hb). by vm_compute in Hb.
Defined.

(** A manifest is one object whose name is its text. *)
#[local] Instance example_scheme : KubeScheme := {|
  Unstructured := string;
  UnmarshalUnstructured s := Ok s;
  DecodeStream s := [Ok s];
  unstructuredGVK _ := mkTypeMeta "v1" "ConfigMap";
  unstructuredMeta s := mkObjectMeta s "" None None [];
  setUnstructuredMeta m _ := Name m;
  scheme_New _ := Ok (KConfigMap emptyConfigMap);
  FromUnstructured u _ := Ok (KConfigMap (mkConfigMap (mkTypeMeta "v1" "ConfigMap") (mkObjectMeta u "" None None []) None None));
  ObjectKinds _ := Ok [mkTypeMeta "v1" "ConfigMap"]
|}.
#[local] Instance example_merge2 : Merge2 := {| MergeStrings src dest o := Ok src |}.
Definition example_config_os : OS :=
  OS_of ∅ {["default-config/app-config.yaml" := "base"; "f/app-config.yaml" := "flavoured"]} ∅.

Lemma ReadDefaultConfig_multi_witness :
  ∃ o1 o2, ReadDefaultConfig (os := example_config_os) "app-config.yaml" (Some mergeMultiObjectConfigs)
      [mkEnabledFlavour "lightspeed" "f"] "k8s" = Ok [o1; o2] ∧
    map_lookup (Annotations (objectMeta o1)) SourceAnnotation = Some "default" ∧
    map_lookup (Annotations (objectMeta o2)) SourceAnnotation = Some "flavour-lightspeed".
Proof.
  destruct (ReadDefaultConfig (os := example_config_os) "app-config.yaml" (Some mergeMultiObjectConfigs)
    [mkEnabledFlavour "lightspeed" "f"] "k8s") as [[|o1 [|o2 [|o3 l]]]|e|w] eqn:E; try (by vm_compute in E).
  exists o1, o2. split; [done|].
  destruct (ReadDefaultConfig_multi (os := example_config_os) _ _ _ _ E) as (lists & Hf & Ho).
  vm_compute in E. injection E as <- <-. split; by vm_compute.
Defined.

End witnesses.
