(* ===== verification/PluginDeps.v ===== *)
(** * Dependencies of the dynamic plugins (pkg/model/plugin_deps.go)

    The manifests in the operator's directory of plugin dependencies whose
    names begin with a reference of an enabled plugin, with the name and the
    namespace of the custom resource filled in. *)

From S2P Require Import Prelude.
From S2P Require Import GoStrings.
From S2P Require Import K8s.
From S2P Require Import Api.
From S2P Require Import Externals.
From S2P Require Import Utils.
From S2P Require Import DynamicPluginsReference.
From S2P Require Import DynamicPlugins.
From stdpp Require Import options.

Section deps.
Context `{os : !OS, ks : !KubeScheme}.

Definition getDepsFiles (root : string) (enabledPrefixes : list string) : outcome (list string) :=
  entries ← wrapErr ("failed to read directory " +:+ root) (ReadDir root);
  Ok (foldl (λ files entry,
        if de_IsDir entry then files
        else if existsb (strings.HasPrefix (de_Name entry)) enabledPrefixes
        then files ++ [filepath.Join [root; de_Name entry]]
        else files) [] entries).

(** One file: read, substitute, parse *)
Definition readDepsFile (bsName bsNamespace : string) (objects : list Unstructured) (file : string) :
    outcome (list Unstructured) :=
  if negb (IsYamlFile file) then Ok objects
  else
    content ← wrapErr ("failed to read file " +:+ file) (ReadFile (filepath.Clean file));
    let modifiedContent := strings.ReplaceAll content "{{backstage-name}}" bsName in
    let modifiedContent := strings.ReplaceAll modifiedContent "{{backstage-ns}}" bsNamespace in
    objs ← wrapErr ("failed to read YAML file " +:+ file) (ReadYamlContent modifiedContent);
    Ok (objects ++ objs).

Definition ReadPluginDeps (rootDir bsName bsNamespace : string) (enabled : list string) : outcome (list Unstructured) :=
  exists_ ← DirectoryExists rootDir;
  if negb exists_ then Ok []
  else
    files ← getDepsFiles rootDir enabled;
    foldM (readDepsFile bsName bsNamespace) [] files.

Context `{own : !Ownership, dy : !DynaYaml}.

Definition ownDependency (backstage : api.Backstage) (obj : Unstructured) : outcome Unstructured :=
  let m := unstructuredMeta obj in
  let m := if bool_decide (Namespace m = "") then m <| Namespace := api.bsNamespace backstage |> else m in
  m' ← wrapErr ("failed to set controller reference for plugin dependency " +:+ Name m) (SetControllerReference backstage m);
  Ok (setUnstructuredMeta m' obj).

Definition depsDir : string :=
  match LookupEnv "PLUGIN_DEPS_DIR_backstage" with
  | Some dir => dir
  | None => filepath.Join [Getenv "LOCALBIN"; "plugin-deps"]
  end.

(** The references of the dependencies *)
Definition depRefs (pdeps : list PluginDependency) : list string :=
  foldl (λ refs dep, if bool_decide (Ref dep ≠ "") then refs ++ [Ref dep] else refs) [] pdeps.

Definition GetPluginDeps (backstage : api.Backstage) (plugins : DynamicPlugins) : outcome (list Unstructured) :=
  pdeps ← wrapErr "failed to get plugin dependencies" (PluginDependencies plugins);
  objs ← wrapErr "failed to read plugin dependencies"
    (ReadPluginDeps depsDir (api.bsName backstage) (api.bsNamespace backstage) (depRefs pdeps));
  collect (ownDependency backstage) [] objs.

End deps.

(** ** What is read *)

Section lemmas.
Context `{os : !OS, ks : !KubeScheme}.

Lemma depRefs_filter pdeps : depRefs pdeps = filter (.≠ "") (Ref <$> pdeps).
Proof.
  unfold depRefs. assert (∀ acc, foldl (λ refs dep, if bool_decide (Ref dep ≠ "") then refs ++ [Ref dep] else refs) acc pdeps
    = acc ++ filter (.≠ "") (Ref <$> pdeps)) as H; [|apply (H [])].
  induction pdeps as [|d l IH]; intros acc; cbn [foldl]; [by rewrite app_nil_r|].
  rewrite IH, fmap_cons, filter_cons. destruct (decide (Ref d ≠ "")) as [Hd|Hd].
  - rewrite bool_decide_eq_true_2 by done. by rewrite <- (assoc_L (++)).
  - by rewrite bool_decide_eq_false_2.
Qed.

(** A file of the directory that belongs to one of the references *)
Definition deps_entry (refs : list string) (e : DirEntry) : Prop :=
  de_IsDir e = false ∧ existsb (strings.HasPrefix (de_Name e)) refs = true.
#[export] Instance deps_entry_dec refs e : Decision (deps_entry refs e).
Proof. unfold deps_entry. apply _. Defined.

Lemma getDepsFiles_Ok root refs files :
  getDepsFiles root refs = Ok files ↔
  ∃ entries, ReadDir root = Ok entries ∧
    files = (λ e, filepath.Join [root; de_Name e]) <$> filter (deps_entry refs) entries.
Proof.
  unfold getDepsFiles. rewrite bind_Ok_inv.
  assert (∀ entries acc, foldl (λ files entry, if de_IsDir entry then files
        else if existsb (strings.HasPrefix (de_Name entry)) refs then files ++ [filepath.Join [root; de_Name entry]]
        else files) acc entries = acc ++ ((λ e, filepath.Join [root; de_Name e]) <$> filter (deps_entry refs) entries)) as Hf.
  { induction entries as [|e l IH]; intros acc; cbn [foldl]; [by rewrite app_nil_r|]. rewrite IH, filter_cons.
    destruct (decide (deps_entry refs e)) as [[-> ->]|Hd]; [by rewrite <- (assoc_L (++))|]. unfold deps_entry in Hd.
    destruct (de_IsDir e); [done|]. destruct (existsb _ refs); [by destruct Hd|done]. }
  split.
  - intros (entries & He & H). apply (inj Ok) in H as <-. rewrite Hf. exists entries. by apply wrapErr_Ok_inv in He.
  - intros (entries & He & ->). exists entries. rewrite Hf, He. done.
Qed.

Definition substituted (bsName bsNamespace content : string) : string :=
  strings.ReplaceAll (strings.ReplaceAll content "{{backstage-name}}" bsName) "{{backstage-ns}}" bsNamespace.

(** The objects are those of the YAML files, in the order of the files. *)
Lemma readDepsFile_fold bn ns files acc objs :
  foldM (readDepsFile bn ns) acc files = Ok objs →
  ∃ lists, objs = acc ++ concat lists ∧
    Forall2 (λ f l, ∃ c, ReadFile (filepath.Clean f) = Ok c ∧ ReadYamlContent (substituted bn ns c) = Ok l)
      (filter (λ f, IsYamlFile f = true) files) lists.
Proof.
  revert acc. induction files as [|f files IH]; intros acc H; simpl in H.
  { injection H as <-. exists []. split; [by rewrite app_nil_r|constructor]. }
  apply bind_Ok_inv in H as (acc' & Ha & H). apply IH in H as (lists & -> & Hf). unfold readDepsFile in Ha.
  rewrite filter_cons. destruct (IsYamlFile f) eqn:Ey.
  - cbn [negb] in Ha. apply bind_Ok_inv in Ha as (c & Hc%wrapErr_Ok_inv & Ha).
    apply bind_Ok_inv in Ha as (l & Hl%wrapErr_Ok_inv & Ha). apply (inj Ok) in Ha as <-.
    exists (l :: lists). rewrite decide_True by done. split; [by rewrite <- (assoc_L (++))|].
    constructor; [by exists c|done].
  - injection Ha as <-. exists lists. by rewrite decide_False.
Qed.

End lemmas.

(** The dependencies are the objects of the YAML files whose names begin
    with a reference of an enabled plugin, with the name and namespace of the
    custom resource filled in; they belong to the custom resource, and to its
    namespace if they name none. *)
Theorem GetPluginDeps_objects `{os : !OS, ks : !KubeScheme, own : !Ownership, dy : !DynaYaml} b plugins pdeps entries objs :
  PluginDependencies plugins = Ok pdeps → Stat depsDir = Ok true → ReadDir depsDir = Ok entries →
  (∀ m u, unstructuredMeta (setUnstructuredMeta m u) = m) →
  GetPluginDeps b plugins = Ok objs →
  ∃ lists,
    Forall2 (λ f l, ∃ c, ReadFile (filepath.Clean f) = Ok c ∧
        ReadYamlContent (substituted (api.bsName b) (api.bsNamespace b) c) = Ok l)
      (filter (λ f, IsYamlFile f = true)
        ((λ e, filepath.Join [depsDir; de_Name e]) <$> filter (deps_entry (filter (.≠ "") (Ref <$> pdeps))) entries)) lists ∧
    Forall2 (λ u u',
        Namespace (unstructuredMeta u') =
          (if decide (Namespace (unstructuredMeta u) = "") then api.bsNamespace b else Namespace (unstructuredMeta u)) ∧
        Name (unstructuredMeta u') = Name (unstructuredMeta u) ∧
        mkOwnerReference "Backstage" (api.bsName b) true ∈ OwnerReferences (unstructuredMeta u'))
      (concat lists) objs.
Proof.
  intros Hp Hs Hd Hmeta H. unfold GetPluginDeps in H. rewrite Hp in H.
  apply bind_Ok_inv in H as (x & Hx & H). apply (inj Ok) in Hx as <-. apply bind_Ok_inv in H as (us & Hu%wrapErr_Ok_inv & H).
  unfold ReadPluginDeps, DirectoryExists in Hu. rewrite Hs in Hu. cbn [mbind outcome_bind negb] in Hu.
  apply bind_Ok_inv in Hu as (files & Hf & Hu). apply getDepsFiles_Ok in Hf as (entries' & He & ->).
  rewrite Hd in He. apply (inj Ok) in He as <-. rewrite depRefs_filter in Hu.
  apply readDepsFile_fold in Hu as (lists & -> & Hl). exists lists. split; [done|].
  apply collect_Ok in H as (objs' & -> & Ho). simpl. eapply Forall2_impl; [exact Ho|]. clear -Hmeta.
  intros u u' H. unfold ownDependency in H. apply bind_Ok_inv in H as (m & Hm%wrapErr_Ok_inv & H).
  apply (inj Ok) in H as <-. rewrite Hmeta. pose proof (SetControllerReference_owned _ _ _ Hm).
  apply SetControllerReference_only_owners in Hm. split_and!; [..|done]; rewrite Hm; case_bool_decide as Hb; simpl; try done; by destruct (decide _).
Qed.

(** ** Example *)

Section witness.
#[local] Existing Instances Ownership_set.

(** A manifest is its text, with an empty metadata. *)
#[local] Instance example_deps_scheme : KubeScheme := {|
  Unstructured := string * ObjectMeta;
  UnmarshalUnstructured s := Ok (s, emptyMeta);
  DecodeStream s := [Ok (s, emptyMeta)];
  unstructuredGVK _ := mkTypeMeta "v1" "ConfigMap";
  unstructuredMeta u := u.2;
  setUnstructuredMeta m u := (u.1, m);
  scheme_New _ := Err (Errorf "unused");
  FromUnstructured u _ := Err (Errorf "unused");
  ObjectKinds _ := Ok []
|}.
#[local] Instance example_deps_os : OS :=
  OS_of ∅ {["plugin-deps/sonataflow.yaml" := "name: {{backstage-name}}-sf"; "plugin-deps/tekton.yaml" := "x"]}
    {["plugin-deps" := [mkDirEntry "sonataflow.yaml" false; mkDirEntry "tekton.yaml" false]]}.
(** Every text is one plugin with one dependency; nothing can be written. *)
#[local, program] Instance example_deps_yaml : DynaYaml := {|
  UnmarshalPlugins s := Ok (mkDynaPluginsConfig None
    (Some [mkDynaPlugin "./a" "" None false None (Some [mkPluginDependency "sonata"])]));
  MarshalPlugins c := Err (Errorf "yaml");
  MarshalPluginConfig m := Err (Errorf "yaml");
  decoded c := c = None
|}.
Next Obligation. intros s c p l [= <-] [= <-] Hp. by apply list_elem_of_singleton in Hp as ->. Qed.
Next Obligation. done. Qed.

Definition example_deps_plugins : DynamicPlugins :=
  mkDynamicPlugins (Some (emptyConfigMap <| cm_Data := Some {[DynamicPluginsFile := "x"]} |>)) None None.
Definition example_deps_bs : api.Backstage :=
  api.mkBackstage (mkObjectMeta "bs" "ns" None None []) api.emptySpec (api.mkBackstageStatus []).

Lemma GetPluginDeps_objects_witness :
  ∃ u, GetPluginDeps example_deps_bs example_deps_plugins = Ok [u] ∧ u.1 = "name: bs-sf" ∧
    Namespace (unstructuredMeta u) = "ns".
Proof.
  destruct (GetPluginDeps example_deps_bs example_deps_plugins) as [[|u [|u' l]]|e|w] eqn:E; try (by vm_compute in E).
  exists u. split; [done|]. split; [vm_compute in E; by injection E as <-|].
  destruct (GetPluginDeps_objects example_deps_bs example_deps_plugins [mkPluginDependency "sonata"]
    [mkDirEntry "sonataflow.yaml" false; mkDirEntry "tekton.yaml" false] [u]) as (lists & Hf & Ho);
    [by vm_compute|by vm_compute|by vm_compute|done|exact E|].
  vm_compute in E. injection E as <-. done.
Defined.

End witness.
