(* ===== verification/Runtime.v ===== *)
(** * The model of one custom resource (pkg/model/runtime.go, interfaces.go)

    The registry of the components, the model with its objects, and
    [InitObjects], which adds every component to the model and then finishes
    them one by one.  A [RuntimeObject] is a pointer in the code, shared by the
    components through the model; here an object is named by its place in the
    model, and finishing one component updates the places of those it reaches. *)

From S2P Require Import Prelude.
From S2P Require Import K8s.
From S2P Require Import Api.
From S2P Require Import Externals.
From S2P Require Import Utils.
From S2P Require Import Pod.
From S2P Require Import Deployable.
From S2P Require Import MetaInfo.
From S2P Require Import BackstageDeployment.
From S2P Require Import DynamicPluginsReference.
From S2P Require Import DynamicPlugins.
From S2P Require Import ExternalConfig.
From S2P Require Import ConfigObjects.
From S2P Require Import Db.
From S2P Require Import ServiceRoute.
From S2P Require Import DefaultConfig.
From stdpp Require Import options.

Definition DeploymentKey : string := "deployment.yaml".
Definition ServiceKey : string := "service.yaml".
Definition RouteKey : string := "route.yaml".
Definition AppConfigKey : string := "app-config.yaml".
Definition DynamicPluginsKey : string := "dynamic-plugins.yaml".
Definition DbStatefulSetKey : string := "db-statefulset.yaml".
Definition DbServiceKey : string := "db-service.yaml".
Definition DbSecretKey : string := "db-secret.yaml".
Definition SecretEnvsKey : string := "secret-envs.yaml".
Definition SecretFilesKey : string := "secret-files.yaml".
Definition ConfigMapEnvsKey : string := "configmap-envs.yaml".
Definition ConfigMapFilesKey : string := "configmap-files.yaml".
Definition PvcsKey : string := "pvcs.yaml".

(** ** Platforms (pkg/platform/platform.go) *)

Record Platform := mkPlatform { platform_Name : string; Extension : string }.
#[export] Instance Platform_eq_dec : EqDecision Platform.
Proof. solve_decision. Defined.

Definition OpenShift : Platform := mkPlatform "OpenShift" "ocp".
Definition EKS : Platform := mkPlatform "EKS" "k8s".
Definition AKS : Platform := mkPlatform "AKS" "k8s".
Definition GKE : Platform := mkPlatform "GKE" "k8s".
Definition Kubernetes : Platform := mkPlatform "Kubernetes" "k8s".
Definition IsOpenshift (p : Platform) : bool := bool_decide (p = OpenShift).

(** ** Runtime objects *)

Inductive RuntimeObject :=
  | RAppConfig (ConfigMaps : MultiObject)
  | RConfigMapEnvs (ConfigMaps : option MultiObject)
  | RConfigMapFiles (ConfigMaps : option MultiObject)
  | RDbSecret (secret : option Secret)
  | RDbService (service : option Service)
  | RDbStatefulSet (statefulSet : option StatefulSet)
  | RDeployment (d : BackstageDeployment)
  | RDynamicPlugins (p : DynamicPlugins)
  | RPvcs (pvcs : option MultiObject)
  | RRoute (route : option Route)
  | RSecretEnvs (secrets : option MultiObject)
  | RSecretFiles (secrets : option MultiObject)
  | RService (service : Service).

Definition GetKey (o : RuntimeObject) : string :=
  match o with
  | RAppConfig _ => AppConfigKey
  | RConfigMapEnvs _ => ConfigMapEnvsKey
  | RConfigMapFiles _ => ConfigMapFilesKey
  | RDbSecret _ => DbSecretKey
  | RDbService _ => DbServiceKey
  | RDbStatefulSet _ => DbStatefulSetKey
  | RDeployment _ => DeploymentKey
  | RDynamicPlugins _ => DynamicPluginsKey
  | RPvcs _ => PvcsKey
  | RRoute _ => RouteKey
  | RSecretEnvs _ => SecretEnvsKey
  | RSecretFiles _ => SecretFilesKey
  | RService _ => ServiceKey
  end.

(** What each component has to apply *)
Definition AppConfig_Object (mo : MultiObject) : option Config := ConfMulti <$> multiObject (Some mo).
Definition ConfigMapEnvs_Object (mo : option MultiObject) : option Config := ConfMulti <$> multiObject mo.
Definition ConfigMapFiles_Object (mo : option MultiObject) : option Config := ConfMulti <$> multiObject mo.
Definition DbSecret_Object (s : option Secret) : option Config := (λ s, ConfObject (KSecret s)) <$> s.
Definition DbService_Object (s : option Service) : option Config := (λ s, ConfObject (KService s)) <$> s.
Definition DbStatefulSet_Object (s : option StatefulSet) : option Config := (λ s, ConfObject (KStatefulSet s)) <$> s.
Definition BackstageDeployment_Object (d : BackstageDeployment) : option Config := Some (ConfObject (GetObject (deployable d))).
Definition BackstagePvcs_Object (mo : option MultiObject) : option Config := ConfMulti <$> multiObject mo.
Definition BackstageRoute_Object (r : option Route) : option Config := (λ r, ConfObject (KRoute r)) <$> r.
Definition SecretEnvs_Object (mo : option MultiObject) : option Config := ConfMulti <$> multiObject mo.
Definition SecretFiles_Object (mo : option MultiObject) : option Config := ConfMulti <$> multiObject mo.
Definition BackstageService_Object (s : Service) : option Config := Some (ConfObject (KService s)).

Definition Object_ `{os : !OS} (o : RuntimeObject) : option Config :=
  match o with
  | RAppConfig mo => AppConfig_Object mo
  | RConfigMapEnvs mo => ConfigMapEnvs_Object mo
  | RConfigMapFiles mo => ConfigMapFiles_Object mo
  | RDbSecret s => DbSecret_Object s
  | RDbService s => DbService_Object s
  | RDbStatefulSet s => DbStatefulSet_Object s
  | RDeployment d => BackstageDeployment_Object d
  | RDynamicPlugins p => (λ cm, ConfObject (KConfigMap cm)) <$> DynamicPlugins_Object p
  | RPvcs mo => BackstagePvcs_Object mo
  | RRoute r => BackstageRoute_Object r
  | RSecretEnvs mo => SecretEnvs_Object mo
  | RSecretFiles mo => SecretFiles_Object mo
  | RService s => BackstageService_Object s
  end.

Definition is_some {A} (x : option A) : bool := match x with Some _ => true | None => false end.

(** ** The model *)

Record BackstageModel := mkBackstageModel {
  localDbEnabled : bool;
  isOpenshift : bool;
  RuntimeObjects : list RuntimeObject;
  model_ExternalConfig : ExternalConfig
}.
#[export] Instance BackstageModel_eta : Eta BackstageModel := λ r,
  mkBackstageModel (localDbEnabled r) (isOpenshift r) (RuntimeObjects r) (model_ExternalConfig r).

Definition setRuntimeObject (o : RuntimeObject) (m : BackstageModel) : BackstageModel :=
  m <| RuntimeObjects ::= λ l, l ++ [o] |>.

Section model.
Context `{os : !OS}.

(** The place of the first object with a key that has something to apply *)
Fixpoint findObject (key : string) (l : list RuntimeObject) : option (nat * RuntimeObject) :=
  match l with
  | [] => None
  | o :: l =>
      if String.eqb (GetKey o) key && is_some (Object_ o) then Some (0, o)
      else '(i, o) ← findObject key l; Some (S i, o)
  end.

Definition GetRuntimeObject (key : string) (m : BackstageModel) : option RuntimeObject :=
  snd <$> findObject key (RuntimeObjects m).

Definition GetRuntimeObjects (m : BackstageModel) : list RuntimeObject :=
  foldl (λ result obj, if is_some (Object_ obj) then result ++ [obj] else result) [] (RuntimeObjects m).

(** [getDeployment]; only a deployment has its key, so the type assertion holds. *)
Definition getDeployment (m : BackstageModel) : option (nat * BackstageDeployment) :=
  match findObject DeploymentKey (RuntimeObjects m) with
  | Some (i, RDeployment d) => Some (i, d)
  | _ => None
  end.

Definition GetDeploymentGVK (m : BackstageModel) : outcome TypeMeta :=
  d ← deref "deployment" (getDeployment m);
  Ok (objectType (GetObject (deployable d.2))).

(** Assign to the object at a place. *)
Definition setObjectAt (i : nat) (o : RuntimeObject) (m : BackstageModel) : BackstageModel :=
  m <| RuntimeObjects ::= λ l, <[i := o]> l |>.

(** Change the pod of the deployment. *)
Definition withDeployment (f : PodSpec → outcome PodSpec) (m : BackstageModel) : outcome BackstageModel :=
  match getDeployment m with
  | None => Err (Errorf "backstage deployment not found in model")
  | Some (i, d) =>
      w ← withPod f (deployable d);
      Ok (setObjectAt i (RDeployment (mkBackstageDeployment w)) m)
  end.

End model.

(** ** The registry *)

Record ObjectConfig := mkObjectConfig {
  oc_Key : string;
  oc_Factory : string;
  Multiple : bool;
  MergeFunc : option MergeConfigFunc
}.

Definition registerConfig (runtimeConfig : list ObjectConfig) (c : ObjectConfig) : outcome (list ObjectConfig) :=
  if existsb (λ obj, String.eqb (oc_Key obj) (oc_Key c)) runtimeConfig then Panic ("duplicate object key " +:+ oc_Key c)
  else Ok (runtimeConfig ++ [c]).

Section init.
Context `{os : !OS, mo_ : !MapOrder, own : !Ownership, merge2 : !Merge2, wyaml : !WorkloadYaml,
  dy : !DynaYaml, ks : !KubeScheme, fy : !FlavourYaml, ay : !AppConfigYaml, rnd : !Rand}.

(** The [init] function of each component; its factory is named by its type. *)
Definition AppConfig_init : ObjectConfig := mkObjectConfig AppConfigKey "AppConfig" true (Some mergeMultiObjectConfigs).
Definition ConfigMapEnvs_init : ObjectConfig := mkObjectConfig ConfigMapEnvsKey "ConfigMapEnvs" true (Some mergeMultiObjectConfigs).
Definition ConfigMapFiles_init : ObjectConfig := mkObjectConfig ConfigMapFilesKey "ConfigMapFiles" true (Some mergeMultiObjectConfigs).
Definition DbSecret_init : ObjectConfig := mkObjectConfig DbSecretKey "DbSecret" false None.
Definition DbService_init : ObjectConfig := mkObjectConfig DbServiceKey "DbService" false None.
Definition DbStatefulSet_init : ObjectConfig := mkObjectConfig DbStatefulSetKey "DbStatefulSet" false None.
Definition BackstageDeployment_init : ObjectConfig := mkObjectConfig DeploymentKey "BackstageDeployment" false (Some mergeDeployments).
Definition DynamicPlugins_init : ObjectConfig := mkObjectConfig DynamicPluginsKey "DynamicPlugins" false (Some mergeDynamicPlugins).
Definition BackstagePvcs_init : ObjectConfig := mkObjectConfig PvcsKey "BackstagePvcs" true None.
Definition BackstageRoute_init : ObjectConfig := mkObjectConfig RouteKey "BackstageRoute" false None.
Definition SecretEnvs_init : ObjectConfig := mkObjectConfig SecretEnvsKey "SecretEnvs" true None.
Definition SecretFiles_init : ObjectConfig := mkObjectConfig SecretFilesKey "SecretFiles" true None.
Definition BackstageService_init : ObjectConfig := mkObjectConfig ServiceKey "BackstageService" false None.

(** They run in the order of the names of their files. *)
Definition registrations : list ObjectConfig := [
  AppConfig_init; ConfigMapEnvs_init; ConfigMapFiles_init; DbSecret_init; DbService_init;
  DbStatefulSet_init; BackstageDeployment_init; DynamicPlugins_init; BackstagePvcs_init; BackstageRoute_init;
  SecretEnvs_init; SecretFiles_init; BackstageService_init
].

Definition runtimeConfig : outcome (list ObjectConfig) := foldM registerConfig [] registrations.

(** [backstageObject.addToModel] of the component a factory makes: it reads
    the flags and the external configuration of the model, and adds itself. *)
Definition newObject (factory : string) (backstage : api.Backstage) (config : option Config) (m : BackstageModel) :
    outcome RuntimeObject :=
  match factory with
  | "AppConfig" => RAppConfig <$> addAppConfig backstage config
  | "ConfigMapEnvs" => RConfigMapEnvs <$> addConfigMapEnvs backstage config
  | "ConfigMapFiles" => RConfigMapFiles <$> addConfigMapFiles backstage config
  | "DbSecret" => RDbSecret <$> addDbSecret (localDbEnabled m) backstage config
  | "DbService" => RDbService <$> addDbService (localDbEnabled m) backstage config
  | "DbStatefulSet" => RDbStatefulSet <$> addDbStatefulSet (localDbEnabled m) backstage config
  | "BackstageDeployment" => RDeployment <$> addDeployment (WatchingHash (model_ExternalConfig m)) backstage config
  | "DynamicPlugins" => RDynamicPlugins <$> addDynamicPlugins (ec_DynamicPlugins (model_ExternalConfig m)) backstage config
  | "BackstagePvcs" => RPvcs <$> addPvcs backstage config
  | "BackstageRoute" => RRoute <$> addRoute (isOpenshift m) backstage config
  | "SecretEnvs" => RSecretEnvs <$> addSecretEnvs backstage config
  | "SecretFiles" => RSecretFiles <$> addSecretFiles backstage config
  | "BackstageService" => RService <$> addService backstage config
  | _ => Panic ("unknown factory " +:+ factory)
  end.

Definition addToModel (factory : string) (backstage : api.Backstage) (config : option Config) (m : BackstageModel) :
    outcome BackstageModel :=
  o ← newObject factory backstage config m;
  Ok (setRuntimeObject o m).

Definition adjustObject (c : ObjectConfig) (objects : list KObject) : outcome (option Config) :=
  match objects with
  | [] => Ok None
  | object :: rest =>
      if negb (Multiple c) then
        match rest with
        | [] => Ok (Some (ConfObject object))
        | _ => Err (Errorf ("multiple objects not expected for: " +:+ oc_Key c))
        end
      else Ok (Some (ConfMulti (mkMultiObject (Some (objectType object)) objects)))
  end.

(** [if err != nil { if !errors.Is(err, os.ErrNotExist) { return err } }] *)
Definition unlessMissing {A} (none : A) (msg : string) (m : outcome A) : outcome A :=
  match m with
  | Err e => if errors_Is_NotExist e then Ok none else Err (Wrapf msg e)
  | m => m
  end.

Definition overlayConfig (ec : ExternalConfig) (c : ObjectConfig) : outcome (option Config) :=
  match RawConfig ec !! oc_Key c with
  | None => Ok None
  | Some overlay =>
      objs ← unlessMissing [] ("failed to read overlay config for the key " +:+ oc_Key c) (ReadYamls overlay None);
      wrapErr "failed to initialize object from overlay" (adjustObject c objs)
  end.

Definition defaultConfig (flavours : list enabledFlavour) (platform : Platform) (c : ObjectConfig) : outcome (option Config) :=
  objs ← unlessMissing [] ("failed to read default value for the key " +:+ oc_Key c)
           (ReadDefaultConfig (oc_Key c) (MergeFunc c) flavours (Extension platform));
  wrapErr "failed to initialize object from default" (adjustObject c objs).

(** The raw configuration or, without one, the default configuration *)
Definition chooseConfig (ec : ExternalConfig) (flavours : list enabledFlavour) (platform : Platform) (c : ObjectConfig) :
    outcome (option Config) :=
  overlay ← overlayConfig ec c;
  match overlay with
  | Some config => Ok (Some config)
  | None => defaultConfig flavours platform c
  end.

Definition initObject (ec : ExternalConfig) (flavours : list enabledFlavour) (platform : Platform)
    (backstage : api.Backstage) (m : BackstageModel) (c : ObjectConfig) : outcome BackstageModel :=
  chosenConfig ← chooseConfig ec flavours platform c;
  wrapErr ("failed to add object to model for key " +:+ oc_Key c) (addToModel (oc_Factory c) backstage chosenConfig m).

(** ** updateAndValidate *)

Definition enabledPluginsOf (m : BackstageModel) : option (list DynaPlugin) :=
  match GetRuntimeObject DynamicPluginsKey m with
  | Some (RDynamicPlugins p) => enabledPlugins p
  | _ => None
  end.
Definition dbServiceOf (m : BackstageModel) : option Service :=
  match GetRuntimeObject DbServiceKey m with Some (RDbService s) => s | _ => None end.
Definition dbSecretOf (m : BackstageModel) : option Secret :=
  match GetRuntimeObject DbSecretKey m with Some (RDbSecret s) => s | _ => None end.
Definition serviceOf (m : BackstageModel) : option Service :=
  match GetRuntimeObject ServiceKey m with Some (RService s) => Some s | _ => None end.
(** The app-config with its place *)
Definition appConfigOf (m : BackstageModel) : nat * option MultiObject :=
  match findObject AppConfigKey (RuntimeObjects m) with
  | Some (j, RAppConfig mo) => (j, Some mo)
  | _ => (0, None)
  end.

(** The object at a place *)
Definition updateAndValidate (backstage : api.Backstage) (m : BackstageModel) (i : nat) : outcome BackstageModel :=
  let ec := model_ExternalConfig m in
  match RuntimeObjects m !! i with
  | None => Ok m
  | Some (RAppConfig mo) =>
      match getDeployment m with
      | None => Err (Errorf "backstage deployment not found in model")
      | Some (j, d) =>
          r ← updateAppConfig ec backstage (enabledPluginsOf m) mo (podSpec (deployable d));
          Ok (setObjectAt j (RDeployment (mkBackstageDeployment (setPodSpec r.2 (deployable d)))) (setObjectAt i (RAppConfig r.1) m))
      end
  | Some (RConfigMapEnvs mo) => withDeployment (updateConfigMapEnvs backstage mo) m
  | Some (RConfigMapFiles mo) => withDeployment (updateConfigMapFiles ec backstage mo) m
  | Some (RDbSecret s) => s ← updateDbSecret (dbServiceOf m) s; Ok (setObjectAt i (RDbSecret s) m)
  | Some (RDbService _) => Ok m
  | Some (RDbStatefulSet s) =>
      s ← updateDbStatefulSet backstage (dbServiceOf m) (dbSecretOf m) s; Ok (setObjectAt i (RDbStatefulSet s) m)
  | Some (RDeployment d) => d ← updateDeployment backstage (dbSecretOf m) d; Ok (setObjectAt i (RDeployment d) m)
  | Some (RDynamicPlugins p) =>
      if hasDynamicPlugins backstage p then withDeployment (updateDynamicPlugins p) m else Ok m
  | Some (RPvcs mo) => withDeployment (updatePvcs backstage mo) m
  | Some (RRoute r) =>
      r ← updateRoute ec backstage (serviceOf m) (appConfigOf m).2 r;
      let m' := setObjectAt i (RRoute r.1) m in
      Ok (match r.2 with Some mo => setObjectAt (appConfigOf m).1 (RAppConfig mo) m' | None => m' end)
  | Some (RSecretEnvs mo) => withDeployment (updateSecretEnvs backstage mo) m
  | Some (RSecretFiles mo) => withDeployment (updateSecretFiles ec backstage mo) m
  | Some (RService _) => Ok m
  end.

Definition updateObjects (backstage : api.Backstage) (m : BackstageModel) : outcome BackstageModel :=
  foldM (λ m i, wrapErr "failed object validation, reason" (updateAndValidate backstage m i)) m
    (seq 0 (length (RuntimeObjects m))).

Definition InitObjects (backstage : api.Backstage) (externalConfig : ExternalConfig) (platform : Platform) :
    outcome BackstageModel :=
  configs ← runtimeConfig;
  let model := mkBackstageModel (api.IsLocalDbEnabled (api.Spec backstage)) (IsOpenshift platform) [] externalConfig in
  flavours ← wrapErr "failed to determine enabled flavours" (GetEnabledFlavours (api.Spec backstage));
  model ← foldM (initObject externalConfig flavours platform backstage) model configs;
  updateObjects backstage model.

End init.
