(* ===== verification/RuntimeSpec.v ===== *)
(** * What [InitObjects] computes

    The loops over the registry and over the objects of the model, which reach
    each other through the model, compute the straight-line composition
    [finish] of the components on one record of their states, [Parts].  The
    guarantees of the whole model follow from those of the components. *)

From S2P Require Import Prelude.
From S2P Require Import K8s.
From S2P Require Import Api.
From S2P Require Import Externals.
From S2P Require Import Utils.
From S2P Require Import Pod.
From S2P Require Import Deployable.
From S2P Require Import MetaInfo.
From S2P Require Import BackstageDeployment.
From S2P Require Import DynamicPluginsReference.
From S2P Require Import DynamicPlugins.
From S2P Require Import ExternalConfig.
From S2P Require Import ConfigObjects.
From S2P Require Import PodGrowth.
From S2P Require Import Db.
From S2P Require Import ServiceRoute.
From S2P Require Import DefaultConfig.
From S2P Require Import Runtime.
From stdpp Require Import options.

Record Parts := mkParts {
  p_AppConfig : MultiObject;
  p_ConfigMapEnvs : option MultiObject;
  p_ConfigMapFiles : option MultiObject;
  p_DbSecret : option Secret;
  p_DbService : option Service;
  p_DbStatefulSet : option StatefulSet;
  p_Workload : Workload;
  p_DynamicPlugins : DynamicPlugins;
  p_Pvcs : option MultiObject;
  p_Route : option Route;
  p_SecretEnvs : option MultiObject;
  p_SecretFiles : option MultiObject;
  p_Service : Service
}.
#[export] Instance Parts_eta : Eta Parts := λ r,
  mkParts (p_AppConfig r) (p_ConfigMapEnvs r) (p_ConfigMapFiles r) (p_DbSecret r) (p_DbService r) (p_DbStatefulSet r)
    (p_Workload r) (p_DynamicPlugins r) (p_Pvcs r) (p_Route r) (p_SecretEnvs r) (p_SecretFiles r) (p_Service r).

(** The objects of the model, in the order of the registry *)
Definition objects (P : Parts) : list RuntimeObject := [
  RAppConfig (p_AppConfig P); RConfigMapEnvs (p_ConfigMapEnvs P); RConfigMapFiles (p_ConfigMapFiles P);
  RDbSecret (p_DbSecret P); RDbService (p_DbService P); RDbStatefulSet (p_DbStatefulSet P);
  RDeployment (mkBackstageDeployment (p_Workload P)); RDynamicPlugins (p_DynamicPlugins P); RPvcs (p_Pvcs P);
  RRoute (p_Route P); RSecretEnvs (p_SecretEnvs P); RSecretFiles (p_SecretFiles P); RService (p_Service P) ].

Section refinement.
Context `{os : !OS, mo_ : !MapOrder, own : !Ownership, merge2 : !Merge2, wyaml : !WorkloadYaml,
  dy : !DynaYaml, ks : !KubeScheme, fy : !FlavourYaml, ay : !AppConfigYaml, rnd : !Rand}.
Context (ec : ExternalConfig) (b : api.Backstage).

Definition onPod (f : PodSpec → outcome PodSpec) (P : Parts) : outcome Parts :=
  w ← withPod f (p_Workload P);
  Ok (P <| p_Workload := w |>).

(** The plugins the operator has resolved itself *)
Definition resolvedPlugins (P : Parts) : option (list DynaPlugin) :=
  match DynamicPlugins_Object (p_DynamicPlugins P) with
  | Some _ => enabledPlugins (p_DynamicPlugins P)
  | None => None
  end.

Definition finishAppConfig (P : Parts) : outcome Parts :=
  r ← updateAppConfig ec b (resolvedPlugins P) (p_AppConfig P) (podSpec (p_Workload P));
  Ok (P <| p_AppConfig := r.1 |> <| p_Workload ::= setPodSpec r.2 |>).

Definition finishRoute (P : Parts) : outcome Parts :=
  r ← updateRoute ec b (Some (p_Service P)) (multiObject (Some (p_AppConfig P))) (p_Route P);
  Ok (P <| p_Route := r.1 |> <| p_AppConfig := default (p_AppConfig P) r.2 |>).

(** The components finished one after another *)
Definition finish (P : Parts) : outcome Parts :=
  P ← finishAppConfig P;
  P ← onPod (updateConfigMapEnvs b (p_ConfigMapEnvs P)) P;
  P ← onPod (updateConfigMapFiles ec b (p_ConfigMapFiles P)) P;
  s ← updateDbSecret (p_DbService P) (p_DbSecret P);
  let P := P <| p_DbSecret := s |> in
  ss ← updateDbStatefulSet b (p_DbService P) (p_DbSecret P) (p_DbStatefulSet P);
  let P := P <| p_DbStatefulSet := ss |> in
  d ← updateDeployment b (p_DbSecret P) (mkBackstageDeployment (p_Workload P));
  let P := P <| p_Workload := deployable d |> in
  P ← (if hasDynamicPlugins b (p_DynamicPlugins P) then onPod (updateDynamicPlugins (p_DynamicPlugins P)) P else Ok P);
  P ← onPod (updatePvcs b (p_Pvcs P)) P;
  P ← finishRoute P;
  P ← onPod (updateSecretEnvs b (p_SecretEnvs P)) P;
  onPod (updateSecretFiles ec b (p_SecretFiles P)) P.

Definition modelOf (localDb openshift : bool) (P : Parts) : BackstageModel :=
  mkBackstageModel localDb openshift (objects P) ec.

Section steps.
Context (localDb openshift : bool).
Abbreviation M := (modelOf localDb openshift).

#[local] Arguments Object_ : simpl never.
#[local] Arguments is_some : simpl never.

Lemma getDeployment_parts P : getDeployment (M P) = Some (6, mkBackstageDeployment (p_Workload P)).
Proof. done. Qed.

Lemma withDeployment_parts f P : withDeployment f (M P) = M <$> onPod f P.
Proof. unfold withDeployment. rewrite getDeployment_parts. unfold onPod. cbn [deployable]. by destruct (withPod f _). Qed.

Lemma dbServiceOf_parts P : dbServiceOf (M P) = p_DbService P.
Proof. by destruct P as [??????? ??????]; destruct p_DbService0. Qed.

Lemma dbSecretOf_parts P : dbSecretOf (M P) = p_DbSecret P.
Proof. by destruct P as [??????? ??????]; destruct p_DbSecret0. Qed.

Lemma serviceOf_parts P : serviceOf (M P) = Some (p_Service P).
Proof. done. Qed.

Lemma enabledPluginsOf_parts P : enabledPluginsOf (M P) = resolvedPlugins P.
Proof.
  unfold enabledPluginsOf, GetRuntimeObject, resolvedPlugins. cbn. unfold Object_.
  by destruct (DynamicPlugins_Object _).
Qed.

Lemma appConfig_parts P :
  appConfigOf (M P) = (0, multiObject (Some (p_AppConfig P))).
Proof. unfold appConfigOf. cbn. unfold Object_, AppConfig_Object, multiObject. by case_bool_decide. Qed.

(** One lemma per place: what finishing it does to the parts *)
Lemma step_0 P : updateAndValidate b (M P) 0 = M <$> finishAppConfig P.
Proof.
  unfold updateAndValidate. cbn [RuntimeObjects modelOf objects lookup list_lookup].
  rewrite getDeployment_parts, enabledPluginsOf_parts. unfold finishAppConfig. cbn [deployable model_ExternalConfig].
  by destruct (updateAppConfig _ _ _ _ _).
Qed.
Lemma step_1 P : updateAndValidate b (M P) 1 = M <$> onPod (updateConfigMapEnvs b (p_ConfigMapEnvs P)) P.
Proof. apply withDeployment_parts. Qed.
Lemma step_2 P : updateAndValidate b (M P) 2 = M <$> onPod (updateConfigMapFiles ec b (p_ConfigMapFiles P)) P.
Proof. apply withDeployment_parts. Qed.
Lemma step_3 P :
  updateAndValidate b (M P) 3 =
    M <$> (s ← updateDbSecret (p_DbService P) (p_DbSecret P); Ok (P <| p_DbSecret := s |>)).
Proof.
  unfold updateAndValidate. cbn [RuntimeObjects modelOf objects lookup list_lookup].
  rewrite dbServiceOf_parts. by destruct (updateDbSecret _ _).
Qed.
Lemma step_5 P :
  updateAndValidate b (M P) 5 =
    M <$> (s ← updateDbStatefulSet b (p_DbService P) (p_DbSecret P) (p_DbStatefulSet P); Ok (P <| p_DbStatefulSet := s |>)).
Proof.
  unfold updateAndValidate. cbn [RuntimeObjects modelOf objects lookup list_lookup].
  rewrite dbServiceOf_parts, dbSecretOf_parts. by destruct (updateDbStatefulSet _ _ _ _).
Qed.
Lemma step_6 P :
  updateAndValidate b (M P) 6 =
    M <$> (d ← updateDeployment b (p_DbSecret P) (mkBackstageDeployment (p_Workload P)); Ok (P <| p_Workload := deployable d |>)).
Proof.
  unfold updateAndValidate. cbn [RuntimeObjects modelOf objects lookup list_lookup].
  rewrite dbSecretOf_parts. by destruct (updateDeployment _ _ _) as [[]| |].
Qed.
Lemma step_7 P :
  updateAndValidate b (M P) 7 =
    M <$> (if hasDynamicPlugins b (p_DynamicPlugins P) then onPod (updateDynamicPlugins (p_DynamicPlugins P)) P else Ok P).
Proof.
  unfold updateAndValidate. cbn [RuntimeObjects modelOf objects lookup list_lookup].
  destruct (hasDynamicPlugins _ _); [apply withDeployment_parts|done].
Qed.
Lemma step_8 P : updateAndValidate b (M P) 8 = M <$> onPod (updatePvcs b (p_Pvcs P)) P.
Proof. apply withDeployment_parts. Qed.
Lemma step_9 P : updateAndValidate b (M P) 9 = M <$> finishRoute P.
Proof.
  unfold updateAndValidate. cbn [RuntimeObjects modelOf objects lookup list_lookup].
  rewrite appConfig_parts, serviceOf_parts. unfold finishRoute. cbn [model_ExternalConfig fst snd].
  destruct (updateRoute _ _ _ _ _) as [[r [mo|]]| |]; done.
Qed.
Lemma step_10 P : updateAndValidate b (M P) 10 = M <$> onPod (updateSecretEnvs b (p_SecretEnvs P)) P.
Proof. apply withDeployment_parts. Qed.
Lemma step_11 P : updateAndValidate b (M P) 11 = M <$> onPod (updateSecretFiles ec b (p_SecretFiles P)) P.
Proof. apply withDeployment_parts. Qed.

#[local] Arguments modelOf : simpl never.
#[local] Arguments updateAndValidate : simpl never.

(** Finish the object at the next place of the loop and of the composition. *)
Ltac next_step lem :=
  rewrite lem;
  repeat match goal with |- context [M <$> (?x ≫= _)] => destruct x; cbn [mbind outcome_bind fmap outcome_fmap]; [|done..] end;
  try match goal with |- context [M <$> ?x] =>
    lazymatch x with Ok _ => idtac | _ => destruct x; [|done..] end end;
  cbn [fmap outcome_fmap mbind outcome_bind].

Lemma updateObjects_finish P :
  updateObjects b (M P) = wrapErr "failed object validation, reason" (M <$> finish P).
Proof.
  unfold updateObjects. rewrite foldM_wrapErr. f_equal. unfold finish.
  change (seq 0 (length (RuntimeObjects (M P)))) with (seq 0 13). cbn [seq foldM].
  next_step step_0. next_step step_1. next_step step_2. next_step step_3.
  change (updateAndValidate b (M ?x) 4) with (@Ok BackstageModel (M x)). cbn [mbind outcome_bind].
  next_step step_5. next_step step_6. next_step step_7. next_step step_8. next_step step_9. next_step step_10.
  next_step step_11. done.
Qed.

End steps.
(** ** The first phase *)

Context (flavours : list enabledFlavour) (platform : Platform).

(** The configuration of a key: raw, or else default *)
Definition configFor (key : string) : outcome (option Config) :=
  match list_find (λ c, oc_Key c = key) registrations with
  | Some (_, c) => chooseConfig ec flavours platform c
  | None => Ok None
  end.

(** Every component is made from the configuration of its key. *)
Record added (localDb openshift : bool) (P : Parts) : Prop := {
  added_AppConfig : configFor AppConfigKey ≫= addAppConfig b = Ok (p_AppConfig P);
  added_ConfigMapEnvs : configFor ConfigMapEnvsKey ≫= addConfigMapEnvs b = Ok (p_ConfigMapEnvs P);
  added_ConfigMapFiles : configFor ConfigMapFilesKey ≫= addConfigMapFiles b = Ok (p_ConfigMapFiles P);
  added_DbSecret : configFor DbSecretKey ≫= addDbSecret localDb b = Ok (p_DbSecret P);
  added_DbService : configFor DbServiceKey ≫= addDbService localDb b = Ok (p_DbService P);
  added_DbStatefulSet : configFor DbStatefulSetKey ≫= addDbStatefulSet localDb b = Ok (p_DbStatefulSet P);
  added_Deployment : configFor DeploymentKey ≫= addDeployment (WatchingHash ec) b = Ok (mkBackstageDeployment (p_Workload P));
  added_DynamicPlugins : configFor DynamicPluginsKey ≫= addDynamicPlugins (ec_DynamicPlugins ec) b = Ok (p_DynamicPlugins P);
  added_Pvcs : configFor PvcsKey ≫= addPvcs b = Ok (p_Pvcs P);
  added_Route : configFor RouteKey ≫= addRoute openshift b = Ok (p_Route P);
  added_SecretEnvs : configFor SecretEnvsKey ≫= addSecretEnvs b = Ok (p_SecretEnvs P);
  added_SecretFiles : configFor SecretFilesKey ≫= addSecretFiles b = Ok (p_SecretFiles P);
  added_Service : configFor ServiceKey ≫= addService b = Ok (p_Service P)
}.

Lemma runtimeConfig_registrations : runtimeConfig = Ok registrations.
Proof. done. Qed.

Lemma initObjects_fold localDb openshift l cs m' :
  foldM (initObject ec flavours platform b) (mkBackstageModel localDb openshift l ec) cs = Ok m' →
  ∃ objs, m' = mkBackstageModel localDb openshift (l ++ objs) ec ∧
    Forall2 (λ c o, (cfg ← chooseConfig ec flavours platform c;
      newObject (oc_Factory c) b cfg (mkBackstageModel localDb openshift [] ec)) = Ok o) cs objs.
Proof.
  revert l. induction cs as [|c cs IH]; intros l H; simpl in H.
  { injection H as <-. exists []. rewrite app_nil_r. by split. }
  apply bind_Ok_inv in H as (m1 & H1 & H). unfold initObject in H1.
  apply bind_Ok_inv in H1 as (cfg & Hc & H1). apply wrapErr_Ok_inv in H1.
  apply bind_Ok_inv in H1 as (o & Ho & H1). apply (inj Ok) in H1 as <-.
  apply IH in H as (objs & -> & Hos). exists (o :: objs). rewrite <- (assoc_L (++)). split; [done|].
  constructor; [by rewrite Hc|done].
Qed.

Lemma bind_fmap_Ok {A B C} (m : outcome A) (f : A → outcome B) (g : B → C) y :
  (x ← m; g <$> f x) = Ok y → ∃ z, y = g z ∧ m ≫= f = Ok z.
Proof. destruct m; simpl; [|done..]. intros (z & Hz & <-)%fmap_Ok_inv. by exists z. Qed.

(** The thirteen objects are those of one record of parts. *)
Lemma initObjects_added localDb openshift m' :
  foldM (initObject ec flavours platform b) (mkBackstageModel localDb openshift [] ec) registrations = Ok m' →
  ∃ P, m' = modelOf localDb openshift P ∧ added localDb openshift P.
Proof.
  intros (objs & -> & Hos)%initObjects_fold. unfold registrations in Hos.
  repeat match goal with
  | H : Forall2 _ (_ :: _) _ |- _ =>
      let o := fresh "o" in let Ho := fresh "Ho" in
      apply Forall2_cons_inv_l in H as (o & ? & Ho & H & ->); apply bind_fmap_Ok in Ho as (? & -> & Ho)
  end.
  apply Forall2_nil_inv_l in Hos as ->.
  repeat match goal with d : BackstageDeployment |- _ => destruct d end.
  eexists (mkParts _ _ _ _ _ _ _ _ _ _ _ _ _). split; [reflexivity|]. by split.
Qed.

End refinement.

(** ** What finishing the components leaves *)

(** The workload after some components have worked on its pod *)
Record pod_work (w w' : Workload) : Prop := {
  pw_initialised b : initialised b w → initialised b w';
  pw_replicas : SpecReplicas w' = SpecReplicas w;
  pw_grows : grows (podSpec w) (podSpec w')
}.
#[export] Instance pod_work_preorder : PreOrder pod_work.
Proof.
  split; [by split|]. intros w1 w2 w3 [Hi1 Hr1 Hg1] [Hi2 Hr2 Hg2].
  split; [auto|congruence|by etrans].
Qed.

Lemma setPodSpec_work p w : grows (podSpec w) p → pod_work w (setPodSpec p w).
Proof. intros Hg. split; [intros b; apply setPodSpec_initialised|apply replicas_podSpec|by rewrite podSpec_set]. Qed.

Lemma withPod_work f (w w' : Workload) :
  (∀ p p', f p = Ok p' → grows p p') → withPod f w = Ok w' → pod_work w w'.
Proof. intros Hf (p & Hp%Hf & ->)%withPod_Ok. by apply setPodSpec_work. Qed.

Section finished.
Context `{os : !OS, mo_ : !MapOrder, own : !Ownership, merge2 : !Merge2, wyaml : !WorkloadYaml,
  dy : !DynaYaml, ks : !KubeScheme, fy : !FlavourYaml, ay : !AppConfigYaml, rnd : !Rand}.
Context (ec : ExternalConfig) (b : api.Backstage).

Lemma onPod_Ok f P P' :
  (∀ p p', f p = Ok p' → grows p p') → onPod f P = Ok P' →
  ∃ w, P' = P <| p_Workload := w |> ∧ pod_work (p_Workload P) w.
Proof. intros Hf (w & Hw & [= <-])%bind_Ok_inv. exists w. split; [done|]. by eapply withPod_work. Qed.

(** The steps that matter to the other components, and the workload before
    and after its own *)
Lemma finish_Ok P P' :
  finish ec b P = Ok P' →
  ∃ r w0 d rr,
    updateAppConfig ec b (resolvedPlugins P) (p_AppConfig P) (podSpec (p_Workload P)) = Ok r ∧
    updateDbSecret (p_DbService P) (p_DbSecret P) = Ok (p_DbSecret P') ∧
    updateDbStatefulSet b (p_DbService P) (p_DbSecret P') (p_DbStatefulSet P) = Ok (p_DbStatefulSet P') ∧
    pod_work (p_Workload P) w0 ∧
    updateDeployment b (p_DbSecret P') (mkBackstageDeployment w0) = Ok d ∧
    pod_work (deployable d) (p_Workload P') ∧
    updateRoute ec b (Some (p_Service P)) (multiObject (Some r.1)) (p_Route P) = Ok rr ∧
    P' = P <| p_AppConfig := default r.1 rr.2 |> <| p_Route := rr.1 |> <| p_DbSecret := p_DbSecret P' |>
           <| p_DbStatefulSet := p_DbStatefulSet P' |> <| p_Workload := p_Workload P' |>.
Proof.
  intros H. unfold finish in H. apply bind_Ok_inv in H as (P1 & H1 & H).
  apply bind_Ok_inv in H1 as (r & Hr & H1). apply (inj Ok) in H1 as <-.
  apply bind_Ok_inv in H as (P2 & (w2 & -> & Hw2)%onPod_Ok & H); [|intros p p'; apply updateConfigMapEnvs_grows].
  apply bind_Ok_inv in H as (P3 & (w3 & -> & Hw3)%onPod_Ok & H); [|intros p p'; apply updateConfigMapFiles_grows].
  apply bind_Ok_inv in H as (s & Hs & H). apply bind_Ok_inv in H as (ss & Hss & H).
  apply bind_Ok_inv in H as (d & Hd & H). apply bind_Ok_inv in H as (P4 & H4 & H).
  assert (∃ w4, P4 = P <| p_AppConfig := r.1 |> <| p_DbSecret := s |> <| p_DbStatefulSet := ss |> <| p_Workload := w4 |> ∧
    pod_work (deployable d) w4) as (w4 & -> & Hw4).
  { destruct (hasDynamicPlugins _ _).
    - apply onPod_Ok in H4 as (w4 & -> & Hw4); [|intros p p'; apply updateDynamicPlugins_grows]. by exists w4.
    - apply (inj Ok) in H4 as <-. by exists (deployable d). }
  apply bind_Ok_inv in H as (P5 & (w5 & -> & Hw5)%onPod_Ok & H); [|intros p p'; apply updatePvcs_grows].
  apply bind_Ok_inv in H as (P6 & H6 & H). apply bind_Ok_inv in H6 as (rr & Hrr & H6). apply (inj Ok) in H6 as <-.
  apply bind_Ok_inv in H as (P7 & (w7 & -> & Hw7)%onPod_Ok & H); [|intros p p'; apply updateSecretEnvs_grows].
  apply onPod_Ok in H as (w8 & -> & Hw8); [|intros p p'; apply updateSecretFiles_grows].
  exists r, w3, d, rr. split_and!; try done.
  - etrans; [|exact Hw3]. etrans; [|exact Hw2]. apply setPodSpec_work. by eapply updateAppConfig_grows.
  - etrans; [exact Hw4|]. etrans; [exact Hw5|]. etrans; [exact Hw7|exact Hw8].
Qed.

End finished.

(** ** The model as a whole *)

Section init.
Context `{os : !OS, mo_ : !MapOrder, own : !Ownership, merge2 : !Merge2, wyaml : !WorkloadYaml,
  dy : !DynaYaml, ks : !KubeScheme, fy : !FlavourYaml, ay : !AppConfigYaml, rnd : !Rand}.
Context (ec : ExternalConfig) (b : api.Backstage) (platform : Platform).

Abbreviation localDb := (api.IsLocalDbEnabled (api.Spec b)).
Abbreviation openshift := (IsOpenshift platform).

(** What [InitObjects] computes, without the loops *)
Definition built (m : BackstageModel) : Prop :=
  ∃ flavours P P', GetEnabledFlavours (api.Spec b) = Ok flavours ∧ added ec b flavours platform localDb openshift P ∧
    finish ec b P = Ok P' ∧ m = modelOf ec localDb openshift P'.

Lemma InitObjects_built m : InitObjects b ec platform = Ok m → built m.
Proof.
  intros H. unfold InitObjects in H. rewrite runtimeConfig_registrations in H. cbn [mbind outcome_bind] in H.
  apply bind_Ok_inv in H as (flavours & Hf%wrapErr_Ok_inv & H). apply bind_Ok_inv in H as (m0 & H0 & H).
  apply initObjects_added in H0 as (P & -> & Ha). rewrite updateObjects_finish in H.
  apply wrapErr_Ok_inv, fmap_Ok_inv in H as (P' & HP' & <-). by exists flavours, P, P'.
Qed.

Lemma modelOf_GetRuntimeObjects l o P :
  GetRuntimeObjects (modelOf ec l o P) = filter (λ x, is_some (Object_ x) = true) (objects P).
Proof.
  unfold GetRuntimeObjects. cbn [RuntimeObjects modelOf]. generalize (objects P) as xs.
  assert (∀ xs acc, foldl (λ result obj, if is_some (Object_ obj) then result ++ [obj] else result) acc xs =
    acc ++ filter (λ x, is_some (Object_ x) = true) xs) as H; [|intros xs; apply (H xs [])].
  induction xs as [|x xs IH]; intros acc; cbn [foldl]; [by rewrite app_nil_r|].
  rewrite IH, filter_cons. destruct (is_some (Object_ x)) eqn:E.
  - rewrite decide_True by done. by rewrite <- (assoc_L (++)).
  - by rewrite decide_False.
Qed.

End init.
