(* ===== verification/InitTheorems.v ===== *)
(** * Guarantees of the model of a custom resource

    Theorems about [InitObjects]: that it computes the composition of the
    components, and how their objects fit together. *)

From S2P Require Import Prelude.
From S2P Require Import K8s.
From S2P Require Import Api.
From S2P Require Import Externals.
From S2P Require Import Utils.
From S2P Require Import Pod.
From S2P Require Import Deployable.
From S2P Require Import MetaInfo.
From S2P Require Import BackstageDeployment.
From S2P Require Import DynamicPluginsReference.
From S2P Require Import DynamicPlugins.
From S2P Require Import ExternalConfig.
From S2P Require Import ConfigObjects.
From S2P Require Import PodGrowth.
From S2P Require Import Db.
From S2P Require Import ServiceRoute.
From S2P Require Import DefaultConfig.
From S2P Require Import Runtime.
From S2P Require Import RuntimeSpec.
From Stdlib Require Import Ascii.
From stdpp Require Import options.

Section lemmas.
Context `{os : !OS, mo_ : !MapOrder, own : !Ownership, merge2 : !Merge2, wyaml : !WorkloadYaml, dy : !DynaYaml}.

(** The backend container reads the variables of a secret. *)
Definition backend_reads (p : PodSpec) (n : string) : Prop :=
  ∃ r c, container p = Ok r ∧ load p r = Some c ∧ SecretRef n ∈ c_EnvFrom c.

Lemma grows_backend_reads p p' n : grows p p' → backend_reads p n → backend_reads p' n.
Proof.
  intros Hg (r & c & Hr & Hc & Hn). destruct (grows_load _ _ _ _ Hg Hc) as (c' & Hc' & [_ [k Hk] _]).
  exists r, c'. split_and!; [by rewrite (container_proper _ _ (grows_same_names _ _ Hg))|done|].
  rewrite Hk. apply elem_of_app. by left.
Qed.

Lemma updateDeployment_work b sec d d' :
  updateDeployment b sec d = Ok d' →
  (∀ b', initialised b' (deployable d) → initialised b' (deployable d')) ∧ grows (podSpec (deployable d)) (podSpec (deployable d')) ∧
  (bool_decide (api.bsAnnotation b IdleAnnotation = "true") = true → SpecReplicas (deployable d') = Some 0%Z) ∧
  ∀ n, effectiveSecret b sec = Some n → backend_reads (podSpec (deployable d')) n.
Proof.
  rewrite updateDeployment_eq. intros Hu. apply bind_Ok_inv in Hu as (w & Hw & Hu).
  apply (inj Ok) in Hu as <-. cbn [deployable].
  assert (∀ w, podSpec (if bool_decide (api.bsAnnotation b IdleAnnotation = "true") then setSpecReplicas (Some 0%Z) w else w)
    = podSpec w) as Hp by (intros w1; case_bool_decide; [apply podSpec_replicas|done]).
  rewrite Hp. assert ((∀ b', initialised b' (deployable d) → initialised b' w) ∧ grows (podSpec (deployable d)) (podSpec w) ∧
    ∀ n, effectiveSecret b sec = Some n → backend_reads (podSpec w) n) as (Hi & Hg & Hs).
  { destruct (effectiveSecret b sec) as [s|]; [|by injection Hw as <-].
    apply wrapErr_Ok_inv, withPod_Ok in Hw as (p & Hc & ->). rewrite podSpec_set.
    split; [intros b'; apply setPodSpec_initialised|]. split; [by eapply addEnvVarsFrom_grows|].
    intros n [= <-]. pose proof (addEnvVarsFrom_same_names _ _ _ _ _ _ Hc) as Hsn. rewrite addSecret_backend in Hc.
    apply bind_Ok_inv in Hc as (r & Hr & Hc). apply (inj Ok) in Hc as <-. exists r.
    destruct (container_Ok _ _ Hr) as [(c & Hl & _) _]. eexists. split_and!.
    - by rewrite (container_proper _ _ Hsn).
    - by rewrite load_store, decide_True, Hl by done.
    - apply elem_of_app. right. by left. }
  split_and!; [|done| |done].
  - intros b' Hb. case_bool_decide; [apply setSpecReplicas_initialised|]; auto.
  - intros ->. apply replicas_set.
Qed.

Lemma addDeployment_backend hash b config d :
  addDeployment hash b config = Ok d → no_patch b →
  initialised b (deployable d) ∧ BackstageContainerName ∈ c_Name <$> Containers (podSpec (deployable d)).
Proof.
  intros (o & w0 & w1 & _ & _ & Hi & Hn & Hb & _ & _ & _ & _ & Hs)%addDeployment_inv Hnp.
  destruct (setDeployment_no_patch _ _ _ Hnp Hs Hi) as (Hi' & Hn' & _).
  split; [done|]. eapply same_names_backend; [exact Hn'|]. by eapply same_names_backend.
Qed.

Lemma bind_config {A} (c : outcome (option Config)) (f : option Config → outcome A) x :
  c ≫= f = Ok x → ∃ cfg, c = Ok cfg ∧ f cfg = Ok x.
Proof. by intros ?%bind_Ok_inv. Qed.

End lemmas.

Section theorems.
Context `{os : !OS, mo_ : !MapOrder, own : !Ownership, merge2 : !Merge2, wyaml : !WorkloadYaml,
  dy : !DynaYaml, ks : !KubeScheme, fy : !FlavourYaml, ay : !AppConfigYaml, rnd : !Rand}.
Context (ec : ExternalConfig) (b : api.Backstage) (platform : Platform).

Abbreviation localDb := (api.IsLocalDbEnabled (api.Spec b)).
Abbreviation openshift := (IsOpenshift platform).

(** C5. The two loops of [InitObjects], over the registry and over the
    objects of the model that reach each other through it, compute the
    straight-line composition of the components: each is made from the raw
    configuration of its key or else the default one, and then all are finished
    in the order of the registry. *)
Theorem InitObjects_refines m :
  InitObjects b ec platform = Ok m →
  ∃ flavours P P',
    GetEnabledFlavours (api.Spec b) = Ok flavours ∧
    added ec b flavours platform localDb openshift P ∧ finish ec b P = Ok P' ∧
    RuntimeObjects m = objects P' ∧ GetKey <$> RuntimeObjects m = oc_Key <$> registrations.
Proof.
  intros (flavours & P & P' & Hf & Ha & HP & ->)%InitObjects_built. by exists flavours, P, P'.
Qed.

(** C9. With the local database the model holds its Service and StatefulSet,
    both owned by the custom resource; the Service selects the pods of the
    StatefulSet, which is addressed through it, and when there is a secret,
    generated or named by the custom resource, both the database and the backend
    read it and a generated one holds the host name of the Service.  Without the
    local database there are none of the three. *)
Theorem InitObjects_database m :
  InitObjects b ec platform = Ok m →
  if localDb then
    ∃ svc ss i d, dbServiceOf m = Some svc ∧ GetRuntimeObject DbStatefulSetKey m = Some (RDbStatefulSet (Some ss)) ∧
      getDeployment m = Some (i, d) ∧
      db_service b svc ∧ db_statefulset b ss ∧
      map_lookup (svc_Selector svc) AppLabel = map_lookup (Labels (t_Meta (s_Template ss))) AppLabel ∧
      s_ServiceName ss = Name (svc_Meta svc) ∧
      (∀ n, effectiveSecret b (dbSecretOf m) = Some n → db_reads ss n ∧ backend_reads (podSpec (deployable d)) n) ∧
      (∀ sec, dbSecretOf m = Some sec → db_secret b sec ∧
        ∃ pswd port ports, svc_Ports svc = port :: ports ∧ sec_StringData sec = Some (connection pswd (Name (svc_Meta svc)) port))
  else dbServiceOf m = None ∧ dbSecretOf m = None ∧ GetRuntimeObject DbStatefulSetKey m = None.
Proof.
  intros (flavours & P & P' & _ & Ha & HP & ->)%InitObjects_built. rewrite dbServiceOf_parts, dbSecretOf_parts.
  apply finish_Ok in HP as (r & w0 & d & rr & _ & Hsec & Hss & _ & Hd & [_ _ Hgr] & _ & HP').
  assert (p_DbService P' = p_DbService P) as Esvc by by rewrite HP'. rewrite Esvc.
  pose proof (added_DbService _ _ _ _ _ _ _ Ha) as (? & _ & Hsvc%addDbService_spec)%bind_config.
  pose proof (added_DbSecret _ _ _ _ _ _ _ Ha) as (? & _ & Hse%addDbSecret_spec)%bind_config.
  pose proof (added_DbStatefulSet _ _ _ _ _ _ _ Ha) as (? & _ & Hs0%addDbStatefulSet_spec)%bind_config.
  destruct localDb eqn:El.
  - destruct Hsvc as (s0 & svc & _ & Es & Hsvc & _), Hs0 as (ss0 & ss & _ & Ess & Hs0).
    rewrite Es in *. rewrite Ess in Hss. apply (updateDbStatefulSet_spec b) in Hss as (ss' & Ess' & Hss' & Hname & _ & Hreads); [|done].
    exists svc, ss', 6, (mkBackstageDeployment (p_Workload P')). split_and!; try done.
    + unfold GetRuntimeObject. cbn. by rewrite Ess'.
    + by rewrite (dbs_selector _ _ Hsvc), (dbss_pods _ _ Hss').
    + intros n Hn. split; [by apply Hreads|]. eapply grows_backend_reads; [exact Hgr|].
      apply updateDeployment_work in Hd as (_ & _ & _ & Hd). by apply Hd.
    + intros sec Hs. destruct (p_DbSecret P) as [s|] eqn:E; [|by rewrite Hs in Hsec].
      destruct Hse as [Hdb _]. destruct (updateDbSecret_spec _ b _ _ Hsec Hdb) as (s1 & svc1 & pswd & port & ports & Hs1 & [= <-] & Hp & Hm & Hsd & _).
      rewrite Hs in Hs1. injection Hs1 as ->. split; [by destruct Hdb; split; rewrite Hm|]. by exists pswd, port, ports.
  - rewrite Hs0 in Hss. apply (inj Ok) in Hss. destruct (p_DbSecret P) as [s|]; [by destruct Hse as (_ & ? & _)|].
    apply (inj Ok) in Hsec. split_and!; [done|done|]. unfold GetRuntimeObject. cbn. by rewrite <- Hss.
Qed.

(** C7. The model always has a Service and a workload for the backend: the
    Service is owned by the custom resource, in its namespace and under the name
    made from it, and selects the app label of the custom resource, also when
    the custom resource patches the workload; and the workload of an idled
    resource has no replicas, whatever it asks for.  Unless the workload is
    patched, it is owned by the custom resource too, its pods and its selector
    carry exactly the label the Service selects, and the backend container is
    there. *)
Theorem InitObjects_backend m :
  InitObjects b ec platform = Ok m →
  ∃ svc i d, serviceOf m = Some svc ∧ RuntimeObjects m !! i = Some (RDeployment d) ∧ getDeployment m = Some (i, d) ∧
    backend_service b svc ∧
    (api.bsAnnotation b IdleAnnotation = "true" → SpecReplicas (deployable d) = Some 0%Z) ∧
    (no_patch b →
       initialised b (deployable d) ∧
       map_lookup (svc_Selector svc) AppLabel = map_lookup (Labels (PodObjectMeta (deployable d))) AppLabel ∧
       map_lookup (svc_Selector svc) AppLabel = map_lookup (MatchLabels (SpecSelector (deployable d)).1) AppLabel ∧
       BackstageContainerName ∈ c_Name <$> Containers (podSpec (deployable d))).
Proof.
  intros (flavours & P & P' & _ & Ha & HP & ->)%InitObjects_built.
  apply finish_Ok in HP as (r & w0 & d & rr & _ & _ & _ & [Hi0 _ Hg0] & Hd & [Hi1 Hr1 Hg1] & _ & HP').
  pose proof (added_Service _ _ _ _ _ _ _ Ha) as (? & _ & [Hsvc _]%addService_spec)%bind_config.
  apply updateDeployment_work in Hd as (Hid & Hgd & Hrd & _). cbn [deployable] in *.
  assert (p_Service P' = p_Service P) as Es by by rewrite HP'.
  exists (p_Service P'), 6, (mkBackstageDeployment (p_Workload P')). cbn [deployable]. rewrite serviceOf_parts, Es.
  split_and!; [done..| |].
  - intros Hidle. rewrite Hr1. apply Hrd. by apply bool_decide_eq_true_2.
  - intros Hnp.
    pose proof (added_Deployment _ _ _ _ _ _ _ Ha) as (? & _ & [Hi Hb]%addDeployment_backend)%bind_config; [|done].
    assert (initialised b (p_Workload P')) as Hinit by auto. cbn [deployable] in *.
    rewrite (svc_selects _ _ Hsvc), (init_label _ _ Hinit), (init_selector _ _ Hinit). split_and!; [done..|].
    eapply same_names_backend; [by apply grows_same_names|]. eapply same_names_backend; [by apply grows_same_names|].
    eapply same_names_backend; [by apply grows_same_names|done].
Qed.

End theorems.

(** ** Ownership *)

Section ownership.
Context `{os : !OS, mo_ : !MapOrder, own : !Ownership, merge2 : !Merge2, wyaml : !WorkloadYaml,
  dy : !DynaYaml, ks : !KubeScheme, fy : !FlavourYaml, ay : !AppConfigYaml, rnd : !Rand}.

(** The Kubernetes objects behind a runtime object *)
Definition configObjects (c : Config) : list KObject :=
  match c with
  | ConfObject o => [o]
  | ConfMulti mo => Items mo
  end.

Definition all_owned (b : api.Backstage) (l : list KObject) : Prop := Forall (λ o, owned_by b (objectMeta o)) l.

Lemma setMulti_owned ty b mo mo' : setMultiObjectConfigMetaInfo ty b mo = Ok mo' → all_owned b (Items mo').
Proof.
  intros (items & Hi & [= <-])%bind_Ok_inv. apply collect_Ok in Hi as (l & -> & Hall). simpl. unfold all_owned.
  apply Forall_forall. intros o Ho. apply list_elem_of_lookup in Ho as [i Hi].
  destruct (Forall2_lookup_r _ _ _ _ _ Hall Hi) as (x & _ & Hx). by apply setItemMetaInfo_spec in Hx as (? & _).
Qed.

Lemma ownItems_owned ty b mo mo' : ownItems ty b mo = Ok mo' → all_owned b (itemsOf mo').
Proof.
  unfold ownItems. destruct (multiObject mo) as [m|] eqn:E.
  - intros (x & Hx & [= <-])%bind_Ok_inv. by eapply setMulti_owned.
  - intros [= <-]. unfold multiObject in E. destruct mo as [m|]; [|constructor].
    case_bool_decide as Hl; [done|]. simpl. destruct (Items m); [constructor|simpl in Hl; lia].
Qed.

Lemma multiObject_items mo c : ConfMulti <$> multiObject mo = Some c → configObjects c = itemsOf mo.
Proof. destruct mo as [m|]; [|done]. simpl. case_bool_decide; [|done]. by intros [= <-]. Qed.

Lemma addMulti_owned {A} ty b (c : outcome A) f mo :
  (∀ a r, f a = Ok r → ∃ mo0, ownItems ty b mo0 = Ok r) → c ≫= f = Ok mo → all_owned b (itemsOf mo).
Proof. intros Hf (a & _ & Ha)%bind_Ok_inv. apply Hf in Ha as (mo0 & Ha). by eapply ownItems_owned. Qed.

Lemma addDynamicPlugins_owned spec b config d cm :
  addDynamicPlugins spec b config = Ok d → DynamicPlugins_Object d = Some cm → owned_by b (cm_Meta cm).
Proof.
  intros Ha Hcm. unfold addDynamicPlugins in Ha. apply bind_Ok_inv in Ha as (cm0 & _ & Ha).
  apply bind_Ok_inv in Ha as (_ & _ & Ha). apply bind_Ok_inv in Ha as (r & _ & Ha).
  apply bind_Ok_inv in Ha as (p & Hp & Ha). unfold DynamicPlugins_Object in Hcm.
  assert (∀ c, enabledPluginsCM p = Some c → owned_by b (cm_Meta c)) as He.
  { destruct r as [c|]; [|by injection Hp as <-]. destruct IsOperatorDPProcessing; [|by injection Hp as <-].
    apply bind_Ok_inv in Hp as ([l ecm] & Hproc & [= <-]). intros c' [= <-].
    by apply processPlugins_Ok in Hproc as (_ & _ & _ & Ho & _). }
  destruct (dp_ConfigMap p) as [c|] eqn:Ep.
  - apply bind_Ok_inv in Ha as (m & Hm & Ha). apply (inj Ok) in Ha as <-. apply setMetaInfo_spec in Hm as (Ho & _).
    destruct IsOperatorDPProcessing; [by apply He|]. by injection Hcm as <-.
  - apply (inj Ok) in Ha as <-. destruct IsOperatorDPProcessing; [by apply He|]. congruence.
Qed.

(** The Route changes the data of the first app-config only. *)
Lemma updateRoute_owned ec b svc mo r rr ac :
  updateRoute ec b svc (multiObject (Some mo)) r = Ok rr → all_owned b (Items mo) →
  ac = default mo rr.2 → all_owned b (Items ac).
Proof.
  intros H Ho ->. unfold updateRoute in H. destruct r as [r|].
  2: { injection H as <-. simpl. by case_bool_decide. }
  destruct svc as [svc|]; [|done]. apply bind_Ok_inv in H as (ac & Hac & H). apply (inj Ok) in H as <-. simpl.
  unfold updateAppConfigWithBaseUrls, multiObject in Hac. case_bool_decide as Hl; [|by injection Hac as <-].
  destruct (Items mo) as [|[] items] eqn:Ei; try done; [simpl in Hl; lia|].
  apply bind_Ok_inv in Hac as (data & _ & Hac). apply (inj Ok) in Hac as <-. simpl.
  apply Forall_cons in Ho as [Ho1 Ho2]. by constructor.
Qed.

Lemma updateRoute_meta ec b svc mo r rr r' :
  updateRoute ec b svc mo r = Ok rr → rr.1 = Some r' → ∃ r0, r = Some r0 ∧ r_Meta r' = r_Meta r0.
Proof.
  unfold updateRoute. destruct r as [r|]; [|by intros [= <-]]. destruct svc as [svc|]; [|done].
  intros (ac & _ & H)%bind_Ok_inv Hr. apply (inj Ok) in H as <-. simpl in Hr. injection Hr as <-. by exists r.
Qed.

Context (ec : ExternalConfig) (b : api.Backstage) (platform : Platform).

(** A component that applies the items of its multi-object, and one that
    applies a single object, if there is one *)
Ltac owned_items Hmulti Hc Hadded :=
  eapply Hmulti; [|exact Hc]; eapply addMulti_owned; [|exact Hadded];
  let mo := fresh in let Hr := fresh in intros ?? (mo & _ & Hr)%bind_Ok_inv; eauto.
Ltac owned_single Hc Hk s Hs :=
  apply fmap_Some in Hc as (s & Hs & ->); apply list_elem_of_singleton in Hk as ->; simpl.

Lemma finish_owned flavours l o P P' x c k :
  added ec b flavours platform l o P → finish ec b P = Ok P' → (∀ d, x = RDeployment d → no_patch b) →
  x ∈ objects P' → Object_ x = Some c → k ∈ configObjects c → owned_by b (objectMeta k).
Proof.
  intros Ha HP Hnp Hx Hc Hk.
  apply finish_Ok in HP as (r & w0 & d & rr & Hac & Hsec & Hss & [Hi0 _ _] & Hd & [Hi1 _ _] & Hrr & HP').
  assert (∀ mo, all_owned b (itemsOf mo) → ConfMulti <$> multiObject mo = Some c → owned_by b (objectMeta k)) as Hmulti.
  { intros mo Ho Hmo%multiObject_items. rewrite Hmo in Hk. by eapply Forall_forall in Ho. }
  unfold objects in Hx. rewrite HP' in Hx. cbn -[finish] in Hx.
  repeat (apply elem_of_cons in Hx as [->|Hx]); [..|by apply not_elem_of_nil in Hx]; cbn [Object_] in Hc.
  - eapply Hmulti; [|exact Hc]. simpl. eapply updateRoute_owned; [exact Hrr| |done].
    apply bind_Ok_inv in Hac as (m1 & _ & Hac). apply bind_Ok_inv in Hac as (m2 & Hm2 & Hac).
    apply bind_Ok_inv in Hac as (? & _ & Hac). apply bind_Ok_inv in Hac as (? & _ & Hac).
    apply (inj Ok) in Hac as <-. by eapply setMulti_owned.
  - owned_items Hmulti Hc (added_ConfigMapEnvs _ _ _ _ _ _ _ Ha).
  - owned_items Hmulti Hc (added_ConfigMapFiles _ _ _ _ _ _ _ Ha).
  - owned_single Hc Hk s Hs.
    pose proof (added_DbSecret _ _ _ _ _ _ _ Ha) as (? & _ & Hse%addDbSecret_spec)%bind_config.
    destruct (p_DbSecret P) as [s0|] eqn:E; [|rewrite Hs in Hsec; done]. destruct Hse as [Hdb _].
    destruct (updateDbSecret_spec _ b _ _ Hsec Hdb) as (s1 & ? & ? & ? & ? & Hs1 & _ & _ & Hm & _).
    rewrite Hs in Hs1. injection Hs1 as ->. rewrite Hm. by destruct Hdb.
  - owned_single Hc Hk s Hs.
    pose proof (added_DbService _ _ _ _ _ _ _ Ha) as (? & _ & Hsv%addDbService_spec)%bind_config.
    rewrite Hs in Hsv. destruct l; [|done]. by destruct Hsv as (? & ? & _ & [= <-] & [] & _).
  - owned_single Hc Hk s Hs.
    pose proof (added_DbStatefulSet _ _ _ _ _ _ _ Ha) as (? & _ & Hsv%addDbStatefulSet_spec)%bind_config.
    destruct l; [|rewrite Hsv, Hs in Hss; done]. destruct Hsv as (? & s0 & _ & Es & Hd0). rewrite Es in Hss.
    apply (updateDbStatefulSet_spec b) in Hss as (s' & Es' & [] & _); [|done]. by rewrite Hs in Es'; injection Es' as ->.
  - injection Hc as <-. apply list_elem_of_singleton in Hk as ->. specialize (Hnp _ eq_refl).
    pose proof (added_Deployment _ _ _ _ _ _ _ Ha) as (? & _ & [Hi _]%addDeployment_backend)%bind_config; [|done].
    apply updateDeployment_work in Hd as (Hid & _). assert (initialised b (p_Workload P')) as [Ho _ _ _] by auto.
    by destruct (p_Workload P').
  - owned_single Hc Hk s Hs.
    pose proof (added_DynamicPlugins _ _ _ _ _ _ _ Ha) as (? & _ & Hdp)%bind_config.
    by eapply addDynamicPlugins_owned.
  - owned_items Hmulti Hc (added_Pvcs _ _ _ _ _ _ _ Ha).
  - owned_single Hc Hk s Hs.
    destruct (updateRoute_meta _ _ _ _ _ _ _ Hrr Hs) as (r0 & Er & ->).
    pose proof (added_Route _ _ _ _ _ _ _ Ha) as (? & _ & Hro%addRoute_spec)%bind_config. rewrite Er in Hro. by destruct Hro as (_ & ? & _).
  - owned_items Hmulti Hc (added_SecretEnvs _ _ _ _ _ _ _ Ha).
  - owned_items Hmulti Hc (added_SecretFiles _ _ _ _ _ _ _ Ha).
  - injection Hc as <-. apply list_elem_of_singleton in Hk as ->. simpl.
    pose proof (added_Service _ _ _ _ _ _ _ Ha) as (? & _ & [[] _]%addService_spec)%bind_config. done.
Qed.

(** C6. Every object of the model, so everything the reconciler applies but
    for the ServiceMonitor and the dependencies of the plugins, is in the
    namespace of the custom resource, carries its labels and has it for
    controller; the workload only if the custom resource does not patch it.
    (The dependencies may have a namespace of their own and do not get the
    labels.) *)
Theorem InitObjects_owned m :
  InitObjects b ec platform = Ok m →
  ∀ o c k, o ∈ GetRuntimeObjects m → Object_ o = Some c → k ∈ configObjects c →
    (∀ d, o = RDeployment d → no_patch b) → owned_by b (objectMeta k).
Proof.
  intros (flavours & P & P' & _ & Ha & HP & ->)%InitObjects_built o c k Ho Hc Hk Hnp.
  rewrite modelOf_GetRuntimeObjects in Ho. apply list_elem_of_filter in Ho as [_ Ho]. by eapply finish_owned.
Qed.

End ownership.

(** ** An instance

    A default configuration with a Deployment, the two Services, the Secret and
    the StatefulSet, each file holding the name of its kind; everything else of
    the environment is empty. *)

Section example.
#[local] Existing Instances MapOrder_asc Ownership_set Merge2_patch WorkloadYaml_example DynaYaml_lines.

Definition example_objects : gmap string KObject := {[
  "Deployment" := KDeployment example_deployment;
  "Service" := KService (mkService (mkTypeMeta "v1" "Service") emptyMeta None "" [80]%Z);
  "DbService" := KService (mkService (mkTypeMeta "v1" "Service") emptyMeta None "" [5432]%Z);
  "Secret" := KSecret (emptySecret <| sec_Type := mkTypeMeta "v1" "Secret" |>);
  "StatefulSet" := KStatefulSet (emptyStatefulSet <| s_Type := mkTypeMeta "apps/v1" "StatefulSet" |>
    <| s_Selector := Some emptySelector |>
    <| s_Template ::= λ t, t <| t_Spec ::= λ p, p <| Containers := [example_backend] |> |> |>) ]}.
Definition example_object (s : string) : KObject := default (KConfigMap emptyConfigMap) (example_objects !! s).

#[local] Instance example_init_scheme : KubeScheme := {|
  Unstructured := string;
  UnmarshalUnstructured s := Ok s;
  DecodeStream s := [Ok s];
  unstructuredGVK s := objectType (example_object s);
  unstructuredMeta s := objectMeta (example_object s);
  setUnstructuredMeta m s := s;
  scheme_New _ := Ok (KConfigMap emptyConfigMap);
  FromUnstructured s _ := Ok (example_object s);
  ObjectKinds o := Ok [objectType o]
|}.
#[local] Instance example_init_flavours : FlavourYaml := {| UnmarshalMetadata s := Ok true |}.
#[local] Instance example_init_yaml : AppConfigYaml :=
  {| UnmarshalAppConfig s := Ok None; MarshalAppConfig m := Ok "" |}.
#[local, program] Instance example_init_rand : Rand := {| rand_Read n := Ok (replicate n "a"%char) |}.
Next Obligation. intros n l [= <-]. apply length_replicate. Qed.
#[local] Instance example_init_os : OS := OS_of ∅ {[
  "default-config/deployment.yaml" := "Deployment"; "default-config/service.yaml" := "Service";
  "default-config/db-service.yaml" := "DbService"; "default-config/db-secret.yaml" := "Secret";
  "default-config/db-statefulset.yaml" := "StatefulSet" ]} ∅.

Definition example_model : outcome BackstageModel := InitObjects example_bs NewExternalConfig Kubernetes.

Example example_model_objects :
  fmap (M := outcome) (λ m, GetKey <$> GetRuntimeObjects m) example_model =
    Ok ["db-secret.yaml"; "db-service.yaml"; "db-statefulset.yaml"; "deployment.yaml"; "service.yaml"].
Proof. by vm_compute. Qed.

Definition example_built : BackstageModel :=
  match example_model with Ok m => m | _ => mkBackstageModel false false [] NewExternalConfig end.

Lemma example_model_Ok : InitObjects example_bs NewExternalConfig Kubernetes = Ok example_built.
Proof. by vm_compute. Qed.

Lemma InitObjects_refines_witness : GetKey <$> RuntimeObjects example_built = oc_Key <$> registrations.
Proof.
  destruct (InitObjects_refines NewExternalConfig example_bs Kubernetes example_built example_model_Ok)
    as (? & ? & ? & _ & _ & _ & _ & H). exact H.
Defined.

Lemma InitObjects_database_witness :
  ∃ ss, GetRuntimeObject DbStatefulSetKey example_built = Some (RDbStatefulSet (Some ss)) ∧
    s_ServiceName ss = "backstage-psql-bs" ∧ db_reads ss "backstage-psql-secret-bs".
Proof.
  destruct (InitObjects_database NewExternalConfig example_bs Kubernetes example_built example_model_Ok)
    as (svc & ss & i & d & _ & Hss & _ & [_ Hn _ _] & _ & _ & Hs & Hr & _).
  exists ss. split; [exact Hss|]. split; [by rewrite Hs, Hn|]. apply Hr. by vm_compute.
Defined.

Lemma InitObjects_backend_witness :
  ∃ svc i d, serviceOf example_built = Some svc ∧ getDeployment example_built = Some (i, d) ∧
    map_lookup (svc_Selector svc) AppLabel = map_lookup (Labels (PodObjectMeta (deployable d))) AppLabel.
Proof.
  destruct (InitObjects_backend NewExternalConfig example_bs Kubernetes example_built example_model_Ok)
    as (svc & i & d & Hs & _ & Hd & _ & _ & H). destruct (H example_no_patch) as (_ & Hl & _).
  exact (ex_intro _ svc (ex_intro _ i (ex_intro _ d (conj Hs (conj Hd Hl))))).
Defined.

Lemma InitObjects_owned_witness :
  ∃ o c k, o ∈ GetRuntimeObjects example_built ∧ Object_ o = Some c ∧ k ∈ configObjects c ∧ owned_by example_bs (objectMeta k).
Proof.
  assert (∃ o l, GetRuntimeObjects example_built = o :: l ∧ ∃ s, o = RDbSecret (Some s)) as (o & l & Ho & s & ->)
    by (vm_compute; by do 2 eexists; split; [|eexists]).
  exists (RDbSecret (Some s)), (ConfObject (KSecret s)), (KSecret s).
  assert (RDbSecret (Some s) ∈ GetRuntimeObjects example_built) as Hin by (rewrite Ho; by left).
  assert (KSecret s ∈ configObjects (ConfObject (KSecret s))) as Hk by by left.
  split; [exact Hin|]. split; [reflexivity|]. split; [exact Hk|].
  exact (InitObjects_owned NewExternalConfig example_bs Kubernetes example_built example_model_Ok _ _ _ Hin eq_refl Hk (λ d Hd, ltac:(discriminate Hd))).
Defined.

End example.
