(* ===== verification/Password.v ===== *)
(** * Where the generated password goes

    crypto/rand makes every call of [InitObjects] a different one.  Two calls
    that differ in the random bytes only build models that differ in the password of the
    database Secret only: the password does not flow into any other object,
    and whether the call succeeds does not depend on it. *)

From S2P Require Import Prelude.
From S2P Require Import GoStrings.
From S2P Require Import K8s.
From S2P Require Import Api.
From S2P Require Import Externals.
From S2P Require Import Utils.
From S2P Require Import Pod.
From S2P Require Import Deployable.
From S2P Require Import MetaInfo.
From S2P Require Import BackstageDeployment.
From S2P Require Import DynamicPluginsReference.
From S2P Require Import DynamicPlugins.
From S2P Require Import ExternalConfig.
From S2P Require Import ConfigObjects.
From S2P Require Import Db.
From S2P Require Import ServiceRoute.
From S2P Require Import DefaultConfig.
From S2P Require Import Runtime.
From S2P Require Import RuntimeSpec.
From S2P Require Import InitTheorems.
From stdpp Require Import options.

(** ** Equal but for the password *)

Definition without_password (s : Secret) : Secret :=
  s <| sec_StringData ::= fmap (M := option) (λ d, delete "POSTGRES_PASSWORD" (delete "POSTGRESQL_ADMIN_PASSWORD" d)) |>.
Definition same_secret (s s' : Secret) : Prop := without_password s = without_password s'.
#[export] Instance same_secret_equivalence : Equivalence same_secret.
Proof. split; unfold same_secret; [by intros ?|by intros ??|by intros ??? -> ->]. Qed.

#[export] Instance sec_Meta_proper : Proper (same_secret ==> eq) sec_Meta.
Proof. intros s s' H. by apply (f_equal sec_Meta) in H. Qed.

Lemma same_secret_data s s' :
  same_secret s s' → s' = s <| sec_StringData := sec_StringData s' |> ∧
    ∀ k, k ≠ "POSTGRES_PASSWORD" → k ≠ "POSTGRESQL_ADMIN_PASSWORD" →
      map_lookup (sec_StringData s') k = map_lookup (sec_StringData s) k.
Proof.
  destruct s as [t m d x], s' as [t' m' d' x']. intros [= <- <- <- Hx]. split; [done|]. intros k H1 H2. simpl.
  destruct x as [x|], x' as [x'|]; try done. injection Hx as Hx. apply (f_equal (lookup k)) in Hx.
  by rewrite !lookup_delete_ne in Hx.
Qed.

Lemma same_connection pswd pswd' host port (s : Secret) :
  same_secret (s <| sec_StringData := Some (connection pswd host port) |>)
    (s <| sec_StringData := Some (connection pswd' host port) |>).
Proof. reflexivity. Qed.

Definition same_parts (P P' : Parts) : Prop :=
  P' = P <| p_DbSecret := p_DbSecret P' |> ∧ option_Forall2 same_secret (p_DbSecret P) (p_DbSecret P').

Inductive same_object : RuntimeObject → RuntimeObject → Prop :=
  | same_refl o : same_object o o
  | same_DbSecret s s' : option_Forall2 same_secret s s' → same_object (RDbSecret s) (RDbSecret s').

Lemma same_parts_objects P P' : same_parts P P' → Forall2 same_object (objects P) (objects P').
Proof. intros [-> Hs]. unfold objects; simpl. repeat constructor; done. Qed.

Section password.
Context `{os : !OS, mo_ : !MapOrder, own : !Ownership, merge2 : !Merge2, wyaml : !WorkloadYaml,
  dy : !DynaYaml, ks : !KubeScheme, fy : !FlavourYaml, ay : !AppConfigYaml}.

(** ** The update of the Secret *)

Lemma updateDbSecret_redrawn (rnd rnd' : Rand) service secret s :
  is_Panic (newPassword (rnd := rnd')) = false →
  updateDbSecret (rnd := rnd) service secret = Ok s →
  ∃ s', updateDbSecret (rnd := rnd') service secret = Ok s' ∧ option_Forall2 same_secret s s'.
Proof.
  intros Hp. destruct secret as [secret|]; simpl; [|intros [= <-]; exists None; by repeat constructor].
  destruct (newPassword (rnd := rnd)) as [p|e|w]; [|done..]. destruct (newPassword (rnd := rnd')) as [p'|e|w] eqn:E; [| |done].
  - simpl. destruct service as [service|]; [|done]. destruct (svc_Ports service); [done|]. intros [= <-]. eexists. split; [reflexivity|]. constructor. apply same_connection.
  - unfold newPassword in E. by destruct (GeneratePassword _).
Qed.

(** ** What reads it

    The workloads name the Secret and do not read it. *)
Lemma updateDbStatefulSet_same b service s s' ss :
  option_Forall2 same_secret s s' → updateDbStatefulSet b service s ss = updateDbStatefulSet b service s' ss.
Proof. intros [x y H%sec_Meta_proper|]; unfold updateDbStatefulSet; [by rewrite H|done]. Qed.

Lemma updateDeployment_same b s s' d :
  option_Forall2 same_secret s s' → updateDeployment b s d = updateDeployment b s' d.
Proof. intros [x y H%sec_Meta_proper|]; unfold updateDeployment; [by rewrite H|done]. Qed.

(** ** The composition of the components *)

Section finish.
Context (ec : ExternalConfig) (b : api.Backstage).

(** The components before the Secret, and those after the backend *)
Definition finishFirst (P : Parts) : outcome Parts :=
  P ← finishAppConfig ec b P;
  P ← onPod (updateConfigMapEnvs b (p_ConfigMapEnvs P)) P;
  onPod (updateConfigMapFiles ec b (p_ConfigMapFiles P)) P.
Definition finishPlugins (P : Parts) : outcome Parts :=
  if hasDynamicPlugins b (p_DynamicPlugins P) then onPod (updateDynamicPlugins (p_DynamicPlugins P)) P else Ok P.
Definition finishLast (P : Parts) : outcome Parts :=
  P ← finishPlugins P;
  P ← onPod (updatePvcs b (p_Pvcs P)) P;
  P ← finishRoute ec b P;
  P ← onPod (updateSecretEnvs b (p_SecretEnvs P)) P;
  onPod (updateSecretFiles ec b (p_SecretFiles P)) P.
Definition finishWorkloads (P : Parts) : outcome Parts :=
  ss ← updateDbStatefulSet b (p_DbService P) (p_DbSecret P) (p_DbStatefulSet P);
  d ← updateDeployment b (p_DbSecret P) (mkBackstageDeployment (p_Workload P));
  finishLast (P <| p_DbStatefulSet := ss |> <| p_Workload := deployable d |>).

Lemma finish_split (rnd : Rand) P :
  finish ec b P = P ← finishFirst P; s ← updateDbSecret (p_DbService P) (p_DbSecret P); finishWorkloads (P <| p_DbSecret := s |>).
Proof.
  unfold finish, finishFirst. destruct (finishAppConfig _ _ P) as [P1|e|w]; simpl; [|done..].
  destruct (onPod _ P1) as [P2|e|w]; simpl; [|done..]. by destruct (onPod _ P2).
Qed.

(** [f] keeps the Secret and does not read it. *)
Definition ignores_secret (f : Parts → outcome Parts) : Prop :=
  ∀ P s, f (P <| p_DbSecret := s |>) = (λ P', P' <| p_DbSecret := s |>) <$> f P.

Lemma ignores_onPod (f : Parts → PodSpec → outcome PodSpec) :
  (∀ P s, f (P <| p_DbSecret := s |>) = f P) → ignores_secret (λ P, onPod (f P) P).
Proof. intros Hf P s. unfold onPod. rewrite Hf. cbn. by destruct (withPod _ _). Qed.
Lemma ignores_finishRoute : ignores_secret (finishRoute ec b).
Proof. intros P s. unfold finishRoute. cbn. by destruct (updateRoute _ _ _ _ _). Qed.
Lemma ignores_finishPlugins : ignores_secret finishPlugins.
Proof.
  intros P s. unfold finishPlugins. cbn. destruct (hasDynamicPlugins _ _); [|done].
  by apply (ignores_onPod (λ P, updateDynamicPlugins (p_DynamicPlugins P))).
Qed.
Lemma ignores_bind f g : ignores_secret f → ignores_secret g → ignores_secret (λ P, f P ≫= g).
Proof. intros Hf Hg P s. rewrite Hf. destruct (f P); [apply Hg|done..]. Qed.

Lemma ignores_finishLast : ignores_secret finishLast.
Proof.
  apply (ignores_bind finishPlugins); [apply ignores_finishPlugins|].
  apply (ignores_bind (λ P, onPod (updatePvcs b (p_Pvcs P)) P)); [by apply ignores_onPod|].
  apply ignores_bind; [apply ignores_finishRoute|].
  apply (ignores_bind (λ P, onPod (updateSecretEnvs b (p_SecretEnvs P)) P)); by apply ignores_onPod.
Qed.

Lemma finishWorkloads_same P P' :
  same_parts P P' →
  finishWorkloads P' = (λ Q, Q <| p_DbSecret := p_DbSecret P' |>) <$> finishWorkloads P.
Proof.
  intros [HP Hs]. rewrite HP. unfold finishWorkloads. cbn.
  rewrite <- (updateDbStatefulSet_same _ _ _ _ _ Hs). destruct (updateDbStatefulSet _ _ _ _) as [ss|e|w]; cbn; [|done..].
  rewrite <- (updateDeployment_same _ _ _ _ Hs). destruct (updateDeployment _ _ _) as [d|e|w]; cbn; [|done..].
  pose proof (ignores_finishLast (P <| p_DbStatefulSet := ss |> <| p_Workload := deployable d |>) (p_DbSecret P')) as H.
  cbn in H. exact H.
Qed.

Lemma finishWorkloads_Ok P P' Q :
  same_parts P P' → finishWorkloads P = Ok Q → ∃ Q', finishWorkloads P' = Ok Q' ∧ same_parts Q Q'.
Proof.
  intros HP HQ. assert (same_parts P P) as Hrefl by (split; [by destruct P|by destruct (p_DbSecret P); constructor]).
  pose proof (finishWorkloads_same P P Hrefl) as Hkeep. rewrite HQ in Hkeep. injection Hkeep as Hkeep.
  rewrite (finishWorkloads_same P P' HP), HQ. eexists. split; [reflexivity|]. split; [done|].
  rewrite Hkeep. apply HP.
Qed.

Lemma finish_redrawn (rnd rnd' : Rand) P Q :
  is_Panic (newPassword (rnd := rnd')) = false → finish (rnd := rnd) ec b P = Ok Q →
  ∃ Q', finish (rnd := rnd') ec b P = Ok Q' ∧ same_parts Q Q'.
Proof.
  intros Hp. rewrite !finish_split. destruct (finishFirst P) as [P1|e|w]; simpl; [|done..].
  intros (s & Hs & HQ)%bind_Ok_inv. destruct (updateDbSecret_redrawn _ rnd' _ _ _ Hp Hs) as (s' & -> & Hss).
  exact (finishWorkloads_Ok (P1 <| p_DbSecret := s |>) (P1 <| p_DbSecret := s' |>) Q (conj eq_refl Hss) HQ).
Qed.

(** ** The model *)

(** The same but for the data of the database Secret *)
Definition same_model (m m' : BackstageModel) : Prop :=
  m' = m <| RuntimeObjects := RuntimeObjects m' |> ∧ Forall2 same_object (RuntimeObjects m) (RuntimeObjects m').

Lemma InitObjects_redrawn (rnd rnd' : Rand) platform m :
  is_Panic (newPassword (rnd := rnd')) = false → InitObjects (rnd := rnd) b ec platform = Ok m →
  ∃ m', InitObjects (rnd := rnd') b ec platform = Ok m' ∧ same_model m m'.
Proof.
  intros Hp. unfold InitObjects. rewrite !runtimeConfig_registrations. cbn [mbind outcome_bind].
  destruct (wrapErr _ _) as [flavours|e|w]; cbn [mbind outcome_bind]; [|done..].
  destruct (foldM _ _ _) as [m0|e|w] eqn:E; cbn [mbind outcome_bind]; [|done..].
  apply initObjects_added in E as (P & -> & _). rewrite !updateObjects_finish.
  intros (Q & HQ & <-)%wrapErr_Ok_inv%fmap_Ok_inv. destruct (finish_redrawn _ rnd' _ _ Hp HQ) as (Q' & -> & Hsame).
  eexists. split; [reflexivity|]. split; [done|]. by apply same_parts_objects.
Qed.

(** C8. The generated password does not leave the database Secret: when
    [InitObjects] succeeds with some random bytes it succeeds with any others,
    and every object of the two models is the same but for the two passwords in
    the data of the database Secret. *)
Theorem InitObjects_password (rnd rnd' : Rand) platform m :
  is_Panic (newPassword (rnd := rnd')) = false → InitObjects (rnd := rnd) b ec platform = Ok m →
  ∃ m', InitObjects (rnd := rnd') b ec platform = Ok m' ∧ length (RuntimeObjects m') = length (RuntimeObjects m) ∧
    ∀ i o, RuntimeObjects m !! i = Some o → RuntimeObjects m' !! i = Some o ∨
      ∃ s s', o = RDbSecret (Some s) ∧ RuntimeObjects m' !! i = Some (RDbSecret (Some s')) ∧
        s' = s <| sec_StringData := sec_StringData s' |> ∧
        ∀ k, k ≠ "POSTGRES_PASSWORD" → k ≠ "POSTGRESQL_ADMIN_PASSWORD" →
          map_lookup (sec_StringData s') k = map_lookup (sec_StringData s) k.
Proof.
  intros Hp H. destruct (InitObjects_redrawn _ rnd' _ _ Hp H) as (m' & H' & _ & Hsame). exists m'.
  split; [done|]. split; [symmetry; by eapply Forall2_length|]. intros i o Ho.
  destruct (Forall2_lookup_l _ _ _ _ _ Hsame Ho) as (o' & Ho' & Hoo). destruct Hoo as [|s0 s0' [s s' Hs|]]; [by left| |by left].
  right. exists s, s'. split; [done|]. split; [done|]. by apply same_secret_data.
Qed.

End finish.

End password.

(** ** Two passwords *)

Section example.
#[local] Existing Instances MapOrder_asc Ownership_set Merge2_patch WorkloadYaml_example DynaYaml_lines
  example_init_scheme example_init_flavours example_init_yaml example_init_rand example_init_os.

Program Definition example_other_rand : Rand := {| rand_Read n := Ok (replicate n "b"%char) |}.
Next Obligation. intros n l [= <-]. apply length_replicate. Qed.

Example example_passwords :
  newPassword = Ok "YWFhYWFhYWFhYWFhYWFhYWFhYWFhYWFh" ∧
  newPassword (rnd := example_other_rand) = Ok "YmJiYmJiYmJiYmJiYmJiYmJiYmJiYmJi".
Proof. by vm_compute. Qed.

Definition example_db_secret : Secret :=
  match RuntimeObjects example_built !! 3 with Some (RDbSecret (Some s)) => s | _ => emptySecret end.
Example example_db_secret_ok : RuntimeObjects example_built !! 3 = Some (RDbSecret (Some example_db_secret)).
Proof. by vm_compute. Qed.
Example example_db_host : map_lookup (sec_StringData example_db_secret) "POSTGRES_HOST" = Some "backstage-psql-bs".
Proof. by vm_compute. Qed.

(** The port and the host reach the Secret, whatever the password. *)
Lemma InitObjects_password_witness :
  ∃ m' s', InitObjects (rnd := example_other_rand) example_bs NewExternalConfig Kubernetes = Ok m' ∧
    RuntimeObjects m' !! 3 = Some (RDbSecret (Some s')) ∧
    map_lookup (sec_StringData s') "POSTGRES_HOST" = Some "backstage-psql-bs".
Proof.
  destruct (InitObjects_password NewExternalConfig example_bs example_init_rand example_other_rand Kubernetes example_built
    eq_refl example_model_Ok) as (m' & Hm' & _ & H). exists m'.
  destruct (H 3 _ example_db_secret_ok) as [H3|(s0 & s' & Hs0 & H3 & _ & Hd)].
  - exists example_db_secret. split; [exact Hm'|]. split; [exact H3|exact example_db_host].
  - exists s'. split; [exact Hm'|]. split; [exact H3|]. rewrite Hd; [|discriminate..].
    apply (f_equal (λ o, match o with RDbSecret (Some s) => s | _ => emptySecret end)) in Hs0.
    change (example_db_secret = s0) in Hs0. rewrite <- Hs0. exact example_db_host.
Defined.

End example.
