(* ===== verification/Client.v ===== *)
(** * The API server as the reconciler sees it

    The reconciler talks to the API server through a controller-runtime client.
    The server is not part of the repository: it is a class that answers each
    request from the history of the requests before it, so that what is proved
    holds for every server, with any content, other clients and failures.  A
    computation of type [API A] issues requests and returns a value, an error
    or a panic together with the history it leaves. *)

From S2P Require Import Prelude.
From S2P Require Import K8s.
From S2P Require Import Api.
From S2P Require Import Externals.
From stdpp Require Import options.

(** ** Requests *)

(** The kinds of objects the operator reads *)
Inductive ReadKind :=
  | BackstageKind
  | ConfigMapKind
  | SecretKind
  | PvcKind
  | DeploymentKind
  | StatefulSetKind
  | IngressKind.
#[export] Instance ReadKind_eq_dec : EqDecision ReadKind.
Proof. solve_decision. Defined.

(** [monitoringv1.ServiceMonitor], as far as the operator fills it in *)
Record ServiceMonitor := mkServiceMonitor {
  sm_Type : TypeMeta;
  sm_Meta : ObjectMeta;
  sm_MatchLabels : gomap string;
  sm_MatchNames : list string;
  (** port and path *)
  sm_Endpoints : list (string * string)
}.
#[export] Instance ServiceMonitor_eta : Eta ServiceMonitor := λ r,
  mkServiceMonitor (sm_Type r) (sm_Meta r) (sm_MatchLabels r) (sm_MatchNames r) (sm_Endpoints r).

Section requests.
Context `{ks : !KubeScheme}.

(** The Go type an object is read into *)
Definition Typed (k : ReadKind) : Type :=
  match k with
  | BackstageKind => api.Backstage
  | ConfigMapKind => ConfigMap
  | SecretKind => Secret
  | PvcKind => PersistentVolumeClaim
  | DeploymentKind => Deployment
  | StatefulSetKind => StatefulSet
  | IngressKind => Unstructured
  end.

Inductive Request :=
  | Get (k : ReadKind) (namespace name : string)
  | Update (k : ReadKind) (obj : Typed k)
  | Create (obj : KObject)
  | Patch (obj : KObject)
  | PatchMonitor (sm : ServiceMonitor)
  | PatchUnstructured (obj : Unstructured)
  | UpdateStatus (backstage : api.Backstage).

(** What an answer holds.  The client decodes the answer to a write into the
    object it was given; of an applied object the operator reads only the kind
    afterwards. *)
Definition Reply (r : Request) : Type :=
  match r with
  | Get k _ _ => Typed k
  | Update k _ => Typed k
  | Patch _ => TypeMeta
  | _ => unit
  end.

Class APIServer := { respond : list Request → ∀ r : Request, outcome (Reply r) }.

(** Whether a request changes what the server holds of the objects of the
    custom resource *)
Definition is_write (r : Request) : bool :=
  match r with Get _ _ _ => false | _ => true end.

Definition is_status (r : Request) : bool :=
  match r with UpdateStatus _ => true | _ => false end.

(** ** Computations with requests *)

Definition API (A : Type) : Type := list Request → outcome A * list Request.

#[export] Instance API_ret : MRet API := λ A a h, (Ok a, h).
#[export] Instance API_bind : MBind API := λ A B f m h,
  match m h with
  | (Ok a, h) => f a h
  | (Err e, h) => (Err e, h)
  | (Panic w, h) => (Panic w, h)
  end.

Definition lift {A} (m : outcome A) : API A := λ h, (m, h).
Definition call `{srv : !APIServer} (r : Request) : API (Reply r) := λ h, (respond h r, h ++ [r]).

(** [if err != nil { return f(err) }] *)
Definition mapErr {A} (f : error → error) (m : API A) : API A := λ h,
  match m h with
  | (Err e, h) => (Err (f e), h)
  | r => r
  end.

(** A loop *)
Fixpoint foldA {A B} (f : A → B → API A) (a : A) (l : list B) : API A :=
  match l with
  | [] => mret a
  | b :: l => a' ← f a b; foldA f a' l
  end.

(** ** What a computation may request

    [issues P m]: whatever the server answers, every request [m] adds to the
    history satisfies [P]. *)

Definition issues {A} (P : Request → Prop) (m : API A) : Prop :=
  ∀ h, ∃ l, (m h).2 = h ++ l ∧ Forall P l.

Section issues.
Context (P : Request → Prop).

Lemma issues_lift {A} (m : outcome A) : issues P (lift m).
Proof. intros h. exists []. by rewrite app_nil_r. Qed.

Lemma issues_ret {A} (a : A) : issues P (mret a : API A).
Proof. intros h. exists []. by rewrite app_nil_r. Qed.

Lemma issues_call `{srv : !APIServer} r : P r → issues P (call r).
Proof. intros Hr h. exists [r]. split; [done|]. by constructor. Qed.

Lemma issues_bind {A B} (m : API A) (f : A → API B) :
  issues P m → (∀ a, issues P (f a)) → issues P (m ≫= f).
Proof.
  intros Hm Hf h. destruct (Hm h) as (l & Hl & Hp). unfold mbind, API_bind.
  destruct (m h) as [[a|e|w] h']; simpl in *; subst h'; [|by exists l..].
  destruct (Hf a (h ++ l)) as (l' & Hl' & Hp'). exists (l ++ l').
  rewrite Hl', (assoc_L (++)). split; [done|]. by apply Forall_app.
Qed.

Lemma issues_mapErr {A} f (m : API A) : issues P m → issues P (mapErr f m).
Proof. intros Hm h. destruct (Hm h) as (l & Hl & Hp). exists l. unfold mapErr. by destruct (m h) as [[]]. Qed.

Lemma issues_foldA {A B} (f : A → B → API A) a l :
  (∀ a b, b ∈ l → issues P (f a b)) → issues P (foldA f a l).
Proof.
  revert a. induction l as [|b l IH]; intros a Hf; simpl; [apply issues_ret|].
  apply issues_bind; [apply Hf; left|]. intros a'. apply IH. intros x y Hy. apply Hf. by right.
Qed.

End issues.

Lemma issues_impl {A} (P Q : Request → Prop) (m : API A) :
  (∀ r, P r → Q r) → issues P m → issues Q m.
Proof. intros HPQ Hm h. destruct (Hm h) as (l & Hl & Hp). exists l. split; [done|]. by eapply Forall_impl. Qed.

Lemma API_bind_Ok {A B} (m : API A) (f : A → API B) h b h' :
  (m ≫= f) h = (Ok b, h') → ∃ a h1, m h = (Ok a, h1) ∧ f a h1 = (Ok b, h').
Proof. unfold mbind, API_bind. destruct (m h) as [[a|e|w] h1]; intros H; [by exists a, h1|done..]. Qed.

Lemma mapErr_Ok {A} f (m : API A) h a h' : mapErr f m h = (Ok a, h') ↔ m h = (Ok a, h').
Proof. unfold mapErr. destruct (m h) as [[]]; naive_solver. Qed.

End requests.

#[export] Hint Resolve issues_lift issues_ret issues_call issues_bind issues_mapErr issues_foldA : rhdh.

(** ** What a computation requests after a history

    [leaves T m]: whatever the server answers, the requests [m] adds to a
    history [h] are related to it by [T h].  [pieces P] are the sequences of
    requests that are put together from pieces, each of which [P] relates to
    the history just before it: unlike [issues], this can say what a request
    has to do with the answer to the one before it. *)

Section leaves.
Context `{ks : !KubeScheme}.

Definition leaves {A} (T : list Request → list Request → Prop) (m : API A) : Prop :=
  ∀ h, ∃ l, (m h).2 = h ++ l ∧ T h l.

Inductive pieces (P : list Request → list Request → Prop) : list Request → list Request → Prop :=
  | no_piece h : pieces P h []
  | a_piece h l l' : P h l → pieces P (h ++ l) l' → pieces P h (l ++ l').

Lemma leaves_Ok {A} T (m : API A) h x h' : leaves T m → m h = (x, h') → ∃ l, h' = h ++ l ∧ T h l.
Proof. intros Hm E. destruct (Hm h) as (l & Hl & HT). rewrite E in Hl. by exists l. Qed.

Context (P : list Request → list Request → Prop).

Lemma pieces_app h l l' : pieces P h l → pieces P (h ++ l) l' → pieces P h (l ++ l').
Proof.
  induction 1 as [h|h l1 l2 Hl _ IH]; [by rewrite app_nil_r|]. rewrite <- !(assoc_L (++)). intros Hl'.
  apply a_piece; [done|]. apply IH. by rewrite <- (assoc_L (++)).
Qed.

Lemma pieces_one h l : P h l → pieces P h l.
Proof. intros Hl. rewrite <- (app_nil_r l). apply a_piece; [done|apply no_piece]. Qed.

Lemma pieces_Forall (Q : Request → Prop) h l : (∀ h l, P h l → Forall Q l) → pieces P h l → Forall Q l.
Proof. intros HQ. induction 1; [done|]. apply Forall_app. eauto. Qed.

Lemma leaves_ret {A} (a : A) : leaves (pieces P) (mret a : API A).
Proof. intros h. exists []. rewrite app_nil_r. split; [done|apply no_piece]. Qed.

Lemma leaves_call `{srv : !APIServer} r : (∀ h, P h [r]) → leaves (pieces P) (call r).
Proof. intros Hr h. exists [r]. split; [done|]. by apply pieces_one. Qed.

Lemma leaves_mapErr {A} f (m : API A) T : leaves T m → leaves T (mapErr f m).
Proof. intros Hm h. destruct (Hm h) as (l & Hl & HT). exists l. unfold mapErr. by destruct (m h) as [[]]. Qed.

Lemma leaves_bind {A B} (m : API A) (f : A → API B) :
  leaves (pieces P) m → (∀ a, leaves (pieces P) (f a)) → leaves (pieces P) (m ≫= f).
Proof.
  intros Hm Hf h. destruct (Hm h) as (l & Hl & Hp). unfold mbind, API_bind.
  destruct (m h) as [[a|e|w] h']; simpl in *; subst h'; [|by exists l..].
  destruct (Hf a (h ++ l)) as (l' & Hl' & Hp'). exists (l ++ l').
  rewrite Hl', (assoc_L (++)). split; [done|]. by apply pieces_app.
Qed.

Lemma leaves_map {A B} (m : API A) (f : A → B) : leaves (pieces P) m → leaves (pieces P) (m ≫= λ a, mret (f a)).
Proof. intros Hm. apply leaves_bind; [done|]. intros a. apply leaves_ret. Qed.

Lemma leaves_foldA {A B} (f : A → B → API A) a l :
  (∀ a b, leaves (pieces P) (f a b)) → leaves (pieces P) (foldA f a l).
Proof.
  intros Hf. revert a. induction l as [|b l IH]; intros a; simpl; [apply leaves_ret|]. by apply leaves_bind.
Qed.

End leaves.

(** A property the body of a loop preserves *)
Lemma foldA_invariant `{ks : !KubeScheme} {A B} (P : A → Prop) (f : A → B → API A) l a h a' h' :
  (∀ x b h x' h', b ∈ l → P x → f x b h = (Ok x', h') → P x') →
  P a → foldA f a l h = (Ok a', h') → P a'.
Proof.
  revert a h. induction l as [|b l IH]; intros a h Hf Ha H; simpl in H; [by injection H as <- _|].
  apply API_bind_Ok in H as (x & h1 & Hx & H). eapply IH; [|eapply (Hf a b h x h1); [left|..]; done|done].
  intros y c k y' k' ?. apply Hf. by right.
Qed.
