(* ===== verification/Status.v ===== *)
(** * The status of the custom resource (internal/controller/backstage_status.go)

    The condition of type Deployed, and the state it is set from. *)

From S2P Require Import Prelude.
From S2P Require Import GoStrings.
From S2P Require Import K8s.
From S2P Require Import Api.
From stdpp Require Import options.

Definition ConditionTrue : string := "True".
Definition ConditionFalse : string := "False".

(** The condition of a type, as [meta.FindStatusCondition] finds it *)
Definition FindStatusCondition (conditions : list Condition) (ty : string) : option Condition :=
  snd <$> list_find (λ c, cond_Type c = ty) conditions.

(** [meta.SetStatusCondition]: the condition replaces the one of its type or is
    added; the others stay. *)
Class StatusConditions := {
  SetStatusCondition : list Condition → Condition → list Condition;
  Find_SetStatusCondition cs c ty :
    FindStatusCondition (SetStatusCondition cs c) ty =
      if decide (cond_Type c = ty) then Some c else FindStatusCondition cs ty
}.

Definition setStatusCondition `{!StatusConditions} (condType status : string) (reason : api.BackstageConditionReason)
    (msg : string) (backstage : api.Backstage) : api.Backstage :=
  api.mkBackstage (api.bs_Meta backstage) (api.Spec backstage)
    (api.mkBackstageStatus (SetStatusCondition (api.Conditions (api.Status backstage))
      (mkCondition condType status (api.reasonString reason) msg))).

(** ** The state of a workload *)

Definition DeploymentReplicaFailure : string := "ReplicaFailure".

Definition describeConditions (cs : list Condition) : string :=
  foldl (λ msg c, msg +:+ " " +:+ cond_Type c +:+ "=" +:+ cond_Status c +:+ "(" +:+ cond_Message c +:+ ");") "" cs.

Definition isReplicaFailure (c : Condition) : Prop :=
  cond_Type c = DeploymentReplicaFailure ∧ cond_Status c = ConditionTrue.
#[export] Instance isReplicaFailure_dec c : Decision (isReplicaFailure c).
Proof. unfold isReplicaFailure. apply _. Defined.

Definition deploymentState (deploy : Deployment) : api.BackstageConditionReason * string :=
  let desired := default 1%Z (d_Replicas deploy) in
  if bool_decide (d_ReadyReplicas deploy = desired) then (api.BackstageConditionReasonDeployed, "")
  else if bool_decide (length (d_Conditions deploy) = 0) then (api.BackstageConditionReasonInProgress, "no conditions reported yet")
  else
    match list_find isReplicaFailure (d_Conditions deploy) with
    | Some (_, c) => (api.BackstageConditionReasonFailed, cond_Message c)
    | None => (api.BackstageConditionReasonInProgress, describeConditions (d_Conditions deploy))
    end.

Definition statefulSetState (deploy : StatefulSet) : api.BackstageConditionReason * string :=
  let desired := default 1%Z (s_Replicas deploy) in
  if bool_decide (s_ReadyReplicas deploy = desired ∧ s_CurrentReplicas deploy = s_UpdatedReplicas deploy)
  then (api.BackstageConditionReasonDeployed, "")
  else if bool_decide (length (s_Conditions deploy) = 0) then (api.BackstageConditionReasonInProgress, "no conditions reported yet")
  else (api.BackstageConditionReasonInProgress, describeConditions (s_Conditions deploy)).

(** ** Lemmas *)

Section lemmas.

(** The condition the operator keeps *)
Definition deployedCondition (b : api.Backstage) : option Condition :=
  FindStatusCondition (api.Conditions (api.Status b)) api.BackstageConditionTypeDeployed.

Lemma deployedCondition_set `{!StatusConditions} status reason msg b :
  deployedCondition (setStatusCondition api.BackstageConditionTypeDeployed status reason msg b) =
    Some (mkCondition api.BackstageConditionTypeDeployed status (api.reasonString reason) msg).
Proof. unfold deployedCondition, setStatusCondition. simpl. by rewrite Find_SetStatusCondition, decide_True. Qed.

Lemma deploymentState_cases d :
  (d_ReadyReplicas d = default 1%Z (d_Replicas d) ∧ deploymentState d = (api.BackstageConditionReasonDeployed, "")) ∨
  (d_ReadyReplicas d ≠ default 1%Z (d_Replicas d) ∧
   ((∃ c, c ∈ d_Conditions d ∧ isReplicaFailure c ∧ deploymentState d = (api.BackstageConditionReasonFailed, cond_Message c)) ∨
    (Forall (λ c, ¬ isReplicaFailure c) (d_Conditions d) ∧ ∃ msg, deploymentState d = (api.BackstageConditionReasonInProgress, msg)))).
Proof.
  unfold deploymentState. case_bool_decide as Hr; [by left|right; split; [done|]].
  case_bool_decide as Hl.
  { right. split; [|by eexists]. by destruct (d_Conditions d). }
  destruct (list_find _ _) as [[i c]|] eqn:E.
  - apply list_find_Some in E as (Hi & Hc & _). left. exists c. split_and!; [by eapply list_elem_of_lookup_2|done..].
  - right. apply list_find_None in E. split; [done|by eexists].
Qed.

End lemmas.

(** The reference implementation, for evaluating the model *)
Fixpoint set_condition (cs : list Condition) (c : Condition) : list Condition :=
  match cs with
  | [] => [c]
  | c' :: cs => if decide (cond_Type c' = cond_Type c) then c :: cs else c' :: set_condition cs c
  end.

Program Definition StatusConditions_set : StatusConditions := {| SetStatusCondition := set_condition |}.
Next Obligation.
  intros cs c ty. unfold FindStatusCondition. induction cs as [|c' cs IH]; simpl.
  - by case_decide.
  - destruct (decide (cond_Type c' = cond_Type c)) as [Hc|Hc]; simpl.
    + destruct (decide (cond_Type c = ty)) as [Ht|Ht]; [done|]. by rewrite (decide_False (P := cond_Type c' = ty)) by congruence.
    + destruct (decide (cond_Type c' = ty)) as [Ht|Ht]; simpl.
      * by rewrite decide_False by congruence.
      * destruct (list_find _ (set_condition cs c)) as [[]|], (list_find _ cs) as [[]|]; simpl in *; exact IH.
Qed.
