(* ===== verification/Preprocess.v ===== *)
(** * Reading what the custom resource refers to
      (internal/controller/spec_preprocessor.go)

    The ConfigMaps, Secrets and claims the custom resource names are read, and
    marked so that the operator is told of their changes; their contents go
    into a hash that tells whether the pods have to be restarted. *)

From S2P Require Import Prelude.
From S2P Require Import GoStrings.
From S2P Require Import K8s.
From S2P Require Import Api.
From S2P Require Import Externals.
From S2P Require Import Utils.
From S2P Require Import ExternalConfig.
From S2P Require Import Runtime.
From S2P Require Import Client.
From stdpp Require Import options.

Definition AutoSyncEnvVar : string := "EXT_CONF_SYNC_backstage".
Definition WatchExtConfig : string := "WATCH_EXT_CONF_backstage".

(** SHA-256 of a text, in hexadecimal; [unstructured.NestedString]; and how
    often, at most, [retry.RetryOnConflict] tries again under [DefaultRetry] *)
Class Sha256 := { sha256hex : string → string }.
Class NestedStrings `{!KubeScheme} := { NestedString : Unstructured → list string → outcome (option string) }.
Class RetryPolicy := { retries : nat }.

Section external.
Context `{ks : !KubeScheme}.

(** The objects whose content counts: ConfigMaps and Secrets *)
Class External (k : ReadKind) := {
  ext_Meta : Typed k → ObjectMeta;
  ext_setMeta : ObjectMeta → Typed k → Typed k;
  ext_stringData : Typed k → gomap string;
  ext_binaryData : Typed k → gomap string
}.
#[export] Instance External_ConfigMap : External ConfigMapKind := {|
  ext_Meta (cm : Typed ConfigMapKind) := cm_Meta cm;
  ext_setMeta m (cm : Typed ConfigMapKind) := (cm : ConfigMap) <| cm_Meta := m |>;
  ext_stringData (cm : Typed ConfigMapKind) := cm_Data cm;
  ext_binaryData (cm : Typed ConfigMapKind) := cm_BinaryData cm
|}.
#[export] Instance External_Secret : External SecretKind := {|
  ext_Meta (s : Typed SecretKind) := sec_Meta s;
  ext_setMeta m (s : Typed SecretKind) := (s : Secret) <| sec_Meta := m |>;
  ext_stringData (s : Typed SecretKind) := sec_StringData s;
  ext_binaryData (s : Typed SecretKind) := sec_Data s
|}.

Section hashing.
Context `{mo_ : !MapOrder}.

(** [k + data[k]] for the keys in order, after what is there already *)
Definition appendData (original : string) (data : gomap string) : string :=
  foldl (λ acc k, acc +:+ k +:+ map_get data k) original (SortedKeys data).

Definition concatData {k} `{!External k} (original : string) (obj : Typed k) : string :=
  appendData (appendData original (ext_stringData obj)) (ext_binaryData obj).

End hashing.

Section reading.
Context `{os : !OS, mo_ : !MapOrder, srv : !APIServer, rp : !RetryPolicy}.

Definition addToWatch (ref : api.FileObjectRef) : bool :=
  (bool_decide (api.for_MountPath ref = "") || bool_decide (api.for_Key ref ≠ "")) && BoolEnvVar WatchExtConfig true.

Definition checkExternalObject (k : ReadKind) (objectName ns : string) : API (Typed k) :=
  mapErr (λ e,
    if bool_decide (k = SecretKind) && IsForbidden e
    then Errorf "warning: Secrets GET is forbidden, updating Secrets may not cause Pod recreating"
    else Wrapf ("failed to get external config from " +:+ objectName) e) (call (Get k ns objectName)).

Definition autoSync : bool :=
  match LookupEnv AutoSyncEnvVar with
  | Some autoSyncStr => match strconv.ParseBool autoSyncStr with Ok b => b | _ => false end
  | None => true
  end.

(** The marks of an object: the label, and whether it has to be written *)
Definition needsMark (m : ObjectMeta) : bool :=
  bool_decide (map_get (Labels m) ExtConfigSyncLabel = "") ||
  bool_decide (map_get (Annotations m) BackstageNameAnnotation = "") ||
  bool_decide (map_get (Labels m) ExtConfigSyncLabel ≠ strconv.FormatBool autoSync).

Definition mark (backstageName : string) (m : ObjectMeta) : ObjectMeta :=
  m <| Labels ::= λ l, Some (<[ExtConfigSyncLabel := strconv.FormatBool autoSync]> (map_make l)) |>
    <| Annotations ::= λ a, Some (<[BackstageNameAnnotation := backstageName]> (map_make a)) |>.

(** One attempt: read the object and mark it if need be; the answer to the
    update is decoded into the object. *)
Definition markObject (k : ReadKind) `{!External k} (backstageName objectName ns : string) : API (Typed k) :=
  obj ← checkExternalObject k objectName ns;
  let m := ext_Meta obj in
  if needsMark m then call (Update k (ext_setMeta (mark backstageName m) obj))
  else mret (ext_setMeta (m <| Labels ::= λ l, Some (map_make l) |> <| Annotations ::= λ a, Some (map_make a) |>) obj).

Fixpoint RetryOnConflict {A} (n : nat) (f : API A) : API A := λ h,
  match f h with
  | (Err e, h') =>
      if IsConflict e then
        match n with
        | 0 => (Err e, h')
        | S n => RetryOnConflict n f h'
        end
      else (Err e, h')
  | r => r
  end.

Definition addExtConfig (k : ReadKind) `{!External k} (backstageName objectName ns : string) (watch : bool)
    (hashingData : string) : API (Typed k * string) :=
  if negb watch then
    obj ← checkExternalObject k objectName ns;
    mret (obj, hashingData)
  else
    obj ← RetryOnConflict retries (markObject k backstageName objectName ns);
    mret (obj, concatData hashingData obj).

Context `{nested : !NestedStrings}.

Definition getOCPIngressDomain : API string := λ h,
  match call (Get IngressKind "" "cluster") h with
  | (Ok u, h) =>
      match NestedString u ["spec"; "domain"] with
      | Ok d => (Ok (default "" d), h)
      | Err e => (Err e, h)
      | Panic w => (Panic w, h)
      end
  | (Err e, h) => if IsNotFound e || IsReason ReasonNoMatch e then (Ok "", h) else (Err e, h)
  | (Panic w, h) => (Panic w, h)
  end.

(** *** preprocessSpec *)

(** [for key, value := range cm.Data { result.RawConfig[key] = value }] *)
Definition addRawConfig (ns name : string) (ec : ExternalConfig) : API ExternalConfig :=
  if bool_decide (name = "") then mret ec
  else
    cm ← checkExternalObject ConfigMapKind name ns;
    mret (ec <| RawConfig ::= λ raw, foldl (λ raw '(k, v), <[k := v]> raw) raw (range (map_make (cm_Data cm))) |>).

Definition St : Type := ExternalConfig * string.

(** One object: read, hashed and recorded *)
Definition addObject (k : ReadKind) `{!External k} (backstageName name ns : string) (watch : bool)
    (record : Typed k → ExternalConfig → ExternalConfig) (st : St) : API St :=
  r ← addExtConfig k backstageName name ns watch st.2;
  mret (record r.1 st.1, r.2).

Definition addAppConfigRef (b ns : string) (st : St) (ac : api.FileObjectRef) : API St :=
  addObject ConfigMapKind b (api.for_Name ac) ns (addToWatch ac)
    (λ (cm : ConfigMap) ec, ec <| AppConfigKeys ::= insert (api.for_Name ac) (SortedKeys (cm_Data cm)) |>) st.

Definition addConfigMapFileRef (b ns : string) (st : St) (ef : api.FileObjectRef) : API St :=
  addObject ConfigMapKind b (api.for_Name ef) ns (addToWatch ef)
    (λ (cm : ConfigMap) ec, ec <| ExtraFileConfigMapKeys ::= insert (api.for_Name ef) (NewDataObjectKeys (cm_Data cm) (cm_BinaryData cm)) |>) st.

Definition addSecretFileRef (b ns : string) (st : St) (ef : api.FileObjectRef) : API St :=
  addObject SecretKind b (api.for_Name ef) ns (addToWatch ef)
    (λ (s : Secret) ec, ec <| ExtraFileSecretKeys ::= insert (api.for_Name ef) (NewDataObjectKeys (sec_StringData s) (sec_Data s)) |>) st.

Definition addConfigMapEnvRef (b ns : string) (st : St) (ee : api.EnvObjectRef) : API St :=
  addObject ConfigMapKind b (api.eor_Name ee) ns true
    (λ (cm : ConfigMap) ec, ec <| ExtraEnvConfigMapKeys ::= insert (api.eor_Name ee) (NewDataObjectKeys (cm_Data cm) (cm_BinaryData cm)) |>) st.

Definition addSecretEnvRef (b ns : string) (st : St) (ee : api.EnvObjectRef) : API St :=
  addObject SecretKind b (api.eor_Name ee) ns true
    (λ (s : Secret) ec, ec <| ExtraEnvSecretKeys ::= insert (api.eor_Name ee) (NewDataObjectKeys (sec_StringData s) (sec_Data s)) |>) st.

Definition addPvcRef (ns : string) (st : St) (ep : api.PvcRef) : API St :=
  pvc ← checkExternalObject PvcKind (api.pr_Name ep) ns;
  mret (st.1 <| ExtraPvcKeys ::= λ l, l ++ [Name (pvc_Meta pvc)] |>, st.2).

Definition addPluginsRef (b ns name : string) (st : St) : API St :=
  if bool_decide (name = "") then mret st
  else addObject ConfigMapKind b name ns true (λ (cm : ConfigMap) ec, ec <| ec_DynamicPlugins := cm |>) st.

(** The references of a custom resource *)
Definition appConfigRefs (s : api.BackstageSpec) : list api.FileObjectRef :=
  match api.specAppConfig s with Some ac => api.ac_ConfigMaps ac | None => [] end.
Definition extraFiles (f : api.ExtraFiles → list api.FileObjectRef) (s : api.BackstageSpec) : list api.FileObjectRef :=
  match api.specExtraFiles s with Some ef => f ef | None => [] end.
Definition extraEnvs (f : api.ExtraEnvs → list api.EnvObjectRef) (s : api.BackstageSpec) : list api.EnvObjectRef :=
  match api.specExtraEnvs s with Some ee => f ee | None => [] end.
Definition pvcRefs (s : api.BackstageSpec) : list api.PvcRef :=
  match api.specExtraFiles s with Some ef => api.ef_Pvcs ef | None => [] end.

Context `{sha : !Sha256}.

Definition preprocessSpec (platform : Platform) (backstage : api.Backstage) : API ExternalConfig :=
  let bsSpec := api.Spec backstage in
  let ns := api.bsNamespace backstage in
  let b := api.bsName backstage in
  result ← (if IsOpenshift platform then
              domain ← getOCPIngressDomain;
              mret (NewExternalConfig <| OpenShiftIngressDomain := domain |>)
            else mret NewExternalConfig);
  result ← match api.RawRuntimeConfig bsSpec with
           | None => mret result
           | Some raw =>
               result ← addRawConfig ns (api.BackstageConfigName raw) result;
               addRawConfig ns (api.LocalDbConfigName raw) result
           end;
  st ← foldA (addAppConfigRef b ns) (result, "") (appConfigRefs bsSpec);
  st ← foldA (addConfigMapFileRef b ns) st (extraFiles api.ef_ConfigMaps bsSpec);
  st ← foldA (addSecretFileRef b ns) st (extraFiles api.ef_Secrets bsSpec);
  st ← foldA (addConfigMapEnvRef b ns) st (extraEnvs api.ee_ConfigMaps bsSpec);
  st ← foldA (addSecretEnvRef b ns) st (extraEnvs api.ee_Secrets bsSpec);
  st ← foldA (addPvcRef ns) st (pvcRefs bsSpec);
  st ← addPluginsRef b ns (api.specDynamicPlugins bsSpec) st;
  mret (st.1 <| WatchingHash := sha256hex st.2 |>).

End reading.
End external.

(** ** What is requested *)

Section requested.
Context `{ks : !KubeScheme, os : !OS, mo_ : !MapOrder, srv : !APIServer, rp : !RetryPolicy}.

(** What [preprocessSpec] does at a time, after the requests [h]: it reads the
    ingress of the cluster, or an object of the namespace; or it reads a
    ConfigMap or a Secret, and writes back what this very read returned,
    changed in the two marks only and only if they are missing or stale. *)
Inductive preprocess_step (b ns : string) (h : list Request) : list Request → Prop :=
  | read_ingress : preprocess_step b ns h [Get IngressKind "" "cluster"]
  | read_object k name : k ∈ [ConfigMapKind; SecretKind; PvcKind] → preprocess_step b ns h [Get k ns name]
  | mark_configmap name (cm : ConfigMap) :
      respond h (Get ConfigMapKind ns name) = Ok cm → needsMark (cm_Meta cm) = true →
      preprocess_step b ns h [Get ConfigMapKind ns name; Update ConfigMapKind (cm <| cm_Meta ::= mark b |>)]
  | mark_secret name (s : Secret) :
      respond h (Get SecretKind ns name) = Ok s → needsMark (sec_Meta s) = true →
      preprocess_step b ns h [Get SecretKind ns name; Update SecretKind (s <| sec_Meta ::= mark b |>)].

(** The requests of a run: nothing but such steps, one after the other *)
Definition preprocess_trace (b ns : string) : list Request → list Request → Prop := pieces (preprocess_step b ns).

Lemma check_requests b ns k name : k ∈ [ConfigMapKind; SecretKind; PvcKind] →
  leaves (preprocess_trace b ns) (checkExternalObject k name ns).
Proof. intros H. apply leaves_mapErr, (leaves_call _ (Get k ns name)). intros h. by apply read_object. Qed.

Lemma mark_requests k `{!External k} b ns name :
  k ∈ [ConfigMapKind; SecretKind; PvcKind] →
  (∀ h obj, respond h (Get k ns name) = Ok obj → needsMark (ext_Meta obj) = true →
     preprocess_step b ns h [Get k ns name; Update k (ext_setMeta (mark b (ext_Meta obj)) obj)]) →
  leaves (preprocess_trace b ns) (markObject k b name ns).
Proof.
  intros Hk Hs h. unfold markObject, checkExternalObject, mapErr, mbind, API_bind. unfold call at 1.
  destruct (respond h (Get k ns name)) as [obj|e|w] eqn:E; cbv beta iota zeta;
    [|exists [Get k ns name]; (split; [done|]); by apply pieces_one, read_object..].
  destruct (needsMark (ext_Meta obj)) eqn:Em.
  - eexists. split; [|by apply pieces_one, Hs]. unfold call. cbn [snd]. by rewrite <- (assoc_L (++)).
  - exists [Get k ns name]. split; [done|]. by apply pieces_one, read_object.
Qed.

Lemma mark_requests_configmap b ns name : leaves (preprocess_trace b ns) (markObject ConfigMapKind b name ns).
Proof. apply mark_requests; [left|]. intros h cm. apply (mark_configmap b ns h name cm). Qed.

Lemma mark_requests_secret b ns name : leaves (preprocess_trace b ns) (markObject SecretKind b name ns).
Proof. apply mark_requests; [right; left|]. intros h s. apply (mark_secret b ns h name s). Qed.

Lemma retry_requests {A} P n (f : API A) : leaves (pieces P) f → leaves (pieces P) (RetryOnConflict n f).
Proof.
  intros Hf. induction n as [|n IH]; intros h; simpl; destruct (Hf h) as (l & Hl & Hp);
    destruct (f h) as [[a|e|w] h'] eqn:E; simpl in *; subst h'; try (by exists l); destruct (IsConflict e); try (by exists l).
  destruct (IH (h ++ l)) as (l' & Hl' & Hp'). exists (l ++ l'). rewrite Hl', (assoc_L (++)). split; [done|]. by apply pieces_app.
Qed.

Lemma addObject_requests k `{!External k} b name ns watch rec st :
  leaves (preprocess_trace b ns) (markObject k b name ns) → k ∈ [ConfigMapKind; SecretKind; PvcKind] →
  leaves (preprocess_trace b ns) (addObject k b name ns watch rec st).
Proof.
  intros Hm Hk. apply leaves_map. unfold addExtConfig. destruct watch; simpl.
  - by apply leaves_map, retry_requests.
  - by apply leaves_map, check_requests.
Qed.

Lemma addConfigMap_requests b name ns watch rec st :
  leaves (preprocess_trace b ns) (addObject ConfigMapKind b name ns watch rec st).
Proof. apply addObject_requests; [apply mark_requests_configmap|left]. Qed.

Lemma addSecret_requests b name ns watch rec st :
  leaves (preprocess_trace b ns) (addObject SecretKind b name ns watch rec st).
Proof. apply addObject_requests; [apply mark_requests_secret|right; left]. Qed.

Context `{nested : !NestedStrings, sha : !Sha256}.

Lemma preprocess_requests platform b :
  leaves (preprocess_trace (api.bsName b) (api.bsNamespace b)) (preprocessSpec platform b).
Proof.
  assert (∀ name ec, leaves (preprocess_trace (api.bsName b) (api.bsNamespace b)) (addRawConfig (api.bsNamespace b) name ec)) as Hraw.
  { intros name ec. unfold addRawConfig. case_bool_decide; [apply leaves_ret|].
    apply leaves_map, (check_requests _ _ ConfigMapKind). left. }
  unfold preprocessSpec. apply leaves_bind.
  { destruct (IsOpenshift platform); [|apply leaves_ret]. apply leaves_map.
    intros h. exists [Get IngressKind "" "cluster"]. unfold getOCPIngressDomain, call.
    destruct (respond _ _) as [u|e|w]; [destruct (NestedString u _)|destruct (_ || _)|];
      (split; [done|apply pieces_one, read_ingress]). }
  intros ec. apply leaves_bind.
  { destruct (api.RawRuntimeConfig _); [|apply leaves_ret]. by apply leaves_bind. }
  intros ec'. do 5 (apply leaves_bind; [apply leaves_foldA; intros; first [apply addConfigMap_requests|apply addSecret_requests]|intros ?]).
  apply leaves_bind.
  { apply leaves_foldA. intros st ep. apply leaves_map, (check_requests _ _ PvcKind). by do 2 right; left. }
  intros st. apply leaves_map. unfold addPluginsRef. case_bool_decide; [apply leaves_ret|apply addConfigMap_requests].
Qed.

(** None of them updates a status. *)
Lemma preprocess_trace_status b ns h l : preprocess_trace b ns h l → Forall (λ r, is_status r = false) l.
Proof. apply pieces_Forall. intros h' l' []; by repeat constructor. Qed.

End requested.
