(* ===== verification/Examples.v ===== *)
(** * A server to evaluate the reconciler on

    An API server that answers from fixed contents, for the instances of the
    theorems on the reconciler: it holds one custom resource, ConfigMaps by
    name and a Deployment, accepts every write, and fails where it is told
    to. *)

From S2P Require Import Prelude.
From S2P Require Import GoStrings.
From S2P Require Import K8s.
From S2P Require Import Api.
From S2P Require Import Externals.
From S2P Require Import MetaInfo.
From S2P Require Import BackstageDeployment.
From S2P Require Import ExternalConfig.
From S2P Require Import InitTheorems.
From S2P Require Import Client.
From S2P Require Import Preprocess.
From stdpp Require Import options.

#[local] Existing Instances MapOrder_asc example_init_scheme example_init_os.

Record Contents := mkContents {
  ct_Backstage : option api.Backstage;
  ct_ConfigMaps : gmap string ConfigMap;
  ct_Deployment : option Deployment;
  (** whether a write of an object of the workload fails *)
  ct_fails : KObject → option error
}.

Definition example_NotFound : error := StatusError ReasonNotFound "not found".

Definition found {A} (x : option A) : outcome A :=
  match x with Some a => Ok a | None => Err example_NotFound end.

Definition write (f : option error) {A} (a : A) : outcome A :=
  match f with Some e => Err e | None => Ok a end.

Definition example_server (c : Contents) : APIServer := {|
  respond _ r :=
    match r return outcome (Reply r) with
    | Get k _ n =>
        match k return outcome (Typed k) with
        | BackstageKind => found (ct_Backstage c)
        | ConfigMapKind => found (ct_ConfigMaps c !! n)
        | DeploymentKind => found (ct_Deployment c)
        | _ => Err example_NotFound
        end
    | Update _ o => Ok o
    | Create o => write (ct_fails c o) ()
    | Patch o => write (ct_fails c o) (objectType o)
    | PatchMonitor _ => Ok ()
    | PatchUnstructured _ => Ok ()
    | UpdateStatus _ => Ok ()
    end
|}.

Definition example_sha : Sha256 := {| sha256hex s := s |}.
Definition example_retries : RetryPolicy := {| retries := 4 |}.
Definition example_nested : NestedStrings := {| NestedString _ _ := Ok None |}.

(** A custom resource with one application configuration, and the ConfigMap it
    refers to, with the marks of the operator *)
Definition example_bs_config : api.Backstage :=
  api.mkBackstage (api.bs_Meta example_bs)
    (api.mkBackstageSpec (Some (api.mkApplication
        (Some (api.mkAppConfig "" [api.mkFileObjectRef "cfg" "" "" []])) "" None None None))
      None None (api.mkMonitoring false) None None) (api.Status example_bs).

Definition example_cfg : ConfigMap :=
  emptyConfigMap <| cm_Meta := mkObjectMeta "cfg" "ns" (Some {[ExtConfigSyncLabel := "true"]}) (Some {[BackstageNameAnnotation := "bs"]}) [] |>
    <| cm_Data := Some {["app-config.yaml" := "app:"]} |>.

Definition example_contents : Contents := mkContents (Some example_bs_config) {["cfg" := example_cfg]}
  (Some (example_deployment <| d_ReadyReplicas := 1%Z |>)) (λ _, None).

Definition example_ingress : Unstructured := ("" : string).
