(* ===== verification/PreprocessTheorems.v ===== *)
(** * What preprocessing promises

    The requests of [preprocessSpec], how many there can be, and its result
    when the server answers the same for an object each time and the objects
    carry the operator's marks already: the state of every reconciliation
    after the first. *)

From S2P Require Import Prelude.
From S2P Require Import GoStrings.
From S2P Require Import K8s.
From S2P Require Import Api.
From S2P Require Import Externals.
From S2P Require Import Utils.
From S2P Require Import ExternalConfig.
From S2P Require Import Runtime.
From S2P Require Import Client.
From S2P Require Import Preprocess.
From S2P Require Import InitTheorems.
From S2P Require Import Examples.
From stdpp Require Import options.

(** ** How many requests *)

Section cost.
Context `{ks : !KubeScheme}.

(** [m] issues at most [n] requests, whatever the answers *)
Definition costs {A} (n : nat) (m : API A) : Prop :=
  ∀ h, ∃ l, (m h).2 = h ++ l ∧ length l ≤ n.

Lemma costs_ret {A} n (a : A) : costs n (mret a : API A).
Proof. intros h. exists []. rewrite app_nil_r. simpl. split; [done|lia]. Qed.

Lemma costs_call `{srv : !APIServer} r : costs 1 (call r).
Proof. intros h. by exists [r]. Qed.

Lemma costs_mapErr {A} n f (m : API A) : costs n m → costs n (mapErr f m).
Proof. intros Hm h. destruct (Hm h) as (l & Hl & Hp). exists l. unfold mapErr. by destruct (m h) as [[]]. Qed.

Lemma costs_bind {A B} n k (m : API A) (f : A → API B) :
  costs n m → (∀ a, costs k (f a)) → costs (n + k) (m ≫= f).
Proof.
  intros Hm Hf h. destruct (Hm h) as (l & Hl & Hp). unfold mbind, API_bind.
  destruct (m h) as [[a|e|w] h']; simpl in *; subst h'; [|by exists l; split; [|lia]..].
  destruct (Hf a (h ++ l)) as (l' & Hl' & Hp'). exists (l ++ l').
  rewrite Hl', (assoc_L (++)). split; [done|]. rewrite length_app. lia.
Qed.

Lemma costs_le {A} n k (m : API A) : costs n m → n ≤ k → costs k m.
Proof. intros Hm Hk h. destruct (Hm h) as (l & Hl & Hp). exists l. split; [done|lia]. Qed.

Lemma costs_foldA {A B} n (f : A → B → API A) a l :
  (∀ a b, costs n (f a b)) → costs (length l * n) (foldA f a l).
Proof.
  intros Hf. revert a. induction l as [|b l IH]; intros a; simpl; [apply costs_ret|].
  by apply costs_bind.
Qed.

Lemma costs_retry {A} n k (f : API A) : costs n f → costs (S k * n) (RetryOnConflict k f).
Proof.
  intros Hf. induction k as [|k IH]; intros h; simpl; destruct (Hf h) as (l & Hl & Hp);
    destruct (f h) as [[a|e|w] h'] eqn:E; simpl in *; subst h';
    try (by exists l; split; [|lia]); destruct (IsConflict e); try (by exists l; split; [|lia]).
  destruct (IH (h ++ l)) as (l' & Hl' & Hp'). exists (l ++ l'). rewrite Hl', (assoc_L (++)).
  split; [done|]. rewrite length_app. lia.
Qed.

End cost.

Section bound.
Context `{ks : !KubeScheme, os_ : !OS, mo_ : !MapOrder, srv : !APIServer, rp : !RetryPolicy}.
Context `{nested : !NestedStrings, sha : !Sha256}.

(** The references that may be marked, each with the retries it takes *)
Definition markable (s : api.BackstageSpec) : nat :=
  length (appConfigRefs s) + length (extraFiles api.ef_ConfigMaps s) + length (extraFiles api.ef_Secrets s) +
  length (extraEnvs api.ee_ConfigMaps s) + length (extraEnvs api.ee_Secrets s) + 1.

Lemma addObject_costs k `{!External k} b name ns watch rec st :
  costs (S retries * 2) (addObject k b name ns watch rec st).
Proof.
  apply (costs_le (S retries * 2 + 0)); [|lia]. apply costs_bind; [|intros; apply costs_ret].
  unfold addExtConfig. destruct watch; simpl negb; cbn iota.
  - apply (costs_le (S retries * 2 + 0)); [|lia]. apply costs_bind; [|intros; apply costs_ret].
    apply costs_retry. apply (costs_bind 1 1); [by apply costs_mapErr, costs_call|].
    intros obj. cbv zeta. destruct (needsMark _); [apply (costs_call (Update k _))|apply costs_ret].
  - apply (costs_le (1 + 0)); [|lia]. apply costs_bind; [by apply costs_mapErr, costs_call|]. intros; apply costs_ret.
Qed.

Lemma addRawConfig_costs ns name ec : costs 1 (addRawConfig ns name ec).
Proof.
  unfold addRawConfig. case_bool_decide; [apply costs_ret|]. apply (costs_bind 1 0); [|intros; apply costs_ret].
  apply (costs_mapErr 1 _ (call (Get ConfigMapKind ns name))), costs_call.
Qed.

Lemma preprocess_costs platform b :
  costs (3 + markable (api.Spec b) * (S retries * 2) + length (pvcRefs (api.Spec b))) (preprocessSpec platform b).
Proof.
  set (s := api.Spec b). set (c := S retries * 2).
  apply (costs_le (1 + (2 + (length (appConfigRefs s) * c + (length (extraFiles api.ef_ConfigMaps s) * c +
    (length (extraFiles api.ef_Secrets s) * c + (length (extraEnvs api.ee_ConfigMaps s) * c +
    (length (extraEnvs api.ee_Secrets s) * c + (length (pvcRefs s) * 1 + (c + 0))))))))));
    [|unfold markable; lia].
  apply costs_bind.
  { destruct (IsOpenshift platform); [|apply costs_ret]. apply (costs_bind 1 0); [|intros; apply costs_ret].
    intros h. exists [Get IngressKind "" "cluster"]. unfold getOCPIngressDomain, call.
    destruct (respond _ _) as [u|e|w]; [destruct (NestedString u _)|destruct (_ || _)|]; (split; [done|simpl; lia]). }
  intros ec. apply costs_bind.
  { destruct (api.RawRuntimeConfig _); [|apply costs_ret]. apply (costs_bind 1 1); [|intros]; apply addRawConfig_costs. }
  intros ec'. do 5 (apply costs_bind; [apply costs_foldA; intros; apply addObject_costs|intros ?]).
  apply costs_bind.
  { apply costs_foldA. intros st ep. apply (costs_bind 1 0); [|intros; apply costs_ret].
    apply (costs_mapErr 1 _ (call (Get PvcKind _ _))), costs_call. }
  intros st. apply costs_bind; [|intros; apply costs_ret].
  unfold addPluginsRef. case_bool_decide; [apply costs_ret|apply addObject_costs].
Qed.

(** C13. Preprocessing is a sequence of steps of four kinds: it reads the
    ingress of the cluster; it reads an object of the namespace of the custom
    resource; or it reads a ConfigMap or a Secret whose marks are missing or
    stale, and the next request writes back what that read, not an earlier one,
    returned, changed in the label and the annotation only, so that also an
    attempt that is retried after a conflict writes a fresh copy.  And it
    always ends, after at most the retries of each watched reference. *)
Theorem preprocessSpec_requests platform b h :
  ∃ l, (preprocessSpec platform b h).2 = h ++ l ∧
    preprocess_trace (api.bsName b) (api.bsNamespace b) h l ∧
    length l ≤ 3 + markable (api.Spec b) * (S retries * 2) + length (pvcRefs (api.Spec b)).
Proof.
  destruct (preprocess_requests platform b h) as (l & Hl & Hp).
  destruct (preprocess_costs platform b h) as (l' & Hl' & Hlen). rewrite Hl in Hl'. apply app_inv_head in Hl' as <-.
  by exists l.
Qed.

End bound.

(** ** The result for a settled server *)

Section settled.
Context `{ks : !KubeScheme, os_ : !OS, mo_ : !MapOrder, srv : !APIServer, rp : !RetryPolicy}.
Context `{nested : !NestedStrings, sha : !Sha256}.

(** Nobody writes after a history: it is extended by reads only *)
Context (h0 : list Request).
Definition quiet (h : list Request) : Prop := ∃ l, h = h0 ++ l ∧ Forall (λ r, is_write r = false) l.

Lemma quiet_app h l : quiet h → Forall (λ r, is_write r = false) l → quiet (h ++ l).
Proof.
  intros (k & -> & Hk) Hl. exists (k ++ l). rewrite (assoc_L (++)). split; [done|]. by apply Forall_app.
Qed.

(** What the server answers for each name of a namespace, and for the ingress
    of the cluster *)
Context (b ns : string) (cms : string → ConfigMap) (secs : string → Secret) (pvcs : string → PersistentVolumeClaim)
  (ingress : Unstructured).

Definition settled_configmap (name : string) : Prop :=
  ∀ h, quiet h → respond h (Get ConfigMapKind ns name) = Ok (cms name).
Definition settled_secret (name : string) : Prop :=
  ∀ h, quiet h → respond h (Get SecretKind ns name) = Ok (secs name).

(** What a step does when it neither fails nor writes *)
Definition settles {A} (m : API A) (a : A) (l : list Request) : Prop :=
  Forall (λ r, is_write r = false) l ∧ ∀ h, quiet h → m h = (Ok a, h ++ l).

Lemma settles_ret {A} (a : A) : settles (mret a) a [].
Proof. split; [done|]. intros h _. by rewrite app_nil_r. Qed.

Lemma settles_bind {A B} (m : API A) (f : A → API B) a l c l' :
  settles m a l → settles (f a) c l' → settles (m ≫= f) c (l ++ l').
Proof.
  intros [Hl Hm] [Hl' Hf]. split; [by apply Forall_app|]. intros h Hh. unfold mbind, API_bind.
  rewrite Hm, Hf by auto using quiet_app. by rewrite (assoc_L (++)).
Qed.

Lemma settles_map {A B} (m : API A) (f : A → B) a l : settles m a l → settles (m ≫= λ x, mret (f x)) (f a) l.
Proof. intros [Hl Hm]. split; [done|]. intros h Hh. unfold mbind, API_bind. by rewrite Hm. Qed.

Lemma settles_foldA {A B} (f : A → B → API A) (g : A → B → A) (r : B → list Request) a l :
  (∀ a b, b ∈ l → settles (f a b) (g a b) (r b)) → settles (foldA f a l) (foldl g a l) (l ≫= r).
Proof.
  revert a. induction l as [|x l IH]; intros a Hf; simpl; [apply settles_ret|].
  eapply settles_bind; [apply Hf; by left|]. apply IH. intros y z Hz. apply Hf. by right.
Qed.

Lemma settles_check k name (obj : Typed k) :
  (∀ h, quiet h → respond h (Get k ns name) = Ok obj) → settles (checkExternalObject k name ns) obj [Get k ns name].
Proof. intros H. split; [by constructor|]. intros h Hh. unfold checkExternalObject, mapErr, call. by rewrite H. Qed.

Lemma settles_retry {A} n (m : API A) a l : settles m a l → settles (RetryOnConflict n m) a l.
Proof. intros [Hl H]. split; [done|]. intros h Hh. destruct n; simpl; by rewrite H. Qed.

(** Marks that need not be written are there. *)
Lemma needsMark_present m : needsMark m = false →
  m <| Labels ::= λ l, Some (map_make l) |> <| Annotations ::= λ a, Some (map_make a) |> = m.
Proof.
  unfold needsMark. rewrite !orb_false_iff, !bool_decide_eq_false. intros [[Hl Ha] _].
  destruct m as [n s l a o]; simpl in *. destruct l; [|done]. by destruct a.
Qed.

Lemma settles_addObject k `{!External k} name (watch : bool) rec (obj : Typed k) st :
  (∀ o, ext_setMeta (ext_Meta o) o = o) →
  (watch = true → needsMark (ext_Meta obj) = false) → (∀ h, quiet h → respond h (Get k ns name) = Ok obj) →
  settles (addObject k b name ns watch rec st)
    (rec obj st.1, if watch then concatData st.2 obj else st.2) [Get k ns name].
Proof.
  intros Hset Hm Hr.
  apply (settles_map _ (λ r, (rec r.1 st.1, r.2)) (obj, if watch then concatData st.2 obj else st.2)).
  unfold addExtConfig. destruct watch; simpl negb; cbn iota.
  - apply (settles_map _ (λ o, (o, concatData st.2 o))), settles_retry.
    apply (settles_bind _ _ obj [_] obj []); [by apply settles_check|].
    cbv zeta. rewrite Hm, needsMark_present, Hset by auto. apply settles_ret.
  - by apply (settles_map _ (λ o, (o, st.2))), settles_check.
Qed.

Lemma settles_addConfigMap name (watch : bool) rec st :
  settled_configmap name → (watch = true → needsMark (cm_Meta (cms name)) = false) →
  settles (addObject ConfigMapKind b name ns watch rec st)
    (rec (cms name) st.1, if watch then concatData (k := ConfigMapKind) st.2 (cms name) else st.2) [Get ConfigMapKind ns name].
Proof. intros ??. apply settles_addObject; [by intros []|done..]. Qed.

Lemma settles_addSecret name (watch : bool) rec st :
  settled_secret name → (watch = true → needsMark (sec_Meta (secs name)) = false) →
  settles (addObject SecretKind b name ns watch rec st)
    (rec (secs name) st.1, if watch then concatData (k := SecretKind) st.2 (secs name) else st.2) [Get SecretKind ns name].
Proof. intros ??. apply settles_addObject; [by intros []|done..]. Qed.

(** *** The hash *)

(** The content of the objects that are watched, in the order of the spec *)
Definition contentOf (cm : ConfigMap) : list (gomap string * gomap string) := [(cm_Data cm, cm_BinaryData cm)].
Definition secretContentOf (s : Secret) : list (gomap string * gomap string) := [(sec_StringData s, sec_Data s)].

Definition watched (s : api.BackstageSpec) : list (gomap string * gomap string) :=
  (appConfigRefs s ≫= λ r, if addToWatch r then contentOf (cms (api.for_Name r)) else []) ++
  (extraFiles api.ef_ConfigMaps s ≫= λ r, if addToWatch r then contentOf (cms (api.for_Name r)) else []) ++
  (extraFiles api.ef_Secrets s ≫= λ r, if addToWatch r then secretContentOf (secs (api.for_Name r)) else []) ++
  (extraEnvs api.ee_ConfigMaps s ≫= λ r, contentOf (cms (api.eor_Name r))) ++
  (extraEnvs api.ee_Secrets s ≫= λ r, secretContentOf (secs (api.eor_Name r))) ++
  (if bool_decide (api.specDynamicPlugins s = "") then [] else contentOf (cms (api.specDynamicPlugins s))).

Definition hashed (acc : string) (contents : list (gomap string * gomap string)) : string :=
  foldl (λ acc c, appendData (appendData acc c.1) c.2) acc contents.

Lemma hashed_app acc l l' : hashed acc (l ++ l') = hashed (hashed acc l) l'.
Proof. apply foldl_app. Qed.

(** What a loop over references leaves of the hashed text *)
Lemma foldl_hashed {B} (g : St → B → St) (c : B → list (gomap string * gomap string)) st l :
  (∀ st x, x ∈ l → (g st x).2 = hashed st.2 (c x)) → (foldl g st l).2 = hashed st.2 (l ≫= c).
Proof.
  revert st. induction l as [|x l IH]; intros st Hg; simpl; [done|].
  rewrite IH by (intros; apply Hg; by right). by rewrite (Hg st x), hashed_app by left.
Qed.

(** *** The records *)

(** A loop that records one entry per reference: the entry of a name does not
    depend on the order or on repetitions. *)
Lemma foldl_recorded {B V} (π : St → gmap string V) (g : St → B → St) (name : B → string) (v : string → V) st l :
  (∀ st x, x ∈ l → π (g st x) = <[name x := v (name x)]> (π st)) →
  ∀ n, π (foldl g st l) !! n = if bool_decide (n ∈ name <$> l) then Some (v n) else π st !! n.
Proof.
  revert st. induction l as [|x l IH]; intros st Hg n; simpl; [done|].
  rewrite IH by (intros; apply Hg; by right). rewrite (Hg st x) by left.
  case_bool_decide as H1.
  - rewrite bool_decide_eq_true_2; [done|]. by right.
  - destruct (decide (n = name x)) as [->|Hn].
    + rewrite lookup_insert_eq, bool_decide_eq_true_2; [done|left].
    + rewrite lookup_insert_ne by done. rewrite bool_decide_eq_false_2; [done|].
      cbn [fmap list_fmap]. rewrite elem_of_cons. by intros [?|?].
Qed.

Lemma foldl_unchanged {B T} (π : St → T) (g : St → B → St) st l :
  (∀ st x, π (g st x) = π st) → π (foldl g st l) = π st.
Proof. intros Hg. revert st. induction l as [|x l IH]; intros st; simpl; [done|]. by rewrite IH. Qed.

(** *** The result *)

(** What each loop does to the state *)
Definition stepAppConfig (st : St) (r : api.FileObjectRef) : St :=
  (st.1 <| AppConfigKeys ::= insert (api.for_Name r) (SortedKeys (cm_Data (cms (api.for_Name r)))) |>,
   hashed st.2 (if addToWatch r then contentOf (cms (api.for_Name r)) else [])).
Definition stepConfigMapFile (st : St) (r : api.FileObjectRef) : St :=
  (st.1 <| ExtraFileConfigMapKeys ::= insert (api.for_Name r) (NewDataObjectKeys (cm_Data (cms (api.for_Name r))) (cm_BinaryData (cms (api.for_Name r)))) |>,
   hashed st.2 (if addToWatch r then contentOf (cms (api.for_Name r)) else [])).
Definition stepSecretFile (st : St) (r : api.FileObjectRef) : St :=
  (st.1 <| ExtraFileSecretKeys ::= insert (api.for_Name r) (NewDataObjectKeys (sec_StringData (secs (api.for_Name r))) (sec_Data (secs (api.for_Name r)))) |>,
   hashed st.2 (if addToWatch r then secretContentOf (secs (api.for_Name r)) else [])).
Definition stepConfigMapEnv (st : St) (r : api.EnvObjectRef) : St :=
  (st.1 <| ExtraEnvConfigMapKeys ::= insert (api.eor_Name r) (NewDataObjectKeys (cm_Data (cms (api.eor_Name r))) (cm_BinaryData (cms (api.eor_Name r)))) |>,
   hashed st.2 (contentOf (cms (api.eor_Name r)))).
Definition stepSecretEnv (st : St) (r : api.EnvObjectRef) : St :=
  (st.1 <| ExtraEnvSecretKeys ::= insert (api.eor_Name r) (NewDataObjectKeys (sec_StringData (secs (api.eor_Name r))) (sec_Data (secs (api.eor_Name r)))) |>,
   hashed st.2 (secretContentOf (secs (api.eor_Name r)))).
Definition stepPvc (st : St) (r : api.PvcRef) : St :=
  (st.1 <| ExtraPvcKeys ::= λ l, l ++ [Name (pvc_Meta (pvcs (api.pr_Name r)))] |>, st.2).
Definition stepPlugins (s : api.BackstageSpec) (st : St) : St :=
  if bool_decide (api.specDynamicPlugins s = "") then st
  else (st.1 <| ec_DynamicPlugins := cms (api.specDynamicPlugins s) |>,
        hashed st.2 (contentOf (cms (api.specDynamicPlugins s)))).

Definition collected (s : api.BackstageSpec) (ec : ExternalConfig) : St :=
  stepPlugins s
    (foldl stepPvc
      (foldl stepSecretEnv
        (foldl stepConfigMapEnv
          (foldl stepSecretFile
            (foldl stepConfigMapFile (foldl stepAppConfig (ec, "") (appConfigRefs s)) (extraFiles api.ef_ConfigMaps s))
            (extraFiles api.ef_Secrets s))
          (extraEnvs api.ee_ConfigMaps s))
        (extraEnvs api.ee_Secrets s))
      (pvcRefs s)).

(** The raw configuration: the entries for the database take precedence *)
Definition rawEntries (name : string) : gmap string string :=
  if bool_decide (name = "") then ∅ else map_make (cm_Data (cms name)).
Definition rawConfig (s : api.BackstageSpec) : gmap string string :=
  match api.RawRuntimeConfig s with
  | None => ∅
  | Some raw => rawEntries (api.LocalDbConfigName raw) ∪ rawEntries (api.BackstageConfigName raw)
  end.

(** What the custom resource refers to is there. *)
Definition rawNames (s : api.BackstageSpec) : list string :=
  match api.RawRuntimeConfig s with
  | None => []
  | Some raw => filter (λ n, n ≠ "") [api.BackstageConfigName raw; api.LocalDbConfigName raw]
  end.
Definition configMapNames (s : api.BackstageSpec) : list string :=
  rawNames s ++ (api.for_Name <$> appConfigRefs s) ++ (api.for_Name <$> extraFiles api.ef_ConfigMaps s) ++
  (api.eor_Name <$> extraEnvs api.ee_ConfigMaps s) ++ filter (λ n, n ≠ "") [api.specDynamicPlugins s].
Definition secretNames (s : api.BackstageSpec) : list string :=
  (api.for_Name <$> extraFiles api.ef_Secrets s) ++ (api.eor_Name <$> extraEnvs api.ee_Secrets s).

(** Those of them that are watched *)
Definition watchedRefs (l : list api.FileObjectRef) : list string :=
  api.for_Name <$> filter (λ r, addToWatch r = true) l.
Definition watchedConfigMaps (s : api.BackstageSpec) : list string :=
  watchedRefs (appConfigRefs s) ++ watchedRefs (extraFiles api.ef_ConfigMaps s) ++
  (api.eor_Name <$> extraEnvs api.ee_ConfigMaps s) ++ filter (λ n, n ≠ "") [api.specDynamicPlugins s].
Definition watchedSecrets (s : api.BackstageSpec) : list string :=
  watchedRefs (extraFiles api.ef_Secrets s) ++ (api.eor_Name <$> extraEnvs api.ee_Secrets s).

Record settled_spec (platform : Platform) (s : api.BackstageSpec) : Prop := {
  settled_cms : ∀ n, n ∈ configMapNames s → settled_configmap n;
  settled_secs : ∀ n, n ∈ secretNames s → settled_secret n;
  settled_pvcs : ∀ n h, n ∈ api.pr_Name <$> pvcRefs s → quiet h → respond h (Get PvcKind ns n) = Ok (pvcs n);
  settled_ingress : IsOpenshift platform = true →
    is_Ok (NestedString ingress ["spec"; "domain"]) = true ∧ ∀ h, quiet h → respond h (Get IngressKind "" "cluster") = Ok ingress;
  marked_cms : ∀ n, n ∈ watchedConfigMaps s → needsMark (cm_Meta (cms n)) = false;
  marked_secs : ∀ n, n ∈ watchedSecrets s → needsMark (sec_Meta (secs n)) = false
}.

Definition ingressDomain : string :=
  match NestedString ingress ["spec"; "domain"] with Ok d => default "" d | _ => "" end.

Lemma elem_of_watchedRefs r l : r ∈ l → addToWatch r = true → api.for_Name r ∈ watchedRefs l.
Proof. intros Hr Hw. apply list_elem_of_fmap_2, list_elem_of_filter. done. Qed.

Lemma settles_addRawConfig name ec : (name ≠ "" → settled_configmap name) →
  settles (addRawConfig ns name ec) (ec <| RawConfig ::= λ raw, rawEntries name ∪ raw |>)
    (if bool_decide (name = "") then [] else [Get ConfigMapKind ns name]).
Proof.
  intros H. unfold addRawConfig, rawEntries. case_bool_decide as Hn.
  - replace (ec <| RawConfig ::= _ |>) with ec; [apply settles_ret|].
    destruct ec; simpl. by rewrite (left_id_L ∅ (∪)).
  - replace (ec <| RawConfig ::= λ raw, map_make (cm_Data (cms name)) ∪ raw |>)
      with (ec <| RawConfig ::= λ raw, foldl (λ raw '(k, v), <[k := v]> raw) raw (range (map_make (cm_Data (cms name)))) |>)
      by (simpl; by rewrite range_insert_union).
    exact (settles_map _ _ _ _ (settles_check ConfigMapKind name (cms name) (H Hn))).
Qed.

(** Every step settles. *)
Lemma settles_appConfig st r : settled_configmap (api.for_Name r) →
  (addToWatch r = true → needsMark (cm_Meta (cms (api.for_Name r))) = false) →
  settles (addAppConfigRef b ns st r) (stepAppConfig st r) [Get ConfigMapKind ns (api.for_Name r)].
Proof.
  intros Hs Hm. pose proof (settles_addConfigMap _ (addToWatch r) (λ cm ec, ec <| AppConfigKeys ::= insert (api.for_Name r) (SortedKeys (cm_Data cm)) |>) st Hs Hm).
  unfold stepAppConfig, addAppConfigRef. by destruct (addToWatch r).
Qed.

Lemma settles_configMapFile st r : settled_configmap (api.for_Name r) →
  (addToWatch r = true → needsMark (cm_Meta (cms (api.for_Name r))) = false) →
  settles (addConfigMapFileRef b ns st r) (stepConfigMapFile st r) [Get ConfigMapKind ns (api.for_Name r)].
Proof.
  intros Hs Hm. pose proof (settles_addConfigMap _ (addToWatch r) (λ cm ec, ec <| ExtraFileConfigMapKeys ::= insert (api.for_Name r) (NewDataObjectKeys (cm_Data cm) (cm_BinaryData cm)) |>) st Hs Hm).
  unfold stepConfigMapFile, addConfigMapFileRef. by destruct (addToWatch r).
Qed.

Lemma settles_secretFile st r : settled_secret (api.for_Name r) →
  (addToWatch r = true → needsMark (sec_Meta (secs (api.for_Name r))) = false) →
  settles (addSecretFileRef b ns st r) (stepSecretFile st r) [Get SecretKind ns (api.for_Name r)].
Proof.
  intros Hs Hm. pose proof (settles_addSecret _ (addToWatch r) (λ s ec, ec <| ExtraFileSecretKeys ::= insert (api.for_Name r) (NewDataObjectKeys (sec_StringData s) (sec_Data s)) |>) st Hs Hm).
  unfold stepSecretFile, addSecretFileRef. by destruct (addToWatch r).
Qed.

Lemma settles_configMapEnv st r : settled_configmap (api.eor_Name r) →
  needsMark (cm_Meta (cms (api.eor_Name r))) = false →
  settles (addConfigMapEnvRef b ns st r) (stepConfigMapEnv st r) [Get ConfigMapKind ns (api.eor_Name r)].
Proof. intros Hs Hm. exact (settles_addConfigMap _ true _ st Hs (λ _, Hm)). Qed.

Lemma settles_secretEnv st r : settled_secret (api.eor_Name r) →
  needsMark (sec_Meta (secs (api.eor_Name r))) = false →
  settles (addSecretEnvRef b ns st r) (stepSecretEnv st r) [Get SecretKind ns (api.eor_Name r)].
Proof. intros Hs Hm. exact (settles_addSecret _ true _ st Hs (λ _, Hm)). Qed.

Lemma settles_pvc st r : (∀ h, quiet h → respond h (Get PvcKind ns (api.pr_Name r)) = Ok (pvcs (api.pr_Name r))) →
  settles (addPvcRef ns st r) (stepPvc st r) [Get PvcKind ns (api.pr_Name r)].
Proof. intros H. exact (settles_map _ _ _ _ (settles_check PvcKind _ (pvcs (api.pr_Name r)) H)). Qed.

Lemma settles_plugins s st :
  (api.specDynamicPlugins s ≠ "" → settled_configmap (api.specDynamicPlugins s) ∧
     needsMark (cm_Meta (cms (api.specDynamicPlugins s))) = false) →
  settles (addPluginsRef b ns (api.specDynamicPlugins s) st) (stepPlugins s st)
    (if bool_decide (api.specDynamicPlugins s = "") then [] else [Get ConfigMapKind ns (api.specDynamicPlugins s)]).
Proof.
  intros H. unfold addPluginsRef, stepPlugins. case_bool_decide as Hn; [apply settles_ret|].
  destruct (H Hn) as [Hs Hm]. exact (settles_addConfigMap _ true _ st Hs (λ _, Hm)).
Qed.

Lemma settles_raw s ec : (∀ n, n ∈ rawNames s → settled_configmap n) →
  settles (match api.RawRuntimeConfig s with
           | None => mret ec
           | Some raw => ec ← addRawConfig ns (api.BackstageConfigName raw) ec; addRawConfig ns (api.LocalDbConfigName raw) ec
           end)
    (ec <| RawConfig ::= λ raw, rawConfig s ∪ raw |>) ((λ n, Get ConfigMapKind ns n) <$> rawNames s).
Proof.
  unfold rawNames, rawConfig. intros H. destruct (api.RawRuntimeConfig s) as [raw|].
  - replace (ec <| RawConfig ::= _ |>) with
      ((ec <| RawConfig ::= λ r, rawEntries (api.BackstageConfigName raw) ∪ r |>)
           <| RawConfig ::= λ r, rawEntries (api.LocalDbConfigName raw) ∪ r |>)
      by (simpl; by rewrite (assoc_L (∪))).
    replace ((λ n, Get ConfigMapKind ns n) <$> _) with
      ((if bool_decide (api.BackstageConfigName raw = "") then [] else [Get ConfigMapKind ns (api.BackstageConfigName raw)]) ++
       (if bool_decide (api.LocalDbConfigName raw = "") then [] else [Get ConfigMapKind ns (api.LocalDbConfigName raw)]))
      by (rewrite !filter_cons, filter_nil; repeat case_bool_decide; repeat case_decide; done).
    eapply settles_bind; apply settles_addRawConfig; intros Hn; apply H.
    + apply list_elem_of_filter. split; [done|by left].
    + apply list_elem_of_filter. split; [done|right; by left].
  - replace (ec <| RawConfig ::= _ |>) with ec; [apply settles_ret|].
    destruct ec; simpl. by rewrite (left_id_L ∅ (∪)).
Qed.

Lemma settles_domain platform :
  (IsOpenshift platform = true → is_Ok (NestedString ingress ["spec"; "domain"]) = true ∧
     ∀ h, quiet h → respond h (Get IngressKind "" "cluster") = Ok ingress) →
  settles (if IsOpenshift platform then
             domain ← getOCPIngressDomain; mret (NewExternalConfig <| OpenShiftIngressDomain := domain |>)
           else mret NewExternalConfig)
    (NewExternalConfig <| OpenShiftIngressDomain := if IsOpenshift platform then ingressDomain else "" |>)
    (if IsOpenshift platform then [Get IngressKind "" "cluster"] else []).
Proof.
  intros H. destruct (IsOpenshift platform); [|apply settles_ret]. destruct H as [Hd Hr]; [done|].
  apply (settles_map _ (λ domain, NewExternalConfig <| OpenShiftIngressDomain := domain |>)).
  split; [by constructor|]. intros h Hh. unfold getOCPIngressDomain, call, ingressDomain in *. rewrite Hr by done.
  by destruct (NestedString _ _).
Qed.

(** The reads of each loop *)
Definition readsOf {B} (k : ReadKind) (name : B → string) (l : list B) : list Request :=
  l ≫= λ r, [Get k ns (name r)].

Definition reads (platform : Platform) (s : api.BackstageSpec) : list Request :=
  (if IsOpenshift platform then [Get IngressKind "" "cluster"] else []) ++
  ((λ n, Get ConfigMapKind ns n) <$> rawNames s) ++
  readsOf ConfigMapKind api.for_Name (appConfigRefs s) ++
  readsOf ConfigMapKind api.for_Name (extraFiles api.ef_ConfigMaps s) ++
  readsOf SecretKind api.for_Name (extraFiles api.ef_Secrets s) ++
  readsOf ConfigMapKind api.eor_Name (extraEnvs api.ee_ConfigMaps s) ++
  readsOf SecretKind api.eor_Name (extraEnvs api.ee_Secrets s) ++
  readsOf PvcKind api.pr_Name (pvcRefs s) ++
  (if bool_decide (api.specDynamicPlugins s = "") then [] else [Get ConfigMapKind ns (api.specDynamicPlugins s)]).

(** Membership in a list of names *)
#[local] Ltac named := unfold configMapNames, secretNames, watchedConfigMaps, watchedSecrets; rewrite ?elem_of_app;
  repeat first [by apply list_elem_of_fmap_2|by apply elem_of_watchedRefs|left; by apply list_elem_of_fmap_2|left; by apply elem_of_watchedRefs|right].

Lemma settles_preprocess platform bs : api.bsName bs = b → api.bsNamespace bs = ns →
  settled_spec platform (api.Spec bs) →
  let ec := NewExternalConfig <| OpenShiftIngressDomain := if IsOpenshift platform then ingressDomain else "" |> in
  let st := collected (api.Spec bs) (ec <| RawConfig ::= λ raw, rawConfig (api.Spec bs) ∪ raw |>) in
  settles (preprocessSpec platform bs) (st.1 <| WatchingHash := sha256hex st.2 |>) (reads platform (api.Spec bs)).
Proof.
  intros Hb Hns [Hcm Hsec Hpvc Hi Hmcm Hmsec] ec st. unfold preprocessSpec. rewrite Hb, Hns.
  eapply settles_bind; [by apply settles_domain|]. fold ec.
  eapply settles_bind; [apply settles_raw; intros n Hn; apply Hcm, elem_of_app; by left|].
  eapply settles_bind; [apply settles_foldA; intros; apply settles_appConfig; [apply Hcm; named|intros; apply Hmcm; named]|].
  eapply settles_bind; [apply settles_foldA; intros; apply settles_configMapFile; [apply Hcm; named|intros; apply Hmcm; named]|].
  eapply settles_bind; [apply settles_foldA; intros; apply settles_secretFile; [apply Hsec; named|intros; apply Hmsec; named]|].
  eapply settles_bind; [apply settles_foldA; intros; apply settles_configMapEnv; [apply Hcm; named|intros; apply Hmcm; named]|].
  eapply settles_bind; [apply settles_foldA; intros; apply settles_secretEnv; [apply Hsec; named|intros; apply Hmsec; named]|].
  eapply settles_bind; [apply settles_foldA; intros; apply settles_pvc; intros; apply Hpvc; [named|done]|].
  rewrite <- (app_nil_r (if bool_decide (api.specDynamicPlugins _ = "") then _ else _)).
  eapply settles_bind; [apply settles_plugins; intros Hn; split; [apply Hcm|apply Hmcm]|apply settles_ret];
    unfold configMapNames, watchedConfigMaps; rewrite !elem_of_app, list_elem_of_filter; do 3 right;
    first [split; [done|by left]|right; split; [done|by left]].
Qed.

(** The fields of what is collected *)
Lemma collected_hash s ec : (collected s ec).2 = hashed "" (watched s).
Proof.
  unfold collected, watched. rewrite !hashed_app.
  unfold stepPlugins at 1. case_bool_decide; simpl;
    rewrite (foldl_unchanged snd) by done;
    rewrite (foldl_hashed stepSecretEnv (λ r, secretContentOf (secs (api.eor_Name r)))) by done;
    rewrite (foldl_hashed stepConfigMapEnv (λ r, contentOf (cms (api.eor_Name r)))) by done;
    rewrite (foldl_hashed stepSecretFile (λ r, if addToWatch r then secretContentOf (secs (api.for_Name r)) else [])) by done;
    rewrite (foldl_hashed stepConfigMapFile (λ r, if addToWatch r then contentOf (cms (api.for_Name r)) else [])) by done;
    by rewrite (foldl_hashed stepAppConfig (λ r, if addToWatch r then contentOf (cms (api.for_Name r)) else [])).
Qed.

Lemma stepPlugins_other {T} (π : ExternalConfig → T) s st :
  (∀ ec cm, π (ec <| ec_DynamicPlugins := cm |>) = π ec) → π (stepPlugins s st).1 = π st.1.
Proof. intros H. unfold stepPlugins. case_bool_decide; [done|apply H]. Qed.

(** A field that every other step leaves alone *)
Ltac collected_field π :=
  unfold collected; rewrite ?(stepPlugins_other π) by done;
  rewrite ?(foldl_unchanged (λ acc : St, π acc.1)) by done.

Lemma collected_AppConfigKeys s ec n : (collected s ec).1.(AppConfigKeys) !! n =
  if bool_decide (n ∈ api.for_Name <$> appConfigRefs s) then Some (SortedKeys (cm_Data (cms n))) else AppConfigKeys ec !! n.
Proof.
  collected_field AppConfigKeys.
  by rewrite (foldl_recorded (λ st : St, AppConfigKeys st.1) _ _ (λ n, SortedKeys (cm_Data (cms n)))) by done.
Qed.

Lemma collected_ExtraFileConfigMapKeys s ec n : (collected s ec).1.(ExtraFileConfigMapKeys) !! n =
  if bool_decide (n ∈ api.for_Name <$> extraFiles api.ef_ConfigMaps s)
  then Some (NewDataObjectKeys (cm_Data (cms n)) (cm_BinaryData (cms n))) else ExtraFileConfigMapKeys ec !! n.
Proof.
  collected_field ExtraFileConfigMapKeys.
  rewrite (foldl_recorded (λ st : St, ExtraFileConfigMapKeys st.1) _ api.for_Name (λ n, NewDataObjectKeys (cm_Data (cms n)) (cm_BinaryData (cms n)))) by done.
  by collected_field ExtraFileConfigMapKeys.
Qed.

Lemma collected_ExtraFileSecretKeys s ec n : (collected s ec).1.(ExtraFileSecretKeys) !! n =
  if bool_decide (n ∈ api.for_Name <$> extraFiles api.ef_Secrets s)
  then Some (NewDataObjectKeys (sec_StringData (secs n)) (sec_Data (secs n))) else ExtraFileSecretKeys ec !! n.
Proof.
  collected_field ExtraFileSecretKeys.
  rewrite (foldl_recorded (λ st : St, ExtraFileSecretKeys st.1) _ api.for_Name (λ n, NewDataObjectKeys (sec_StringData (secs n)) (sec_Data (secs n)))) by done.
  by collected_field ExtraFileSecretKeys.
Qed.

Lemma collected_ExtraEnvConfigMapKeys s ec n : (collected s ec).1.(ExtraEnvConfigMapKeys) !! n =
  if bool_decide (n ∈ api.eor_Name <$> extraEnvs api.ee_ConfigMaps s)
  then Some (NewDataObjectKeys (cm_Data (cms n)) (cm_BinaryData (cms n))) else ExtraEnvConfigMapKeys ec !! n.
Proof.
  collected_field ExtraEnvConfigMapKeys.
  rewrite (foldl_recorded (λ st : St, ExtraEnvConfigMapKeys st.1) _ api.eor_Name (λ n, NewDataObjectKeys (cm_Data (cms n)) (cm_BinaryData (cms n)))) by done.
  by collected_field ExtraEnvConfigMapKeys.
Qed.

Lemma collected_ExtraEnvSecretKeys s ec n : (collected s ec).1.(ExtraEnvSecretKeys) !! n =
  if bool_decide (n ∈ api.eor_Name <$> extraEnvs api.ee_Secrets s)
  then Some (NewDataObjectKeys (sec_StringData (secs n)) (sec_Data (secs n))) else ExtraEnvSecretKeys ec !! n.
Proof.
  collected_field ExtraEnvSecretKeys.
  rewrite (foldl_recorded (λ st : St, ExtraEnvSecretKeys st.1) _ api.eor_Name (λ n, NewDataObjectKeys (sec_StringData (secs n)) (sec_Data (secs n)))) by done.
  by collected_field ExtraEnvSecretKeys.
Qed.

Lemma collected_ExtraPvcKeys s ec : (collected s ec).1.(ExtraPvcKeys) =
  ExtraPvcKeys ec ++ ((λ r, Name (pvc_Meta (pvcs (api.pr_Name r)))) <$> pvcRefs s).
Proof.
  assert (∀ l st, (foldl stepPvc st l).1.(ExtraPvcKeys) =
    ExtraPvcKeys st.1 ++ ((λ r, Name (pvc_Meta (pvcs (api.pr_Name r)))) <$> l)) as H.
  { induction l as [|r l IH]; intros st; [by rewrite app_nil_r|]. cbn [foldl]. rewrite IH. simpl.
    by rewrite <- (assoc_L (++)). }
  unfold collected. rewrite (stepPlugins_other ExtraPvcKeys), H by done.
  by collected_field ExtraPvcKeys.
Qed.

Lemma collected_RawConfig s ec : (collected s ec).1.(RawConfig) = RawConfig ec.
Proof. by collected_field RawConfig. Qed.

Lemma collected_domain s ec : (collected s ec).1.(OpenShiftIngressDomain) = OpenShiftIngressDomain ec.
Proof. by collected_field OpenShiftIngressDomain. Qed.

(** C12. As long as nobody else writes and the watched objects carry their
    marks, preprocessing succeeds and only reads.  The hash is the one of the
    contents of the watched objects alone, in the order of the spec, the
    recorded keys are those of the objects referred to and of no others, of the
    raw configuration the entries for the database take precedence, and the
    ingress domain is asked for on OpenShift only. *)
Theorem preprocessSpec_settled platform bs h : api.bsName bs = b → api.bsNamespace bs = ns →
  settled_spec platform (api.Spec bs) → quiet h →
  ∃ ec, preprocessSpec platform bs h = (Ok ec, h ++ reads platform (api.Spec bs)) ∧
    OpenShiftIngressDomain ec = (if IsOpenshift platform then ingressDomain else "") ∧
    WatchingHash ec = sha256hex (hashed "" (watched (api.Spec bs))) ∧
    RawConfig ec = rawConfig (api.Spec bs) ∧
    (∀ n, AppConfigKeys ec !! n = if bool_decide (n ∈ api.for_Name <$> appConfigRefs (api.Spec bs))
       then Some (SortedKeys (cm_Data (cms n))) else None) ∧
    (∀ n, ExtraFileConfigMapKeys ec !! n = if bool_decide (n ∈ api.for_Name <$> extraFiles api.ef_ConfigMaps (api.Spec bs))
       then Some (NewDataObjectKeys (cm_Data (cms n)) (cm_BinaryData (cms n))) else None) ∧
    (∀ n, ExtraFileSecretKeys ec !! n = if bool_decide (n ∈ api.for_Name <$> extraFiles api.ef_Secrets (api.Spec bs))
       then Some (NewDataObjectKeys (sec_StringData (secs n)) (sec_Data (secs n))) else None) ∧
    (∀ n, ExtraEnvConfigMapKeys ec !! n = if bool_decide (n ∈ api.eor_Name <$> extraEnvs api.ee_ConfigMaps (api.Spec bs))
       then Some (NewDataObjectKeys (cm_Data (cms n)) (cm_BinaryData (cms n))) else None) ∧
    (∀ n, ExtraEnvSecretKeys ec !! n = if bool_decide (n ∈ api.eor_Name <$> extraEnvs api.ee_Secrets (api.Spec bs))
       then Some (NewDataObjectKeys (sec_StringData (secs n)) (sec_Data (secs n))) else None) ∧
    ExtraPvcKeys ec = (λ r, Name (pvc_Meta (pvcs (api.pr_Name r)))) <$> pvcRefs (api.Spec bs).
Proof.
  intros Hb Hns Hs Hh. destruct (settles_preprocess platform bs Hb Hns Hs) as [_ H]. specialize (H h Hh).
  set (s := api.Spec bs) in *. set (ec1 := NewExternalConfig <| OpenShiftIngressDomain := _ |> <| RawConfig ::= _ |>) in *.
  exists ((collected s ec1).1 <| WatchingHash := sha256hex (collected s ec1).2 |>).
  split; [exact H|]. simpl. rewrite collected_hash, collected_RawConfig, collected_ExtraPvcKeys, collected_domain.
  split; [done|]. split; [done|]. split; [apply (right_id_L ∅ (∪))|].
  split_and!; intros; [apply collected_AppConfigKeys|apply collected_ExtraFileConfigMapKeys|apply collected_ExtraFileSecretKeys|
    apply collected_ExtraEnvConfigMapKeys|apply collected_ExtraEnvSecretKeys|done].
Qed.

End settled.

(** ** The hashed text does not say where a key ends *)

Section collision.
Context `{ks : !KubeScheme, mo_ : !MapOrder}.

Lemma appendData_singleton acc k v : appendData acc (Some {[k := v]}) = acc +:+ k +:+ v.
Proof.
  unfold appendData. pose proof (SortedKeys_perm (Some {[k := v]})) as H. simpl in H.
  rewrite map_to_list_singleton in H. apply Permutation_singleton_r in H as ->.
  simpl. unfold map_get, map_lookup. simpl. by rewrite lookup_singleton_eq.
Qed.

(** A key and its value are put together without anything between them,
    so that moving characters from the value into the key, which changes the
    files that are mounted, gives the same hash, and neither a change of the
    pods nor a new reconciliation. *)
Theorem concatData_collision (acc key ext value : string) (cm : ConfigMap) :
  cm_BinaryData cm = None →
  concatData (k := ConfigMapKind) acc (cm <| cm_Data := Some {[key := (ext +:+ value)%string]} |>) =
  concatData (k := ConfigMapKind) acc (cm <| cm_Data := Some {[(key +:+ ext)%string := value]} |>).
Proof.
  intros Hb. unfold concatData. simpl. rewrite Hb, !appendData_singleton. by rewrite !string_app_assoc.
Qed.

End collision.

(** ** Instances *)

Section witnesses.
#[local] Existing Instances MapOrder_asc example_init_scheme example_init_os example_sha example_retries example_nested.
#[local] Instance example_settled_server : APIServer := example_server example_contents.

Lemma preprocessSpec_settled_witness :
  ∃ ec, preprocessSpec Kubernetes example_bs_config [] = (Ok ec, [Get ConfigMapKind "ns" "cfg"]) ∧
    WatchingHash ec = "app-config.yamlapp:" ∧ AppConfigKeys ec !! "cfg" = Some ["app-config.yaml"].
Proof.
  destruct (preprocessSpec_settled [] "bs" "ns" (λ _, example_cfg) (λ _, emptySecret)
    (λ _, mkPersistentVolumeClaim (mkTypeMeta "" "") emptyMeta "") example_ingress
    Kubernetes example_bs_config []) as (ec & H & _ & Hh & _ & Ha & _); [reflexivity..| |by exists []|].
  - split.
    + intros n Hn h _. apply list_elem_of_singleton in Hn as ->. done.
    + intros n Hn. apply not_elem_of_nil in Hn as [].
    + intros n h Hn. apply not_elem_of_nil in Hn as [].
    + done.
    + intros n Hn. vm_compute in Hn. apply list_elem_of_singleton in Hn as ->. done.
    + intros n Hn. apply not_elem_of_nil in Hn as [].
  - exists ec. split; [exact H|]. split; [rewrite Hh; by vm_compute|]. rewrite Ha. by vm_compute.
Defined.

Lemma concatData_collision_witness :
  concatData (k := ConfigMapKind) "" (emptyConfigMap <| cm_Data := Some {["a" := "bc"]} |>) =
  concatData (k := ConfigMapKind) "" (emptyConfigMap <| cm_Data := Some {["ab" := "c"]} |>).
Proof. exact (concatData_collision "" "a" "b" "c" emptyConfigMap eq_refl). Defined.

End witnesses.
