(* ===== verification/Manager.v ===== *)
(** * What the manager decides (internal/controller/platform_detector.go,
      internal/controller/watchers.go, cmd/main.go)

    The platform the operator finds itself on, which changes of ConfigMaps and
    Secrets it is told of, and which objects the cache of its client holds. *)

From S2P Require Import Prelude.
From S2P Require Import GoStrings.
From S2P Require Import K8s.
From S2P Require Import Api.
From S2P Require Import Externals.
From S2P Require Import Utils.
From S2P Require Import Deployable.
From S2P Require Import MetaInfo.
From S2P Require Import ExternalConfig.
From S2P Require Import Runtime.
From S2P Require Import Client.
From S2P Require Import Preprocess.
From stdpp Require Import options.

(** ** Detecting the platform *)

(** The clients of the cluster: making one, the names of its API groups, and
    the labels of the namespace kube-system *)
Class Discovery := {
  NewForConfig : error + unit;
  ServerGroups : error + list string;
  KubeSystemLabels : error + gomap string
}.

Definition DefaultPlatform : Platform := Kubernetes.

(** On an error the caller gets the default platform along with it. *)
Definition DetectPlatform `{disc : !Discovery} : Platform * option error :=
  match NewForConfig with
  | inl err => (DefaultPlatform, Some err)
  | inr _ =>
      match ServerGroups with
      | inl err => (DefaultPlatform, Some err)
      | inr groups =>
          if existsb (λ group, String.eqb group "route.openshift.io") groups then (OpenShift, None)
          else if existsb (λ group, String.eqb group "eks.amazonaws.com") groups then (EKS, None)
          else
            match KubeSystemLabels with
            | inr labels =>
                if is_some (map_lookup labels "kubernetes.azure.com/managed") then (AKS, None)
                else if is_some (map_lookup labels "container.googleapis.com/cluster-name") then (GKE, None)
                else (Kubernetes, None)
            | inl _ => (Kubernetes, None)
            end
      end
  end.

(** ** Which objects are watched and cached *)

(** A label selector with one requirement: the key among the values *)
Definition LabelIn (key : string) (values : list string) (labels : gomap string) : bool :=
  match map_lookup labels key with Some v => bool_decide (v ∈ values) | None => false end.

Definition extConfigPredicate (m : ObjectMeta) : bool := LabelIn ExtConfigSyncLabel ["true"] (Labels m).

Inductive EventType := CreateEvent | UpdateEvent | DeleteEvent.

(** An event on a ConfigMap or Secret reaches [requestByExtConfigLabel] when
    the watch is set up and every predicate of it agrees; the second predicate,
    on the type of the event, always does. *)
Definition typePredicate (e : EventType) : bool :=
  match e with
  | CreateEvent => true
  | UpdateEvent => true
  | DeleteEvent => true
  end.
Definition delivered `{os : !OS} (e : EventType) (m : ObjectMeta) : bool :=
  BoolEnvVar WatchExtConfig true && (extConfigPredicate m && typePredicate e).

(** The cache of the client holds the workloads with the label of the
    operator, and, if asked to, only the labelled ConfigMaps and Secrets. *)
Definition ExternalConfigLabel : string := "rhdh.redhat.com/external-config".
Definition cached (enableCacheLabelFilter : bool) (o : KObject) : bool :=
  match o with
  | KDeployment _ | KStatefulSet _ => LabelIn BackstageAppLabel [BackstageAppName] (Labels (objectMeta o))
  | KSecret _ | KConfigMap _ =>
      if enableCacheLabelFilter then LabelIn ExternalConfigLabel ["true"] (Labels (objectMeta o)) else true
  | _ => true
  end.

(** ** Theorems *)

Lemma LabelIn_single key v labels : LabelIn key [v] labels = true ↔ map_lookup labels key = Some v.
Proof.
  unfold LabelIn. destruct (map_lookup labels key) as [x|]; [|done].
  rewrite bool_decide_eq_true, list_elem_of_singleton. naive_solver.
Qed.

Lemma existsb_group l (g : string) : existsb (λ x, String.eqb x g) l = bool_decide (g ∈ l).
Proof.
  induction l as [|x l IH]; simpl; [done|]. rewrite IH. destruct (String.eqb_spec x g) as [->|Hx]; simpl.
  - symmetry. apply bool_decide_eq_true_2. by left.
  - apply bool_decide_ext. rewrite elem_of_cons. naive_solver.
Qed.

(** The operator takes the cluster for OpenShift exactly when the
    cluster serves routes, whatever else it serves, so that routes are only
    ever created where there is an API for them; without a working client it
    reports the failure and takes it for plain Kubernetes. *)
Theorem DetectPlatform_openshift `{disc : !Discovery} :
  (IsOpenshift (fst DetectPlatform) = true ↔
    NewForConfig = inr () ∧ ∃ groups, ServerGroups = inr groups ∧ "route.openshift.io" ∈ groups) ∧
  (∀ e, snd DetectPlatform = Some e ↔ NewForConfig = inl e ∨ (NewForConfig = inr () ∧ ServerGroups = inl e)) ∧
  (is_some (snd DetectPlatform) = true → fst DetectPlatform = Kubernetes).
Proof.
  unfold DetectPlatform. destruct NewForConfig as [e0|[]]; [naive_solver|].
  destruct ServerGroups as [e1|groups]; [naive_solver|]. rewrite !existsb_group.
  case_bool_decide as Hr; [naive_solver|].
  assert (∀ p, p ≠ OpenShift → (IsOpenshift p = true ↔ @inr error () () = inr () ∧ ∃ g, @inr error (list string) groups = inr g ∧ "route.openshift.io" ∈ g)) as Hno.
  { intros p Hp. unfold IsOpenshift. rewrite bool_decide_eq_true. naive_solver. }
  case_bool_decide; [split; [by apply Hno|naive_solver]|].
  destruct KubeSystemLabels as [e2|labels]; [split; [by apply Hno|naive_solver]|].
  destruct (is_some (map_lookup labels "kubernetes.azure.com/managed")); [split; [by apply Hno|naive_solver]|].
  destruct (is_some (map_lookup labels "container.googleapis.com/cluster-name")); (split; [by apply Hno|naive_solver]).
Qed.

Section watching.
Context `{os_ : !OS}.

(** With synchronisation and watching on, every ConfigMap or Secret that
    preprocessing leaves without a need for marks is one whose changes the
    operator is told of, for a custom resource it can name. *)
Theorem needsMark_delivered e m :
  needsMark m = false → autoSync = true → BoolEnvVar WatchExtConfig true = true →
  delivered e m = true ∧ map_get (Annotations m) BackstageNameAnnotation ≠ "".
Proof.
  unfold needsMark. rewrite !orb_false_iff, !bool_decide_eq_false. intros [[_ Ha] Hl] Hs Hw. split; [|done].
  unfold delivered, extConfigPredicate. rewrite Hw. rewrite andb_true_iff. split; [done|].
  rewrite andb_true_iff. split; [|by destruct e]. apply LabelIn_single.
  apply dec_stable in Hl. rewrite Hs in Hl. unfold map_get in Hl. by destruct (map_lookup _ _); simpl in Hl; subst.
Qed.

Lemma mark_needsMark b m : b ≠ "" → needsMark (mark b m) = false.
Proof.
  intros Hb. unfold needsMark, mark, map_get. simpl. rewrite !map_lookup_insert_make, !decide_True by done. simpl.
  rewrite !orb_false_iff, !bool_decide_eq_false. split_and!; [by destruct autoSync|done|by intros []].
Qed.

(** The cache of the client holds every workload the operator owns. *)
Theorem owned_cached (filter : bool) b o :
  owned_by b (objectMeta o) → (∀ cm, o ≠ KConfigMap cm) → (∀ s, o ≠ KSecret s) → cached filter o = true.
Proof.
  intros [_ Ha _ _] Hcm Hs. destruct o; try done; try (by apply LabelIn_single); naive_solver.
Qed.

End watching.

Section witnesses.
#[local] Instance example_manager_os : OS := OS_of ∅ ∅ ∅.

Lemma needsMark_delivered_witness :
  delivered UpdateEvent (mark "bs" (mkObjectMeta "cfg" "ns" None None [])) = true.
Proof.
  apply (needsMark_delivered UpdateEvent (mark "bs" (mkObjectMeta "cfg" "ns" None None []))); by vm_compute.
Defined.

Lemma owned_cached_witness :
  cached true (KStatefulSet (emptyStatefulSet <| s_Meta := mkObjectMeta "db" "ns" (SetKubeLabels None "bs") None
    [mkOwnerReference "Backstage" "bs" true] |>)) = true.
Proof.
  apply (owned_cached true example_bs); [|done..]. split; [done..|by left].
Defined.

End witnesses.
