(* ===== verification/Convergence.v ===== *)
(** * Preprocessing converges

    Against a server that stores what it is told and that nobody else writes
    to, one successful run of [preprocessSpec] leaves everything as the next
    one wants it: the next one only reads, and returns the same.  Marking the
    external objects therefore does not keep the watches busy with the
    operator's own updates. *)

From S2P Require Import Prelude.
From S2P Require Import GoStrings.
From S2P Require Import K8s.
From S2P Require Import Api.
From S2P Require Import Externals.
From S2P Require Import Utils.
From S2P Require Import ExternalConfig.
From S2P Require Import Runtime.
From S2P Require Import InitTheorems.
From S2P Require Import Client.
From S2P Require Import Preprocess.
From S2P Require Import Examples.
From S2P Require Import PreprocessTheorems.
From S2P Require Import Manager.
From stdpp Require Import options.

(** ** The contents of a server *)

(** Metadata and data of an external object are separate. *)
Class ExternalLaws `{ks : !KubeScheme} (k : ReadKind) `{ext : !External k} := {
  ext_Meta_set m (o : Typed k) : ext_Meta (ext_setMeta m o) = m;
  ext_set_Meta (o : Typed k) : ext_setMeta (ext_Meta o) o = o;
  ext_string_set m (o : Typed k) : ext_stringData (ext_setMeta m o) = ext_stringData o;
  ext_binary_set m (o : Typed k) : ext_binaryData (ext_setMeta m o) = ext_binaryData o
}.
#[export] Instance ExternalLaws_ConfigMap `{ks : !KubeScheme} : ExternalLaws ConfigMapKind.
Proof. by split; [|intros []|..]. Qed.
#[export] Instance ExternalLaws_Secret `{ks : !KubeScheme} : ExternalLaws SecretKind.
Proof. by split; [|intros []|..]. Qed.

Section store.
Context `{ks : !KubeScheme, os_ : !OS, mo_ : !MapOrder, srv : !APIServer, rp : !RetryPolicy}.
Context `{nested : !NestedStrings, sha : !Sha256}.
Context (b ns : string) (init : ∀ k, string → option (Typed k)) (ingress : Unstructured).

Definition cast {k k'} (e : k' = k) : Typed k' → Typed k :=
  match e in _ = k return Typed k' → Typed k with eq_refl => λ o, o end.

(** The object a request stores under a name *)
Definition stored (k : ReadKind) `{ext : !External k} (n : string) (r : Request) : option (Typed k) :=
  match r with
  | Update k' o =>
      match decide (k' = k) with
      | left e => if bool_decide (Name (ext_Meta (cast e o)) = n) then Some (cast e o) else None
      | right _ => None
      end
  | _ => None
  end.

(** The object of a name after a history: the last one stored *)
Definition latest (k : ReadKind) `{ext : !External k} (h : list Request) (n : string) : option (Typed k) :=
  foldl (λ acc r, match stored k n r with Some o => Some o | None => acc end) (init k n) h.

Lemma latest_app k `{ext : !External k} h r n :
  latest k (h ++ [r]) n = match stored k n r with Some o => Some o | None => latest k h n end.
Proof. unfold latest. by rewrite foldl_app. Qed.

Lemma stored_read k `{ext : !External k} n r : is_write r = false → stored k n r = None.
Proof. by destruct r. Qed.

Lemma latest_reads k `{ext : !External k} h l n : Forall (λ r, is_write r = false) l → latest k (h ++ l) n = latest k h n.
Proof.
  revert h. induction l as [|r l IH]; intros h Hl; [by rewrite app_nil_r|]. apply Forall_cons in Hl as [Hr Hl].
  change (r :: l) with ([r] ++ l). by rewrite (assoc_L (++)), IH, latest_app, stored_read.
Qed.

Lemma stored_same k `{ext : !External k} n (o : Typed k) :
  stored k n (Update k o) = if bool_decide (Name (ext_Meta o) = n) then Some o else None.
Proof. unfold stored. by rewrite (decide_True_pi (eq_refl k)). Qed.

Lemma stored_other k k' `{ext : !External k} n (o : Typed k') : k' ≠ k → stored k n (Update k' o) = None.
Proof. intros Hk. unfold stored. by destruct (decide _). Qed.

(** A server that stores: it answers with the last object stored under a name,
    takes every update, and objects have the names they are stored under. *)
Record stores_kind (k : ReadKind) `{ext : !External k} : Prop := {
  stores_get h n o : respond h (Get k ns n) = Ok o ↔ latest k h n = Some o;
  stores_update h o : respond h (Update k o) = Ok o;
  stores_name n o : init k n = Some o → Name (ext_Meta o) = n
}.
Record stores : Prop := {
  stores_cm : stores_kind ConfigMapKind;
  stores_secret : stores_kind SecretKind;
  stores_pvc h h' n : respond h (Get PvcKind ns n) = respond h' (Get PvcKind ns n);
  stores_ingress h : respond h (Get IngressKind "" "cluster") = Ok ingress
}.

(** ** What preprocessing changes *)

(** An object stays as it is, or gets the marks it needed. *)
Definition marked_from (k : ReadKind) `{ext : !External k} (o o' : Typed k) : Prop :=
  o' = o ∨ (needsMark (ext_Meta o) = true ∧ o' = ext_setMeta (mark b (ext_Meta o)) o).

Definition le_kind (k : ReadKind) `{ext : !External k} (h h' : list Request) : Prop :=
  ∀ n, match latest k h n, latest k h' n with
       | Some o, Some o' => marked_from k o o'
       | None, None => True
       | _, _ => False
       end.
Definition le (h h' : list Request) : Prop := le_kind ConfigMapKind h h' ∧ le_kind SecretKind h h'.

Context (Hb : b ≠ "").

Lemma marked_from_trans k `{ext : !External k} {laws : ExternalLaws k} (o1 o2 o3 : Typed k) :
  marked_from k o1 o2 → marked_from k o2 o3 → marked_from k o1 o3.
Proof using Hb.
  intros [->|[H1 ->]]; [done|]. intros [->|[H2 _]]; [by right|].
  by rewrite ext_Meta_set, mark_needsMark in H2.
Qed.

#[local] Instance le_kind_preorder k `{ext : !External k} {laws : ExternalLaws k} : PreOrder (le_kind k).
Proof using Hb.
  split.
  - intros h n. destruct (latest k h n); [by left|done].
  - intros h1 h2 h3 H12 H23 n. specialize (H12 n). specialize (H23 n).
    destruct (latest k h1 n), (latest k h2 n), (latest k h3 n); try done. by eapply marked_from_trans.
Qed.
#[local] Instance le_preorder : PreOrder le.
Proof using Hb.
  split; [by split|]. intros h1 h2 h3 [] []. split; by etrans.
Qed.

Lemma le_reads h l : Forall (λ r, is_write r = false) l → le h (h ++ l).
Proof using Hb.
  intros Hl. split; intros n; rewrite latest_reads by done; destruct (latest _ h n); by try left.
Qed.

Lemma latest_name k `{ext : !External k} h n o : stores_kind k → latest k h n = Some o → Name (ext_Meta o) = n.
Proof.
  intros Hs. induction h as [|r h IH] using rev_ind; [by apply stores_name|]. rewrite latest_app.
  destruct (stored k n r) as [o'|] eqn:E; [|done]. intros [= <-]. unfold stored in E.
  destruct r as [|k' o| | | | |]; try done. destruct (decide _); [|done]. by case_bool_decide; simplify_eq.
Qed.

Lemma le_kind_mark k `{ext : !External k} {laws : ExternalLaws k} h n o :
  stores_kind k → latest k h n = Some o → needsMark (ext_Meta o) = true →
  let o' := ext_setMeta (mark b (ext_Meta o)) o in
  le_kind k h (h ++ [Update k o']) ∧ latest k (h ++ [Update k o']) n = Some o'.
Proof.
  intros Hs Ho Hm o'. pose proof (latest_name k h n o Hs Ho) as Hn.
  assert (∀ m, latest k (h ++ [Update k o']) m = if decide (m = n) then Some o' else latest k h m) as Hl.
  { intros m. rewrite latest_app, stored_same. unfold o'. rewrite ext_Meta_set. cbn [mark Name set_field]. rewrite Hn.
    case_bool_decide; case_decide; congruence. }
  split; [|by rewrite Hl, decide_True]. intros m. rewrite Hl. case_decide as Hmn.
  - subst m. rewrite Ho. by right.
  - destruct (latest k h m); [by left|done].
Qed.

Lemma le_kind_other k k' `{ext : !External k} h (o : Typed k') : k' ≠ k → le_kind k h (h ++ [Update k' o]).
Proof. intros Hk n. rewrite latest_app, stored_other by done. destruct (latest k h n); [by left|done]. Qed.

(** ** A run, seen from its end

    [conv m P g]: a run of [m] only marks; when it succeeds, [P] holds of the
    contents from then on and the result is what [g] computes from them. *)
Definition conv {A} (m : API A) (P : list Request → Prop) (g : list Request → A) : Prop :=
  ∀ h, le h (m h).2 ∧ ∀ a, (m h).1 = Ok a → ∀ h1, le (m h).2 h1 → P h1 ∧ a = g h1.

Lemma conv_ret {A} (a : A) : conv (mret a) (λ _, True) (λ _, a).
Proof using Hb. intros h. split; [done|]. by intros ? [= <-]. Qed.

Lemma conv_bind {A B} (m : API A) (f : A → API B) P g P' g' :
  conv m P g → (∀ a, conv (f a) P' (g' a)) → conv (m ≫= f) (λ h, P h ∧ P' h) (λ h, g' (g h) h).
Proof using Hb.
  intros Hm Hf h. destruct (Hm h) as [Hle Hr]. unfold mbind, API_bind.
  destruct (m h) as [[a|e|w] h'] eqn:E; simpl in *; [|done..]. destruct (Hf a h') as [Hle' Hr'].
  split; [by etrans|]. intros c Hc h1 Hh1. destruct (Hr' c Hc h1 Hh1) as [HP' ->].
  destruct (Hr a eq_refl h1) as [HP ->]; [by etrans|]. done.
Qed.

Lemma conv_map {A B} (m : API A) (f : A → B) P g : conv m P g → conv (m ≫= λ a, mret (f a)) P (λ h, f (g h)).
Proof using Hb.
  intros Hm h. destruct (Hm h) as [Hle Hr]. unfold mbind, API_bind.
  destruct (m h) as [[a|e|w] h'] eqn:E; simpl in *; [|done..]. split; [done|].
  intros c [= <-] h1 Hh1. by destruct (Hr a eq_refl h1 Hh1) as [HP ->].
Qed.

Lemma conv_foldA {A B} (f : A → B → API A) (P : B → list Request → Prop) (g : list Request → A → B → A) a l :
  (∀ a b, conv (f a b) (P b) (λ h, g h a b)) →
  conv (foldA f a l) (λ h, ∀ b, b ∈ l → P b h) (λ h, foldl (g h) a l).
Proof using Hb.
  intros Hf. revert a. induction l as [|x l IH]; intros a h.
  { split; [done|]. intros ? [= <-] h1 _. split; [|done]. intros y Hy. by apply not_elem_of_nil in Hy. }
  destruct (conv_bind _ _ _ _ _ _ (Hf a x) IH h) as [Hle Hr]. split; [done|].
  intros c Hc h1 Hh1. destruct (Hr c Hc h1 Hh1) as [[Hx Hl] ->]. split; [|done].
  intros y [->|Hy]%elem_of_cons; [done|by apply Hl].
Qed.

Lemma conv_weaken {A} (m : API A) (P P' : list Request → Prop) g :
  (∀ h, P h → P' h) → conv m P g → conv m P' g.
Proof. intros HP Hm h. destruct (Hm h) as [Hle Hr]. split; [done|]. intros a Ha h1 Hh1. destruct (Hr a Ha h1 Hh1). auto. Qed.

Lemma conv_result {A} (m : API A) P g g' : conv m P g → (∀ h, g h = g' h) → conv m P g'.
Proof. intros Hm Hg h. destruct (Hm h) as [Hle Hr]. split; [done|]. intros a Ha h1 Hh1. rewrite <- Hg. by apply Hr. Qed.

Lemma conv_retry {A} n (m : API A) P g : conv m P g → conv (RetryOnConflict n m) P g.
Proof using Hb.
  intros Hm. induction n as [|n IH]; intros h; simpl; destruct (Hm h) as [Hle Hr];
    destruct (m h) as [[a|e|w] h'] eqn:E; simpl in *; try done; destruct (IsConflict e); try done.
  destruct (IH h') as [Hle' Hr']. split; [by etrans|done].
Qed.

(** *** One object *)

(** What is there under a name, and whether it carries the marks *)
Definition there (k : ReadKind) `{ext : !External k} (n : string) (watch : bool) (h : list Request) : Prop :=
  ∃ o, latest k h n = Some o ∧ (watch = true → needsMark (ext_Meta o) = false).
Definition object_of (k : ReadKind) `{ext : !External k} (d : Typed k) (h : list Request) (n : string) : Typed k :=
  default d (latest k h n).

(** Any difference in the marks of an object that is not watched does not show
    in what is recorded of it. *)
Definition records_data (k : ReadKind) `{ext : !External k} {A} (rec : Typed k → A) : Prop :=
  ∀ m o, rec (ext_setMeta m o) = rec o.

Definition le_at (k : ReadKind) `{ext : !External k} : Prop :=
  (∀ h h', le h h' → le_kind k h h') ∧ (∀ h o, le_kind k h (h ++ [Update k o]) → le h (h ++ [Update k o])).

Lemma le_at_cm : le_at ConfigMapKind.
Proof. split; [by intros ?? []|]. intros h o H. split; [done|by apply le_kind_other]. Qed.
Lemma le_at_secret : le_at SecretKind.
Proof. split; [by intros ?? []|]. intros h o H. split; [by apply le_kind_other|done]. Qed.

Lemma checkExternalObject_run k n h :
  (checkExternalObject k n ns h).2 = h ++ [Get k ns n] ∧
  ∀ o, (checkExternalObject k n ns h).1 = Ok o → respond h (Get k ns n) = Ok o.
Proof.
  unfold checkExternalObject, mapErr, call. destruct (respond h _); (split; [done|]); intros o' [=]; by subst.
Qed.

Lemma conv_check k `{ext : !External k} {A} (d : Typed k) n (rec : Typed k → A) :
  stores_kind k → le_at k → records_data k rec →
  conv (checkExternalObject k n ns ≫= λ o, mret (rec o)) (there k n false) (λ h, rec (object_of k d h n)).
Proof using Hb.
  intros Hs [Hle _] Hrec h. destruct (checkExternalObject_run k n h) as [Hh Ho]. unfold mbind, API_bind.
  assert (le h (h ++ [Get k ns n])) as Hl by (apply le_reads; by constructor).
  destruct (checkExternalObject k n ns h) as [[o|e|w] h'] eqn:E; simpl in *; subst h'; [|done..].
  split; [done|]. intros a [= <-] h1 Hh1. specialize (Ho o eq_refl). apply (stores_get k Hs) in Ho.
  apply Hle in Hh1. specialize (Hh1 n). rewrite latest_reads, Ho in Hh1 by (by constructor).
  unfold there, object_of. destruct (latest k h1 n) as [o'|]; [|done]. split; [by exists o'|]. simpl.
  destruct Hh1 as [->|[_ ->]]; [done|by rewrite Hrec].
Qed.

Lemma conv_markObject k `{ext : !External k} {laws : ExternalLaws k} (d : Typed k) n :
  stores_kind k → le_at k → conv (markObject k b n ns) (there k n true) (λ h, object_of k d h n).
Proof using Hb.
  intros Hs [Hle Hup] h. unfold markObject, mbind, API_bind.
  destruct (checkExternalObject_run k n h) as [Hh Ho].
  assert (le h (h ++ [Get k ns n])) as Hl by (apply le_reads; by constructor).
  destruct (checkExternalObject k n ns h) as [[o|e|w] h'] eqn:E; simpl in *; subst h'; [|done..].
  specialize (Ho o eq_refl). apply (stores_get k Hs) in Ho.
  rewrite <- (latest_reads k h [Get k ns n]) in Ho by (by constructor). set (h' := h ++ _) in *.
  assert (∀ h2 o2, latest k h2 n = Some o2 → needsMark (ext_Meta o2) = false → ∀ h1, le h2 h1 →
    there k n true h1 ∧ o2 = object_of k d h1 n) as Hend.
  { intros h2 o2 H2 Hm2 h1 Hh1. apply Hle in Hh1. specialize (Hh1 n). rewrite H2 in Hh1. unfold there, object_of.
    destruct (latest k h1 n) as [o1|]; [|done]. destruct Hh1 as [->|[Hm1 _]]; [|congruence]. split; [by exists o2|done]. }
  destruct (needsMark (ext_Meta o)) eqn:Hm.
  - destruct (le_kind_mark k h' n o Hs Ho Hm) as [Hk Hn]. unfold call. rewrite (stores_update k Hs). simpl.
    apply Hup in Hk. split; [by etrans|]. intros a [= <-] h1 Hh1. eapply Hend; [exact Hn| |exact Hh1].
    rewrite ext_Meta_set. by apply mark_needsMark.
  - pose proof (needsMark_present _ Hm) as Hp. simpl in Hp. simpl. rewrite Hp, ext_set_Meta. split; [done|].
    intros a [= <-] h1 Hh1. by eapply Hend.
Qed.

Lemma conv_ext {A} (m m' : API A) P g : (∀ h, m h = m' h) → conv m' P g → conv m P g.
Proof. intros Hm Hc h. rewrite Hm. apply Hc. Qed.

Lemma conv_addObject k `{ext : !External k} {laws : ExternalLaws k} (d : Typed k) n (watch : bool) rec st :
  stores_kind k → le_at k → (watch = false → ∀ m o ec, rec (ext_setMeta m o) ec = rec o ec) →
  conv (addObject k b n ns watch rec st) (there k n watch)
    (λ h, (rec (object_of k d h n) st.1, if watch then concatData st.2 (object_of k d h n) else st.2)).
Proof using Hb.
  intros Hs Hle Hrec. destruct watch.
  - eapply (conv_ext _ (RetryOnConflict retries (markObject k b n ns) ≫= λ o, mret (rec o st.1, concatData st.2 o))).
    + intros h. unfold addObject, addExtConfig, mbind, API_bind. simpl. by destruct (RetryOnConflict _ _ h) as [[]].
    + apply (conv_map _ (λ o, (rec o st.1, concatData st.2 o))). by apply conv_retry, conv_markObject.
  - eapply (conv_ext _ (checkExternalObject k n ns ≫= λ o, mret (rec o st.1, st.2))).
    + intros h. unfold addObject, addExtConfig, mbind, API_bind. simpl. by destruct (checkExternalObject _ _ _ h) as [[]].
    + apply (conv_check k d n (λ o, (rec o st.1, st.2))); [done..|]. intros m o. by rewrite Hrec.
Qed.

(** The contents as functions of names *)
Definition cm_of (h : list Request) (n : string) : ConfigMap := object_of ConfigMapKind emptyConfigMap h n.
Definition secret_of (h : list Request) (n : string) : Secret := object_of SecretKind emptySecret h n.
Definition pvc_of (n : string) : PersistentVolumeClaim :=
  match respond [] (Get PvcKind ns n) with
  | Ok p => p
  | _ => mkPersistentVolumeClaim (mkTypeMeta "" "") emptyMeta ""
  end.

Context (Hstores : stores).

Lemma conv_addConfigMap n (watch : bool) rec st :
  (watch = false → ∀ m (o : Typed ConfigMapKind) ec, rec (ext_setMeta m o) ec = rec o ec) →
  conv (addObject ConfigMapKind b n ns watch rec st) (there ConfigMapKind n watch)
    (λ h, (rec (cm_of h n) st.1, if watch then concatData (k := ConfigMapKind) st.2 (cm_of h n) else st.2)).
Proof using Hb Hstores. apply conv_addObject; [apply _|apply stores_cm, Hstores|apply le_at_cm]. Qed.

Lemma conv_addSecret n (watch : bool) rec st :
  (watch = false → ∀ m (o : Typed SecretKind) ec, rec (ext_setMeta m o) ec = rec o ec) →
  conv (addObject SecretKind b n ns watch rec st) (there SecretKind n watch)
    (λ h, (rec (secret_of h n) st.1, if watch then concatData (k := SecretKind) st.2 (secret_of h n) else st.2)).
Proof using Hb Hstores. apply conv_addObject; [apply _|apply stores_secret, Hstores|apply le_at_secret]. Qed.

(** Each step of the loops *)
Lemma conv_appConfig st r :
  conv (addAppConfigRef b ns st r) (there ConfigMapKind (api.for_Name r) (addToWatch r)) (λ h, stepAppConfig (cm_of h) st r).
Proof using Hb Hstores.
  eapply conv_result; [apply conv_addConfigMap; by intros _ ? [] ?|].
  intros h. unfold stepAppConfig. by destruct (addToWatch r).
Qed.

Lemma conv_configMapFile st r :
  conv (addConfigMapFileRef b ns st r) (there ConfigMapKind (api.for_Name r) (addToWatch r)) (λ h, stepConfigMapFile (cm_of h) st r).
Proof using Hb Hstores.
  eapply conv_result; [apply conv_addConfigMap; by intros _ ? [] ?|].
  intros h. unfold stepConfigMapFile. by destruct (addToWatch r).
Qed.

Lemma conv_secretFile st r :
  conv (addSecretFileRef b ns st r) (there SecretKind (api.for_Name r) (addToWatch r)) (λ h, stepSecretFile (secret_of h) st r).
Proof using Hb Hstores.
  eapply conv_result; [apply conv_addSecret; by intros _ ? [] ?|].
  intros h. unfold stepSecretFile. by destruct (addToWatch r).
Qed.

Lemma conv_configMapEnv st r :
  conv (addConfigMapEnvRef b ns st r) (there ConfigMapKind (api.eor_Name r) true) (λ h, stepConfigMapEnv (cm_of h) st r).
Proof using Hb Hstores. by apply conv_addConfigMap. Qed.

Lemma conv_secretEnv st r :
  conv (addSecretEnvRef b ns st r) (there SecretKind (api.eor_Name r) true) (λ h, stepSecretEnv (secret_of h) st r).
Proof using Hb Hstores. by apply conv_addSecret. Qed.

Lemma conv_pvc st r :
  conv (addPvcRef ns st r) (λ _, ∀ h, respond h (Get PvcKind ns (api.pr_Name r)) = Ok (pvc_of (api.pr_Name r))) (λ _, stepPvc pvc_of st r).
Proof using Hb Hstores.
  intros h. unfold addPvcRef, mbind, API_bind. destruct (checkExternalObject_run PvcKind (api.pr_Name r) h) as [Hh Ho].
  assert (le h (h ++ [Get PvcKind ns (api.pr_Name r)])) as Hl by (apply le_reads; by constructor).
  destruct (checkExternalObject PvcKind (api.pr_Name r) ns h) as [[p|e|w] h'] eqn:E; simpl in *; subst h'; [|done..].
  split; [done|]. intros a [= <-] h1 _. specialize (Ho p eq_refl).
  assert (∀ h, respond h (Get PvcKind ns (api.pr_Name r)) = Ok p) as Hp by (intros h2; by rewrite (stores_pvc Hstores h2 h)).
  assert (pvc_of (api.pr_Name r) = p) as Hpvc by (unfold pvc_of; by rewrite Hp).
  split; [intros h2; by rewrite Hpvc, Hp|]. unfold stepPvc. by rewrite Hpvc.
Qed.

Lemma conv_plugins s st :
  conv (addPluginsRef b ns (api.specDynamicPlugins s) st)
    (λ h, api.specDynamicPlugins s ≠ "" → there ConfigMapKind (api.specDynamicPlugins s) true h)
    (λ h, stepPlugins (cm_of h) s st).
Proof using Hb Hstores.
  unfold addPluginsRef, stepPlugins. case_bool_decide as Hn.
  - eapply conv_weaken; [|apply conv_ret]. done.
  - eapply conv_weaken; [|by apply conv_addConfigMap]. auto.
Qed.

Lemma conv_addRawConfig name ec :
  conv (addRawConfig ns name ec) (λ h, name ≠ "" → there ConfigMapKind name false h)
    (λ h, ec <| RawConfig ::= λ raw, rawEntries (cm_of h) name ∪ raw |>).
Proof using Hb Hstores.
  unfold addRawConfig, rawEntries. case_bool_decide as Hn.
  - eapply conv_result; [eapply conv_weaken; [|apply conv_ret]; done|].
    intros h. destruct ec; simpl. by rewrite (left_id_L ∅ (∪)).
  - eapply conv_result; [eapply conv_weaken; [|apply (conv_check ConfigMapKind emptyConfigMap name
      (λ cm : ConfigMap, ec <| RawConfig ::= λ raw, foldl (λ raw '(k, v), <[k := v]> raw) raw (range (map_make (cm_Data cm))) |>));
      [apply stores_cm, Hstores|apply le_at_cm|by intros ? []]]; auto|].
    intros h. simpl. by rewrite range_insert_union.
Qed.

Lemma conv_domain platform :
  conv (if IsOpenshift platform then
          domain ← getOCPIngressDomain; mret (NewExternalConfig <| OpenShiftIngressDomain := domain |>)
        else mret NewExternalConfig)
    (λ _, IsOpenshift platform = true → is_Ok (NestedString ingress ["spec"; "domain"]) = true)
    (λ _, NewExternalConfig <| OpenShiftIngressDomain := if IsOpenshift platform then ingressDomain ingress else "" |>).
Proof using Hb Hstores.
  destruct (IsOpenshift platform); [|by eapply conv_weaken; [|apply conv_ret]].
  intros h. unfold mbind, API_bind, getOCPIngressDomain, call, ingressDomain. rewrite (stores_ingress Hstores).
  assert (le h (h ++ [Get IngressKind "" "cluster"])) as Hl by (apply le_reads; by constructor).
  destruct (NestedString _ _); simpl; (split; [done|]); [by intros ? [= <-]|done..].
Qed.

Lemma conv_raw s ec :
  conv (match api.RawRuntimeConfig s with
        | None => mret ec
        | Some raw => ec ← addRawConfig ns (api.BackstageConfigName raw) ec; addRawConfig ns (api.LocalDbConfigName raw) ec
        end)
    (λ h, ∀ n, n ∈ rawNames s → there ConfigMapKind n false h)
    (λ h, ec <| RawConfig ::= λ raw, rawConfig (cm_of h) s ∪ raw |>).
Proof using Hb Hstores.
  unfold rawNames, rawConfig. destruct (api.RawRuntimeConfig s) as [raw|].
  - eapply conv_result; [eapply conv_weaken; [|apply conv_bind; [apply conv_addRawConfig|intros; apply conv_addRawConfig]]|].
    + intros h [H1 H2] n [Hn [->|[->|[]%not_elem_of_nil]%elem_of_cons]%elem_of_cons]%list_elem_of_filter; auto.
    + intros h. simpl. by rewrite (assoc_L (∪)).
  - eapply conv_result; [eapply conv_weaken; [|apply conv_ret]|].
    + intros h _ n []%not_elem_of_nil.
    + intros h. destruct ec; simpl. by rewrite (left_id_L ∅ (∪)).
Qed.

(** ** The run as a whole *)

(** Everything the custom resource refers to is there and carries its marks. *)
Definition all_there (platform : Platform) (s : api.BackstageSpec) (h : list Request) : Prop :=
  (IsOpenshift platform = true → is_Ok (NestedString ingress ["spec"; "domain"]) = true) ∧
  (∀ n, n ∈ rawNames s → there ConfigMapKind n false h) ∧
  (∀ r, r ∈ appConfigRefs s → there ConfigMapKind (api.for_Name r) (addToWatch r) h) ∧
  (∀ r, r ∈ extraFiles api.ef_ConfigMaps s → there ConfigMapKind (api.for_Name r) (addToWatch r) h) ∧
  (∀ r, r ∈ extraFiles api.ef_Secrets s → there SecretKind (api.for_Name r) (addToWatch r) h) ∧
  (∀ r, r ∈ extraEnvs api.ee_ConfigMaps s → there ConfigMapKind (api.eor_Name r) true h) ∧
  (∀ r, r ∈ extraEnvs api.ee_Secrets s → there SecretKind (api.eor_Name r) true h) ∧
  (∀ r, r ∈ pvcRefs s → ∀ h, respond h (Get PvcKind ns (api.pr_Name r)) = Ok (pvc_of (api.pr_Name r))) ∧
  (api.specDynamicPlugins s ≠ "" → there ConfigMapKind (api.specDynamicPlugins s) true h).

(** The result, from the contents at the end *)
Definition result_of (platform : Platform) (s : api.BackstageSpec) (h : list Request) : ExternalConfig :=
  let ec := NewExternalConfig <| OpenShiftIngressDomain := if IsOpenshift platform then ingressDomain ingress else "" |> in
  let st := collected (cm_of h) (secret_of h) pvc_of s (ec <| RawConfig ::= λ raw, rawConfig (cm_of h) s ∪ raw |>) in
  st.1 <| WatchingHash := sha256hex st.2 |>.

Lemma conv_preprocess platform bs : api.bsName bs = b → api.bsNamespace bs = ns →
  conv (preprocessSpec platform bs) (all_there platform (api.Spec bs)) (result_of platform (api.Spec bs)).
Proof using Hb Hstores.
  intros Hbn Hns. unfold preprocessSpec. rewrite Hbn, Hns.
  set (s := api.Spec bs).
  pose proof (λ st, conv_map _ (λ st : St, st.1 <| WatchingHash := sha256hex st.2 |>) _ _ (conv_plugins s st)) as H.
  pose proof (λ st, conv_bind _ _ _ _ _ _ (conv_foldA _ _ _ st (pvcRefs s) conv_pvc) H) as H6. clear H.
  pose proof (λ st, conv_bind _ _ _ _ _ _ (conv_foldA _ _ _ st (extraEnvs api.ee_Secrets s) conv_secretEnv) H6) as H5. clear H6.
  pose proof (λ st, conv_bind _ _ _ _ _ _ (conv_foldA _ _ _ st (extraEnvs api.ee_ConfigMaps s) conv_configMapEnv) H5) as H4. clear H5.
  pose proof (λ st, conv_bind _ _ _ _ _ _ (conv_foldA _ _ _ st (extraFiles api.ef_Secrets s) conv_secretFile) H4) as H3. clear H4.
  pose proof (λ st, conv_bind _ _ _ _ _ _ (conv_foldA _ _ _ st (extraFiles api.ef_ConfigMaps s) conv_configMapFile) H3) as H2. clear H3.
  pose proof (λ ec : ExternalConfig, conv_bind _ _ _ _ _ _ (conv_foldA _ _ _ (ec, "") (appConfigRefs s) conv_appConfig) H2) as H1. clear H2.
  pose proof (λ ec, conv_bind _ _ _ _ _ _ (conv_raw s ec) H1) as H0. clear H1.
  pose proof (conv_bind _ _ _ _ _ _ (conv_domain platform) H0) as H. clear H0.
  eapply conv_result; [eapply conv_weaken; [|exact H]|done].
  intros h (? & ? & ? & ? & ? & ? & ? & Hpvc & ?). done.
Qed.

(** Names that are watched are there with their marks. *)
Lemma there_settles k `{ext : !External k} (d : Typed k) n watch h :
  stores_kind k → there k n watch h → ∀ h', quiet h h' → respond h' (Get k ns n) = Ok (object_of k d h n).
Proof.
  intros Hs (o & Ho & _) h' (l & -> & Hl). apply (stores_get k Hs). rewrite latest_reads by done.
  unfold object_of. by rewrite Ho.
Qed.

Lemma there_marked k `{ext : !External k} (d : Typed k) n h : there k n true h → needsMark (ext_Meta (object_of k d h n)) = false.
Proof. intros (o & Ho & Hm). unfold object_of. rewrite Ho. by apply Hm. Qed.

Lemma cm_marked n h : there ConfigMapKind n true h → needsMark (cm_Meta (cm_of h n)) = false.
Proof. exact (there_marked ConfigMapKind emptyConfigMap n h). Qed.
Lemma secret_marked n h : there SecretKind n true h → needsMark (sec_Meta (secret_of h n)) = false.
Proof. exact (there_marked SecretKind emptySecret n h). Qed.

Lemma all_there_settled platform s h : all_there platform s h →
  settled_spec h ns (cm_of h) (secret_of h) pvc_of ingress platform s.
Proof using Hstores.
  intros (Hi & Hraw & Hac & Hcf & Hsf & Hce & Hse & Hpvc & Hdp).
  assert (∀ n w, there ConfigMapKind n w h → settled_configmap h ns (cm_of h) n) as Hcm
    by (intros n w H h' Hh'; eapply there_settles; [apply stores_cm, Hstores|done..]).
  assert (∀ n w, there SecretKind n w h → settled_secret h ns (secret_of h) n) as Hsec
    by (intros n w H h' Hh'; eapply there_settles; [apply stores_secret, Hstores|done..]).
  split.
  - unfold configMapNames. intros n. rewrite !elem_of_app, !list_elem_of_fmap, list_elem_of_filter.
    intros [Hn|[(r & -> & Hr)|[(r & -> & Hr)|[(r & -> & Hr)|[Hn Hd]]]]]; [eauto..|].
    apply list_elem_of_singleton in Hd as ->. eauto.
  - unfold secretNames. intros n. rewrite !elem_of_app, !list_elem_of_fmap. intros [(r & -> & Hr)|(r & -> & Hr)]; eauto.
  - intros n h' (r & -> & Hr)%list_elem_of_fmap _. auto.
  - intros Ho. split; [auto|]. intros h' _. apply stores_ingress, Hstores.
  - unfold watchedConfigMaps, watchedRefs. intros n. rewrite !elem_of_app, !list_elem_of_fmap, list_elem_of_filter.
    setoid_rewrite list_elem_of_filter.
    intros [(r & -> & Hw & Hr)|[(r & -> & Hw & Hr)|[(r & -> & Hr)|[Hn Hd]]]].
    + apply cm_marked. rewrite <- Hw. auto.
    + apply cm_marked. rewrite <- Hw. auto.
    + apply cm_marked. auto.
    + apply list_elem_of_singleton in Hd as ->. apply cm_marked. auto.
  - unfold watchedSecrets, watchedRefs. intros n. rewrite !elem_of_app, !list_elem_of_fmap.
    setoid_rewrite list_elem_of_filter. intros [(r & -> & Hw & Hr)|(r & -> & Hr)].
    + apply secret_marked. rewrite <- Hw. auto.
    + apply secret_marked. auto.
Qed.

(** C14. After one successful run, and with nobody else writing, preprocessing
    has converged: the next run succeeds, only reads, and returns the same
    configuration, hash included.  On the way the first run has changed objects
    in the marks they needed only. *)
Theorem preprocessSpec_converges platform bs h ec h1 :
  api.bsName bs = b → api.bsNamespace bs = ns →
  preprocessSpec platform bs h = (Ok ec, h1) →
  le h h1 ∧ preprocessSpec platform bs h1 = (Ok ec, h1 ++ reads ns platform (api.Spec bs)) ∧
  Forall (λ r, is_write r = false) (reads ns platform (api.Spec bs)).
Proof using Hb Hstores.
  intros Hbn Hns H. destruct (conv_preprocess platform bs Hbn Hns h) as [Hle Hr]. rewrite H in Hle, Hr. simpl in Hle, Hr.
  split; [done|]. destruct (Hr ec eq_refl h1) as [Ha ->]; [done|].
  apply all_there_settled in Ha. destruct (settles_preprocess h1 b ns _ _ _ _ platform bs Hbn Hns Ha) as [Hl Hs].
  split; [|done]. apply Hs. exists []. by rewrite app_nil_r.
Qed.

End store.

(** ** An instance

    A server with one ConfigMap, without marks: the first run updates it, the
    second only reads. *)

Section witness.
#[local] Existing Instances MapOrder_asc example_init_scheme example_init_os example_sha example_retries.
#[local] Instance example_nested_domain : NestedStrings := {| NestedString _ _ := Ok (Some "apps.example.com") |}.

Definition example_unmarked : ConfigMap :=
  emptyConfigMap <| cm_Meta := mkObjectMeta "cfg" "ns" None None [] |> <| cm_Data := Some {["app-config.yaml" := "app:"]} |>.
Definition example_init (k : ReadKind) (n : string) : option (Typed k) :=
  match k return option (Typed k) with
  | ConfigMapKind => if bool_decide (n = "cfg") then Some example_unmarked else None
  | _ => None
  end.
#[local] Instance example_store : APIServer := {|
  respond h r :=
    match r return outcome (Reply r) with
    | Get k _ n =>
        match k return outcome (Typed k) with
        | ConfigMapKind => found (latest example_init ConfigMapKind h n)
        | SecretKind => found (latest example_init SecretKind h n)
        | IngressKind => Ok example_ingress
        | _ => Err example_NotFound
        end
    | Update _ o => Ok o
    | Patch o => Ok (objectType o)
    | Create _ | PatchMonitor _ | PatchUnstructured _ | UpdateStatus _ => Ok ()
    end
|}.

Lemma found_Ok {A} (x : option A) a : found x = Ok a ↔ x = Some a.
Proof. destruct x; simpl; split; congruence. Qed.

Lemma example_stores : stores "ns" example_init example_ingress.
Proof.
  split; [split|split|done|done].
  - intros h n o. apply found_Ok.
  - done.
  - intros n o. simpl. case_bool_decide; [|done]. by intros [= <-].
  - intros h n o. apply found_Ok.
  - done.
  - done.
Qed.

Definition example_first : list Request :=
  [Get IngressKind "" "cluster"; Get ConfigMapKind "ns" "cfg"; Update ConfigMapKind (example_unmarked <| cm_Meta ::= mark "bs" |>)].

Lemma preprocessSpec_converges_witness :
  ∃ ec, preprocessSpec OpenShift example_bs_config [] = (Ok ec, example_first) ∧
    preprocessSpec OpenShift example_bs_config example_first =
      (Ok ec, example_first ++ [Get IngressKind "" "cluster"; Get ConfigMapKind "ns" "cfg"]).
Proof.
  destruct (preprocessSpec OpenShift example_bs_config []) as [[ec|e|w] h] eqn:E; [|by vm_compute in E..].
  assert (h = example_first) as -> by (vm_compute in E; injection E as _ <-; by vm_compute).
  exists ec. split; [reflexivity|].
  apply (preprocessSpec_converges "bs" "ns" example_init example_ingress ltac:(discriminate) example_stores
    OpenShift example_bs_config [] ec example_first eq_refl eq_refl E).
Defined.

End witness.
