(* ===== verification/Reconcile.v ===== *)
(** * The reconciler (internal/controller/backstage_controller.go, monitor.go,
      plugin-deps.go, backstage_status.go, deployable_finder.go, watchers.go)

    One reconciliation of a custom resource, from reading it to writing its
    status, and the function that maps a change of a watched object to the
    custom resource to reconcile. *)

From S2P Require Import Prelude.
From S2P Require Import GoStrings.
From S2P Require Import K8s.
From S2P Require Import Api.
From S2P Require Import Externals.
From S2P Require Import Utils.
From S2P Require Import Deployable.
From S2P Require Import MetaInfo.
From S2P Require Import BackstageDeployment.
From S2P Require Import DynamicPluginsReference.
From S2P Require Import DynamicPlugins.
From S2P Require Import ExternalConfig.
From S2P Require Import ServiceRoute.
From S2P Require Import DefaultConfig.
From S2P Require Import PluginDeps.
From S2P Require Import Runtime.
From S2P Require Import Client.
From S2P Require Import Status.
From S2P Require Import Preprocess.
From stdpp Require Import options.

(** [Result{}] with the custom resource, whose status the steps set, and the
    requests so far: the status is kept also when a step fails or panics. *)
Definition R `{ks : !KubeScheme} (A : Type) : Type := api.Backstage → list Request → outcome A * api.Backstage * list Request.

Section monad.
Context `{ks : !KubeScheme}.

#[export] Instance R_ret : MRet R := λ A a b h, (Ok a, b, h).
#[export] Instance R_bind : MBind R := λ A B f m b h,
  match m b h with
  | (Ok a, b, h) => f a b h
  | (Err e, b, h) => (Err e, b, h)
  | (Panic w, b, h) => (Panic w, b, h)
  end.

(** A step that does not touch the custom resource *)
Definition step {A} (m : API A) : R A := λ b h, let '(r, h) := m h in (r, b, h).

(** [&backstage] and an assignment to its status *)
Definition current : R api.Backstage := λ b h, (Ok b, b, h).
Definition setStatus (f : api.Backstage → api.Backstage) : R unit := λ b h, (Ok (), f b, h).

Context `{sc : !StatusConditions}.

(** [if err != nil { return errorAndStatus(&backstage, msg, err) }] *)
Definition errorAndStatus (backstage : api.Backstage) (msg : string) (err : error) : api.Backstage * error :=
  (setStatusCondition api.BackstageConditionTypeDeployed ConditionFalse api.BackstageConditionReasonFailed
     (msg +:+ " " +:+ Error err) backstage, Wrapf msg err).

Definition onError {A} (msg : string) (m : R A) : R A := λ b h,
  match m b h with
  | (Err e, b, h) => let '(b, e) := errorAndStatus b msg e in (Err e, b, h)
  | r => r
  end.

End monad.

Section reconciler.
Context `{os : !OS, mo_ : !MapOrder, own : !Ownership, merge2 : !Merge2, wyaml : !WorkloadYaml,
  dy : !DynaYaml, ks : !KubeScheme, fy : !FlavourYaml, ay : !AppConfigYaml, rnd : !Rand,
  srv : !APIServer, rp : !RetryPolicy, nested : !NestedStrings, sha : !Sha256, sc : !StatusConditions}.
Context (platform : Platform).

(** ** Applying objects *)

(** An immutable object is created once and never changed. *)
Definition applyPayload (obj : KObject) (immutable : bool) : API TypeMeta :=
  if immutable then λ h,
    match call (Create obj) h with
    | (Err e, h) => if IsAlreadyExists e then (Ok (objectType obj), h) else (Err (Wrapf "failed to create object" e), h)
    | (Ok _, h) => (Ok (objectType obj), h)
    | (Panic w, h) => (Panic w, h)
    end
  else mapErr (Wrapf "failed to apply object") (call (Patch obj)).

(** The kind the client leaves on the workload is read afterwards. *)
Definition setWorkloadType (t : TypeMeta) (w : Workload) : Workload :=
  match w with
  | WDeployment d => WDeployment (d <| d_Type := t |>)
  | WStatefulSet s => WStatefulSet (s <| s_Type := t |>)
  end.

Definition isDbSecret (obj : RuntimeObject) : bool :=
  match obj with RDbSecret _ => true | _ => false end.

Definition applyObject (done : list RuntimeObject) (obj : RuntimeObject) : API (list RuntimeObject) :=
  match Object_ obj with
  | Some (ConfObject o) =>
      t ← applyPayload o (isDbSecret obj);
      mret (done ++ [match obj with
                     | RDeployment d => RDeployment (mkBackstageDeployment (setWorkloadType t (deployable d)))
                     | _ => obj
                     end])
  | Some (ConfMulti mo) =>
      _ ← foldA (λ _ singleObject, _ ← applyPayload singleObject false; mret ()) () (Items mo);
      mret (done ++ [obj])
  | None => lift (Err (Errorf "unknown type <nil>! it should not happen normally"))
  end.

Definition applyObjects (objects : list RuntimeObject) : API (list RuntimeObject) := foldA applyObject [] objects.

(** ** The ServiceMonitor *)

Definition serviceMonitor (backstage : api.Backstage) : ServiceMonitor :=
  let labels := Some {["app.kubernetes.io/instance" := api.bsName backstage; "app.kubernetes.io/name" := "backstage"]} in
  mkServiceMonitor (mkTypeMeta "monitoring.coreos.com/v1" "ServiceMonitor")
    (mkObjectMeta (GenerateRuntimeObjectName (api.bsName backstage) "metrics") (api.bsNamespace backstage) labels None [])
    labels [api.bsNamespace backstage] [("http-metrics", "/metrics")].

Definition applyServiceMonitor (backstage : api.Backstage) : API unit :=
  if negb (api.IsMonitoringEnabled (api.Spec backstage)) then mret ()
  else
    let sm := serviceMonitor backstage in
    m ← lift (wrapErr "failed to set controller reference" (SetControllerReference backstage (sm_Meta sm)));
    mapErr (Wrapf "failed to apply ServiceMonitor") (call (PatchMonitor (sm <| sm_Meta := m |>))).

(** ** Plugin dependencies: all are tried, the errors are put together *)

Definition combineErrors (errs : list error) : error :=
  Errorf (foldl (λ sb err, sb +:+ Error err +:+ newline_string) "" errs).

Definition applyDependency (errs : list error) (obj : Unstructured) : API (list error) := λ h,
  match call (PatchUnstructured obj) h with
  | (Err e, h) => (Ok (errs ++ [e]), h)
  | (Ok _, h) => (Ok errs, h)
  | (Panic w, h) => (Panic w, h)
  end.

Definition applyPluginDeps (backstage : api.Backstage) (bsModel : BackstageModel) : API unit :=
  match GetRuntimeObject DynamicPluginsKey bsModel with
  | Some (RDynamicPlugins plugins) =>
      objects ← lift (wrapErr "failed to get plugin dependencies" (GetPluginDeps backstage plugins));
      errs ← foldA applyDependency [] objects;
      if bool_decide (0 < length errs) then lift (Err (combineErrors errs)) else mret ()
  | _ => mret ()
  end.

(** ** The final status *)

Definition statefulSetGVK : TypeMeta := mkTypeMeta "apps/v1" "StatefulSet".

(** The state of the workload the server has *)
Definition readState (backstage : api.Backstage) (gvk : TypeMeta) : API (api.BackstageConditionReason * string) :=
  let name := DeploymentName (api.bsName backstage) in
  let ns := api.bsNamespace backstage in
  if bool_decide (gvk = statefulSetGVK)
  then ss ← call (Get StatefulSetKind ns name); mret (statefulSetState ss)
  else d ← call (Get DeploymentKind ns name); mret (deploymentState d).

(** The condition that is set for a state *)
Definition setState (state : api.BackstageConditionReason) (msg : string) (b : api.Backstage) : api.Backstage :=
  let '(state, msg) :=
    if bool_decide (api.bsAnnotation b IdleAnnotation = "true")
    then (api.BackstageConditionReasonIdled, "Instance is idled") else (state, msg) in
  let status := if bool_decide (state = api.BackstageConditionReasonDeployed) then ConditionTrue else ConditionFalse in
  setStatusCondition api.BackstageConditionTypeDeployed status state msg b.

Definition writeState (gvk : TypeMeta) : R unit := λ b h,
  match readState b gvk h with
  | (Err err, h) =>
      (Ok (), setStatusCondition api.BackstageConditionTypeDeployed ConditionFalse api.BackstageConditionReasonFailed (Error err) b, h)
  | (Ok (state, msg), h) => (Ok (), setState state msg b, h)
  | (Panic w, h) => (Panic w, b, h)
  end.

Definition setDeploymentStatus (backstageModel : BackstageModel) : R unit :=
  gvk ← step (lift (GetDeploymentGVK backstageModel));
  writeState gvk.

(** ** Reconcile *)

Definition startStatus (b : api.Backstage) : api.Backstage :=
  if bool_decide (length (api.Conditions (api.Status b)) = 0)
  then setStatusCondition api.BackstageConditionTypeDeployed ConditionFalse api.BackstageConditionReasonInProgress "Deployment process started" b
  else b.

(** Everything between reading the custom resource and the deferred update of
    its status.  The objects without anything to apply are not looked at after
    [applyObjects]. *)
Definition reconcileBackstage : R unit :=
  _ ← setStatus startStatus;
  backstage ← current;
  externalConfig ← onError "failed to preprocess backstage spec" (step (preprocessSpec platform backstage));
  _ ← onError "failed to apply ServiceMonitor" (step (applyServiceMonitor backstage));
  bsModel ← onError "failed to initialize backstage model" (step (lift (InitObjects backstage externalConfig platform)));
  _ ← onError "failed to apply plugin dependencies" (step (applyPluginDeps backstage bsModel));
  applied ← onError "failed to apply backstage objects" (step (applyObjects (GetRuntimeObjects bsModel)));
  setDeploymentStatus (bsModel <| RuntimeObjects := applied |>).

(** The deferred update runs when the body returns or panics; its own failure
    is only logged. *)
Definition Reconcile (namespace name : string) : API unit := λ h,
  match call (Get BackstageKind namespace name) h with
  | (Err err, h) =>
      if IsNotFound err then (Ok (), h)
      else (Err (Wrapf "failed to load backstage deployment from the cluster" err), h)
  | (Panic w, h) => (Panic w, h)
  | (Ok backstage, h) =>
      let '(result, backstage, h) := reconcileBackstage backstage h in
      (result, (call (UpdateStatus backstage) h).2)
  end.

(** ** Requests for changed objects *)

Definition FindDeployment (namespace backstageName : string) : API Workload := λ h,
  let name := DeploymentName backstageName in
  let notFound := Errorf ("neither Deployment nor StatefulSet found for Backstage " +:+ backstageName +:+ " in namespace " +:+ namespace) in
  match call (Get DeploymentKind namespace name) h with
  | (Ok d, h) => (CreateDeployable (KDeployment d), h)
  | (Err err, h) =>
      if IsNotFound err then
        match call (Get StatefulSetKind namespace name) h with
        | (Ok s, h) => (CreateDeployable (KStatefulSet s), h)
        | (Err err, h) => (Err (if IsNotFound err then notFound else err), h)
        | (Panic w, h) => (Panic w, h)
        end
      else (Err err, h)
  | (Panic w, h) => (Panic w, h)
  end.

(** [if err != nil { ...; return []reconcile.Request{} }] *)
Definition orNone {A B} (m : API A) (f : A → API (list B)) : API (list B) := λ h,
  match m h with
  | (Ok a, h) => f a h
  | (Err _, h) => (Ok [], h)
  | (Panic w, h) => (Panic w, h)
  end.

(** The namespaced names to reconcile after a change of an object *)
Definition requestByExtConfigLabel (object : ObjectMeta) : API (list (string * string)) :=
  let backstageName := map_get (Annotations object) BackstageNameAnnotation in
  if bool_decide (backstageName = "") then mret []
  else
    orNone (call (Get BackstageKind (Namespace object) backstageName)) (λ backstage : api.Backstage,
    orNone (FindDeployment (Namespace object) (api.bsName backstage)) (λ deploy,
    orNone (preprocessSpec platform backstage) (λ ec,
      let newHash := WatchingHash ec in
      let oldHash := map_get (Annotations (objectMeta (GetObject deploy))) ExtConfigHashAnnotation in
      if bool_decide (newHash = oldHash) then mret []
      else mret [(Namespace object, api.bsName backstage)]))).

End reconciler.
