(* ===== verification/ReconcileTheorems.v ===== *)
(** * What one reconciliation promises

    The order and the kinds of the requests of [Reconcile], the status it
    leaves in every case, and which changes of watched objects lead to a
    reconciliation. *)

From S2P Require Import Prelude.
From S2P Require Import GoStrings.
From S2P Require Import K8s.
From S2P Require Import Api.
From S2P Require Import Externals.
From S2P Require Import Utils.
From S2P Require Import Deployable.
From S2P Require Import MetaInfo.
From S2P Require Import BackstageDeployment.
From S2P Require Import DynamicPluginsReference.
From S2P Require Import DynamicPlugins.
From S2P Require Import ExternalConfig.
From S2P Require Import ServiceRoute.
From S2P Require Import DefaultConfig.
From S2P Require Import PluginDeps.
From S2P Require Import Runtime.
From S2P Require Import RuntimeSpec.
From S2P Require Import InitTheorems.
From S2P Require Import Client.
From S2P Require Import Status.
From S2P Require Import Preprocess.
From S2P Require Import Examples.
From S2P Require Import Reconcile.
From stdpp Require Import options.

Section theorems.
Context `{os_ : !OS, mo_ : !MapOrder, own : !Ownership, merge2 : !Merge2, wyaml : !WorkloadYaml,
  dy : !DynaYaml, ks : !KubeScheme, fy : !FlavourYaml, ay : !AppConfigYaml, rnd : !Rand,
  srv : !APIServer, rp : !RetryPolicy, nested : !NestedStrings, sha : !Sha256, sc : !StatusConditions}.
Context (platform : Platform).

(** ** Applying the objects *)

(** The requests that apply an object: the database Secret is only ever
    created, everything else is applied *)
Definition plan1 (obj : RuntimeObject) : list Request :=
  match Object_ obj with
  | Some (ConfObject o) => [if isDbSecret obj then Create o else Patch o]
  | Some (ConfMulti mo) => Patch <$> Items mo
  | None => []
  end.
Definition plan (objects : list RuntimeObject) : list Request := objects ≫= plan1.

(** The server accepts every request of a list; one that exists already is as
    good as created *)
Definition accepted (h : list Request) (r : Request) : Prop :=
  match respond h r with
  | Ok _ => True
  | Err e => match r with Create _ => IsAlreadyExists e = true | _ => False end
  | Panic _ => False
  end.
Fixpoint accepts (h : list Request) (l : list Request) : Prop :=
  match l with
  | [] => True
  | r :: l => accepted h r ∧ accepts (h ++ [r]) l
  end.

Lemma accepts_app h l l' : accepts h (l ++ l') ↔ accepts h l ∧ accepts (h ++ l) l'.
Proof.
  revert h. induction l as [|r l IH]; intros h; simpl; [rewrite app_nil_r; tauto|].
  rewrite IH, <- (assoc_L (++)). simpl. tauto.
Qed.

(** A computation goes through a list of requests: it issues a prefix of them,
    stops at the first that is refused, and succeeds exactly when all are
    accepted. *)
Definition follows_at {A} (l h : list Request) (r : outcome A * list Request) : Prop :=
  ∃ p, r.2 = h ++ p ∧ p `prefix_of` l ∧ (is_Ok r.1 = true ↔ p = l ∧ accepts h l) ∧
    (is_Ok r.1 = true ∨ ∃ p' r, p = p' ++ [r] ∧ accepts h p' ∧ ¬ accepted (h ++ p') r).
Definition follows {A} (l : list Request) (m : API A) : Prop := ∀ h, follows_at l h (m h).

Lemma follows_accepted {A} l (m : API A) h : follows l m → accepts h l → ∃ a, m h = (Ok a, h ++ l).
Proof.
  intros Hm Ha. destruct (Hm h) as (p & Hp & [k ->] & Hok & Hstop). destruct (m h) as [[a|e|w] h']; simpl in *; subst h'.
  - destruct (proj1 Hok eq_refl) as [Hl _]. exists a. by rewrite <- Hl.
  - exfalso. destruct Hstop as [|(p' & r & -> & _ & Hr)]; [done|].
    apply accepts_app in Ha as [[_ Ha]%accepts_app _]. by destruct Ha.
  - exfalso. destruct Hstop as [|(p' & r & -> & _ & Hr)]; [done|].
    apply accepts_app in Ha as [[_ Ha]%accepts_app _]. by destruct Ha.
Qed.

Lemma follows_ret {A} (a : A) : follows [] (mret a : API A).
Proof. intros h. exists []. rewrite app_nil_r. split_and!; [done..| |by left]. simpl. tauto. Qed.

Lemma follows_bind {A B} l l' (m : API A) (f : A → API B) :
  follows l m → (∀ a, follows l' (f a)) → follows (l ++ l') (m ≫= f).
Proof.
  intros Hm Hf h. destruct (Hm h) as (p & Hp & Hpre & Hok & Hstop). unfold mbind, API_bind.
  assert (∀ r : outcome B, is_Ok r = false → is_Ok (m h).1 = false → follows_at (l ++ l') h (r, h ++ p)) as Hfail.
  { intros r Hr Hn. exists p. split; [done|]. split; [by apply prefix_app_r|]. simpl. rewrite Hr, Hn in *. split.
    - split; [done|]. intros [-> [Ha _]%accepts_app]. apply Hok. split; [|done].
      apply (anti_symm prefix); [done|by exists l'].
    - destruct Hstop as [|?]; [done|by right]. }
  destruct (m h) as [[a|e|w] h'] eqn:E; simpl in *; subst h'; [|by apply Hfail..].
  destruct (proj1 Hok eq_refl) as [-> Hacc]. destruct (Hf a (h ++ l)) as (p' & Hp' & Hpre' & Hok' & Hstop').
  exists (l ++ p'). rewrite Hp', (assoc_L (++)). split; [done|]. split; [by apply prefix_app|]. split.
  - rewrite Hok', accepts_app. split; [intros [-> ?]; tauto|]. intros [?%app_inv_head ?]. tauto.
  - destruct Hstop' as [|(q & r & -> & Hq & Hr)]; [by left|right]. exists (l ++ q), r.
    rewrite (assoc_L (++)), accepts_app. split; [done|]. split; [done|]. by rewrite (assoc_L (++)).
Qed.

Lemma follows_foldA {A B} (g : B → list Request) (f : A → B → API A) a l :
  (∀ a b, b ∈ l → follows (g b) (f a b)) → follows (l ≫= g) (foldA f a l).
Proof.
  revert a. induction l as [|b l IH]; intros a Hf; simpl; [apply follows_ret|].
  apply follows_bind; [apply Hf; by left|]. intros a'. apply IH. intros x y Hy. apply Hf. by right.
Qed.

Lemma follows_one {A} r (m : API A) :
  (∀ h, (m h).2 = h ++ [r] ∧ (is_Ok (m h).1 = true ↔ accepted h r)) → follows [r] m.
Proof.
  intros Hm h. destruct (Hm h) as [Hl Ho]. exists [r]. split; [done|]. split; [done|]. split.
  - rewrite Ho. simpl. tauto.
  - destruct (is_Ok (m h).1); [by left|right]. exists [], r. rewrite app_nil_r. split; [done|]. split; [done|].
    intros Ha. by apply Ho in Ha.
Qed.

Lemma follows_payload o (immutable : bool) :
  follows [if immutable then Create o else Patch o] (applyPayload o immutable).
Proof.
  apply follows_one. intros h. unfold applyPayload, mapErr, call, accepted.
  destruct immutable; destruct (respond _ _) as [u|e|w]; simpl; try (by split); by destruct (IsAlreadyExists e).
Qed.

Lemma follows_fmap {A B} l (m : API A) (f : A → B) : follows l m → follows l (m ≫= λ a, mret (f a)).
Proof. intros Hm. rewrite <- (app_nil_r l). apply follows_bind; [done|]. intros; apply follows_ret. Qed.

Lemma follows_items l : follows (Patch <$> l) (foldA (λ _ o, _ ← applyPayload o false; mret ()) () l).
Proof.
  replace (Patch <$> l) with (l ≫= λ o, [Patch o]) by (clear; induction l as [|o l IH]; [done|]; cbn [mbind list_bind fmap list_fmap app]; f_equal; exact IH).
  apply follows_foldA. intros [] o _. apply follows_fmap, (follows_payload o false).
Qed.

Lemma follows_applyObject done obj : is_some (Object_ obj) = true → follows (plan1 obj) (applyObject done obj).
Proof.
  intros Hs. unfold plan1, applyObject. destruct (Object_ obj) as [[o|mo]|]; [| |done].
  - apply follows_fmap, follows_payload.
  - apply follows_fmap, follows_items.
Qed.

Lemma applyObjects_follows objects :
  Forall (λ o, is_some (Object_ o) = true) objects → follows (plan objects) (applyObjects objects).
Proof.
  intros Hs. apply follows_foldA. intros a o Ho. apply follows_applyObject. by eapply Forall_forall in Hs.
Qed.

(** The objects of a model all have something to apply. *)
Lemma GetRuntimeObjects_some m : Forall (λ o, is_some (Object_ o) = true) (GetRuntimeObjects m).
Proof.
  unfold GetRuntimeObjects. apply (foldl_invariant (Forall (λ o, is_some (Object_ o) = true))); [|done].
  intros acc o _ Ha. destruct (is_some (Object_ o)) eqn:E; [|done]. apply Forall_app. split; [done|by constructor].
Qed.

(** C10. The objects of a model are applied in the order of the model, each
    item of a multi-object by itself: the database Secret is created and never
    patched, so that its passwords stay, and everything else is patched and
    never created.  Applying stops at the first request the server refuses,
    where an existing database Secret counts as success, and succeeds exactly
    when the server takes all of them. *)
Theorem applyObjects_plan m h :
  ∃ p, (applyObjects (GetRuntimeObjects m) h).2 = h ++ p ∧ p `prefix_of` plan (GetRuntimeObjects m) ∧
    (is_Ok (applyObjects (GetRuntimeObjects m) h).1 = true ↔ p = plan (GetRuntimeObjects m) ∧ accepts h (plan (GetRuntimeObjects m))) ∧
    (is_Ok (applyObjects (GetRuntimeObjects m) h).1 = true ∨
     ∃ p' r, p = p' ++ [r] ∧ accepts h p' ∧ ¬ accepted (h ++ p') r).
Proof. apply applyObjects_follows, GetRuntimeObjects_some. Qed.

(** ** The other steps *)

(** The only request of the monitoring step *)
Definition monitor_request (b : api.Backstage) (l : list Request) : Prop :=
  l = [] ∨ (api.IsMonitoringEnabled (api.Spec b) = true ∧ ∃ m, l = [PatchMonitor ((serviceMonitor b) <| sm_Meta := m |>)]).

Lemma requests_monitor b : leaves (λ _, monitor_request b) (applyServiceMonitor b).
Proof.
  intros h. unfold applyServiceMonitor, monitor_request. destruct (api.IsMonitoringEnabled _); simpl negb; cbn iota.
  - cbv zeta. unfold mbind, API_bind, lift. destruct (SetControllerReference _ _) as [m|e|w]; cbn [wrapErr];
      [|exists []; rewrite app_nil_r; split; [done|by left]..].
    exists [PatchMonitor ((serviceMonitor b) <| sm_Meta := m |>)]. split; [|right; by split; [|exists m]].
    simpl. unfold mapErr, call. by destruct (respond h (PatchMonitor _)).
  - exists []. rewrite app_nil_r. split; [done|by left].
Qed.

(** All the dependencies are tried, also after one has failed. *)
Lemma dependencies_tried objs errs h :
  let '(r, h') := foldA applyDependency errs objs h in
  match r with
  | Ok errs' => h' = h ++ (PatchUnstructured <$> objs) ∧ ∃ more, errs' = errs ++ more ∧
      (more = [] ↔ ∀ l1 o l2, objs = l1 ++ o :: l2 →
         respond (h ++ (PatchUnstructured <$> l1)) (PatchUnstructured o) = Ok ())
  | Err _ => False
  | Panic _ => ∃ p, p `prefix_of` objs ∧ h' = h ++ (PatchUnstructured <$> p)
  end.
Proof.
  revert errs h. induction objs as [|o objs IH]; intros errs h; cbn [foldA].
  { unfold mret, API_ret. rewrite app_nil_r. split; [done|]. exists []. rewrite app_nil_r. split; [done|].
    split; [|done]. intros _ l1 o l2 H. by destruct l1. }
  unfold mbind, API_bind, applyDependency at 1, call.
  destruct (respond h (PatchUnstructured o)) as [[]|e|w] eqn:E.
  - specialize (IH errs (h ++ [PatchUnstructured o])).
    destruct (foldA _ _ _ _) as [[errs'|e|w] h'].
    + destruct IH as (-> & more & -> & Hm). rewrite <- (assoc_L (++)). split; [done|]. exists more. split; [done|].
      rewrite Hm. split.
      * intros Ha [|x l1] y l2 [= -> Hl]; [by rewrite app_nil_r|].
        cbn [fmap list_fmap]. rewrite <- (Ha l1 y l2 Hl) at 1. by rewrite <- (assoc_L (++)).
      * intros Ha l1 y l2 ->. rewrite <- (assoc_L (++)). by apply (Ha (o :: l1) y l2).
    + done.
    + destruct IH as (p & Hp & ->). exists (o :: p). split; [by apply prefix_cons|]. by rewrite <- (assoc_L (++)).
  - specialize (IH (errs ++ [e]) (h ++ [PatchUnstructured o])).
    destruct (foldA _ _ _ _) as [[errs'|e'|w] h'].
    + destruct IH as (-> & more & -> & Hm). rewrite <- (assoc_L (++)). split; [done|]. exists (e :: more).
      rewrite <- (assoc_L (++)). split; [done|]. split; [done|]. intros Ha. specialize (Ha [] o objs eq_refl).
      rewrite app_nil_r in Ha. congruence.
    + done.
    + destruct IH as (p & Hp & ->). exists (o :: p). split; [by apply prefix_cons|]. by rewrite <- (assoc_L (++)).
  - exists [o]. split; [|done]. apply prefix_cons, prefix_nil.
Qed.

Lemma requests_deps b m : issues (λ r, ∃ u, r = PatchUnstructured u) (applyPluginDeps b m).
Proof.
  assert (∀ errs o, issues (λ r, ∃ u, r = PatchUnstructured u) (applyDependency errs o)) as Hd.
  { intros errs o h. exists [PatchUnstructured o]. unfold applyDependency, call.
    destruct (respond _ _); (split; [done|]); (constructor; [by exists o|done]). }
  unfold applyPluginDeps. destruct (GetRuntimeObject _ _) as [[]|]; try apply issues_ret.
  apply issues_bind; [apply issues_lift|]. intros objs. apply issues_bind; [by apply issues_foldA; intros; apply Hd|].
  intros errs. case_bool_decide; [apply issues_lift|apply issues_ret].
Qed.

(** C38. Every dependency of the enabled plugins is applied, also after one
    could not be: the step fails exactly when the server refused one. *)
Theorem applyPluginDeps_all b m plugins objs h :
  GetRuntimeObject DynamicPluginsKey m = Some (RDynamicPlugins plugins) → GetPluginDeps b plugins = Ok objs →
  is_Panic (applyPluginDeps b m h).1 = false →
  (applyPluginDeps b m h).2 = h ++ (PatchUnstructured <$> objs) ∧
  (is_Ok (applyPluginDeps b m h).1 = true ↔
   ∀ l1 o l2, objs = l1 ++ o :: l2 → respond (h ++ (PatchUnstructured <$> l1)) (PatchUnstructured o) = Ok ()).
Proof.
  intros Hm Ho. unfold applyPluginDeps. rewrite Hm. unfold mbind, API_bind. rewrite Ho. cbn [wrapErr].
  unfold lift. cbv beta iota. pose proof (dependencies_tried objs [] h) as H.
  destruct (foldA _ _ _ _) as [[errs|e|w] h']; [|done|done].
  destruct H as (-> & more & -> & Hm'). intros _. case_bool_decide as Hl; (split; [done|]); rewrite <- Hm'; simpl.
  - split; [done|]. intros ->. simpl in Hl. lia.
  - split; [|done]. intros _. destruct more; [done|simpl in Hl; lia].
Qed.

(** The ServiceMonitor selects what the operator creates: every object
    that carries the labels of the custom resource has the labels it asks for,
    and it looks in the namespace of the custom resource only. *)
Theorem serviceMonitor_selects b m : owned_by b m →
  (∀ k v, map_lookup (sm_MatchLabels (serviceMonitor b)) k = Some v → map_lookup (Labels m) k = Some v) ∧
  sm_MatchNames (serviceMonitor b) = [Namespace m].
Proof.
  intros [Hn Ha Hi _]. unfold serviceMonitor. cbn [sm_MatchLabels sm_MatchNames]. split; [|by rewrite Hn].
  intros k v. unfold map_lookup at 1. simpl. intros [[<- <-]|[_ [<- <-]%lookup_singleton_Some]]%lookup_insert_Some; done.
Qed.

(** ** A reconciliation, step by step *)

(** A step that ends the reconciliation: by its error, which the status and
    the caller are told of, or by a panic *)
Definition failed (b : api.Backstage) (msg : string) (e : error) : api.Backstage := (errorAndStatus b msg e).1.

Definition stops {A} (msg : string) (m : API A) (b : api.Backstage) (h : list Request)
    (r : outcome unit) (b' : api.Backstage) (h' : list Request) : Prop :=
  (∃ e, m h = (Err e, h') ∧ r = Err (Wrapf msg e) ∧ b' = failed b msg e) ∨
  (∃ w, m h = (Panic w, h') ∧ r = Panic w ∧ b' = b).

Inductive reconciles (b : api.Backstage) (h : list Request) (r : outcome unit) (b' : api.Backstage) (h' : list Request) : Prop :=
  | stops_preprocess :
      stops "failed to preprocess backstage spec" (preprocessSpec platform b) b h r b' h' → reconciles b h r b' h'
  | stops_monitor ec h1 :
      preprocessSpec platform b h = (Ok ec, h1) →
      stops "failed to apply ServiceMonitor" (applyServiceMonitor b) b h1 r b' h' → reconciles b h r b' h'
  | stops_model ec h1 h2 :
      preprocessSpec platform b h = (Ok ec, h1) → applyServiceMonitor b h1 = (Ok (), h2) →
      stops "failed to initialize backstage model" (lift (InitObjects b ec platform)) b h2 r b' h' → reconciles b h r b' h'
  | stops_deps ec h1 h2 m :
      preprocessSpec platform b h = (Ok ec, h1) → applyServiceMonitor b h1 = (Ok (), h2) →
      InitObjects b ec platform = Ok m →
      stops "failed to apply plugin dependencies" (applyPluginDeps b m) b h2 r b' h' → reconciles b h r b' h'
  | stops_objects ec h1 h2 m h3 :
      preprocessSpec platform b h = (Ok ec, h1) → applyServiceMonitor b h1 = (Ok (), h2) →
      InitObjects b ec platform = Ok m → applyPluginDeps b m h2 = (Ok (), h3) →
      stops "failed to apply backstage objects" (applyObjects (GetRuntimeObjects m)) b h3 r b' h' → reconciles b h r b' h'
  | finishes ec h1 h2 m h3 applied h4 :
      preprocessSpec platform b h = (Ok ec, h1) → applyServiceMonitor b h1 = (Ok (), h2) →
      InitObjects b ec platform = Ok m → applyPluginDeps b m h2 = (Ok (), h3) →
      applyObjects (GetRuntimeObjects m) h3 = (Ok applied, h4) →
      setDeploymentStatus (m <| RuntimeObjects := applied |>) b h4 = (r, b', h') → reconciles b h r b' h'.

Lemma onError_step {A B} msg (m : API A) (f : A → R B) b h :
  (onError msg (step m) ≫= f) b h =
  match m h with
  | (Ok a, h') => f a b h'
  | (Err e, h') => (Err (Wrapf msg e), failed b msg e, h')
  | (Panic w, h') => (Panic w, b, h')
  end.
Proof. unfold mbind, R_bind, onError, step, failed. by destruct (m h) as [[]]. Qed.

Lemma reconcileBackstage_reconciles b h r b' h' :
  reconcileBackstage platform b h = (r, b', h') → reconciles (startStatus b) h r b' h'.
Proof.
  unfold reconcileBackstage. unfold mbind at 1, R_bind at 1, setStatus at 1. unfold mbind at 1, R_bind at 1, current at 1.
  set (b0 := startStatus b). rewrite onError_step.
  destruct (preprocessSpec platform b0 h) as [[ec|e|w] h1] eqn:E1; [|intros [= <- <- <-]; apply stops_preprocess; unfold stops; eauto..].
  rewrite onError_step.
  destruct (applyServiceMonitor b0 h1) as [[[]|e|w] h2] eqn:E2; [|intros [= <- <- <-]; eapply stops_monitor; [done|]; unfold stops; eauto..].
  rewrite onError_step. unfold lift at 1.
  destruct (InitObjects b0 ec platform) as [m|e|w] eqn:E3;
    [|intros [= <- <- <-]; eapply stops_model; [done..|]; unfold stops, lift; rewrite E3; eauto..].
  rewrite onError_step.
  destruct (applyPluginDeps b0 m h2) as [[[]|e|w] h3] eqn:E4; [|intros [= <- <- <-]; eapply stops_deps; [done..|]; unfold stops; eauto..].
  rewrite onError_step.
  destruct (applyObjects (GetRuntimeObjects m) h3) as [[applied|e|w] h4] eqn:E5;
    [|intros [= <- <- <-]; eapply stops_objects; [done..|]; unfold stops; eauto..].
  intros H. by eapply finishes.
Qed.

(** ** The workload among the applied objects *)

Lemma GetKey_deployment o : GetKey o = DeploymentKey ↔ ∃ d, o = RDeployment d.
Proof. split; [destruct o; try done; by eexists|by intros (d & ->)]. Qed.

Lemma getDeployment_elem m : (∃ d, RDeployment d ∈ RuntimeObjects m) → ∃ p, getDeployment m = Some p.
Proof.
  unfold getDeployment. induction (RuntimeObjects m) as [|o l IH]; intros (d & Hd); [by apply not_elem_of_nil in Hd|].
  simpl. destruct (String.eqb (GetKey o) DeploymentKey && is_some (Object_ o)) eqn:E.
  - apply andb_true_iff in E as [(d' & ->)%String.eqb_eq%GetKey_deployment _]. by eexists.
  - apply elem_of_cons in Hd as [<-|Hd]; [done|]. destruct IH as (p & Hp); [by exists d|].
    destruct (findObject _ l) as [[i [| | | | | | | | | | | |]]|]; try done. by eexists.
Qed.

(** Applying keeps the workload among the objects. *)
Lemma applyObjects_deployment objects h applied h' :
  applyObjects objects h = (Ok applied, h') → (∃ d, RDeployment d ∈ objects) → ∃ d, RDeployment d ∈ applied.
Proof.
  unfold applyObjects. generalize (@nil RuntimeObject) as done. revert h. induction objects as [|o l IH]; intros h done H (d & Hd).
  { by apply not_elem_of_nil in Hd. }
  cbn [foldA] in H. apply API_bind_Ok in H as (done' & h1 & H1 & H).
  apply elem_of_cons in Hd as [<-|Hd]; [|by eapply IH; [done|exists d]].
  unfold applyObject in H1. cbn [Object_] in H1. apply API_bind_Ok in H1 as (t & h2 & _ & H1). injection H1 as <- _.
  eapply (foldA_invariant (λ l, ∃ d, RDeployment d ∈ l)); [| |exact H].
  - intros x b k x' k' _ (d' & Hd') Hx. exists d'. unfold applyObject in Hx.
    destruct (Object_ b) as [[]|]; [| |done]; apply API_bind_Ok in Hx as (? & ? & _ & Hx); injection Hx as <- _;
      apply elem_of_app; by left.
  - eexists. apply elem_of_app. right. by left.
Qed.

(** The one workload of a model, and its place among the objects applied *)
Lemma InitObjects_workload b ec m : InitObjects b ec platform = Ok m →
  ∃ i d before after, getDeployment m = Some (i, d) ∧ GetRuntimeObjects m = before ++ RDeployment d :: after ∧
    Forall (λ o, GetKey o ≠ DeploymentKey) before.
Proof.
  intros (flavours & P & P' & _ & _ & _ & ->)%InitObjects_built. exists 6, (mkBackstageDeployment (p_Workload P')).
  rewrite getDeployment_parts, modelOf_GetRuntimeObjects.
  change (objects P') with (take 6 (objects P') ++ RDeployment (mkBackstageDeployment (p_Workload P')) :: drop 7 (objects P')).
  rewrite filter_app, filter_cons, decide_True by done. do 2 eexists. split; [done|]. split; [done|].
  apply Forall_forall. intros o [_ Ho]%list_elem_of_filter. cbn in Ho.
  by repeat (apply elem_of_cons in Ho as [->|Ho]); [..|by apply not_elem_of_nil in Ho].
Qed.

Lemma InitObjects_deployment b ec m : InitObjects b ec platform = Ok m → ∃ d, RDeployment d ∈ GetRuntimeObjects m.
Proof.
  intros (i & d & before & after & _ & -> & _)%InitObjects_workload. exists d. apply elem_of_app. right. by left.
Qed.

Lemma foldA_app {A B} (f : A → B → API A) a l1 l2 h c h' :
  foldA f a (l1 ++ l2) h = (Ok c, h') → ∃ x h1, foldA f a l1 h = (Ok x, h1) ∧ foldA f x l2 h1 = (Ok c, h').
Proof.
  revert a h. induction l1 as [|b l IH]; intros a h H; [by exists a, h|]. cbn [app foldA] in H.
  apply API_bind_Ok in H as (a' & h1 & H1 & H). apply IH in H as (x & h2 & H2 & H). exists x, h2. split; [|done].
  cbn [foldA]. unfold mbind, API_bind. by rewrite H1.
Qed.

(** Objects other than the workload are not changed by applying them. *)
Lemma applyObject_same done o h done' h' : GetKey o ≠ DeploymentKey →
  applyObject done o h = (Ok done', h') → done' = done ++ [o].
Proof.
  intros Hk H. unfold applyObject in H. destruct (Object_ o) as [[]|]; [| |done]; apply API_bind_Ok in H as (t & h1 & _ & H);
    injection H as <- _; [|done]. destruct o; try done.
Qed.

Lemma applyObjects_same l done h res h' : Forall (λ o, GetKey o ≠ DeploymentKey) l →
  foldA applyObject done l h = (Ok res, h') → res = done ++ l.
Proof.
  revert done h. induction l as [|o l IH]; intros done h Hl H; cbn [foldA] in H; [injection H as <- _; by rewrite app_nil_r|].
  apply Forall_cons in Hl as [Ho Hl]. apply API_bind_Ok in H as (a & h1 & H1%applyObject_same & H); [|done].
  apply IH in H; [|done]. subst. by rewrite <- (assoc_L (++)).
Qed.

Lemma applyObjects_keeps l done h res h' : foldA applyObject done l h = (Ok res, h') → ∃ k, res = done ++ k.
Proof.
  revert done h. induction l as [|o l IH]; intros done h H; cbn [foldA] in H; [injection H as <- _; exists []; by rewrite app_nil_r|].
  apply API_bind_Ok in H as (a & h1 & H1 & H). apply IH in H as (k & ->). unfold applyObject in H1.
  destruct (Object_ o) as [[]|]; [| |done]; apply API_bind_Ok in H1 as (t & h2 & _ & H1); injection H1 as <- _;
    eexists; by rewrite <- (assoc_L (++)).
Qed.

Lemma findObject_skip key before o after :
  Forall (λ o, GetKey o ≠ key) before → GetKey o = key → is_some (Object_ o) = true →
  findObject key (before ++ o :: after) = Some (length before, o).
Proof.
  intros Hb Hk Ho. induction Hb as [|x l Hx _ IH]; simpl; [by rewrite Hk, String.eqb_refl, Ho|].
  rewrite (proj2 (String.eqb_neq _ _) Hx). simpl. by rewrite IH.
Qed.

(** After applying, the kind of the workload is the one the server answered
    when the workload was applied. *)
Lemma applyObjects_GVK m before d after h applied h' :
  GetRuntimeObjects m = before ++ RDeployment d :: after → Forall (λ o, GetKey o ≠ DeploymentKey) before →
  applyObjects (GetRuntimeObjects m) h = (Ok applied, h') →
  ∃ t, respond (h ++ plan before) (Patch (GetObject (deployable d))) = Ok t ∧
    GetDeploymentGVK (m <| RuntimeObjects := applied |>) = Ok t.
Proof.
  intros Hm Hb H. pose proof (GetRuntimeObjects_some m) as Hs. rewrite Hm in H, Hs. apply Forall_app in Hs as [Hs _].
  unfold applyObjects in H. apply foldA_app in H as (x & h1 & H1 & H). cbn [foldA] in H.
  apply API_bind_Ok in H as (y & h2 & H2 & H). pose proof (applyObjects_follows _ Hs h) as (p & Hp & _ & Hok & _).
  unfold applyObjects in Hp, Hok. rewrite H1 in Hp, Hok. simpl in Hp, Hok. subst h1. destruct (proj1 Hok eq_refl) as [-> _].
  apply applyObjects_same in H1 as ->; [|done]. cbn [app] in H2. unfold applyObject in H2. cbn [Object_] in H2.
  apply API_bind_Ok in H2 as (t & h3 & Ht & H2). injection H2 as <- _.
  unfold applyPayload in Ht. cbn [isDbSecret] in Ht. apply mapErr_Ok in Ht. injection Ht as Ht _. exists t. split; [done|].
  apply applyObjects_keeps in H as (k & ->). rewrite <- (assoc_L (++)). unfold GetDeploymentGVK, getDeployment.
  cbv zeta. cbn [app].
  change (RuntimeObjects (m <| RuntimeObjects := ?l |>)) with l.
  rewrite findObject_skip by done. simpl. by destruct (deployable d).
Qed.

(** ** The status *)

(** What the server says of the workload *)
Definition workload_ready (k : ReadKind) (ns name : string) (h : list Request) : Prop :=
  match k with
  | DeploymentKind => ∃ d : Deployment, respond h (Get DeploymentKind ns name) = Ok d ∧
      d_ReadyReplicas d = default 1%Z (d_Replicas d)
  | StatefulSetKind => ∃ s : StatefulSet, respond h (Get StatefulSetKind ns name) = Ok s ∧
      s_ReadyReplicas s = default 1%Z (s_Replicas s) ∧ s_CurrentReplicas s = s_UpdatedReplicas s
  | _ => False
  end.

Definition is_idle (b : api.Backstage) : Prop := api.bsAnnotation b IdleAnnotation = "true".

Definition deployed_as (b : api.Backstage) (reason : api.BackstageConditionReason) : Prop :=
  ∃ msg, deployedCondition b = Some (mkCondition api.BackstageConditionTypeDeployed
    (if bool_decide (reason = api.BackstageConditionReasonDeployed) then ConditionTrue else ConditionFalse)
    (api.reasonString reason) msg).

(** The custom resource but for its status *)
Definition same_spec (b b' : api.Backstage) : Prop := api.bs_Meta b' = api.bs_Meta b ∧ api.Spec b' = api.Spec b.

Lemma deploymentState_deployed d :
  (deploymentState d).1 = api.BackstageConditionReasonDeployed ↔ d_ReadyReplicas d = default 1%Z (d_Replicas d).
Proof.
  destruct (deploymentState_cases d) as [[H ->]|[H [(c & _ & _ & ->)|(_ & msg & ->)]]]; naive_solver.
Qed.

Lemma statefulSetState_deployed s :
  (statefulSetState s).1 = api.BackstageConditionReasonDeployed ↔
  s_ReadyReplicas s = default 1%Z (s_Replicas s) ∧ s_CurrentReplicas s = s_UpdatedReplicas s.
Proof. unfold statefulSetState. repeat case_bool_decide; naive_solver. Qed.

Lemma setState_spec state msg b :
  same_spec b (setState state msg b) ∧
  deployed_as (setState state msg b) (if bool_decide (is_idle b) then api.BackstageConditionReasonIdled else state).
Proof.
  unfold setState, is_idle. case_bool_decide; (split; [done|]); unfold deployed_as; rewrite deployedCondition_set; by eexists.
Qed.

(** The status once the answer for the workload is there *)
Lemma setState_reported (state : api.BackstageConditionReason) msg b (P : Prop) :
  (state = api.BackstageConditionReasonDeployed ↔ P) →
  ∃ reason, deployed_as (setState state msg b) reason ∧
    (reason = api.BackstageConditionReasonDeployed ↔ ¬ is_idle b ∧ P).
Proof.
  intros HP. destruct (setState_spec state msg b) as [_ Hd]. eexists. split; [exact Hd|].
  case_bool_decide; naive_solver.
Qed.

(** The outcome of reading the workload *)
Definition status_read (k : ReadKind) (b : api.Backstage) (h : list Request) (r : outcome unit) (b' : api.Backstage) (h' : list Request) : Prop :=
  h' = h ++ [Get k (api.bsNamespace b) (DeploymentName (api.bsName b))] ∧ same_spec b b' ∧
  match r with
  | Ok _ => ∃ reason, deployed_as b' reason ∧
      (reason = api.BackstageConditionReasonDeployed ↔
       ¬ is_idle b ∧ workload_ready k (api.bsNamespace b) (DeploymentName (api.bsName b)) h)
  | Err _ => False
  | Panic _ => b' = b ∧ is_Panic (respond h (Get k (api.bsNamespace b) (DeploymentName (api.bsName b)))) = true
  end.

(** The kind of workload that is read: a StatefulSet if that is what the
    server called the workload when it was applied, else a Deployment *)
Definition kindRead (t : TypeMeta) : ReadKind :=
  if bool_decide (t = mkTypeMeta "apps/v1" "StatefulSet") then StatefulSetKind else DeploymentKind.

Lemma writeState_spec gvk b h r b' h' :
  writeState gvk b h = (r, b', h') →
  status_read (kindRead gvk) b h r b' h'.
Proof.
  unfold kindRead. fold statefulSetGVK. unfold writeState, readState, mbind, API_bind, call.
  case_bool_decide; (destruct (respond h _) as [u|e|w] eqn:E; [|intros [= <- <- <-]..]).
  - destruct (statefulSetState u) as [state msg] eqn:Es. cbn [mret API_ret]. intros [= <- <- <-].
    split; [done|]. split; [apply setState_spec|]. apply setState_reported. simpl.
    transitivity ((statefulSetState u).1 = api.BackstageConditionReasonDeployed); [by rewrite Es|].
    rewrite statefulSetState_deployed. split; [intros; by exists u|]. intros (s & Hs & ?). by replace u with s by congruence.
  - split; [done|]. split; [done|]. exists api.BackstageConditionReasonFailed. split.
    + unfold deployed_as. rewrite deployedCondition_set. by eexists.
    + split; [done|]. intros [_ (s & Hs & _)]. congruence.
  - split_and!; [done..|by rewrite E].
  - destruct (deploymentState u) as [state msg] eqn:Es. cbn [mret API_ret]. intros [= <- <- <-].
    split; [done|]. split; [apply setState_spec|]. apply setState_reported. simpl.
    transitivity ((deploymentState u).1 = api.BackstageConditionReasonDeployed); [by rewrite Es|].
    rewrite deploymentState_deployed. split; [intros; by exists u|]. intros (s & Hs & ?). by replace u with s by congruence.
  - split; [done|]. split; [done|]. exists api.BackstageConditionReasonFailed. split.
    + unfold deployed_as. rewrite deployedCondition_set. by eexists.
    + split; [done|]. intros [_ (s & Hs & _)]. congruence.
  - split_and!; [done..|by rewrite E].
Qed.

(** A model whose objects were applied has a workload whose state is read. *)
Lemma setDeploymentStatus_spec m applied b h r b' h' :
  (∃ d, RDeployment d ∈ applied) → setDeploymentStatus (m <| RuntimeObjects := applied |>) b h = (r, b', h') →
  ∃ k, k ∈ [DeploymentKind; StatefulSetKind] ∧ status_read k b h r b' h'.
Proof.
  intros Hd. destruct (getDeployment_elem (m <| RuntimeObjects := applied |>)) as (p & Hp); [exact Hd|].
  unfold setDeploymentStatus, GetDeploymentGVK. rewrite Hp. intros H%writeState_spec.
  eexists. split; [|exact H]. unfold kindRead. case_bool_decide; [right|]; by left.
Qed.

(** The state of the workload of a model that was built and applied *)
Lemma applied_status b ec m h applied h4 r b' h' :
  InitObjects b ec platform = Ok m → applyObjects (GetRuntimeObjects m) h = (Ok applied, h4) →
  setDeploymentStatus (m <| RuntimeObjects := applied |>) b h4 = (r, b', h') →
  ∃ i d before after t, getDeployment m = Some (i, d) ∧ GetRuntimeObjects m = before ++ RDeployment d :: after ∧
    respond (h ++ plan before) (Patch (GetObject (deployable d))) = Ok t ∧ status_read (kindRead t) b h4 r b' h'.
Proof.
  intros Hm%InitObjects_workload Ha Hs. destruct Hm as (i & d & before & after & Hd & Ho & Hb).
  destruct (applyObjects_GVK m before d after h applied h4 Ho Hb Ha) as (t & Ht & Hg).
  exists i, d, before, after, t. split_and!; [done..|]. unfold setDeploymentStatus in Hs. rewrite Hg in Hs. by apply writeState_spec in Hs.
Qed.

(** ** The whole reconciliation *)

(** The requests of a reconciliation, by phase: [l1] preprocesses the custom
    resource, [l2] applies the ServiceMonitor, [l3] the dependencies of the
    plugins, [l4] the objects of the model and [l5] reads the workload.
    Anything in a phase, and success, needs the phases before it to have
    succeeded with just the requests before it, on the model built from what
    preprocessing returned. *)
Definition phases (b : api.Backstage) (h h' : list Request) (r : outcome unit) : Prop :=
  ∃ l1 l2 l3 l4 l5, h' = h ++ l1 ++ l2 ++ l3 ++ l4 ++ l5 ∧
  preprocess_trace (api.bsName b) (api.bsNamespace b) h l1 ∧
  monitor_request b l2 ∧
  Forall (λ r, ∃ u, r = PatchUnstructured u) l3 ∧
  (l5 = [] ∨ ∃ k, k ∈ [DeploymentKind; StatefulSetKind] ∧ l5 = [Get k (api.bsNamespace b) (DeploymentName (api.bsName b))]) ∧
  (l2 ++ l3 ++ l4 ++ l5 ≠ [] ∨ r = Ok () → ∃ ec,
     preprocessSpec platform b h = (Ok ec, h ++ l1) ∧
  (l3 ++ l4 ++ l5 ≠ [] ∨ r = Ok () → ∃ m,
     applyServiceMonitor b (h ++ l1) = (Ok (), h ++ l1 ++ l2) ∧ InitObjects b ec platform = Ok m ∧
  (l4 ++ l5 ≠ [] ∨ r = Ok () →
     applyPluginDeps b m (h ++ l1 ++ l2) = (Ok (), h ++ l1 ++ l2 ++ l3) ∧
     l4 `prefix_of` plan (GetRuntimeObjects m) ∧
  (l5 ≠ [] ∨ r = Ok () →
     l4 = plan (GetRuntimeObjects m) ∧ accepts (h ++ l1 ++ l2 ++ l3) l4)))).

Lemma stops_history {A} msg (m : API A) b h r b' h' : stops msg m b h r b' h' →
  ∃ x, m h = (x, h') ∧ is_Ok x = false ∧ r ≠ Ok ().
Proof. intros [(e & Hm & -> & _)|(w & Hm & -> & _)]; by eexists. Qed.

Lemma issued {A} P (m : API A) h x h' : issues P m → m h = (x, h') → ∃ l, h' = h ++ l ∧ Forall P l.
Proof. intros Hm H. destruct (Hm h) as (l & Hl & Hp). rewrite H in Hl. by exists l. Qed.

(** What the first phases request *)
Ltac phase_requests :=
  repeat match goal with
  | H : preprocessSpec platform _ _ = _ |- _ =>
      let l := fresh "l1" in let Hp := fresh "Hp1" in let E := fresh in pose proof H as E;
      apply (leaves_Ok _ _ _ _ _ (preprocess_requests platform _)) in E as (l & -> & Hp); revert H
  | H : applyServiceMonitor _ _ = _ |- _ =>
      let l := fresh "l2" in let Hp := fresh "Hp2" in let E := fresh in pose proof H as E;
      apply (leaves_Ok _ _ _ _ _ (requests_monitor _)) in E as (l & -> & Hp); revert H
  | H : applyPluginDeps _ _ _ = _ |- _ =>
      let l := fresh "l3" in let Hp := fresh "Hp3" in let E := fresh in pose proof H as E;
      apply (issued _ _ _ _ _ (requests_deps _ _)) in E as (l & -> & Hp); revert H
  end; intros.

(** The phases a reconciliation has not come to are empty. *)
Ltac phases_are l1 l2 l3 l4 l5 :=
  exists l1, l2, l3, l4, l5; rewrite ?app_nil_r, <- ?(assoc_L (++)) in *;
  split_and!; try done; try (by constructor); try (by left).

Lemma reconciles_phases b h r b' h' : reconciles b h r b' h' → phases b h h' r.
Proof.
  intros H. destruct H as [Hs|ec h1 H1 Hs|ec h1 h2 H1 H2 Hs|ec h1 h2 m H1 H2 H3 Hs|ec h1 h2 m h3 H1 H2 H3 H4 Hs
    |ec h1 h2 m h3 applied h4 H1 H2 H3 H4 H5 Hs]; try (apply stops_history in Hs as (x & Hs & Hx & Hr)).
  - phase_requests. phases_are l1 (@nil Request) (@nil Request) (@nil Request) (@nil Request). naive_solver.
  - phase_requests. phases_are l1 l2 (@nil Request) (@nil Request) (@nil Request).
    intros _. exists ec. split; [done|]. naive_solver.
  - unfold lift in Hs. injection Hs as <- <-. phase_requests. phases_are l1 l2 (@nil Request) (@nil Request) (@nil Request).
    intros _. exists ec. split; [done|]. naive_solver.
  - phase_requests. phases_are l1 l2 l3 (@nil Request) (@nil Request).
    intros _. exists ec. split; [done|]. intros _. exists m. split_and!; [done..|]. naive_solver.
  - destruct (applyObjects_follows _ (GetRuntimeObjects_some m) h3) as (l4 & Hl4 & Hpre & _). rewrite Hs in Hl4. simpl in Hl4. subst h'.
    phase_requests. phases_are l1 l2 l3 l4 (@nil Request).
    intros _. exists ec. split; [done|]. intros _. exists m. split_and!; [done..|]. intros _. split_and!; [done..|]. naive_solver.
  - destruct (applyObjects_follows _ (GetRuntimeObjects_some m) h3) as (l4 & Hl4 & Hpre & Hok & _). rewrite H5 in Hl4, Hok. simpl in Hl4, Hok. subst h4.
    destruct (proj1 Hok eq_refl) as [-> Hacc].
    apply setDeploymentStatus_spec in Hs as (k & Hk & -> & _); [|eapply applyObjects_deployment, InitObjects_deployment; done].
    phase_requests. phases_are l1 l2 l3 (plan (GetRuntimeObjects m)) [Get k (api.bsNamespace b) (DeploymentName (api.bsName b))].
    + right. by exists k.
    + intros _. exists ec. split; [done|]. intros _. exists m. split_and!; [done..|]. intros _. split_and!; [done..|]. by intros _.
Qed.

Lemma startStatus_spec b : same_spec b (startStatus b).
Proof. unfold startStatus. by case_bool_decide. Qed.

Lemma failed_spec b msg e : same_spec b (failed b msg e) ∧
  deployedCondition (failed b msg e) = Some (mkCondition api.BackstageConditionTypeDeployed ConditionFalse
    (api.reasonString api.BackstageConditionReasonFailed) (msg +:+ " " +:+ Error e)).
Proof. unfold failed, errorAndStatus. cbn [fst]. by rewrite deployedCondition_set. Qed.

#[export] Instance same_spec_preorder : PreOrder same_spec.
Proof. split; [by split|]. intros b1 b2 b3 [H1 H2] [H3 H4]. split; congruence. Qed.

(** The status a reconciliation leaves: on success it tells what the server
    says of the workload [d] of the model, when all of the model has been
    applied, in the kind the server answered when [d] itself was applied. *)
Definition status_left (b : api.Backstage) (h h' : list Request) (r : outcome unit) (b' : api.Backstage) : Prop :=
  match r with
  | Err e => ∃ msg cause, e = Wrapf msg cause ∧
      deployedCondition b' = Some (mkCondition api.BackstageConditionTypeDeployed ConditionFalse
        (api.reasonString api.BackstageConditionReasonFailed) (msg +:+ " " +:+ Error cause))
  | Ok _ => ∃ ec h1 h2 h3 m i d before after t reason,
      preprocessSpec platform b h = (Ok ec, h1) ∧ applyServiceMonitor b h1 = (Ok (), h2) ∧
      InitObjects b ec platform = Ok m ∧ applyPluginDeps b m h2 = (Ok (), h3) ∧
      getDeployment m = Some (i, d) ∧ GetRuntimeObjects m = before ++ RDeployment d :: after ∧
      respond (h3 ++ plan before) (Patch (GetObject (deployable d))) = Ok t ∧
      let applied := h3 ++ plan (GetRuntimeObjects m) in
      let ns := api.bsNamespace b in
      let name := DeploymentName (api.bsName b) in
      h' = applied ++ [Get (kindRead t) ns name] ∧ deployed_as b' reason ∧
      (reason = api.BackstageConditionReasonDeployed ↔ ¬ is_idle b ∧ workload_ready (kindRead t) ns name applied)
  | Panic _ => b' = b
  end.

Lemma stops_status {A} msg (m : API A) b h0 h r b' h' :
  stops msg m b h r b' h' → same_spec b b' ∧ status_left b h0 h' r b'.
Proof.
  intros [(e & _ & -> & ->)|(w & _ & -> & ->)]; [|done]. destruct (failed_spec b msg e) as [Hs Hd].
  split; [done|]. by exists msg, e.
Qed.

Lemma reconciles_status b h r b' h' : reconciles b h r b' h' → same_spec b b' ∧ status_left b h h' r b'.
Proof.
  intros [Hs|ec h1 _ Hs|ec h1 h2 _ _ Hs|ec h1 h2 m _ _ _ Hs|ec h1 h2 m h3 _ _ _ _ Hs
    |ec h1 h2 m h3 applied h4 H1 H2 H3 H4 H5 Hs]; [by eapply stops_status..|].
  destruct (applied_status b ec m h3 applied h4 r b' h' H3 H5 Hs) as (i & d & before & after & t & Hd & Ho & Ht & -> & Hsame & Hr).
  split; [done|]. destruct r as [[]|e|w]; [|done|by destruct Hr]. destruct Hr as (reason & Hdep & Hr).
  destruct (applyObjects_follows _ (GetRuntimeObjects_some m) h3) as (p & Hp & _ & Hok & _). rewrite H5 in Hp, Hok. simpl in Hp, Hok.
  destruct (proj1 Hok eq_refl) as [-> _]. subst h4.
  exists ec, h1, h2, h3, m, i, d, before, after, t, reason. done.
Qed.

(** [Reconcile] for a custom resource that is there *)
Lemma Reconcile_found ns n bs h : respond h (Get BackstageKind ns n) = Ok bs →
  ∃ r b' h', Reconcile platform ns n h = (r, h' ++ [UpdateStatus b']) ∧
    reconciles (startStatus bs) (h ++ [Get BackstageKind ns n]) r b' h'.
Proof.
  intros Hr. unfold Reconcile, call. rewrite Hr.
  destruct (reconcileBackstage _ _ _) as [[r b'] h'] eqn:E. exists r, b', h'. split; [done|].
  by apply reconcileBackstage_reconciles.
Qed.

Lemma plan_status l : Forall (λ r, is_status r = false) (plan l).
Proof.
  apply Forall_bind, Forall_forall. intros o _. change (Forall (λ r, is_status r = false) (plan1 o)). unfold plan1.
  destruct (Object_ o) as [[x|mo]|]; [|by apply Forall_fmap, Forall_true|by constructor].
  constructor; [by destruct (isDbSecret o)|done].
Qed.

Lemma phases_status b h h' r : phases b h h' r → ∃ l, h' = h ++ l ∧ Forall (λ r, is_status r = false) l.
Proof.
  intros (l1 & l2 & l3 & l4 & l5 & -> & H1%preprocess_trace_status & H2 & H3 & H5 & H).
  eexists. split; [done|]. repeat (apply Forall_app; split); [done|..].
  - destruct H2 as [->|(_ & m & ->)]; by repeat constructor.
  - eapply Forall_impl; [exact H3|]. by intros r0 (m & ->).
  - destruct (decide (l4 = [])) as [->|Hn]; [done|].
    destruct H as (ec & _ & H); [left; by destruct l2, l3, l4|]. destruct H as (m & _ & _ & H); [left; by destruct l3, l4|].
    destruct H as (_ & [k Hk] & _); [left; by destruct l4|]. pose proof (plan_status (GetRuntimeObjects m)) as Hp.
    rewrite Hk in Hp. by apply Forall_app in Hp as [Hp _].
  - destruct H5 as [->|(k & _ & ->)]; by repeat constructor.
Qed.

(** C1. Every reconciliation of an existing custom resource ends with exactly
    one update of its status, also after an error or a panic, and changes
    nothing else of it.  A returned error is what the status tells as a failed
    deployment.  Without one, the whole model has been applied and its workload
    read once, after that, in the kind the server gave it when it was applied;
    and the status says deployed exactly when the custom resource is not idled
    and this read reports all the desired replicas ready and, of a StatefulSet,
    as many current replicas as updated ones. *)
Theorem Reconcile_status ns n bs h : respond h (Get BackstageKind ns n) = Ok bs →
  let started := h ++ [Get BackstageKind ns n] in
  ∃ r b' h', Reconcile platform ns n h = (r, h' ++ [UpdateStatus b']) ∧
    (∃ l, h' = started ++ l ∧ Forall (λ r, is_status r = false) l) ∧
    same_spec bs b' ∧ status_left (startStatus bs) started h' r b'.
Proof.
  intros (r & b' & h' & Hr & H)%Reconcile_found started. exists r, b', h'. split; [done|].
  destruct (reconciles_status _ _ _ _ _ H) as [Hs Hl]. split; [|split; [etrans; [apply startStatus_spec|done]|done]].
  by eapply phases_status, reconciles_phases.
Qed.

(** C2. The phases of a reconciliation come in order, and each is reached
    only after the ones before it have succeeded: the ServiceMonitor is applied
    only after everything the custom resource refers to could be read; a
    dependency of a plugin only after that and after the model could be built;
    an object of the model only after every dependency has been accepted; and
    the workload is read, and success returned, only after all of the objects
    of this model, in its order and no others, have been accepted. *)
Theorem Reconcile_phases ns n bs h : respond h (Get BackstageKind ns n) = Ok bs →
  ∃ r b' h', Reconcile platform ns n h = (r, h' ++ [UpdateStatus b']) ∧
    phases (startStatus bs) (h ++ [Get BackstageKind ns n]) h' r.
Proof.
  intros (r & b' & h' & Hr & H)%Reconcile_found. exists r, b', h'. split; [done|]. by eapply reconciles_phases.
Qed.

(** A custom resource that is gone is no error, any other failure to read
    it is returned, and in neither case is anything else requested. *)
Theorem Reconcile_unread ns n h e : respond h (Get BackstageKind ns n) = Err e →
  Reconcile platform ns n h =
    (if IsNotFound e then Ok () else Err (Wrapf "failed to load backstage deployment from the cluster" e),
     h ++ [Get BackstageKind ns n]).
Proof. intros Hr. unfold Reconcile, call. rewrite Hr. by destruct (IsNotFound e). Qed.

(** A run whose phases can be done *)
Lemma reconcile_run ns n bs h ec h1 h2 m h3 :
  let h0 := h ++ [Get BackstageKind ns n] in
  let h4 := h3 ++ plan (GetRuntimeObjects m) in
  let b := startStatus bs in
  respond h (Get BackstageKind ns n) = Ok bs →
  preprocessSpec platform b h0 = (Ok ec, h1) → applyServiceMonitor b h1 = (Ok (), h2) →
  InitObjects b ec platform = Ok m → applyPluginDeps b m h2 = (Ok (), h3) →
  accepts h3 (plan (GetRuntimeObjects m)) →
  (∀ k, is_Panic (respond h4 (Get k (api.bsNamespace b) (DeploymentName (api.bsName b)))) = false) →
  ∃ k b', Reconcile platform ns n h = (Ok (), h4 ++ [Get k (api.bsNamespace b) (DeploymentName (api.bsName b))] ++ [UpdateStatus b']).
Proof.
  intros h0 h4 b Hr H1 H2 H3 H4 H5 H6. unfold Reconcile, call. rewrite Hr. unfold reconcileBackstage.
  unfold mbind at 1, R_bind at 1, setStatus at 1. unfold mbind at 1, R_bind at 1, current at 1. fold b h0.
  rewrite onError_step, H1, onError_step, H2, onError_step. unfold lift at 1. rewrite H3, onError_step, H4, onError_step.
  destruct (follows_accepted _ _ _ (applyObjects_follows _ (GetRuntimeObjects_some m)) H5) as (applied & E). rewrite E. fold h4.
  destruct (setDeploymentStatus _ b h4) as [[r b'] h'] eqn:Es.
  assert (∃ d, RDeployment d ∈ applied) as Hd by (eapply applyObjects_deployment; [exact E|by eapply InitObjects_deployment]).
  destruct (setDeploymentStatus_spec m applied b h4 r b' h' Hd Es) as (k & _ & -> & _ & Hk).
  exists k, b'. rewrite (assoc_L (++)). destruct r as [[]|e|w]; [done|done|]. destruct Hk as [_ Hk]. by rewrite H6 in Hk.
Qed.

(** ** Which changes are followed *)

(** A change of a watched object asks for at most one reconciliation, of
    the custom resource its annotation names in its own namespace, and only if
    that custom resource and its workload are there and the hash of the
    external configuration is not the one on the workload. *)
Theorem requestByExtConfigLabel_spec object h l h' :
  requestByExtConfigLabel platform object h = (Ok l, h') →
  l = [] ∨ ∃ bs deploy ec h1 h2 h3,
    map_get (Annotations object) BackstageNameAnnotation ≠ "" ∧
    respond h (Get BackstageKind (Namespace object) (map_get (Annotations object) BackstageNameAnnotation)) = Ok bs ∧
    FindDeployment (Namespace object) (api.bsName bs) h1 = (Ok deploy, h2) ∧
    preprocessSpec platform bs h2 = (Ok ec, h3) ∧
    WatchingHash ec ≠ map_get (Annotations (objectMeta (GetObject deploy))) ExtConfigHashAnnotation ∧
    l = [(Namespace object, api.bsName bs)].
Proof.
  unfold requestByExtConfigLabel. case_bool_decide as Hn; [intros [= <- _]; by left|].
  unfold orNone at 1, call. destruct (respond h _) as [bs|e|w] eqn:E1; [|intros [= <- _]; by left|done].
  unfold orNone at 1. set (h1 := h ++ _). destruct (FindDeployment _ _ h1) as [[deploy|e|w] h2] eqn:E2; [|intros [= <- _]; by left|done].
  unfold orNone. destruct (preprocessSpec _ _ h2) as [[ec|e|w] h3] eqn:E3; [|intros [= <- _]; by left|done].
  cbv zeta. case_bool_decide as Hh; intros [= <- _]; [by left|right]. by exists bs, deploy, ec, h1, h2, h3.
Qed.

(** The hash is looked for in the annotations of the workload object,
    while the operator writes it into those of the pod template: a workload
    that does not carry the annotation itself is reconciled for every change
    of a marked object, also when the hash of the content has not changed. *)
Theorem requestByExtConfigLabel_always object h bs deploy ec h1 h2 :
  let name := map_get (Annotations object) BackstageNameAnnotation in
  name ≠ "" → respond h (Get BackstageKind (Namespace object) name) = Ok bs →
  FindDeployment (Namespace object) (api.bsName bs) (h ++ [Get BackstageKind (Namespace object) name]) = (Ok deploy, h1) →
  preprocessSpec platform bs h1 = (Ok ec, h2) → WatchingHash ec ≠ "" →
  map_lookup (Annotations (objectMeta (GetObject deploy))) ExtConfigHashAnnotation = None →
  requestByExtConfigLabel platform object h = (Ok [(Namespace object, api.bsName bs)], h2).
Proof.
  intros name Hn H1 H2 H3 Hh Ha. unfold requestByExtConfigLabel. fold name. rewrite bool_decide_eq_false_2 by done.
  unfold orNone, call. rewrite H1, H2, H3. cbv zeta. unfold map_get. rewrite Ha. simpl.
  by rewrite bool_decide_eq_false_2.
Qed.

End theorems.

(** ** Instances *)

Section witnesses.
#[local] Existing Instances MapOrder_asc Ownership_set Merge2_patch WorkloadYaml_example DynaYaml_lines
  example_init_scheme example_init_flavours example_init_yaml example_init_rand example_init_os
  example_sha example_retries example_nested StatusConditions_set.
#[local] Instance example_reconcile_server : APIServer := example_server example_contents.

Definition example_run := Reconcile Kubernetes "ns" "bs" [].

(** The run: the custom resource and its ConfigMap are read, the database
    Secret is created, the other objects are applied, the workload is read and
    the status is written. *)
Definition request_kind (r : Request) : string :=
  match r with
  | Get _ _ n => "get " +:+ n
  | Update _ _ => "update"
  | Create o => "create " +:+ goType o
  | Patch o => "patch " +:+ goType o
  | PatchMonitor _ => "patch monitor"
  | PatchUnstructured _ => "patch dependency"
  | UpdateStatus _ => "status"
  end.
Example example_run_result : fst example_run = Ok ().
Proof. by vm_compute. Qed.
Example example_run_requests : request_kind <$> snd example_run =
  ["get bs"; "get cfg"; "create *v1.Secret"; "patch *v1.Service"; "patch *v1.StatefulSet"; "patch *v1.Deployment";
   "patch *v1.Service"; "get backstage-bs"; "status"].
Proof. by vm_compute. Qed.

Lemma Reconcile_status_witness :
  ∃ b' h', example_run = (Ok (), h' ++ [UpdateStatus b']) ∧ same_spec example_bs_config b'.
Proof.
  destruct (Reconcile_status Kubernetes "ns" "bs" example_bs_config []) as (r & b' & h' & H & _ & Hs & _); [reflexivity|].
  pose proof example_run_result as Hr. unfold example_run in *. rewrite H in Hr. cbn [fst] in Hr. subst r. exists b', h'. exact (conj H Hs).
Defined.

Lemma Reconcile_phases_witness :
  ∃ b' h', example_run = (Ok (), h' ++ [UpdateStatus b']) ∧
    phases Kubernetes (startStatus example_bs_config) [Get BackstageKind "ns" "bs"] h' (Ok ()).
Proof.
  destruct (Reconcile_phases Kubernetes "ns" "bs" example_bs_config []) as (r & b' & h' & H & Hs); [reflexivity|].
  pose proof example_run_result as Hr. unfold example_run in *. rewrite H in Hr. cbn [fst] in Hr. subst r. exists b', h'. exact (conj H Hs).
Defined.

(** The model of the run *)
Definition example_config : ExternalConfig :=
  match fst (preprocessSpec Kubernetes (startStatus example_bs_config) [Get BackstageKind "ns" "bs"]) with
  | Ok ec => ec | _ => NewExternalConfig end.
Definition example_run_model : BackstageModel :=
  match InitObjects (startStatus example_bs_config) example_config Kubernetes with
  | Ok m => m | _ => mkBackstageModel false false [] NewExternalConfig end.

Lemma requestByExtConfigLabel_spec_witness :
  ∃ (bs : api.Backstage) (deploy : Workload) (ec : ExternalConfig), api.bsName bs = "bs" ∧
    WatchingHash ec ≠ map_get (Annotations (objectMeta (GetObject deploy))) ExtConfigHashAnnotation.
Proof.
  destruct (requestByExtConfigLabel_spec Kubernetes (cm_Meta example_cfg) [] [("ns", "bs")]
    [Get BackstageKind "ns" "bs"; Get DeploymentKind "ns" "backstage-bs"; Get ConfigMapKind "ns" "cfg"])
    as [H|(bs & deploy & ec & _ & _ & _ & _ & _ & _ & _ & Hh & H)]; [by vm_compute|discriminate H|].
  exists bs, deploy, ec. split; [by injection H as H|exact Hh].
Defined.

Definition example_deployable : Workload := WDeployment (example_deployment <| d_ReadyReplicas := 1%Z |>).

Lemma requestByExtConfigLabel_always_witness :
  requestByExtConfigLabel Kubernetes (cm_Meta example_cfg) [] =
    (Ok [("ns", "bs")], [Get BackstageKind "ns" "bs"; Get DeploymentKind "ns" "backstage-bs"; Get ConfigMapKind "ns" "cfg"]).
Proof.
  apply (requestByExtConfigLabel_always Kubernetes (cm_Meta example_cfg) [] example_bs_config example_deployable example_config
    [Get BackstageKind "ns" "bs"; Get DeploymentKind "ns" "backstage-bs"]); by vm_compute.
Defined.

Lemma serviceMonitor_selects_witness :
  map_lookup (Labels (mkObjectMeta "svc" "ns" (SetKubeLabels None "bs") None [mkOwnerReference "Backstage" "bs" true]))
    "app.kubernetes.io/instance" = Some "bs".
Proof.
  apply (serviceMonitor_selects example_bs (mkObjectMeta "svc" "ns" (SetKubeLabels None "bs") None [mkOwnerReference "Backstage" "bs" true])).
  - split; [done..|by left].
  - by vm_compute.
Defined.

(** A cluster without the custom resource *)
Lemma Reconcile_unread_witness (srv := example_server (mkContents None ∅ None (λ _, None))) :
  @Reconcile _ _ _ _ _ _ _ _ _ _ srv _ _ _ _ Kubernetes "ns" "bs" [] = (Ok (), [Get BackstageKind "ns" "bs"]).
Proof. exact (@Reconcile_unread _ _ _ _ _ _ _ _ _ _ srv _ _ _ _ Kubernetes "ns" "bs" [] example_NotFound eq_refl). Defined.

End witnesses.

Section dependencies.
#[local] Existing Instances Ownership_set example_deps_scheme example_deps_os example_deps_yaml.
#[local] Instance example_deps_server : APIServer := {|
  respond _ r := match r return outcome (Reply r) with PatchUnstructured _ => Ok () | _ => Err example_NotFound end |}.

Lemma applyPluginDeps_all_witness :
  let m := mkBackstageModel false false [RDynamicPlugins example_deps_plugins] NewExternalConfig in
  ∃ u, snd (applyPluginDeps example_deps_bs m []) = [PatchUnstructured u].
Proof.
  intros m. destruct (GetPluginDeps example_deps_bs example_deps_plugins) as [[|u [|u' l]]|e|w] eqn:E; try (by vm_compute in E).
  exists u. apply (applyPluginDeps_all example_deps_bs m example_deps_plugins [u] []); [by vm_compute|exact E|by vm_compute].
Defined.

End dependencies.
