(* ===== verification/Store.v ===== *)
(** * Servers that keep what was written

    The interface of an API server that holds one value per name and kind: an
    object that is applied replaces what was held, one that is created is kept
    only if nothing was there.  Against any such server, applying the objects
    of a model a second time changes nothing. *)

From S2P Require Import Prelude.
From S2P Require Import GoStrings.
From S2P Require Import K8s.
From S2P Require Import Api.
From S2P Require Import Externals.
From S2P Require Import MetaInfo.
From S2P Require Import Runtime.
From S2P Require Import Password.
From S2P Require Import Client.
From S2P Require Import Preprocess.
From S2P Require Import Reconcile.
From S2P Require Import ReconcileTheorems.
From stdpp Require Import gmap.
From stdpp Require Import options.

(** [NameKind] of mock_client.go *)
Record NameKind := mkNameKind { nk_Name : string; nk_Kind : string }.
#[export] Instance NameKind_eq_dec : EqDecision NameKind.
Proof. solve_decision. Defined.
#[export] Program Instance NameKind_countable : Countable NameKind :=
  inj_countable' (λ k, (nk_Name k, nk_Kind k)) (λ p, mkNameKind p.1 p.2) _.
Next Obligation. by intros []. Qed.

(** A server-side apply *)
Definition is_patch `{ks : !KubeScheme} (r : Request) : bool :=
  match r with Patch _ | PatchMonitor _ | PatchUnstructured _ => true | _ => false end.

(** The same but for the generated password *)
Inductive same_request `{ks : !KubeScheme} : Request → Request → Prop :=
  | same_request_refl r : same_request r r
  | same_request_Create s s' : same_secret s s' → same_request (Create (KSecret s)) (Create (KSecret s')).

(** What reading, applying and creating promise; the status of the custom
    resource does not count.  An apply that was accepted once is accepted again
    as long as no object is gone, and a create is when the object is there. *)
Class StoreServer `{ks : !KubeScheme, srv : !APIServer} := {
  stored : Type;
  keyOf : Request → NameKind;
  encoded : Request → stored;
  contents : list Request → gmap NameKind stored;
  read_contents h r : is_write r = false ∨ is_status r = true → contents (h ++ [r]) = contents h;
  patch_contents h r : is_patch r = true → accepted h r → contents (h ++ [r]) = <[keyOf r := encoded r]> (contents h);
  patch_again h h' r : is_patch r = true → dom (contents h) ⊆ dom (contents h') → accepted h r → accepted h' r;
  Create_contents h o : accepted h (Create o) →
    contents (h ++ [Create o]) =
      match contents h !! keyOf (Create o) with
      | Some _ => contents h
      | None => <[keyOf (Create o) := encoded (Create o)]> (contents h)
      end;
  keyOf_same r r' : same_request r r' → keyOf r = keyOf r';
  Create_again h h' o o' : same_request (Create o) (Create o') → accepted h (Create o) →
    is_Some (contents h' !! keyOf (Create o)) → accepted h' (Create o')
}.

Section store.
Context `{os_ : !OS, ks : !KubeScheme, srv : !APIServer, st : !StoreServer}.

(** ** What a sequence of writes leaves *)

Definition effect (c : gmap NameKind stored) (r : Request) : gmap NameKind stored :=
  match r with
  | Create _ => match c !! keyOf r with Some _ => c | None => <[keyOf r := encoded r]> c end
  | _ => if is_patch r then <[keyOf r := encoded r]> c else c
  end.

Definition is_apply (r : Request) : bool :=
  match r with Create _ => true | _ => is_patch r end.

(** The value of the last patch of a key, and of its first create *)
Fixpoint lastPatch (k : NameKind) (l : list Request) : option stored :=
  match l with
  | [] => None
  | r :: l => lastPatch k l ∪ (if is_patch r && bool_decide (keyOf r = k) then Some (encoded r) else None)
  end.
Fixpoint firstCreate (k : NameKind) (l : list Request) : option stored :=
  match l with
  | [] => None
  | r :: l =>
      match r with Create _ => if bool_decide (keyOf r = k) then Some (encoded r) else None | _ => None end ∪ firstCreate k l
  end.

#[local] Lemma option_union_assoc {A} (x y z : option A) : x ∪ (y ∪ z) = x ∪ y ∪ z.
Proof. by destruct x, y, z. Qed.

(** A key holds its last patch, else what it held before, else its first create. *)
Lemma effects_lookup l c k :
  foldl effect c l !! k = lastPatch k l ∪ (c !! k ∪ firstCreate k l).
Proof.
  revert c. induction l as [|r l IH]; intros c; simpl.
  { by destruct (c !! k). }
  rewrite IH. assert (effect c r !! k =
    (if is_patch r && bool_decide (keyOf r = k) then Some (encoded r) else None) ∪
    (c !! k ∪ match r with Create _ => if bool_decide (keyOf r = k) then Some (encoded r) else None | _ => None end)) as ->.
  { destruct r; simpl; try (by destruct (c !! k)).
    all: case_bool_decide as Hk; [subst k|]; try (destruct (c !! keyOf _) eqn:E);
      rewrite ?E, ?lookup_insert_eq, ?lookup_insert_ne by done; first [done|by destruct (c !! k)|by destruct (c !! keyOf _)]. }
  by rewrite !option_union_assoc.
Qed.

Lemma lastPatch_same k l l' : Forall2 same_request l l' → lastPatch k l = lastPatch k l'.
Proof. induction 1 as [|r r' l l' [r0|s s' Hs] Hl IH]; simpl; [done|by rewrite IH|by rewrite IH]. Qed.
Lemma firstCreate_same k l l' : Forall2 same_request l l' → firstCreate k l = None → firstCreate k l' = None.
Proof.
  induction 1 as [|r r' l l' [r0|s s' Hs] Hl IH]; cbn [firstCreate]; [done| |].
  - intros [-> H]%union_None. by rewrite IH.
  - rewrite (keyOf_same _ _ (same_request_Create _ _ Hs)). intros [Hk H]%union_None. case_bool_decide; [done|]. by rewrite IH.
Qed.

(** Writing the same again changes nothing. *)
Lemma effects_idempotent l l' c : Forall2 same_request l l' → foldl effect (foldl effect c l) l' = foldl effect c l.
Proof.
  intros Hl. apply map_eq. intros k. rewrite !effects_lookup, <- (lastPatch_same k _ _ Hl).
  pose proof (firstCreate_same k _ _ Hl) as Hf.
  destruct (lastPatch k l), (c !! k), (firstCreate k l), (firstCreate k l'); try done; naive_solver.
Qed.

Lemma lastPatch_None k l : lastPatch k l = None ↔ Forall (λ r, is_patch r = true → keyOf r ≠ k) l.
Proof.
  induction l as [|r l IH]; simpl; [done|]. rewrite Forall_cons, <- IH.
  destruct (is_patch r); simpl; [case_bool_decide|]; destruct (lastPatch k l); naive_solver.
Qed.

(** The keys a request adds *)
Definition written (r : Request) : gset NameKind := if is_apply r then {[keyOf r]} else ∅.

Lemma effect_dom c r : dom (effect c r) = written r ∪ dom c.
Proof.
  destruct r as [| |o|o| | |]; unfold written; simpl; rewrite ?dom_insert_L, ?(left_id_L ∅ (∪)); try done.
  destruct (c !! keyOf _) eqn:E; [|by rewrite dom_insert_L]. apply elem_of_dom_2 in E. set_solver.
Qed.

Lemma effects_dom l c : dom c ⊆ dom (foldl effect c l).
Proof. revert c. induction l as [|r l IH]; intros c; simpl; [done|]. rewrite <- IH, effect_dom. set_solver. Qed.

Lemma effects_written l c r : r ∈ l → is_apply r = true → keyOf r ∈ dom (foldl effect c l).
Proof.
  revert c. induction l as [|x l IH]; intros c Hin Hr; [by apply not_elem_of_nil in Hin|]. simpl.
  apply elem_of_cons in Hin as [<-|Hin]; [|by apply IH]. apply effects_dom. rewrite effect_dom. unfold written. rewrite Hr. set_solver.
Qed.

(** ** The server follows *)

Lemma contents_effect h r : is_apply r = true → accepted h r → contents (h ++ [r]) = effect (contents h) r.
Proof. destruct r; try done; intros _ Ha; [by apply Create_contents|by apply patch_contents..]. Qed.

Lemma contents_effects l h : Forall (λ r, is_apply r = true) l → accepts h l → contents (h ++ l) = foldl effect (contents h) l.
Proof.
  intros Hl. revert h. induction Hl as [|r l Hr Hl IH]; intros h Ha; [by rewrite app_nil_r|]. destruct Ha as [Ha Hl'].
  replace (h ++ r :: l) with ((h ++ [r]) ++ l) by (by rewrite <- (assoc_L (++))).
  rewrite IH by done. simpl. by rewrite contents_effect.
Qed.

(** Requests that do not change the objects *)
Lemma contents_reads l h : Forall (λ r, is_write r = false ∨ is_status r = true) l → contents (h ++ l) = contents h.
Proof.
  intros Hl. revert h. induction Hl as [|r l Hr Hl IH]; intros h; [by rewrite app_nil_r|].
  replace (h ++ r :: l) with ((h ++ [r]) ++ l) by (by rewrite <- (assoc_L (++))). by rewrite IH, read_contents.
Qed.

Lemma accepts_again l l' h h' :
  Forall2 same_request l l' → Forall (λ r, is_apply r = true) l → accepts h l → dom (contents h) ⊆ dom (contents h') →
  (∀ r, r ∈ l → keyOf r ∈ dom (contents h')) → accepts h' l'.
Proof.
  intros Hll. revert h h'. induction Hll as [|r r' l l' Hrr Hll IH]; intros h h' Hl Ha Hd Hc; [done|]. destruct Ha as [Ha Hl'].
  apply Forall_cons in Hl as [Hr Hl]. assert (accepted h' r' ∧ is_apply r' = true) as [Hr' Hra].
  { destruct Hrr as [r|s s' Hs]; (split; [|done]).
    - destruct r; try done; [eapply Create_again; [by constructor|done|apply elem_of_dom, Hc; by left]|by eapply patch_again..].
    - eapply Create_again; [by constructor|done|apply elem_of_dom, Hc; by left]. }
  split; [done|]. eapply IH; [done|done|..]; rewrite ?contents_effect, ?effect_dom by done.
  - assert (written r' = written r) as ->; [|set_solver]. unfold written. by rewrite Hr, Hra, (keyOf_same _ _ Hrr).
  - intros r'' Hr''. apply elem_of_union_r, Hc. by right.
Qed.

Lemma same_requests_apply l l' :
  Forall2 same_request l l' → Forall (λ r, is_apply r = true) l → Forall (λ r, is_apply r = true) l'.
Proof. induction 1 as [|r r' l l' [] _ IH]; [done|..]; intros [Hr Hl]%Forall_cons; constructor; auto. Qed.

(** Requests that were all accepted can be repeated, and then change nothing. *)
Lemma applied_again l l' h h' :
  Forall2 same_request l l' → Forall (λ r, is_apply r = true) l → accepts h l → contents h' = contents (h ++ l) →
  accepts h' l' ∧ contents (h' ++ l') = contents h'.
Proof.
  intros Hll Hl Ha Hc. pose proof (contents_effects l h Hl Ha) as He.
  assert (accepts h' l') as Ha'.
  { eapply accepts_again; [done..| |]; rewrite Hc, He; [apply effects_dom|]. intros r Hr.
    apply effects_written; [done|]. by eapply Forall_forall in Hl. }
  split; [done|]. rewrite contents_effects, Hc, He by eauto using same_requests_apply. by apply effects_idempotent.
Qed.

Lemma same_requests_refl l : Forall2 same_request l l.
Proof. induction l; repeat constructor; done. Qed.

(** The objects of a model are only patched or created. *)
Lemma plan_apply objects : Forall (λ r, is_apply r = true) (plan objects).
Proof.
  apply Forall_bind, Forall_true. intros obj. unfold plan1; simpl. destruct (Object_ obj) as [[o|mo]|].
  - constructor; [by destruct (isDbSecret obj)|done].
  - by apply Forall_fmap, Forall_true.
  - done.
Qed.

(** ** Applying a model *)

(** C11. Once the objects of a model could be applied, applying them again
    succeeds and leaves the server as it is; what only the creation of the
    database Secret concerns, the generated password above all, stays what it was
    before if it was there. *)
Theorem applyObjects_idempotent m h applied h1 :
  applyObjects (GetRuntimeObjects m) h = (Ok applied, h1) →
  (∃ applied' h2, applyObjects (GetRuntimeObjects m) h1 = (Ok applied', h2) ∧ contents h2 = contents h1) ∧
  (∀ k v, contents h !! k = Some v →
    Forall (λ r, is_patch r = true → keyOf r ≠ k) (plan (GetRuntimeObjects m)) → contents h1 !! k = Some v) ∧
  (∀ k, contents h1 !! k = lastPatch k (plan (GetRuntimeObjects m)) ∪
    (contents h !! k ∪ firstCreate k (plan (GetRuntimeObjects m)))).
Proof.
  intros H. set (objects := GetRuntimeObjects m) in *.
  assert (follows (plan objects) (applyObjects objects)) as Hf by apply applyObjects_follows, GetRuntimeObjects_some.
  destruct (Hf h) as (p & Hp & _ & Hok & _). rewrite H in Hp, Hok. simpl in Hp, Hok. subst h1.
  destruct (proj1 Hok eq_refl) as [-> Ha]. pose proof (plan_apply objects) as Hl.
  pose proof (contents_effects _ _ Hl Ha) as Hc. split_and!.
  - destruct (applied_again _ _ _ _ (same_requests_refl _) Hl Ha eq_refl) as [Ha' Hc'].
    destruct (follows_accepted _ _ _ Hf Ha') as (applied' & E). by exists applied', ((h ++ plan objects) ++ plan objects).
  - intros k v Hv Hno%lastPatch_None. rewrite Hc, effects_lookup, Hv, Hno. by destruct (firstCreate k (plan objects)).
  - intros k. by rewrite Hc, effects_lookup.
Qed.

End store.
