(* ===== verification/MapOrders.v ===== *)
(** * The order of Go's maps

    Go visits the entries of a map in an order of its own, another one in every
    run.  The operator does so in five places: it sorts the keys of an object,
    it merges plugin configurations, it updates the base URLs of an app-config,
    it lists the enabled flavours and it lists merged plugins.  In the first
    three the order does not show in the result; it does in the last two
    ([GetEnabledFlavours_order_varies], [mergeConfigs_order_varies]).  A run
    that enables at most one flavour and has nothing to merge its plugins with
    is the same whatever the orders. *)

From S2P Require Import Prelude.
From S2P Require Import GoStrings.
From S2P Require Import K8s.
From S2P Require Import Api.
From S2P Require Import Externals.
From S2P Require Import Utils.
From S2P Require Import Pod.
From S2P Require Import Deployable.
From S2P Require Import MetaInfo.
From S2P Require Import BackstageDeployment.
From S2P Require Import PluginConfig.
From S2P Require Import DynamicPluginsReference.
From S2P Require Import DynamicPlugins.
From S2P Require Import ExternalConfig.
From S2P Require Import ConfigObjects.
From S2P Require Import Db.
From S2P Require Import ServiceRoute.
From S2P Require Import DefaultConfig.
From S2P Require Import Runtime.
From S2P Require Import RuntimeSpec.
From S2P Require Import InitTheorems.
From S2P Require Import Client.
From S2P Require Import Preprocess.
From S2P Require Import Examples.
From stdpp Require Import options.

(** ** Computations of which one does what the other does *)

(** What [r1] returns, [r2] returns. *)
Definition leads {A} (r1 r2 : outcome A) : Prop := ∀ x, r1 = Ok x → r2 = Ok x.

Lemma leads_eq {A} (r1 r2 : outcome A) : r1 = r2 → leads r1 r2.
Proof. by intros -> x. Qed.

#[export] Instance leads_reflexive {A} : Reflexive (@leads A).
Proof. by intros r x. Qed.

Lemma leads_trans {A} (r1 r2 r3 : outcome A) : leads r1 r2 → leads r2 r3 → leads r1 r3.
Proof. intros H1 H2 x Hx. by apply H2, H1. Qed.

Lemma leads_bind {A B} (r1 r2 : outcome A) (f1 f2 : A → outcome B) :
  leads r1 r2 → (∀ a, leads (f1 a) (f2 a)) → leads (r1 ≫= f1) (r2 ≫= f2).
Proof. intros Hr Hf x (a & Ha & Hx)%bind_Ok_inv. rewrite (Hr _ Ha). by apply Hf. Qed.

Lemma leads_wrapErr {A} msg (r1 r2 : outcome A) : leads r1 r2 → leads (wrapErr msg r1) (wrapErr msg r2).
Proof. intros Hr x Hx%wrapErr_Ok_inv. by apply wrapErr_Ok_inv, Hr. Qed.

Lemma leads_foldM {A B} (f1 f2 : A → B → outcome A) a l :
  (∀ a b, leads (f1 a b) (f2 a b)) → leads (foldM f1 a l) (foldM f2 a l).
Proof.
  intros Hf. revert a. induction l as [|b l IH]; intros a; [done|]. apply leads_bind; [apply Hf|]. intros a'. apply IH.
Qed.

(** Steps that can be swapped can be done in any order. *)
Lemma leads_permuted {A B} (f : A → string * B → outcome A) a l1 l2 :
  (∀ a k1 v1 k2 v2, k1 ≠ k2 → leads (a ← f a (k1, v1); f a (k2, v2)) (a ← f a (k2, v2); f a (k1, v1))) →
  NoDup l1.*1 → l1 ≡ₚ l2 → leads (foldM f a l1) (foldM f a l2).
Proof.
  intros Hf Hnd Hp. revert a Hnd. induction Hp as [|e l1 l2 _ IH|[k1 v1] [k2 v2] l|l1 l2 l3 Hp1 IH1 Hp2 IH2]; intros a Hnd.
  - done.
  - apply NoDup_cons in Hnd as [_ Hnd]. apply leads_bind; [done|]. intros a'. by apply IH.
  - assert (k1 ≠ k2) as Hne by (apply NoDup_cons in Hnd as [Hk _]; intros ->; apply Hk; by left).
    intros x Hx. simpl in *. apply bind_Ok_inv in Hx as (a1 & Ha1 & Hx). apply bind_Ok_inv in Hx as (a2 & Ha2 & Hx).
    assert ((a ← f a (k1, v1); f a (k2, v2)) = Ok a2) as (a3 & H3 & H4)%bind_Ok_inv.
    { apply (Hf a k2 v2 k1 v1); [done|]. by rewrite Ha1. }
    rewrite H3. simpl. by rewrite H4.
  - eapply leads_trans; [by apply IH1|]. apply IH2. by rewrite <- Hp1.
Qed.

#[local] Hint Resolve leads_eq leads_bind leads_wrapErr leads_foldM : core.

Section orders.
Context (o1 o2 : MapOrder).

Lemma range_orders {V} (m : gmap string V) : @range o1 V m ≡ₚ @range o2 V m.
Proof. by rewrite !range_perm. Qed.

(** ** Where the order does not show *)

Lemma SortedKeys_orders {V} (m : gomap V) : @SortedKeys o1 V m = @SortedKeys o2 V m.
Proof. apply SortedKeys_deterministic. Qed.

Lemma NewDataObjectKeys_orders s b : @NewDataObjectKeys o1 s b = @NewDataObjectKeys o2 s b.
Proof. unfold NewDataObjectKeys. by rewrite !SortedKeys_orders. Qed.

Lemma mergeEntry_swap merge a k1 v1 k2 v2 : k1 ≠ k2 →
  leads (a ← mergeEntry merge a (k1, v1); mergeEntry merge a (k2, v2))
        (a ← mergeEntry merge a (k2, v2); mergeEntry merge a (k1, v1)).
Proof.
  intros Hne x. unfold mergeEntry. simpl. intros (a1 & (w1 & Hw1 & [= <-])%bind_Ok_inv & Hx)%bind_Ok_inv.
  apply bind_Ok_inv in Hx as (w2 & Hw2 & [= <-]). rewrite lookup_insert_ne in Hw2 by done. rewrite Hw2. simpl.
  rewrite lookup_insert_ne, Hw1 by done. simpl. by rewrite insert_insert_ne.
Qed.

Lemma mergePluginConfigs_leads n dst src : leads (@mergePluginConfigs o1 n dst src) (@mergePluginConfigs o2 n dst src).
Proof.
  revert dst src. induction n as [|n IH]; intros dst src; [done|]. simpl.
  apply (leads_trans _ (foldM (mergeEntry (@mergePluginConfigs o2 n)) dst (@range o1 _ src)));
    [|apply leads_permuted; [apply mergeEntry_swap|apply NoDup_fst_range|apply range_orders]].
  apply leads_foldM. intros a [k v]. apply leads_bind; [|done]. unfold mergeValue. simpl.
  apply leads_bind; [done|]. intros s. apply leads_bind; [done|]. intros d. destruct s, d; try done.
  apply leads_bind; [apply IH|done].
Qed.

Lemma updateBaseUrlEntry_swap `{ay : !AppConfigYaml} url a k1 v1 k2 v2 : k1 ≠ k2 →
  leads (a ← updateBaseUrlEntry url a (k1, v1); updateBaseUrlEntry url a (k2, v2))
        (a ← updateBaseUrlEntry url a (k2, v2); updateBaseUrlEntry url a (k1, v1)).
Proof.
  intros Hne x. unfold updateBaseUrlEntry. simpl.
  destruct (updateFn url v1), (updateFn url v2); simpl; intros Hx; try done. by rewrite insert_insert_ne.
Qed.

Lemma updateBaseUrlData_leads `{ay : !AppConfigYaml} url data :
  leads (@updateBaseUrlData ay o1 url data) (@updateBaseUrlData ay o2 url data).
Proof.
  destruct data as [d|]; [|done]. apply leads_bind; [|done].
  apply leads_permuted; [apply updateBaseUrlEntry_swap|apply NoDup_fst_range|apply range_orders].
Qed.

(** The enabled flavours, if at most one is *)
Lemma GetEnabledFlavours_orders `{os : !OS, fy : !FlavourYaml} spec l :
  GetEnabledFlavours (mo_ := o1) spec = Ok l → length l ≤ 1 → GetEnabledFlavours (mo_ := o2) spec = Ok l.
Proof.
  unfold GetEnabledFlavours.
  set (collect := foldl (λ result '(name, flavour),
    if fi_enabled flavour then result ++ [mkEnabledFlavour name (fi_basePath flavour)] else result) []).
  assert (∀ m, length (collect (@range o1 _ m)) ≤ 1 → collect (@range o2 _ m) = collect (@range o1 _ m)) as Hc.
  { intros m. unfold collect. rewrite !collectEnabled. simpl. rewrite length_fmap. intros Hl.
    pose proof (filter_Permutation (λ e, fi_enabled e.2 = true) _ _ (range_orders m)) as Hp.
    destruct (filter _ (@range o1 _ m)) as [|e [|]]; [| |simpl in Hl; lia].
    - by apply Permutation_nil_l in Hp as <-.
    - by apply Permutation_singleton_l in Hp as <-. }
  assert (∀ m, m ≫= (λ m, Ok (collect (@range o1 _ m))) = Ok l → length l ≤ 1 →
    m ≫= (λ m, Ok (collect (@range o2 _ m))) = Ok l) as Hm.
  { intros m (m' & -> & [= <-])%bind_Ok_inv Hl. simpl. by rewrite Hc. }
  destruct (api.Flavours spec) as [[|f fs]|]; [done|..]; intros (m & -> & H)%bind_Ok_inv Hl; by apply Hm.
Qed.

End orders.

(** ** The model *)

(** What the order of the maps leaves no choice in: at most one flavour is
    enabled, the custom resource adds no dynamic plugins, and the default ones
    are in at most one file. *)
Definition order_free `{os : !OS, fy : !FlavourYaml} (mo : MapOrder) (spec : api.BackstageSpec) : Prop :=
  api.specDynamicPlugins spec = "" ∧
  ∃ flavours, GetEnabledFlavours (mo_ := mo) spec = Ok flavours ∧ length flavours ≤ 1 ∧
    length (collectConfigSources DynamicPluginsKey (DefFile DynamicPluginsKey) flavours) ≤ 1.

Section init.
Context `{os : !OS, own : !Ownership, merge2 : !Merge2, wyaml : !WorkloadYaml,
  dy : !DynaYaml, ks : !KubeScheme, fy : !FlavourYaml, ay : !AppConfigYaml, rnd : !Rand}.
Context (o1 o2 : MapOrder).

Lemma mergeDynamicPlugins_orders sources ext :
  length sources ≤ 1 → mergeDynamicPlugins (mo_ := o1) sources ext = mergeDynamicPlugins (mo_ := o2) sources ext.
Proof. by destruct sources as [|src [|]]; simpl; [| |lia]. Qed.

(** The registered files are the same but for the merge of dynamic plugins. *)
Lemma registrations_orders ec flavours platform :
  length (collectConfigSources DynamicPluginsKey (DefFile DynamicPluginsKey) flavours) ≤ 1 →
  Forall2 (λ c1 c2, oc_Key c1 = oc_Key c2 ∧ oc_Factory c1 = oc_Factory c2 ∧
    chooseConfig ec flavours platform c1 = chooseConfig ec flavours platform c2)
    (registrations (mo_ := o1)) (registrations (mo_ := o2)).
Proof.
  intros Hl. unfold registrations. repeat apply Forall2_cons_2; try done. split_and!; try done.
  unfold chooseConfig, overlayConfig, defaultConfig, ReadDefaultConfig, DynamicPlugins_init. cbn [oc_Key MergeFunc].
  by rewrite mergeDynamicPlugins_orders.
Qed.

Lemma newObject_orders factory b config m :
  api.specDynamicPlugins (api.Spec b) = "" →
  newObject (mo_ := o1) factory b config m = newObject (mo_ := o2) factory b config m.
Proof.
  intros Hd. assert (∀ spec, addDynamicPlugins (mo_ := o1) spec b config = addDynamicPlugins (mo_ := o2) spec b config) as Ha.
  { intros spec. unfold addDynamicPlugins, choosePlugins. by rewrite Hd. }
  unfold newObject. by rewrite Ha.
Qed.

Lemma initObjects_orders ec flavours platform b m :
  api.specDynamicPlugins (api.Spec b) = "" →
  length (collectConfigSources DynamicPluginsKey (DefFile DynamicPluginsKey) flavours) ≤ 1 →
  foldM (initObject (mo_ := o1) ec flavours platform b) m (registrations (mo_ := o1)) =
  foldM (initObject (mo_ := o2) ec flavours platform b) m (registrations (mo_ := o2)).
Proof.
  intros Hd Hl. revert m. induction (registrations_orders ec flavours platform Hl) as [|c1 c2 l1 l2 (Hk & Hf & Hc) _ IH];
    intros m; [done|]. simpl.
  assert (initObject (mo_ := o1) ec flavours platform b m c1 = initObject (mo_ := o2) ec flavours platform b m c2) as ->.
  { unfold initObject, addToModel. rewrite Hk, Hf, Hc. destruct (chooseConfig ec flavours platform c2); cbn [mbind outcome_bind]; [|done..].
    by rewrite newObject_orders. }
  destruct (initObject _ _ _ _ _ _); simpl; [apply IH|done..].
Qed.

(** *** Finishing the objects *)

Lemma addPluginsAppConfig_leads ns plugins mo :
  leads (addPluginsAppConfig (mo_ := o1) ns plugins mo) (addPluginsAppConfig (mo_ := o2) ns plugins mo).
Proof.
  destruct plugins as [plugins|]; [|done]. apply leads_bind; [|done]. apply leads_foldM. intros m p.
  apply mergePluginConfigs_leads.
Qed.

Lemma updateAppConfig_leads ec b plugins mo p :
  leads (updateAppConfig (mo_ := o1) ec b plugins mo p) (updateAppConfig (mo_ := o2) ec b plugins mo p).
Proof.
  apply leads_bind; [apply addPluginsAppConfig_leads|]. intros mo'. apply leads_bind; [done|]. intros mo''.
  apply leads_bind; [|done]. apply leads_foldM. intros p' item. apply leads_bind; [done|]. intros cm.
  by rewrite (SortedKeys_orders o1 o2).
Qed.

Lemma updateConfigMapFiles_leads ec b mo p :
  leads (updateConfigMapFiles (mo_ := o1) ec b mo p) (updateConfigMapFiles (mo_ := o2) ec b mo p).
Proof.
  apply leads_bind; [|done]. apply leads_foldM. intros p' item. apply leads_bind; [done|]. intros cm.
  by rewrite !(SortedKeys_orders o1 o2).
Qed.

Lemma updateSecretFiles_leads ec b mo p :
  leads (updateSecretFiles (mo_ := o1) ec b mo p) (updateSecretFiles (mo_ := o2) ec b mo p).
Proof.
  apply leads_bind; [|done]. apply leads_foldM. intros p' item. apply leads_bind; [done|]. intros s.
  by rewrite !(SortedKeys_orders o1 o2).
Qed.

Lemma updateDynamicPlugins_leads d p :
  leads (updateDynamicPlugins (mo_ := o1) d p) (updateDynamicPlugins (mo_ := o2) d p).
Proof.
  unfold updateDynamicPlugins. destruct (getInitContainer p) as [p' [c|]]; [|done]. apply leads_bind; [done|].
  intros [cm file]. by rewrite (SortedKeys_orders o1 o2).
Qed.

Lemma updateRoute_leads ec b service ac r :
  leads (updateRoute (mo_ := o1) ec b service ac r) (updateRoute (mo_ := o2) ec b service ac r).
Proof.
  destruct r as [r|]; [|done]. destruct service as [s|]; [|done]. apply leads_bind; [|done].
  destruct ac as [mo|]; [|done]. simpl. destruct (Items mo) as [|[] ?]; try done.
  apply leads_bind; [apply updateBaseUrlData_leads|done].
Qed.

Lemma withDeployment_leads f1 f2 m : (∀ p, leads (f1 p) (f2 p)) → leads (withDeployment f1 m) (withDeployment f2 m).
Proof.
  intros Hf. unfold withDeployment, withPod. destruct (getDeployment m) as [[j d]|]; [|done].
  apply leads_bind; [|done]. apply leads_bind; [apply Hf|done].
Qed.

Lemma updateAndValidate_leads b m i :
  leads (updateAndValidate (mo_ := o1) b m i) (updateAndValidate (mo_ := o2) b m i).
Proof.
  unfold updateAndValidate. destruct (RuntimeObjects m !! i) as [[]|]; try done.
  - destruct (getDeployment m) as [[j d]|]; [|done]. apply leads_bind; [apply updateAppConfig_leads|done].
  - apply withDeployment_leads, updateConfigMapFiles_leads.
  - destruct (hasDynamicPlugins _ _); [|done]. apply withDeployment_leads, updateDynamicPlugins_leads.
  - apply leads_bind; [apply updateRoute_leads|done].
  - apply withDeployment_leads, updateSecretFiles_leads.
Qed.

Lemma InitObjects_leads ec b platform :
  order_free o1 (api.Spec b) → leads (InitObjects (mo_ := o1) b ec platform) (InitObjects (mo_ := o2) b ec platform).
Proof.
  intros (Hd & flavours & Hf & Hl & Hs). unfold InitObjects. rewrite !runtimeConfig_registrations. simpl.
  rewrite Hf, (GetEnabledFlavours_orders o1 o2 _ _ Hf Hl). simpl. apply leads_bind.
  - by apply leads_eq, initObjects_orders.
  - intros m. apply leads_foldM. intros m' i. apply leads_wrapErr, updateAndValidate_leads.
Qed.

End init.

(** ** Preprocessing

    Whatever the orders, the same is asked of the server, and the same is made
    of its answers. *)

Section preprocess.
Context `{ks : !KubeScheme, os : !OS, srv : !APIServer, rp : !RetryPolicy, nested : !NestedStrings, sha : !Sha256}.
Context (o1 o2 : MapOrder).

Definition same_run {A} (m1 m2 : API A) : Prop := ∀ h, m1 h = m2 h.

#[export] Instance same_run_reflexive {A} : Reflexive (@same_run A).
Proof. by intros m h. Qed.

Lemma same_run_bind {A B} (m1 m2 : API A) (f1 f2 : A → API B) :
  same_run m1 m2 → (∀ a, same_run (f1 a) (f2 a)) → same_run (m1 ≫= f1) (m2 ≫= f2).
Proof.
  intros Hm Hf h. unfold mbind, API_bind. rewrite Hm. destruct (m2 h) as [[a|e|w] h']; [apply Hf|done..].
Qed.

Lemma same_run_foldA {A B} (f1 f2 : A → B → API A) a l :
  (∀ a b, same_run (f1 a b) (f2 a b)) → same_run (foldA f1 a l) (foldA f2 a l).
Proof.
  intros Hf. revert a. induction l as [|b l IH]; intros a; [done|]. by apply same_run_bind; [apply Hf|].
Qed.

Lemma concatData_orders k `{!External k} s (obj : Typed k) : @concatData _ o1 _ _ s obj = @concatData _ o2 _ _ s obj.
Proof. unfold concatData, appendData. by rewrite !(SortedKeys_orders o1 o2). Qed.

Lemma addObject_orders k `{!External k} b name ns watch record1 record2 st :
  (∀ obj ec, record1 obj ec = record2 obj ec) →
  same_run (addObject (mo_ := o1) k b name ns watch record1 st) (addObject (mo_ := o2) k b name ns watch record2 st).
Proof.
  intros Hr. apply same_run_bind; [|intros r; by rewrite Hr].
  unfold addExtConfig. destruct (negb watch); [done|]. apply same_run_bind; [done|]. intros obj. by rewrite concatData_orders.
Qed.

Lemma addRawConfig_orders ns name ec : same_run (addRawConfig (mo_ := o1) ns name ec) (addRawConfig (mo_ := o2) ns name ec).
Proof.
  unfold addRawConfig. case_bool_decide; [done|]. apply same_run_bind; [done|]. intros cm h.
  unfold mret, API_ret. do 2 f_equal. destruct ec. cbn. by rewrite !range_insert_union.
Qed.

(** A loop over references of one sort *)
Ltac refs_alike :=
  apply same_run_foldA; intros st ref; apply addObject_orders; intros obj ec0;
  rewrite ?(SortedKeys_orders o1 o2), ?(NewDataObjectKeys_orders o1 o2).

Lemma preprocessSpec_orders platform b :
  same_run (preprocessSpec (mo_ := o1) platform b) (preprocessSpec (mo_ := o2) platform b).
Proof.
  apply same_run_bind; [done|]. intros ec. apply same_run_bind.
  { destruct (api.RawRuntimeConfig _); [|done]. apply same_run_bind; [apply addRawConfig_orders|intros; apply addRawConfig_orders]. }
  intros ec'. apply same_run_bind; [by refs_alike|intros st1]. apply same_run_bind; [by refs_alike|intros st2].
  apply same_run_bind; [by refs_alike|intros st3]. apply same_run_bind; [by refs_alike|intros st4].
  apply same_run_bind; [by refs_alike|intros st5]. apply same_run_bind; [done|intros st6].
  apply same_run_bind; [|done]. unfold addPluginsRef. case_bool_decide; [done|]. by apply addObject_orders.
Qed.

End preprocess.

(** ** Any order *)

Section any_order.
Context `{os : !OS, own : !Ownership, merge2 : !Merge2, wyaml : !WorkloadYaml,
  dy : !DynaYaml, ks : !KubeScheme, fy : !FlavourYaml, ay : !AppConfigYaml, rnd : !Rand}.
Context `{srv : !APIServer, rp : !RetryPolicy, nested : !NestedStrings, sha : !Sha256}.

Lemma order_free_any (o1 o2 : MapOrder) spec : order_free o1 spec → order_free o2 spec.
Proof. intros (Hd & flavours & Hf & Hl & Hs). split; [done|]. exists flavours. split; [by apply (GetEnabledFlavours_orders o1 o2)|done]. Qed.

(** C4. The order in which Go visits maps does not show in what is read of the
    cluster, nor in the hash of the external configuration; and when at most
    one flavour is enabled and no lists of plugins are merged it does not show
    in the model either: what [InitObjects] builds in one run, it builds in any
    other. *)
Theorem InitObjects_any_order (o1 o2 : MapOrder) b platform :
  (∀ h, preprocessSpec (mo_ := o1) platform b h = preprocessSpec (mo_ := o2) platform b h) ∧
  (order_free o1 (api.Spec b) → ∀ ec m,
    InitObjects (mo_ := o1) b ec platform = Ok m ↔ InitObjects (mo_ := o2) b ec platform = Ok m).
Proof.
  split; [apply preprocessSpec_orders|]. intros Ho ec m.
  split; apply InitObjects_leads; [done|by apply (order_free_any o1)].
Qed.

End any_order.

(** ** The other way round *)

Section example.
#[local] Existing Instances Ownership_set Merge2_patch WorkloadYaml_example DynaYaml_lines
  example_init_scheme example_init_flavours example_init_yaml example_init_rand example_init_os
  example_sha example_retries example_nested.
#[local] Instance example_order_server : APIServer := example_server example_contents.

Lemma InitObjects_any_order_witness :
  InitObjects (mo_ := MapOrder_desc) example_bs NewExternalConfig Kubernetes = Ok example_built.
Proof.
  refine (proj1 (proj2 (InitObjects_any_order MapOrder_asc MapOrder_desc example_bs Kubernetes) _ NewExternalConfig example_built) example_model_Ok).
  split; [done|]. eexists. split; [by vm_compute|]. split; vm_compute; lia.
Defined.

End example.
