(* ===== verification/Steady.v ===== *)
(** * The steady state of a custom resource

    A reconciliation reads of the custom resource its metadata and its spec, not
    its status.  In a cluster where nothing the custom resource refers to
    changes, and where the server keeps what is written, reconciling again
    therefore asks for the same and changes no object. *)

From S2P Require Import Prelude.
From S2P Require Import GoStrings.
From S2P Require Import K8s.
From S2P Require Import Api.
From S2P Require Import Externals.
From S2P Require Import Utils.
From S2P Require Import Deployable.
From S2P Require Import MetaInfo.
From S2P Require Import BackstageDeployment.
From S2P Require Import DynamicPluginsReference.
From S2P Require Import DynamicPlugins.
From S2P Require Import ExternalConfig.
From S2P Require Import ConfigObjects.
From S2P Require Import Db.
From S2P Require Import ServiceRoute.
From S2P Require Import DefaultConfig.
From S2P Require Import PluginDeps.
From S2P Require Import Runtime.
From S2P Require Import RuntimeSpec.
From S2P Require Import InitTheorems.
From S2P Require Import Password.
From S2P Require Import Client.
From S2P Require Import Status.
From S2P Require Import Preprocess.
From S2P Require Import Examples.
From S2P Require Import PreprocessTheorems.
From S2P Require Import Reconcile.
From S2P Require Import ReconcileTheorems.
From S2P Require Import Store.
From S2P Require Import MapOrders.
From stdpp Require Import options.

(** ** What does not read the status *)

Section status.
Context `{os_ : !OS, mo_ : !MapOrder, own : !Ownership, merge2 : !Merge2, wyaml : !WorkloadYaml,
  dy : !DynaYaml, ks : !KubeScheme, fy : !FlavourYaml, ay : !AppConfigYaml, rnd : !Rand}.

#[export] Instance same_spec_equivalence : Equivalence same_spec.
Proof. split; [by split|by intros ?? []|]. intros b1 b2 b3 [H1 H2] [H3 H4]. split; congruence. Qed.

#[export] Instance bsName_proper : Proper (same_spec ==> eq) api.bsName.
Proof. intros b b' [Hm _]. unfold api.bsName. by rewrite Hm. Qed.
#[export] Instance bsNamespace_proper : Proper (same_spec ==> eq) api.bsNamespace.
Proof. intros b b' [Hm _]. unfold api.bsNamespace. by rewrite Hm. Qed.

(** What a function of the whole custom resource makes of two with the same
    metadata and spec, once its own uses of the owner are unfolded *)
Ltac ignores_status unfolding :=
  intros [m s st] [m' s' st'] [Hm Hs]; simpl in Hm, Hs; subst m' s'; repeat intros ?? <-;
  pose proof (SetControllerReference_meta (api.mkBackstage m s st) (api.mkBackstage m s st') eq_refl) as Hown;
  unfolding; rewrite ?Hown; reflexivity.

#[export] Instance InitObjects_proper : Proper (same_spec ==> eq ==> eq ==> eq) InitObjects.
Proof.
  ignores_status ltac:(cbv beta delta [InitObjects updateObjects updateAndValidate initObject addToModel newObject
    addAppConfig addConfigMapEnvs addConfigMapFiles addDbSecret addDbService addDbStatefulSet addDeployment
    addDynamicPlugins addPvcs addRoute addSecretEnvs addSecretFiles addService
    updateAppConfig updateConfigMapEnvs updateConfigMapFiles updateDbSecret updateDbStatefulSet updateDeployment
    updatePvcs updateRoute updateSecretEnvs updateSecretFiles hasDynamicPlugins
    setMetaInfo setNameAndMeta setItemMetaInfo setMultiObjectConfigMetaInfo ownItems addSecrets
    deploymentMetaInfo dbServiceMetaInfo dbSecretMetaInfo dbStatefulSetMetaInfo serviceMetaInfo routeMetaInfo
    setDeployment mergePatch listMergeMode authSecretName choosePlugins processPlugins chooseRoute buildBaseUrl
    updateAppConfigWithBaseUrls addPluginsAppConfig]).
Qed.

#[export] Instance GetPluginDeps_proper : Proper (same_spec ==> eq ==> eq) GetPluginDeps.
Proof. ignores_status ltac:(cbv beta delta [GetPluginDeps ownDependency]). Qed.

Context `{srv : !APIServer, rp : !RetryPolicy, nested : !NestedStrings, sha : !Sha256}.

#[export] Instance preprocessSpec_proper : Proper (eq ==> same_spec ==> eq ==> eq) preprocessSpec.
Proof. intros p _ <- [m s st] [m' s' st'] [Hm Hs] h _ <-. simpl in Hm, Hs. by subst m' s'. Qed.

(** ** The requests of the steps between preprocessing and the objects *)

Definition monitorRequests (b : api.Backstage) : outcome (list Request) :=
  if negb (api.IsMonitoringEnabled (api.Spec b)) then Ok []
  else
    m ← wrapErr "failed to set controller reference" (SetControllerReference b (sm_Meta (serviceMonitor b)));
    Ok [PatchMonitor ((serviceMonitor b) <| sm_Meta := m |>)].

Definition depsRequests (b : api.Backstage) (m : BackstageModel) : outcome (list Request) :=
  match GetRuntimeObject DynamicPluginsKey m with
  | Some (RDynamicPlugins plugins) =>
      fmap (M := list) PatchUnstructured <$> wrapErr "failed to get plugin dependencies" (GetPluginDeps b plugins)
  | _ => Ok []
  end.

#[export] Instance monitorRequests_proper : Proper (same_spec ==> eq) monitorRequests.
Proof. ignores_status ltac:(cbv beta delta [monitorRequests serviceMonitor]). Qed.
#[export] Instance depsRequests_proper : Proper (same_spec ==> eq ==> eq) depsRequests.
Proof.
  intros b b' Hb m _ <-. unfold depsRequests. destruct (GetRuntimeObject _ _) as [[]|]; try done. by rewrite Hb.
Qed.

(** A step that issues applies: it succeeds exactly when they are known and all
    accepted, and then it has issued them. *)
Definition applies (m : API unit) (l : outcome (list Request)) : Prop :=
  ∀ h h', m h = (Ok (), h') ↔ ∃ rs, l = Ok rs ∧ accepts h rs ∧ h' = h ++ rs.

Lemma applyServiceMonitor_applies b : applies (applyServiceMonitor b) (monitorRequests b).
Proof.
  intros h h'. unfold applyServiceMonitor, monitorRequests. destruct (negb _).
  { split; [intros [= <-]; exists []; by rewrite app_nil_r|]. intros (rs & [= <-] & _ & ->). by rewrite app_nil_r. }
  cbv zeta. unfold mbind at 1, API_bind, lift. destruct (wrapErr _ _) as [m|e|w]; simpl; [|naive_solver..].
  unfold mapErr, call. destruct (respond h _) as [[]|e|w] eqn:E; simpl.
  - split; [intros [= <-]; eexists; split; [done|]; split; [split; [unfold accepted; by rewrite E|done]|done]|].
    by intros (rs & [= <-] & _ & ->).
  - split; [done|]. intros (rs & [= <-] & [Ha _] & _). unfold accepted in Ha. by rewrite E in Ha.
  - split; [done|]. intros (rs & [= <-] & [Ha _] & _). unfold accepted in Ha. by rewrite E in Ha.
Qed.

(** The dependencies leave no error exactly when all are accepted. *)
Lemma dependencies_accepted objs errs h :
  accepts h (PatchUnstructured <$> objs) →
  foldA applyDependency errs objs h = (Ok errs, h ++ (PatchUnstructured <$> objs)).
Proof.
  revert h. induction objs as [|o objs IH]; intros h Ha; [by rewrite app_nil_r|]. destruct Ha as [Ho Ha].
  cbn [foldA]. unfold mbind, API_bind, applyDependency at 1, call. unfold accepted in Ho.
  destruct (respond h (PatchUnstructured o)) as [[]|e|w]; [|done..]. rewrite IH by done. by rewrite <- (assoc_L (++)).
Qed.

Lemma dependencies_done objs errs h errs' h' :
  foldA applyDependency errs objs h = (Ok errs', h') →
  length errs ≤ length errs' ∧
  (length errs' ≤ length errs → errs' = errs ∧ accepts h (PatchUnstructured <$> objs) ∧ h' = h ++ (PatchUnstructured <$> objs)).
Proof.
  revert errs h. induction objs as [|o objs IH]; intros errs h H.
  { injection H as <- <-. by rewrite app_nil_r. }
  cbn [foldA] in H. unfold mbind, API_bind, applyDependency at 1, call in H.
  destruct (respond h (PatchUnstructured o)) as [[]|e|w] eqn:E; [| |done]; apply IH in H as [Hl H].
  - split; [done|]. intros Hle. destruct (H Hle) as (-> & Ha & ->). split; [done|].
    split; [split; [unfold accepted; by rewrite E|done]|by rewrite <- (assoc_L (++))].
  - rewrite length_app in Hl. simpl in Hl. split; lia.
Qed.

Lemma applyPluginDeps_applies b m : applies (applyPluginDeps b m) (depsRequests b m).
Proof.
  intros h h'. unfold applyPluginDeps, depsRequests. destruct (GetRuntimeObject _ _) as [[]|];
    try (split; [intros [= <-]; exists []; by rewrite app_nil_r|intros (rs & [= <-] & _ & ->); by rewrite app_nil_r]).
  unfold mbind at 1, API_bind at 1, lift at 1. destruct (wrapErr _ _) as [objs|e|w]; simpl; [|naive_solver..].
  unfold mbind, API_bind. split.
  - destruct (foldA _ _ _ _) as [[errs|e|w] h1] eqn:E; [|done..]. apply dependencies_done in E as [_ E].
    case_bool_decide as Hl; [done|]. intros [= <-]. destruct E as (_ & Ha & ->); [simpl; lia|]. by eexists.
  - intros (rs & [= <-] & Ha & ->). by rewrite dependencies_accepted.
Qed.

(** ** A successful run

    Everything a successful run applies, in order *)
Definition runRequests (platform : Platform) (b : api.Backstage) (ec : ExternalConfig) : outcome (list Request) :=
  m ← InitObjects b ec platform;
  sm ← monitorRequests b;
  deps ← depsRequests b m;
  Ok (sm ++ deps ++ plan (GetRuntimeObjects m)).

#[export] Instance runRequests_proper : Proper (eq ==> same_spec ==> eq ==> eq) runRequests.
Proof.
  intros p _ <- b b' Hb ec _ <-. unfold runRequests. rewrite Hb. destruct (InitObjects b' ec p) as [m|e|w]; simpl; [|done..].
  rewrite Hb. destruct (monitorRequests b'); simpl; [|done..]. by rewrite Hb.
Qed.

Lemma runRequests_apply platform b ec rs : runRequests platform b ec = Ok rs → Forall (λ r, is_apply r = true) rs.
Proof.
  unfold runRequests. intros H. apply bind_Ok_inv in H as (m & _ & H). apply bind_Ok_inv in H as (sm & Hsm & H).
  apply bind_Ok_inv in H as (deps & Hd & [= <-]). rewrite !Forall_app. split; [|split; [|apply plan_apply]].
  - unfold monitorRequests in Hsm. destruct (negb _); [by injection Hsm as <-|].
    apply bind_Ok_inv in Hsm as (? & _ & [= <-]). by constructor.
  - unfold depsRequests in Hd. destruct (GetRuntimeObject _ _) as [[]|]; try (by injection Hd as <-).
    apply fmap_Ok_inv in Hd as (objs & _ & <-).
    by apply Forall_fmap, Forall_true.
Qed.

Context `{sc : !StatusConditions}.

Definition runEnd (bs : api.Backstage) (k : ReadKind) (b' : api.Backstage) : list Request :=
  [Get k (api.bsNamespace bs) (DeploymentName (api.bsName bs)); UpdateStatus b'].

Lemma reconcile_applies platform ns n bs h h' :
  respond h (Get BackstageKind ns n) = Ok bs → Reconcile platform ns n h = (Ok (), h') →
  ∃ ec h1 rs k b', preprocessSpec platform bs (h ++ [Get BackstageKind ns n]) = (Ok ec, h1) ∧
    runRequests platform bs ec = Ok rs ∧ accepts h1 rs ∧ h' = h1 ++ rs ++ runEnd bs k b'.
Proof.
  intros Hr H. destruct (Reconcile_found platform ns n bs h Hr) as (r & b' & h2 & Hrun & Hs). rewrite H in Hrun.
  injection Hrun as <- ->. destruct Hs as [Hs|ec h1 _ Hs|ec h1 k _ _ Hs|ec h1 k m _ _ _ Hs|ec h1 k m h3 _ _ _ _ Hs
    |ec h1 h5 m h3 applied h4 H1 H2 H3 H4 H5 Hs]; try (apply stops_history in Hs as (x & _ & _ & Hx); done).
  destruct (startStatus_spec bs) as [Hm Hsp]. assert (same_spec bs (startStatus bs)) as Hsame by done.
  rewrite <- Hsame in H1, H3. exists ec, h1.
  apply applyServiceMonitor_applies in H2 as (sm & Hsm & Ha2 & ->). apply applyPluginDeps_applies in H4 as (deps & Hd & Ha4 & ->).
  rewrite <- Hsame in Hsm, Hd.
  destruct (applyObjects_follows _ (GetRuntimeObjects_some m) ((h1 ++ sm) ++ deps)) as (p & Hp & _ & Hok & _).
  rewrite H5 in Hp, Hok. simpl in Hp, Hok. subst h4. destruct (proj1 Hok eq_refl) as [-> Ha5].
  apply setDeploymentStatus_spec in Hs as (k & _ & -> & _); [|eapply applyObjects_deployment, InitObjects_deployment; done].
  exists (sm ++ deps ++ plan (GetRuntimeObjects m)), k, b'. split; [done|]. split; [unfold runRequests; by rewrite H3, Hsm; simpl; rewrite Hd|].
  split; [by rewrite !accepts_app|]. unfold runEnd, api.bsNamespace, api.bsName. rewrite Hm. by rewrite <- !(assoc_L (++)).
Qed.

Lemma reconcile_repeats platform ns n bs h ec h1 rs :
  respond h (Get BackstageKind ns n) = Ok bs → preprocessSpec platform bs (h ++ [Get BackstageKind ns n]) = (Ok ec, h1) →
  runRequests platform bs ec = Ok rs → accepts h1 rs →
  (∀ k, is_Panic (respond (h1 ++ rs) (Get k (api.bsNamespace bs) (DeploymentName (api.bsName bs)))) = false) →
  ∃ k b', Reconcile platform ns n h = (Ok (), h1 ++ rs ++ runEnd bs k b').
Proof.
  intros Hr H1 Hrs Ha Hp. unfold runRequests in Hrs. apply bind_Ok_inv in Hrs as (m & Hm & Hrs).
  apply bind_Ok_inv in Hrs as (sm & Hsm & Hrs). apply bind_Ok_inv in Hrs as (deps & Hd & [= <-]).
  rewrite !accepts_app in Ha. destruct Ha as (Ha2 & Ha4 & Ha5).
  pose proof (startStatus_spec bs) as Hsame. pose proof Hsame as [Hmeta _].
  assert (api.bsNamespace (startStatus bs) = api.bsNamespace bs ∧ api.bsName (startStatus bs) = api.bsName bs) as [Hns Hn]
    by (unfold api.bsNamespace, api.bsName; by rewrite Hmeta).
  destruct (reconcile_run platform ns n bs h ec h1 (h1 ++ sm) m ((h1 ++ sm) ++ deps)) as (k & b' & H).
  - done.
  - by rewrite <- Hsame.
  - apply applyServiceMonitor_applies. exists sm. by rewrite <- Hsame.
  - by rewrite <- Hsame.
  - apply applyPluginDeps_applies. exists deps. by rewrite <- Hsame.
  - done.
  - intros k. rewrite Hns, Hn, <- !(assoc_L (++)). apply Hp.
  - exists k, b'. rewrite H, Hns, Hn. unfold runEnd. by rewrite <- !(assoc_L (++)).
Qed.

#[export] Instance runEnd_proper : Proper (same_spec ==> eq ==> eq ==> eq) runEnd.
Proof. intros b b' [Hm _] k _ <- c _ <-. unfold runEnd, api.bsNamespace, api.bsName. by rewrite Hm. Qed.

(** Two settled servers with the same contents give the same configuration. *)
Lemma settled_twice platform bs hx hy cms secs pvcs ingress :
  settled_spec hx (api.bsNamespace bs) cms secs pvcs ingress platform (api.Spec bs) →
  settled_spec hy (api.bsNamespace bs) cms secs pvcs ingress platform (api.Spec bs) →
  let l := reads (api.bsNamespace bs) platform (api.Spec bs) in
  ∃ ec, preprocessSpec platform bs hx = (Ok ec, hx ++ l) ∧ preprocessSpec platform bs hy = (Ok ec, hy ++ l) ∧
    Forall (λ r, is_write r = false) l.
Proof.
  intros Hx Hy l. destruct (settles_preprocess _ _ _ _ _ _ _ platform bs eq_refl eq_refl Hx) as [Hl Hqx].
  destruct (settles_preprocess _ _ _ _ _ _ _ platform bs eq_refl eq_refl Hy) as [_ Hqy].
  eexists. split; [|split; [|exact Hl]]; [apply Hqx|apply Hqy]; exists []; by rewrite app_nil_r.
Qed.

End status.

(** ** Another password

    Models that are the same but for the password are applied with the same
    requests but for the password. *)

Section redrawn.
Context `{os_ : !OS, ks : !KubeScheme}.

Lemma same_object_set o o' : same_object o o' → is_some (Object_ o) = is_some (Object_ o').
Proof. by intros [|s s' []]. Qed.

Lemma GetRuntimeObjects_same m m' :
  same_model m m' → Forall2 same_object (GetRuntimeObjects m) (GetRuntimeObjects m').
Proof.
  intros [_ Hl]. unfold GetRuntimeObjects.
  assert (∀ acc acc', Forall2 same_object acc acc' →
    Forall2 same_object (foldl (λ result obj, if is_some (Object_ obj) then result ++ [obj] else result) acc (RuntimeObjects m))
      (foldl (λ result obj, if is_some (Object_ obj) then result ++ [obj] else result) acc' (RuntimeObjects m'))) as H; [|by apply H].
  induction Hl as [|o o' l l' Ho Hl IH]; intros acc acc' Hacc; [done|]. simpl. rewrite <- (same_object_set _ _ Ho).
  apply IH. destruct (is_some _); [|done]. apply Forall2_app; [done|]. by constructor.
Qed.

Lemma same_objects_plan l l' : Forall2 same_object l l' → Forall2 same_request (plan l) (plan l').
Proof.
  induction 1 as [|o o' l l' Ho Hl IH]; [constructor|]. apply Forall2_app; [|exact IH].
  destruct Ho as [o|s s' [x y Hs|]]; [apply same_requests_refl|by repeat constructor|constructor].
Qed.

Lemma DynamicPlugins_same m m' :
  same_model m m' → GetRuntimeObject DynamicPluginsKey m' = GetRuntimeObject DynamicPluginsKey m.
Proof.
  intros [_ Hl]. unfold GetRuntimeObject.
  assert (findObject DynamicPluginsKey (RuntimeObjects m') = findObject DynamicPluginsKey (RuntimeObjects m)) as ->; [|done].
  induction Hl as [|o o' l l' Ho Hl IH]; [done|]. simpl. rewrite IH. by destruct Ho.
Qed.

End redrawn.

(** ** The next run

    Neither the random bytes of the two runs nor the orders in which they visit
    maps need be the same. *)

Section next.
Context `{os_ : !OS, own : !Ownership, merge2 : !Merge2, wyaml : !WorkloadYaml,
  dy : !DynaYaml, ks : !KubeScheme, fy : !FlavourYaml, ay : !AppConfigYaml,
  srv : !APIServer, rp : !RetryPolicy, nested : !NestedStrings, sha : !Sha256, sc : !StatusConditions, st : !StoreServer}.

Lemma runRequests_redrawn (mo : MapOrder) (rnd rnd' : Rand) platform b ec rs :
  is_Panic (newPassword (rnd := rnd')) = false → runRequests (rnd := rnd) platform b ec = Ok rs →
  ∃ rs', runRequests (rnd := rnd') platform b ec = Ok rs' ∧ Forall2 same_request rs rs'.
Proof.
  intros Hp H. unfold runRequests in *. apply bind_Ok_inv in H as (m & Hm & H).
  apply bind_Ok_inv in H as (sm & Hsm & H). apply bind_Ok_inv in H as (deps & Hd & [= <-]).
  destruct (InitObjects_redrawn _ _ _ rnd' _ _ Hp Hm) as (m' & -> & Hsame). rewrite Hsm. simpl.
  unfold depsRequests in *. rewrite (DynamicPlugins_same _ _ Hsame), Hd. simpl. eexists. split; [reflexivity|].
  repeat apply Forall2_app; try apply same_requests_refl. by apply same_objects_plan, GetRuntimeObjects_same.
Qed.

(** The second run's order of maps is the one of the first, or shows nowhere. *)
Definition same_order (mo mo' : MapOrder) (spec : api.BackstageSpec) : Prop := mo' = mo ∨ order_free mo spec.

Lemma runRequests_reordered (mo mo' : MapOrder) (rnd : Rand) platform b ec rs :
  same_order mo mo' (api.Spec b) → runRequests (mo_ := mo) platform b ec = Ok rs → runRequests (mo_ := mo') platform b ec = Ok rs.
Proof.
  intros [->|Ho]; [done|]. unfold runRequests. apply leads_bind; [|done]. intros m. by apply InitObjects_leads.
Qed.

(** C3. When nothing that the custom resource refers to changes, reconciling an
    unchanged custom resource once more succeeds again, asks the server for the
    same reads and writes up to the final report of the status, and leaves every
    object as the run before has left it: the reconciler has reached its steady
    state after one successful run.  The random bytes of the second run are
    others: the request that would create the database Secret carries another
    password, which never reaches the server, so the password is the one of the
    first run.  Go may visit maps in another order in the second run if at most
    one flavour is enabled and no lists of plugins are merged; else the two
    orders are taken to be the same. *)
Theorem Reconcile_steady (mo mo' : MapOrder) (rnd rnd' : Rand) platform ns n (bs bs' : api.Backstage) h h1 cms secs pvcs ingress :
  same_order mo mo' (api.Spec bs) →
  respond h (Get BackstageKind ns n) = Ok bs →
  Reconcile (mo_ := mo) (rnd := rnd) platform ns n h = (Ok (), h1) →
  respond h1 (Get BackstageKind ns n) = Ok bs' → same_spec bs bs' →
  settled_spec (h ++ [Get BackstageKind ns n]) (api.bsNamespace bs) cms secs pvcs ingress platform (api.Spec bs) →
  settled_spec (h1 ++ [Get BackstageKind ns n]) (api.bsNamespace bs) cms secs pvcs ingress platform (api.Spec bs) →
  (∀ h k, is_Panic (respond h (Get k (api.bsNamespace bs) (DeploymentName (api.bsName bs)))) = false) →
  is_Panic (newPassword (rnd := rnd')) = false →
  ∃ h2, Reconcile (mo_ := mo') (rnd := rnd') platform ns n h1 = (Ok (), h2) ∧ contents h2 = contents h1 ∧
    ∃ l l' k b k' b', h1 = h ++ l ++ runEnd bs k b ∧ h2 = h1 ++ l' ++ runEnd bs k' b' ∧ Forall2 same_request l l'.
Proof.
  intros Ho Hr H Hr' Hsame Hs1 Hs2 Hp Hpw.
  destruct (reconcile_applies (mo_ := mo) (rnd := rnd) _ _ _ _ _ _ Hr H) as (ec & h0 & rs & k & b & Hpre & Hrs & Ha & ->).
  destruct (settled_twice (mo_ := mo) _ _ _ _ _ _ _ _ Hs1 Hs2) as (ec' & Hpre1 & Hpre2 & Hl).
  rewrite Hpre1 in Hpre. injection Hpre as <- <-.
  set (hA := (h ++ [Get BackstageKind ns n]) ++ reads _ _ _) in *. set (h1 := hA ++ rs ++ runEnd bs k b) in *.
  set (hB := (h1 ++ [Get BackstageKind ns n]) ++ reads (api.bsNamespace bs) platform (api.Spec bs)).
  assert (contents h1 = contents (hA ++ rs)) as Hc1.
  { unfold h1, runEnd. rewrite (assoc_L (++)). apply contents_reads. repeat constructor; by (left + right). }
  assert (contents hB = contents h1) as HcB.
  { unfold hB. rewrite <- (assoc_L (++)). apply contents_reads. constructor; [by left|]. eapply Forall_impl; [exact Hl|]. by left. }
  destruct (runRequests_redrawn mo _ rnd' _ _ _ _ Hpw Hrs) as (rs' & Hrs' & Hrr).
  apply (runRequests_reordered mo mo') in Hrs'; [|done].
  destruct (applied_again rs rs' hA hB Hrr (runRequests_apply (mo_ := mo) (rnd := rnd) _ _ _ _ Hrs) Ha) as [HaB HcB']; [by rewrite HcB|].
  destruct (reconcile_repeats (mo_ := mo') (rnd := rnd') platform ns n bs' h1 ec' hB rs' Hr') as (k' & b' & H2).
  - by rewrite <- Hsame, (preprocessSpec_orders mo' mo).
  - by rewrite <- Hsame.
  - done.
  - intros k'. unfold api.bsNamespace, api.bsName in *. destruct Hsame as [-> _]. apply Hp.
  - eexists. split; [exact H2|]. split.
    + unfold runEnd. rewrite (assoc_L (++)), contents_reads, HcB' by (repeat constructor; by (left + right)). done.
    + set (front := [Get BackstageKind ns n] ++ reads (api.bsNamespace bs) platform (api.Spec bs)).
      exists (front ++ rs), (front ++ rs'), k, b, k', b'.
      rewrite <- Hsame. split; [unfold h1, hA, front; by rewrite <- !(assoc_L (++))|].
      split; [unfold hB, front; by rewrite <- !(assoc_L (++))|]. by apply Forall2_app; [apply same_requests_refl|].
Qed.

End next.
