(* ===== verification/MockClient.v ===== *)
(** * The in-memory client (internal/controller/mock_client.go)

    The client the operator's own tests run against: a map from name and kind
    to the encoded object.  It is the repository's executable account of what
    the API server does with the requests of the operator, and it satisfies the
    interface of Store.v. *)

From S2P Require Import Prelude.
From S2P Require Import GoStrings.
From S2P Require Import K8s.
From S2P Require Import Api.
From S2P Require Import Externals.
From S2P Require Import Utils.
From S2P Require Import MetaInfo.
From S2P Require Import BackstageDeployment.
From S2P Require Import Db.
From S2P Require Import Password.
From S2P Require Import DynamicPlugins.
From S2P Require Import Runtime.
From S2P Require Import Client.
From S2P Require Import Status.
From S2P Require Import Preprocess.
From S2P Require Import Examples.
From S2P Require Import PreprocessTheorems.
From S2P Require Import InitTheorems.
From S2P Require Import Reconcile.
From S2P Require Import ReconcileTheorems.
From S2P Require Import Store.
From S2P Require Import MapOrders.
From S2P Require Import Steady.
From stdpp Require Import options.

Definition implementMe : string := "implement me if needed".

(** [client.Object]: a pointer to one of the types the operator sends *)
Inductive ClientObject `{ks : !KubeScheme} :=
  | CBackstage (b : api.Backstage)
  | CTyped (o : KObject)
  | CMonitor (sm : ServiceMonitor)
  | CUnstructured (u : Unstructured).

(** encoding/json on the objects; [UnmarshalInto] decodes into an empty object
    of the type that is read.  Its errors are not those of the API server. *)
Class ClientJSON `{ks : !KubeScheme} := {
  MarshalClient : ClientObject → outcome string;
  UnmarshalInto : string → ∀ k : ReadKind, outcome (Typed k);
  MarshalClient_error obj e : MarshalClient obj = Err e → IsAlreadyExists e = false
}.

Section client.
Context `{ks : !KubeScheme}.

(** [reflect.TypeOf(obj).String()] *)
Definition typeString (obj : ClientObject) : string :=
  match obj with
  | CBackstage _ => "*v1alpha5.Backstage"
  | CTyped o => goType o
  | CMonitor _ => "*v1.ServiceMonitor"
  | CUnstructured _ => "*unstructured.Unstructured"
  end.
Definition readTypeString (k : ReadKind) : string :=
  match k with
  | BackstageKind => "*v1alpha5.Backstage"
  | ConfigMapKind => "*v1.ConfigMap"
  | SecretKind => "*v1.Secret"
  | PvcKind => "*v1.PersistentVolumeClaim"
  | DeploymentKind => "*v1.Deployment"
  | StatefulSetKind => "*v1.StatefulSet"
  | IngressKind => "*unstructured.Unstructured"
  end.

(** [kind(obj)]: what follows the last dot *)
Definition kind (str : string) : string :=
  match strings.LastIndex str "." with
  | Some i => slice_from str (i + 1)
  | None => str
  end.

Definition GetName (obj : ClientObject) : string :=
  match obj with
  | CBackstage b => api.bsName b
  | CTyped o => Name (objectMeta o)
  | CMonitor sm => Name (sm_Meta sm)
  | CUnstructured u => Name (unstructuredMeta u)
  end.

Definition nameKind (obj : ClientObject) : NameKind := mkNameKind (GetName obj) (kind (typeString obj)).

Definition quoted (s : string) : string := String (ascii_of_nat 34) s +:+ String (ascii_of_nat 34) "".
Definition NewNotFound (k name : string) : error :=
  StatusError ReasonNotFound (k +:+ " " +:+ quoted name +:+ " not found").
Definition NewAlreadyExists (k name : string) : error :=
  StatusError ReasonAlreadyExists (k +:+ " " +:+ quoted name +:+ " already exists").

(** The fields of the client; every method that changes the map returns it. *)
Record MockClient := mkMockClient { objects : gmap NameKind string }.
Definition NewMockClient : MockClient := mkMockClient ∅.

Context `{js : !ClientJSON}.

Definition mockGet (m : MockClient) (name : string) (k : ReadKind) : outcome (Typed k) :=
  if bool_decide (name = "") then Err (Errorf "get: name should not be empty")
  else
    match objects m !! mkNameKind name (kind (readTypeString k)) with
    | None => Err (NewNotFound (kind (readTypeString k)) name)
    | Some uobj => UnmarshalInto uobj k
    end.

(** [dat, err := json.Marshal(obj)] and the assignment to the map *)
Definition mockSave (m : MockClient) (obj : ClientObject) : outcome unit * MockClient :=
  match MarshalClient obj with
  | Ok dat => (Ok (), mkMockClient (<[nameKind obj := dat]> (objects m)))
  | Err err => (Err err, m)
  | Panic w => (Panic w, m)
  end.

Definition mockCreate (m : MockClient) (obj : ClientObject) : outcome unit * MockClient :=
  if bool_decide (GetName obj = "") then (Err (Errorf "create: object Name should not be empty"), m)
  else
    match objects m !! nameKind obj with
    | Some _ => (Err (NewAlreadyExists (kind (typeString obj)) (GetName obj)), m)
    | None => mockSave m obj
    end.

Definition mockDelete (m : MockClient) (obj : ClientObject) : outcome unit * MockClient :=
  match objects m !! nameKind obj with
  | None => (Err (NewNotFound (kind (typeString obj)) (GetName obj)), m)
  | Some _ => (Ok (), mkMockClient (delete (nameKind obj) (objects m)))
  end.

Definition mockUpdate (m : MockClient) (obj : ClientObject) : outcome unit * MockClient :=
  if bool_decide (GetName obj = "") then (Err (Errorf "update: object Name should not be empty"), m)
  else
    match objects m !! nameKind obj with
    | None => (Err (NewNotFound (kind (typeString obj)) (GetName obj)), m)
    | Some _ => mockSave m obj
    end.

Definition monitorCRD : NameKind := mkNameKind "servicemonitors.monitoring.coreos.com" "CustomResourceDefinition".

Definition mockPatch (m : MockClient) (obj : ClientObject) : outcome unit * MockClient :=
  if bool_decide (GetName obj = "") then (Err (Errorf "patch: object Name should not be empty"), m)
  else if bool_decide (kind (typeString obj) = "ServiceMonitor") && negb (is_some (objects m !! monitorCRD))
  then (Err (Errorf ("no matches for kind " +:+ quoted "ServiceMonitor" +:+ " in version " +:+ quoted "monitoring.coreos.com/v1")), m)
  else mockSave m obj.

(** [Status()], like [List], [Apply], [DeleteAllOf], [SubResource] and the rest *)
Definition mockStatus {A} (m : MockClient) : outcome A * MockClient := (Panic implementMe, m).

(** ** The client behind the requests of the operator *)

Definition typed (k : ReadKind) : Typed k → ClientObject :=
  match k with
  | BackstageKind => CBackstage
  | ConfigMapKind => λ o, CTyped (KConfigMap o)
  | SecretKind => λ o, CTyped (KSecret o)
  | PvcKind => λ o, CTyped (KPvc o)
  | DeploymentKind => λ o, CTyped (KDeployment o)
  | StatefulSetKind => λ o, CTyped (KStatefulSet o)
  | IngressKind => CUnstructured
  end.

(** The client leaves the object it is given as it is. *)
Definition reply {A} (a : A) (r : outcome unit * MockClient) : outcome A * MockClient :=
  (match r.1 with Ok _ => Ok a | Err e => Err e | Panic w => Panic w end, r.2).

Definition perform (m : MockClient) (r : Request) : outcome (Reply r) * MockClient :=
  match r with
  | Get k _ n => (mockGet m n k, m)
  | Update k o => reply o (mockUpdate m (typed k o))
  | Create o => mockCreate m (CTyped o)
  | Patch o => reply (objectType o) (mockPatch m (CTyped o))
  | PatchMonitor sm => mockPatch m (CMonitor sm)
  | PatchUnstructured u => mockPatch m (CUnstructured u)
  | UpdateStatus _ => mockStatus m
  end.

Definition performed (m : MockClient) (h : list Request) : MockClient :=
  foldl (λ m r, (perform m r).2) m h.

(** The server that started with the objects of [m] *)
Definition mockServer (m : MockClient) : APIServer := {| respond h r := (perform (performed m h) r).1 |}.

End client.

(** ** The client as a store *)

Section laws.
Context `{ks : !KubeScheme, js : !ClientJSON}.

(** Every write that succeeds stores the encoded object, every one that fails
    leaves the map. *)
Definition stores (m : MockClient) (obj : ClientObject) (w : outcome unit * MockClient) : Prop :=
  match w.1 with
  | Ok _ => ∃ dat, MarshalClient obj = Ok dat ∧ GetName obj ≠ "" ∧ w.2 = mkMockClient (<[nameKind obj := dat]> (objects m))
  | _ => w.2 = m
  end.

Lemma mockSave_stores m obj : GetName obj ≠ "" → stores m obj (mockSave m obj).
Proof. intros Hn. unfold mockSave, stores. destruct (MarshalClient obj) as [dat|e|w]; simpl; [by exists dat|done..]. Qed.

Lemma mockCreate_stores m obj : stores m obj (mockCreate m obj).
Proof. unfold mockCreate. case_bool_decide; [done|]. case_match; [done|by apply mockSave_stores]. Qed.
Lemma mockUpdate_stores m obj : stores m obj (mockUpdate m obj).
Proof. unfold mockUpdate. case_bool_decide; [done|]. case_match; [by apply mockSave_stores|done]. Qed.
Lemma mockPatch_stores m obj : stores m obj (mockPatch m obj).
Proof. unfold mockPatch. case_bool_decide; [done|]. case_match; [done|by apply mockSave_stores]. Qed.

Lemma nameKind_read k (o : Typed k) : nameKind (typed k o) = mkNameKind (GetName (typed k o)) (kind (readTypeString k)).
Proof. by destruct k. Qed.

(** C35. What is written is what is read: after a create, an update or a patch
    that succeeds, reading the name and kind of the object gives the object, and
    reading anything else gives what it gave before; one that fails changes
    nothing. *)
Theorem mockClient_read_written (m : MockClient) (k : ReadKind) (o : Typed k) write r m' :
  (∀ dat, MarshalClient (typed k o) = Ok dat → UnmarshalInto dat k = Ok o) →
  write ∈ [mockCreate; mockUpdate; mockPatch] →
  write m (typed k o) = (r, m') →
  match r with
  | Ok _ => mockGet m' (GetName (typed k o)) k = Ok o ∧
      ∀ n k', mkNameKind n (kind (readTypeString k')) ≠ nameKind (typed k o) → mockGet m' n k' = mockGet m n k'
  | _ => m' = m
  end.
Proof.
  intros Hjson Hw H.
  assert (stores m (typed k o) (r, m')) as Hs.
  { rewrite <- H. rewrite !elem_of_cons in Hw. destruct Hw as [->|[->|[->|[]%not_elem_of_nil]]];
      [apply mockCreate_stores|apply mockUpdate_stores|apply mockPatch_stores]. }
  unfold stores in Hs. simpl in Hs. destruct r as [[]|e|w]; [|done..].
  destruct Hs as (dat & Hd & Hn & ->). unfold mockGet. rewrite bool_decide_eq_false_2 by done. simpl.
  rewrite nameKind_read, lookup_insert_eq. split; [by apply Hjson|].
  intros n k' Hk. by rewrite lookup_insert_ne by done.
Qed.

(** A named object can be created if there is none of its name and kind, else
    the error says it exists; it can be updated or deleted if there is one, else
    the error says it was not found. *)
Theorem mockClient_presence (m : MockClient) obj dat :
  GetName obj ≠ "" → MarshalClient obj = Ok dat →
  match objects m !! nameKind obj with
  | None => mockCreate m obj = (Ok (), mkMockClient (<[nameKind obj := dat]> (objects m))) ∧
      ∀ write, write ∈ [mockUpdate; mockDelete] → ∃ e, write m obj = (Err e, m) ∧ IsNotFound e = true
  | Some _ => (∃ e, mockCreate m obj = (Err e, m) ∧ IsAlreadyExists e = true) ∧
      mockUpdate m obj = (Ok (), mkMockClient (<[nameKind obj := dat]> (objects m))) ∧
      mockDelete m obj = (Ok (), mkMockClient (delete (nameKind obj) (objects m)))
  end.
Proof.
  intros Hn Hd. destruct (objects m !! nameKind obj) as [v|] eqn:E;
    unfold mockCreate, mockUpdate, mockDelete, mockSave; rewrite bool_decide_eq_false_2, E, Hd by done.
  - split; [by eexists|done].
  - split; [done|]. intros write Hw. rewrite !elem_of_cons in Hw.
    destruct Hw as [->|[->|[]%not_elem_of_nil]]; rewrite ?bool_decide_eq_false_2, ?E by done; by eexists.
Qed.

End laws.

Section server.
Context `{ks : !KubeScheme, js : !ClientJSON}.
Context (m0 : MockClient).
#[local] Instance mock_server : APIServer := mockServer m0.

Lemma performed_snoc h r : performed m0 (h ++ [r]) = (perform (performed m0 h) r).2.
Proof. unfold performed. by rewrite foldl_snoc. Qed.

(** The object a request writes, and what [json.Marshal] makes of it, if it does *)
Definition requestObject (r : Request) : ClientObject :=
  match r with
  | Get k _ n => CTyped (KOther (mkTypeMeta "" (kind (readTypeString k))) emptyMeta true n)
  | Update k o => typed k o
  | Create o | Patch o => CTyped o
  | PatchMonitor sm => CMonitor sm
  | PatchUnstructured u => CUnstructured u
  | UpdateStatus b => CBackstage b
  end.
Definition marshalled (obj : ClientObject) : string := match MarshalClient obj with Ok dat => dat | _ => "" end.

Lemma stores_contents obj w m : stores m obj w → is_Ok w.1 = true →
  objects w.2 = <[nameKind obj := marshalled obj]> (objects m).
Proof. unfold stores. destruct w as [[u|e|c] m']; simpl; try done. intros (dat & Hd & _ & ->) _. unfold marshalled. by rewrite Hd. Qed.

Lemma accepted_Patch h r : is_patch r = true →
  (accepted h r ↔ is_Ok (mockPatch (performed m0 h) (requestObject r)).1 = true) ∧
  (perform (performed m0 h) r).2 = (mockPatch (performed m0 h) (requestObject r)).2.
Proof. unfold accepted. destruct r; simpl; try done; intros _; (split; [|done]); by destruct (mockPatch _ _).1. Qed.

Lemma accepted_Create h o : accepted h (Create o) ↔
  Name (objectMeta o) ≠ "" ∧
  (is_Some (objects (performed m0 h) !! nameKind (CTyped o)) ∨ is_Ok (MarshalClient (CTyped o)) = true).
Proof.
  unfold accepted. simpl. unfold mockCreate. simpl. case_bool_decide as Hn; simpl; [split; [done|by intros []]|].
  destruct (objects _ !! _) eqn:E; simpl; [split; [by eauto|done]|]. unfold mockSave.
  destruct (MarshalClient (CTyped o)) as [d|e|w] eqn:Em; simpl.
  - split; [by eauto|done].
  - rewrite (MarshalClient_error _ _ Em). split; [done|]. intros [_ [[]|]]; done.
  - split; [done|]. intros [_ [[]|]]; done.
Qed.

(** What was patched once can be patched again, unless the definition of the
    ServiceMonitor is gone. *)
Lemma mockPatch_again m m' obj :
  dom (objects m) ⊆ dom (objects m') → is_Ok (mockPatch m obj).1 = true → is_Ok (mockPatch m' obj).1 = true.
Proof.
  intros Hd. unfold mockPatch, mockSave. case_bool_decide; [done|].
  case_bool_decide as Hk; simpl; [|by destruct (MarshalClient _)].
  assert (is_some (objects m !! monitorCRD) = true → is_some (objects m' !! monitorCRD) = true) as Hcrd.
  { intros Hs. assert (monitorCRD ∈ dom (objects m')) as [v ->]%elem_of_dom; [|done].
    apply Hd, elem_of_dom. by destruct (_ !! _). }
  destruct (is_some (objects m !! _)); simpl; [|done]. rewrite Hcrd by done. by destruct (MarshalClient _).
Qed.

#[export] Program Instance mock_store : StoreServer := {|
  stored := string;
  keyOf r := nameKind (requestObject r);
  encoded r := marshalled (requestObject r);
  contents h := objects (performed m0 h)
|}.
Next Obligation. intros h r Hr. simpl. rewrite performed_snoc. by destruct r, Hr. Qed.
Next Obligation.
  intros h r Hr Ha. simpl. rewrite performed_snoc. destruct (accepted_Patch h r Hr) as [Hi ->]. apply Hi in Ha.
  by apply stores_contents; [apply mockPatch_stores|].
Qed.
Next Obligation.
  intros h h' r Hr Hd Ha. apply accepted_Patch in Ha; [|done]. apply accepted_Patch; [done|]. by eapply mockPatch_again.
Qed.
Next Obligation.
  intros h o [Hn Ha]%accepted_Create. simpl. rewrite performed_snoc. simpl. unfold mockCreate. simpl. rewrite bool_decide_eq_false_2 by done.
  destruct (objects _ !! _) eqn:E; [done|]. destruct Ha as [[]|Ha]; [done|].
  unfold mockSave, marshalled. by destruct (MarshalClient (CTyped o)).
Qed.
Next Obligation. intros r r' [|s s' Hs]; [done|]. simpl. unfold nameKind. simpl. by rewrite (sec_Meta_proper _ _ Hs). Qed.
Next Obligation.
  intros h h' o o' Ho [Hn _]%accepted_Create Hs. apply accepted_Create.
  inversion Ho as [|s s' Hss]; subst; [by split; [|left]|]. simpl in *. unfold nameKind in *. simpl in *.
  rewrite <- (sec_Meta_proper _ _ Hss). by split; [|left].
Qed.

End server.

Section witnesses.
#[local] Existing Instances example_init_scheme example_init_os.

(** A codec that keeps the name of an object only, which is all of a ConfigMap
    without data *)
Definition named_configmap (name : string) : ConfigMap := emptyConfigMap <| cm_Meta ::= λ m, m <| Name := name |> |>.
#[local] Program Instance example_json : ClientJSON := {|
  MarshalClient obj := Ok (GetName obj);
  UnmarshalInto dat k :=
    match k return outcome (Typed k) with
    | ConfigMapKind => Ok (named_configmap dat)
    | _ => Err (Errorf "not a ConfigMap")
    end
|}.
Next Obligation. done. Qed.

Lemma mockClient_read_written_witness :
  mockGet (mockPatch NewMockClient (CTyped (KConfigMap (named_configmap "a")))).2 "a" ConfigMapKind = Ok (named_configmap "a").
Proof.
  apply (mockClient_read_written NewMockClient ConfigMapKind (named_configmap "a") mockPatch (Ok ())
    (mockPatch NewMockClient (CTyped (KConfigMap (named_configmap "a")))).2).
  - by intros dat [= <-].
  - do 2 right. by left.
  - by vm_compute.
Defined.

Lemma mockClient_presence_witness :
  mockCreate NewMockClient (CTyped (KConfigMap (named_configmap "a"))) =
    (Ok (), mkMockClient {[mkNameKind "a" "ConfigMap" := "a"]}).
Proof. exact (proj1 (mockClient_presence NewMockClient (CTyped (KConfigMap (named_configmap "a"))) "a" ltac:(done) eq_refl)). Defined.

(** A cluster that has the database Secret from an earlier time *)
Definition example_secret_key : NameKind := mkNameKind "backstage-psql-secret-bs" "Secret".
Definition example_mock : MockClient := mkMockClient {[example_secret_key := "old password"]}.
#[local] Instance example_mock_server : APIServer := mockServer example_mock.
#[local] Instance example_mock_store : StoreServer := mock_store example_mock.

Definition example_applied := applyObjects (GetRuntimeObjects example_run_model) [].
Definition example_keys (c : gmap NameKind string) : list (string * string) :=
  (λ kv, (nk_Kind kv.1, kv.2)) <$> map_to_list c.
Example example_applied_keys : example_keys (objects (performed example_mock (snd example_applied))) =
  [("Secret", "old password"); ("Service", "backstage-bs"); ("Service", "backstage-psql-bs");
   ("StatefulSet", "backstage-psql-bs"); ("Deployment", "backstage-bs")].
Proof. by vm_compute. Qed.

Lemma applyObjects_idempotent_witness :
  ∃ applied' h2, applyObjects (GetRuntimeObjects example_run_model) (snd example_applied) = (Ok applied', h2) ∧
    objects (performed example_mock h2) = objects (performed example_mock (snd example_applied)) ∧
    objects (performed example_mock (snd example_applied)) !! example_secret_key = Some "old password".
Proof.
  assert (is_Ok (fst example_applied) = true) as Hok by (by vm_compute).
  destruct example_applied as [[applied|e|w] h1] eqn:E; [|done..].
  destruct (applyObjects_idempotent example_run_model [] applied h1 E) as [(applied' & h2 & H2 & Hc) [Hkeep _]].
  exists applied', h2. split; [done|]. split; [done|]. apply Hkeep; [by vm_compute|].
  apply lastPatch_None. by vm_compute.
Defined.

End witnesses.

(** ** Two reconciliations against the client *)

Section twice.
#[local] Existing Instances MapOrder_asc Ownership_set Merge2_patch WorkloadYaml_example DynaYaml_lines
  example_init_scheme example_init_flavours example_init_yaml example_init_rand example_init_os
  example_sha example_retries example_nested StatusConditions_set.

(** A codec for the contents of one cluster: every object is stored by its name. *)
#[local] Program Instance example_cluster_json : ClientJSON := {|
  MarshalClient obj := Ok (GetName obj);
  UnmarshalInto dat k :=
    match k return outcome (Typed k) with
    | BackstageKind => Ok example_bs_config
    | ConfigMapKind => Ok example_cfg
    | DeploymentKind => Ok example_deployment
    | _ => Err (Errorf "unexpected kind")
    end
|}.
Next Obligation. done. Qed.

Definition example_cluster : MockClient :=
  mkMockClient {[mkNameKind "bs" "Backstage" := "bs"; mkNameKind "cfg" "ConfigMap" := "cfg"]}.
#[local] Instance example_cluster_server : APIServer := mockServer example_cluster.
#[local] Instance example_cluster_store : StoreServer := mock_store example_cluster.

(** The second run draws other bytes than the first and visits maps the other
    way round. *)
Definition example_first_run := Reconcile Kubernetes "ns" "bs" [].
Definition example_second_run := Reconcile (mo_ := MapOrder_desc) (rnd := example_other_rand) Kubernetes "ns" "bs" (snd example_first_run).

Lemma example_settled h : objects (performed example_cluster h) !! mkNameKind "cfg" "ConfigMap" = Some "cfg" →
  settled_spec h "ns" (λ _, example_cfg) (λ _, emptySecret) (λ _, mkPersistentVolumeClaim (mkTypeMeta "" "") emptyMeta "")
    example_ingress Kubernetes (api.Spec example_bs_config).
Proof.
  intros Hc. split; try done.
  - intros n Hn h' (l & -> & Hl). assert (n = "cfg") as -> by (by vm_compute in Hn; apply list_elem_of_singleton in Hn).
    change (mockGet (performed example_cluster (h ++ l)) "cfg" ConfigMapKind = Ok example_cfg). unfold mockGet.
    change (objects (performed example_cluster (h ++ l))) with (contents (h ++ l)).
    rewrite contents_reads by (eapply Forall_impl; [exact Hl|]; by left).
    change (contents h !! mkNameKind "cfg" (kind (readTypeString ConfigMapKind))) with (objects (performed example_cluster h) !! mkNameKind "cfg" "ConfigMap").
    by rewrite Hc.
  - intros n Hn. vm_compute in Hn. by apply not_elem_of_nil in Hn.
  - intros n h' Hn. vm_compute in Hn. by apply not_elem_of_nil in Hn.
  - intros n Hn. vm_compute in Hn. by apply not_elem_of_nil in Hn.
Qed.

(** Both runs succeed, and the second leaves what the first has made. *)
Lemma Reconcile_steady_witness :
  ∃ h2, example_second_run = (Ok (), h2) ∧
    objects (performed example_cluster h2) = objects (performed example_cluster (snd example_first_run)).
Proof.
  assert (fst example_first_run = Ok ()) as Hok by (by vm_compute).
  unfold example_second_run. destruct example_first_run as [r h1] eqn:E. simpl in Hok. subst r.
  destruct (Reconcile_steady MapOrder_asc MapOrder_desc example_init_rand example_other_rand Kubernetes "ns" "bs" example_bs_config example_bs_config [] h1
    (λ _, example_cfg) (λ _, emptySecret) (λ _, mkPersistentVolumeClaim (mkTypeMeta "" "") emptyMeta "") example_ingress)
    as (h2 & H2 & Hc & _).
  - right. split; [done|]. eexists. split; [by vm_compute|]. split; vm_compute; lia.
  - by vm_compute.
  - exact E.
  - pose proof (f_equal snd E) as E'. simpl in E'. rewrite <- E'. by vm_compute.
  - done.
  - apply example_settled. by vm_compute.
  - apply example_settled. pose proof (f_equal snd E) as E'. simpl in E'. rewrite <- E'. by vm_compute.
  - intros h k. simpl. unfold mockGet. case_bool_decide; [done|]. destruct (_ !! _); [by destruct k|done].
  - done.
  - exists h2. split; [exact H2|exact Hc].
Defined.

End twice.

