(* ===== verification/IntegrationTests.v ===== *)
(** * What the integration tests look at (integration_tests/matchers.go, utils.go)

    The matchers with which the suite inspects the objects of a cluster, and its
    helpers.  The matchers accept exactly what they are named after, one
    excepted: [BeAddedAsArgToContainer] makes the matcher for mounts, so no test
    looks at the arguments. *)

From S2P Require Import Prelude.
From S2P Require Import GoStrings.
From S2P Require Import K8s.
From S2P Require Import Api.
From S2P Require Import Externals.
From S2P Require Import Utils.
From S2P Require Import Pod.
From S2P Require Import Deployable.
From S2P Require Import MetaInfo.
From S2P Require Import PluginConfig.
From S2P Require Import ExternalConfig.
From S2P Require Import ServiceRoute.
From S2P Require Import Client.
From S2P Require Import Reconcile.
From stdpp Require Import options.

(** ** Matchers *)

(** The [interface{}] a test gives to a matcher: a string or something else *)
Inductive Actual :=
  | ActualString (s : string)
  | ActualOther (what : string).

(** [types.GomegaMatcher] *)
Record GomegaMatcher := mkGomegaMatcher {
  Match : Actual → outcome bool;
  FailureMessage : Actual → string;
  NegatedFailureMessage : Actual → string
}.

Record BeMountedToContainerMatcher := mkBeMountedToContainerMatcher { mounted_container : Container }.
Record BeAddedAsVolumeToPodSpecMatcher := mkBeAddedAsVolumeToPodSpecMatcher { volume_podSpec : PodSpec }.
Record BeAddedAsArgToContainerMatcher := mkBeAddedAsArgToContainerMatcher { arg_container : Container }.
Record BeEnvFromForContainerMatcher := mkBeEnvFromForContainerMatcher { envFrom_container : Container }.
Record BeEnvVarForContainerMatcher := mkBeEnvVarForContainerMatcher { envVar_container : Container }.

(** [actual.(string)], with the zero value when it is none *)
Definition actualString (a : Actual) : string := match a with ActualString s => s | ActualOther _ => "" end.

(** The Gomega library: [format.Object] prints a value of any type; what a test
    can expect of a string, and [HaveEach], which expects it of every element *)
Class Gomega := {
  format_Object : Actual → string;
  Expected : Type;
  fits : Expected → string → bool;
  HaveEach : Expected → list string → outcome bool
}.

Definition newline : string := String (Ascii.ascii_of_nat 10) "".

Section matchers.
Context `{gomega : !Gomega}.

(** [if !ok { return false, fmt.Errorf(...) }] and then the loop, which returns
    true at the first element that fits *)
Definition matchString (who : string) (found : string → bool) (a : Actual) : outcome bool :=
  match a with
  | ActualOther _ => Err (Errorf (who +:+ " must be passed string. Got" +:+ newline +:+ format_Object a))
  | ActualString s => Ok (found s)
  end.

Definition Match_BeMountedToContainer (m : BeMountedToContainerMatcher) : Actual → outcome bool :=
  matchString "BeMountedToContainer" (λ mountPath,
    existsb (λ vm, String.eqb (vm_MountPath vm) mountPath) (c_VolumeMounts (mounted_container m))).
Definition Match_BeAddedAsVolumeToPodSpec (m : BeAddedAsVolumeToPodSpecMatcher) : Actual → outcome bool :=
  matchString "BeMountedToContainer" (λ volumeName,
    existsb (λ v, String.eqb (v_Name v) volumeName) (Volumes (volume_podSpec m))).
Definition Match_BeAddedAsArgToContainer (m : BeAddedAsArgToContainerMatcher) : Actual → outcome bool :=
  matchString "BeAddedAsArgToContainer" (λ arg, existsb (λ a, String.eqb arg a) (c_Args (arg_container m))).
Definition Match_BeEnvFromForContainer (m : BeEnvFromForContainerMatcher) : Actual → outcome bool :=
  matchString "BeEnvFromForContainer" (λ objectName,
    existsb (λ ef, match ef with
                   | SecretRef n => String.eqb n objectName
                   | ConfigMapRef n => String.eqb n objectName
                   | OtherFromSource _ => false
                   end) (c_EnvFrom (envFrom_container m))).
Definition Match_BeEnvVarForContainer (m : BeEnvVarForContainerMatcher) : Actual → outcome bool :=
  matchString "BeEnvVarForContainer" (λ objectName,
    existsb (λ ev, String.eqb (ev_Name ev) objectName) (c_Env (envVar_container m))).

Definition asBeMountedToContainer (m : BeMountedToContainerMatcher) : GomegaMatcher :=
  mkGomegaMatcher (Match_BeMountedToContainer m)
    (λ a, "Expected container to contain VolumeMount with mountPath " +:+ actualString a)
    (λ a, "Expected container not to contain VolumeMount with mountPath " +:+ actualString a).
Definition asBeAddedAsVolumeToPodSpec (m : BeAddedAsVolumeToPodSpecMatcher) : GomegaMatcher :=
  mkGomegaMatcher (Match_BeAddedAsVolumeToPodSpec m)
    (λ a, "Expected PodSpec to contain Volume " +:+ actualString a)
    (λ a, "Expected PodSpec not to contain Volume " +:+ actualString a).
Definition asBeAddedAsArgToContainer (m : BeAddedAsArgToContainerMatcher) : GomegaMatcher :=
  mkGomegaMatcher (Match_BeAddedAsArgToContainer m)
    (λ a, "Expected container to contain Arg " +:+ actualString a)
    (λ a, "Expected container not to contain Arg " +:+ actualString a).
Definition asBeEnvFromForContainer (m : BeEnvFromForContainerMatcher) : GomegaMatcher :=
  mkGomegaMatcher (Match_BeEnvFromForContainer m)
    (λ a, "Expected container to contain EnvFrom " +:+ actualString a)
    (λ a, "Expected container not to contain EnvFrom " +:+ actualString a).
Definition asBeEnvVarForContainer (m : BeEnvVarForContainerMatcher) : GomegaMatcher :=
  mkGomegaMatcher (Match_BeEnvVarForContainer m)
    (λ a, "Expected container to contain EnvVar " +:+ actualString a)
    (λ a, "Expected container not to contain EnvVar " +:+ actualString a).

Definition BeMountedToContainer (c : Container) : GomegaMatcher :=
  asBeMountedToContainer (mkBeMountedToContainerMatcher c).
Definition BeAddedAsVolumeToPodSpec (ps : PodSpec) : GomegaMatcher :=
  asBeAddedAsVolumeToPodSpec (mkBeAddedAsVolumeToPodSpecMatcher ps).
Definition BeAddedAsArgToContainer (c : Container) : GomegaMatcher :=
  asBeMountedToContainer (mkBeMountedToContainerMatcher c).
Definition BeEnvFromForContainer (c : Container) : GomegaMatcher :=
  asBeEnvFromForContainer (mkBeEnvFromForContainerMatcher c).
Definition BeEnvVarForContainer (c : Container) : GomegaMatcher :=
  asBeEnvVarForContainer (mkBeEnvVarForContainerMatcher c).

(** *** What they accept *)

Lemma existsb_eqb {A} (key : A → string) s l : existsb (λ x, String.eqb (key x) s) l = true ↔ s ∈ key <$> l.
Proof.
  rewrite existsb_exists, list_elem_of_fmap. setoid_rewrite String.eqb_eq. setoid_rewrite list_elem_of_In. naive_solver.
Qed.

(** The matchers accept a string exactly when it is there. *)
Lemma matchers_accept c ps s :
  (Match (BeMountedToContainer c) (ActualString s) = Ok true ↔ s ∈ vm_MountPath <$> c_VolumeMounts c) ∧
  (Match (BeAddedAsVolumeToPodSpec ps) (ActualString s) = Ok true ↔ s ∈ v_Name <$> Volumes ps) ∧
  (Match (BeEnvFromForContainer c) (ActualString s) = Ok true ↔ ConfigMapRef s ∈ c_EnvFrom c ∨ SecretRef s ∈ c_EnvFrom c) ∧
  (Match (BeEnvVarForContainer c) (ActualString s) = Ok true ↔ s ∈ ev_Name <$> c_Env c).
Proof.
  rewrite <- !existsb_eqb. split_and!; cbn; try (split; [by intros [= ->]|by intros ->]).
  split.
  - intros [= (ef & Hin & Hn)%existsb_exists]. apply list_elem_of_In in Hin.
    destruct ef as [n|n|]; try done; apply String.eqb_eq in Hn as ->; auto.
  - intros H. f_equal. apply existsb_exists.
    destruct H as [H|H]; apply list_elem_of_In in H; (eexists; split; [exact H|]); simpl; apply String.eqb_refl.
Qed.

(** The matcher for arguments does not look at them: it accepts the paths that
    are mounted, whatever the arguments are. *)
Theorem BeAddedAsArgToContainer_mounts c args a :
  Match (BeAddedAsArgToContainer (c <| c_Args := args |>)) a = Match (BeMountedToContainer c) a.
Proof. by destruct c. Qed.

(** A mounted object is one that [BeAddedAsVolumeToPodSpec] finds. *)
Theorem mountFilesFrom_matched f kind name mp fn sub keys p p' :
  mountFilesFrom f kind name mp fn sub keys p = Ok p' →
  Match (BeAddedAsVolumeToPodSpec p') (ActualString (GenerateVolumeNameFromCmOrSecret name)) = Ok true.
Proof.
  intros (rs & Hrs & Hp)%mountFilesFrom_inv. apply (proj1 (proj2 (matchers_accept (mkContainer "" "" [] [] "" [] [] [] "" "") _ _))).
  rewrite Hp. match goal with |- context [storeAll rs ?f ?q] => destruct (storeAll_frame rs f q) as (-> & _) end.
  simpl. rewrite fmap_app. apply elem_of_app. right. by left.
Qed.

End matchers.

(** ** The base URL of an app-config *)

(** [AppConfigData], the part of an app-config the tests read *)
Record CorsData := mkCorsData { Origin : string }.
#[export] Instance CorsData_eq_dec : EqDecision CorsData.
Proof. solve_decision. Defined.
Record BackendData := mkBackendData { bd_BaseUrl : string; Cors : CorsData }.
#[export] Instance BackendData_eq_dec : EqDecision BackendData.
Proof. solve_decision. Defined.
Record AppConfigData := mkAppConfigData { app_BaseUrl : string; Backend : BackendData }.
#[export] Instance AppConfigData_eq_dec : EqDecision AppConfigData.
Proof. solve_decision. Defined.

(** The decoder of the tests, k8s.io/apimachinery/pkg/util/yaml, into the struct *)
Class TestYaml := { DecodeAppConfig : string → outcome AppConfigData }.

Definition readYaml `{ty : !TestYaml} (manifest : string) : outcome AppConfigData :=
  wrapErr "failed to decode YAML" (DecodeAppConfig manifest).

Section base_url.
Context `{gomega : !Gomega, ty : !TestYaml}.

(** The loop over the data, which returns at the first entry that does not fit *)
Fixpoint eachEntry (expected : Expected) (l : list (string * string)) : outcome bool :=
  match l with
  | [] => Ok true
  | (k, v) :: l =>
      appConfig ← wrapErr ("could not parse key " +:+ k +:+ " into an AppConfig struct") (readYaml v);
      result ← HaveEach expected
        [app_BaseUrl appConfig; bd_BaseUrl (Backend appConfig); Origin (Cors (Backend appConfig))];
      if negb result then Ok false else eachEntry expected l
  end.

Definition HaveAppConfigBaseUrl `{mo : !MapOrder} (expected : Expected) (actual : ConfigMap) : outcome bool :=
  eachEntry expected (range (map_make (cm_Data actual))).

(** What the struct holds of a decoded app-config whose URLs are there *)
Definition urlsOf (m : gmap string any) : option AppConfigData :=
  match subMap m "app" !! "baseUrl", subMap m "backend" !! "baseUrl", subMap (subMap m "backend") "cors" !! "origin" with
  | Some (AString a), Some (AString b), Some (AString o) => Some (mkAppConfigData a (mkBackendData b (mkCorsData o)))
  | _, _, _ => None
  end.

Lemma setBaseUrls_urls url m : urlsOf (setBaseUrls url m) = Some (mkAppConfigData url (mkBackendData url (mkCorsData url))).
Proof. unfold urlsOf, setBaseUrls, subMap. by simplify_map_eq. Qed.

Context `{ay : !AppConfigYaml}.
(** The struct decoder reads what the operator's encoder has written. *)
Hypothesis decode_marshalled : ∀ m s d, MarshalAppConfig m = Ok s → urlsOf m = Some d → DecodeAppConfig s = Ok d.
Hypothesis HaveEach_elements : ∀ e x l, HaveEach e (x :: l) = Ok (forallb (fits e) (x :: l)).

(** After the operator has written a base URL into all entries of an app-config,
    the matcher accepts the app-config for whatever the URL fits, and for
    nothing else. *)
Theorem HaveAppConfigBaseUrl_updated `{mo : !MapOrder} url cm data expected :
  map_make (cm_Data cm) ≠ ∅ →
  (∀ k v, map_lookup (cm_Data cm) k = Some v → is_Ok (updateFn url v) = true) →
  updateBaseUrlData url (cm_Data cm) = Ok data →
  HaveAppConfigBaseUrl expected (cm <| cm_Data := data |>) = Ok (fits expected url).
Proof using HaveEach_elements ay decode_marshalled gomega ty.
  intros Hne Hall ->%updateBaseUrlData_fmap. unfold HaveAppConfigBaseUrl. simpl.
  destruct (cm_Data cm) as [d|] eqn:Ed; [|done]. simpl in *.
  assert (∀ k v, (k, v) ∈ range ((λ v, match updateFn url v with Ok u => u | _ => v end) <$> d) →
    ∃ m, MarshalAppConfig (setBaseUrls url m) = Ok v) as Hl.
  { intros k v Hin%elem_of_range. rewrite lookup_fmap in Hin. apply fmap_Some in Hin as (w & Hw & ->).
    specialize (Hall k w Hw). destruct (updateFn url w) as [u|e|c] eqn:Eu; [|done..].
    unfold updateFn in Eu. apply bind_Ok_inv in Eu as (a & _ & Eu). apply wrapErr_Ok_inv in Eu. by eexists. }
  assert (range ((λ v, match updateFn url v with Ok u => u | _ => v end) <$> d) ≠ []) as Hr.
  { rewrite <- length_zero_iff_nil, length_range, map_size_fmap. by apply map_size_non_empty_iff. }
  assert (∀ l, l ≠ [] → (∀ k v, (k, v) ∈ l → ∃ m, MarshalAppConfig (setBaseUrls url m) = Ok v) →
    eachEntry expected l = Ok (fits expected url)) as H; [|by apply H].
  clear -decode_marshalled HaveEach_elements. induction l as [|[k v] l IH]; intros Hn Hl; [done|]. simpl.
  destruct (Hl k v (list_elem_of_here _ _)) as [m Hm]. unfold readYaml.
  rewrite (decode_marshalled _ _ _ Hm (setBaseUrls_urls url m)). simpl. rewrite HaveEach_elements. simpl.
  destruct (fits expected url) eqn:Ef; simpl; [|done]. destruct l as [|e l]; [done|].
  apply IH; [done|]. intros k' v' Hin. apply (Hl k' v'). by right.
Qed.

End base_url.

(** ** Helpers of the suite *)

Section helpers.
Context `{ks : !KubeScheme, os : !OS, srv : !APIServer, ty : !TestYaml}.

(** [Expect(...).To(Not(HaveOccurred()))]: a failed expectation ends the test
    with a panic. *)
Definition expectNoError {A} (m : API A) : API A := λ h,
  match m h with
  | (Err _, h) => (Panic "Expected an error not to have occurred", h)
  | r => r
  end.

Definition generateConfigMap (name namespace : string) (data labels annotations : gomap string) : API string :=
  _ ← expectNoError (call (Create (KConfigMap (mkConfigMap emptyTypeMeta
        (mkObjectMeta name namespace labels annotations []) data None))));
  mret name.

Definition generateSecret (name namespace : string) (data labels annotations : gomap string) : API string :=
  _ ← expectNoError (call (Create (KSecret (mkSecret emptyTypeMeta
        (mkObjectMeta name namespace labels annotations []) None data))));
  mret name.

Definition readTestYamlFile (name : string) : outcome string :=
  match ReadFile (filepath.Join ["testdata"; name]) with
  | Err _ => Panic "Expected an error not to have occurred"
  | r => r
  end.

Definition readYamlFile (path : string) : outcome AppConfigData :=
  let fpath := filepath.Clean path in
  _ ← Stat fpath;
  b ← wrapErr "failed to read YAML file" (ReadFile fpath);
  readYaml b.

Definition backstageContainer (pod : PodSpec) : outcome Container :=
  let cIndex := BackstageContainerIndex pod in
  if bool_decide (cIndex < 0)%Z then Panic "index out of range [-1]"
  else match Containers pod !! Z.to_nat cIndex with
       | Some c => Ok c
       | None => Panic "index out of range"
       end.

(** The pods the server lists for a namespace and labels *)
Definition getBackstagePod (list : string → gmap string string → outcome (list PodSpec)) (ns backstageName : string) :
    outcome PodSpec :=
  items ← list ns {[AppLabel := BackstageAppLabelValue backstageName]};
  match items with
  | [pod] => Ok pod
  | _ => Err (Errorf "expected only one Pod, but have several or none")
  end.

Definition backstageDeployment (namespace backstageName : string) : API Workload := FindDeployment namespace backstageName.

(** The container the tests look at is the one the operator works on. *)
Theorem backstageContainer_loaded p c r :
  backstageContainer p = Ok c → container p = Ok r → load p r = Some c.
Proof.
  unfold backstageContainer, container. case_bool_decide; [done|].
  destruct (_ !! _) as [x|] eqn:E; [|done]. by intros [= <-] [= <-].
Qed.

(** It is the first one named after the backend, and no other error is possible. *)
Theorem backstageContainer_named p c :
  backstageContainer p = Ok c → c_Name c = BackstageContainerName ∧ c ∈ Containers p.
Proof.
  unfold backstageContainer, BackstageContainerIndex. destruct (list_find _ _) as [[i x]|] eqn:E; [|done].
  apply list_find_Some in E as (Hi & Hn & _). rewrite bool_decide_eq_false_2 by lia. rewrite Nat2Z.id, Hi. intros [= <-].
  split; [done|]. by eapply list_elem_of_lookup_2.
Qed.

End helpers.

(** ** An app-config that the operator has updated *)

Section example.
#[local] Existing Instance MapOrder_asc.

(** A codec that keeps one URL, for evaluating the model *)
#[local] Instance example_urls_yaml : AppConfigYaml := {|
  UnmarshalAppConfig s := Ok None;
  MarshalAppConfig m := match urlsOf m with
                        | Some d => if bool_decide (d = mkAppConfigData (app_BaseUrl d) (mkBackendData (app_BaseUrl d) (mkCorsData (app_BaseUrl d))))
                                    then Ok (app_BaseUrl d) else Err (Errorf "yaml")
                        | None => Err (Errorf "yaml")
                        end
|}.
#[local] Instance example_test_yaml : TestYaml := {|
  DecodeAppConfig s := Ok (mkAppConfigData s (mkBackendData s (mkCorsData s)))
|}.
#[local] Instance example_gomega : Gomega := {|
  format_Object a := actualString a;
  Expected := string;
  fits e s := String.eqb e s;
  HaveEach e l := match l with [] => Err (Errorf "empty") | _ => Ok (forallb (String.eqb e) l) end
|}.

Lemma HaveAppConfigBaseUrl_updated_witness :
  HaveAppConfigBaseUrl "https://h" (emptyConfigMap <| cm_Data := Some {["app-config.yaml" := "https://h"]} |>) = Ok true.
Proof.
  refine (HaveAppConfigBaseUrl_updated _ _ "https://h" (emptyConfigMap <| cm_Data := Some {["app-config.yaml" := "title"]} |>)
    (Some {["app-config.yaml" := "https://h"]}) "https://h" _ _ _).
  - intros m s d Hm Hd. simpl in Hm. rewrite Hd in Hm. case_bool_decide as He; [|done]. injection Hm as <-. simpl. by rewrite <- He.
  - done.
  - by vm_compute.
  - intros k v Hk. unfold map_lookup in Hk. simpl in Hk. by apply lookup_singleton_Some in Hk as [<- <-].
  - by vm_compute.
Defined.

End example.
