(* ===== verification/Slices.v ===== *)
(** * Go slices that share their arrays

    A slice is a view of an array: its place in the memory, a length and a
    capacity.  [append] writes behind the last element if the capacity allows,
    which every other view of the array sees, and else copies the elements to a
    new array, whose capacity Go leaves to the implementation. *)

From S2P Require Import Prelude.
From stdpp Require Import options.

Record Slice := mkSlice { sl_array : nat; sl_len : nat; sl_cap : nat }.

(** The capacity of the new array, from the old capacity and the length needed *)
Class Growth := {
  newCap : nat → nat → nat;
  newCap_enough c n : n ≤ newCap c n
}.

(** The gc runtime on arrays of less than 256 pointers *)
Program Definition Growth_double : Growth := {|
  newCap c n := if bool_decide (2 * c < n) then n else 2 * c
|}.
Next Obligation. intros c n. simpl. case_bool_decide; lia. Qed.

Section slices.
Context {A : Type}.

(** The arrays in the order of allocation, as far as they were written *)
Abbreviation Memory := (list (list A)).

Definition elems (h : Memory) (s : Slice) : list A := take (sl_len s) (default [] (h !! sl_array s)).

Definition literal (l : list A) (h : Memory) : Memory * Slice :=
  (h ++ [l], mkSlice (length h) (length l) (length l)).

Definition writeAt (i : nat) (x : A) (l : list A) : list A := take i l ++ x :: drop (S i) l.

Definition append `{gr : !Growth} (h : Memory) (s : Slice) (x : A) : Memory * Slice :=
  if bool_decide (sl_len s < sl_cap s)
  then (alter (writeAt (sl_len s) x) (sl_array s) h, mkSlice (sl_array s) (S (sl_len s)) (sl_cap s))
  else (h ++ [elems h s ++ [x]], mkSlice (length h) (S (sl_len s)) (newCap (sl_cap s) (S (sl_len s)))).

(** A slice of the memory *)
Record slice_wf (h : Memory) (s : Slice) : Prop := {
  wf_array : ∃ l, h !! sl_array s = Some l ∧ sl_len s ≤ length l;
  wf_cap : sl_len s ≤ sl_cap s
}.

Lemma elems_length h s : slice_wf h s → length (elems h s) = sl_len s.
Proof. intros [(l & Hl & Hn) _]. unfold elems. rewrite Hl. simpl. rewrite length_take. lia. Qed.

Lemma elems_app h l s : slice_wf h s → elems (h ++ l) s = elems h s.
Proof. intros [(k & Hk & _) _]. unfold elems. rewrite lookup_app_l; [done|by eapply lookup_lt_Some]. Qed.

Lemma writeAt_take (i : nat) (x : A) (l : list A) : i ≤ length l → take (S i) (writeAt i x l) = take i l ++ [x].
Proof.
  intros Hi. unfold writeAt. assert (length (take i l) = i) as Hn by (rewrite length_take; lia).
  rewrite take_app_ge, Hn by lia. replace (S i - i) with 1 by lia. done.
Qed.

Lemma writeAt_below (i n : nat) (x : A) (l : list A) : n ≤ i → i ≤ length l → take n (writeAt i x l) = take n l.
Proof.
  intros Hn Hi. unfold writeAt. rewrite take_app_le by (rewrite length_take; lia). rewrite take_take. f_equal. lia.
Qed.

(** The slice that [append] returns has the elements of the old one and the
    new one. *)
Lemma append_elems `{gr : !Growth} h s x :
  slice_wf h s → let '(h', s') := append h s x in slice_wf h' s' ∧ elems h' s' = elems h s ++ [x].
Proof.
  intros Hs. pose proof (elems_length _ _ Hs) as Hlen. destruct Hs as [(l & Hl & Hn) Hc].
  unfold append. case_bool_decide as Hcap.
  - assert (alter (writeAt (sl_len s) x) (sl_array s) h !! sl_array s = Some (writeAt (sl_len s) x l)) as Ha
      by (by rewrite list_lookup_alter_eq, Hl).
    split; [split; simpl|]; [|lia|].
    + exists (writeAt (sl_len s) x l). split; [done|]. unfold writeAt. rewrite length_app, length_take. simpl. lia.
    + unfold elems. cbn [sl_len sl_array]. rewrite Ha, Hl. cbn [default from_option]. by apply writeAt_take.
  - assert ((h ++ [elems h s ++ [x]]) !! length h = Some (elems h s ++ [x])) as Ha by by apply list_lookup_middle.
    split; [split; simpl|].
    + exists (elems h s ++ [x]). split; [done|]. rewrite length_app. simpl. lia.
    + apply newCap_enough.
    + unfold elems at 1. cbn [sl_len sl_array]. rewrite Ha. cbn [default from_option].
      apply take_ge. rewrite length_app. simpl. lia.
Qed.

(** Another view keeps its elements unless it reaches behind the place that is
    written, in the same array. *)
Lemma append_others `{gr : !Growth} h s x s2 :
  slice_wf h s → slice_wf h s2 →
  (sl_len s < sl_cap s → sl_array s2 = sl_array s → sl_len s2 ≤ sl_len s) →
  let '(h', _) := append h s x in slice_wf h' s2 ∧ elems h' s2 = elems h s2.
Proof.
  intros [(l & Hl & Hn) Hc] Hs2 Hsep. unfold append. case_bool_decide as Hcap; [specialize (Hsep Hcap)|].
  - destruct Hs2 as [(l2 & Hl2 & Hn2) Hc2]. unfold elems.
    destruct (decide (sl_array s2 = sl_array s)) as [Heq|Hne].
    + rewrite Heq in *. simplify_eq/=. specialize (Hsep eq_refl). split.
      * split; [|done]. rewrite Heq. exists (writeAt (sl_len s) x l). rewrite list_lookup_alter_eq, Hl. split; [done|].
        unfold writeAt. rewrite length_app, length_take, length_cons, length_drop. lia.
      * rewrite list_lookup_alter_eq, Hl. simpl. by apply writeAt_below.
    + rewrite list_lookup_alter_ne by done. split; [|done]. split; [|done]. exists l2. by rewrite list_lookup_alter_ne by done.
  - split; [|by apply elems_app]. destruct Hs2 as [(l2 & Hl2 & Hn2) Hc2]. split; [|done]. exists l2.
    split; [|done]. by apply lookup_app_l_Some.
Qed.

End slices.
Arguments append {A gr} h s x.
