(* ===== verification/Main.v ===== *)
(** * The start of the manager (cmd/main.go, SetupWithManager and addWatchers)

    What the operator's process does before the first reconciliation: it
    detects the platform, chooses the TLS settings, puts together the options
    of the metrics and webhook servers and of the cache, registers the
    controller with its watches, and starts the manager.  The slices of TLS
    options share arrays, so they live in a memory (Slices.v). *)

From S2P Require Import Prelude.
From S2P Require Import GoStrings.
From S2P Require Import K8s.
From S2P Require Import Api.
From S2P Require Import Externals.
From S2P Require Import Utils.
From S2P Require Import Deployable.
From S2P Require Import MetaInfo.
From S2P Require Import ExternalConfig.
From S2P Require Import Runtime.
From S2P Require Import Client.
From S2P Require Import Preprocess.
From S2P Require Import Manager.
From S2P Require Import Slices.
From stdpp Require Import options.

(** ** Flags *)

Record Flags := mkFlags {
  metricsAddr : string;
  probeAddr : string;
  enableLeaderElection : bool;
  secureMetrics : bool;
  enableHTTP2 : bool;
  webhookCertPath : string;
  webhookCertName : string;
  webhookCertKey : string;
  metricsCertPath : string;
  metricsCertName : string;
  metricsCertKey : string;
  enableCacheLabelFilter : bool
}.

(** The values without arguments on the command line *)
Definition defaultFlags `{os : !OS} : Flags :=
  mkFlags "0" ":8081" false true false "" "tls.crt" "tls.key" "" "tls.crt" "tls.key"
    (bool_decide (Getenv "ENABLE_CACHE_LABEL_FILTER" = "true")).

(** ** TLS *)

(** A [certwatcher.CertWatcher] on a certificate and its key *)
Record CertWatcher := mkCertWatcher { cw_Cert : string; cw_Key : string }.

(** [tls.Config], as far as main and the options of its servers set it *)
Record TLSServerConfig := mkTLSServerConfig {
  NextProtos : list string;
  GetCertificate : option CertWatcher;
  MinVersion : Z;
  CipherSuites : list Z
}.
#[export] Instance TLSServerConfig_eta : Eta TLSServerConfig := λ r,
  mkTLSServerConfig (NextProtos r) (GetCertificate r) (MinVersion r) (CipherSuites r).

Abbreviation TLSOpt := (TLSServerConfig → TLSServerConfig).

(** A server applies its options in order. *)
Definition applyOpts (opts : list TLSOpt) (c : TLSServerConfig) : TLSServerConfig := foldl (λ c opt, opt c) c opts.

(** The OpenShift TLS library, the API server's profile and adherence policy,
    and the certificate watchers *)
Class TLSLibrary := {
  TLSProfileSpec : Type;
  TLSAdherencePolicy : Type;
  TLSProfileIntermediate : TLSProfileSpec;
  TLSAdherencePolicyNoOpinion : TLSAdherencePolicy;
  NewClient : outcome unit;
  FetchAPIServerTLSProfile : outcome TLSProfileSpec;
  FetchAPIServerTLSAdherencePolicy : outcome TLSAdherencePolicy;
  NewTLSConfigFromProfile : TLSProfileSpec → TLSOpt * list string;
  NewCertWatcher : string → string → outcome unit
}.

Section tls.
Context `{tls : !TLSLibrary}.

(** [if x, err := fetch(); err != nil { log } else { v = x }] *)
Definition fetched {A} (v : A) (fetch : outcome A) : outcome A :=
  match fetch with
  | Ok x => Ok x
  | Err _ => Ok v
  | Panic w => Panic w
  end.

Definition getTLSProfileConfig (isOpenshift : bool) :
    outcome (TLSProfileSpec * TLSAdherencePolicy * TLSOpt * list string) :=
  '(spec, adherence) ←
    (if isOpenshift then
       match NewClient with
       | Ok _ =>
           spec ← fetched TLSProfileIntermediate FetchAPIServerTLSProfile;
           adherence ← fetched TLSAdherencePolicyNoOpinion FetchAPIServerTLSAdherencePolicy;
           Ok (spec, adherence)
       | Err _ => Ok (TLSProfileIntermediate, TLSAdherencePolicyNoOpinion)
       | Panic w => Panic w
       end
     else Ok (TLSProfileIntermediate, TLSAdherencePolicyNoOpinion));
  let '(tlsConfig, unsupportedCiphers) := NewTLSConfigFromProfile spec in
  Ok (spec, adherence, tlsConfig, unsupportedCiphers).

Definition disableHTTP2 : TLSOpt := λ c, c <| NextProtos := ["http/1.1"] |>.
Definition useCertificate (w : CertWatcher) : TLSOpt := λ c, c <| GetCertificate := Some w |>.

End tls.

(** ** Watches *)

Inductive WatchHandler :=
  | EnqueueForMapFunc  (** [requestByExtConfigLabel] *)
  | EnqueueForOwner.   (** the owning custom resource *)

(** [Watches] and [Owns]: an event reaches the handler if all predicates agree *)
Record Watch := mkWatch {
  w_Kind : string;
  w_Handler : WatchHandler;
  w_Predicates : list (EventType → ObjectMeta → bool)
}.

(** apimachinery's label selectors: those made succeed, and hold of the labels
    that meet every requirement *)
Class LabelSelectors := {
  (** [LabelSelectorAsSelector] with [MatchLabels] *)
  LabelSelectorAsSelector : list (string * string) → outcome (gomap string → bool);
  (** [LabelSelectorPredicate] with one requirement [In] *)
  LabelSelectorPredicate : string → list string → outcome (ObjectMeta → bool);
  LabelSelectorAsSelector_matches l sel labels :
    LabelSelectorAsSelector l = Ok sel → sel labels = forallb (λ kv, LabelIn kv.1 [kv.2] labels) l;
  LabelSelectorPredicate_matches k vs sel m :
    LabelSelectorPredicate k vs = Ok sel → sel m = LabelIn k vs (Labels m)
}.

Section watches.
Context `{os : !OS, ls : !LabelSelectors}.

(** [predicate.Funcs]: a function that is not set agrees *)
Definition Funcs (create update delete : option (ObjectMeta → bool)) (e : EventType) (m : ObjectMeta) : bool :=
  match (match e with CreateEvent => create | UpdateEvent => update | DeleteEvent => delete end) with
  | Some f => f m
  | None => true
  end.

Definition always : ObjectMeta → bool := λ _, true.

Definition addWatchers (b : list Watch) : outcome (list Watch) :=
  b ← (if BoolEnvVar WatchExtConfig true then
         pred ← wrapErr "failed to construct the predicate for matching secrets. This should not happen"
                  (LabelSelectorPredicate ExtConfigSyncLabel ["true"]);
         let preds := [(λ _, pred); Funcs None (Some always) (Some always)] in
         Ok (b ++ [mkWatch "Secret" EnqueueForMapFunc preds; mkWatch "ConfigMap" EnqueueForMapFunc preds])
       else Ok b);
  let commonPreds := [Funcs (Some always) (Some always) (Some always)] in
  Ok (b ++ [mkWatch "Deployment" EnqueueForOwner commonPreds; mkWatch "StatefulSet" EnqueueForOwner commonPreds]).

(** Whether an event on an object of a kind reaches a handler *)
Definition reaches (b : list Watch) (k : string) (hd : WatchHandler → bool) (e : EventType) (m : ObjectMeta) : bool :=
  existsb (λ w, bool_decide (w_Kind w = k) && hd (w_Handler w) && forallb (λ p, p e m) (w_Predicates w)) b.

End watches.

(** ** The manager *)

Record MetricsOptions := mkMetricsOptions {
  BindAddress : string;
  SecureServing : bool;
  MetricsTLSOpts : list TLSOpt;
  (** whether [FilterProvider] authenticates and authorises the callers *)
  FilterProvider : bool
}.

(** [ctrl.Options]; the cache holds the objects of a kind that its selector
    takes, all of a kind without one *)
Record ManagerOptions := mkManagerOptions {
  Metrics : MetricsOptions;
  WebhookTLSOpts : list TLSOpt;
  HealthProbeBindAddress : string;
  LeaderElection : bool;
  LeaderElectionID : string;
  StripManagedFields : bool;
  ByObject : list (string * (gomap string → bool))
}.

(** The context of the process, as whether it is cancelled *)
Definition cancel (cancelled : bool) : bool := true.

(** [tlspkg.SecurityProfileWatcher]: what to start from and what a change does
    to the context *)
Record SecurityProfileWatcher `{tls : !TLSLibrary} := mkSecurityProfileWatcher {
  InitialTLSProfileSpec : TLSProfileSpec;
  InitialTLSAdherencePolicy : TLSAdherencePolicy;
  OnProfileChange : TLSProfileSpec → TLSProfileSpec → bool → bool;
  OnAdherencePolicyChange : TLSAdherencePolicy → TLSAdherencePolicy → bool → bool
}.

Inductive ManagerCall `{tls : !TLSLibrary} :=
  | NewManager (opts : ManagerOptions)
  | CompleteController (name : string) (for_ : string) (watches : list Watch)
  | WatchTLSProfile (w : SecurityProfileWatcher)
  | AddCertWatcher (w : CertWatcher)
  | AddHealthzCheck (name : string)
  | AddReadyzCheck (name : string)
  | Start.

(** The manager library answers a call from those before it. *)
Class ManagerLibrary `{tls : !TLSLibrary} := {
  GetConfigOrDie : outcome unit;
  answer : list ManagerCall → ManagerCall → outcome unit
}.

(** How the process ends: [main] returns, [os.Exit] or a panic *)
Inductive Process (A : Type) :=
  | Running (a : A)
  | Exit (code : Z)
  | Crash (what : string).
Arguments Running {A} a.
Arguments Exit {A} code.
Arguments Crash {A} what.

Definition P `{tls : !TLSLibrary} (A : Type) : Type := list ManagerCall → Process A * list ManagerCall.

Section process.
Context `{tls : !TLSLibrary}.

#[export] Instance P_ret : MRet P := λ A a h, (Running a, h).
#[export] Instance P_bind : MBind P := λ A B f m h,
  match m h with
  | (Running a, h) => f a h
  | (Exit c, h) => (Exit c, h)
  | (Crash w, h) => (Crash w, h)
  end.

(** [if err != nil { ...; os.Exit(1) }] *)
Definition orExit {A} (r : outcome A) : P A := λ h,
  (match r with Ok a => Running a | Err _ => Exit 1 | Panic w => Crash w end, h).

Definition manage `{ml : !ManagerLibrary} (c : ManagerCall) : P unit := λ h,
  (match answer h c with Ok _ => Running () | Err _ => Exit 1 | Panic w => Crash w end, h ++ [c]).

End process.

Section main.
Context `{os : !OS, disc : !Discovery, tls : !TLSLibrary, ls : !LabelSelectors, ml : !ManagerLibrary, gr : !Growth}.

(** The watcher of a certificate, if a path to it is given, and the options
    with it *)
Definition withCertificate (path name key : string) (mem : list (list TLSOpt)) (opts : Slice) :
    P (option CertWatcher * list (list TLSOpt) * Slice) :=
  if bool_decide (path = "") then mret (None, mem, opts)
  else
    let w := mkCertWatcher (filepath.Join [path; name]) (filepath.Join [path; key]) in
    _ ← orExit (NewCertWatcher (cw_Cert w) (cw_Key w));
    let '(mem, opts) := append mem opts (useCertificate w) in
    mret (Some w, mem, opts).

(** [tlsOpts], which both servers start from *)
Definition optsMemory (f : Flags) (tlsConfig : TLSOpt) : list (list TLSOpt) * Slice :=
  let '(mem, tlsOpts) := literal [tlsConfig] [] in
  if negb (enableHTTP2 f) then append mem tlsOpts disableHTTP2 else (mem, tlsOpts).

Definition cacheSelectors (filter : bool) : P (list (string * (gomap string → bool))) :=
  backstageLabelSelector ← orExit (LabelSelectorAsSelector [(BackstageAppLabel, BackstageAppName)]);
  let byObject := [("Deployment", backstageLabelSelector); ("StatefulSet", backstageLabelSelector)] in
  if filter then
    extConfigLabelSelector ← orExit (LabelSelectorAsSelector [(ExternalConfigLabel, "true")]);
    mret (byObject ++ [("Secret", extConfigLabelSelector); ("ConfigMap", extConfigLabelSelector)])
  else mret byObject.

Definition SetupWithManager : P unit :=
  b ← orExit (addWatchers []);
  manage (CompleteController "backstage" "Backstage" b).

Definition addCertWatcher (w : option CertWatcher) : P unit :=
  match w with
  | Some w => manage (AddCertWatcher w)
  | None => mret ()
  end.

Definition setupTLSProfileWatcher (spec : TLSProfileSpec) (adherence : TLSAdherencePolicy) : P unit :=
  manage (WatchTLSProfile (mkSecurityProfileWatcher _ spec adherence (λ _ _, cancel) (λ _ _, cancel))).

(** [main] from [ctrl.NewManager] on *)
Definition startManager (opts : ManagerOptions) (plf : Platform) (spec : TLSProfileSpec) (adherence : TLSAdherencePolicy)
    (metricsCertWatcher webhookCertWatcher : option CertWatcher) : P unit :=
  _ ← manage (NewManager opts);
  _ ← SetupWithManager;
  _ ← (if IsOpenshift plf then setupTLSProfileWatcher spec adherence else mret ());
  _ ← addCertWatcher metricsCertWatcher;
  _ ← addCertWatcher webhookCertWatcher;
  _ ← manage (AddHealthzCheck "healthz");
  _ ← manage (AddReadyzCheck "readyz");
  manage Start.

Definition main (f : Flags) : P unit :=
  _ ← orExit GetConfigOrDie;
  plf ← orExit (match DetectPlatform with (plf, None) => Ok plf | (_, Some err) => Err err end);
  '(spec, adherence, tlsConfig, _) ← orExit (getTLSProfileConfig (IsOpenshift plf));
  let '(mem, tlsOpts) := optsMemory f tlsConfig in
  '(webhookCertWatcher, mem, webhookTLSOpts) ←
    withCertificate (webhookCertPath f) (webhookCertName f) (webhookCertKey f) mem tlsOpts;
  '(metricsCertWatcher, mem, metricsTLSOpts) ←
    withCertificate (metricsCertPath f) (metricsCertName f) (metricsCertKey f) mem tlsOpts;
  byObject ← cacheSelectors (enableCacheLabelFilter f);
  startManager
    (mkManagerOptions
      (mkMetricsOptions (metricsAddr f) (secureMetrics f) (elems mem metricsTLSOpts) (secureMetrics f))
      (elems mem webhookTLSOpts) (probeAddr f) (enableLeaderElection f) "06bdbdd5.rhdh.redhat.com" true byObject)
    plf spec adherence metricsCertWatcher webhookCertWatcher.

End main.

(** ** The start without memory

    The same decisions with plain lists of options: what the manager is given,
    and then the calls of it in order. *)

Section reference.
Context `{os : !OS, disc : !Discovery, tls : !TLSLibrary, ls : !LabelSelectors, ml : !ManagerLibrary}.

Definition certificate (path name key : string) : outcome (option CertWatcher) :=
  if bool_decide (path = "") then Ok None
  else
    _ ← NewCertWatcher (filepath.Join [path; name]) (filepath.Join [path; key]);
    Ok (Some (mkCertWatcher (filepath.Join [path; name]) (filepath.Join [path; key]))).

Definition webhookCertificate (f : Flags) := certificate (webhookCertPath f) (webhookCertName f) (webhookCertKey f).
Definition metricsCertificate (f : Flags) := certificate (metricsCertPath f) (metricsCertName f) (metricsCertKey f).

Definition serverOpts (f : Flags) (tlsConfig : TLSOpt) (w : option CertWatcher) : list TLSOpt :=
  [tlsConfig] ++ (if enableHTTP2 f then [] else [disableHTTP2]) ++ (if w is Some w then [useCertificate w] else []).

Definition selectors (filter : bool) : outcome (list (string * (gomap string → bool))) :=
  backstage ← LabelSelectorAsSelector [(BackstageAppLabel, BackstageAppName)];
  if filter then
    extConfig ← LabelSelectorAsSelector [(ExternalConfigLabel, "true")];
    Ok [("Deployment", backstage); ("StatefulSet", backstage); ("Secret", extConfig); ("ConfigMap", extConfig)]
  else Ok [("Deployment", backstage); ("StatefulSet", backstage)].

(** What is known when the manager is made: its options, the TLS profile to
    watch, if any, and the certificates to watch *)
Record Setup := mkSetup {
  su_Options : ManagerOptions;
  su_Profile : option (TLSProfileSpec * TLSAdherencePolicy);
  su_Certs : list CertWatcher
}.

Definition setup (f : Flags) : outcome Setup :=
  _ ← GetConfigOrDie;
  plf ← match DetectPlatform with (plf, None) => Ok plf | (_, Some err) => Err err end;
  '(spec, adherence, tlsConfig, _) ← getTLSProfileConfig (IsOpenshift plf);
  wc ← webhookCertificate f;
  mc ← metricsCertificate f;
  byObject ← selectors (enableCacheLabelFilter f);
  Ok (mkSetup
    (mkManagerOptions
      (mkMetricsOptions (metricsAddr f) (secureMetrics f) (serverOpts f tlsConfig mc) (secureMetrics f))
      (serverOpts f tlsConfig wc) (probeAddr f) (enableLeaderElection f) "06bdbdd5.rhdh.redhat.com" true byObject)
    (if IsOpenshift plf then Some (spec, adherence) else None)
    (option_list mc ++ option_list wc)).

(** The watch of a TLS profile: any change ends the process. *)
Definition profileWatcher (spec : TLSProfileSpec) (adherence : TLSAdherencePolicy) : SecurityProfileWatcher :=
  mkSecurityProfileWatcher _ spec adherence (λ _ _ _, true) (λ _ _ _, true).

(** The calls after the controller is complete *)
Definition setupCalls (s : Setup) : list ManagerCall :=
  (if su_Profile s is Some (spec, adherence) then [WatchTLSProfile (profileWatcher spec adherence)] else []) ++
  (AddCertWatcher <$> su_Certs s) ++ [AddHealthzCheck "healthz"; AddReadyzCheck "readyz"; Start].

(** Calls one after the other until one fails *)
Fixpoint issue (l : list ManagerCall) : P unit :=
  match l with
  | [] => mret ()
  | c :: l => _ ← manage c; issue l
  end.

Definition run (f : Flags) : P unit :=
  s ← orExit (setup f);
  _ ← issue [NewManager (su_Options s)];
  b ← orExit (addWatchers []);
  issue (CompleteController "backstage" "Backstage" b :: setupCalls s).

(** *** Laws of the two *)

Lemma orExit_bind {A B C} (r : outcome A) (f : A → outcome B) (k : B → P C) h :
  (orExit (r ≫= f) ≫= k) h = (orExit r ≫= λ a, orExit (f a) ≫= k) h.
Proof. by destruct r. Qed.

Lemma orExit_cases {A B} (r : outcome A) (k k' : A → P B) h :
  (∀ a, r = Ok a → k a h = k' a h) → (orExit r ≫= k) h = (orExit r ≫= k') h.
Proof. intros Hk. destruct r; [by apply Hk|done..]. Qed.

Lemma orExit_step {A B C} (r : outcome A) (f : A → outcome B) (k : A → P C) (k' : B → P C) h :
  (∀ a, r = Ok a → k a h = (orExit (f a) ≫= k') h) → (orExit r ≫= k) h = (orExit (r ≫= f) ≫= k') h.
Proof. intros Hk. rewrite orExit_bind. by apply orExit_cases. Qed.

Lemma orExit_Ok {A B} (a : A) (k : A → P B) h : (orExit (Ok a) ≫= k) h = k a h.
Proof. done. Qed.

Lemma P_bind_ext {A B} (m m' : P A) (f g : A → P B) h :
  m h = m' h → (∀ a h, f a h = g a h) → (m ≫= f) h = (m' ≫= g) h.
Proof. intros Hm Hf. unfold mbind, P_bind. rewrite Hm. by destruct (m' h) as [[]]. Qed.

Lemma issue_bind (m k : P unit) l l' h :
  (∀ h, m h = issue l h) → (∀ h, k h = issue l' h) → (m ≫= λ _, k) h = issue (l ++ l') h.
Proof.
  intros Hm Hk. transitivity ((issue l ≫= λ _, k) h); [by apply P_bind_ext|]. clear m Hm.
  revert h. induction l as [|c l IH]; intros h; simpl; [done|].
  unfold mbind, P_bind in *. destruct (manage c h) as [[[]|code|w] h']; simpl; [|done..]. apply IH.
Qed.

Lemma manage_issue c h : manage c h = issue [c] h.
Proof. simpl. unfold mbind, P_bind. by destruct (manage c h) as [[[]|code|w] h']. Qed.

Lemma next_call c k l : (∀ h, k h = issue l h) → ∀ h, (manage c ≫= λ _, k) h = issue (c :: l) h.
Proof. intros Hk h. by apply (issue_bind (manage c) k [c]); [apply manage_issue|]. Qed.

(** The part of main from making the manager on *)
Lemma manager_calls opts plf spec adherence mc wc h :
  startManager opts plf spec adherence mc wc h =
  (_ ← issue [NewManager opts];
   b ← orExit (addWatchers []);
   issue (CompleteController "backstage" "Backstage" b ::
     setupCalls (mkSetup opts (if IsOpenshift plf then Some (spec, adherence) else None) (option_list mc ++ option_list wc)))) h.
Proof.
  apply P_bind_ext; [apply manage_issue|]. intros _ h1. unfold SetupWithManager.
  destruct (addWatchers []) as [b|e|w]; [|done..].
  unfold orExit. cbn -[issue manage].
  revert h1. apply (next_call (CompleteController _ _ _)).
  unfold setupCalls. destruct (IsOpenshift plf), mc, wc; cbn -[issue manage];
    repeat (apply next_call); apply manage_issue.
Qed.

End reference.

(** ** The slices of options *)

Section slices.
Context `{tls : !TLSLibrary, gr : !Growth}.

(** The options both servers start from fill their array. *)
Lemma optsMemory_full f tc : newCap 1 2 = 2 →
  let '(mem, opts) := optsMemory f tc in
  slice_wf mem opts ∧ sl_len opts = sl_cap opts ∧ elems mem opts = serverOpts f tc None.
Proof.
  intros Hg. unfold optsMemory, serverOpts. destruct (enableHTTP2 f); simpl.
  - split; [split; simpl; [by eexists|done]|done].
  - unfold append. simpl. rewrite Hg. split; [split; simpl; [by eexists|done]|done].
Qed.

Definition certOpts (w : option CertWatcher) : list TLSOpt := if w is Some w then [useCertificate w] else [].

Lemma serverOpts_certificate f tc w : serverOpts f tc w = serverOpts f tc None ++ certOpts w.
Proof. unfold serverOpts, certOpts. destruct (enableHTTP2 f), w; by simpl. Qed.

(** The views of a memory keep their elements in the next one. *)
Definition grows (mem mem' : list (list TLSOpt)) : Prop :=
  ∀ s, slice_wf mem s → slice_wf mem' s ∧ elems mem' s = elems mem s.

(** A full slice is copied when the option of a certificate is appended. *)
Lemma withCertificate_step {B} path name key mem opts (k : _ → P B) (k' : _ → P B) h :
  slice_wf mem opts → sl_len opts = sl_cap opts →
  (∀ w mem' opts', grows mem mem' → slice_wf mem' opts' → elems mem' opts' = elems mem opts ++ certOpts w →
    k (w, mem', opts') h = k' w h) →
  (withCertificate path name key mem opts ≫= k) h = (orExit (certificate path name key) ≫= k') h.
Proof.
  intros Hwf Hfull Hk. unfold withCertificate, certificate. case_bool_decide; simpl.
  { apply Hk; [by intros s|done|by rewrite app_nil_r]. }
  destruct (NewCertWatcher _ _) as [[]|e|c]; [|done..]. set (w := mkCertWatcher _ _).
  pose proof (append_elems mem opts (useCertificate w) Hwf) as Hnew.
  assert (∀ s, slice_wf mem s → let '(h', _) := append mem opts (useCertificate w) in slice_wf h' s ∧ elems h' s = elems mem s) as Hold.
  { intros s Hs. apply append_others; [done..|lia]. }
  unfold orExit, mbind, P_bind, mret, P_ret; simpl.
  destruct (append mem opts (useCertificate w)) as [mem' opts']. destruct Hnew as [Hw He]. by apply Hk.
Qed.

End slices.

Section start.
Context `{os : !OS, disc : !Discovery, tls : !TLSLibrary, ls : !LabelSelectors, ml : !ManagerLibrary, gr : !Growth}.

Lemma cacheSelectors_Ok filter h : cacheSelectors filter h = orExit (selectors filter) h.
Proof.
  unfold cacheSelectors, selectors. destruct (LabelSelectorAsSelector [(BackstageAppLabel, _)]); [|done..].
  destruct filter; [|done]. by destruct (LabelSelectorAsSelector _).
Qed.

(** With full slices the servers' options are what plain lists would give. *)
Lemma main_run f h : newCap 1 2 = 2 → main f h = run f h.
Proof.
  intros Hg. unfold main, run, setup.
  apply orExit_step. intros [] _. apply orExit_step. intros plf _. apply orExit_step. intros [[[spec adherence] tc] cs] _.
  pose proof (optsMemory_full f tc Hg) as Ho. destruct (optsMemory f tc) as [mem opts]. destruct Ho as (Hwf & Hfull & Hel).
  rewrite orExit_bind. apply withCertificate_step; [done..|]. intros wc mem1 wopts Hg1 Hw Hwe.
  rewrite orExit_bind. destruct (Hg1 opts Hwf) as [Hwf1 Hel1].
  apply withCertificate_step; [done..|]. intros mc mem2 mopts Hg2 _ Hme. destruct (Hg2 wopts Hw) as [_ Hwe2].
  rewrite Hme, Hwe2, Hwe, Hel1, Hel, <- !serverOpts_certificate.
  rewrite (P_bind_ext _ _ _ _ h (cacheSelectors_Ok _ _) (λ _ _, eq_refl)).
  apply orExit_step. intros byObject _. apply manager_calls.
Qed.

(** ** What the start promises *)

Lemma elem_of_prefix {A} (x : A) p l : p `prefix_of` l → x ∈ p → x ∈ l.
Proof. intros [k ->] Hx. apply elem_of_app. by left. Qed.

Lemma prefix_with_last {A} (x : A) p l : p `prefix_of` l ++ [x] → x ∉ l → x ∈ p → p = l ++ [x].
Proof.
  intros [k Hk] Hl Hp. destruct k as [|y k _] using rev_ind; [by rewrite app_nil_r in Hk|].
  rewrite (assoc_L (++)) in Hk. apply app_inj_tail in Hk as [-> _]. destruct Hl. apply elem_of_app. by left.
Qed.


(** The manager accepts the calls of a list one after the other. *)
Fixpoint answered (h : list ManagerCall) (l : list ManagerCall) : Prop :=
  match l with
  | [] => True
  | c :: l => is_Ok (answer h c) = true ∧ answered (h ++ [c]) l
  end.

(** The end of a process that is not running, and what it issued *)
Definition ended {A} (r : Process A) : Prop := r = Exit 1 ∨ ∃ w, r = Crash w.

Lemma manage_cases c h :
  manage c h = (Running (), h ++ [c]) ∧ is_Ok (answer h c) = true ∨
  ∃ r, manage c h = (r, h ++ [c]) ∧ ended r ∧ is_Ok (answer h c) = false.
Proof.
  unfold manage, ended. destruct (answer h c) as [[]|e|w]; [by left|right..].
  - exists (Exit 1). by repeat split; try left.
  - exists (Crash w). split; [done|]. split; [right; by eexists|done].
Qed.

Lemma issue_cases l h :
  (issue l h = (Running (), h ++ l) ∧ answered h l) ∨
  ∃ p r, issue l h = (r, h ++ p) ∧ ended r ∧ p `prefix_of` l ∧ ¬ answered h l.
Proof.
  revert h. induction l as [|c l IH]; intros h; simpl; [left; by rewrite app_nil_r|].
  unfold mbind, P_bind. destruct (manage_cases c h) as [[-> Ha]|(r & -> & Hr & Ha)].
  - destruct (IH (h ++ [c])) as [[-> Hl]|(p & r & -> & Hr & Hp & Hl)]; rewrite <- (assoc_L (++)); [by left|right].
    exists (c :: p), r. split; [done|]. split; [done|]. split; [by apply prefix_cons|]. by intros [_ ?].
  - right. exists [c], r. rewrite Ha. split; [by destruct Hr as [->|[w ->]]|]. split; [done|]. split; [by apply prefix_cons, prefix_nil|]. by intros [? _].
Qed.

(** The calls of a start whose preparations succeed *)
Definition startCalls (s : Setup) (b : list Watch) : list ManagerCall :=
  [NewManager (su_Options s); CompleteController "backstage" "Backstage" b] ++ setupCalls s.

Lemma run_cases f h :
  (∃ s b, setup f = Ok s ∧ addWatchers [] = Ok b ∧ run f h = issue (startCalls s b) h) ∨
  ((is_Ok (setup f) = false ∨ is_Ok (addWatchers []) = false) ∧
    ∃ r p, run f h = (r, h ++ p) ∧ ended r ∧ (p = [] ∨ ∃ s, setup f = Ok s ∧ p = [NewManager (su_Options s)])).
Proof.
  unfold run. destruct (setup f) as [s|e|w].
  2: { right. split; [by left|]. exists (Exit 1), []. rewrite app_nil_r. split; [done|]. split; by left. }
  2: { right. split; [by left|]. exists (Crash w), []. rewrite app_nil_r. split; [done|]. split; [by right; eexists|by left]. }
  rewrite orExit_Ok. destruct (addWatchers []) as [b|e|w].
  { left. exists s, b. split; [done|]. split; [done|]. by apply (issue_bind _ _ [_]). }
  all: right; (split; [by right|]); unfold mbind, P_bind; simpl; unfold mbind, P_bind;
    destruct (manage_cases (NewManager (su_Options s)) h) as [[-> _]|(r & -> & [->|[w' ->]] & _)]; simpl;
    eexists _, [NewManager (su_Options s)]; (split; [done|]); (split; [|right; by exists s]);
    first [by left|right; by eexists].
Qed.

Lemma startCalls_NewManager s b opts : NewManager opts ∈ startCalls s b → opts = su_Options s.
Proof.
  assert (Forall (λ c, ∀ o, c = NewManager o → o = su_Options s) (startCalls s b)) as Hf.
  { unfold startCalls, setupCalls. constructor; [by intros o [= ->]|]. constructor; [done|].
    apply Forall_app. split; [destruct (su_Profile s) as [[]|]; by repeat constructor|].
    apply Forall_app. split; [by apply Forall_fmap, Forall_true|by repeat constructor]. }
  intros Hin. by apply (proj1 (Forall_forall _ _) Hf _ Hin).
Qed.

Definition beforeStart (s : Setup) (b : list Watch) : list ManagerCall :=
  [NewManager (su_Options s); CompleteController "backstage" "Backstage" b] ++
  (if su_Profile s is Some (spec, adherence) then [WatchTLSProfile (profileWatcher spec adherence)] else []) ++
  (AddCertWatcher <$> su_Certs s) ++ [AddHealthzCheck "healthz"; AddReadyzCheck "readyz"].

Lemma startCalls_Start s b : startCalls s b = beforeStart s b ++ [Start] ∧ Start ∉ beforeStart s b.
Proof.
  unfold startCalls, setupCalls, beforeStart. split.
  { simpl. do 2 f_equal. by rewrite <- !app_assoc. }
  intros Hin. eapply (Forall_forall (.≠ Start)); [|exact Hin|done].
  rewrite !Forall_app. split; [by repeat constructor|].
  split; [destruct (su_Profile s) as [[]|]; by repeat constructor|].
  split; [by apply Forall_fmap, Forall_true|by repeat constructor].
Qed.

(** C15. The process hands the manager what the flags and the cluster ask for, in
    this order: the options, the controller with its watches, the TLS profile to
    watch on OpenShift, where any change ends the process, the certificates to watch, the two health checks, and
    last the start.  It starts the manager only when all preparations succeeded
    and all calls before were accepted, and it stops with exit code 1 (or the
    panic of a library) otherwise.  The slices of options the two servers share
    do not disturb each other, as long as the runtime makes the array of two
    options no longer than two. *)
Theorem main_refines f h :
  newCap 1 2 = 2 →
  ∃ p, (main f h).2 = h ++ p ∧
    ((main f h).1 = Running () ∨ ended (main f h).1) ∧
    (∀ opts, NewManager opts ∈ p → ∃ s, setup f = Ok s ∧ opts = su_Options s) ∧
    (Start ∈ p → ∃ s b, setup f = Ok s ∧ addWatchers [] = Ok b ∧ p = startCalls s b) ∧
    ((main f h).1 = Running () ↔
      ∃ s b, setup f = Ok s ∧ addWatchers [] = Ok b ∧ p = startCalls s b ∧ answered h (startCalls s b)).
Proof.
  intros Hg. rewrite main_run by done.
  destruct (run_cases f h) as [(s & b & Hs & Hb & ->)|(Hno & r & p & -> & Hr & Hp)].
  - destruct (issue_cases (startCalls s b) h) as [[-> Ha]|(p & r & -> & Hr & Hp & Ha)];
      [exists (startCalls s b)|exists p]; (split; [done|]).
    + split; [by left|]. split; [|split].
      * intros opts Hin. exists s. split; [done|]. by eapply startCalls_NewManager.
      * intros _. by exists s, b.
      * split; [intros _; by exists s, b|done].
    + split; [by right|]. split; [|split].
      * intros opts Hin. exists s. split; [done|]. eapply startCalls_NewManager, elem_of_prefix; done.
      * intros Hin. exists s, b. split; [done|]. split; [done|]. destruct (startCalls_Start s b) as [Hl Hn].
        rewrite Hl in *. by eapply prefix_with_last.
      * split; [intros Hrun; simpl in Hrun; subst r; by destruct Hr as [|[]]|].
        intros (s' & b' & Hs' & Hb' & _ & Ha'). rewrite Hs in Hs'. rewrite Hb in Hb'. simplify_eq. by destruct Ha.
  - exists p. split; [done|]. split; [by right|]. split; [|split].
    + intros opts Hin. destruct Hp as [->|(s & Hs & ->)]; [by apply not_elem_of_nil in Hin|].
      apply list_elem_of_singleton in Hin. exists s. split; [done|]. by injection Hin.
    + intros Hin. destruct Hp as [->|(s & Hs & ->)]; [by apply not_elem_of_nil in Hin|]. by apply list_elem_of_singleton in Hin.
    + split; [intros Hrun; simpl in Hrun; subst r; by destruct Hr as [|[]]|].
      intros (s & b & Hs & Hb & _). rewrite Hs, Hb in Hno. by destruct Hno.
Qed.

(** What a server ends up with, from the configuration it starts with *)
Definition served (f : Flags) (tlsConfig : TLSOpt) (path name key : string) (c : TLSServerConfig) : TLSServerConfig :=
  (tlsConfig c) <| NextProtos ::= λ protos, if enableHTTP2 f then protos else ["http/1.1"] |>
    <| GetCertificate ::= λ cert, if bool_decide (path = "") then cert
         else Some (mkCertWatcher (filepath.Join [path; name]) (filepath.Join [path; key])) |>.

Lemma serverOpts_served f tc path name key w c :
  certificate path name key = Ok w → applyOpts (serverOpts f tc w) c = served f tc path name key c.
Proof.
  intros Hw. unfold certificate in Hw. unfold applyOpts, serverOpts, served.
  case_bool_decide; [injection Hw as <-|apply bind_Ok_inv in Hw as (u & _ & Hw); injection Hw as <-];
    destruct (enableHTTP2 f); cbn; by destruct (tc c).
Qed.

(** The profile is that of the cluster where there is one to be read, else the
    intermediate profile; the adherence policy likewise, independently. *)
Lemma getTLSProfileConfig_Ok isOpenshift spec adherence tc cs :
  getTLSProfileConfig isOpenshift = Ok (spec, adherence, tc, cs) →
  NewTLSConfigFromProfile spec = (tc, cs) ∧
  spec = (match isOpenshift, NewClient, FetchAPIServerTLSProfile with
          | true, Ok _, Ok profile => profile | _, _, _ => TLSProfileIntermediate end) ∧
  adherence = (match isOpenshift, NewClient, FetchAPIServerTLSAdherencePolicy with
          | true, Ok _, Ok policy => policy | _, _, _ => TLSAdherencePolicyNoOpinion end).
Proof.
  unfold getTLSProfileConfig, fetched. intros H. apply bind_Ok_inv in H as ([spec' adherence'] & Hs & H).
  destruct (NewTLSConfigFromProfile spec') as [tc' cs'] eqn:En. injection H as <- <- <- <-. split; [done|].
  destruct isOpenshift; [|by injection Hs as <- <-].
  destruct NewClient; [|by injection Hs as <- <-|done].
  destruct FetchAPIServerTLSProfile, FetchAPIServerTLSAdherencePolicy; simpl in Hs; simplify_eq/=; done.
Qed.

(** C16. Whatever the flags, both servers start from the TLS profile that the
    API server of an OpenShift cluster has, and from the intermediate profile on
    any other platform or when that one cannot be read; they speak HTTP/2 only
    if it was asked for, and each serves its own certificate if a path to one
    was given; the metrics endpoint asks its callers for authorisation whenever
    it is served securely.  This takes a runtime that grows an array of one
    option to one of two and no more, as Go does for pointers: with room left,
    the two servers would share the last option. *)
Theorem main_serving f h r p opts :
  newCap 1 2 = 2 →
  main f h = (r, h ++ p) → NewManager opts ∈ p →
  let profile :=
    match IsOpenshift (fst DetectPlatform), NewClient, FetchAPIServerTLSProfile with
    | true, Ok _, Ok profile => profile
    | _, _, _ => TLSProfileIntermediate
    end in
  let tlsConfig := fst (NewTLSConfigFromProfile profile) in
  (∀ c, applyOpts (MetricsTLSOpts (Metrics opts)) c =
     served f tlsConfig (metricsCertPath f) (metricsCertName f) (metricsCertKey f) c) ∧
  (∀ c, applyOpts (WebhookTLSOpts opts) c =
     served f tlsConfig (webhookCertPath f) (webhookCertName f) (webhookCertKey f) c) ∧
  SecureServing (Metrics opts) = secureMetrics f ∧
  FilterProvider (Metrics opts) = SecureServing (Metrics opts).
Proof.
  intros Hg Hm Hin profile tlsConfig. rewrite main_run in Hm by done.
  assert (∃ s, setup f = Ok s ∧ opts = su_Options s) as (s & Hs & ->).
  { destruct (run_cases f h) as [(s & b & Hs & Hb & Hr)|(_ & r' & p' & Hr & _ & Hp)]; rewrite Hr in Hm.
    - exists s. split; [done|]. destruct (issue_cases (startCalls s b) h) as [[Hi _]|(p' & r' & Hi & _ & Hp & _)];
        rewrite Hi in Hm; injection Hm as _ Hm%app_inv_head; subst p; eapply startCalls_NewManager;
        [done|by eapply elem_of_prefix].
    - injection Hm as _ Hm%app_inv_head. subst p. destruct Hp as [->|(s & Hs & ->)]; [by apply not_elem_of_nil in Hin|].
      apply list_elem_of_singleton in Hin. injection Hin as ->. by exists s. }
  unfold setup in Hs. apply bind_Ok_inv in Hs as (u & _ & Hs). apply bind_Ok_inv in Hs as (plf & Hplf & Hs).
  apply bind_Ok_inv in Hs as ([[[spec adherence] tc] cs] & Htls & Hs). apply bind_Ok_inv in Hs as (wc & Hwc & Hs).
  apply bind_Ok_inv in Hs as (mc & Hmc & Hs). apply bind_Ok_inv in Hs as (byObject & _ & Hs). injection Hs as <-.
  assert (plf = fst DetectPlatform) as -> by (destruct DetectPlatform as [plf' [e|]]; [done|by injection Hplf as ->]).
  apply getTLSProfileConfig_Ok in Htls as (Htc & Hspec & _).
  assert (tc = tlsConfig) as -> by (unfold tlsConfig, profile; by rewrite <- Hspec, Htc).
  split_and!; simpl; [intros c; by apply serverOpts_served..|done|done].
Qed.

(** Which objects the cache holds, by the selectors it was given *)
Definition cacheKind (o : KObject) : string :=
  match o with
  | KDeployment _ => "Deployment"
  | KStatefulSet _ => "StatefulSet"
  | KSecret _ => "Secret"
  | KConfigMap _ => "ConfigMap"
  | _ => ""
  end.
Definition held (byObject : list (string * (gomap string → bool))) (o : KObject) : bool :=
  match list_find (λ kv : string * (gomap string → bool), kv.1 = cacheKind o) byObject with
  | Some (_, (_, sel)) => sel (Labels (objectMeta o))
  | None => true
  end.

(** The selectors and watches that main registers are those of Manager.v. *)
Lemma selectors_cached filter byObject o : selectors filter = Ok byObject → held byObject o = cached filter o.
Proof.
  unfold selectors. intros H. apply bind_Ok_inv in H as (backstage & Hb & H).
  assert (∀ labels, backstage labels = LabelIn BackstageAppLabel [BackstageAppName] labels) as Hbs.
  { intros labels. rewrite (LabelSelectorAsSelector_matches _ _ labels Hb). simpl. by rewrite andb_true_r. }
  destruct filter.
  - apply bind_Ok_inv in H as (ext & He & H). injection H as <-.
    assert (∀ labels, ext labels = LabelIn ExternalConfigLabel ["true"] labels) as Hext.
    { intros labels. rewrite (LabelSelectorAsSelector_matches _ _ labels He). simpl. by rewrite andb_true_r. }
    by destruct o; unfold held, cached; simpl; rewrite ?Hbs, ?Hext.
  - injection H as <-. by destruct o; unfold held, cached; simpl; rewrite ?Hbs.
Qed.

(** C17. The watches that are registered are what the rest of the development
    takes them for: an event on a Secret or ConfigMap reaches the mapping to
    custom resources exactly if it is delivered, events on Deployments and
    StatefulSets always reach the owning custom resource, and the cache that main
    configures holds every workload the operator owns, so that none of these
    events is lost. *)
Theorem addWatchers_delivered b e (m : ObjectMeta) filter byObject :
  addWatchers [] = Ok b → selectors filter = Ok byObject →
  (∀ k, k ∈ ["Secret"; "ConfigMap"] →
    reaches b k (λ hd, if hd is EnqueueForMapFunc then true else false) e m = delivered e m) ∧
  (∀ k, k ∈ ["Deployment"; "StatefulSet"] →
    reaches b k (λ hd, if hd is EnqueueForOwner then true else false) e m = true) ∧
  (∀ k hd, k ∉ ["Secret"; "ConfigMap"; "Deployment"; "StatefulSet"] → reaches b k hd e m = false) ∧
  (∀ bs o, owned_by bs (objectMeta o) → cacheKind o ∈ ["Deployment"; "StatefulSet"] → held byObject o = true).
Proof.
  intros Hb Hsel. split; [|split; [|split]].
  4: { intros bs o [_ Ha _ _] Hk. rewrite (selectors_cached _ _ o Hsel).
       destruct o; try (by apply (bool_decide_pack _) in Hk); by apply LabelIn_single. }
  all: unfold addWatchers in Hb; apply bind_Ok_inv in Hb as (l & Hl & Hb); injection Hb as <-;
    unfold delivered; destruct (BoolEnvVar WatchExtConfig true); simpl in Hl;
    [apply bind_Ok_inv in Hl as (pred & Hp%wrapErr_Ok_inv & Hl); pose proof (λ x, LabelSelectorPredicate_matches _ _ _ x Hp) as Hm|];
    injection Hl as <-; unfold extConfigPredicate.
  - intros k Hk. rewrite !elem_of_cons in Hk. destruct Hk as [->|[->|[]%not_elem_of_nil]];
      unfold reaches; simpl; rewrite Hm; by destruct e, (LabelIn _ _ _).
  - intros k Hk. rewrite !elem_of_cons in Hk. by destruct Hk as [->|[->|[]%not_elem_of_nil]].
  - intros k Hk. rewrite !elem_of_cons in Hk. destruct Hk as [->|[->|[]%not_elem_of_nil]]; unfold reaches; simpl; by destruct e.
  - intros k Hk. rewrite !elem_of_cons in Hk. destruct Hk as [->|[->|[]%not_elem_of_nil]]; unfold reaches; simpl; by destruct e.
  - intros k hd Hk. rewrite !not_elem_of_cons in Hk. destruct Hk as (? & ? & ? & ? & _).
    unfold reaches; simpl. by rewrite !bool_decide_eq_false_2 by done.
  - intros k hd Hk. rewrite !not_elem_of_cons in Hk. destruct Hk as (? & ? & ? & ? & _).
    unfold reaches; simpl. by rewrite !bool_decide_eq_false_2 by done.
Qed.

End start.

(** ** Instances *)

Section witnesses.

#[local] Instance example_manager_env : OS := OS_of ∅ ∅ ∅.
#[local] Instance example_openshift : Discovery :=
  {| NewForConfig := inr (); ServerGroups := inr ["apps"; "route.openshift.io"]; KubeSystemLabels := inr None |}.
#[local] Instance example_tls : TLSLibrary := {|
  TLSProfileSpec := Z;
  TLSAdherencePolicy := bool;
  TLSProfileIntermediate := 771%Z;
  TLSAdherencePolicyNoOpinion := false;
  NewClient := Ok ();
  FetchAPIServerTLSProfile := Ok 772%Z;
  FetchAPIServerTLSAdherencePolicy := Err (Errorf "not found");
  NewTLSConfigFromProfile v := (λ c, c <| MinVersion := v |>, []);
  NewCertWatcher _ _ := Ok ()
|}.
#[local] Program Instance example_selectors : LabelSelectors := {|
  LabelSelectorAsSelector l := Ok (λ labels, forallb (λ kv, LabelIn kv.1 [kv.2] labels) l);
  LabelSelectorPredicate k vs := Ok (λ m, LabelIn k vs (Labels m))
|}.
Next Obligation. by intros l sel labels [= <-]. Qed.
Next Obligation. by intros k vs sel m [= <-]. Qed.
#[local] Instance example_manager : ManagerLibrary := {| GetConfigOrDie := Ok (); answer _ _ := Ok () |}.

Definition example_flags : Flags :=
  mkFlags ":8443" ":8081" true true false "/webhook" "tls.crt" "tls.key" "/metrics" "tls.crt" "tls.key" true.
Definition example_servers : TLSServerConfig := mkTLSServerConfig ["h2"] None 0 [].
Definition example_opts (calls : list ManagerCall) : option ManagerOptions :=
  match calls with NewManager opts :: _ => Some opts | _ => None end.

Lemma main_refines_witness (gr := Growth_double) :
  ∃ s b, addWatchers [] = Ok b ∧ main example_flags [] = (Running (), startCalls s b).
Proof.
  destruct (main_refines example_flags [] ltac:(by vm_compute)) as (p & Hp & _ & _ & _ & Hr).
  destruct (main example_flags []) as [r h] eqn:E. simpl in *. subst h.
  assert (r = Running ()) as -> by (by vm_compute in E; injection E).
  destruct (proj1 Hr eq_refl) as (s & b & _ & Hb & -> & _). by exists s, b.
Defined.

Lemma main_serving_witness (gr := Growth_double) :
  ∃ opts, (example_opts (snd (main example_flags []))) = Some opts ∧
    applyOpts (WebhookTLSOpts opts) example_servers =
      mkTLSServerConfig ["http/1.1"] (Some (mkCertWatcher "/webhook/tls.crt" "/webhook/tls.key")) 772 [].
Proof.
  destruct (main example_flags []) as [r h] eqn:E. destruct (example_opts h) as [opts|] eqn:Eo; [|by vm_compute in E; injection E as _ <-].
  exists opts. split; [done|].
  destruct (main_serving example_flags [] r h opts ltac:(by vm_compute) E) as (_ & Hw & _).
  { destruct h as [|[] h]; try done. injection Eo as ->. by left. }
  rewrite Hw. by vm_compute.
Defined.

Lemma addWatchers_delivered_witness :
  ∃ b, addWatchers [] = Ok b ∧
    reaches b "Secret" (λ hd, if hd is EnqueueForMapFunc then true else false) UpdateEvent
      (mkObjectMeta "s" "ns" (Some {[ExtConfigSyncLabel := "true"]}) None []) = true.
Proof.
  destruct (addWatchers []) as [b|e|w] eqn:E; [|by vm_compute in E..]. exists b. split; [done|].
  destruct (selectors true) as [sel|e|w] eqn:Es; [|by vm_compute in Es..].
  destruct (addWatchers_delivered b UpdateEvent (mkObjectMeta "s" "ns" (Some {[ExtConfigSyncLabel := "true"]}) None [])
    true sel E Es) as [H _]. rewrite H by (by left). by vm_compute.
Defined.

(** A runtime that gives every new array room for four options *)
Program Definition Growth_four : Growth := {| newCap c n := n `max` 4 |}.
Next Obligation. intros c n. simpl. lia. Qed.

(** The condition on the runtime is needed: where [append] leaves room in the
    array the two servers share, the option of the metrics certificate is
    written over that of the webhook certificate. *)
Theorem main_shared_array (gr := Growth_four) :
  ∃ opts, example_opts (snd (main example_flags [])) = Some opts ∧
    GetCertificate (applyOpts (WebhookTLSOpts opts) example_servers) =
      Some (mkCertWatcher "/metrics/tls.crt" "/metrics/tls.key").
Proof.
  destruct (example_opts (snd (main example_flags []))) as [opts|] eqn:E; vm_compute in E; [|done].
  exists opts. split; [done|]. injection E as <-. by vm_compute.
Qed.

End witnesses.
